(* ===== verification/_CoqProject ===== *)
-Q . S2P
Prelude.v
RustStr.v
Float64.v
Json.v
Http.v
Billing.v
Types.v
Middleware.v
Resilience.v
Storage.v
Router.v
Quota.v
Bridge.v
Compress.v
Report.v
Cost.v
Auth.v
Server.v
Testing.v
Sqlite.v
Seed.v
Probe.v
AdminAuth.v
Admin.v
AdminAnswers.v
Main.v
System.v
Flows.v
Serving.v
Ledger.v
JsonReader.v
Serde.v
Auditing.v
Sha256.v
SeedFiles.v
AdminWire.v
UnitTests.v
BillingTests.v
RouterTests.v
CoreTests.v
ResilienceTests.v
CostTests.v
BridgeTests.v
ServerTests.v
SqliteTests.v
AdminTests.v
EndToEndTests.v
