(* ===== verification/Prelude.v ===== *)
(** * Verification of agent-proxy-rust

    agent-proxy-rust is an HTTP proxy between AI coding agents and the
    providers of language models.  A request of an agent is authenticated,
    checked, sent through a chain of middlewares that choose a provider channel
    and adapt the request to it, forwarded, and its answer is sent back through
    the same chain in reverse; what it cost is recorded.

    ** Files

    - [Prelude], [RustStr], [Float64], [Http]: results, machine integers,
      stable sorting; Rust strings as UTF-8 bytes; IEEE 754 doubles with their
      rounding; header maps as the sequence of their pairs.
    - [Json]: [serde_json] as a type class [SerdeJson] with its documented
      behaviour [SerdeJsonLaws], and one concrete instance for the examples.
    - [Billing] (crates/model-router/src/types.rs): prices, billing, monthly
      quota counters, channel health with its cooldowns.
    - [Types] (crates/core/src/types.rs, error.rs, compression.rs,
      extensions.rs): API formats, agent detection, requests, responses, errors
      with their HTTP responses, the connection context.
    - [Middleware] (crates/core/src/middleware.rs): the middleware interface in
      a state-and-error monad [M W], both chains, model aliases.
    - [Resilience] (crates/resilience): modules [Retry], [RateLimiter] and
      [CircuitBreaker].
    - [Storage] (crates/storage): rows, errors and the [Storage] trait as a type
      class; [Router] and [Cost] are clients of it.  [StorageLaws] is what a
      backend promises about channels; the flows rely on nothing else.
    - [Router] (crates/model-router/src/lib.rs): loading and reloading of
      channels, selection, protocol resolution, both hooks.
    - [Quota]: blocking monthly quotas on the router under concurrent requests, a
      step relation on the router and the requests that are on their way.
    - [Bridge] (crates/bridge): protocol conversion; [llm_bridge_core]'s
      transforms are a class with their documented laws.
    - [Compress] (crates/compress): schema and response compression and the
      token estimate; [tokenless_schema]'s compressors are a class.
    - [Report] (crates/core/src/report.rs): the incremental reader of the
      session reports with its byte cursors.
    - [Cost] (crates/cost): usage extraction, prices, cost records.
    - [Auth] (crates/core/src/auth.rs, config.rs): configuration and the
      authentication layer.
    - [Server] (crates/core/src/server.rs): builder, start ([serve], which runs
      the [on_init] hooks, and [into_router], which does not), router, dispatch
      handler, forwarding, response handlers, usage of event streams.
    - [Testing] (crates/core/src/testing.rs): the sample requests, contexts and
      channels, and that the engine accepts and forwards them.
    - [Sqlite] (crates/storage-sqlite/src/lib.rs and migrations): the database
      as tables of rows with the schema's constraints, both migrations and
      every query and statement; [sqlite_storage] is its instance of [Storage],
      [sqlite_laws] its proof of [StorageLaws].
    - [Seed] (crates/storage-sqlite/src/seed.rs): embedded and remote seed data,
      statement by statement; [sqlite_seed_manager] implements [SeedManager].
    - [Probe], [AdminAuth], [Admin] (apps/server/src/health_probe.rs,
      admin_auth.rs, admin.rs): health probes, the admin key and its check,
      every handler of the admin API, its route table and its layers.  The
      handlers run on the state they share with the proxy, against the
      interfaces [Storage] and [SeedManager].
    - [Main] (apps/server/src/main.rs): start-up, the order of the middlewares,
      the merged service, and the [World] all requests share.
    - [System]: the atomic steps of the running server, that serving a request is
      a sequence of them, and the invariant of all of them.
    - [Flows]: properties that cross components, from the admin API or the
      database to what the upstream or the client sees.
    - [AdminAnswers], [Serving]: when a request is answered at all, and what the
      answer of the proxy costs.  [StorageReturns], [SeedReturns] and
      [LlmBridgeReturns] say of a component that its calls return; the first two
      are proved of the database.  [Serving] composes the lemmas of the
      components ([compress_request_keeps], [alias_request_inv],
      [router_on_request_inv], [bridge_request_ctx] and the [_total] lemmas) into
      the entry each request has in the books ([handler_books]); [Ledger] keeps
      them over sequences of requests to the proxy and the admin API.
    - [JsonReader], [Serde]: an executable reader of JSON texts, and the
      serialisers and deserialisers serde derives for prices, billing and
      protocol entries, as functions on JSON values; they are instances of the
      classes [PricingCodec] and [ColumnCodec] the components rely on.
    - [Auditing]: what the rows of the cost table tell by themselves.
    - [Sha256], [SeedFiles] (crates/storage-sqlite/seed and the types of
      seed.rs): the embedded seed files as they are, their deserialisers, and
      the server that starts on them.
    - [AdminWire] (the serde attributes of admin.rs and of the rows it sends):
      bodies and queries of the admin API as extractors over axum's part of
      them, replies as documents.
    - [UnitTests] and [BillingTests], [RouterTests], [CoreTests],
      [ResilienceTests], [CostTests], [BridgeTests], [ServerTests],
      [SqliteTests], [AdminTests]: the repository's own unit tests, translated
      assertion by assertion and evaluated on the model.
    - [EndToEndTests] (tests/): the whole server as a program that is run, from
      its embedded files and JSON texts to the upstream's requests and back.

    ** Correspondence

    A definition has the name of the Rust item it models; where two items of
    one file share a name, or Rocq reserves it, it has a prefix
    ([router_on_request], [ChannelState_new], [config_has_auth]).  [Res E A] is
    [Result], with an extra outcome [Panic] for an unwinding panic.  A unsigned
    integer is a [Z] whose arithmetic wraps where the release build wraps and
    saturates where the code saturates; [usize] is 64 bits wide.  An [f64] is
    the standard library's [spec_float] at binary64, rounding to nearest even.
    [Instant]s and [Duration]s are nanoseconds; the clock is an argument of
    each hook.  A [HashMap] or [DashMap] is a [gmap]; where the code iterates
    over one, the order is an argument or that of [map_to_list]; no theorem
    depends on it.
    Code that threads state and errors is in the monad [ST] of the prelude: a
    hook on its middleware's state, a database operation on the tables, a
    handler on the admin API's state.  An early return keeps the state written
    so far; [st_keeps R m] says that [m] only moves along [R].  Each hook, each
    call of the storage and each update of a shared map is one atomic step.  Library code and the
    outside (JSON, protocol transforms, compressors, HTTP client, clock, files,
    environment) are parameters.

    ** Theorems

    - The whole server: [System.system_invariant] (over every interleaving of
      proxy and admin requests), [Flows.routing_follows_storage],
      [Flows.retired_channel_unused], [Flows.new_key_reaches_upstream] (also
      after a restart), [Flows.forced_protocol_checked],
      [Flows.unset_alias_rejected]; [Serving.every_request_answered] (every request to
      the proxy and the admin API is answered, but for two panics),
      [Ledger.books_are_kept] (over any sequence of requests, the table of costs
      and its reports are those of the entries), [SeedFiles.fresh_server_complete].
    - Routing: [Router.select_channel_refines] (a specification of the choice
      that selection refines), [Router.router_on_request_correct],
      [Router.service_recovers], [Router.router_from_storage_correct],
      [Router.resolved_protocol_has_url], [Router.cooldown_respected],
      [Router.quota_is_exact], [Quota.quota_overshoot_bounded]; deviations from the documented behaviour are
      [Router.exhausted_quota_bypassed], [Router.health_marks_miss_channel] and
      [Router.stale_quota_blocks].
    - Engine: [Server.upstream_called_once], [Server.upstream_headers_policy],
      [Server.client_headers_policy], [Server.request_admission],
      [Server.router_gate], [Server.cost_recording_transparent],
      [Server.sse_usage_settled], [Auth.auth_decision],
      [Middleware.chain_order], [Middleware.alias_rewrites_model].
    - Database: [Seed.database_invariant] over every sequence of operations and
      seedings, [Sqlite.upsert_channel_get], [Sqlite.delete_channel_cascades],
      [Sqlite.health_follows_failures], [Sqlite.cost_pages],
      [Sqlite.aggregates_partition], [Sqlite.prune_exact],
      [Sqlite.migrate_seeds_aliases]; [Seed.refresh_verified],
      [Seed.refresh_converges], [Seed.seeding_keeps_settings],
      [Seed.seed_init_idempotent]; [Seed.deleted_channel_blocks_refresh] is a
      case that never converges.
    - Administration: [AdminAuth.admin_gate], [Admin.mutations_take_effect],
      [Admin.key_update_effect], [Admin.time_range_days],
      [Probe.find_cheapest_model_correct].
    - Resilience: the circuit breaker's invariant, threshold and cooldown
      cycle, the token bucket's burst, the retry delay.
    - Adaptation: [Bridge.bridge_converts], [Bridge.bridge_transparent],
      [Bridge.bridge_stream_items], [Bridge.chat_to_responses_misrouted];
      [Compress.compress_request_effect] (with its panic),
      [Compress.compress_response_effect], [Compress.count_estimate].
    - Accounting: [Auditing.rows_are_auditable] (the price formula survives the
      database and the record, and the row's cost can be computed again),
      [Cost.usage_extracted], [Cost.cost_nonneg], [Cost.record_fits_columns],
      [Cost.tier_selection], [Cost.savings_double_counted], [Cost.free_chars_nan];
      [Report.report_counted_once], [Report.partial_line_lost].
    - Conformance: each [*Tests] file ends with an example, by evaluation, that
      all its tests pass; [AdminWire.wire_extractors_return] discharges what
      [Serving] asks of the extractors, [AdminWire.model_mapping_roundtrip] and
      [Serde.channel_roundtrip] say that what is sent can be sent back, and
      [AdminWire.prune_field_ignored], [AdminWire.aggregate_names] and
      [AdminWire.update_channel_keeps_forced] are deviations from the documents.

    Where the repository's documents say something else than the code does, a
    theorem states what the code does, and its comment the difference: the headers
    that are forwarded ([Server.upstream_headers_policy]), the checks of a request
    ([Server.request_admission]), the cooldowns ([Router.cooldown_respected]) and
    the counts of the seeded rows ([SeedFiles.fresh_server_complete]).

    ** Fuel and bounds

    The UTF-8 scanner, the white-space scanners and the decimal printer of
    [RustStr] take fuel: the length of the string for the scanners, each step
    of which consumes a byte, and 40 digits for numbers below 2^64.  The JSON
    reader takes twice the length of the text: each of its steps consumes a
    byte or goes one level down into a value that consumes one.  It and
    [Sha256.hex], whose rounds are counted, are used on concrete texts, where
    they are evaluated.  Every other recursion is structural.

    ** Not modelled

    Logging, the exception collector, the binding of sockets, timeouts inside
    the HTTP clients, the connection pool but for its failure, the debug log
    files and [Debug] output.  Of the unit tests those are left out that read
    SQLite's catalogue, [Debug] output, or values of foreign types in the
    context, the one on the content type of an error response and the one on a
    converted event stream.  The hooks [on_connect],
    [on_disconnect] and [on_shutdown] have no implementation but the empty
    default and no caller.  SQLite's own behaviour is
    modelled as far as the statements of the code use it; its transactions are
    not, as the code opens none: a sequence of statements that fails half-way
    keeps what was written.  The answers of axum's CORS and limit layers and its
    part of the extractors are parameters; the theorems on the admin API hold for
    any extractors and any serialisation of replies.  [serde_json]'s
    own reader and printer and the SHA-256 library are parameters too: of the
    reader, theorems about the embedded files assume that it reads what the
    grammar of RFC 8259 says ([reads_grammar]). *)

From stdpp Require Export base list gmap strings.
From Stdlib Require Export ZArith Lia Sorted.

(** Outcomes of fallible code: [Ok] and [Err] are the two constructors of
    Rust's [Result]; [Panic] is an unwinding panic (an [unwrap]/[expect], an
    out-of-range slice), which no caller in the program catches. *)
Inductive Res (E A : Type) : Type :=
| Ok (a : A)
| Err (e : E)
| Panic.
Arguments Ok {E A} a.
Arguments Err {E A} e.
Arguments Panic {E A}.

Definition is_ok {E A} (r : Res E A) : bool :=
  match r with Ok _ => true | _ => false end.

Definition res_of_option {E A} (e : E) (o : option A) : Res E A :=
  match o with Some a => Ok a | None => Err e end.

Definition map_err {E F A} (f : E -> F) (r : Res E A) : Res F A :=
  match r with Ok a => Ok a | Err e => Err (f e) | Panic => Panic end.

#[export] Instance res_ret E : MRet (Res E) := fun A a => @Ok E A a.
#[export] Instance res_bind E : MBind (Res E) := fun A B f r =>
  match r with Ok a => f a | Err e => Err e | Panic => Panic end.
#[export] Instance res_fmap E : FMap (Res E) := fun A B f r =>
  match r with Ok a => Ok (f a) | Err e => Err e | Panic => Panic end.

#[export] Instance res_eq_dec E A `{EqDecision E, EqDecision A} : EqDecision (Res E A).
Proof. solve_decision. Defined.

#[local] Ltac by_cases_res :=
  split;
  [ intros; simplify_eq; eauto
  | intros; repeat match goal with
    | H : _ \/ _ |- _ => destruct H
    | H : exists _, _ |- _ => destruct H
    | H : _ /\ _ |- _ => destruct H
    end; simplify_eq; eauto ].

Lemma res_bind_Ok {E A B} (f : A -> Res E B) (r : Res E A) b :
  (r ≫= f) = Ok b <-> exists a, r = Ok a /\ f a = Ok b.
Proof. destruct r; simpl; by_cases_res. Qed.

Lemma res_bind_Err {E A B} (f : A -> Res E B) (r : Res E A) e :
  (r ≫= f) = Err e <-> r = Err e \/ exists a, r = Ok a /\ f a = Err e.
Proof. destruct r; simpl; by_cases_res. Qed.

Lemma res_bind_assoc {E A B C} (f : A -> Res E B) (g : B -> Res E C) (r : Res E A) :
  ((r ≫= f) ≫= g) = (r ≫= fun a => f a ≫= g).
Proof. by destruct r. Qed.

Lemma map_err_Ok {E F A} (f : E -> F) (r : Res E A) a : map_err f r = Ok a <-> r = Ok a.
Proof. destruct r; simpl; by_cases_res. Qed.

Lemma res_of_option_Ok {E A} (e : E) (o : option A) a :
  res_of_option e o = Ok a <-> o = Some a.
Proof. destruct o; simpl; by_cases_res. Qed.

(** The [?] operator in hypotheses: split every successful bind. *)
Ltac inv_res :=
  repeat match goal with
  | H : (_ ≫= _) = Ok _ |- _ =>
      apply res_bind_Ok in H; destruct H as (? & ? & H)
  | H : map_err _ _ = Ok _ |- _ => apply map_err_Ok in H
  | H : res_of_option _ _ = Ok _ |- _ => apply res_of_option_Ok in H
  | H : mret _ = Ok _ |- _ => unfold mret, res_ret in H
  | H : Ok _ = Ok _ |- _ => injection H as H; try subst
  | H : Err _ = Ok _ |- _ => discriminate H
  | H : Ok _ = Err _ |- _ => discriminate H
  | H : Panic = Ok _ |- _ => discriminate H
  end.

(** Case analysis on every [if]/[match] scrutinee of goal and hypotheses,
    closing the contradictory branches. *)
Ltac split_cases :=
  repeat (case_match; simplify_eq/=; try done).

Create HintDb proxy discriminated.
Create Rewrite HintDb wrap.

(** ** Machine integers *)

Section Integers.
Local Open Scope Z_scope.

Definition u32_max : Z := 2 ^ 32 - 1.
Definition u64_max : Z := 2 ^ 64 - 1.
Definition i64_max : Z := 2 ^ 63 - 1.

(** Arithmetic of the release profile: the workspace sets no
    [overflow-checks], so [+] and [pow] wrap. *)
Definition wrap_u8 (z : Z) : Z := z mod 2 ^ 8.
Definition wrap_u32 (z : Z) : Z := z mod 2 ^ 32.
Definition wrap_u64 (z : Z) : Z := z mod 2 ^ 64.
Definition saturating_sub (a b : Z) : Z := Z.max 0 (a - b).

(** [x as i64] for a [u64]. *)
Definition u64_as_i64 (z : Z) : Z := if z <? 2 ^ 63 then z else z - 2 ^ 64.

Definition in_u32 (z : Z) : Prop := 0 <= z <= u32_max.
Definition in_u64 (z : Z) : Prop := 0 <= z <= u64_max.

Lemma wrap_u64_small z : in_u64 z -> wrap_u64 z = z.
Proof. unfold in_u64, u64_max, wrap_u64. intros. apply Z.mod_small. lia. Qed.

Lemma wrap_u32_small z : in_u32 z -> wrap_u32 z = z.
Proof. unfold in_u32, u32_max, wrap_u32. intros. apply Z.mod_small. lia. Qed.

Lemma wrap_u64_range z : in_u64 (wrap_u64 z).
Proof. unfold in_u64, u64_max, wrap_u64. pose proof (Z.mod_pos_bound z (2 ^ 64)). lia. Qed.

Lemma wrap_u32_range z : in_u32 (wrap_u32 z).
Proof. unfold in_u32, u32_max, wrap_u32. pose proof (Z.mod_pos_bound z (2 ^ 32)). lia. Qed.

Lemma wrap_u64_add_l a b : wrap_u64 (wrap_u64 a + b) = wrap_u64 (a + b).
Proof. unfold wrap_u64. apply Z.add_mod_idemp_l. lia. Qed.

Lemma wrap_u64_add_r a b : wrap_u64 (a + wrap_u64 b) = wrap_u64 (a + b).
Proof. unfold wrap_u64. apply Z.add_mod_idemp_r. lia. Qed.

Lemma u64_as_i64_small z : 0 <= z <= i64_max -> u64_as_i64 z = z.
Proof. unfold i64_max, u64_as_i64. intros. destruct (Z.ltb_spec z (2 ^ 63)); lia. Qed.

Definition in_i64 (z : Z) : Prop := - 2 ^ 63 <= z <= i64_max.

Lemma u64_as_i64_range z : in_u64 z -> in_i64 (u64_as_i64 z).
Proof.
  unfold in_u64, in_i64, u64_max, i64_max, u64_as_i64. destruct (Z.ltb_spec z (2 ^ 63)); lia.
Qed.

(** The cast keeps the bits. *)
Lemma wrap_u64_as_i64 z : wrap_u64 (u64_as_i64 z) = wrap_u64 z.
Proof.
  unfold wrap_u64, u64_as_i64. destruct (z <? 2 ^ 63); [done|].
  rewrite <-(Z_mod_plus_full z (-1)). by f_equal.
Qed.

Lemma wrap_u64_idem z : wrap_u64 (wrap_u64 z) = wrap_u64 z.
Proof. unfold wrap_u64. apply Zmod_mod. Qed.

Lemma wrap_u64_as_i64_add a b : wrap_u64 (u64_as_i64 a + u64_as_i64 b) = wrap_u64 (a + b).
Proof.
  rewrite <-wrap_u64_add_l, <-wrap_u64_add_r, !wrap_u64_as_i64.
  by rewrite wrap_u64_add_l, wrap_u64_add_r.
Qed.
End Integers.

#[export] Hint Rewrite wrap_u64_add_l wrap_u64_add_r : wrap.
#[export] Hint Resolve wrap_u64_range wrap_u32_range : proxy.

(** ** Lists *)

(** Rust's stable [sort_by_key(|x| Reverse(key(x)))]: descending by [key],
    equal keys keep their order. *)
Section StableSort.
Local Open Scope Z_scope.
Context {A : Type} (key : A -> Z).

Fixpoint insert_desc (x : A) (l : list A) : list A :=
  match l with
  | [] => [x]
  | y :: l' => if key y <=? key x then x :: y :: l' else y :: insert_desc x l'
  end.

Fixpoint sort_desc (l : list A) : list A :=
  match l with
  | [] => []
  | x :: l' => insert_desc x (sort_desc l')
  end.

Lemma insert_desc_perm x l : insert_desc x l ≡ₚ x :: l.
Proof.
  induction l as [|y l IH]; [done|]. simpl. destruct (_ <=? _); [done|].
  rewrite IH. constructor.
Qed.

Lemma sort_desc_perm l : sort_desc l ≡ₚ l.
Proof. induction l as [|x l IH]; [done|]. simpl. by rewrite insert_desc_perm, IH. Qed.

Lemma elem_of_sort_desc x l : x ∈ sort_desc l <-> x ∈ l.
Proof. by rewrite sort_desc_perm. Qed.

Definition desc (l : list A) : Prop := StronglySorted (fun x y => key y <= key x) l.

Lemma insert_desc_sorted x l : desc l -> desc (insert_desc x l).
Proof.
  induction 1 as [|y l Hs IH Hall]; [repeat constructor|].
  simpl. destruct (Z.leb_spec (key y) (key x)).
  - constructor; [by constructor|]. constructor; [done|].
    eapply Forall_impl; [exact Hall|]. intros; simpl in *. lia.
  - constructor; [done|]. rewrite insert_desc_perm. constructor; [lia|done].
Qed.

Lemma sort_desc_sorted l : desc (sort_desc l).
Proof. induction l; [constructor|]. by apply insert_desc_sorted. Qed.

(** Stability: the elements of one key keep their relative order. *)
Lemma insert_desc_filter k x l :
  filter (fun y => key y = k) (insert_desc x l)
  = filter (fun y => key y = k) (x :: l).
Proof.
  induction l as [|y l IH]; [done|]. simpl insert_desc.
  destruct (Z.leb_spec (key y) (key x)); [done|].
  rewrite !filter_cons, IH, filter_cons. repeat case_decide; lia || done.
Qed.

Lemma sort_desc_stable k l :
  filter (fun y => key y = k) (sort_desc l) = filter (fun y => key y = k) l.
Proof.
  induction l as [|x l IH]; [done|]. simpl sort_desc.
  rewrite insert_desc_filter, !filter_cons, IH. done.
Qed.

(** The first element of the sorted list that passes a test has the highest
    key of all the elements that pass it. *)
Lemma find_sort_desc_max (P : A -> bool) l x :
  List.find P (sort_desc l) = Some x ->
  x ∈ l /\ P x = true /\ (forall y, y ∈ l -> P y = true -> key y <= key x).
Proof.
  intros Hf. pose proof (sort_desc_sorted l) as Hs.
  destruct (find_some _ _ Hf) as [Hin HP]. apply list_elem_of_In in Hin.
  split; [by apply elem_of_sort_desc|]. split; [done|].
  intros y Hy HPy. apply elem_of_sort_desc in Hy. clear Hin. revert Hf Hy.
  induction Hs as [|z s Hs IH Hall]; [done|]. simpl.
  intros Hf Hy. apply elem_of_cons in Hy as [->|Hy].
  - rewrite HPy in Hf. injection Hf as ->. lia.
  - destruct (P z) eqn:Hz; [|auto].
    injection Hf as ->. rewrite Forall_forall in Hall. by apply Hall.
Qed.

Lemma find_sort_desc_None (P : A -> bool) l :
  List.find P (sort_desc l) = None <-> (forall y, y ∈ l -> P y = false).
Proof.
  split.
  - intros Hf y Hy. eapply find_none; [exact Hf|].
    by apply list_elem_of_In, elem_of_sort_desc.
  - intros Hall. destruct (List.find P (sort_desc l)) as [x|] eqn:Hf; [|done].
    apply find_some in Hf as [Hin HP]. apply list_elem_of_In in Hin.
    apply (proj1 (elem_of_sort_desc _ _)) in Hin. rewrite (Hall _ Hin) in HP. done.
Qed.
End StableSort.

Lemma find_None_iff {A} (P : A -> bool) l :
  List.find P l = None <-> (forall y, y ∈ l -> P y = false).
Proof.
  split.
  - intros Hf y Hy. eapply find_none; [exact Hf|]. by apply list_elem_of_In.
  - intros Hall. destruct (List.find P l) as [x|] eqn:Hf; [|done].
    apply find_some in Hf as [Hin HP]. apply list_elem_of_In in Hin.
    rewrite (Hall _ Hin) in HP. done.
Qed.

Lemma find_ext_all {A} (P Q : A -> bool) l :
  (forall x, P x = Q x) -> List.find P l = List.find Q l.
Proof. intros HPQ. induction l as [|x l IH]; [done|]. simpl. by rewrite HPQ, IH. Qed.

Lemma find_Some_elem {A} (P : A -> bool) l x :
  List.find P l = Some x -> x ∈ l /\ P x = true.
Proof. intros [Hin HP]%find_some. split; [by apply list_elem_of_In|done]. Qed.

Lemma find_split {A} (P : A -> bool) l x :
  List.find P l = Some x ->
  exists before after, l = before ++ x :: after /\ P x = true /\
    (forall y, y ∈ before -> P y = false).
Proof.
  induction l as [|z l IH]; [done|]. simpl. destruct (P z) eqn:Hz; intros Hf.
  - simplify_eq. exists [], l. split_and!; [done..|]. by intros y Hy%elem_of_nil.
  - destruct (IH Hf) as (b & a & -> & Hx & Hb). exists (z :: b), a.
    split_and!; [done..|]. intros y [->|Hy]%elem_of_cons; auto.
Qed.

Lemma elem_of_filter_bool {A} (P : A -> bool) l x :
  x ∈ List.filter P l <-> x ∈ l /\ P x = true.
Proof. by rewrite !list_elem_of_In, filter_In. Qed.

Lemma existsb_elem {A} (P : A -> bool) l :
  existsb P l = true <-> exists x, x ∈ l /\ P x = true.
Proof.
  rewrite existsb_exists. split; intros (x & Hin & HP); exists x;
    (split; [by apply list_elem_of_In|done]).
Qed.

Lemma existsb_false_elem {A} (P : A -> bool) l :
  existsb P l = false <-> forall x, x ∈ l -> P x = false.
Proof.
  rewrite <-not_true_iff_false, existsb_elem. split.
  - intros Hno x Hx. destruct (P x) eqn:HP; [|done]. destruct Hno. eauto.
  - intros Hf (x & Hx & HP). by rewrite Hf in HP.
Qed.

Lemma filter_true {A} (P : A -> bool) l : (forall x, x ∈ l -> P x = true) -> List.filter P l = l.
Proof.
  induction l as [|x l IH]; intros HP; simpl; [done|].
  rewrite HP by constructor. f_equal. apply IH. intros y Hy. apply HP. by constructor.
Qed.

Lemma filter_filter {A} (P Q : A -> bool) l :
  List.filter P (List.filter Q l) = List.filter (fun x => Q x && P x) l.
Proof.
  induction l as [|x l IH]; [done|]. simpl. destruct (Q x); simpl; [|done]. by rewrite IH.
Qed.

Lemma filter_false {A} (P : A -> bool) l : (forall x, x ∈ l -> P x = false) -> List.filter P l = [].
Proof.
  induction l as [|x l IH]; intros HP; simpl; [done|].
  rewrite HP by constructor. apply IH. intros y Hy. apply HP. by constructor.
Qed.

Local Open Scope Z_scope.

Definition zsum (l : list Z) : Z := foldr Z.add 0 l.

Lemma zsum_app l1 l2 : zsum (l1 ++ l2) = zsum l1 + zsum l2.
Proof. induction l1 as [|x l IH]; simpl; [done|]. unfold zsum in *. lia. Qed.

Lemma zsum_perm l1 l2 : l1 ≡ₚ l2 -> zsum l1 = zsum l2.
Proof. induction 1; unfold zsum in *; simpl; lia. Qed.

Lemma zsum_fmap_add {A} (f g : A -> Z) l :
  zsum ((fun x => f x + g x) <$> l) = zsum (f <$> l) + zsum (g <$> l).
Proof. induction l as [|x l IH]; [done|]. csimpl. unfold zsum in *. simpl. rewrite IH. lia. Qed.

Lemma zsum_ones {A} (l : list A) : zsum ((fun _ => 1) <$> l) = Z.of_nat (length l).
Proof.
  induction l as [|x l IH]; [done|]. csimpl. rewrite Nat2Z.inj_succ, <-IH. unfold zsum. simpl. lia.
Qed.

(** Summing a weight over the classes of a key, one class per key, sums it
    over everything. *)
Section Classes.
Context {A K : Type} `{EqDecision K} (key : A -> K) (w : A -> Z).

Definition class (l : list A) (k : K) : list A :=
  List.filter (fun x => bool_decide (key x = k)) l.

Lemma zsum_indicator (k : K) z ks :
  NoDup ks -> zsum ((fun k' => if bool_decide (k = k') then z else 0) <$> ks) =
    if bool_decide (k ∈ ks) then z else 0.
Proof.
  unfold zsum. induction 1 as [|k' ks Hk Hnd IH]; [done|]. csimpl. rewrite IH.
  destruct (decide (k = k')) as [->|Hne].
  - rewrite (bool_decide_true (k' = k')), (bool_decide_true (k' ∈ k' :: ks)),
      (bool_decide_false (k' ∈ ks)) by (done || constructor). lia.
  - rewrite (bool_decide_false (k = k')) by done.
    rewrite (bool_decide_ext (k ∈ k' :: ks) (k ∈ ks)); [lia|].
    rewrite elem_of_cons. by split; [intros [?|?]|right].
Qed.

Lemma zsum_classes l ks :
  NoDup ks -> (forall x, x ∈ l -> key x ∈ ks) ->
  zsum ((fun k => zsum (w <$> class l k)) <$> ks) = zsum (w <$> l).
Proof.
  intros Hnd. induction l as [|x l IH]; intros Hks.
  { clear Hnd Hks. unfold zsum. simpl. induction ks as [|k ks IH]; [done|]. csimpl. by rewrite IH. }
  assert (Hsplit : zsum ((fun k => zsum (w <$> class (x :: l) k)) <$> ks) =
    zsum ((fun k' => if bool_decide (key x = k') then w x else 0) <$> ks)
    + zsum ((fun k => zsum (w <$> class l k)) <$> ks)).
  { rewrite <-zsum_fmap_add. f_equal. apply list_fmap_ext. intros i k _.
    unfold class. cbn [List.filter]. by case_bool_decide. }
  rewrite Hsplit, zsum_indicator by done.
  rewrite bool_decide_true by (apply Hks; constructor).
  rewrite IH by (intros y Hy; apply Hks; by constructor). unfold zsum. csimpl. lia.
Qed.
End Classes.

(** ** Stateful fallible code

    State changes made before an error stay. *)
Definition ST (W E A : Type) : Type := W -> W * Res E A.

Definition st_ret {W E A} (a : A) : ST W E A := fun w => (w, Ok a).
Definition st_err {W E A} (e : E) : ST W E A := fun w => (w, Err e).
Definition st_lift {W E A} (r : Res E A) : ST W E A := fun w => (w, r).
Definition st_bind {W E A B} (m : ST W E A) (f : A -> ST W E B) : ST W E B := fun w =>
  match m w with
  | (w', Ok a) => f a w'
  | (w', Err e) => (w', Err e)
  | (w', Panic) => (w', Panic)
  end.

Declare Scope st_scope.
Delimit Scope st_scope with st.
Notation "'let!' x ':=' m 'in' k" := (st_bind m (fun x => k))
  (at level 200, x pattern, m at level 100, k at level 200) : st_scope.

(** [for x in xs { f(x)?; }]. *)
Fixpoint st_each {W E A} (f : A -> ST W E unit) (l : list A) : ST W E unit :=
  match l with
  | [] => st_ret tt
  | x :: l' => st_bind (f x) (fun _ => st_each f l')
  end.

Lemma st_bind_assoc {W E A B C} (m : ST W E A) (f : A -> ST W E B) (g : B -> ST W E C) w :
  st_bind (st_bind m f) g w = st_bind m (fun a => st_bind (f a) g) w.
Proof. unfold st_bind. by destruct (m w) as [? []]. Qed.

Lemma st_bind_ret_r {W E A} (m : ST W E A) w : st_bind m st_ret w = m w.
Proof. unfold st_bind, st_ret. by destruct (m w) as [? []]. Qed.

Lemma st_bind_Ok {W E A B} (m : ST W E A) (f : A -> ST W E B) w w' b :
  st_bind m f w = (w', Ok b) <-> exists w1 a, m w = (w1, Ok a) /\ f a w1 = (w', Ok b).
Proof.
  unfold st_bind. destruct (m w) as [w1 [a|e|]]; split.
  - eauto.
  - by intros (? & ? & [= <- <-] & ?).
  - done.
  - by intros (? & ? & ? & ?).
  - done.
  - by intros (? & ? & ? & ?).
Qed.

(** Computations that do not panic. *)
Lemma st_bind_total {W E A B} (m : ST W E A) (f : A -> ST W E B) w :
  (m w).2 <> Panic -> (forall a w', (f a w').2 <> Panic) -> (st_bind m f w).2 <> Panic.
Proof. intros Hm Hf. unfold st_bind. by destruct (m w) as [w' [a|e|]]. Qed.

Lemma res_bind_total {E A B} (r : Res E A) (f : A -> Res E B) :
  r <> Panic -> (forall a, r = Ok a -> f a <> Panic) -> (r ≫= f) <> Panic.
Proof. destruct r as [a|e|]; intros Hr Hf; [by apply Hf|done|done]. Qed.

Lemma map_err_total {E F A} (f : E -> F) (r : Res E A) : r <> Panic -> map_err f r <> Panic.
Proof. by destruct r. Qed.

(** *** Relations between the state before and after *)

Section Keeps.
Context {W E : Type} (R : W -> W -> Prop) `{!PreOrder R}.

Definition st_keeps {A} (m : ST W E A) : Prop := forall w, R w (m w).1.

Lemma keeps_lift {A} (r : Res E A) : st_keeps (st_lift r).
Proof. intros w. simpl. reflexivity. Qed.

Lemma keeps_ret {A} (a : A) : st_keeps (st_ret a).
Proof. intros w. simpl. reflexivity. Qed.

Lemma keeps_err {A} e : st_keeps (@st_err W E A e).
Proof. intros w. simpl. reflexivity. Qed.

Lemma keeps_bind {A B} (m : ST W E A) (f : A -> ST W E B) :
  st_keeps m -> (forall a, st_keeps (f a)) -> st_keeps (st_bind m f).
Proof.
  intros Hm Hf w. unfold st_bind. specialize (Hm w).
  destruct (m w) as [w' [a|e|]]; simpl in *; [|done..].
  etrans; [exact Hm|apply Hf].
Qed.

Lemma keeps_each {A} (f : A -> ST W E unit) l : (forall x, st_keeps (f x)) -> st_keeps (st_each f l).
Proof.
  intros Hf. induction l as [|x l IH]; [apply keeps_ret|].
  apply keeps_bind; [apply Hf|intros _; exact IH].
Qed.
End Keeps.
