(* ===== verification/RustStr.v ===== *)
(** Strings and byte buffers of the Rust standard library.

    A Rust [String], [&str], [Bytes] or [&[u8]] is a sequence of bytes, here a
    [string] of 8-bit characters; text is its UTF-8 encoding.  The operations
    are the ones of [core::str] the program calls. *)

From Stdlib Require Import Ascii.
From S2P Require Import Prelude.
Local Open Scope string_scope.

Abbreviation bytes := string.

Fixpoint starts_with (p s : string) : bool :=
  match p, s with
  | EmptyString, _ => true
  | String a p', String b s' => Ascii.eqb a b && starts_with p' s'
  | String _ _, EmptyString => false
  end.

Fixpoint strip_prefix (p s : string) : option string :=
  match p, s with
  | EmptyString, _ => Some s
  | String a p', String b s' => if Ascii.eqb a b then strip_prefix p' s' else None
  | String _ _, EmptyString => None
  end.

Fixpoint str_contains (pat s : string) : bool :=
  starts_with pat s ||
  match s with EmptyString => false | String _ s' => str_contains pat s' end.

Fixpoint ends_with (suf s : string) : bool :=
  String.eqb suf s ||
  match s with EmptyString => false | String _ s' => ends_with suf s' end.

Definition str_is_empty (s : string) : bool :=
  match s with EmptyString => true | _ => false end.

(** [str::len]: the length in bytes. *)
Definition str_len (s : string) : Z := Z.of_nat (String.length s).

Definition ascii_lower (a : Ascii.ascii) : Ascii.ascii :=
  let n := Ascii.nat_of_ascii a in
  if (65 <=? n)%nat && (n <=? 90)%nat then Ascii.ascii_of_nat (n + 32) else a.

(** [to_lowercase] on the ASCII strings the program applies it to (header
    names, and header values accepted by [to_str]). *)
Fixpoint to_lowercase (s : string) : string :=
  match s with
  | EmptyString => EmptyString
  | String a s' => String (ascii_lower a) (to_lowercase s')
  end.

(** [trim_end_matches(c)]. *)
Fixpoint trim_end_matches (c : Ascii.ascii) (s : string) : string :=
  match s with
  | EmptyString => EmptyString
  | String a s' =>
      match trim_end_matches c s' with
      | EmptyString => if Ascii.eqb a c then EmptyString else String a EmptyString
      | t => String a t
      end
  end.

Definition slash : Ascii.ascii := "/"%char.
Definition newline : Ascii.ascii := "010"%char.
Definition carriage_return : Ascii.ascii := "013"%char.

Definition dquote : Ascii.ascii := "034"%char.

(** A string between double quotes, as string literals spell JSON text. *)
Definition quoted (s : string) : string :=
  (String dquote EmptyString +:+ s +:+ String dquote EmptyString).

(** ** UTF-8 *)

Definition byte_val (a : Ascii.ascii) : Z := Z.of_N (Ascii.N_of_ascii a).

Definition is_continuation (a : Ascii.ascii) : bool :=
  ((128 <=? byte_val a) && (byte_val a <? 192))%Z.

(** [lo <= x <= hi]. *)
Definition between (lo hi x : Z) : bool := ((lo <=? x) && (x <=? hi))%Z.

(** One step of [core::str::from_utf8]: the number of bytes of a well-formed
    sequence at the head of the input (Unicode table 3-7). *)
Definition utf8_head (s : string) : option nat :=
  match s with
  | EmptyString => None
  | String a s1 =>
      let x := byte_val a in
      if between 0 127 x then Some 1
      else match s1 with
      | EmptyString => None
      | String b s2 =>
          let y := byte_val b in
          if between 194 223 x && is_continuation b then Some 2
          else match s2 with
          | EmptyString => None
          | String c s3 =>
              if is_continuation c &&
                 (between 224 224 x && between 160 191 y
                  || between 225 236 x && is_continuation b
                  || between 237 237 x && between 128 159 y
                  || between 238 239 x && is_continuation b)
              then Some 3
              else match s3 with
              | EmptyString => None
              | String d _ =>
                  if is_continuation c && is_continuation d &&
                     (between 240 240 x && between 144 191 y
                      || between 241 243 x && is_continuation b
                      || between 244 244 x && between 128 143 y)
                  then Some 4 else None
              end
          end
      end
  end%nat.

Fixpoint drop_str (n : nat) (s : string) : string :=
  match n, s with
  | S n', String _ s' => drop_str n' s'
  | _, _ => s
  end.

Fixpoint take_str (n : nat) (s : string) : string :=
  match n, s with
  | S n', String a s' => String a (take_str n' s')
  | _, _ => EmptyString
  end.

Fixpoint utf8_valid_fuel (fuel : nat) (s : string) : bool :=
  match s, fuel with
  | EmptyString, _ => true
  | _, O => false
  | _, S fuel' =>
      match utf8_head s with
      | Some n => utf8_valid_fuel fuel' (drop_str n s)
      | None => false
      end
  end.

(** Every step consumes at least one byte: the length is enough fuel. *)
Definition utf8_valid (s : string) : bool := utf8_valid_fuel (String.length s) s.

Definition from_utf8 (b : bytes) : option string :=
  if utf8_valid b then Some b else None.

(** [chars().count()] of valid text: the bytes that start a character. *)
Fixpoint char_count (s : string) : Z :=
  match s with
  | EmptyString => 0
  | String a s' => (if is_continuation a then 0 else 1) + char_count s'
  end%Z.

(** [is_char_boundary(i)]: the ends of the string, or a byte that is not a
    continuation byte. *)
Definition is_char_boundary (s : string) (i : nat) : bool :=
  (i =? 0)%nat ||
  match String.get i s with
  | Some a => negb (is_continuation a)
  | None => (i =? String.length s)%nat
  end.

(** [&s[..i]], which panics off a character boundary. *)
Definition slice_to {E} (s : string) (i : nat) : Res E string :=
  if is_char_boundary s i then Ok (take_str i s) else Panic.

(** ** Lines and whitespace *)

(** [split('\n')] as a non-empty list. *)
Fixpoint split_newline (s : string) : list string :=
  match s with
  | EmptyString => [EmptyString]
  | String a s' =>
      if Ascii.eqb a newline then EmptyString :: split_newline s'
      else match split_newline s' with
           | l :: ls => String a l :: ls
           | [] => [String a EmptyString]
           end
  end.

Fixpoint strip_cr (s : string) : string :=
  match s with
  | EmptyString => EmptyString
  | String a EmptyString => if Ascii.eqb a carriage_return then EmptyString else s
  | String a s' => String a (strip_cr s')
  end.

Fixpoint drop_last_empty (l : list string) : list string :=
  match l with
  | [] => []
  | [EmptyString] => []
  | x :: l' => x :: drop_last_empty l'
  end.

Fixpoint newline_terminated (l : list string) : list string :=
  match l with
  | [] => []
  | [x] => [x]
  | x :: l' => strip_cr x :: newline_terminated l'
  end.

(** [str::lines]: the pieces between newlines, a carriage return before a
    newline removed, and no last line when the text ends in a newline. *)
Definition lines (s : string) : list string :=
  drop_last_empty (newline_terminated (split_newline s)).

Definition ascii_whitespace (a : Ascii.ascii) : bool :=
  let n := byte_val a in ((n =? 32) || ((9 <=? n) && (n <=? 13)))%Z.

(** The width of the [char::is_whitespace] character at the head of a byte
    sequence, 0 when there is none (Unicode property White_Space). *)
Definition whitespace_head (s : string) : nat :=
  match s with
  | EmptyString => 0
  | String a s1 =>
      if ascii_whitespace a then 1 else
      match byte_val a, s1 with
      | 194%Z, String b _ =>
          if ((byte_val b =? 133) || (byte_val b =? 160))%Z then 2 else 0
      | 225%Z, String b (String c _) =>
          if ((byte_val b =? 154) && (byte_val c =? 128))%Z then 3 else 0
      | 226%Z, String b (String c _) =>
          let y := byte_val b in let z := byte_val c in
          if ((y =? 128) && ((128 <=? z) && (z <=? 138) || (z =? 168) || (z =? 169)
                             || (z =? 175))
              || (y =? 129) && (z =? 159))%Z then 3 else 0
      | 227%Z, String b (String c _) =>
          if ((byte_val b =? 128) && (byte_val c =? 128))%Z then 3 else 0
      | _, _ => 0
      end
  end%nat.

Fixpoint all_whitespace_fuel (fuel : nat) (s : string) : bool :=
  match s, fuel with
  | EmptyString, _ => true
  | _, O => false
  | _, S f =>
      match whitespace_head s with
      | O => false
      | n => all_whitespace_fuel f (drop_str n s)
      end
  end.

Definition all_whitespace (s : string) : bool :=
  all_whitespace_fuel (String.length s) s.

(** [trim_end]: cut at the first position after which all is white space. *)
Fixpoint trim_end (s : string) : string :=
  if all_whitespace s then EmptyString
  else match s with
       | EmptyString => EmptyString
       | String a s' => String a (trim_end s')
       end.

Fixpoint trim_start_fuel (fuel : nat) (s : string) : string :=
  match fuel with
  | O => s
  | S f => match whitespace_head s with
           | O => s
           | n => trim_start_fuel f (drop_str n s)
           end
  end.

Definition trim_start (s : string) : string := trim_start_fuel (String.length s) s.
Definition trim (s : string) : string := trim_end (trim_start s).

Fixpoint join (sep : string) (l : list string) : string :=
  match l with
  | [] => EmptyString
  | [x] => x
  | x :: l' => (x +:+ sep +:+ join sep l')
  end.

(** [usize::from_str] / [u32::from_str] on decimal digits (an optional sign
    [+] is accepted), bounded by [max]. *)
Fixpoint parse_digits (acc max : Z) (s : string) : option Z :=
  match s with
  | EmptyString => Some acc
  | String a s' =>
      let d := (byte_val a - 48)%Z in
      if ((0 <=? d) && (d <=? 9) && (acc * 10 + d <=? max))%Z
      then parse_digits (acc * 10 + d) max s' else None
  end.

Definition parse_uint (max : Z) (s : string) : option Z :=
  match s with
  | EmptyString => None
  | String "+" EmptyString => None
  | String "+" s' => parse_digits 0 max s'
  | _ => parse_digits 0 max s
  end.

(** [to_string] of an unsigned integer. *)
Fixpoint digits_fuel (fuel : nat) (z : Z) (acc : string) : string :=
  match fuel with
  | O => acc
  | S f =>
      let acc' := String (Ascii.ascii_of_N (Z.to_N (48 + z mod 10))) acc in
      if (z <? 10)%Z then acc' else digits_fuel f (z / 10)%Z acc'
  end.
Definition uint_to_string (z : Z) : string := digits_fuel 40 z EmptyString.

Definition int_to_string (z : Z) : string :=
  if (z <? 0)%Z then ("-" +:+ uint_to_string (- z)) else uint_to_string z.

(** Printing an unsigned number and parsing it back. *)
Lemma digits_fuel_nonempty f z acc : f <> O \/ acc <> EmptyString -> digits_fuel f z acc <> EmptyString.
Proof.
  revert z acc. induction f as [|f IH]; intros z acc Hne; simpl; [by destruct Hne|].
  destruct (z <? 10)%Z; [done|]. apply IH. by right.
Qed.

Lemma parse_digits_fuel f z acc max :
  (0 <= z <= max)%Z -> (z < 10 ^ Z.of_nat f)%Z -> f <> O ->
  parse_digits 0 max (digits_fuel f z acc) = parse_digits z max acc.
Proof.
  intros Hz Hf Hne.
  assert (Hdigit : forall a, (0 <= a)%Z -> (a * 10 + z mod 10 = z)%Z ->
    parse_digits a max (String (Ascii.ascii_of_N (Z.to_N (48 + z mod 10))) acc) =
    parse_digits z max acc).
  { intros a Ha Hsum. pose proof (Z.mod_pos_bound z 10 ltac:(lia)).
    simpl. unfold byte_val. rewrite Ascii.N_ascii_embedding, Z2N.id by lia.
    replace (48 + z mod 10 - 48)%Z with (z mod 10)%Z by lia. rewrite Hsum.
    by replace (_ && _) with true by lia. }
  revert z acc Hz Hf Hdigit. induction f as [|f IH]; intros z acc Hz Hf Hdigit; [done|].
  cbn [digits_fuel]. destruct (Z.ltb_spec z 10).
  - apply Hdigit; [done|]. by rewrite Z.mod_small by lia.
  - rewrite Nat2Z.inj_succ, Z.pow_succ_r in Hf by lia.
    pose proof (Z.div_mod z 10 ltac:(lia)). pose proof (Z.mod_pos_bound z 10 ltac:(lia)).
    rewrite IH; [apply Hdigit; lia| |lia| |].
    + by destruct f; [simpl in Hf; lia|].
    + lia.
    + intros a Ha Hsum. pose proof (Z.mod_pos_bound (z / 10) 10 ltac:(lia)).
      simpl. unfold byte_val. rewrite Ascii.N_ascii_embedding, Z2N.id by lia.
      replace (48 + (z / 10) mod 10 - 48)%Z with ((z / 10) mod 10)%Z by lia. rewrite Hsum.
      by replace (_ && _) with true by lia.
Qed.

Lemma parse_uint_to_string max z :
  (0 <= z <= max)%Z -> (z < 10 ^ 40)%Z -> parse_uint max (uint_to_string z) = Some z.
Proof.
  intros Hz Hlt. pose proof (parse_digits_fuel 40 z EmptyString max Hz Hlt ltac:(done)) as Hp.
  fold (uint_to_string z) in Hp.
  assert (Hne : uint_to_string z <> EmptyString) by (apply digits_fuel_nonempty; by left).
  destruct (uint_to_string z) as [|a s]; [done|]. simpl in Hp.
  unfold parse_uint. destruct (decide (a = "+"%char)) as [->|Ha]; [done|].
  destruct a as [[] [] [] [] [] [] [] []]; done.
Qed.

Lemma starts_with_strip p s : starts_with p s = bool_decide (is_Some (strip_prefix p s)).
Proof.
  revert s. induction p as [|a p IH]; intros [|b s]; try done. simpl.
  destruct (Ascii.eqb a b); [apply IH|done].
Qed.

Lemma str_app_nil_l (s : string) : ("" +:+ s) = s.
Proof. done. Qed.
Lemma str_app_cons a (s t : string) : (String a s +:+ t) = String a (s +:+ t).
Proof. done. Qed.

Lemma strip_prefix_Some p s r : strip_prefix p s = Some r <-> s = (p +:+ r).
Proof.
  revert s. induction p as [|a p IH]; intros [|b s];
    rewrite ?str_app_nil_l, ?str_app_cons; simpl; [split; congruence..|].
  destruct (Ascii.eqb_spec a b) as [->|Hne]; [rewrite IH|]; split; congruence.
Qed.

Lemma ends_with_refl s : ends_with s s = true.
Proof. destruct s; [done|]. unfold ends_with. by rewrite String.eqb_refl. Qed.

Lemma trim_end_matches_idemp c s :
  trim_end_matches c (trim_end_matches c s) = trim_end_matches c s.
Proof.
  induction s as [|a s IH]; [done|]. simpl.
  destruct (trim_end_matches c s) as [|b t] eqn:Ht.
  - destruct (Ascii.eqb a c) eqn:He; simpl; [done|]. by rewrite He.
  - simpl in *. by rewrite IH.
Qed.

(** ** Facts about lines *)

Local Close Scope string_scope.
Local Open Scope Z_scope.

Lemma str_app_nil_r s : (s +:+ EmptyString) = s.
Proof. induction s as [|a s IH]; [done|]. by rewrite str_app_cons, IH. Qed.

Lemma str_app_length (a b : string) :
  String.length (a +:+ b) = (String.length a + String.length b)%nat.
Proof. induction a as [|x a IH]; [done|]. rewrite str_app_cons. simpl. by rewrite IH. Qed.

Lemma ends_with_app a suf : ends_with suf (a +:+ suf) = true.
Proof.
  induction a as [|x a IH]; [apply ends_with_refl|]. rewrite str_app_cons. simpl.
  rewrite IH. apply orb_true_r.
Qed.

Lemma str_app_assoc (a b c : string) : ((a +:+ b) +:+ c) = (a +:+ (b +:+ c)).
Proof. induction a as [|x a IH]; [done|]. by rewrite !str_app_cons, IH. Qed.

Lemma str_len_app a b : str_len (a +:+ b) = str_len a + str_len b.
Proof.
  unfold str_len. induction a as [|x a IH]; [done|]. rewrite str_app_cons. simpl. lia.
Qed.

Lemma split_newline_nonempty s : split_newline s <> [].
Proof. destruct s as [|a s]; [done|]. simpl. destruct (Ascii.eqb a newline); [done|].
  by destruct (split_newline s). Qed.

Definition nl : string := String newline EmptyString.

Lemma split_newline_app c d :
  split_newline (c +:+ nl +:+ d) = split_newline c ++ split_newline d.
Proof.
  induction c as [|a c IH].
  { unfold nl. rewrite str_app_nil_l, str_app_cons, str_app_nil_l. done. }
  rewrite str_app_cons. simpl. rewrite IH.
  destruct (Ascii.eqb a newline); [done|].
  pose proof (split_newline_nonempty c). by destruct (split_newline c).
Qed.

Lemma newline_terminated_app a b :
  b <> [] -> newline_terminated (a ++ b) = (strip_cr <$> a) ++ newline_terminated b.
Proof.
  intros Hb. induction a as [|x a IH]; [done|]. csimpl. rewrite IH.
  destruct (a ++ b) eqn:E; [|done]. by apply app_eq_nil in E as [_ ->].
Qed.

Lemma drop_last_empty_app a b :
  b <> [] -> drop_last_empty (a ++ b) = a ++ drop_last_empty b.
Proof.
  intros Hb. induction a as [|x a IH]; [done|]. simpl. rewrite IH.
  destruct x; [|done]. destruct (a ++ b) eqn:E; [|done]. by apply app_eq_nil in E as [_ ->].
Qed.

Lemma newline_terminated_nonempty b : b <> [] -> newline_terminated b <> [].
Proof. destruct b as [|x [|y b]]; done. Qed.

(** The lines of a text after a complete first part are those of the part and
    those of the rest. *)
Lemma lines_app c d : lines (c +:+ nl +:+ d) = (strip_cr <$> split_newline c) ++ lines d.
Proof.
  unfold lines. rewrite split_newline_app, newline_terminated_app, drop_last_empty_app; [done| |];
    [apply newline_terminated_nonempty|]; apply split_newline_nonempty.
Qed.

(** Pieces without a newline, and those whose end [lines] leaves alone. *)
Fixpoint no_newline (s : string) : bool :=
  match s with
  | EmptyString => true
  | String a s' => negb (Ascii.eqb a newline) && no_newline s'
  end.

Definition clean_line (s : string) : Prop := no_newline s = true /\ strip_cr s = s.

Lemma no_newline_app a b : no_newline (a +:+ b) = no_newline a && no_newline b.
Proof.
  induction a as [|x a IH]; [done|]. rewrite str_app_cons. simpl. rewrite IH.
  by rewrite andb_assoc.
Qed.

Lemma split_newline_single s : no_newline s = true -> split_newline s = [s].
Proof.
  induction s as [|a s IH]; [done|]. simpl. intros [Ha Hs]%andb_true_iff.
  rewrite (IH Hs). by destruct (Ascii.eqb a newline).
Qed.

Lemma split_newline_clean s : Forall (fun l => no_newline l = true) (split_newline s).
Proof.
  induction s as [|a s IH]; simpl; [by repeat constructor|].
  destruct (Ascii.eqb a newline) eqn:Ha; [by constructor|].
  destruct (split_newline s) as [|l ls]; [by repeat constructor; simpl; rewrite Ha|].
  inversion_clear IH. constructor; [|done]. simpl. by rewrite Ha.
Qed.

Lemma split_newline_join ls :
  ls <> [] -> Forall (fun l => no_newline l = true) ls -> split_newline (join nl ls) = ls.
Proof.
  intros Hne Hls. induction Hls as [|x ls Hx Hls IH]; [done|].
  destruct ls as [|y ls]; [by apply split_newline_single|].
  change (join nl (x :: y :: ls)) with (x +:+ nl +:+ join nl (y :: ls)).
  rewrite split_newline_app, (split_newline_single x Hx), IH; done.
Qed.

Lemma newline_terminated_clean ls :
  Forall (fun l => strip_cr l = l) ls -> newline_terminated ls = ls.
Proof.
  induction 1 as [|x ls Hx Hls IH]; [done|]. destruct ls as [|y ls]; [done|].
  change (newline_terminated (x :: y :: ls)) with (strip_cr x :: newline_terminated (y :: ls)).
  by rewrite Hx, IH.
Qed.

Lemma lines_join ls : Forall clean_line ls -> lines (join nl ls) = drop_last_empty ls.
Proof.
  intros Hls. destruct ls as [|x ls]; [done|]. unfold lines.
  rewrite split_newline_join; [|done|by eapply Forall_impl; [done|intros ? []]].
  rewrite newline_terminated_clean; [done|]. by eapply Forall_impl; [done|intros ? []].
Qed.

Lemma no_newline_strip_cr s : no_newline s = true -> no_newline (strip_cr s) = true.
Proof.
  induction s as [|a s IH]; [done|]. simpl. intros [Ha Hs]%andb_true_iff.
  destruct s; [by destruct (Ascii.eqb a carriage_return); simpl; rewrite ?Ha|].
  cbn [no_newline]. by rewrite Ha, IH.
Qed.

Lemma lines_no_newline s : Forall (fun l => no_newline l = true) (lines s).
Proof.
  unfold lines. pose proof (split_newline_clean s) as Hs. revert Hs.
  generalize (split_newline s). intros l Hl.
  assert (Hn : Forall (fun l => no_newline l = true) (newline_terminated l)).
  { induction Hl as [|x l Hx Hl IH]; [done|]. destruct l; [by constructor|].
    constructor; [by apply no_newline_strip_cr|done]. }
  induction Hn as [|x l' Hx Hl' IH]; [done|]. simpl.
  destruct x, l'; try done; constructor; done.
Qed.

Lemma all_whitespace_trim_end s : trim_end s = EmptyString <-> all_whitespace s = true.
Proof.
  destruct s as [|a s]; [done|]. simpl. by destruct (all_whitespace (String a s)).
Qed.

Lemma no_newline_trim_end s : no_newline s = true -> no_newline (trim_end s) = true.
Proof.
  induction s as [|a s IH]; [done|]. simpl. intros [Ha Hs]%andb_true_iff.
  destruct (all_whitespace _); [done|]. simpl. by rewrite Ha, IH.
Qed.

Lemma strip_cr_trim_end s : strip_cr (trim_end s) = trim_end s.
Proof.
  induction s as [|a s IH]; [done|]. cbn [trim_end].
  destruct (all_whitespace (String a s)) eqn:Hw; [done|]. cbn [strip_cr].
  destruct (trim_end s) eqn:Ht; [|by rewrite IH].
  apply all_whitespace_trim_end in Ht.
  destruct (Ascii.eqb a carriage_return) eqn:Ha; [|done].
  apply Ascii.eqb_eq in Ha as ->. unfold all_whitespace in *. simpl in Hw.
  by rewrite Ht in Hw.
Qed.

Lemma strip_cr_app p r : r <> EmptyString -> strip_cr (p +:+ r) = (p +:+ strip_cr r).
Proof.
  intros Hr. induction p as [|a p IH]; [done|]. rewrite !str_app_cons, <-IH.
  cbn [strip_cr]. destruct (p +:+ r) eqn:E; [|done].
  destruct p; [by destruct r|done].
Qed.

Lemma str_app_inj p a b : (p +:+ a) = (p +:+ b) -> a = b.
Proof. induction p as [|x p IH]; [done|]. rewrite !str_app_cons. intros [=]. auto. Qed.
