(* ===== verification/Float64.v ===== *)
(** IEEE-754 binary64, the semantics of Rust's [f64], on the Standard
    Library's [SpecFloat]: 53 bits of precision, exponents up to 1024, round
    to nearest even.  Everything here evaluates. *)

From Stdlib Require Export SpecFloat.
From S2P Require Import Prelude.
Local Open Scope Z_scope.

Abbreviation f64 := spec_float.

Definition f64_add : f64 -> f64 -> f64 := SFadd 53 1024.
Definition f64_sub : f64 -> f64 -> f64 := SFsub 53 1024.
Definition f64_mul : f64 -> f64 -> f64 := SFmul 53 1024.
Definition f64_div : f64 -> f64 -> f64 := SFdiv 53 1024.
Definition f64_lt : f64 -> f64 -> bool := SFltb.
Definition f64_le : f64 -> f64 -> bool := SFleb.

(** [n as f64] and [f64::from(n)]: rounds to nearest even above 2^53. *)
Definition f64_of_int (n : Z) : f64 := binary_normalize 53 1024 n 0 false.

(** The literal [m * 2^e]. *)
Definition f64_lit (m e : Z) : f64 := binary_normalize 53 1024 m e false.

Definition f64_zero : f64 := S754_zero false.
Definition f64_one : f64 := f64_of_int 1.
Definition f64_million : f64 := f64_of_int 1000000.

Definition is_nan (x : f64) : bool := match x with S754_nan => true | _ => false end.

(** [f64::min]: the other argument when one is NaN. *)
Definition f64_min (x y : f64) : f64 :=
  if is_nan x then y else if is_nan y then x else if f64_lt y x then y else x.

#[export] Instance f64_eq_dec : EqDecision f64.
Proof. solve_decision. Defined.

#[export] Instance f64_inhabited : Inhabited f64 := populate f64_zero.

Lemma SFcompare_opp x y : SFcompare y x = CompOpp <$> SFcompare x y.
Proof.
  destruct x as [sx|sx| |sx mx ex], y as [sy|sy| |sy my ey]; simpl;
    try (destruct sx); try (destruct sy); try done.
  all: rewrite (Z.compare_antisym ex ey); destruct (ex ?= ey); simpl; try done.
  all: change (PosDef.Pos.compare_cont Eq) with Pos.compare;
    rewrite (Pos.compare_antisym mx my); by destruct (Pos.compare mx my).
Qed.

Lemma SFcompare_Some x y :
  is_nan x = false -> is_nan y = false -> exists c, SFcompare x y = Some c.
Proof. destruct x, y; simpl; intros; simplify_eq; eauto. Qed.

Lemma SFcompare_refl x : is_nan x = false -> SFcompare x x = Some Eq.
Proof.
  destruct x as [s|s| |s m e]; simpl; intros; simplify_eq; try by destruct s.
  rewrite Z.compare_refl. change (PosDef.Pos.compare_cont Eq) with Pos.compare.
  rewrite Pos.compare_refl. by destruct s.
Qed.

Lemma f64_le_refl x : is_nan x = false -> f64_le x x = true.
Proof. intros. unfold f64_le, SFleb. by rewrite SFcompare_refl. Qed.

Lemma f64_not_lt_le x y :
  is_nan x = false -> is_nan y = false -> f64_lt y x = false -> f64_le x y = true.
Proof.
  intros Hx Hy. unfold f64_lt, f64_le, SFltb, SFleb.
  rewrite (SFcompare_opp x y). destruct (SFcompare_Some x y Hx Hy) as [c ->].
  by destruct c.
Qed.

(** A minimum never exceeds its second argument. *)
Lemma f64_min_le_r x y : is_nan y = false -> f64_le (f64_min x y) y = true.
Proof.
  intros Hy. unfold f64_min. destruct (is_nan x) eqn:Hx; [by apply f64_le_refl|].
  rewrite Hy. destruct (f64_lt y x) eqn:Hlt; [by apply f64_le_refl|].
  by apply f64_not_lt_le.
Qed.

(** ** Exactness on the integers below 2^53 *)

Lemma shr_1_even q : 0 <= q -> shr_1 {| shr_m := 2 * q; shr_r := false; shr_s := false |}
  = {| shr_m := q; shr_r := false; shr_s := false |}.
Proof. intros. destruct q as [|p|p]; [done| |lia]. by destruct p. Qed.

Lemma iter_pos_nat {A} (f : A -> A) p x : SpecFloat.iter_pos f p x = Nat.iter (Pos.to_nat p) f x.
Proof.
  revert x. induction p as [p IH|p IH|]; intros x; cbn [SpecFloat.iter_pos]; [| |done].
  - rewrite !IH, <-Nat.iter_succ_r, <-Nat.iter_add.
    replace (Pos.to_nat p~1) with (Pos.to_nat p + S (Pos.to_nat p))%nat by lia. done.
  - rewrite !IH, <-Nat.iter_add.
    replace (Pos.to_nat p~0) with (Pos.to_nat p + Pos.to_nat p)%nat by lia. done.
Qed.

Lemma shr_exact q n : 0 <= q ->
  Nat.iter n shr_1 {| shr_m := 2 ^ Z.of_nat n * q; shr_r := false; shr_s := false |}
  = {| shr_m := q; shr_r := false; shr_s := false |}.
Proof.
  revert q. induction n as [|n IH]; intros q Hq.
  { simpl. f_equal. lia. }
  rewrite Nat.iter_succ_r. rewrite Nat2Z.inj_succ, Z.pow_succ_r by lia.
  rewrite <-Z.mul_assoc, shr_1_even by lia. by apply IH.
Qed.


Definition digits (m : Z) : Z := Zdigits2 m.

Lemma digits_bounds m : 0 < m -> 2 ^ (digits m - 1) <= m < 2 ^ digits m.
Proof.
  unfold digits. destruct m as [|p|p]; [lia| |lia]. intros _. simpl.
  induction p as [p IH|p IH|]; simpl digits2_pos.
  1,2: change (PosDef.Pos.succ (digits2_pos p)) with (Pos.succ (digits2_pos p));
    rewrite Pos2Z.inj_succ, Z.pow_succ_r by lia;
    replace (Z.succ (Z.pos (digits2_pos p)) - 1) with
      (Z.succ (Z.pos (digits2_pos p) - 1)) by lia; rewrite Z.pow_succ_r; lia.
  done.
Qed.

Lemma digits_unique m d : 0 < m -> 2 ^ (d - 1) <= m < 2 ^ d -> digits m = d.
Proof.
  intros Hm [Hl Hu]. pose proof (digits_bounds m Hm) as [Hl' Hu'].
  destruct (Z.lt_trichotomy (digits m) d) as [H|[H|H]]; [|done|].
  - assert (2 ^ digits m <= 2 ^ (d - 1)) by (apply Z.pow_le_mono_r; lia). lia.
  - assert (2 ^ d <= 2 ^ (digits m - 1)) by (apply Z.pow_le_mono_r; lia). lia.
Qed.

Lemma digits_pos m : 0 < m -> 1 <= digits m.
Proof. unfold digits. destruct m; simpl; lia. Qed.

Lemma digits_shift m n : 0 < m -> 0 <= n -> digits (2 ^ n * m) = n + digits m.
Proof.
  intros Hm Hn. pose proof (digits_pos m Hm). pose proof (digits_bounds m Hm) as [Hl Hu].
  pose proof (Z.pow_pos_nonneg 2 n ltac:(lia) Hn).
  apply digits_unique; [nia|].
  replace (n + digits m - 1) with (n + (digits m - 1)) by lia.
  rewrite !Z.pow_add_r by lia. nia.
Qed.

Lemma digits_le_bound m b : 0 < m < 2 ^ b -> 0 <= b -> digits m <= b.
Proof.
  intros Hm Hb. pose proof (digits_bounds m ltac:(lia)).
  destruct (Z_le_gt_dec (digits m) b); [done|].
  assert (2 ^ b <= 2 ^ (digits m - 1)) by (apply Z.pow_le_mono_r; lia). lia.
Qed.

Lemma shl_align_pos p e e' : e' <= e ->
  exists q, shl_align p e e' = (q, e') /\ Z.pos q = 2 ^ (e - e') * Z.pos p.
Proof.
  intros He. unfold shl_align. destruct (e' - e) as [|d|d] eqn:E; [|lia|].
  - exists p. replace e' with e by lia. split; [done|]. rewrite Z.sub_diag. lia.
  - eexists. split; [done|]. replace (e - e') with (Z.pos d) by lia.
    clear. induction d as [|d IH] using Pos.peano_ind; [simpl; lia|].
    rewrite Pos.iter_succ, Pos2Z.inj_succ, Z.pow_succ_r by lia.
    rewrite Pos2Z.inj_xO, IH. lia.
Qed.

(** Rounding an exactly representable number is exact. *)
Lemma shr_fexp_id m e : 0 < m -> digits m = 53 -> -1074 <= e ->
  shr_fexp 53 1024 m e loc_Exact = ({| shr_m := m; shr_r := false; shr_s := false |}, e).
Proof.
  intros Hm Hd He. unfold shr_fexp. fold (digits m). rewrite Hd. unfold fexp, emin.
  replace ((53 + e - 53) `max` (3 - 1024 - 53) - e) with 0 by lia. done.
Qed.

Lemma round_aux_exact s q e n : 0 < q -> digits q = 53 -> 0 <= n -> -1074 <= e - n -> e <= 971 ->
  binary_round_aux 53 1024 s (2 ^ n * q) (e - n) loc_Exact =
    S754_finite s (Z.to_pos q) e.
Proof.
  intros Hq Hd Hn He1 He2. unfold binary_round_aux.
  assert (shr_fexp 53 1024 (2 ^ n * q) (e - n) loc_Exact =
          ({| shr_m := q; shr_r := false; shr_s := false |}, e)) as ->.
  { unfold shr_fexp. fold (digits (2 ^ n * q)). rewrite digits_shift, Hd by lia.
    unfold fexp, emin.
    replace ((n + 53 + (e - n) - 53) `max` (3 - 1024 - 53) - (e - n)) with n by lia.
    unfold shr. destruct n as [|p|p]; [|  |lia].
    - f_equal; [|lia]. unfold shr_record_of_loc. f_equal. lia.
    - rewrite iter_pos_nat, <-(positive_nat_Z p).
      rewrite <-(Pos2Nat.id p) at 3. rewrite Nat2Pos.id by lia.
      unfold shr_record_of_loc. rewrite shr_exact by lia. f_equal. lia. }
  simpl. rewrite shr_fexp_id by lia. simpl.
  destruct q as [|p|p]; [lia| |lia]. simpl.
  destruct (Z.leb_spec e (1024 - 53)); [done|lia].
Qed.

Lemma round_exact s m e :
  0 < m -> let E := digits m + e - 53 in
  -1074 <= E <= 971 -> -1074 <= e ->
  forall q, 0 < q -> m * 2 ^ Z.max 0 (e - E) = q * 2 ^ Z.max 0 (E - e) ->
  binary_round 53 1024 s (Z.to_pos m) e = S754_finite s (Z.to_pos q) E.
Proof.
  intros Hm E HE He q Hq Heq. unfold binary_round.
  change (Z.pos (digits2_pos (Z.to_pos m))) with (digits (Z.pos (Z.to_pos m))).
  rewrite Z2Pos.id by lia. unfold fexp, emin.
  replace ((digits m + e - 53) `max` (3 - 1024 - 53)) with E by (unfold E; lia).
  assert (Hdq : digits q = 53).
  { assert (H1 : digits (2 ^ Z.max 0 (e - E) * m) = digits (2 ^ Z.max 0 (E - e) * q))
      by (f_equal; lia).
    rewrite !digits_shift in H1 by lia. unfold E in *. lia. }
  destruct (Z_le_gt_dec E e) as [Hle|Hgt].
  - destruct (shl_align_pos (Z.to_pos m) e E Hle) as (p & -> & Hp).
    rewrite Z2Pos.id in Hp by lia.
    assert (Z.pos p = 2 ^ 0 * q) as ->.
    { rewrite Hp. replace (Z.max 0 (e - E)) with (e - E) in Heq by lia.
      replace (Z.max 0 (E - e)) with 0 in Heq by lia. lia. }
    replace E with (E - 0) at 1 by lia. apply round_aux_exact; lia.
  - replace (Z.max 0 (e - E)) with 0 in Heq by lia.
    replace (Z.max 0 (E - e)) with (E - e) in Heq by lia.
    assert (shl_align (Z.to_pos m) e E = (Z.to_pos m, e)) as ->.
    { unfold shl_align. destruct (E - e) eqn:?; [done..|lia]. }
    replace (Z.pos (Z.to_pos m)) with (2 ^ (E - e) * q) by (rewrite Z2Pos.id; lia).
    pose proof (round_aux_exact s q E (E - e)) as Hr.
    replace (E - (E - e)) with e in Hr by lia. apply Hr; lia.
Qed.

(** The representation of an integer below 2^53. *)
Lemma f64_of_int_repr k : 0 < k < 2 ^ 53 ->
  f64_of_int k = S754_finite false (Z.to_pos (2 ^ (53 - digits k) * k)) (digits k - 53).
Proof.
  intros Hk. pose proof (digits_le_bound k 53 Hk ltac:(lia)).
  pose proof (digits_pos k ltac:(lia)).
  pose proof (Z.pow_pos_nonneg 2 (53 - digits k) ltac:(lia) ltac:(lia)).
  unfold f64_of_int, binary_normalize. destruct k as [|p|p]; [lia| |lia].
  rewrite <-(Pos2Z.id p) at 1. rewrite (round_exact false (Z.pos p) 0) with
    (q := 2 ^ (53 - digits (Z.pos p)) * Z.pos p); try lia.
  - f_equal; lia.
  - replace (Z.max 0 (0 - (digits (Z.pos p) + 0 - 53))) with (53 - digits (Z.pos p)) by lia.
    replace (Z.max 0 (digits (Z.pos p) + 0 - 53 - 0)) with 0 by lia. lia.
Qed.

Lemma f64_sub_one k : 1 <= k < 2 ^ 53 ->
  f64_sub (f64_of_int k) f64_one = f64_of_int (k - 1).
Proof.
  intros Hk. pose proof (digits_le_bound k 53 ltac:(lia) ltac:(lia)).
  pose proof (digits_pos k ltac:(lia)).
  pose proof (Z.pow_pos_nonneg 2 (53 - digits k) ltac:(lia) ltac:(lia)).
  unfold f64_one. rewrite (f64_of_int_repr k), (f64_of_int_repr 1) by lia.
  unfold f64_sub, SFsub. change (digits 1) with 1.
  replace ((digits k - 53) `min` (1 - 53)) with (-52) by lia.
  destruct (shl_align_pos (Z.to_pos (2 ^ (53 - digits k) * k)) (digits k - 53) (-52))
    as (p & -> & Hp); [lia|].
  destruct (shl_align_pos (Z.to_pos (2 ^ (53 - 1) * 1)) (1 - 53) (-52))
    as (p1 & -> & Hp1); [lia|].
  rewrite Z2Pos.id in Hp by lia. rewrite Z.mul_assoc, <-Z.pow_add_r in Hp by lia.
  replace (digits k - 53 - -52 + (53 - digits k)) with 52 in Hp by lia.
  simpl fst. unfold cond_Zopp. rewrite Hp, Hp1.
  replace (2 ^ 52 * k - _) with (2 ^ 52 * (k - 1)) by (simpl; lia).
  destruct (Z.eq_dec k 1) as [->|Hne]; [done|].
  pose proof (digits_le_bound (k - 1) 53 ltac:(lia) ltac:(lia)).
  pose proof (digits_pos (k - 1) ltac:(lia)).
  pose proof (Z.pow_pos_nonneg 2 (53 - digits (k - 1)) ltac:(lia) ltac:(lia)).
  rewrite f64_of_int_repr by lia. unfold binary_normalize.
  assert (Hd : digits (2 ^ 52 * (k - 1)) = 52 + digits (k - 1)) by (apply digits_shift; lia).
  destruct (2 ^ 52 * (k - 1)) as [|r|r] eqn:Er; [lia| |lia].
  replace r with (Z.to_pos (2 ^ 52 * (k - 1))) by (by rewrite Er).
  rewrite <-Er in Hd.
  assert (0 < 2 ^ (53 - digits (k - 1)) * (k - 1)) by nia.
  rewrite (round_exact false _ (-52)) with (q := 2 ^ (53 - digits (k - 1)) * (k - 1));
    rewrite ?Hd; try lia.
  - f_equal; lia.
  - replace (Z.max 0 (-52 - (52 + digits (k - 1) + -52 - 53))) with 0 by lia.
    replace (Z.max 0 (52 + digits (k - 1) + -52 - 53 - -52)) with (digits (k - 1) - 1) by lia.
    rewrite Z.pow_0_r, Z.mul_1_r, <-Z.mul_assoc, (Z.mul_comm (k - 1)), Z.mul_assoc.
    rewrite <-Z.pow_add_r by lia. f_equal. f_equal. lia.
Qed.

(** Comparison of integers below 2^53. *)
Lemma f64_le_int j k : 0 <= j <= k -> k < 2 ^ 53 -> f64_le (f64_of_int j) (f64_of_int k) = true.
Proof.
  intros Hj Hk. destruct (Z.eq_dec j k) as [->|Hne].
  { apply f64_le_refl. destruct (Z.eq_dec k 0) as [->|]; [done|].
    by rewrite f64_of_int_repr by lia. }
  rewrite (f64_of_int_repr k) by lia. destruct (Z.eq_dec j 0) as [->|Hj0]; [done|].
  rewrite (f64_of_int_repr j) by lia. unfold f64_le, SFleb, SFcompare.
  pose proof (digits_bounds j ltac:(lia)). pose proof (digits_bounds k ltac:(lia)).
  pose proof (digits_le_bound k 53 ltac:(lia) ltac:(lia)). pose proof (digits_pos j ltac:(lia)).
  assert (digits j <= digits k).
  { destruct (Z_le_gt_dec (digits j) (digits k)); [done|].
    assert (2 ^ digits k <= 2 ^ (digits j - 1)) by (apply Z.pow_le_mono_r; lia). lia. }
  destruct (Z.compare_spec (digits j - 53) (digits k - 53)) as [Heq| |]; [|done|lia].
  replace (digits j) with (digits k) in * by lia.
  pose proof (Z.pow_pos_nonneg 2 (53 - digits k) ltac:(lia) ltac:(lia)).
  change (PosDef.Pos.compare_cont Eq) with Pos.compare.
  assert (Hlt : (Z.to_pos (2 ^ (53 - digits k) * j) < Z.to_pos (2 ^ (53 - digits k) * k))%positive).
  { assert (0 < 2 ^ (53 - digits k) * j) by nia.
    assert (0 < 2 ^ (53 - digits k) * k) by nia.
    assert (2 ^ (53 - digits k) * j < 2 ^ (53 - digits k) * k) by nia. lia. }
  unfold Pos.lt in Hlt. by rewrite Hlt.
Qed.

Lemma f64_of_int_not_nan k : 0 <= k < 2 ^ 53 -> is_nan (f64_of_int k) = false.
Proof.
  intros Hk. destruct (Z.eq_dec k 0) as [->|]; [done|]. by rewrite f64_of_int_repr by lia.
Qed.

(** ** Signs and magnitudes *)

(** Not NaN and not below zero. *)
Definition f64_nonneg (x : f64) : bool :=
  match x with
  | S754_zero _ | S754_infinity false | S754_finite false _ _ => true
  | _ => false
  end.

(** Zero, or positive with [2 ^ b] as an exclusive bound. *)
Definition f64_below (b : Z) (x : f64) : Prop :=
  match x with
  | S754_zero _ => True
  | S754_finite false m e => digits (Z.pos m) + e <= b
  | _ => False
  end.

Lemma digits_nonneg m : 0 <= m -> 0 <= digits m.
Proof. intros. destruct (Z.eq_dec m 0) as [->|]; [done|]. pose proof (digits_pos m). lia. Qed.

Lemma digits_mono a b : 0 <= a <= b -> digits a <= digits b.
Proof.
  intros H. destruct (Z.eq_dec a 0) as [->|]; [apply digits_nonneg; lia|].
  pose proof (digits_bounds b ltac:(lia)). apply digits_le_bound; [lia|].
  apply digits_nonneg. lia.
Qed.

Lemma digits_succ m : 0 <= m -> digits (m + 1) <= digits m + 1.
Proof.
  intros H. destruct (Z.eq_dec m 0) as [->|]; [done|].
  pose proof (digits_bounds m ltac:(lia)). pose proof (digits_pos m ltac:(lia)).
  apply digits_le_bound; [|lia]. rewrite Z.pow_add_r by lia. lia.
Qed.

Lemma digits_div m n : 0 <= m -> 0 <= n -> digits (m / 2 ^ n) <= Z.max 0 (digits m - n).
Proof.
  intros Hm Hn. destruct (Z.eq_dec (m / 2 ^ n) 0) as [->|Hne]; [simpl; lia|].
  assert (0 <= m / 2 ^ n) by (apply Z.div_pos; lia).
  assert (0 < m) by (destruct (Z.eq_dec m 0) as [->|]; [by rewrite Z.div_0_l in Hne by lia|lia]).
  pose proof (digits_bounds m ltac:(lia)) as [_ Hu].
  assert (2 ^ n <= m).
  { destruct (Z_lt_le_dec m (2 ^ n)); [|done]. by rewrite Z.div_small in Hne by lia. }
  assert (n < digits m).
  { destruct (Z_lt_le_dec n (digits m)); [done|].
    assert (2 ^ digits m <= 2 ^ n) by (apply Z.pow_le_mono_r; lia). lia. }
  rewrite Z.max_r by lia. apply digits_le_bound; [|lia]. split; [lia|].
  apply Z.div_lt_upper_bound; [lia|]. rewrite <-Z.pow_add_r by lia.
  by replace (n + (digits m - n)) with (digits m) by lia.
Qed.

Lemma shr_1_m r : 0 <= shr_m r -> shr_m (shr_1 r) = shr_m r / 2.
Proof.
  destruct r as [m b s]. simpl. intros Hm.
  destruct m as [|p|p]; [done| |lia]. rewrite <-Z.div2_div. by destruct p.
Qed.

Lemma iter_shr_m n r : 0 <= shr_m r ->
  shr_m (Nat.iter n shr_1 r) = shr_m r / 2 ^ Z.of_nat n.
Proof.
  intros Hm. induction n as [|n IH]; [by rewrite Z.div_1_r|].
  simpl Nat.iter. rewrite shr_1_m; rewrite IH; [|apply Z.div_pos; lia].
  rewrite Nat2Z.inj_succ, Z.pow_succ_r, Z.div_div by lia. f_equal. lia.
Qed.

(** The mantissa after [shr_fexp], and the exponent. *)
Lemma shr_fexp_spec m e l : 0 <= m ->
  let '(r, e') := shr_fexp 53 1024 m e l in
  0 <= shr_m r /\ digits (shr_m r) <= 53 /\ e' = Z.max e (fexp 53 1024 (digits m + e)) /\
  digits (shr_m r) + e' <= Z.max (digits m + e) e'.
Proof.
  intros Hm. unfold shr_fexp. fold (digits m).
  assert (Hr : shr_m (shr_record_of_loc m l) = m) by (by destruct l as [|[]]).
  assert (Hf : digits m + e - 53 <= fexp 53 1024 (digits m + e)) by (unfold fexp; lia).
  unfold shr. destruct (fexp 53 1024 (digits m + e) - e) as [|p|p] eqn:Hn.
  - rewrite Hr. split_and!; lia.
  - rewrite iter_pos_nat, iter_shr_m, Hr by lia. rewrite positive_nat_Z.
    pose proof (digits_div m (Z.pos p) Hm ltac:(lia)).
    split_and!; [apply Z.div_pos; lia|lia|lia|lia].
  - rewrite Hr. split_and!; lia.
Qed.

Lemma round_up_spec m l :
  0 <= m -> 0 <= round_nearest_even m l /\ digits (round_nearest_even m l) <= digits m + 1.
Proof.
  intros Hm. pose proof (digits_succ m Hm). pose proof (digits_nonneg m Hm).
  unfold round_nearest_even. repeat case_match; lia.
Qed.

(** Rounding a magnitude: the result is not negative, and bounded when the
    exact value is. *)
Lemma round_aux_nonneg m e l : 0 <= m -> f64_nonneg (binary_round_aux 53 1024 false m e l) = true.
Proof.
  intros Hm. unfold binary_round_aux. pose proof (shr_fexp_spec m e l Hm) as H1.
  destruct (shr_fexp 53 1024 m e l) as [r1 e1]. destruct H1 as (H1 & _).
  destruct (round_up_spec (shr_m r1) (loc_of_shr_record r1) H1) as [H2 _].
  pose proof (shr_fexp_spec _ e1 loc_Exact H2) as H3.
  destruct (shr_fexp 53 1024 _ e1 loc_Exact) as [r2 e2]. destruct H3 as (H3 & _).
  destruct (shr_m r2); [done|by destruct (_ <=? _)|lia].
Qed.

Lemma round_aux_below m e l b :
  0 <= m -> digits m + e <= b -> e <= b -> -1073 <= b <= 960 ->
  f64_below (b + 1) (binary_round_aux 53 1024 false m e l).
Proof.
  intros Hm Hd He Hb. unfold binary_round_aux. pose proof (shr_fexp_spec m e l Hm) as H1.
  destruct (shr_fexp 53 1024 m e l) as [r1 e1]. destruct H1 as (H1 & Hd1 & He1 & Hs1).
  destruct (round_up_spec (shr_m r1) (loc_of_shr_record r1) H1) as [H2 Hd2].
  pose proof (shr_fexp_spec _ e1 loc_Exact H2) as H3.
  destruct (shr_fexp 53 1024 _ e1 loc_Exact) as [r2 e2]. destruct H3 as (H3 & Hd3 & He2 & Hs2).
  unfold fexp, SpecFloat.emin in *.
  destruct (shr_m r2) as [|p|p]; [done| |lia].
  destruct (Z.leb_spec e2 (1024 - 53)); cbn [f64_below]; lia.
Qed.

Lemma shl_align_digits p e e' :
  digits (Z.pos (shl_align p e e').1) + (shl_align p e e').2 = digits (Z.pos p) + e /\
  (shl_align p e e').2 <= e.
Proof.
  unfold shl_align. destruct (e' - e) as [|d|d] eqn:Hd; simpl; [lia..|].
  split; [|lia]. unfold digits. simpl.
  assert (Hi : Z.pos (digits2_pos (Pos.iter xO p d)) = Z.pos (digits2_pos p) + Z.pos d).
  { rewrite Pos2Nat.inj_iter. revert p Hd. replace (Z.pos d) with (Z.of_nat (Pos.to_nat d)) by lia.
    intros p _. induction (Pos.to_nat d) as [|n IH]; simpl; [lia|].
    change (PosDef.Pos.succ) with Pos.succ. lia. }
  lia.
Qed.

Lemma f64_of_int_below n b : 0 <= n -> digits n <= b -> b <= 960 -> f64_below (b + 1) (f64_of_int n).
Proof.
  intros Hn Hd Hb. unfold f64_of_int, binary_normalize. destruct n as [|p|p]; [done| |lia].
  unfold binary_round. pose proof (shl_align_digits p 0 (fexp 53 1024 (digits (Z.pos p) + 0)))
    as [H1 H2]. destruct (shl_align _ _ _) as [mz ez]. cbn [fst snd] in *.
  pose proof (digits_pos (Z.pos p) ltac:(lia)).
  apply round_aux_below; lia.
Qed.

Lemma f64_div_below m e x b :
  f64_below b x -> 0 <= b - e <= 950 -> -2000 <= e <= 0 -> digits (Z.pos m) = 53 ->
  f64_below (b - e + 1) (f64_div x (S754_finite false m e)).
Proof.
  intros Hx Hb He Hm. destruct x as [s| | |[] mx ex]; try done. cbn [f64_below] in Hx. unfold f64_div, SFdiv. cbn [xorb].
  unfold SFdiv_core_binary. fold (digits (Z.pos mx)) (digits (Z.pos m)).
  pose proof (digits_pos (Z.pos mx) ltac:(lia)).
  set (e' := Z.min _ _). assert (Hs : 0 <= ex - e - e') by (subst e'; lia).
  set (m' := match ex - e - e' with Z0 => _ | Z.pos _ => _ | Z.neg _ => _ end).
  assert (Hm' : m' = 2 ^ (ex - e - e') * Z.pos mx).
  { subst m'. destruct (ex - e - e') eqn:Heq; [by rewrite Z.mul_1_l| |lia].
    rewrite Z.shiftl_mul_pow2 by lia. lia. }
  pose proof (Z.pow_pos_nonneg 2 (ex - e - e') ltac:(lia) Hs).
  pose proof (Z_div_mod m' (Z.pos m) ltac:(lia)) as Hdm.
  destruct (Z.div_eucl m' (Z.pos m)) as [q r]. destruct Hdm as [Hq Hr].
  assert (0 <= q <= m') by nia.
  assert (digits q <= (ex - e - e') + digits (Z.pos mx)).
  { rewrite <-digits_shift, <-Hm' by lia. by apply digits_mono. }
  apply round_aux_below; lia.
Qed.

Lemma f64_below_nonneg b x : f64_below b x -> f64_nonneg x = true.
Proof. by destruct x as [| | |[]]. Qed.

(** A finite magnitude times a finite non-negative price is not negative. *)
Lemma f64_mul_nonneg b x y :
  f64_below b x -> f64_nonneg y = true -> f64_lt y (S754_infinity false) = true ->
  f64_nonneg (f64_mul x y) = true.
Proof.
  intros Hx Hy Hfin. destruct x as [s| | |[] mx ex], y as [s'|[]| |[] my ey]; try done.
  apply round_aux_nonneg. lia.
Qed.

Lemma f64_add_nonneg x y :
  f64_nonneg x = true -> f64_nonneg y = true -> f64_nonneg (f64_add x y) = true.
Proof.
  intros Hx Hy. destruct x as [s|[]| |[] mx ex], y as [s'|[]| |[] my ey]; try done.
  - by destruct s, s'.
  - simpl. unfold binary_round.
    destruct (shl_align _ _ _) as [mz ez]. by apply round_aux_nonneg.
Qed.

Lemma f64_of_int_nonneg n : 0 <= n -> f64_nonneg (f64_of_int n) = true.
Proof.
  intros Hn. unfold f64_of_int, binary_normalize. destruct n as [|p|p]; [done| |lia].
  unfold binary_round. destruct (shl_align _ _ _). apply round_aux_nonneg. lia.
Qed.

Lemma f64_div_nonneg x m e :
  f64_nonneg x = true -> f64_nonneg (f64_div x (S754_finite false m e)) = true.
Proof.
  intros Hx. destruct x as [s|[]| |[] mx ex]; try done.
  unfold f64_div, SFdiv. cbn [xorb]. unfold SFdiv_core_binary.
  set (s := ex - e - _).
  set (m' := match s with Z0 => _ | Z.pos _ => _ | Z.neg _ => _ end).
  assert (Hm' : 0 <= m').
  { subst m'. destruct s; [lia| |done]. rewrite Z.shiftl_mul_pow2 by lia. lia. }
  pose proof (Z_div_mod m' (Z.pos m) ltac:(lia)) as Hdm.
  destruct (Z.div_eucl m' (Z.pos m)) as [q r]. destruct Hdm as [Hq Hr].
  apply round_aux_nonneg. nia.
Qed.

(** A magnitude, possibly infinite, times a positive finite number. *)
Lemma f64_mul_pos_nonneg x y :
  f64_nonneg x = true -> f64_lt f64_zero y = true -> f64_lt y (S754_infinity false) = true ->
  f64_nonneg (f64_mul x y) = true.
Proof.
  intros Hx Hy Hf. destruct x as [s|[]| |[] mx ex], y as [s'|[]| |[] my ey]; try done.
  apply round_aux_nonneg. lia.
Qed.

Lemma digits_mul a b : 0 <= a -> 0 <= b -> digits (a * b) <= digits a + digits b.
Proof.
  intros Ha Hb. pose proof (digits_nonneg a Ha). pose proof (digits_nonneg b Hb).
  destruct (Z.eq_dec a 0) as [->|]; [done|].
  destruct (Z.eq_dec b 0) as [->|]; [rewrite Z.mul_0_r; simpl; lia|].
  pose proof (digits_bounds a ltac:(lia)). pose proof (digits_bounds b ltac:(lia)).
  apply digits_le_bound; [|lia]. rewrite Z.pow_add_r by lia. nia.
Qed.

Lemma f64_mul_below bx x m e :
  f64_below bx x -> -1073 <= bx + digits (Z.pos m) + e <= 960 ->
  f64_below (bx + digits (Z.pos m) + e + 1) (f64_mul x (S754_finite false m e)).
Proof.
  intros Hx Hb. destruct x as [s| | |[] mx ex]; try done. cbn [f64_below] in Hx.
  unfold f64_mul, SFmul. cbn [xorb].
  pose proof (digits_mul (Z.pos mx) (Z.pos m) ltac:(lia) ltac:(lia)).
  pose proof (digits_pos (Z.pos mx) ltac:(lia)). pose proof (digits_pos (Z.pos m) ltac:(lia)).
  change (Z.pos (mx * m)) with (Z.pos mx * Z.pos m). apply round_aux_below; lia.
Qed.
