(* ===== verification/Json.v ===== *)
(** The interface of the [serde_json] crate the program is written against,
    and one concrete instance of it used by the witnesses.

    [serde_json] is not part of the repository: its [Value] type, its parser
    and its printer are a type class, the documented behaviour the code relies
    on is the class [SerdeJsonLaws], and every component is parametric in the
    first. *)

From Stdlib Require Import Ascii.
From S2P Require Import Prelude RustStr Float64.
Local Open Scope Z_scope.

Class SerdeJson := {
  Value : Type;
  (** [==] of the derived [PartialEq]. *)
  value_eqb : Value -> Value -> bool;
  (** The variants of the public enum that the code builds. *)
  VNull : Value;
  VU64 : Z -> Value;
  VString : string -> Value;
  VObject : gmap string Value -> Value;
  VArray : list Value -> Value;
  (** [as_str], [as_bool], [as_u64], [as_f64], [as_array], [as_object]. *)
  as_str : Value -> option string;
  as_bool : Value -> option bool;
  as_u64 : Value -> option Z;
  as_f64 : Value -> option f64;
  as_array : Value -> option (list Value);
  as_object : Value -> option (gmap string Value);
  (** [from_slice]/[from_str] (the error is its message) and [to_vec]. *)
  from_slice : bytes -> Res string Value;
  to_vec : Value -> Res string bytes
}.

Section Access.
Context {J : SerdeJson}.

(** [Value::get(key)]: the field of an object, [None] on other variants. *)
Definition get (k : string) (v : Value) : option Value :=
  as_object v ≫= (.!! k).

(** [*v.get_mut(k).unwrap() = x] on an object. *)
Definition set_field (k : string) (x v : Value) : Value :=
  match as_object v with Some m => VObject (<[k:=x]> m) | None => v end.

Definition get_str (k : string) (v : Value) : option string := get k v ≫= as_str.

(** [v.get(k).and_then(Value::as_u64).unwrap_or(0)]. *)
Definition u64_field (k : string) (v : Value) : Z :=
  default 0 (get k v ≫= as_u64).
End Access.

(** What the code relies on: the accessors recognise the constructors, [u64]s
    are in range, printing a value never fails and parsing the text again
    preserves the strings of an object's fields. *)
Class SerdeJsonLaws (J : SerdeJson) : Prop := {
  as_object_VObject m : as_object (VObject m) = Some m;
  as_str_VString s : as_str (VString s) = Some s;
  as_u64_VU64 n : in_u64 n -> as_u64 (VU64 n) = Some n;
  as_u64_range v n : as_u64 v = Some n -> in_u64 n;
  as_array_VArray l : as_array (VArray l) = Some l;
  as_object_VNull : as_object VNull = None;
  to_vec_from_slice v : exists b w, to_vec v = Ok b /\ from_slice b = Ok w /\
    (forall k, get_str k w = get_str k v)
}.

Section Laws.
Context `{HJ : SerdeJsonLaws}.

Lemma get_VObject k m : get k (VObject m) = m !! k.
Proof. unfold get. by rewrite as_object_VObject. Qed.

Lemma get_VNull k : get k VNull = None.
Proof. unfold get. by rewrite as_object_VNull. Qed.

Lemma get_set_field k x v : is_Some (get k v) -> get k (set_field k x v) = Some x.
Proof.
  unfold get, set_field. intros [y Hy]. destruct (as_object v) eqn:Hv; [|done].
  rewrite as_object_VObject. simpl. apply lookup_insert_eq.
Qed.

Lemma get_set_field_ne k k' x v : k <> k' -> get k' (set_field k x v) = get k' v.
Proof.
  intros Hne. unfold get, set_field. destruct (as_object v) as [m|] eqn:Hv.
  - rewrite as_object_VObject. simpl. by rewrite lookup_insert_ne.
  - by rewrite Hv.
Qed.

Lemma u64_field_range k v : in_u64 (u64_field k v).
Proof.
  unfold u64_field, in_u64, u64_max.
  destruct (get k v) as [w|]; simpl; [|lia].
  destruct (as_u64 w) eqn:Hw; simpl; [by apply as_u64_range in Hw|lia].
Qed.
End Laws.

#[export] Hint Resolve u64_field_range : proxy.

(** ** A concrete instance *)

Module Model.

#[local] Unset Elimination Schemes.
Inductive jv : Type :=
| JNull
| JBool (b : bool)
| JInt (n : Z)
| JFloat (x : f64)
| JStr (s : string)
| JArr (l : list jv)
| JObj (l : list (string * jv)).
#[local] Set Elimination Schemes.

Section Induction.
Variable P : jv -> Prop.
Hypothesis Hnull : P JNull.
Hypothesis Hbool : forall b, P (JBool b).
Hypothesis Hint : forall n, P (JInt n).
Hypothesis Hfloat : forall x, P (JFloat x).
Hypothesis Hstr : forall s, P (JStr s).
Hypothesis Harr : forall l, Forall P l -> P (JArr l).
Hypothesis Hobj : forall l, Forall (fun kv => P kv.2) l -> P (JObj l).

Fixpoint jv_nested_ind (v : jv) : P v :=
  match v with
  | JNull => Hnull
  | JBool b => Hbool b
  | JInt n => Hint n
  | JFloat x => Hfloat x
  | JStr s => Hstr s
  | JArr l => Harr l
      ((fix go l : Forall P l :=
          match l with
          | [] => List.Forall_nil P
          | x :: l' => List.Forall_cons P x l' (jv_nested_ind x) (go l')
          end) l)
  | JObj l => Hobj l
      ((fix go l : Forall (fun kv => P kv.2) l :=
          match l with
          | [] => List.Forall_nil _
          | kv :: l' => List.Forall_cons _ kv l' (jv_nested_ind kv.2) (go l')
          end) l)
  end.
End Induction.

(** An injective coding into [gen_tree], which gives decidable equality and
    the serialisation. *)
Definition leaf : Type := bool + Z + f64 + string.

#[local] Instance f64_countable : Countable f64.
Proof.
  refine (inj_countable' (fun x => match x with
    | S754_zero s => inl (inl (inl s))
    | S754_infinity s => inl (inl (inr s))
    | S754_nan => inl (inr tt)
    | S754_finite s m e => inr (s, m, e) end)
    (fun x => match x with
    | inl (inl (inl s)) => S754_zero s
    | inl (inl (inr s)) => S754_infinity s
    | inl (inr tt) => S754_nan
    | inr (s, m, e) => S754_finite s m e end) _).
  by intros [].
Defined.

Fixpoint to_tree (v : jv) : gen_tree leaf :=
  match v with
  | JNull => GenNode 0 []
  | JBool b => GenLeaf (inl (inl (inl b)))
  | JInt n => GenLeaf (inl (inl (inr n)))
  | JFloat x => GenLeaf (inl (inr x))
  | JStr s => GenLeaf (inr s)
  | JArr l => GenNode 1 (to_tree <$> l)
  | JObj l => GenNode 2 ((fun kv => GenNode 3 [GenLeaf (inr kv.1); to_tree kv.2]) <$> l)
  end.

Fixpoint of_tree (t : gen_tree leaf) : jv :=
  match t with
  | GenLeaf (inl (inl (inl b))) => JBool b
  | GenLeaf (inl (inl (inr n))) => JInt n
  | GenLeaf (inl (inr x)) => JFloat x
  | GenLeaf (inr s) => JStr s
  | GenNode 1 l => JArr (of_tree <$> l)
  | GenNode 2 l => JObj ((fun t => match t with
      | GenNode 3 [GenLeaf (inr k); u] => (k, of_tree u)
      | _ => (EmptyString, JNull)
      end) <$> l)
  | GenNode _ _ => JNull
  end.

Lemma of_to_tree v : of_tree (to_tree v) = v.
Proof.
  induction v as [| | | | |l IH|l IH] using jv_nested_ind; try done; simpl; f_equal.
  - induction IH as [|x l Hx _ IH]; [done|]. csimpl. by rewrite Hx, IH.
  - induction IH as [|[k x] l Hx _ IH]; [done|]. csimpl in *. by rewrite Hx, IH.
Qed.

#[local] Instance jv_eq_dec : EqDecision jv.
Proof.
  intros v w. refine (cast_if (decide (to_tree v = to_tree w))); [|congruence].
  by rewrite <-(of_to_tree v), <-(of_to_tree w), e.
Defined.
#[local] Instance jv_countable : Countable jv.
Proof. exact (inj_countable' to_tree of_tree of_to_tree). Defined.

(** Serialisation: the positive number of the coding, written in binary with
    one byte per bit. *)
Fixpoint pos_to_bytes (p : positive) : bytes :=
  match p with
  | xH => EmptyString
  | xO p' => String "0"%char (pos_to_bytes p')
  | xI p' => String "1"%char (pos_to_bytes p')
  end.

Fixpoint bytes_to_pos (b : bytes) : option positive :=
  match b with
  | EmptyString => Some xH
  | String "0"%char b' => xO <$> bytes_to_pos b'
  | String "1"%char b' => xI <$> bytes_to_pos b'
  | String _ _ => None
  end.

Lemma bytes_pos_bytes p : bytes_to_pos (pos_to_bytes p) = Some p.
Proof. induction p as [p IH|p IH|]; simpl; by rewrite ?IH. Qed.

Definition print (v : jv) : bytes := pos_to_bytes (encode v).
Definition parse (b : bytes) : Res string jv :=
  res_of_option "expected value" (bytes_to_pos b ≫= decode).

Lemma parse_print v : parse (print v) = Ok v.
Proof. unfold parse, print. rewrite bytes_pos_bytes. simpl. by rewrite decode_encode. Qed.

Lemma parse_returns b : parse b <> Panic.
Proof. unfold parse. by destruct (_ ≫= _). Qed.

Definition json : SerdeJson := {|
  Value := jv;
  value_eqb v w := bool_decide (v = w);
  VNull := JNull;
  VU64 := JInt;
  VString := JStr;
  VObject m := JObj (map_to_list m);
  VArray := JArr;
  as_str v := match v with JStr s => Some s | _ => None end;
  as_bool v := match v with JBool b => Some b | _ => None end;
  as_u64 v := match v with
    | JInt n => if (0 <=? n) && (n <=? u64_max) then Some n else None
    | _ => None end;
  as_f64 v := match v with
    | JInt n => Some (f64_of_int n) | JFloat x => Some x | _ => None end;
  as_array v := match v with JArr l => Some l | _ => None end;
  as_object v := match v with JObj l => Some (list_to_map l) | _ => None end;
  from_slice := parse;
  to_vec v := Ok (print v)
|}.

Lemma json_laws : SerdeJsonLaws json.
Proof.
  split; simpl; try done.
  - intros m. by rewrite list_to_map_to_list.
  - intros n [H1 H2]. apply Z.leb_le in H1, H2. by rewrite H1, H2.
  - intros [| |z| | | |] n H; simplify_eq. unfold in_u64.
    destruct (Z.leb_spec 0 z), (Z.leb_spec z u64_max); simplify_eq/=. lia.
  - intros v. exists (print v), v. by rewrite parse_print.
Qed.
End Model.
