(* ===== verification/Http.v ===== *)
(** The vocabulary of the [http] crate the program manipulates: status codes
    as numbers, header maps as the sequence of (name, value) pairs their
    iterator yields, names in lower case. *)

From S2P Require Import Prelude RustStr.
Local Open Scope Z_scope.

Abbreviation StatusCode := Z.
Abbreviation HeaderMap := (list (string * bytes)).

Definition is_success (s : StatusCode) : bool := (200 <=? s) && (s <? 300).
Definition is_client_error (s : StatusCode) : bool := (400 <=? s) && (s <? 500).
Definition is_server_error (s : StatusCode) : bool := (500 <=? s) && (s <? 600).

(** [HeaderMap::get]: the first value of the name. *)
Fixpoint header_get (name : string) (h : HeaderMap) : option bytes :=
  match h with
  | [] => None
  | (k, v) :: h' => if String.eqb k name then Some v else header_get name h'
  end.

Definition contains_key (name : string) (h : HeaderMap) : bool :=
  existsb (fun kv => String.eqb kv.1 name) h.

(** [HeaderMap::insert] replaces every value of the name. *)
Definition header_insert (name : string) (v : bytes) (h : HeaderMap) : HeaderMap :=
  List.filter (fun kv => negb (String.eqb kv.1 name)) h ++ [(name, v)].

(** [RequestBuilder::header] appends. *)
Definition header_append (name : string) (v : bytes) (h : HeaderMap) : HeaderMap :=
  h ++ [(name, v)].

(** [HeaderValue::to_str().ok()]: visible ASCII and tabs. *)
Fixpoint visible_ascii (s : bytes) : bool :=
  match s with
  | EmptyString => true
  | String a s' =>
      let n := byte_val a in
      ((32 <=? n) && (n <? 127) || (n =? 9)) && visible_ascii s'
  end.

Definition to_str (v : bytes) : option string := if visible_ascii v then Some v else None.

Definition header_str (name : string) (h : HeaderMap) : option string :=
  header_get name h ≫= to_str.

Lemma header_get_Some name h v : header_get name h = Some v -> (name, v) ∈ h.
Proof.
  induction h as [|[k w] h IH]; simpl; [done|].
  destruct (String.eqb_spec k name) as [->|]; intros; simplify_eq; set_solver.
Qed.

Lemma header_get_filter name (P : string * bytes -> bool) h :
  (forall v, P (name, v) = true) ->
  header_get name (List.filter P h) = header_get name h.
Proof.
  intros HP. induction h as [|[k w] h IH]; simpl; [done|].
  destruct (P (k, w)) eqn:HPk; simpl; destruct (String.eqb_spec k name) as [->|]; auto.
  by rewrite HP in HPk.
Qed.

Lemma header_get_not_in name h : (forall v, (name, v) ∉ h) -> header_get name h = None.
Proof.
  intros Hn. destruct (header_get name h) eqn:E; [|done].
  apply header_get_Some in E. by destruct (Hn _ E).
Qed.

Lemma header_get_app name h1 h2 :
  header_get name (h1 ++ h2) =
    match header_get name h1 with Some v => Some v | None => header_get name h2 end.
Proof. induction h1 as [|[k w] h IH]; simpl; [done|]. by destruct (String.eqb k name). Qed.

(** [HeaderMap::get_all]. *)
Fixpoint header_values (name : string) (h : HeaderMap) : list bytes :=
  match h with
  | [] => []
  | (k, v) :: h' =>
      if String.eqb k name then v :: header_values name h' else header_values name h'
  end.

Lemma header_values_app name h1 h2 :
  header_values name (h1 ++ h2) = header_values name h1 ++ header_values name h2.
Proof.
  induction h1 as [|[k w] h IH]; simpl; [done|]. rewrite IH. by destruct (String.eqb k name).
Qed.

(** A filter on names keeps all the values of a name or none. *)
Lemma header_values_filter name (P : string -> bool) h :
  header_values name (List.filter (fun kv => P kv.1) h) =
    if P name then header_values name h else [].
Proof.
  induction h as [|[k w] h IH]; simpl; [by destruct (P name)|].
  destruct (String.eqb_spec k name) as [->|Hne].
  - destruct (P name); simpl; rewrite ?IH; [|done]. by rewrite String.eqb_refl.
  - destruct (P k); simpl; rewrite ?IH; [|done].
    by destruct (String.eqb_spec k name).
Qed.

Lemma header_values_insert name k v h :
  header_values name (header_insert k v h) =
    if String.eqb k name then [v] else header_values name h.
Proof.
  unfold header_insert. rewrite header_values_app.
  rewrite (header_values_filter name (fun x => negb (String.eqb x k))). simpl.
  rewrite (String.eqb_sym name k). destruct (String.eqb k name); simpl; [done|].
  apply app_nil_r.
Qed.

Lemma header_get_values name h : header_get name h = head (header_values name h).
Proof. induction h as [|[k w] h IH]; simpl; [done|]. by destruct (String.eqb k name). Qed.
