(* ===== verification/Billing.v ===== *)
(** Time, pricing, billing, quota and channel health:
    [crates/model-router/src/types.rs]. *)

From S2P Require Import Prelude RustStr Float64.
Local Open Scope Z_scope.

(** ** Time

    An [Instant] and a [Duration] are nanosecond counts; a hook reads the
    clocks once and receives the reading as an argument. *)
Record Clock := {
  now : Z;          (* [Instant::now()] *)
  utc_year : Z;     (* [chrono::Utc::now().year()] *)
  utc_month : Z     (* [.month()], 1 to 12 *)
}.

Definition NANOS_PER_SEC : Z := 10 ^ 9.
Definition from_secs (s : Z) : Z := s * NANOS_PER_SEC.
Definition from_millis (ms : Z) : Z := ms * 10 ^ 6.
Definition DURATION_MAX : Z := 2 ^ 64 * NANOS_PER_SEC - 1.

(** [Duration * u32], which panics ([None]) on overflow. *)
Definition duration_mul (d k : Z) : option Z :=
  if d * k <=? DURATION_MAX then Some (d * k) else None.

(** [t.elapsed()] and [now.duration_since(t)] saturate at zero. *)
Definition elapsed (c : Clock) (t : Z) : Z := Z.max 0 (now c - t).

(** [Duration::as_secs_f64]. *)
Definition as_secs_f64 (d : Z) : f64 :=
  f64_add (f64_of_int (d / NANOS_PER_SEC))
          (f64_div (f64_of_int (d mod NANOS_PER_SEC)) (f64_of_int NANOS_PER_SEC)).

(** ** Pricing and billing *)

Inductive BillingDimension :=
| Tokens
| Duration_ (resolution : option string)
| Images (quality : option string).

Record TokenPrices := {
  input_per_mtok : f64;
  output_per_mtok : f64;
  cache_write_per_mtok : option f64;
  cache_read_per_mtok : option f64;
  thinking_per_mtok : option f64
}.

Inductive TierPrice :=
| Token (p : TokenPrices)
| Unit (per_unit : f64).

Record PricingTier := { up_to : option Z; price : TierPrice }.

Inductive Pricing :=
| PerToken (p : TokenPrices) (currency : string)
| Credits (credits_per_mtok_input credits_per_mtok_output credits_per_request : option f64)
| CharBased (price_per_million_chars : f64) (output_multiplier : option f64)
| PerUnit (metric : BillingDimension) (per_unit : f64) (currency : string)
| Tiered (dimension : BillingDimension) (tiers : list PricingTier) (currency : string).

Inductive Quota :=
| Unlimited
| MaxRequests (per_month : Z)
| MaxTokens (per_month : Z).

Inductive ExhaustedAction := FallbackToMetered | Block.

Inductive ChannelBilling :=
| Metered (pricing : Pricing)
| FlatFee (monthly_cost_hint : option f64) (quota : option Quota)
          (on_exhausted : ExhaustedAction).

#[export] Instance BillingDimension_eq_dec : EqDecision BillingDimension.
Proof. solve_decision. Defined.
#[export] Instance TokenPrices_eq_dec : EqDecision TokenPrices.
Proof. solve_decision. Defined.
#[export] Instance TierPrice_eq_dec : EqDecision TierPrice.
Proof. solve_decision. Defined.
#[export] Instance PricingTier_eq_dec : EqDecision PricingTier.
Proof. solve_decision. Defined.
#[export] Instance Pricing_eq_dec : EqDecision Pricing.
Proof. solve_decision. Defined.
#[export] Instance Quota_eq_dec : EqDecision Quota.
Proof. solve_decision. Defined.
#[export] Instance ExhaustedAction_eq_dec : EqDecision ExhaustedAction.
Proof. solve_decision. Defined.
#[export] Instance ChannelBilling_eq_dec : EqDecision ChannelBilling.
Proof. solve_decision. Defined.

Record FlatFeeConfig := {
  ffc_monthly_cost_hint : option f64;
  ffc_quota : option Quota;
  ffc_on_exhausted : option ExhaustedAction
}.

(** The deserialisers and the serialiser serde derives for these types; the file
    Serde defines them. *)
Class PricingCodec := {
  parse_pricing : string -> Res string Pricing;
  parse_flat_fee : string -> option FlatFeeConfig;
  print_pricing : Pricing -> option string
}.

Definition from_storage `{PricingCodec} (billing_str pricing_json : string)
    : Res string ChannelBilling :=
  if bool_decide (billing_str = "metered") then
    pricing ← map_err (fun e => "failed to parse pricing JSON: " +:+ e)
                (parse_pricing pricing_json);
    mret (Metered pricing)
  else if bool_decide (billing_str = "flatfee") then
    let cfg := default {| ffc_monthly_cost_hint := None; ffc_quota := None;
                          ffc_on_exhausted := None |} (parse_flat_fee pricing_json) in
    Ok (FlatFee (ffc_monthly_cost_hint cfg) (ffc_quota cfg)
                (default FallbackToMetered (ffc_on_exhausted cfg)))
  else Err ("unknown billing type: " +:+ billing_str).

Definition is_flat_fee (b : ChannelBilling) : bool :=
  match b with FlatFee _ _ _ => true | Metered _ => false end.

Definition pricing_of (b : ChannelBilling) : option Pricing :=
  match b with Metered p => Some p | FlatFee _ _ _ => None end.

(** ** Monthly quota *)

Record QuotaUsage := {
  requests_this_month : Z;
  tokens_this_month : Z;
  month_key : Z
}.

(** [u32::try_from(year).unwrap_or(2026) * 12 + month]. *)
Definition current_month_key (c : Clock) : Z :=
  let y := if (0 <=? utc_year c) && (utc_year c <=? u32_max) then utc_year c else 2026 in
  wrap_u32 (wrap_u32 (y * 12) + utc_month c).

Definition QuotaUsage_new (c : Clock) : QuotaUsage :=
  {| requests_this_month := 0; tokens_this_month := 0; month_key := current_month_key c |}.

Definition maybe_reset (c : Clock) (u : QuotaUsage) : QuotaUsage :=
  let current := current_month_key c in
  if negb (current =? month_key u)
  then {| requests_this_month := 0; tokens_this_month := 0; month_key := current |}
  else u.

Definition record_usage (c : Clock) (tokens : Z) (u : QuotaUsage) : QuotaUsage :=
  let u := maybe_reset c u in
  {| requests_this_month := wrap_u64 (requests_this_month u + 1);
     tokens_this_month := wrap_u64 (tokens_this_month u + tokens);
     month_key := month_key u |}.

Definition is_within_quota (u : QuotaUsage) (quota : option Quota) : bool :=
  match quota with
  | None | Some Unlimited => true
  | Some (MaxRequests per_month) => requests_this_month u <? per_month
  | Some (MaxTokens per_month) => tokens_this_month u <? per_month
  end.

(** ** Channel health *)

Inductive ChannelHealth := Healthy | Unhealthy.

#[export] Instance ChannelHealth_eq_dec : EqDecision ChannelHealth.
Proof. solve_decision. Defined.

Record ChannelState := {
  health : ChannelHealth;
  failed_at : option Z;
  consecutive_failures : Z
}.

#[export] Instance ChannelState_eq_dec : EqDecision ChannelState.
Proof. solve_decision. Defined.

Definition ChannelState_new : ChannelState :=
  {| health := Healthy; failed_at := None; consecutive_failures := 0 |}.

Definition record_failure (c : Clock) (s : ChannelState) : ChannelState :=
  let n := wrap_u32 (consecutive_failures s + 1) in
  if 3 <=? n
  then {| health := Unhealthy; failed_at := Some (now c); consecutive_failures := n |}
  else {| health := health s; failed_at := failed_at s; consecutive_failures := n |}.

Definition record_success (s : ChannelState) : ChannelState :=
  {| health := Healthy; failed_at := None; consecutive_failures := 0 |}.

Definition mark_unhealthy (c : Clock) (s : ChannelState) : ChannelState :=
  {| health := Unhealthy; failed_at := Some (now c); consecutive_failures := 3 |}.

Definition mark_rate_limited (c : Clock) (s : ChannelState) : ChannelState :=
  {| health := Unhealthy; failed_at := Some (now c); consecutive_failures := 1 |}.

Definition exponential_cooldown (failures base : Z) : option Z :=
  if failures <=? 1 then Some base
  else if failures =? 2 then duration_mul base 5
  else duration_mul base 15.

Definition RATE_LIMIT_COOLDOWN : Z := from_secs 30.
Definition BASE_COOLDOWN : Z := from_secs 60.

Definition is_none_or {A} (f : A -> bool) (o : option A) : bool :=
  match o with None => true | Some a => f a end.

(** [default] is never used: the constants do not overflow
    (lemma [exponential_cooldown_base]). *)
Definition is_tryable_past_cooldown (c : Clock) (s : ChannelState) : bool :=
  match health s with
  | Healthy => true
  | Unhealthy =>
      let effective :=
        if consecutive_failures s <=? 1 then RATE_LIMIT_COOLDOWN
        else default 0 (exponential_cooldown (consecutive_failures s) BASE_COOLDOWN) in
      is_none_or (fun t => effective <=? elapsed c t) (failed_at s)
  end.

(** [None]: the multiplication of [base_cooldown] overflows and panics. *)
Definition is_tryable (c : Clock) (base_cooldown : Z) (s : ChannelState) : option bool :=
  match health s with
  | Healthy => Some true
  | Unhealthy =>
      effective ← exponential_cooldown (consecutive_failures s) base_cooldown;
      mret (is_none_or (fun t => effective <=? elapsed c t) (failed_at s))
  end.

(** ** Facts *)

Lemma exponential_cooldown_base n :
  exponential_cooldown n BASE_COOLDOWN =
    Some (if n <=? 1 then from_secs 60 else if n =? 2 then from_secs 300 else from_secs 900).
Proof.
  unfold exponential_cooldown. destruct (n <=? 1); [done|]. by destruct (n =? 2).
Qed.

(** The cooldown a state is under, in closed form. *)
Definition cooldown_of (s : ChannelState) : Z :=
  if consecutive_failures s <=? 1 then from_secs 30
  else if consecutive_failures s =? 2 then from_secs 300 else from_secs 900.

(** The shape every reachable health state has. *)
Definition health_wf (s : ChannelState) : Prop :=
  in_u32 (consecutive_failures s) /\
  match health s with
  | Healthy => failed_at s = None /\ consecutive_failures s <= 2
  | Unhealthy => is_Some (failed_at s)
  end.

Lemma tryable_spec c s t :
  health s = Unhealthy -> failed_at s = Some t ->
  is_tryable_past_cooldown c s = true <-> t + cooldown_of s <= now c \/ cooldown_of s <= 0.
Proof.
  intros Hh Hf. unfold is_tryable_past_cooldown, cooldown_of, elapsed.
  rewrite Hh, Hf, exponential_cooldown_base. simpl.
  unfold RATE_LIMIT_COOLDOWN, from_secs, NANOS_PER_SEC.
  destruct (consecutive_failures s <=? 1), (consecutive_failures s =? 2);
    rewrite Z.leb_le; lia.
Qed.

Lemma cooldown_pos s : 0 < cooldown_of s.
Proof. unfold cooldown_of, from_secs, NANOS_PER_SEC. repeat case_match; lia. Qed.

Lemma cooldown_bound s : cooldown_of s <= from_secs 900.
Proof. unfold cooldown_of, from_secs, NANOS_PER_SEC. repeat case_match; lia. Qed.

Lemma not_tryable_in_cooldown c s t :
  health s = Unhealthy -> failed_at s = Some t -> now c < t + cooldown_of s ->
  is_tryable_past_cooldown c s = false.
Proof.
  intros Hh Hf Hlt. pose proof (cooldown_pos s).
  apply not_true_is_false. rewrite (tryable_spec c s t) by done. lia.
Qed.

Lemma tryable_after_cooldown c s t :
  health s = Unhealthy -> failed_at s = Some t -> t + cooldown_of s <= now c ->
  is_tryable_past_cooldown c s = true.
Proof. intros Hh Hf Hle. apply (tryable_spec c s t); auto. Qed.

Lemma current_month_key_range c : in_u32 (current_month_key c).
Proof. apply wrap_u32_range. Qed.
