(* ===== verification/Types.v ===== *)
(** Core domain types: [crates/core/src/types.rs], [error.rs],
    [extensions.rs], [compression.rs] and the context value types. *)

From S2P Require Import Prelude RustStr Float64 Json Http Billing.
Local Open Scope Z_scope.

(** [llm_bridge_core::model::ApiFormat], a foreign enum the code matches with
    a catch-all arm: [FutureFormat] stands for the variants it does not name. *)
Inductive ApiFormat := AnthropicMessages | OpenaiChat | OpenaiResponses | FutureFormat.

#[export] Instance ApiFormat_eq_dec : EqDecision ApiFormat.
Proof. solve_decision. Defined.

Definition detect_api_format (path : string) : option ApiFormat :=
  if ends_with "/v1/messages" path || String.eqb path "/v1/messages" then
    Some AnthropicMessages
  else if ends_with "/v1/chat/completions" path || String.eqb path "/v1/chat/completions" then
    Some OpenaiChat
  else if ends_with "/v1/responses" path || String.eqb path "/v1/responses" then
    Some OpenaiResponses
  else None.

Inductive AgentType := Claude | Codex | Gemini | OpenCode | OpenClaw | Hermes | Unknown.

#[export] Instance AgentType_eq_dec : EqDecision AgentType.
Proof. solve_decision. Defined.

Definition agent_to_string (a : AgentType) : string :=
  match a with
  | Claude => "claude-code" | Codex => "codex" | Gemini => "gemini"
  | OpenCode => "opencode" | OpenClaw => "openclaw" | Hermes => "hermes"
  | Unknown => "unknown"
  end.

Definition agent_of_header (agent : string) : AgentType :=
  let a := to_lowercase agent in
  let same x := String.eqb a x in
  if same "claude" || same "claude-code" then Claude
  else if same "codex" then Codex
  else if same "gemini" || same "gemini-cli" then Gemini
  else if same "opencode" then OpenCode
  else if same "openclaw" then OpenClaw
  else if same "hermes" then Hermes
  else Unknown.

Definition agent_of_user_agent (ua : string) : option AgentType :=
  let u := to_lowercase ua in
  if str_contains "claude-code" u || str_contains "claude" u then Some Claude
  else if str_contains "codex" u then Some Codex
  else if str_contains "gemini-cli" u || str_contains "gemini" u then Some Gemini
  else if str_contains "opencode" u then Some OpenCode
  else if str_contains "openclaw" u then Some OpenClaw
  else if str_contains "hermes" u then Some Hermes
  else None.

Definition agent_of_path (headers : HeaderMap) (path : string) : AgentType :=
  if str_contains "/v1/messages" path && contains_key "anthropic-beta" headers then Claude
  else if str_contains "/v1/responses" path && contains_key "openai-organization" headers
  then Codex
  else if str_contains "/v1/chat/completions" path && contains_key "x-goog-api-key" headers
  then Gemini
  else Unknown.

Definition detect_agent_type (headers : HeaderMap) (path : string) : AgentType :=
  match header_str "x-agent-type" headers with
  | Some agent => agent_of_header agent
  | None =>
      match header_str "user-agent" headers ≫= agent_of_user_agent with
      | Some a => a
      | None => agent_of_path headers path
      end
  end.

(** ** Requests and responses *)

Record ProxyRequest := {
  req_method : string;
  req_path : string;
  req_headers : HeaderMap;
  req_body : bytes
}.

Record ProxyResponse := {
  res_status : StatusCode;
  res_headers : HeaderMap;
  res_body : bytes;
  res_is_streaming : bool
}.

Definition with_body (b : bytes) (r : ProxyRequest) : ProxyRequest :=
  {| req_method := req_method r; req_path := req_path r; req_headers := req_headers r;
     req_body := b |}.

Definition with_res_body (b : bytes) (r : ProxyResponse) : ProxyResponse :=
  {| res_status := res_status r; res_headers := res_headers r; res_body := b;
     res_is_streaming := res_is_streaming r |}.

Definition is_streaming `{SerdeJson} (r : ProxyRequest) : bool :=
  match from_slice (req_body r) with
  | Ok v => default false (get "stream" v ≫= as_bool)
  | _ => false
  end.

(** ** Errors *)

(** The chained [anyhow] diagnostics are server-side only; an [anyhow::Error]
    is its message. *)
Inductive ProxyError :=
| Upstream (source : string)
| ProtocolConversion (msg : string)
| ChannelSelection (model : string)
| Compression (msg : string)
| BadRequest (msg : string)
| Unauthorized
| RateLimited (retry_after : Z)
| CircuitOpen (channel : string)
| Internal (msg : string).

#[export] Instance ProxyError_eq_dec : EqDecision ProxyError.
Proof. solve_decision. Defined.

Record ErrorBody := { err_code : string; err_message : string; err_detail : option string }.

Definition ErrorBody_new (code message : string) : ErrorBody :=
  {| err_code := code; err_message := message; err_detail := None |}.

Section ErrorResponse.
(** [format!("{x:.n}")] on an [f64]. *)
Context (fmt_f64 : nat -> f64 -> string).

(** Status and JSON body of the response of an error. *)
Definition to_response (e : ProxyError) : StatusCode * ErrorBody :=
  match e with
  | BadRequest msg => (400, ErrorBody_new "bad_request" msg)
  | Unauthorized => (401, ErrorBody_new "unauthorized" "invalid proxy API key")
  | RateLimited retry_after =>
      let secs := as_secs_f64 retry_after in
      (429, {| err_code := "rate_limited";
               err_message := "rate limit exceeded, retry after " +:+ fmt_f64 1%nat secs
                                +:+ "s";
               err_detail := Some ("retry_after_seconds: " +:+ fmt_f64 0%nat secs) |})
  | Upstream source =>
      if str_contains "429" source
      then (429, ErrorBody_new "upstream_rate_limited" "upstream rate limited")
      else (502, ErrorBody_new "upstream_error" source)
  | ProtocolConversion msg => (502, ErrorBody_new "protocol_conversion" msg)
  | ChannelSelection model =>
      (503, ErrorBody_new "no_channel"
              ("no channel available for model '" +:+ model +:+ "'"))
  | CircuitOpen channel =>
      (503, ErrorBody_new "circuit_open"
              ("circuit breaker open for channel '" +:+ channel +:+ "'"))
  | Compression msg => (500, ErrorBody_new "compression_error" msg)
  | Internal _ => (500, ErrorBody_new "internal_error" "internal server error")
  end.
End ErrorResponse.

Definition status_code (e : ProxyError) : StatusCode :=
  match e with
  | BadRequest _ => 400
  | Unauthorized => 401
  | RateLimited _ => 429
  | Upstream source => if str_contains "429" source then 429 else 502
  | ProtocolConversion _ => 502
  | CircuitOpen _ | ChannelSelection _ => 503
  | Compression _ | Internal _ => 500
  end.

Definition error_code (e : ProxyError) : string :=
  match e with
  | BadRequest _ => "bad_request"
  | Unauthorized => "unauthorized"
  | RateLimited _ => "rate_limited"
  | Upstream source =>
      if str_contains "429" source then "upstream_rate_limited" else "upstream_error"
  | ProtocolConversion _ => "protocol_conversion"
  | CircuitOpen _ => "circuit_open"
  | ChannelSelection _ => "no_channel"
  | Compression _ => "compression_error"
  | Internal _ => "internal_error"
  end.

(** ** Compression statistics *)

Record CompressionStats := {
  tokenless_pre : Z;
  tokenless_post : Z;
  tokenless_experimental : Z;
  proxy_req_pre : Z;
  proxy_req_post : Z;
  proxy_res_pre : Z;
  proxy_res_post : Z;
  stats_rtk_saved : Z
}.

Definition CompressionStats_default : CompressionStats :=
  {| tokenless_pre := 0; tokenless_post := 0; tokenless_experimental := 0;
     proxy_req_pre := 0; proxy_req_post := 0; proxy_res_pre := 0; proxy_res_post := 0;
     stats_rtk_saved := 0 |}.

Definition tokenless_saved (s : CompressionStats) : Z :=
  saturating_sub (tokenless_pre s) (tokenless_post s).
Definition proxy_schema_saved (s : CompressionStats) : Z :=
  saturating_sub (proxy_req_pre s) (proxy_req_post s).
Definition proxy_response_saved (s : CompressionStats) : Z :=
  saturating_sub (proxy_res_pre s) (proxy_res_post s).

Definition stats_total_saved (s : CompressionStats) : Z :=
  wrap_u64 (tokenless_saved s + tokenless_experimental s + proxy_schema_saved s
            + proxy_response_saved s + stats_rtk_saved s).

Record TokenlessHeader := {
  th_pre : option Z; th_post : option Z; th_experimental : option Z
}.

Section Tokenless.
(** serde's derived deserialiser of the header struct, and the
    [TOKENLESS_TOKENS] environment variable. *)
Context (parse_header : string -> option TokenlessHeader).

Definition parse_tokenless_json (json : string) : option CompressionStats :=
  h ← parse_header json;
  Some {| tokenless_pre := default 0 (th_pre h);
          tokenless_post := default 0 (th_post h);
          tokenless_experimental := default 0 (th_experimental h);
          proxy_req_pre := 0; proxy_req_post := 0;
          proxy_res_pre := 0; proxy_res_post := 0; stats_rtk_saved := 0 |}.

Definition read_tokenless_stats (env : option string) : CompressionStats :=
  match env with
  | None => CompressionStats_default
  | Some value =>
      if str_is_empty value then CompressionStats_default
      else default CompressionStats_default (parse_tokenless_json value)
  end.
End Tokenless.

(** ** Connection context *)

Record ChannelConfig := {
  cc_url : string;
  cc_api_key : string;
  cc_protocol : ApiFormat;
  cc_name : string;
  cc_rewrite_path : option string
}.

(** [model_router::SelectedMappingInfo]. *)
Record SelectedMappingInfo := {
  smi_channel_id : string;
  smi_mapping_id : string;
  smi_client_name : string;
  smi_upstream_name : string;
  smi_is_flat_fee : bool;
  smi_pricing : option Pricing;
  smi_pricing_snapshot_json : string
}.

(** [Box<dyn Any>]: the sum of the types the program stores. *)
Inductive ExtValue `{SerdeJson} :=
| ExtChannel (c : ChannelConfig)
| ExtMapping (m : SelectedMappingInfo)
| ExtBool (b : bool)
| ExtStats (s : CompressionStats)
| ExtJson (v : Value)
| ExtU32 (n : Z).

Definition EXT_STATS_RECORD : string := "stats_record".
Definition EXT_SELECTED_CHANNEL : string := "selected_channel".
Definition EXT_SELECTED_MAPPING : string := "selected_mapping".
Definition EXT_BRIDGE_REVERSE : string := "bridge_reverse".
Definition EXT_COMPRESSION_STATS : string := "compression_stats".
Definition EXT_RETRYABLE : string := "retryable".

Section Context_.
Context `{SerdeJson}.

Record ConnectionContext := {
  request_id : Z;
  agent_type : AgentType;
  agent_role : option string;
  detected_format : option ApiFormat;
  started_at : Z;
  target_protocol : option ApiFormat;
  extensions : gmap string ExtValue;
  session_id : option string;
  project_path : option string;
  user_name : option string;
  tokenless_saved_tokens : Z;
  tokenless_rtk_saved : Z;
  tokenless_response_saved : Z;
  tokenless_schema_saved : Z;
  tokenless_breakdown_json : option string
}.

Definition ConnectionContext_new (c : Clock) (request_id : Z) (agent_type : AgentType)
    (agent_role : option string) (detected_format : option ApiFormat)
    : ConnectionContext :=
  {| request_id := request_id; agent_type := agent_type; agent_role := agent_role;
     detected_format := detected_format; started_at := now c; target_protocol := None;
     extensions := ∅; session_id := None; project_path := None; user_name := None;
     tokenless_saved_tokens := 0; tokenless_rtk_saved := 0;
     tokenless_response_saved := 0; tokenless_schema_saved := 0;
     tokenless_breakdown_json := None |}.

Definition with_extensions (m : gmap string ExtValue) (c : ConnectionContext)
    : ConnectionContext :=
  {| request_id := request_id c; agent_type := agent_type c; agent_role := agent_role c;
     detected_format := detected_format c; started_at := started_at c;
     target_protocol := target_protocol c; extensions := m; session_id := session_id c;
     project_path := project_path c; user_name := user_name c;
     tokenless_saved_tokens := tokenless_saved_tokens c;
     tokenless_rtk_saved := tokenless_rtk_saved c;
     tokenless_response_saved := tokenless_response_saved c;
     tokenless_schema_saved := tokenless_schema_saved c;
     tokenless_breakdown_json := tokenless_breakdown_json c |}.

Definition with_target_protocol (p : ApiFormat) (c : ConnectionContext)
    : ConnectionContext :=
  {| request_id := request_id c; agent_type := agent_type c; agent_role := agent_role c;
     detected_format := detected_format c; started_at := started_at c;
     target_protocol := Some p; extensions := extensions c; session_id := session_id c;
     project_path := project_path c; user_name := user_name c;
     tokenless_saved_tokens := tokenless_saved_tokens c;
     tokenless_rtk_saved := tokenless_rtk_saved c;
     tokenless_response_saved := tokenless_response_saved c;
     tokenless_schema_saved := tokenless_schema_saved c;
     tokenless_breakdown_json := tokenless_breakdown_json c |}.

(** [ctx.insert(key, value)] and [ctx.get::<T>(key)], one getter per type:
    [None] when the key is absent or the stored value has another type. *)
Definition ctx_insert (key : string) (v : ExtValue) (c : ConnectionContext)
    : ConnectionContext :=
  with_extensions (<[key := v]> (extensions c)) c.

Definition ctx_channel (c : ConnectionContext) : option ChannelConfig :=
  match extensions c !! EXT_SELECTED_CHANNEL with
  | Some (ExtChannel ch) => Some ch | _ => None end.
Definition ctx_mapping (c : ConnectionContext) : option SelectedMappingInfo :=
  match extensions c !! EXT_SELECTED_MAPPING with
  | Some (ExtMapping m) => Some m | _ => None end.
Definition ctx_stats (c : ConnectionContext) : option CompressionStats :=
  match extensions c !! EXT_COMPRESSION_STATS with
  | Some (ExtStats s) => Some s | _ => None end.
Definition ctx_bridge_reverse (c : ConnectionContext) : option bool :=
  match extensions c !! EXT_BRIDGE_REVERSE with
  | Some (ExtBool b) => Some b | _ => None end.
Definition ctx_retryable (c : ConnectionContext) : option Z :=
  match extensions c !! EXT_RETRYABLE with
  | Some (ExtU32 n) => Some n | _ => None end.

(** The channel name that keys the shared maps: empty when none is selected. *)
Definition selected_channel_name (c : ConnectionContext) : string :=
  match ctx_channel c with Some ch => cc_name ch | None => EmptyString end.
End Context_.

(** ** Properties *)

(** [to_response], [status_code] and [error_code] agree on every error. *)
Lemma to_response_codes fmt e :
  (to_response fmt e).1 = status_code e /\ err_code (to_response fmt e).2 = error_code e.
Proof. destruct e; simpl; try done. by destruct (str_contains _ _). Qed.

Lemma status_code_is_error e : is_client_error (status_code e) || is_server_error (status_code e) = true.
Proof. destruct e; simpl; try done. by destruct (str_contains _ _). Qed.
