(* ===== verification/Middleware.v ===== *)
(** The middleware interface and its chains, and the model alias middleware:
    [crates/core/src/middleware.rs].

    A hook runs on a request (or response), the connection context and a world
    [W] of the state shared between requests; hooks of one chain run in
    sequence and each is one atomic step on the world. *)

From S2P Require Import Prelude RustStr Float64 Json Http Billing Types.
Local Open Scope Z_scope.

(** What a hook computes. *)
Definition M (W A : Type) : Type := ST W ProxyError A.
Local Open Scope st_scope.

Section Middleware.
Context `{SerdeJson} {W : Type}.

Record ProxyMiddleware := {
  mw_name : string;
  on_request : Clock -> ProxyRequest * ConnectionContext ->
               M W (ProxyRequest * ConnectionContext);
  on_response : Clock -> ConnectionContext -> ProxyResponse -> M W ProxyResponse;
  on_init : M W unit
}.

(** The trait's default for [on_init]; [on_connect], [on_disconnect] and
    [on_shutdown] are declared next to it and never called. *)
Definition default_on_init : M W unit := st_ret tt.

Fixpoint run_on_request_chain (middlewares : list ProxyMiddleware) (clk : Clock)
    (rc : ProxyRequest * ConnectionContext) : M W (ProxyRequest * ConnectionContext) :=
  match middlewares with
  | [] => st_ret rc
  | mw :: rest => let! rc' := on_request mw clk rc in run_on_request_chain rest clk rc'
  end.

Fixpoint fold_on_response (middlewares : list ProxyMiddleware) (clk : Clock)
    (ctx : ConnectionContext) (res : ProxyResponse) : M W ProxyResponse :=
  match middlewares with
  | [] => st_ret res
  | mw :: rest => let! res' := on_response mw clk ctx res in fold_on_response rest clk ctx res'
  end.

(** [for mw in middlewares.iter().rev()]. *)
Definition run_on_response_chain (middlewares : list ProxyMiddleware) (clk : Clock)
    (ctx : ConnectionContext) (res : ProxyResponse) : M W ProxyResponse :=
  fold_on_response (rev middlewares) clk ctx res.

Lemma run_on_request_chain_app a b clk rc w :
  run_on_request_chain (a ++ b) clk rc w =
  st_bind (run_on_request_chain a clk rc) (run_on_request_chain b clk) w.
Proof.
  revert rc w. induction a as [|mw a IH]; intros rc w; [done|]. simpl.
  rewrite st_bind_assoc. unfold st_bind at 1 2.
  destruct (on_request mw clk rc w) as [w' [rc'| |]]; [apply IH|done..].
Qed.

Lemma fold_on_response_app a b clk ctx res w :
  fold_on_response (a ++ b) clk ctx res w =
  st_bind (fold_on_response a clk ctx res) (fold_on_response b clk ctx) w.
Proof.
  revert res w. induction a as [|mw a IH]; intros res w; [done|]. simpl.
  rewrite st_bind_assoc. unfold st_bind at 1 2.
  destruct (on_response mw clk ctx res w) as [w' [res'| |]]; [apply IH|done..].
Qed.

(** The response chain undoes the registration order: what was registered
    last sees the response first. *)
Lemma run_on_response_chain_app a b clk ctx res w :
  run_on_response_chain (a ++ b) clk ctx res w =
  st_bind (run_on_response_chain b clk ctx res) (run_on_response_chain a clk ctx) w.
Proof. unfold run_on_response_chain. rewrite rev_app_distr. apply fold_on_response_app. Qed.

(** *** What all hooks of a chain keep *)

Section Keeps.
Context (R : W -> W -> Prop) `{!PreOrder R}.

Lemma request_chain_keeps mws clk rc :
  (forall mw, mw ∈ mws -> forall rc, st_keeps R (on_request mw clk rc)) ->
  st_keeps R (run_on_request_chain mws clk rc).
Proof.
  revert rc. induction mws as [|mw mws IH]; intros rc Hk; simpl; [apply (keeps_ret R)|].
  apply (keeps_bind R); [apply Hk; by left|]. intros rc'. apply IH. intros ??. apply Hk. by right.
Qed.

Lemma response_chain_keeps mws clk ctx res :
  (forall mw, mw ∈ mws -> forall res, st_keeps R (on_response mw clk ctx res)) ->
  st_keeps R (run_on_response_chain mws clk ctx res).
Proof.
  intros Hk. unfold run_on_response_chain.
  assert (Hin : forall mw, mw ∈ rev mws -> forall res, st_keeps R (on_response mw clk ctx res))
    by (intros mw Hmw; apply Hk; revert Hmw; rewrite !list_elem_of_In; apply in_rev).
  clear Hk. revert res. induction (rev mws) as [|mw l IH]; intros res; simpl; [apply (keeps_ret R)|].
  apply (keeps_bind R); [apply Hin; by left|]. intros res'. apply IH. intros ??. apply Hin. by right.
Qed.
End Keeps.

(** *** Chains of hooks that do not panic *)

Lemma request_chain_total mws clk rc w :
  (forall mw, mw ∈ mws -> forall rc w, (on_request mw clk rc w).2 <> Panic) ->
  (run_on_request_chain mws clk rc w).2 <> Panic.
Proof.
  revert rc w. induction mws as [|mw mws IH]; intros rc w Ht; simpl; [done|].
  apply st_bind_total; [apply Ht; by left|]. intros rc' w'. apply IH. intros ??. apply Ht. by right.
Qed.

Lemma response_chain_total mws clk ctx res w :
  (forall mw, mw ∈ mws -> forall res w, (on_response mw clk ctx res w).2 <> Panic) ->
  (run_on_response_chain mws clk ctx res w).2 <> Panic.
Proof.
  intros Ht. unfold run_on_response_chain.
  assert (Hin : forall mw, mw ∈ rev mws -> forall res w, (on_response mw clk ctx res w).2 <> Panic)
    by (intros mw Hmw; apply Ht; revert Hmw; rewrite !list_elem_of_In; apply in_rev).
  clear Ht. revert res w. induction (rev mws) as [|mw l IH]; intros res w; simpl; [done|].
  apply st_bind_total; [apply Hin; by left|]. intros res' w'. apply IH. intros ??. apply Hin.
  by right.
Qed.
End Middleware.
Arguments ProxyMiddleware {_} W.

(** Instrumentation: the same middleware, which also logs each hook it runs. *)
Section Traced.
Context `{SerdeJson} {W : Type}.

Definition traced (mw : ProxyMiddleware W) : ProxyMiddleware (W * list string) := {|
  mw_name := mw_name mw;
  on_request clk rc wl :=
    let '(w', r) := on_request mw clk rc wl.1 in ((w', wl.2 ++ [mw_name mw]), r);
  on_response clk ctx res wl :=
    let '(w', r) := on_response mw clk ctx res wl.1 in ((w', wl.2 ++ [mw_name mw]), r);
  on_init wl := let '(w', r) := on_init mw wl.1 in ((w', wl.2 ++ [mw_name mw]), r)
|}.

(** A run of hooks, spelled out: [states] holds the value and the world each hook
    that is run is given, and, when all are run, what the last one leaves.  Every
    hook but the last one run succeeds and hands on its result; the outcome is the
    failure of the last one run, or the final state when there is no hook left. *)
Definition ran {A} (hook : ProxyMiddleware W -> A -> M W A) (mws : list (ProxyMiddleware W))
    (a : A) (w : W) (out : W * Res ProxyError A) (names : list string) : Prop :=
  exists states : list (A * W),
    states !! 0%nat = Some (a, w) /\
    (forall i mw s s', mws !! i = Some mw -> states !! i = Some s -> states !! S i = Some s' ->
       hook mw s.1 s.2 = (s'.2, Ok s'.1)) /\
    names = take (length states) (mw_name <$> mws) /\
    exists s, states !! pred (length states) = Some s /\
      match mws !! pred (length states) with
      | Some mw => hook mw s.1 s.2 = out /\ is_ok out.2 = false
      | None => length states = S (length mws) /\ out = (s.2, Ok s.1)
      end.

Lemma ran_nil {A} (hook : ProxyMiddleware W -> A -> M W A) a w : ran hook [] a w (w, Ok a) [].
Proof. exists [(a, w)]. split_and!; [done|done|done|]. by exists (a, w). Qed.

Lemma ran_stopped {A} (hook : ProxyMiddleware W -> A -> M W A) mw mws a w out :
  hook mw a w = out -> is_ok out.2 = false -> ran hook (mw :: mws) a w out [mw_name mw].
Proof.
  intros Ho Hr. exists [(a, w)]. split_and!; [done|by intros []|by rewrite fmap_cons; simpl; rewrite take_0|].
  by exists (a, w).
Qed.

Lemma ran_continued {A} (hook : ProxyMiddleware W -> A -> M W A) mw mws a w a' w' out names :
  hook mw a w = (w', Ok a') -> ran hook mws a' w' out names ->
  ran hook (mw :: mws) a w out (mw_name mw :: names).
Proof.
  intros Ho (states & H0 & Hs & -> & s & Hl & Hout).
  destruct states as [|s0 states]; [done|]. simpl in H0. injection H0 as ->.
  exists ((a, w) :: (a', w') :: states). split_and!; [done| |done|].
  - intros [|i] mw0 s1 s2; simpl; [by intros [= <-] [= <-] [= <-]|]. by apply Hs.
  - exists s. simpl in *. split; [exact Hl|]. destruct (mws !! length states); [done|].
    destruct Hout as [Hn ->]. split; [|done]. by f_equal.
Qed.

(** The traced chain does what the chain does and logs the hooks of a run of it. *)
Lemma traced_request mws clk rc w l :
  exists l', run_on_request_chain (traced <$> mws) clk rc (w, l) =
    (((run_on_request_chain mws clk rc w).1, l ++ l'), (run_on_request_chain mws clk rc w).2)
    /\ ran (fun mw => on_request mw clk) mws rc w (run_on_request_chain mws clk rc w) l'.
Proof.
  revert rc w l. induction mws as [|mw mws IH]; intros rc w l.
  { exists []. rewrite app_nil_r. split; [done|apply ran_nil]. }
  csimpl. unfold st_bind. simpl. destruct (on_request mw clk rc w) as [w' [rc'|e|]] eqn:Ho.
  2,3: exists [mw_name mw]; split; [done|by apply ran_stopped].
  destruct (IH rc' w' (l ++ [mw_name mw])) as (l' & -> & Hr). exists (mw_name mw :: l').
  rewrite <-app_assoc. split; [done|by eapply ran_continued].
Qed.

Lemma traced_fold_response mws clk ctx res w l :
  exists l', fold_on_response (traced <$> mws) clk ctx res (w, l) =
    (((fold_on_response mws clk ctx res w).1, l ++ l'), (fold_on_response mws clk ctx res w).2)
    /\ ran (fun mw => on_response mw clk ctx) mws res w (fold_on_response mws clk ctx res w) l'.
Proof.
  revert res w l. induction mws as [|mw mws IH]; intros res w l.
  { exists []. rewrite app_nil_r. split; [done|apply ran_nil]. }
  csimpl. unfold st_bind. simpl. destruct (on_response mw clk ctx res w) as [w' [res'|e|]] eqn:Ho.
  2,3: exists [mw_name mw]; split; [done|by apply ran_stopped].
  destruct (IH res' w' (l ++ [mw_name mw])) as (l' & -> & Hr). exists (mw_name mw :: l').
  rewrite <-app_assoc. split; [done|by eapply ran_continued].
Qed.

Lemma traced_init mws w l :
  exists l', st_each on_init (traced <$> mws) (w, l) =
    (((st_each on_init mws w).1, l ++ l'), (st_each on_init mws w).2)
    /\ ran (fun mw _ => on_init mw) mws tt w (st_each on_init mws w) l'.
Proof.
  revert w l. induction mws as [|mw mws IH]; intros w l.
  { exists []. rewrite app_nil_r. split; [done|apply ran_nil]. }
  csimpl. unfold st_bind. simpl. destruct (on_init mw w) as [w' [[]|e|]] eqn:Ho.
  2,3: exists [mw_name mw]; split; [done|by apply ran_stopped].
  destruct (IH w' (l ++ [mw_name mw])) as (l' & -> & Hr). exists (mw_name mw :: l').
  rewrite <-app_assoc. split; [done|by eapply ran_continued].
Qed.

(** C37: The hooks of a request, and those of the start, run in registration order
    and those of a response in reverse registration order, each at most once and
    each on what the one before it has handed on.  The chain goes on exactly
    while hooks succeed: it stops with the first failure, which is its outcome,
    and a chain whose hooks all succeed gives the last one's result. *)
Theorem chain_order mws clk rc ctx res w :
  (let out := run_on_request_chain mws clk rc w in
   exists l, run_on_request_chain (traced <$> mws) clk rc (w, []) = ((out.1, l), out.2) /\
     ran (fun mw => on_request mw clk) mws rc w out l) /\
  (let out := run_on_response_chain mws clk ctx res w in
   exists l, run_on_response_chain (traced <$> mws) clk ctx res (w, []) = ((out.1, l), out.2) /\
     ran (fun mw => on_response mw clk ctx) (rev mws) res w out l) /\
  (let out := st_each on_init mws w in
   exists l, st_each on_init (traced <$> mws) (w, []) = ((out.1, l), out.2) /\
     ran (fun mw _ => on_init mw) mws tt w out l).
Proof.
  split; [apply (traced_request mws clk rc w [])|].
  split; [|apply (traced_init mws w [])].
  unfold run_on_response_chain. rewrite <-map_rev. apply (traced_fold_response _ clk ctx res w []).
Qed.
End Traced.

(** ** Model aliases *)

Section Alias.
Context `{SerdeJson} {W : Type}.

Definition alias_on_request (alias_map : gmap string string)
    (rc : ProxyRequest * ConnectionContext)
    : Res ProxyError (ProxyRequest * ConnectionContext) :=
  let '(req, ctx) := rc in
  json ← map_err (fun e => BadRequest ("invalid JSON body: " +:+ e))
           (from_slice (req_body req));
  match get_str "model" json with
  | Some model =>
      if str_is_empty model then Ok (req, ctx)
      else match alias_map !! model with
      | Some target =>
          body ← map_err Internal (to_vec (set_field "model" (VString target) json));
          Ok (with_body body req, ctx)
      | None => Ok (req, ctx)
      end
  | None => Ok (req, ctx)
  end.

Definition ModelAliasMiddleware (alias_map : gmap string string) : ProxyMiddleware W := {|
  mw_name := "model-alias";
  on_request _ rc := st_lift (alias_on_request alias_map rc);
  on_response _ _ res := st_ret res;
  on_init := default_on_init
|}.

Lemma get_str_Some k s v : get_str k v = Some s -> is_Some (get k v).
Proof. unfold get_str. destruct (get k v); simpl; [eauto|done]. Qed.

Lemma get_str_set_field `{!SerdeJsonLaws _} k s t v :
  get_str k v = Some s -> get_str k (set_field k (VString t) v) = Some t.
Proof.
  intros Hs%get_str_Some. unfold get_str. rewrite (get_set_field _ _ _ Hs). simpl.
  apply as_str_VString.
Qed.

Lemma get_str_set_field_ne `{!SerdeJsonLaws _} k k' x v :
  k <> k' -> get_str k' (set_field k x v) = get_str k' v.
Proof. intros. unfold get_str. by rewrite get_set_field_ne. Qed.

(** The alias middleware rewrites the [model] of a request to the target of
    its alias and changes nothing else of the body's text fields, the
    headers, the path or the context; requests without an alias pass
    unchanged. *)
Lemma alias_rewrites_model `{!SerdeJsonLaws _} alias_map req ctx json :
  from_slice (req_body req) = Ok json ->
  match get_str "model" json with
  | Some model =>
      match alias_map !! model with
      | Some target =>
          if str_is_empty model
          then alias_on_request alias_map (req, ctx) = Ok (req, ctx)
          else exists body json',
            alias_on_request alias_map (req, ctx) = Ok (with_body body req, ctx)
            /\ from_slice body = Ok json'
            /\ get_str "model" json' = Some target
            /\ (forall k, k <> "model" -> get_str k json' = get_str k json)
      | None => alias_on_request alias_map (req, ctx) = Ok (req, ctx)
      end
  | None => alias_on_request alias_map (req, ctx) = Ok (req, ctx)
  end.
Proof.
  intros Hj. unfold alias_on_request. rewrite Hj. simpl.
  destruct (get_str "model" json) as [model|] eqn:Hm; [|done].
  destruct (alias_map !! model) as [target|]; [|by destruct (str_is_empty model)].
  destruct (str_is_empty model); [done|].
  destruct (to_vec_from_slice (set_field "model" (VString target) json))
    as (b & v & Hb & Hv & Hget).
  exists b, v. rewrite Hb. simpl. split_and!; [done..| |].
  - rewrite Hget. by eapply get_str_set_field.
  - intros k Hk. rewrite Hget. by apply get_str_set_field_ne.
Qed.

(** The model a request for [model] goes on with. *)
Definition aliased (alias_map : gmap string string) (model : string) : string :=
  if str_is_empty model then model else default model (alias_map !! model).

Lemma alias_request_inv `{!SerdeJsonLaws _} alias_map req ctx req' ctx' :
  alias_on_request alias_map (req, ctx) = Ok (req', ctx') ->
  ctx' = ctx /\ exists json json', from_slice (req_body req) = Ok json /\
    from_slice (req_body req') = Ok json' /\
    get_str "model" json' = aliased alias_map <$> get_str "model" json.
Proof.
  intros Ha. assert (exists json, from_slice (req_body req) = Ok json) as [json Hj].
  { apply res_bind_Ok in Ha as (json & Hj%map_err_Ok & _). eauto. }
  pose proof (alias_rewrites_model alias_map req ctx json Hj) as Hrw. unfold aliased.
  assert (Hsame : forall n, alias_on_request alias_map (req, ctx) = Ok (req, ctx) ->
    get_str "model" json = n -> ctx' = ctx /\ exists json json', from_slice (req_body req) = Ok json /\
      from_slice (req_body req') = Ok json' /\ get_str "model" json' = n /\
      get_str "model" json = n).
  { intros n Hs Hn. rewrite Ha in Hs. injection Hs as -> ->. split; [done|]. by exists json, json. }
  destruct (get_str "model" json) as [model|] eqn:Hm.
  2:{ destruct (Hsame None Hrw eq_refl) as (-> & j & j' & Hj1 & Hj2 & H1 & H2). split; [done|].
      exists j, j'. by rewrite H1, H2. }
  destruct (alias_map !! model) as [target|] eqn:Ht; [destruct (str_is_empty model) eqn:He|].
  2:{ destruct Hrw as (body & json' & Hon & Hj' & Hm' & _). rewrite Ha in Hon.
      injection Hon as -> ->. split; [done|]. exists json, json'. rewrite Hm. simpl.
      by rewrite He, Ht. }
  all: destruct (Hsame _ Hrw eq_refl) as (-> & j & j' & Hj1 & Hj2 & H1 & H2); split; [done|];
    exists j, j'; rewrite H1, H2; simpl; try rewrite He; rewrite ?Ht; by destruct (str_is_empty model).
Qed.

Lemma alias_request_total `{!SerdeJsonLaws _} alias_map rc :
  (forall b, from_slice b <> Panic) -> alias_on_request alias_map rc <> Panic.
Proof.
  intros Hp. destruct rc as [req ctx]. unfold alias_on_request.
  apply res_bind_total; [by apply map_err_total|]. intros json _.
  destruct (get_str "model" json) as [model|]; [|done]. destruct (str_is_empty model); [done|].
  destruct (alias_map !! model) as [target|]; [|done].
  destruct (to_vec_from_slice (set_field "model" (VString target) json)) as (b & _ & -> & _). done.
Qed.
End Alias.

Lemma alias_rewrites_model_witness :
  let _ := Model.json in
  let req := {| req_method := "POST"; req_path := "/v1/messages"; req_headers := [];
                req_body := Model.print (Model.JObj [("model", Model.JStr "fast")]) |} in
  let ctx := ConnectionContext_new {| now := 0; utc_year := 2025; utc_month := 1 |}
               1 Claude None (Some AnthropicMessages) in
  exists body json',
    alias_on_request {[ "fast" := "claude-haiku" ]} (req, ctx) = Ok (with_body body req, ctx)
    /\ from_slice body = Ok json' /\ get_str "model" json' = Some "claude-haiku".
Proof.
  intros J req ctx.
  destruct (@alias_rewrites_model Model.json Model.json_laws {[ "fast" := "claude-haiku" ]}
    req ctx (Model.JObj [("model", Model.JStr "fast")]) (Model.parse_print _))
    as (body & json' & H1 & H2 & H3 & _).
  exists body, json'. split; [exact H1|]. split; [exact H2|exact H3].
Defined.
