(* ===== verification/Resilience.v ===== *)
(** Retry, rate limiting and circuit breaking: [crates/resilience]. *)

From S2P Require Import Prelude RustStr Float64 Json Http Billing Types Middleware.
Local Open Scope Z_scope.
Local Open Scope st_scope.

(** [status.is_server_error() || status == TOO_MANY_REQUESTS]. *)
Definition is_retryable (status : StatusCode) : bool :=
  is_server_error status || (status =? 429).

(** ** Retry: [retry.rs] *)

Module Retry.

Record RetryConfig := { max_retries : Z; base_delay : Z; max_delay : Z }.

Definition RetryConfig_default : RetryConfig :=
  {| max_retries := 3; base_delay := from_millis 100; max_delay := from_secs 5 |}.

(** [base_delay * 2u32.pow(attempt)], capped: the power wraps, the product
    panics on overflow. *)
Definition backoff_delay (attempt : Z) (config : RetryConfig) : option Z :=
  delay ← duration_mul (base_delay config) (wrap_u32 (2 ^ attempt));
  Some (Z.min delay (max_delay config)).

Section Hooks.
Context `{SerdeJson} {W : Type}.

Definition retry_on_response (config : RetryConfig) (ctx : ConnectionContext)
    (res : ProxyResponse) : Res ProxyError ProxyResponse :=
  if is_retryable (res_status res) then
    let attempt := default 0 (ctx_retryable ctx) in
    if attempt <? max_retries config then
      match backoff_delay attempt config with
      | Some delay => Err (RateLimited delay)
      | None => Panic
      end
    else Ok res
  else Ok res.

Definition RetryMiddleware (config : RetryConfig) : ProxyMiddleware W := {|
  mw_name := "retry";
  on_request _ rc := st_ret rc;
  on_response _ ctx res := st_lift (retry_on_response config ctx res);
  on_init := default_on_init
|}.
End Hooks.

Lemma pow2_u32 n : 0 <= n < 32 -> wrap_u32 (2 ^ n) = 2 ^ n.
Proof.
  intros Hn. apply wrap_u32_small. unfold in_u32, u32_max.
  pose proof (Z.pow_pos_nonneg 2 n). pose proof (Z.pow_le_mono_r 2 n 31).
  change (2 ^ 31) with 2147483648 in *. change (2 ^ 32) with 4294967296. lia.
Qed.

(** Below 32 attempts the delay is the exponential of the documentation,
    capped; it never exceeds the cap and never decreases with the attempts.
    From 32 attempts on the power has wrapped to zero and so has the delay. *)
Theorem backoff_exponential config attempt :
  0 <= base_delay config -> base_delay config * 2 ^ 32 <= DURATION_MAX ->
  0 <= max_delay config ->
  (0 <= attempt < 32 ->
     backoff_delay attempt config =
       Some (Z.min (base_delay config * 2 ^ attempt) (max_delay config)))
  /\ (32 <= attempt -> backoff_delay attempt config = Some 0)
  /\ (forall n d d', 0 <= attempt <= n -> n < 32 ->
        backoff_delay attempt config = Some d -> backoff_delay n config = Some d' ->
        d <= d' <= max_delay config).
Proof.
  intros Hb Hover Hm.
  assert (Hsmall : forall n, 0 <= n < 32 -> backoff_delay n config =
            Some (Z.min (base_delay config * 2 ^ n) (max_delay config))).
  { intros n Hn. unfold backoff_delay, duration_mul. rewrite pow2_u32 by lia.
    assert (2 ^ n <= 2 ^ 32) by (apply Z.pow_le_mono_r; lia).
    destruct (Z.leb_spec (base_delay config * 2 ^ n) DURATION_MAX); [done|nia]. }
  split_and!; [auto| |].
  - intros Ha. unfold backoff_delay, duration_mul, wrap_u32.
    replace attempt with (32 + (attempt - 32)) by lia.
    rewrite Z.pow_add_r, (Z.mul_comm (2 ^ 32)), Z.mod_mul, Z.mul_0_r by lia. simpl.
    f_equal. lia.
  - intros n d d' Ha Hn. rewrite !Hsmall by lia. intros [= <-] [= <-].
    assert (2 ^ attempt <= 2 ^ n) by (apply Z.pow_le_mono_r; lia). nia.
Qed.

Lemma backoff_exponential_witness :
  backoff_delay 6 {| max_retries := 3; base_delay := from_millis 100;
                     max_delay := from_secs 1 |} = Some (from_secs 1).
Proof.
  refine (proj1 (backoff_exponential
    {| max_retries := 3; base_delay := from_millis 100; max_delay := from_secs 1 |}
    6 _ _ _) _); vm_compute; intuition discriminate.
Defined.
End Retry.

(** ** Rate limiting: [rate_limiter.rs] *)

Module RateLimiter.

Record RateLimitConfig := { max_requests : Z; window : Z }.

Record TokenBucket := {
  capacity : Z;
  tokens : f64;
  refill_rate : f64;
  last_refill : Z
}.

Definition TokenBucket_new (c : Clock) (max_requests window : Z) : TokenBucket :=
  {| capacity := max_requests;
     tokens := f64_of_int max_requests;
     refill_rate := f64_div (f64_of_int max_requests) (as_secs_f64 window);
     last_refill := now c |}.

Definition refill (c : Clock) (b : TokenBucket) : TokenBucket :=
  let elapsed := as_secs_f64 (elapsed c (last_refill b)) in
  let added := f64_mul elapsed (refill_rate b) in
  {| capacity := capacity b;
     tokens := f64_min (f64_add (tokens b) added) (f64_of_int (capacity b));
     refill_rate := refill_rate b;
     last_refill := now c |}.

Definition try_consume (c : Clock) (b : TokenBucket) : TokenBucket * bool :=
  let b := refill c b in
  if f64_le f64_one (tokens b)
  then ({| capacity := capacity b; tokens := f64_sub (tokens b) f64_one;
           refill_rate := refill_rate b; last_refill := last_refill b |}, true)
  else (b, false).

Abbreviation Buckets := (gmap string TokenBucket).

Definition check_rate_limit (config : RateLimitConfig) (c : Clock) (channel_id : string)
    : M Buckets () := fun buckets =>
  let bucket := default (TokenBucket_new c (max_requests config) (window config))
                  (buckets !! channel_id) in
  let '(bucket', ok) := try_consume c bucket in
  (<[channel_id := bucket']> buckets,
   if ok then Ok tt else Err (RateLimited (window config))).

Section Hooks.
Context `{SerdeJson}.

Definition RateLimiterMiddleware (config : RateLimitConfig)
    : ProxyMiddleware Buckets := {|
  mw_name := "rate-limiter";
  on_request clk rc :=
    let channel_id := selected_channel_name rc.2 in
    if negb (str_is_empty channel_id)
    then let! _ := check_rate_limit config clk channel_id in st_ret rc
    else st_ret rc;
  on_response _ _ res := st_ret res;
  on_init := default_on_init
|}.
End Hooks.

(** *** A request never finds more tokens than the capacity *)

Definition bucket_wf (b : TokenBucket) : Prop :=
  0 <= capacity b <= u32_max.

Lemma capacity_u32 b : bucket_wf b -> 0 <= capacity b < 2 ^ 53.
Proof. unfold bucket_wf, u32_max. lia. Qed.

Lemma refill_bounded c b : bucket_wf b ->
  f64_le (tokens (refill c b)) (f64_of_int (capacity b)) = true.
Proof.
  intros Hw%capacity_u32. apply f64_min_le_r. by apply f64_of_int_not_nan.
Qed.

(** *** Bursts *)

Fixpoint consume_n (c : Clock) (n : nat) (b : TokenBucket) : TokenBucket * list bool :=
  match n with
  | O => (b, [])
  | S n' =>
      let '(b1, ok) := try_consume c b in
      let '(b2, oks) := consume_n c n' b1 in (b2, ok :: oks)
  end.

(** A bucket holding a whole number [k] of tokens, refilled at [now]. *)
Definition holds (c : Clock) (k : Z) (b : TokenBucket) : Prop :=
  bucket_wf b /\ 0 <= k <= capacity b /\ tokens b = f64_of_int k /\
  last_refill b = now c /\
  match refill_rate b with S754_zero _ | S754_finite _ _ _ => True | _ => False end.

Lemma add_zero k z : 0 <= k < 2 ^ 53 ->
  f64_add (f64_of_int k) (S754_zero z) = f64_of_int k.
Proof.
  intros Hk. destruct (Z.eq_dec k 0) as [->|]; [by destruct z|].
  by rewrite f64_of_int_repr by lia.
Qed.

Lemma refill_now c k b : holds c k b -> tokens (refill c b) = f64_of_int k.
Proof.
  intros (Hw & Hk & Ht & Hl & Hr). pose proof (capacity_u32 b Hw). unfold refill, elapsed.
  cbn [tokens]. rewrite Hl, Z.sub_diag, Ht. change (Z.max 0 0) with 0.
  assert (Hz : exists s, f64_mul (as_secs_f64 0) (refill_rate b) = S754_zero s).
  { change (as_secs_f64 0) with (S754_zero false). destruct (refill_rate b); try done; eauto. }
  destruct Hz as [s ->].
  rewrite add_zero by lia. unfold f64_min. rewrite !f64_of_int_not_nan by lia.
  unfold f64_lt, SFltb. rewrite SFcompare_opp.
  pose proof (f64_le_int k (capacity b) ltac:(lia) ltac:(lia)) as Hle.
  unfold f64_le, SFleb in Hle. by destruct (SFcompare _ _) as [[]|].
Qed.

Lemma try_consume_holds c k b : holds c k b ->
  if 1 <=? k then holds c (k - 1) (try_consume c b).1 /\ (try_consume c b).2 = true
  else holds c k (try_consume c b).1 /\ (try_consume c b).2 = false.
Proof.
  intros Hh. pose proof (refill_now c k b Hh) as Ht.
  destruct Hh as (Hw & Hk & _ & Hl & Hr). pose proof (capacity_u32 b Hw).
  unfold try_consume. rewrite Ht. destruct (Z.leb_spec 1 k).
  - assert (f64_le f64_one (f64_of_int k) = true) as -> by (apply (f64_le_int 1 k); lia).
    simpl. split; [|done].
    split_and!; simpl; try done; try lia. rewrite f64_sub_one; [done|lia].
  - replace k with 0 in * by lia. change (f64_le f64_one (f64_of_int 0)) with false. simpl.
    split; [|done]. split_and!; simpl; try done; try lia.
Qed.

Lemma consume_n_holds c n k b : holds c k b ->
  (consume_n c n b).2 =
    replicate (Z.to_nat (Z.min k (Z.of_nat n))) true
    ++ replicate (n - Z.to_nat (Z.min k (Z.of_nat n))) false.
Proof.
  revert k b. induction n as [|n IH]; intros k b Hh.
  { destruct Hh as (_ & Hk & _). by replace (Z.to_nat (Z.min k (Z.of_nat 0))) with 0%nat by lia. }
  pose proof (try_consume_holds c k b Hh) as Hc. destruct Hh as (_ & Hk & _).
  simpl. destruct (try_consume c b) as [b1 ok]. simpl in Hc.
  destruct (Z.leb_spec 1 k) as [Hle|Hlt]; destruct Hc as [Hh' ->]; specialize (IH _ _ Hh').
  - destruct (consume_n c n b1) as [b2 oks]. simpl in *. rewrite IH.
    replace (Z.to_nat (Z.min k (Z.of_nat (S n))))
      with (S (Z.to_nat (Z.min (k - 1) (Z.of_nat n)))) by lia. done.
  - destruct (consume_n c n b1) as [b2 oks]. simpl in *. rewrite IH.
    replace (Z.to_nat (Z.min k (Z.of_nat (S n)))) with 0%nat by lia.
    replace (Z.to_nat (Z.min k (Z.of_nat n))) with 0%nat by lia. simpl.
    by rewrite Nat.sub_0_r.
Qed.

(** A fresh bucket admits exactly [max_requests] of the requests that arrive
    at the instant of its creation, first come first served: the floating
    point token count is exact. *)
Theorem burst_is_capacity c max_requests window n :
  0 <= max_requests <= u32_max ->
  match f64_div (f64_of_int max_requests) (as_secs_f64 window) with
  | S754_zero _ | S754_finite _ _ _ => True | _ => False end ->
  (consume_n c n (TokenBucket_new c max_requests window)).2 =
    replicate (Z.to_nat (Z.min max_requests (Z.of_nat n))) true
    ++ replicate (n - Z.to_nat (Z.min max_requests (Z.of_nat n))) false.
Proof.
  intros Hm Hrate. apply consume_n_holds. split_and!; simpl; try done; lia.
Qed.

Lemma burst_is_capacity_witness :
  (consume_n {| now := 5; utc_year := 2026; utc_month := 1 |} 4
     (TokenBucket_new {| now := 5; utc_year := 2026; utc_month := 1 |} 2 (from_secs 60))).2
  = [true; true; false; false].
Proof.
  refine (burst_is_capacity _ 2 (from_secs 60) 4 _ _);
    vm_compute; intuition discriminate.
Defined.
End RateLimiter.

(** ** Circuit breaking: [circuit_breaker.rs] *)

Module CircuitBreaker.

Record CircuitBreakerConfig := { failure_threshold : Z; cooldown : Z }.

Definition CircuitBreakerConfig_default : CircuitBreakerConfig :=
  {| failure_threshold := 3; cooldown := from_secs 60 |}.

Inductive State := Closed | Open | HalfOpen.

#[export] Instance State_eq_dec : EqDecision State.
Proof. solve_decision. Defined.

Record ChannelCircuit := {
  state : State;
  failure_count : Z;
  opened_at : option Z
}.

Definition ChannelCircuit_new : ChannelCircuit :=
  {| state := Closed; failure_count := 0; opened_at := None |}.

Definition allow_request (c : Clock) (cooldown : Z) (s : ChannelCircuit)
    : ChannelCircuit * bool :=
  match state s with
  | Closed | HalfOpen => (s, true)
  | Open =>
      match opened_at s with
      | Some opened =>
          if cooldown <=? elapsed c opened
          then ({| state := HalfOpen; failure_count := failure_count s;
                   opened_at := opened_at s |}, true)
          else (s, false)
      | None => (s, false)
      end
  end.

Definition record_success (s : ChannelCircuit) : ChannelCircuit :=
  {| state := Closed; failure_count := 0; opened_at := None |}.

Definition record_failure (c : Clock) (threshold : Z) (s : ChannelCircuit)
    : ChannelCircuit :=
  let n := wrap_u32 (failure_count s + 1) in
  if threshold <=? n
  then {| state := Open; failure_count := n; opened_at := Some (now c) |}
  else {| state := state s; failure_count := n; opened_at := opened_at s |}.

Abbreviation Circuits := (gmap string ChannelCircuit).

Section Hooks.
Context `{SerdeJson}.

Definition breaker_on_request (config : CircuitBreakerConfig) (clk : Clock)
    (rc : ProxyRequest * ConnectionContext)
    : M Circuits (ProxyRequest * ConnectionContext) := fun circuits =>
  let channel_id := selected_channel_name rc.2 in
  if str_is_empty channel_id then (circuits, Ok rc)
  else
    let circuit := default ChannelCircuit_new (circuits !! channel_id) in
    let '(circuit', allowed) := allow_request clk (cooldown config) circuit in
    (<[channel_id := circuit']> circuits,
     if allowed then Ok rc else Err (CircuitOpen channel_id)).

Definition breaker_on_response (config : CircuitBreakerConfig) (clk : Clock)
    (ctx : ConnectionContext) (res : ProxyResponse)
    : M Circuits ProxyResponse := fun circuits =>
  let channel_id := selected_channel_name ctx in
  if str_is_empty channel_id then (circuits, Ok res)
  else
    let circuit := default ChannelCircuit_new (circuits !! channel_id) in
    let circuit' :=
      if is_retryable (res_status res)
      then record_failure clk (failure_threshold config) circuit
      else record_success circuit in
    (<[channel_id := circuit']> circuits, Ok res).

Definition CircuitBreakerMiddleware (config : CircuitBreakerConfig)
    : ProxyMiddleware Circuits := {|
  mw_name := "circuit-breaker";
  on_request := breaker_on_request config;
  on_response := breaker_on_response config;
  on_init := default_on_init
|}.
End Hooks.

(** *** One circuit as a transition system

    The requests and responses of concurrent connections reach a circuit in
    any order; each is one step. *)
Inductive Event :=
| Request (c : Clock)
| Response (c : Clock) (status : StatusCode).

Definition react (config : CircuitBreakerConfig) (s : ChannelCircuit) (e : Event)
    : ChannelCircuit :=
  match e with
  | Request c => (allow_request c (cooldown config) s).1
  | Response c status =>
      if is_retryable status then record_failure c (failure_threshold config) s
      else record_success s
  end.

(** [reach config n s]: [s] is reached from the fresh circuit in [n] steps. *)
Inductive reach (config : CircuitBreakerConfig) : nat -> ChannelCircuit -> Prop :=
| reach_new : reach config 0 ChannelCircuit_new
| reach_step n s e : reach config n s -> reach config (S n) (react config s e).

Definition circuit_inv (config : CircuitBreakerConfig) (s : ChannelCircuit) : Prop :=
  match state s with
  | Closed => failure_count s < failure_threshold config /\ opened_at s = None
  | Open | HalfOpen =>
      failure_threshold config <= failure_count s /\ is_Some (opened_at s)
  end.

Lemma react_inv config s e k :
  1 <= failure_threshold config -> 0 <= failure_count s <= k -> k < u32_max ->
  circuit_inv config s ->
  circuit_inv config (react config s e) /\
  0 <= failure_count (react config s e) <= k + 1.
Proof.
  intros Hth Hk Hu Hinv. unfold circuit_inv in *. destruct e as [c|c status]; simpl.
  - unfold allow_request. destruct (state s) eqn:Hs; simpl; rewrite ?Hs;
      try (split; [done|lia]).
    destruct (opened_at s) as [t|] eqn:Ho; simpl; rewrite ?Hs, ?Ho; [|split; [done|lia]].
    destruct (_ <=? _); simpl; rewrite ?Hs, ?Ho; (split; [done|lia]).
  - destruct (is_retryable status); [|simpl; repeat split; try done; lia].
    unfold record_failure. rewrite wrap_u32_small by (unfold in_u32; lia).
    destruct (Z.leb_spec (failure_threshold config) (failure_count s + 1));
      simpl; [split; [split; [lia|done]|lia]|].
    split; [|lia]. destruct (state s); destruct Hinv; (split; [lia|done]).
Qed.

Lemma reach_inv config n s :
  1 <= failure_threshold config ->
  reach config n s -> Z.of_nat n <= u32_max ->
  circuit_inv config s /\ 0 <= failure_count s <= Z.of_nat n.
Proof.
  intros Hth Hr. induction Hr as [|n s e Hr IH]; intros Hn.
  { unfold circuit_inv. simpl. repeat split; try done; lia. }
  rewrite Nat2Z.inj_succ in *. destruct IH as [Hinv Hcount]; [lia|].
  unfold Z.succ in *. apply react_inv; [done|done|lia|done].
Qed.

(** Every reachable circuit is well formed: closed below the threshold and
    without an opening time, open or half-open at or above the threshold with
    one.  (The failure counter is a [u32] and cannot wrap in fewer than 2^32
    steps.) *)
Theorem circuit_invariant config n s :
  1 <= failure_threshold config ->
  reach config n s -> Z.of_nat n <= u32_max ->
  circuit_inv config s.
Proof. intros Hth Hr Hn. by apply (reach_inv config n s). Qed.

Lemma circuit_invariant_witness :
  let c t := {| now := t; utc_year := 2026; utc_month := 1 |} in
  let config := {| failure_threshold := 1; cooldown := 10 |} in
  circuit_inv config (react config (react config ChannelCircuit_new
                        (Response (c 0) 500)) (Request (c 20))).
Proof.
  intros c config.
  refine (circuit_invariant config 2 _ _ _ _); [done| |done].
  apply reach_step, reach_step, reach_new.
Defined.

(** The requests that arrive at the times [ts]. *)
Fixpoint requests (config : CircuitBreakerConfig) (ts : list Clock) (s : ChannelCircuit)
    : ChannelCircuit * list bool :=
  match ts with
  | [] => (s, [])
  | c :: ts' =>
      let '(s1, ok) := allow_request c (cooldown config) s in
      let '(s2, oks) := requests config ts' s1 in (s2, ok :: oks)
  end.

Lemma open_rejects config s t ts :
  state s = Open -> opened_at s = Some t ->
  Forall (fun c => elapsed c t < cooldown config) ts ->
  requests config ts s = (s, replicate (length ts) false).
Proof.
  intros Hs Ho. induction 1 as [|c ts Hc _ IH]; [done|]. simpl.
  unfold allow_request. rewrite Hs, Ho.
  destruct (Z.leb_spec (cooldown config) (elapsed c t)); [lia|]. by rewrite IH.
Qed.

Lemma half_open_admits config s ts :
  state s = HalfOpen -> requests config ts s = (s, replicate (length ts) true).
Proof.
  intros Hs. induction ts as [|c ts IH]; [done|]. simpl.
  unfold allow_request. by rewrite Hs, IH.
Qed.

(** C14: An open circuit rejects every request of its cooldown and changes
    nothing; the first request after the cooldown is admitted and makes it
    half-open.  From half-open one failure re-opens it for a whole cooldown
    and one success closes it with a clean count. *)
Theorem open_cooldown_cycle config n s t ts c :
  1 <= failure_threshold config ->
  reach config n s -> Z.of_nat n < u32_max ->
  state s = Open -> opened_at s = Some t ->
  Forall (fun c => elapsed c t < cooldown config) ts ->
  cooldown config <= elapsed c t ->
  requests config ts s = (s, replicate (length ts) false) /\
  exists h, allow_request c (cooldown config) s = (h, true) /\ state h = HalfOpen /\
    (forall c' status, is_retryable status = true ->
       let s' := react config h (Response c' status) in
       state s' = Open /\ opened_at s' = Some (now c')) /\
    (forall c' status, is_retryable status = false ->
       react config h (Response c' status) = ChannelCircuit_new).
Proof.
  intros Hth Hr Hn Hs Ho Hts Hc. split; [by apply (open_rejects _ _ t)|].
  destruct (reach_inv config n s Hth Hr ltac:(lia)) as [Hinv Hcount].
  unfold circuit_inv in Hinv. rewrite Hs in Hinv.
  unfold allow_request. rewrite Hs, Ho.
  destruct (Z.leb_spec (cooldown config) (elapsed c t)); [|lia].
  eexists. split; [done|]. split; [done|]. split; intros c' status Hret; simpl; rewrite Hret.
  - unfold record_failure. simpl. rewrite wrap_u32_small by (unfold in_u32; lia).
    destruct (Z.leb_spec (failure_threshold config) (failure_count s + 1)); [done|lia].
  - done.
Qed.

Lemma open_cooldown_cycle_witness :
  let c t := {| now := t; utc_year := 2026; utc_month := 1 |} in
  let config := {| failure_threshold := 1; cooldown := 10 |} in
  let s := react config ChannelCircuit_new (Response (c 0) 503) in
  requests config [c 3; c 9] s = (s, [false; false]) /\
  exists h, allow_request (c 10) 10 s = (h, true) /\ state h = HalfOpen /\
    (forall c' status, is_retryable status = true ->
       let s' := react config h (Response c' status) in
       state s' = Open /\ opened_at s' = Some (now c')) /\
    (forall c' status, is_retryable status = false ->
       react config h (Response c' status) = ChannelCircuit_new).
Proof.
  intros c config s.
  refine (open_cooldown_cycle config 1 s 0 [c 3; c 9] (c 10) _ _ _ _ _ _ _);
    try done; [apply reach_step, reach_new|].
  repeat constructor.
Defined.

(** The module comment promises one probe request after the cooldown; a
    half-open circuit admits every request that arrives before the answer to
    the probe. *)
Theorem half_open_not_one_probe config s t c ts :
  state s = Open -> opened_at s = Some t -> cooldown config <= elapsed c t ->
  (requests config (c :: ts) s).2 = true :: replicate (length ts) true.
Proof.
  intros Hs Ho Hc. simpl. unfold allow_request at 1. rewrite Hs, Ho.
  destruct (Z.leb_spec (cooldown config) (elapsed c t)); [|lia].
  by rewrite half_open_admits.
Qed.

Lemma half_open_not_one_probe_witness :
  let c t := {| now := t; utc_year := 2026; utc_month := 1 |} in
  (requests {| failure_threshold := 1; cooldown := 10 |} [c 10; c 11; c 12]
     {| state := Open; failure_count := 1; opened_at := Some 0 |}).2 = [true; true; true].
Proof.
  intros c.
  refine (half_open_not_one_probe _ _ 0 (c 10) [c 11; c 12] _ _ _);
    vm_compute; intuition discriminate.
Defined.

(** Consecutive failures. *)
Fixpoint failures (config : CircuitBreakerConfig) (cs : list Clock) (s : ChannelCircuit)
    : ChannelCircuit :=
  match cs with
  | [] => s
  | c :: cs' => failures config cs' (record_failure c (failure_threshold config) s)
  end.

Lemma failures_below config cs s :
  state s = Closed -> 0 <= failure_count s ->
  failure_count s + Z.of_nat (length cs) < failure_threshold config ->
  failure_threshold config <= u32_max ->
  failures config cs s =
    {| state := Closed; failure_count := failure_count s + Z.of_nat (length cs);
       opened_at := opened_at s |}.
Proof.
  revert s. induction cs as [|c cs IH]; intros s Hs H0 Hlt Hu; simpl in *.
  { destruct s; simpl in *. subst. f_equal. lia. }
  unfold record_failure. rewrite wrap_u32_small by (unfold in_u32; lia).
  destruct (Z.leb_spec (failure_threshold config) (failure_count s + 1)); [lia|].
  rewrite IH; simpl; try done; try lia. f_equal. lia.
Qed.

(** The circuit trips on exactly the [failure_threshold]-th consecutive
    failure: it stays closed before it and is open, from that instant, after
    it. *)
Theorem trips_at_threshold config cs c :
  1 <= failure_threshold config <= u32_max ->
  Z.of_nat (length cs) = failure_threshold config - 1 ->
  state (failures config cs ChannelCircuit_new) = Closed /\
  failures config (cs ++ [c]) ChannelCircuit_new =
    {| state := Open; failure_count := failure_threshold config;
       opened_at := Some (now c) |}.
Proof.
  intros Hth Hlen.
  pose proof (failures_below config cs ChannelCircuit_new eq_refl) as Hb.
  simpl in Hb. rewrite Hb by lia. split; [done|].
  assert (Happ : forall s, failures config (cs ++ [c]) s =
    record_failure c (failure_threshold config) (failures config cs s)).
  { clear. induction cs as [|c' cs IH]; intros s; [done|]. simpl. apply IH. }
  rewrite Happ, Hb by lia. unfold record_failure. cbn [failure_count].
  rewrite wrap_u32_small by (unfold in_u32; lia).
  rewrite Z.add_0_l.
  destruct (Z.leb_spec (failure_threshold config) (Z.of_nat (length cs) + 1)); [|lia].
  f_equal. lia.
Qed.

Lemma trips_at_threshold_witness :
  let c t := {| now := t; utc_year := 2026; utc_month := 1 |} in
  state (failures CircuitBreakerConfig_default [c 1; c 2] ChannelCircuit_new) = Closed /\
  failures CircuitBreakerConfig_default ([c 1; c 2] ++ [c 7]) ChannelCircuit_new =
    {| state := Open; failure_count := 3; opened_at := Some 7 |}.
Proof.
  intros c.
  refine (trips_at_threshold CircuitBreakerConfig_default [c 1; c 2] (c 7) _ _);
    vm_compute; intuition discriminate.
Defined.

(** The circuits of other channels never change. *)
Lemma breaker_isolated `{SerdeJson} config clk rc ctx res circuits k :
  k <> selected_channel_name rc.2 -> k <> selected_channel_name ctx ->
  (breaker_on_request config clk rc circuits).1 !! k = circuits !! k /\
  (breaker_on_response config clk ctx res circuits).1 !! k = circuits !! k.
Proof.
  intros H1 H2. unfold breaker_on_request, breaker_on_response. split.
  - destruct (str_is_empty _); [done|]. destruct (allow_request _ _ _). simpl.
    by rewrite lookup_insert_ne.
  - destruct (str_is_empty _); [done|]. simpl. by rewrite lookup_insert_ne.
Qed.
End CircuitBreaker.
