(* ===== verification/Storage.v ===== *)
(** The storage abstraction: [crates/storage/src/types.rs], [error.rs] and the
    traits [Storage] and [SeedManager] of [lib.rs].

    A trait is a class over the type [S] of stores.  A method that only
    reads is a function of the store; one that writes also returns the store
    it leaves, which an error may have left unchanged or not. *)

From S2P Require Import Prelude RustStr Float64.
Local Open Scope Z_scope.

Inductive StorageError :=
| Backend (msg : string)
| NotFound (what : string)
| Duplicate (what : string)
| Connection (msg : string)
| Migration (msg : string).

#[export] Instance StorageError_eq_dec : EqDecision StorageError.
Proof. solve_decision. Defined.

(** thiserror's [Display]. *)
Definition storage_error_message (e : StorageError) : string :=
  match e with
  | Backend m => "backend error: " +:+ m
  | NotFound m => "not found: " +:+ m
  | Duplicate m => "duplicate: " +:+ m
  | Connection m => "connection error: " +:+ m
  | Migration m => "migration error: " +:+ m
  end.

(** ** Rows *)

Inductive ChannelHealthStatus := HsHealthy | HsDegraded | HsCooldown | HsUnavailable.

Definition health_as_str (h : ChannelHealthStatus) : string :=
  match h with
  | HsHealthy => "Healthy"
  | HsDegraded => "Degraded"
  | HsCooldown => "Cooldown"
  | HsUnavailable => "Unavailable"
  end.

Record Provider := { pv_id : string; pv_name : string; pv_created_at : string }.

Record Model := {
  md_id : string;
  md_provider_id : string;
  md_client_name : string;
  md_price_input : f64;
  md_price_output : f64;
  md_currency : string;
  md_context_window : Z;
  md_created_at : string;
  md_channel_count : Z
}.

(** A [SecretString] is the string it hides. *)
Record Channel := {
  ch_id : string;
  ch_name : string;
  ch_api_key : string;
  ch_protocol : string;
  ch_protocols : string;
  ch_is_builtin : bool;
  ch_enabled : bool;
  ch_created_at : Z;
  ch_updated_at : Z;
  ch_health_status : string;
  ch_cooldown_until : option string;
  ch_consecutive_failures : Z;
  ch_billing_type : string;
  ch_monthly_quota : option Z;
  ch_quota_policy : string;
  ch_priority : Z;
  ch_force_protocol : option string
}.

Record ModelMapping := {
  mm_id : string;
  mm_channel_id : string;
  mm_client_name : string;
  mm_upstream_name : string;
  mm_billing : string;
  mm_pricing_json : string;
  mm_weight : Z;
  mm_enabled : bool;
  mm_protocols : string
}.

Definition is_empty_protocols (s : string) : bool :=
  str_is_empty s || bool_decide (s = "[]").

Record CostRecord := {
  cr_id : string;
  cr_channel_id : string;
  cr_upstream_channel : string;
  cr_upstream_model : string;
  cr_request_time_ms : Z;
  cr_project : string;
  cr_user_id : string;
  cr_agent_type : string;
  cr_input_tokens : Z;
  cr_output_tokens : Z;
  cr_cache_write_tokens : Z;
  cr_cache_read_tokens : Z;
  cr_thinking_tokens : Z;
  cr_cost : f64;
  cr_schema_saved_tokens : Z;
  cr_response_saved_tokens : Z;
  cr_rtk_saved_tokens : Z;
  cr_pre_compress_tokens : Z;
  cr_post_compress_tokens : Z;
  cr_compression_tokens_saved : Z;
  cr_unit : string;
  cr_pricing_snapshot_json : string;
  cr_timestamp : string;
  cr_session_id : option string;
  cr_before_tokens : Z;
  cr_after_tokens : Z;
  cr_tokens_saved : Z;
  cr_compression_breakdown_json : string
}.

Record SubscriptionFee := {
  sf_id : Z; sf_channel_name : string; sf_month : string;
  sf_monthly_price : f64; sf_currency : string
}.

Record SwitchLog := {
  sl_id : string; sl_from_channel_id : string; sl_to_channel_id : string;
  sl_reason : string; sl_cost_record_id : option string; sl_created_at : string
}.

Record TimeRange := { tr_start : Z; tr_end : Z; tr_project : option string }.

Record CostFilter := {
  cf_project_path : option string;
  cf_model_name : option string;
  cf_channel_name : option string;
  cf_time_range : option TimeRange;
  cf_limit : option Z;
  cf_offset : option Z
}.

Inductive CostGroupBy :=
| GbProject | GbModel | GbChannel | GbProjectModelMonth | GbProjectModelHour
| GbHourly | GbDaily.

Record CostAggregate := {
  ca_group_key : string;
  ca_total_input_tokens : Z;
  ca_total_output_tokens : Z;
  ca_total_actual_cost : f64;
  ca_total_compression_tokens_saved : Z;
  ca_request_count : Z
}.

Record AvailableModelInfo := {
  am_mapping_id : string; am_client_name : string; am_upstream_name : string
}.

Record AvailableChannelInfo := {
  ac_channel_id : string; ac_channel_name : string; ac_protocol : string;
  ac_protocols : string; ac_health_status : string; ac_enabled : bool;
  ac_models : list AvailableModelInfo
}.

Record ProtocolEntry := {
  pe_protocol : string; pe_base_url : string; pe_rewrite_path : option string
}.

#[export] Instance ProtocolEntry_eq_dec : EqDecision ProtocolEntry.
Proof. solve_decision. Defined.

Record ModelAlias := {
  ma_id : Z; ma_alias_name : string; ma_target_model : string; ma_enabled : bool;
  ma_created_at : string; ma_updated_at : string
}.

Record ModelAliasRequest := {
  mr_alias_name : string; mr_target_model : string; mr_enabled : bool
}.

Record CompressionSavingsReport := {
  sr_schema_saved_tokens : Z;
  sr_response_saved_tokens : Z;
  sr_rtk_saved_tokens : Z;
  sr_total_saved_tokens : Z
}.

(** *** Seed data *)

Record SeedEntryStatus := {
  se_name : string; se_local_sha256 : option string; se_remote_sha256 : option string;
  se_changed : bool
}.

Record SeedStatus := {
  ss_local_version : Z;
  ss_remote_version : option Z;
  ss_update_available : bool;
  ss_source : string;
  ss_entries : list SeedEntryStatus;
  ss_last_refresh_at : option string;
  ss_last_error : option string
}.

Record SeedManifestEntry := { sm_file : string; sm_sha256 : string }.

(** The entries are a [HashMap]: the list has them in its iteration order,
    which is arbitrary. *)
Record SeedManifest := {
  sm_version : Z;
  sm_min_schema_version : Z;
  sm_updated_at : string;
  sm_entries : list (string * SeedManifestEntry)
}.

(** ** The traits *)

Class Storage (S : Type) := {
  list_providers : S -> Res StorageError (list Provider);
  get_provider : string -> S -> Res StorageError (option Provider);
  list_models : option string -> S -> Res StorageError (list Model);
  get_model : string -> S -> Res StorageError (option Model);
  list_channels : option string -> S -> Res StorageError (list Channel);
  get_channel : string -> S -> Res StorageError (option Channel);
  upsert_channel : Channel -> S -> S * Res StorageError unit;
  set_channel_enabled : string -> bool -> S -> S * Res StorageError unit;
  set_channel_api_key : string -> string -> S -> S * Res StorageError unit;
  update_channel : string -> option string -> option bool -> option Z -> option Z ->
    option string -> option string -> option string -> S -> S * Res StorageError Channel;
  delete_channel : string -> S -> S * Res StorageError unit;
  mark_channel_healthy : string -> S -> S * Res StorageError unit;
  record_channel_failure : string -> S -> S * Res StorageError unit;
  list_mappings : string -> S -> Res StorageError (list ModelMapping);
  upsert_mapping : ModelMapping -> S -> S * Res StorageError unit;
  set_mapping_enabled : string -> bool -> S -> S * Res StorageError unit;
  delete_mapping : string -> S -> S * Res StorageError unit;
  list_all_mappings : S -> Res StorageError (list ModelMapping);
  list_model_aliases : S -> Res StorageError (list ModelAlias);
  get_model_alias_target : string -> S -> Res StorageError (option string);
  upsert_model_alias : ModelAliasRequest -> S -> S * Res StorageError ModelAlias;
  delete_model_alias : Z -> S -> S * Res StorageError unit;
  set_model_alias_enabled : Z -> bool -> S -> S * Res StorageError unit;
  insert_cost_record : CostRecord -> S -> S * Res StorageError unit;
  query_cost_records : CostFilter -> S -> Res StorageError (list CostRecord);
  aggregate_costs : CostGroupBy -> TimeRange -> S -> Res StorageError (list CostAggregate);
  prune_cost_records : Z -> S -> S * Res StorageError Z;
  list_projects : S -> Res StorageError (list string);
  insert_switch_log : SwitchLog -> S -> S * Res StorageError unit;
  query_switch_logs : option Z -> S -> Res StorageError (list SwitchLog);
  list_available_channels : S -> Res StorageError (list AvailableChannelInfo);
  insert_subscription_fee : SubscriptionFee -> S -> S * Res StorageError unit;
  query_subscription_fees : option string -> option string -> S ->
    Res StorageError (list SubscriptionFee);
  health_check : S -> Res StorageError bool;
  max_connections : S -> Z
}.

Class SeedManager (S : Type) := {
  seed_init : S -> S * Res StorageError SeedStatus;
  seed_refresh : option string -> S -> S * Res StorageError SeedStatus;
  seed_status : S -> Res StorageError SeedStatus;
  seed_check_remote : option string -> S -> Res StorageError SeedStatus
}.

(** What a backend promises to the admin API and the router about channels, in a
    well-formed store: lists and reads agree, an update is what a later read
    returns, a deleted channel is gone, and keys are what they were set to. *)
Class StorageLaws (S : Type) `{!Storage S} (wf : S -> Prop) := {
  law_list s chs c :
    wf s -> list_channels None s = Ok chs -> c ∈ chs -> get_channel (ch_id c) s = Ok (Some c);
  law_update id name enabled priority quota policy protocols force s s' c :
    wf s ->
    update_channel id name enabled priority quota policy protocols force s = (s', Ok c) ->
    wf s' /\ get_channel id s' = Ok (Some c) /\ ch_id c = id /\
    exists old, get_channel id s = Ok (Some old) /\
      ch_name c = default (ch_name old) name /\
      ch_enabled c = default (ch_enabled old) enabled /\
      ch_priority c = default (ch_priority old) priority /\
      ch_protocols c = default (ch_protocols old) protocols /\
      ch_force_protocol c = match force with
                            | Some fp => Some fp
                            | None => ch_force_protocol old
                            end /\
      ch_api_key c = ch_api_key old;
  law_delete id s s' u :
    wf s -> delete_channel id s = (s', Ok u) -> wf s' /\ get_channel id s' = Ok None;
  law_set_key id key s s' u :
    wf s -> set_channel_api_key id key s = (s', Ok u) ->
    wf s' /\ forall c, get_channel id s' = Ok (Some c) -> ch_api_key c = key;
  law_mark_healthy id s s' r :
    wf s -> mark_channel_healthy id s = (s', r) ->
    wf s' /\ forall id' old c, get_channel id' s = Ok (Some old) ->
      get_channel id' s' = Ok (Some c) -> ch_api_key c = ch_api_key old
}.

(** The backend returns from every call of the router, the cost recorder and the
    admin API, with a result or an error. *)
Class StorageReturns (S : Type) `{!Storage S} : Prop := {
  list_providers_returns s : list_providers s <> Panic;
  get_provider_returns id s : get_provider id s <> Panic;
  list_models_returns p s : list_models p s <> Panic;
  get_model_returns id s : get_model id s <> Panic;
  list_channels_returns m s : list_channels m s <> Panic;
  get_channel_returns id s : get_channel id s <> Panic;
  set_channel_api_key_returns id key s : (set_channel_api_key id key s).2 <> Panic;
  update_channel_returns id n e p q qp ps fp s : (update_channel id n e p q qp ps fp s).2 <> Panic;
  delete_channel_returns id s : (delete_channel id s).2 <> Panic;
  mark_channel_healthy_returns id s : (mark_channel_healthy id s).2 <> Panic;
  record_channel_failure_returns id s : (record_channel_failure id s).2 <> Panic;
  list_mappings_returns id s : list_mappings id s <> Panic;
  upsert_mapping_returns m s : (upsert_mapping m s).2 <> Panic;
  delete_mapping_returns id s : (delete_mapping id s).2 <> Panic;
  list_all_mappings_returns s : list_all_mappings s <> Panic;
  list_model_aliases_returns s : list_model_aliases s <> Panic;
  upsert_model_alias_returns r s : (upsert_model_alias r s).2 <> Panic;
  delete_model_alias_returns id s : (delete_model_alias id s).2 <> Panic;
  insert_cost_record_returns r s : (insert_cost_record r s).2 <> Panic;
  query_cost_records_returns f s : query_cost_records f s <> Panic;
  aggregate_costs_returns g r s : aggregate_costs g r s <> Panic;
  prune_cost_records_returns n s : (prune_cost_records n s).2 <> Panic;
  list_projects_returns s : list_projects s <> Panic;
  query_switch_logs_returns l s : query_switch_logs l s <> Panic;
  list_available_channels_returns s : list_available_channels s <> Panic;
  health_check_returns s : health_check s <> Panic
}.

Class SeedReturns (S : Type) `{!SeedManager S} : Prop := {
  seed_refresh_returns url s : (seed_refresh url s).2 <> Panic;
  seed_status_returns s : seed_status s <> Panic;
  seed_check_remote_returns url s : seed_check_remote url s <> Panic
}.

(** serde's derived deserialisers of the JSON columns [protocols] of a channel
    and of a mapping. *)
Class ColumnCodec := {
  parse_protocols : string -> option (list ProtocolEntry);
  parse_strings : string -> option (list string)
}.

(** ** A fixed store

    A store of channels and mappings that only answers the two listings the
    router loads from: the witnesses of the router's theorems use it. *)
Module Fixture.
Definition store : Type := list Channel * list ModelMapping.

Definition unsupported {A} : Res StorageError A := Err (Backend "unsupported").

#[global] Instance fixture : Storage store := {|
  list_providers _ := unsupported;
  get_provider _ _ := unsupported;
  list_models _ _ := unsupported;
  get_model _ _ := unsupported;
  list_channels _ s := Ok s.1;
  get_channel id s := Ok (List.find (fun ch => String.eqb (ch_id ch) id) s.1);
  upsert_channel _ s := (s, unsupported);
  set_channel_enabled _ _ s := (s, unsupported);
  set_channel_api_key _ _ s := (s, unsupported);
  update_channel _ _ _ _ _ _ _ _ s := (s, unsupported);
  delete_channel _ s := (s, unsupported);
  mark_channel_healthy _ s := (s, unsupported);
  record_channel_failure _ s := (s, unsupported);
  list_mappings id s := Ok (List.filter (fun m => String.eqb (mm_channel_id m) id) s.2);
  upsert_mapping _ s := (s, unsupported);
  set_mapping_enabled _ _ s := (s, unsupported);
  delete_mapping _ s := (s, unsupported);
  list_all_mappings s := Ok s.2;
  list_model_aliases _ := unsupported;
  get_model_alias_target _ _ := unsupported;
  upsert_model_alias _ s := (s, unsupported);
  delete_model_alias _ s := (s, unsupported);
  set_model_alias_enabled _ _ s := (s, unsupported);
  insert_cost_record _ s := (s, unsupported);
  query_cost_records _ _ := unsupported;
  aggregate_costs _ _ _ := unsupported;
  prune_cost_records _ s := (s, unsupported);
  list_projects _ := unsupported;
  insert_switch_log _ s := (s, unsupported);
  query_switch_logs _ _ := unsupported;
  list_available_channels _ := unsupported;
  insert_subscription_fee _ s := (s, unsupported);
  query_subscription_fees _ _ _ := unsupported;
  health_check _ := Ok true;
  max_connections _ := 1
|}.
End Fixture.
