(* ===== verification/Router.v ===== *)
(** The model router, the middleware that chooses the upstream channel of a
    request: [crates/model-router/src/lib.rs].

    Its state is the record [Router]: the channel list the admin API swaps,
    the health map, the monthly usage per mapping and the API keys overridden
    at run time. *)

From S2P Require Import Prelude RustStr Float64 Json Http Billing Types Middleware Storage.
Local Open Scope Z_scope.
Local Open Scope st_scope.

(** ** Data *)

Record ResolvedMapping := {
  rm_mapping_id : string;
  rm_client_name : string;
  rm_upstream_name : string;
  rm_billing : ChannelBilling;
  rm_allowed_protocols : list string
}.

Record ResolvedChannel := {
  rc_channel_id : string;
  rc_channel_name : string;
  rc_api_key : string;
  rc_protocols : list ProtocolEntry;
  rc_enabled : bool;
  rc_force_protocol : option string;
  rc_priority : Z;
  rc_mappings : list ResolvedMapping
}.

Abbreviation Candidate := (ResolvedChannel * ResolvedMapping)%type.

Record Router := {
  channels : list ResolvedChannel;
  health : gmap string ChannelState;
  quota_usage : gmap string QuotaUsage;
  channel_api_keys : gmap string string
}.

Definition with_health (h : gmap string ChannelState) (r : Router) : Router :=
  {| channels := channels r; health := h; quota_usage := quota_usage r;
     channel_api_keys := channel_api_keys r |}.

Definition with_quota_usage (q : gmap string QuotaUsage) (r : Router) : Router :=
  {| channels := channels r; health := health r; quota_usage := q;
     channel_api_keys := channel_api_keys r |}.

Definition with_channels (chs : list ResolvedChannel) (r : Router) : Router :=
  {| channels := chs; health := health r; quota_usage := quota_usage r;
     channel_api_keys := channel_api_keys r |}.

(** ** Protocol names *)

Definition protocol_to_str (p : ApiFormat) : string :=
  match p with
  | AnthropicMessages => "anthropic_messages"
  | OpenaiChat => "openai_chat"
  | OpenaiResponses => "openai_responses"
  | FutureFormat => EmptyString
  end.

Definition parse_protocol (s : string) : Res ProxyError ApiFormat :=
  if bool_decide (s = "anthropic_messages") then Ok AnthropicMessages
  else if bool_decide (s = "openai_chat") then Ok OpenaiChat
  else if bool_decide (s = "openai_responses") then Ok OpenaiResponses
  else Err (Internal ("unknown protocol in storage: " +:+ s)).

Definition has_protocol (name : string) (ps : list ProtocolEntry) : bool :=
  existsb (fun p => String.eqb (pe_protocol p) name) ps.

Definition resolve_target_protocol (force_protocol : option string)
    (detected_format : option ApiFormat) (protocols : list ProtocolEntry)
    : Res ProxyError ApiFormat :=
  match force_protocol with
  | Some fp =>
      target ← parse_protocol fp;
      if has_protocol (protocol_to_str target) protocols then Ok target
      else Err (Internal ("force_protocol '" +:+ fp +:+ "' not found in channel protocols"))
  | None =>
      let fallback :=
        match protocols with
        | first :: _ =>
            if negb (str_is_empty (pe_protocol first)) then parse_protocol (pe_protocol first)
            else Err (Internal "channel has no protocols configured")
        | [] => Err (Internal "channel has no protocols configured")
        end in
      match detected_format with
      | Some df =>
          let df_str := protocol_to_str df in
          if negb (str_is_empty df_str) && has_protocol df_str protocols then Ok df
          else fallback
      | None => fallback
      end
  end.

Definition resolve_upstream_url (protocol : ApiFormat) (protocols : list ProtocolEntry)
    : Res ProxyError (string * option string) :=
  let target := protocol_to_str protocol in
  entry ← res_of_option
    (Internal ("no protocol entry for '" +:+ target +:+ "' in channel protocols"))
    (List.find (fun e => String.eqb (pe_protocol e) target) protocols);
  if str_is_empty (pe_base_url entry)
  then Err (Internal ("protocol entry '" +:+ target +:+ "' has empty base_url"))
  else Ok (pe_base_url entry, pe_rewrite_path entry).

(** ** Loading from storage *)

Section Load.
Context `{PricingCodec, ColumnCodec}.

Definition resolve_mapping (m : ModelMapping) : option ResolvedMapping :=
  match from_storage (mm_billing m) (mm_pricing_json m) with
  | Ok billing => Some
      {| rm_mapping_id := mm_id m; rm_client_name := mm_client_name m;
         rm_upstream_name := mm_upstream_name m; rm_billing := billing;
         rm_allowed_protocols := default [] (parse_strings (mm_protocols m)) |}
  | _ => None
  end.

Definition normalize_protocol (p : ProtocolEntry) : ProtocolEntry :=
  {| pe_protocol := pe_protocol p;
     pe_base_url := trim_end_matches slash (pe_base_url p);
     pe_rewrite_path := rp ← pe_rewrite_path p; if str_is_empty rp then None else Some rp |}.

Definition resolve_channel (ch : Channel) (protocols : list ProtocolEntry)
    (storage_mappings : list ModelMapping) : ResolvedChannel :=
  {| rc_channel_id := ch_id ch; rc_channel_name := ch_name ch;
     rc_api_key := ch_api_key ch;
     rc_protocols := normalize_protocol <$> protocols;
     rc_enabled := ch_enabled ch; rc_force_protocol := ch_force_protocol ch;
     rc_priority := ch_priority ch;
     rc_mappings := omap resolve_mapping (List.filter mm_enabled storage_mappings) |}.

Context {S : Type} `{!Storage S}.

Definition internal {A} (r : Res StorageError A) : Res ProxyError A :=
  map_err (fun e => Internal (storage_error_message e)) r.

(** The loop that [from_storage] and [reload_channels_from_storage] share. *)
Fixpoint load_channels (s : S) (chs : list Channel) : Res ProxyError (list ResolvedChannel) :=
  match chs with
  | [] => Ok []
  | ch :: rest =>
      match default [] (parse_protocols (ch_protocols ch)) with
      | [] => load_channels s rest
      | protocols =>
          ms ← internal (list_mappings (ch_id ch) s);
          loaded ← load_channels s rest;
          mret (resolve_channel ch protocols ms :: loaded)
      end
  end.

Definition initial_api_keys (chs : list ResolvedChannel) : gmap string string :=
  foldl (fun keys ch => if str_is_empty (rc_api_key ch) then keys
                        else <[rc_channel_id ch := rc_api_key ch]> keys) ∅ chs.

Definition router_from_storage (s : S) : Res ProxyError Router :=
  storage_channels ← internal (list_channels None s);
  chs ← load_channels s storage_channels;
  mret {| channels := chs; health := ∅; quota_usage := ∅;
          channel_api_keys := initial_api_keys chs |}.

Definition reload_channels_from_storage (s : S) : M Router unit := fun r =>
  match (storage_channels ← internal (list_channels None s);
         load_channels s storage_channels) with
  | Ok chs => (with_channels chs r, Ok tt)
  | Err e => (r, Err e)
  | Panic => (r, Panic)
  end.
End Load.

(** ** Selection *)

Definition find_candidates (chs : list ResolvedChannel) (client_name : string)
    : list Candidate :=
  flat_map (fun ch =>
    if rc_enabled ch
    then pair ch <$> List.filter (fun m => String.eqb (rm_client_name m) client_name)
                       (rc_mappings ch)
    else []) chs.

Definition has_api_key (r : Router) (channel_id : string) : bool :=
  match channel_api_keys r !! channel_id with
  | Some key => negb (str_is_empty key)
  | None => existsb (fun ch => String.eqb (rc_channel_id ch) channel_id
                               && negb (str_is_empty (rc_api_key ch))) (channels r)
  end.

Definition is_healthy (clk : Clock) (r : Router) (channel_id : string) : bool :=
  is_none_or (is_tryable_past_cooldown clk) (health r !! channel_id).

Definition router_is_tryable_past_cooldown (clk : Clock) (r : Router) (channel_id : string)
    : bool :=
  is_none_or (is_tryable_past_cooldown clk) (health r !! channel_id).

Definition mark_healthy (channel_id : string) (r : Router) : Router :=
  match health r !! channel_id with
  | Some s => with_health (<[channel_id := record_success s]> (health r)) r
  | None => r
  end.

Definition router_record_failure (clk : Clock) (channel_id : string) (r : Router) : Router :=
  let s := default ChannelState_new (health r !! channel_id) in
  with_health (<[channel_id := record_failure clk s]> (health r)) r.

Definition router_mark_rate_limited (clk : Clock) (channel_id : string) (r : Router) : Router :=
  let s := default ChannelState_new (health r !! channel_id) in
  with_health (<[channel_id := mark_rate_limited clk s]> (health r)) r.

Definition mark_unhealthy_immediate (clk : Clock) (channel_id : string) (r : Router) : Router :=
  let s := default ChannelState_new (health r !! channel_id) in
  with_health (<[channel_id := mark_unhealthy clk s]> (health r)) r.

Definition cand_flat_fee (c : Candidate) : bool := is_flat_fee (rm_billing c.2).
Definition cand_priority (c : Candidate) : Z := rc_priority c.1.

Section Select.
Context (clk : Clock) (client_name : string).

(** The first loop: [Some] is its early [return]. *)
Fixpoint try_flat_fee (l : list Candidate) (r : Router)
    : Router * option (Res ProxyError Candidate) :=
  match l with
  | [] => (r, None)
  | (ch, m) :: rest =>
      if negb (has_api_key r (rc_channel_id ch)) then try_flat_fee rest r
      else if negb (is_healthy clk r (rc_channel_id ch)) then try_flat_fee rest r
      else match rm_billing m with
      | FlatFee _ quota on_exhausted =>
          let usage := default (QuotaUsage_new clk) (quota_usage r !! rm_mapping_id m) in
          let r' := with_quota_usage (<[rm_mapping_id m := usage]> (quota_usage r)) r in
          if is_within_quota usage quota then (r', Some (Ok (ch, m)))
          else if bool_decide (on_exhausted = Block)
          then (r', Some (Err (ChannelSelection client_name)))
          else try_flat_fee rest r'
      | Metered _ => try_flat_fee rest r
      end
  end.

Definition select_channel (candidates : list Candidate) : M Router Candidate := fun r =>
  let flatfee := sort_desc cand_priority (List.filter cand_flat_fee candidates) in
  let metered :=
    sort_desc cand_priority (List.filter (fun c => negb (cand_flat_fee c)) candidates) in
  let '(r, returned) := try_flat_fee flatfee r in
  match returned with
  | Some res => (r, res)
  | None =>
      match List.find (fun c => has_api_key r (rc_channel_id c.1)
                                && is_healthy clk r (rc_channel_id c.1)) metered with
      | Some c => (r, Ok c)
      | None =>
          match List.find (fun c => has_api_key r (rc_channel_id c.1)
                     && router_is_tryable_past_cooldown clk r (rc_channel_id c.1))
                  candidates with
          | Some c => (r, Ok c)
          | None => (r, Err (ChannelSelection client_name))
          end
      end
  end.
End Select.

(** ** Hooks *)

Definition flat_fee_snapshot : string :=
  "{" +:+ quoted "type" +:+ ":" +:+ quoted "flat_fee" +:+ "}".

Section Hooks.
Context `{SerdeJson} `{PricingCodec}.
(** [{:?}] on a list of strings, in the text of an internal error. *)
Context (debug_strings : list string -> string).

Definition allows (m : ResolvedMapping) (protocol : string) : bool :=
  existsb (fun p => String.eqb p protocol) (rm_allowed_protocols m).

(** The protocol-model compatibility check. *)
Definition constrain_protocol (ch : ResolvedChannel) (m : ResolvedMapping)
    (target : ApiFormat) : Res ProxyError ApiFormat :=
  match rm_allowed_protocols m with
  | [] => Ok target
  | _ =>
      if allows m (protocol_to_str target) then Ok target
      else match List.find (fun pe => allows m (pe_protocol pe)) (rc_protocols ch) with
      | Some entry => parse_protocol (pe_protocol entry)
      | None => Err (Internal ("mapping '" +:+ rm_mapping_id m +:+
          "' protocol constraint " +:+ debug_strings (rm_allowed_protocols m) +:+
          " incompatible with channel protocols " +:+
          debug_strings (pe_protocol <$> rc_protocols ch)))
      end
  end.

Definition billing_snapshot (b : ChannelBilling) : option Pricing * string :=
  match b with
  | Metered pricing => (Some pricing, default EmptyString (print_pricing pricing))
  | FlatFee _ _ _ => (None, flat_fee_snapshot)
  end.

Definition router_on_request (clk : Clock) (rc : ProxyRequest * ConnectionContext)
    : M Router (ProxyRequest * ConnectionContext) := fun r =>
  let '(req, ctx) := rc in
  (let! body := st_lift (map_err BadRequest (from_slice (req_body req))) in
   let client_name := default EmptyString (get_str "model" body) in
   if str_is_empty client_name then
     st_err (BadRequest "request body missing 'model' field")
   else
     let candidates := find_candidates (channels r) client_name in
     match candidates with
     | [] => st_err (ChannelSelection client_name)
     | _ =>
         let! (channel, mapping) := select_channel clk client_name candidates in
         let body' := match get "model" body with
                      | Some _ => set_field "model" (VString (rm_upstream_name mapping)) body
                      | None => body end in
         let! new_body := st_lift (map_err BadRequest (to_vec body')) in
         let req' := with_body new_body req in
         let! target := st_lift (resolve_target_protocol (rc_force_protocol channel)
                                  (detected_format ctx) (rc_protocols channel)) in
         let! target := st_lift (constrain_protocol channel mapping target) in
         let ctx1 := with_target_protocol target ctx in
         let! (base_url, rewrite_path) :=
           st_lift (resolve_upstream_url target (rc_protocols channel)) in
         let api_key := default (rc_api_key channel)
                          (channel_api_keys r !! rc_channel_id channel) in
         let ctx2 := ctx_insert EXT_SELECTED_CHANNEL (ExtChannel
           {| cc_url := base_url; cc_api_key := api_key; cc_protocol := target;
              cc_name := rc_channel_name channel; cc_rewrite_path := rewrite_path |}) ctx1 in
         let '(pricing, snapshot_json) := billing_snapshot (rm_billing mapping) in
         let ctx3 := ctx_insert EXT_SELECTED_MAPPING (ExtMapping
           {| smi_channel_id := rc_channel_id channel;
              smi_mapping_id := rm_mapping_id mapping;
              smi_client_name := rm_client_name mapping;
              smi_upstream_name := rm_upstream_name mapping;
              smi_is_flat_fee := is_flat_fee (rm_billing mapping);
              smi_pricing := pricing;
              smi_pricing_snapshot_json := snapshot_json |}) ctx2 in
         st_ret (req', ctx3)
     end) r.

Definition extract_token_count (body : Value) : Z :=
  match get "usage" body with
  | Some u => wrap_u64 (u64_field "input_tokens" u + u64_field "output_tokens" u)
  | None => 0
  end.

Definition record_quota (clk : Clock) (ctx : ConnectionContext) (res : ProxyResponse)
    (r : Router) : Router :=
  match ctx_mapping ctx with
  | Some info =>
      if smi_is_flat_fee info then
        let tokens := match from_slice (res_body res) with
                      | Ok body => extract_token_count body | _ => 0 end in
        let usage := default (QuotaUsage_new clk) (quota_usage r !! smi_mapping_id info) in
        with_quota_usage
          (<[smi_mapping_id info := record_usage clk tokens usage]> (quota_usage r)) r
      else r
  | None => r
  end.

Definition record_status (clk : Clock) (channel_id : string) (status : StatusCode)
    (r : Router) : Router :=
  if is_server_error status || (status =? 401) then mark_unhealthy_immediate clk channel_id r
  else if is_client_error status && negb (status =? 429) then r
  else if status =? 429 then router_mark_rate_limited clk channel_id r
  else mark_healthy channel_id r.

Definition router_on_response (clk : Clock) (ctx : ConnectionContext) (res : ProxyResponse)
    : M Router ProxyResponse := fun r =>
  let channel_id := selected_channel_name ctx in
  if str_is_empty channel_id then (r, Ok res)
  else (record_status clk channel_id (res_status res) (record_quota clk ctx res r), Ok res).

Definition ModelRouterMiddleware : ProxyMiddleware Router := {|
  mw_name := "model-router";
  on_request := router_on_request;
  on_response := router_on_response;
  on_init := default_on_init
|}.
End Hooks.

(** ** Protocol resolution *)

Lemma protocol_roundtrip p : p <> FutureFormat -> parse_protocol (protocol_to_str p) = Ok p.
Proof. by destruct p. Qed.

Lemma parse_protocol_inv s p : parse_protocol s = Ok p -> s = protocol_to_str p /\ p <> FutureFormat.
Proof. unfold parse_protocol. repeat case_bool_decide; intros; by simplify_eq. Qed.

Lemma has_protocol_elem name ps :
  has_protocol name ps = true <-> exists e, e ∈ ps /\ pe_protocol e = name.
Proof.
  unfold has_protocol. rewrite existsb_elem. by setoid_rewrite String.eqb_eq.
Qed.

Lemma resolve_target_supported fp df ps p :
  resolve_target_protocol fp df ps = Ok p ->
  p <> FutureFormat /\ has_protocol (protocol_to_str p) ps = true.
Proof.
  intros Hr.
  assert (Hfirst : forall e rest, parse_protocol (pe_protocol e) = Ok p ->
    p <> FutureFormat /\ has_protocol (protocol_to_str p) (e :: rest) = true).
  { intros e rest [He Hp]%parse_protocol_inv. split; [done|].
    apply has_protocol_elem. exists e. split; [apply list_elem_of_here|done]. }
  unfold resolve_target_protocol in Hr. destruct fp as [fp|].
  { inv_res. apply parse_protocol_inv in H as [_ Hne].
    destruct (has_protocol _ ps) eqn:Hh; inv_res. done. }
  destruct df as [df|]; [destruct (has_protocol (protocol_to_str df) ps) eqn:Hh|];
    [destruct df; simpl in *; inv_res; try done|rewrite andb_false_r in Hr|];
    destruct ps as [|e ps]; inv_res; try done;
    destruct (str_is_empty (pe_protocol e)); simpl in *; inv_res; eauto.
Qed.

(** The precedence: a forced protocol, else the client's own format when the
    channel speaks it, else the channel's first protocol. *)
Lemma resolve_target_precedence fp df ps p :
  resolve_target_protocol fp df ps = Ok p ->
  match fp, df with
  | Some s, _ => s = protocol_to_str p
  | None, Some f =>
      if has_protocol (protocol_to_str f) ps && negb (bool_decide (f = FutureFormat))
      then p = f else exists e rest, ps = e :: rest /\ pe_protocol e = protocol_to_str p
  | None, None => exists e rest, ps = e :: rest /\ pe_protocol e = protocol_to_str p
  end.
Proof.
  intros Hr.
  assert (Hfirst : match ps with
      | e :: _ => if negb (str_is_empty (pe_protocol e)) then parse_protocol (pe_protocol e)
                  else Err (Internal "channel has no protocols configured")
      | [] => Err (Internal "channel has no protocols configured") end = Ok p ->
    exists e rest, ps = e :: rest /\ pe_protocol e = protocol_to_str p).
  { destruct ps as [|e rest]; [done|]. destruct (negb _); [|done].
    intros [He _]%parse_protocol_inv. eauto. }
  unfold resolve_target_protocol in Hr. destruct fp as [s|].
  { inv_res. apply parse_protocol_inv in H as [-> Hne].
    destruct (has_protocol _ ps); inv_res. done. }
  destruct df as [f|]; [|auto].
  destruct (has_protocol (protocol_to_str f) ps) eqn:Hh; simpl.
  - destruct f; simpl in *; inv_res; auto.
  - rewrite andb_false_r in Hr. auto.
Qed.

Lemma constrain_supported `{SerdeJson} dbg ch m target p :
  target <> FutureFormat -> has_protocol (protocol_to_str target) (rc_protocols ch) = true ->
  constrain_protocol dbg ch m target = Ok p ->
  p <> FutureFormat /\ has_protocol (protocol_to_str p) (rc_protocols ch) = true /\
  (rm_allowed_protocols m = [] \/ allows m (protocol_to_str p) = true).
Proof.
  intros Hne Ht. unfold constrain_protocol.
  destruct (rm_allowed_protocols m) eqn:Ha; [intros; simplify_eq; auto|].
  destruct (allows m (protocol_to_str target)) eqn:Hal; [intros; simplify_eq; auto|].
  destruct (List.find _ _) as [entry|] eqn:Hf; [|done].
  intros [He Hp]%parse_protocol_inv. apply find_Some_elem in Hf as [Hin Hall].
  rewrite He in Hall. split_and!; [done| |by right].
  apply has_protocol_elem. eauto.
Qed.

Lemma resolve_upstream_url_inv p ps url rw :
  resolve_upstream_url p ps = Ok (url, rw) ->
  exists e, e ∈ ps /\ pe_protocol e = protocol_to_str p /\
    pe_base_url e = url /\ pe_rewrite_path e = rw /\ str_is_empty url = false.
Proof.
  unfold resolve_upstream_url. intros Hr. inv_res.
  apply find_Some_elem in H as [Hin Heq%String.eqb_eq].
  destruct (str_is_empty (pe_base_url _)) eqn:He; inv_res; simplify_eq; eauto 10.
Qed.

(** Whatever protocol is resolved for a request, the channel has an entry for
    it: looking up the upstream URL never fails with "no protocol entry", and
    fails at all only when the first such entry has an empty base URL.  The
    textual names of the protocols and the formats are in bijection. *)
Theorem resolved_protocol_has_url `{SerdeJson} dbg ch m df target p :
  resolve_target_protocol (rc_force_protocol ch) df (rc_protocols ch) = Ok target ->
  constrain_protocol dbg ch m target = Ok p ->
  parse_protocol (protocol_to_str p) = Ok p /\
  exists e, e ∈ rc_protocols ch /\ pe_protocol e = protocol_to_str p /\
    resolve_upstream_url p (rc_protocols ch) =
      if str_is_empty (pe_base_url e)
      then Err (Internal ("protocol entry '" +:+ protocol_to_str p +:+ "' has empty base_url"))
      else Ok (pe_base_url e, pe_rewrite_path e).
Proof.
  intros [Hne Hh]%resolve_target_supported Hc.
  destruct (constrain_supported dbg ch m target p Hne Hh Hc) as (Hp & Hs & _).
  split; [by apply protocol_roundtrip|].
  unfold resolve_upstream_url. destruct (List.find _ _) as [e|] eqn:Hf.
  - apply find_Some_elem in Hf as [Hin Heq%String.eqb_eq]. exists e. simpl. auto.
  - apply has_protocol_elem in Hs as (e & Hin & Heq).
    apply (proj1 (find_None_iff _ _)) with (y := e) in Hf; [|done].
    by apply String.eqb_neq in Hf.
Qed.

Lemma resolved_protocol_has_url_witness :
  let pe p u := {| pe_protocol := p; pe_base_url := u; pe_rewrite_path := None |} in
  let m := {| rm_mapping_id := "m"; rm_client_name := "a"; rm_upstream_name := "b";
              rm_billing := FlatFee None None Block; rm_allowed_protocols := ["openai_chat"] |} in
  let ch := {| rc_channel_id := "c"; rc_channel_name := "C"; rc_api_key := "k";
               rc_protocols := [pe "anthropic_messages" "http://a"; pe "openai_chat" "http://o"];
               rc_enabled := true; rc_force_protocol := None; rc_priority := 1;
               rc_mappings := [m] |} in
  parse_protocol (protocol_to_str OpenaiChat) = Ok OpenaiChat /\
  exists e, e ∈ rc_protocols ch /\ pe_protocol e = protocol_to_str OpenaiChat /\
    resolve_upstream_url OpenaiChat (rc_protocols ch) =
      if str_is_empty (pe_base_url e)
      then Err (Internal ("protocol entry '" +:+ protocol_to_str OpenaiChat
                          +:+ "' has empty base_url"))
      else Ok (pe_base_url e, pe_rewrite_path e).
Proof.
  intros pe m ch.
  exact (resolved_protocol_has_url (H := Model.json) (fun _ => "") ch m
           (Some AnthropicMessages) AnthropicMessages OpenaiChat eq_refl eq_refl).
Defined.

(** ** Selection: specification and refinement *)

Section Specification.
Context (clk : Clock).

Definition usage_of (r : Router) (mapping_id : string) : QuotaUsage :=
  default (QuotaUsage_new clk) (quota_usage r !! mapping_id).

(** Routers that answer every query alike: a usage counter that is absent
    is a fresh one. *)
Definition router_equiv (r r' : Router) : Prop :=
  channels r = channels r' /\ health r = health r' /\
  channel_api_keys r = channel_api_keys r' /\
  forall k, usage_of r k = usage_of r' k.

#[export] Instance router_equiv_equivalence : Equivalence router_equiv.
Proof.
  split.
  - done.
  - intros r r' (? & ? & ? & Hu). repeat split; auto.
  - intros r1 r2 r3 (? & ? & ? & Hu) (? & ? & ? & Hu').
    split_and!; [congruence..|]. intros k. by rewrite Hu.
Qed.

Definition usable (r : Router) (c : Candidate) : bool :=
  has_api_key r (rc_channel_id c.1) && is_healthy clk r (rc_channel_id c.1).

#[export] Instance usable_proper : Proper (router_equiv ==> eq ==> eq) usable.
Proof.
  intros r r' (Hc & Hh & Hk & _) c ? <-. unfold usable, has_api_key, is_healthy.
  by rewrite Hc, Hh, Hk.
Qed.

(** The quota of a flat-fee candidate is not used up. *)
Definition within (r : Router) (c : Candidate) : bool :=
  match rm_billing c.2 with
  | FlatFee _ quota _ => is_within_quota (usage_of r (rm_mapping_id c.2)) quota
  | Metered _ => false
  end.

#[export] Instance within_proper : Proper (router_equiv ==> eq ==> eq) within.
Proof.
  intros r r' (_ & _ & _ & Hu) c ? <-. unfold within.
  destruct (rm_billing c.2); [done|]. by rewrite Hu.
Qed.

Definition blocks (c : Candidate) : bool :=
  match rm_billing c.2 with
  | FlatFee _ _ Block => true
  | _ => false
  end.

(** A usable flat-fee candidate that ends the search: it serves the request,
    or its exhausted quota blocks it. *)
Definition decides (r : Router) (c : Candidate) : bool :=
  usable r c && cand_flat_fee c && (within r c || blocks c).

Inductive selection (r : Router) (cs : list Candidate) (client_name : string)
    : Res ProxyError Candidate -> Prop :=
| sel_flat_fee c :
    c ∈ cs -> decides r c = true ->
    (forall d, d ∈ cs -> decides r d = true -> cand_priority d <= cand_priority c) ->
    selection r cs client_name
      (if within r c then Ok c else Err (ChannelSelection client_name))
| sel_metered c :
    (forall d, d ∈ cs -> decides r d = false) ->
    c ∈ cs -> usable r c = true -> cand_flat_fee c = false ->
    (forall d, d ∈ cs -> usable r d = true -> cand_flat_fee d = false ->
       cand_priority d <= cand_priority c) ->
    selection r cs client_name (Ok c)
| sel_exhausted c before after :
    (forall d, d ∈ cs -> decides r d = false) ->
    (forall d, d ∈ cs -> usable r d = true -> cand_flat_fee d = true) ->
    cs = before ++ c :: after -> usable r c = true ->
    (forall d, d ∈ before -> usable r d = false) ->
    selection r cs client_name (Ok c)
| sel_none :
    (forall d, d ∈ cs -> usable r d = false) ->
    selection r cs client_name (Err (ChannelSelection client_name)).

Lemma insert_usage_equiv r mid :
  router_equiv r (with_quota_usage (<[mid := usage_of r mid]> (quota_usage r)) r).
Proof.
  split_and!; [done..|]. intros k. unfold usage_of at 2. simpl.
  destruct (decide (mid = k)) as [->|]; [by rewrite lookup_insert_eq|].
  by rewrite lookup_insert_ne.
Qed.

Lemma within_flat_fee r ch m hint quota act :
  rm_billing m = FlatFee hint quota act ->
  within r (ch, m) = is_within_quota (usage_of r (rm_mapping_id m)) quota.
Proof. intros Hb. unfold within. simpl. by rewrite Hb. Qed.

Lemma decides_equiv r r' l :
  router_equiv r r' -> List.find (decides r) l = List.find (decides r') l.
Proof. intros He. apply find_ext_all. intros c. unfold decides. by rewrite He. Qed.

Lemma try_flat_fee_spec name l r :
  Forall (fun c => cand_flat_fee c = true) l ->
  router_equiv r (try_flat_fee clk name l r).1 /\
  (try_flat_fee clk name l r).2 =
    (c ← List.find (decides r) l;
     Some (if within r c then Ok c else Err (ChannelSelection name))).
Proof.
  intros Hl. revert r. induction Hl as [|[ch m] l Hflat _ IH]; intros r; [done|].
  simpl. unfold decides at 1. rewrite Hflat. unfold usable at 1, blocks.
  unfold cand_flat_fee in Hflat. simpl in *.
  destruct (has_api_key r _); simpl; [|apply IH].
  destruct (is_healthy clk r _); simpl; [|apply IH].
  destruct (rm_billing m) as [|hint quota act] eqn:Hb; [done|].
  rewrite (within_flat_fee _ _ _ _ _ _ Hb).
  pose proof (insert_usage_equiv r (rm_mapping_id m)) as He.
  change (default (QuotaUsage_new clk) (quota_usage r !! rm_mapping_id m))
    with (usage_of r (rm_mapping_id m)).
  destruct (is_within_quota _ quota) eqn:Hw; simpl;
    [by rewrite (within_flat_fee _ _ _ _ _ _ Hb), Hw|].
  destruct act; simpl; [|by rewrite (within_flat_fee _ _ _ _ _ _ Hb), Hw].
  set (r' := with_quota_usage _ r) in *. destruct (IH r') as [IH1 IH2].
  split; [by etrans|]. rewrite IH2, (decides_equiv _ _ _ He).
  destruct (List.find _ l); simpl; [|done]. by rewrite <-He.
Qed.
End Specification.

Lemma select_selection clk name cs r :
  router_equiv clk r (select_channel clk name cs r).1 /\
  selection clk r cs name (select_channel clk name cs r).2.
Proof.
  unfold select_channel.
  set (flatfee := sort_desc cand_priority (List.filter cand_flat_fee cs)).
  destruct (try_flat_fee_spec clk name flatfee r) as [He Hret].
  { apply Forall_forall. intros c Hc. subst flatfee.
    by apply elem_of_sort_desc, elem_of_filter_bool in Hc as [_ ?]. }
  destruct (try_flat_fee clk name flatfee r) as [r' ret]. simpl in *. subst ret.
  assert (Hflat : forall d, d ∈ cs -> decides clk r d = true ->
            d ∈ List.filter cand_flat_fee cs).
  { intros d Hd Hdec. apply elem_of_filter_bool. split; [done|].
    unfold decides in Hdec. apply andb_true_iff in Hdec as [Hdec _].
    by apply andb_true_iff in Hdec as [_ ?]. }
  destruct (List.find (decides clk r) flatfee) as [c|] eqn:Hf; simpl.
  { split; [done|]. apply find_sort_desc_max in Hf as (Hin & Hd & Hmax).
    apply elem_of_filter_bool in Hin as [Hin _]. constructor; auto. }
  assert (Hnone : forall d, d ∈ cs -> decides clk r d = false).
  { intros d Hd. apply not_true_is_false. intros Hdec.
    rewrite (proj1 (find_sort_desc_None _ _ _) Hf d) in Hdec; [done|auto]. }
  rewrite (find_ext_all _ (usable clk r)).
  2:{ intros d. rewrite He. done. }
  destruct (List.find (usable clk r) _) as [c|] eqn:Hm; simpl.
  { split; [done|]. apply find_sort_desc_max in Hm as (Hin & Hu & Hmax).
    apply elem_of_filter_bool in Hin as [Hin Hnf%negb_true_iff].
    apply sel_metered; auto. intros d Hd Hud Hfd. apply Hmax; [|done].
    apply elem_of_filter_bool. by rewrite Hfd. }
  rewrite (find_ext_all _ (usable clk r)).
  2:{ intros d. rewrite He. done. }
  destruct (List.find (usable clk r) cs) as [c|] eqn:Hc; simpl; (split; [done|]).
  - apply find_split in Hc as (before & after & Hcs & Hu & Hb).
    apply (sel_exhausted _ _ _ _ c before after); auto. intros d Hd Hud.
    apply not_false_is_true. intros Hfd.
    rewrite (proj1 (find_sort_desc_None _ _ _) Hm d) in Hud; [done|].
    apply elem_of_filter_bool. by rewrite Hfd.
  - apply sel_none. by apply find_None_iff.
Qed.

Lemma selection_inv clk r cs name c :
  selection clk r cs name (Ok c) -> c ∈ cs /\ usable clk r c = true.
Proof.
  inversion 1 as [d Hin Hd _ Heq|d _ Hin Hu|d b a _ _ -> Hu|]; subst.
  - destruct (within clk r d); [|done]. simplify_eq. split; [done|].
    unfold decides in Hd. destruct (usable clk r c); [done|]. discriminate Hd.
  - done.
  - split; [|done]. apply elem_of_app. right. apply list_elem_of_here.
Qed.


(** The last fallback, taken after every flat-fee candidate failed its quota
    and no metered one is usable, ignores the quota: a healthy flat-fee channel
    whose quota is used up (and falls back to metered) still serves. *)
Theorem exhausted_quota_bypassed clk name cs r c rest :
  cs = c :: rest ->
  (forall d, d ∈ cs -> cand_flat_fee d = true /\ blocks d = false /\ within clk r d = false) ->
  usable clk r c = true ->
  (select_channel clk name cs r).2 = Ok c.
Proof.
  intros -> Hall Hu. destruct (select_selection clk name (c :: rest) r) as [_ Hsel].
  assert (Hnd : forall d, d ∈ c :: rest -> decides clk r d = false).
  { intros d Hd. unfold decides. destruct (Hall d Hd) as (_ & -> & ->).
    by rewrite andb_false_r. }
  inversion Hsel as [d Hin Hd|d _ Hin _ Hnf|d before after _ _ Heq Hud Hb|Hno]; subst.
  - by rewrite Hnd in Hd.
  - by destruct (Hall d Hin) as (Hf & _); rewrite Hf in Hnf.
  - destruct before as [|b before]; simplify_eq/=; [done|].
    rewrite Hb in Hu; [done|]. apply list_elem_of_here.
  - rewrite Hno in Hu; [done|]. apply list_elem_of_here.
Qed.

(** C13: No history of failures takes a model out of service for good: once fifteen
    minutes have passed since the last failure of any one channel that serves
    it with a key, a request for the model is given a channel again, unless a
    flat-fee mapping of it blocks on exhaustion. *)
Theorem service_recovers clk name r ch m :
  let candidates := find_candidates (channels r) name in
  (ch, m) ∈ candidates -> has_api_key r (rc_channel_id ch) = true ->
  (forall d, d ∈ candidates -> blocks d = false) ->
  (forall s t, health r !! rc_channel_id ch = Some s -> failed_at s = Some t ->
     t + from_secs 900 <= now clk) ->
  exists c, (select_channel clk name candidates r).2 = Ok c /\ c ∈ candidates.
Proof.
  intros candidates Hin Hkey Hnb Hlate.
  assert (Hu : usable clk r (ch, m) = true).
  { unfold usable, is_healthy. simpl. rewrite Hkey. simpl.
    destruct (health r !! rc_channel_id ch) as [s|] eqn:Hs; [|done]. simpl.
    destruct (Billing.health s) eqn:Hh; [unfold is_tryable_past_cooldown; by rewrite Hh|].
    destruct (failed_at s) as [t|] eqn:Hf;
      [|unfold is_tryable_past_cooldown; by rewrite Hh, Hf].
    apply (tryable_after_cooldown _ _ t); [done..|]. specialize (Hlate s t eq_refl Hf).
    pose proof (cooldown_bound s). lia. }
  destruct (select_selection clk name candidates r) as [_ Hsel].
  destruct (select_channel clk name candidates r).2 as [c|e|];
    [exists c; split; [done|]; by apply (selection_inv clk r candidates name)| |inversion Hsel].
  - inversion Hsel as [d Hd Hdec _ Heq| | |Hno Heq].
    + unfold decides in Hdec. rewrite (Hnb d Hd), orb_false_r in Hdec.
      destruct (within clk r d); [discriminate Heq|]. by rewrite andb_false_r in Hdec.
    + by rewrite Hno in Hu.
  - match goal with H : _ = Panic |- _ => destruct (within clk r c); discriminate H end.
Qed.

(** ** Loaded routers *)

Definition protocol_wf (p : ProtocolEntry) : Prop :=
  trim_end_matches slash (pe_base_url p) = pe_base_url p /\ pe_rewrite_path p <> Some EmptyString.

Definition channel_wf (ch : ResolvedChannel) : Prop :=
  rc_protocols ch <> [] /\ Forall protocol_wf (rc_protocols ch).

Section LoadFacts.
Context `{PricingCodec, ColumnCodec} {S : Type} `{!Storage S}.

Lemma normalize_protocol_wf p : protocol_wf (normalize_protocol p).
Proof.
  split; simpl; [apply trim_end_matches_idemp|].
  destruct (pe_rewrite_path p) as [[|]|]; done.
Qed.

Lemma load_channels_spec (s : S) chs loaded :
  load_channels s chs = Ok loaded ->
  rc_channel_id <$> loaded =
    ch_id <$> List.filter (fun ch => match parse_protocols (ch_protocols ch) with
                                     | Some (_ :: _) => true | _ => false end) chs /\
  Forall channel_wf loaded /\
  Forall (fun rc => exists ch ms, ch ∈ chs /\ list_mappings (ch_id ch) s = Ok ms /\
    rc = resolve_channel ch (default [] (parse_protocols (ch_protocols ch))) ms) loaded.
Proof.
  revert loaded. induction chs as [|ch chs IH]; intros loaded; simpl.
  { intros. by simplify_eq. }
  destruct (parse_protocols (ch_protocols ch)) as [[|p ps]|] eqn:Hp; simpl; intros Hl.
  1,3: destruct (IH _ Hl) as (Hids & Hwf & Hsrc); split_and!; [done..|];
    eapply Forall_impl; [exact Hsrc|]; intros rc (c & ms & Hin & Hrest); exists c, ms;
    split; [by apply elem_of_cons; right|done].
  unfold internal in Hl. inv_res. simplify_eq.
  match goal with H : load_channels s chs = Ok _ |- _ =>
    destruct (IH _ H) as (Hids & Hwf & Hsrc) end.
  split_and!.
  - csimpl. by rewrite Hids.
  - constructor; [|done]. split; [done|]. simpl.
    constructor; [apply normalize_protocol_wf|]. apply Forall_fmap, Forall_true.
    intros. apply normalize_protocol_wf.
  - constructor.
    + eexists _, _. split_and!; [apply list_elem_of_here|done|]. by rewrite Hp.
    + eapply Forall_impl; [exact Hsrc|]. intros rc (c & ms' & Hin & Hrest).
      exists c, ms'. split; [by apply elem_of_cons; right|done].
Qed.

Lemma initial_api_keys_lookup chs id :
  (forall k, initial_api_keys chs !! id = Some k ->
     k <> EmptyString /\ exists ch, ch ∈ chs /\ rc_channel_id ch = id /\ rc_api_key ch = k) /\
  (initial_api_keys chs !! id = None ->
     forall ch, ch ∈ chs -> rc_channel_id ch = id -> rc_api_key ch = EmptyString).
Proof.
  unfold initial_api_keys. induction chs as [|ch chs [IH1 IH2]] using rev_ind.
  { split; [done|]. intros _ ch Hch. by apply elem_of_nil in Hch. }
  rewrite foldl_app. simpl. set (keys := foldl _ ∅ chs) in *.
  destruct (rc_api_key ch) as [|a k] eqn:Hk; simpl.
  { split.
    - intros k Hl. destruct (IH1 k Hl) as (? & c & ? & ? & ?). split; [done|]. exists c.
      rewrite elem_of_app. auto.
    - intros Hl c [Hc|Hc%list_elem_of_singleton]%elem_of_app Hid; [eauto|by subst]. }
  destruct (decide (rc_channel_id ch = id)) as [<-|Hne].
  - rewrite lookup_insert_eq. split; [|done]. intros ? [= <-]. split; [done|]. exists ch.
    rewrite elem_of_app, list_elem_of_singleton. auto.
  - rewrite lookup_insert_ne by done. split.
    + intros k' Hl. destruct (IH1 k' Hl) as (? & c & ? & ? & ?). split; [done|]. exists c.
      rewrite elem_of_app. auto.
    + intros Hl c [Hc|Hc%list_elem_of_singleton]%elem_of_app Hid; [eauto|congruence].
Qed.
End LoadFacts.

(** What start-up loads: the channels of the store that have protocols, in
    storage order, each with at least one protocol, no trailing slash in a base
    URL and no empty rewrite path; every channel healthy; a channel has a key
    exactly when the store gives one to a channel of its id.  A hot reload
    replaces the channel list of any running router by the same list and keeps
    its health marks, its usage counters and its key overrides. *)
Theorem router_from_storage_correct `{PricingCodec, ColumnCodec} {S : Type} `{!Storage S}
    (s : S) r :
  router_from_storage s = Ok r ->
  Forall channel_wf (channels r) /\
  (exists chs, list_channels None s = Ok chs /\
    rc_channel_id <$> channels r =
      ch_id <$> List.filter (fun ch => match parse_protocols (ch_protocols ch) with
                                       | Some (_ :: _) => true | _ => false end) chs) /\
  (forall clk id, is_healthy clk r id = true) /\
  (forall id, has_api_key r id = true <->
     exists ch, ch ∈ channels r /\ rc_channel_id ch = id /\ rc_api_key ch <> EmptyString) /\
  (forall r0, reload_channels_from_storage s r0 = (with_channels (channels r) r0, Ok tt)).
Proof.
  unfold router_from_storage, reload_channels_from_storage. intros Hr.
  destruct (internal (list_channels None s)) as [chs| |] eqn:Hchs; simpl in Hr; try done.
  destruct (load_channels s chs) as [loaded| |] eqn:Hload; simpl in Hr; try done.
  inv_res. simpl. destruct (load_channels_spec s chs loaded Hload) as (Hids & Hwf & _).
  rewrite Hload. split_and!; [done| |done| |done].
  { exists chs. split; [|done]. unfold internal in Hchs. by inv_res. }
  intros id. destruct (initial_api_keys_lookup loaded id) as [H1 H2].
  unfold has_api_key. simpl. destruct (initial_api_keys loaded !! id) as [k|] eqn:Hk.
  - destruct (H1 k eq_refl) as (Hne & ch & Hin & Hid & Hkey). split; [|by destruct k].
    intros _. exists ch. split_and!; [done..|congruence].
  - split.
    + intros (ch & Hin & Hch)%existsb_elem.
      apply andb_true_iff in Hch as [Hid%String.eqb_eq Hkey].
      by rewrite (H2 eq_refl ch Hin Hid) in Hkey.
    + intros (ch & Hin & Hid & Hkey). by specialize (H2 eq_refl ch Hin Hid).
Qed.

(** Three stored channels, one of them without protocols, for the witnesses. *)
Module SampleStore.
#[export] Instance pricing_codec : PricingCodec := {|
  parse_pricing _ := Err "unsupported";
  parse_flat_fee _ := None;
  print_pricing _ := Some "{}"
|}.

#[export] Instance columns : ColumnCodec := {|
  parse_protocols s := if str_is_empty s then None else Some
    [{| pe_protocol := "openai_chat"; pe_base_url := "http://o/";
        pe_rewrite_path := Some "" |}];
  parse_strings _ := None
|}.

Definition channel (id key protocols : string) : Channel :=
  {| ch_id := id; ch_name := id; ch_api_key := key; ch_protocol := "openai_chat";
     ch_protocols := protocols; ch_is_builtin := true; ch_enabled := true;
     ch_created_at := 0; ch_updated_at := 0; ch_health_status := "Healthy";
     ch_cooldown_until := None; ch_consecutive_failures := 0; ch_billing_type := "FlatFee";
     ch_monthly_quota := None; ch_quota_policy := "fallback"; ch_priority := 1;
     ch_force_protocol := None |}.

Definition store : Fixture.store :=
  ([channel "a" "k" "p"; channel "b" "" ""; channel "c" "" "p"], []).
End SampleStore.
#[local] Existing Instances SampleStore.pricing_codec SampleStore.columns.

Lemma router_from_storage_correct_witness :
  match router_from_storage SampleStore.store with
  | Ok r => Forall channel_wf (channels r)
  | _ => False
  end.
Proof.
  destruct (router_from_storage SampleStore.store) as [r| |] eqn:Hr.
  - apply (router_from_storage_correct SampleStore.store r Hr).
  - vm_compute in Hr. discriminate Hr.
  - vm_compute in Hr. discriminate Hr.
Defined.

(** ** The request hook *)

(** What the hook leaves behind when it routes a request to mapping [m] of
    channel [ch] over the protocol [p] of entry [e]. *)
Record Routed `{SerdeJson, PricingCodec} (clk : Clock) (r : Router)
    (req : ProxyRequest) (ctx : ConnectionContext) (req' : ProxyRequest)
    (ctx' : ConnectionContext) (ch : ResolvedChannel) (m : ResolvedMapping)
    (e : ProtocolEntry) (p : ApiFormat) : Prop := {
  routed_channel : ch ∈ channels r /\ rc_enabled ch = true /\ m ∈ rc_mappings ch;
  routed_usable : is_healthy clk r (rc_channel_id ch) = true;
  routed_body : exists json json',
    from_slice (req_body req) = Ok json /\ from_slice (req_body req') = Ok json' /\
    get_str "model" json = Some (rm_client_name m) /\ rm_client_name m <> EmptyString /\
    get_str "model" json' = Some (rm_upstream_name m) /\
    (forall k, k <> "model" -> get_str k json' = get_str k json);
  routed_rest : req' = with_body (req_body req') req;
  routed_protocol : target_protocol ctx' = Some p /\ e ∈ rc_protocols ch /\
    pe_protocol e = protocol_to_str p /\ p <> FutureFormat /\
    (rm_allowed_protocols m = [] \/ allows m (protocol_to_str p) = true);
  routed_config : exists key, key <> EmptyString /\ pe_base_url e <> EmptyString /\
    ctx_channel ctx' = Some
      {| cc_url := pe_base_url e; cc_api_key := key; cc_protocol := p;
         cc_name := rc_channel_name ch; cc_rewrite_path := pe_rewrite_path e |};
  routed_mapping : ctx_mapping ctx' = Some
    {| smi_channel_id := rc_channel_id ch; smi_mapping_id := rm_mapping_id m;
       smi_client_name := rm_client_name m; smi_upstream_name := rm_upstream_name m;
       smi_is_flat_fee := is_flat_fee (rm_billing m);
       smi_pricing := pricing_of (rm_billing m);
       smi_pricing_snapshot_json := (billing_snapshot (rm_billing m)).2 |}
}.

Lemma find_candidates_spec chs name ch m :
  (ch, m) ∈ find_candidates chs name <->
  ch ∈ chs /\ rc_enabled ch = true /\ m ∈ rc_mappings ch /\ rm_client_name m = name.
Proof.
  unfold find_candidates. rewrite list_elem_of_In, in_flat_map.
  setoid_rewrite <-list_elem_of_In. split.
  - intros (c & Hc & Hin). destruct (rc_enabled c) eqn:He; [|by apply elem_of_nil in Hin].
    apply list_elem_of_fmap in Hin as (m' & ? & Hm). simplify_eq.
    apply elem_of_filter_bool in Hm as [Hm Hn%String.eqb_eq]. auto.
  - intros (Hc & He & Hm & Hn). exists ch. split; [done|]. rewrite He.
    apply list_elem_of_fmap. exists m. split; [done|]. apply elem_of_filter_bool.
    by rewrite Hn, String.eqb_refl.
Qed.

(** The key a usable channel is called with is not empty. *)
Lemma selected_key r ch :
  NoDup (rc_channel_id <$> channels r) -> ch ∈ channels r ->
  has_api_key r (rc_channel_id ch) = true ->
  default (rc_api_key ch) (channel_api_keys r !! rc_channel_id ch) <> EmptyString.
Proof.
  intros Hnd Hin. unfold has_api_key.
  destruct (channel_api_keys r !! rc_channel_id ch) as [k|]; simpl; [by destruct k|].
  intros (ch' & Hin' & Hk)%existsb_elem.
  apply andb_true_iff in Hk as [Hid%String.eqb_eq Hk].
  assert (ch' = ch) as ->; [|by destruct (rc_api_key ch)].
  apply list_elem_of_lookup in Hin as [i Hi], Hin' as [j Hj].
  assert (i = j) as ->; [|congruence].
  eapply NoDup_lookup; [exact Hnd| |]; rewrite list_lookup_fmap; [by rewrite Hi|].
  rewrite Hj. simpl. by rewrite Hid.
Qed.

Lemma router_on_request_inv `{SerdeJson, PricingCodec} dbg clk req ctx r r' req' ctx' :
  router_on_request dbg clk (req, ctx) r = (r', Ok (req', ctx')) ->
  exists body name ch m target p url rw b,
    from_slice (req_body req) = Ok body /\ get_str "model" body = Some name /\
    name <> EmptyString /\
    select_channel clk name (find_candidates (channels r) name) r = (r', Ok (ch, m)) /\
    to_vec (set_field "model" (VString (rm_upstream_name m)) body) = Ok b /\
    resolve_target_protocol (rc_force_protocol ch) (detected_format ctx) (rc_protocols ch)
      = Ok target /\
    constrain_protocol dbg ch m target = Ok p /\
    resolve_upstream_url p (rc_protocols ch) = Ok (url, rw) /\
    req' = with_body b req /\
    ctx' = ctx_insert EXT_SELECTED_MAPPING (ExtMapping
        {| smi_channel_id := rc_channel_id ch; smi_mapping_id := rm_mapping_id m;
           smi_client_name := rm_client_name m; smi_upstream_name := rm_upstream_name m;
           smi_is_flat_fee := is_flat_fee (rm_billing m);
           smi_pricing := (billing_snapshot (rm_billing m)).1;
           smi_pricing_snapshot_json := (billing_snapshot (rm_billing m)).2 |})
      (ctx_insert EXT_SELECTED_CHANNEL (ExtChannel
        {| cc_url := url;
           cc_api_key := default (rc_api_key ch) (channel_api_keys r !! rc_channel_id ch);
           cc_protocol := p; cc_name := rc_channel_name ch; cc_rewrite_path := rw |})
        (with_target_protocol p ctx)).
Proof.
  unfold router_on_request. intros Hr.
  apply st_bind_Ok in Hr as (r1 & body & Hbody & Hr). unfold st_lift in Hbody.
  injection Hbody as <- Hbody. apply map_err_Ok in Hbody.
  destruct (get_str "model" body) as [name|] eqn:Hname; simpl in Hr; [|done].
  destruct (str_is_empty name) eqn:Hne; [done|].
  assert (name <> EmptyString) by (by destruct name).
  destruct (find_candidates (channels r) name) as [|c cs] eqn:Hcs; [done|].
  apply st_bind_Ok in Hr as (r1 & [ch m] & Hsel & Hr).
  apply st_bind_Ok in Hr as (r2 & b & [= <- Hb%map_err_Ok] & Hr).
  apply st_bind_Ok in Hr as (r3 & target & [= <- Ht] & Hr).
  apply st_bind_Ok in Hr as (r4 & p & [= <- Hp] & Hr).
  apply st_bind_Ok in Hr as (r5 & [url rw] & [= <- Hu] & Hr).
  destruct (get_str_Some _ _ _ Hname) as [v Hv]. rewrite Hv in Hb.
  destruct (billing_snapshot (rm_billing m)) as [pr snap] eqn:Hbill.
  injection Hr as <- <- <-.
  exists body, name, ch, m, target, p, url, rw, b. rewrite Hcs, Hbill. auto 10.
Qed.

(** C2: A request the router lets through is routed to an enabled, healthy channel
    with a non-empty API key, by a mapping for the model it asked for.  The
    body it forwards asks for the mapping's upstream model and keeps its other
    text fields; nothing else of the request changes.  The protocol is one the
    channel offers and the mapping allows, the URL is the one of that
    protocol's entry, and the context carries the channel, the protocol and
    the billing of the mapping. *)
Theorem router_on_request_correct `{SerdeJson, PricingCodec} `{!SerdeJsonLaws _}
    dbg clk req ctx r r' req' ctx' :
  NoDup (rc_channel_id <$> channels r) ->
  router_on_request dbg clk (req, ctx) r = (r', Ok (req', ctx')) ->
  router_equiv clk r r' /\
  exists ch m e p, Routed clk r req ctx req' ctx' ch m e p.
Proof.
  intros Hnd Hr.
  destruct (router_on_request_inv _ _ _ _ _ _ _ _ Hr)
    as (body & name & ch & m & target & p & url & rw & b & Hbody & Hname & Hne & Hsel & Hb
        & Ht & Hp & Hu & -> & ->).
  destruct (select_selection clk name (find_candidates (channels r) name) r) as [He Hs].
  rewrite Hsel in He, Hs. split; [done|].
  apply selection_inv in Hs as [Hin Hus].
  apply find_candidates_spec in Hin as (Hch & Hen & Hm & <-).
  apply andb_true_iff in Hus as [Hkey Hhealthy].
  destruct (resolve_target_supported _ _ _ _ Ht) as [Hft Hst].
  destruct (constrain_supported _ _ _ _ _ Hft Hst Hp) as (Hfp & _ & Hall).
  destruct (resolve_upstream_url_inv _ _ _ _ Hu) as (e & Hine & Hep & <- & <- & Hurl).
  exists ch, m, e, p. split; try done.
  - destruct (to_vec_from_slice (set_field "model" (VString (rm_upstream_name m)) body))
      as (b' & json' & Hb' & Hjson & Hget). rewrite Hb in Hb'. injection Hb' as <-.
    exists body, json'. split_and!; [done..| |].
    + rewrite Hget. by eapply get_str_set_field.
    + intros k Hk. rewrite Hget. by apply get_str_set_field_ne.
  - exists (default (rc_api_key ch) (channel_api_keys r !! rc_channel_id ch)).
    split_and!; [by apply selected_key|by destruct (pe_base_url e)|].
    unfold ctx_channel, ctx_insert. simpl. by rewrite lookup_insert_ne, lookup_insert_eq.
  - unfold ctx_mapping, ctx_insert. simpl. rewrite lookup_insert_eq.
    by destruct (rm_billing m).
Qed.

(** Selection, resolution and the hook itself never panic. *)
Lemma selection_total clk r cs name : ~ selection clk r cs name Panic.
Proof.
  inversion 1 as [c _ _ _ Hp| | |]. by destruct (within clk r c).
Qed.

Lemma parse_protocol_total s : parse_protocol s <> Panic.
Proof. unfold parse_protocol. by repeat case_bool_decide. Qed.

Lemma resolve_target_total fp df ps : resolve_target_protocol fp df ps <> Panic.
Proof.
  pose proof parse_protocol_total. unfold resolve_target_protocol. destruct fp as [fp|].
  { apply res_bind_total; [done|]. intros target _. by destruct (has_protocol _ ps). }
  destruct df as [df|]; [destruct (_ && _); [done|]|]; destruct ps as [|e ps]; try done;
    by destruct (negb _).
Qed.

Lemma constrain_total `{SerdeJson} dbg ch m target : constrain_protocol dbg ch m target <> Panic.
Proof.
  unfold constrain_protocol. destruct (rm_allowed_protocols m); [done|].
  destruct (allows m _); [done|]. destruct (List.find _ _); [apply parse_protocol_total|done].
Qed.

Lemma resolve_upstream_url_total p ps : resolve_upstream_url p ps <> Panic.
Proof.
  unfold resolve_upstream_url. destruct (List.find _ ps) as [e|]; simpl; [|done].
  by destruct (str_is_empty _).
Qed.

Lemma router_request_total `{SerdeJson, PricingCodec} `{!SerdeJsonLaws _} dbg clk rc r :
  (forall b, from_slice b <> Panic) -> (router_on_request dbg clk rc r).2 <> Panic.
Proof.
  intros Hp. destruct rc as [req ctx]. unfold router_on_request.
  apply st_bind_total; [by apply map_err_total|]. intros body r1.
  destruct (str_is_empty _); [done|]. destruct (find_candidates _ _) as [|c cs]; [done|].
  apply st_bind_total.
  { match goal with |- (select_channel _ ?n ?l _).2 <> _ =>
      pose proof (proj2 (select_selection clk n l r1)) as Hs end.
    intros Heq. rewrite Heq in Hs. by apply selection_total in Hs. }
  intros [ch m] r2. apply st_bind_total.
  { match goal with |- context [to_vec ?v] =>
      destruct (to_vec_from_slice v) as (b & _ & -> & _) end. done. }
  intros b r3. apply st_bind_total; [apply resolve_target_total|]. intros target r4.
  apply st_bind_total; [apply constrain_total|]. intros p r5.
  apply st_bind_total; [apply resolve_upstream_url_total|]. intros [url rw] r6.
  by destruct (billing_snapshot _).
Qed.

(** A router of two channels for the witnesses: a flat-fee one whose monthly
    quota of one request can run out, and a metered one. *)
Module Sample.
#[local] Existing Instance Model.json.

Definition clock (t : Z) : Clock := {| now := t; utc_year := 2026; utc_month := 3 |}.

Definition flat : ResolvedMapping :=
  {| rm_mapping_id := "m1"; rm_client_name := "sonnet"; rm_upstream_name := "up-1";
     rm_billing := FlatFee None (Some (MaxRequests 1)) FallbackToMetered;
     rm_allowed_protocols := [] |}.

Definition metered : ResolvedMapping :=
  {| rm_mapping_id := "m2"; rm_client_name := "sonnet"; rm_upstream_name := "up-2";
     rm_billing := Metered (Credits None None (Some f64_one));
     rm_allowed_protocols := ["openai_chat"] |}.

Definition channel (id name key : string) (m : ResolvedMapping) : ResolvedChannel :=
  {| rc_channel_id := id; rc_channel_name := name; rc_api_key := key;
     rc_protocols := [{| pe_protocol := "anthropic_messages"; pe_base_url := "http://a";
                         pe_rewrite_path := None |};
                      {| pe_protocol := "openai_chat"; pe_base_url := "http://o";
                         pe_rewrite_path := None |}];
     rc_enabled := true; rc_force_protocol := None; rc_priority := 10; rc_mappings := [m] |}.

Definition router : Router :=
  {| channels := [channel "flat" "Flat" "k1" flat; channel "metered" "metered" "k2" metered];
     health := ∅; quota_usage := ∅; channel_api_keys := ∅ |}.

Definition request : ProxyRequest :=
  {| req_method := "POST"; req_path := "/v1/messages"; req_headers := [];
     req_body := Model.print (Model.JObj [("model", Model.JStr "sonnet")]) |}.

Definition context : ConnectionContext :=
  ConnectionContext_new (clock 0) 7 Claude None (Some AnthropicMessages).

Definition response (status : StatusCode) : ProxyResponse :=
  {| res_status := status; res_headers := []; res_body := EmptyString;
     res_is_streaming := false |}.
End Sample.

Lemma router_on_request_correct_witness :
  let _ := Model.json in
  match router_on_request (fun _ => "") (Sample.clock 1) (Sample.request, Sample.context)
          Sample.router with
  | (r', Ok (req', ctx')) =>
      exists ch m e p, Routed (Sample.clock 1) Sample.router Sample.request Sample.context
        req' ctx' ch m e p
  | _ => False
  end.
Proof.
  intros J.
  assert (Hok : is_ok (router_on_request (fun _ => "") (Sample.clock 1)
    (Sample.request, Sample.context) Sample.router).2 = true) by (vm_compute; reflexivity).
  destruct (router_on_request _ _ _ _) as [r' [[req' ctx']| |]] eqn:Hr; [|done..].
  refine (proj2 (@router_on_request_correct J SampleStore.pricing_codec Model.json_laws
    (fun _ => "") (Sample.clock 1) Sample.request Sample.context Sample.router r' req' ctx'
    _ Hr)).
  apply (bool_decide_unpack _). vm_compute. exact I.
Defined.

(** ** Health *)

(** The cooldown a response puts the channel it is recorded for under. *)
Definition penalty (status : StatusCode) : option Z :=
  if is_server_error status || (status =? 401) then Some (from_secs 900)
  else if status =? 429 then Some (from_secs 30)
  else None.

Lemma record_status_lookup clk name status r :
  health (record_status clk name status r) !! name =
    match penalty status with
    | Some d => Some {| Billing.health := Unhealthy; failed_at := Some (now clk);
                        consecutive_failures := if d =? from_secs 30 then 1 else 3 |}
    | None => if is_client_error status then health r !! name
              else record_success <$> (health r !! name)
    end.
Proof.
  unfold record_status, penalty. destruct (is_server_error status || (status =? 401)).
  { simpl. by rewrite lookup_insert_eq. }
  destruct (Z.eqb_spec status 429) as [->|]; simpl; [by rewrite lookup_insert_eq|].
  rewrite andb_true_r. destruct (is_client_error status); [done|].
  unfold mark_healthy. destruct (health r !! name) as [s|] eqn:Hs; simpl; [|done].
  by rewrite lookup_insert_eq.
Qed.

Lemma record_status_frame clk name status r k :
  k <> name -> health (record_status clk name status r) !! k = health r !! k.
Proof.
  intros Hk. unfold record_status, mark_healthy. repeat case_match; simpl; try done;
    by rewrite lookup_insert_ne.
Qed.

Lemma record_status_rest clk name status r :
  channels (record_status clk name status r) = channels r /\
  channel_api_keys (record_status clk name status r) = channel_api_keys r /\
  quota_usage (record_status clk name status r) = quota_usage r.
Proof. unfold record_status, mark_healthy. by repeat case_match. Qed.

Section ResponseFacts.
Context `{SerdeJson}.

Lemma record_quota_rest clk ctx res r :
  channels (record_quota clk ctx res r) = channels r /\
  channel_api_keys (record_quota clk ctx res r) = channel_api_keys r /\
  health (record_quota clk ctx res r) = health r.
Proof. unfold record_quota. by repeat case_match. Qed.

Lemma on_response_frame clk ctx res r k :
  k <> selected_channel_name ctx ->
  health (router_on_response clk ctx res r).1 !! k = health r !! k /\
  channels (router_on_response clk ctx res r).1 = channels r /\
  channel_api_keys (router_on_response clk ctx res r).1 = channel_api_keys r.
Proof.
  intros Hk. unfold router_on_response. destruct (str_is_empty _); [done|]. simpl.
  destruct (record_quota_rest clk ctx res r) as (Hc & Ha & Hh).
  rewrite record_status_frame, Hh by done.
  destruct (record_status_rest clk (selected_channel_name ctx) (res_status res)
              (record_quota clk ctx res r)) as (Hc' & Ha' & _).
  by rewrite Hc', Ha'.
Qed.

(** The response hook keys its health marks by the channel's display name,
    selection looks them up by the channel's id: when the two differ (as
    they do for every seeded channel) no answer of the upstream, whatever
    its status, ever changes whether the channel is selected. *)
Theorem health_marks_miss_channel clk clk' ctx res r ch m cfg :
  ctx_channel ctx = Some cfg -> cc_name cfg = rc_channel_name ch ->
  rc_channel_id ch <> rc_channel_name ch ->
  usable clk' (router_on_response clk ctx res r).1 (ch, m) = usable clk' r (ch, m).
Proof.
  intros Hctx Hname Hne.
  assert (Hsel : rc_channel_id ch <> selected_channel_name ctx).
  { unfold selected_channel_name. by rewrite Hctx, Hname. }
  destruct (on_response_frame clk ctx res r _ Hsel) as (Hh & Hc & Ha).
  unfold usable, has_api_key, is_healthy. simpl. by rewrite Hh, Hc, Ha.
Qed.

Lemma unhealthy_after clk clk' ctx res r d :
  selected_channel_name ctx <> EmptyString -> penalty (res_status res) = Some d ->
  now clk' < now clk + d ->
  is_healthy clk' (router_on_response clk ctx res r).1 (selected_channel_name ctx) = false.
Proof.
  intros Hne Hp Hlt. unfold router_on_response.
  destruct (str_is_empty _) eqn:He; [by destruct (selected_channel_name ctx)|].
  unfold is_healthy. simpl. rewrite record_status_lookup, Hp. simpl.
  apply (not_tryable_in_cooldown _ _ (now clk)); [done..|].
  unfold cooldown_of. simpl. unfold penalty in Hp.
  repeat case_match; simplify_eq; simpl; exact Hlt.
Qed.

(** C38: A channel whose name is its id is not selected during the cooldown of its
    last bad response: 15 minutes after a single server error or 401, 30 seconds
    after a single 429.  (The documents give other times and counts: 60 seconds,
    after three failures, or a backoff of 60, 300 and 900 seconds.) *)
Theorem cooldown_respected `{PricingCodec} dbg clk clk' ctx res r d req ctx0 r' req' ctx' info :
  selected_channel_name ctx <> EmptyString ->
  penalty (res_status res) = Some d ->
  now clk' < now clk + d ->
  router_on_request dbg clk' (req, ctx0) (router_on_response clk ctx res r).1
    = (r', Ok (req', ctx')) ->
  ctx_mapping ctx' = Some info ->
  smi_channel_id info <> selected_channel_name ctx.
Proof.
  intros Hne Hp Hlt Hr Hinfo.
  destruct (router_on_request_inv _ _ _ _ _ _ _ _ Hr)
    as (body & name & ch & m & target & p & url & rw & b & _ & _ & _ & Hsel & _ & _ & _
        & _ & _ & ->).
  match type of Hsel with select_channel _ _ ?cs ?s = _ =>
    destruct (select_selection clk' name cs s) as [_ Hs] end.
  rewrite Hsel in Hs. apply selection_inv in Hs as [_ Hus].
  apply andb_true_iff in Hus as [_ Hus]. simpl in Hus.
  unfold ctx_mapping, ctx_insert in Hinfo. simpl in Hinfo.
  rewrite lookup_insert_eq in Hinfo. simplify_eq/=. intros Heq.
  rewrite Heq, (unhealthy_after clk clk' ctx res r d) in Hus; done.
Qed.
End ResponseFacts.

(** The only channel of a model answers 503 at time 1: no request is served a
    minute later, and one is served after fifteen minutes. *)
Lemma service_recovers_witness :
  let ch := Sample.channel "metered" "metered" "k2" Sample.metered in
  let r := mark_unhealthy_immediate (Sample.clock 1) "metered" (with_channels [ch] Sample.router) in
  let select t := (select_channel (Sample.clock t) "sonnet" (find_candidates [ch] "sonnet") r).2 in
  select (from_secs 60) = Err (ChannelSelection "sonnet") /\
  exists c, select (1 + from_secs 900) = Ok c /\ c ∈ find_candidates [ch] "sonnet".
Proof.
  intros ch r select. split; [vm_compute; reflexivity|].
  apply (service_recovers (Sample.clock (1 + from_secs 900)) "sonnet" r ch Sample.metered).
  - apply list_elem_of_here.
  - vm_compute. reflexivity.
  - intros d [->|Hd]%elem_of_cons; [reflexivity|by apply elem_of_nil in Hd].
  - intros s t Hs Hf. injection Hs as <-. injection Hf as <-. vm_compute. discriminate.
Defined.

Lemma health_marks_miss_channel_witness :
  let _ := Model.json in
  let ctx := ctx_insert EXT_SELECTED_CHANNEL (ExtChannel
    {| cc_url := "http://a"; cc_api_key := "k1"; cc_protocol := AnthropicMessages;
       cc_name := "Flat"; cc_rewrite_path := None |}) Sample.context in
  usable (Sample.clock 2)
    (router_on_response (Sample.clock 1) ctx (Sample.response 500) Sample.router).1
    (Sample.channel "flat" "Flat" "k1" Sample.flat, Sample.flat) = true.
Proof.
  intros J ctx. etransitivity.
  - eapply (@health_marks_miss_channel J (Sample.clock 1) (Sample.clock 2) ctx
      (Sample.response 500) Sample.router _ Sample.flat); [reflexivity..|discriminate].
  - vm_compute. reflexivity.
Defined.

Lemma cooldown_respected_witness :
  let _ := Model.json in
  let ctx := ctx_insert EXT_SELECTED_CHANNEL (ExtChannel
    {| cc_url := "http://a"; cc_api_key := "k2"; cc_protocol := AnthropicMessages;
       cc_name := "metered"; cc_rewrite_path := None |}) Sample.context in
  match router_on_request (fun _ => "") (Sample.clock 9) (Sample.request, Sample.context)
          (router_on_response (Sample.clock 1) ctx (Sample.response 401) Sample.router).1 with
  | (_, Ok (_, ctx')) => exists info, ctx_mapping ctx' = Some info /\
                           smi_channel_id info <> "metered"
  | _ => False
  end.
Proof.
  intros J ctx.
  assert (Hok : match router_on_request (fun _ => "") (Sample.clock 9)
      (Sample.request, Sample.context)
      (router_on_response (Sample.clock 1) ctx (Sample.response 401) Sample.router).1 with
    | (_, Ok (_, ctx')) => bool_decide (is_Some (smi_channel_id <$> ctx_mapping ctx'))
    | _ => false end = true) by (vm_compute; reflexivity).
  destruct (router_on_request _ _ _ _) as [r' [[req' ctx']| |]] eqn:Hr; [|done..].
  destruct (ctx_mapping ctx') as [info|] eqn:Hinfo; [|done].
  exists info. split; [reflexivity|].
  refine (@cooldown_respected J SampleStore.pricing_codec (fun _ => "") (Sample.clock 1)
    (Sample.clock 9) ctx (Sample.response 401) Sample.router (from_secs 900) Sample.request
    Sample.context r' req' ctx' info _ _ _ Hr Hinfo); vm_compute; (reflexivity || discriminate).
Defined.

(** ** Invariant *)

Definition usage_wf (u : QuotaUsage) : Prop :=
  in_u64 (requests_this_month u) /\ in_u64 (tokens_this_month u) /\ in_u32 (month_key u).

Definition router_wf (r : Router) : Prop :=
  map_Forall (fun _ => health_wf) (health r) /\
  map_Forall (fun _ => usage_wf) (quota_usage r) /\
  Forall channel_wf (channels r).

Lemma record_usage_wf clk n u : usage_wf u -> usage_wf (record_usage clk n u).
Proof.
  intros (_ & _ & Hm). unfold record_usage, usage_wf, maybe_reset. simpl.
  split_and!; auto with proxy. case_match; simpl; [apply current_month_key_range|done].
Qed.

Lemma usage_new_wf clk : usage_wf (QuotaUsage_new clk).
Proof.
  split_and!; simpl; [unfold in_u64, u64_max; lia..|apply current_month_key_range].
Qed.

Lemma usage_of_wf clk r k : router_wf r -> usage_wf (usage_of clk r k).
Proof.
  intros (_ & Hq & _). unfold usage_of. destruct (quota_usage r !! k) eqn:Hk; simpl.
  - by apply (Hq k).
  - apply usage_new_wf.
Qed.

Lemma health_ops_wf clk s :
  health_wf s ->
  health_wf (record_failure clk s) /\ health_wf (record_success s) /\
  health_wf (mark_unhealthy clk s) /\ health_wf (mark_rate_limited clk s).
Proof.
  intros [Hu Hs]. pose proof (wrap_u32_range (consecutive_failures s + 1)) as Hn.
  split_and!; [|split; simpl; unfold in_u32, u32_max; try done; lia..].
  unfold record_failure. destruct (Z.leb_spec 3 (wrap_u32 (consecutive_failures s + 1)));
    split; simpl; try done. destruct (Billing.health s); [|done].
  destruct Hs. split; [done|lia].
Qed.

Lemma health_insert_wf r name s :
  router_wf r -> health_wf s -> router_wf (with_health (<[name := s]> (health r)) r).
Proof. intros (Hh & Hq & Hc) Hs. split_and!; try done. by apply map_Forall_insert_2. Qed.

Lemma quota_insert_wf r name u :
  router_wf r -> usage_wf u -> router_wf (with_quota_usage (<[name := u]> (quota_usage r)) r).
Proof. intros (Hh & Hq & Hc) Hs. split_and!; try done. by apply map_Forall_insert_2. Qed.

Lemma health_of_wf r name : router_wf r -> health_wf (default ChannelState_new (health r !! name)).
Proof.
  intros (Hh & _). destruct (health r !! name) eqn:Hk; simpl; [by apply (Hh name)|].
  split; simpl; [unfold in_u32, u32_max; lia|]. split; [done|lia].
Qed.

Lemma try_flat_fee_wf clk name l r : router_wf r -> router_wf (try_flat_fee clk name l r).1.
Proof.
  revert r. induction l as [|[ch m] l IH]; intros r Hr; [done|]. simpl.
  destruct (has_api_key _ _); [|by apply IH]. destruct (is_healthy _ _ _); [|by apply IH].
  destruct (rm_billing m); [by apply IH|].
  assert (Hw : router_wf (with_quota_usage
    (<[rm_mapping_id m := usage_of clk r (rm_mapping_id m)]> (quota_usage r)) r))
    by (apply quota_insert_wf; [done|by apply usage_of_wf]).
  destruct (is_within_quota _ _); [done|]. case_bool_decide; [done|]. by apply IH.
Qed.

Lemma select_channel_wf clk name cs r : router_wf r -> router_wf (select_channel clk name cs r).1.
Proof.
  intros Hr. unfold select_channel.
  pose proof (try_flat_fee_wf clk name
    (sort_desc cand_priority (List.filter cand_flat_fee cs)) r Hr) as Hw.
  destruct (try_flat_fee _ _ _ _) as [r1 ret]. simpl in Hw.
  repeat case_match; done.
Qed.

Section Invariant.
Context `{SerdeJson, PricingCodec, ColumnCodec} {S : Type} `{!Storage S}.
Context (dbg : list string -> string).

(** The steps that concurrent requests, the admin API's reloads, key updates and
    probes take on the shared router, in any order. *)
Inductive router_step (r : Router) : Router -> Prop :=
| step_request clk rc : router_step r (router_on_request dbg clk rc r).1
| step_response clk ctx res : router_step r (router_on_response clk ctx res r).1
| step_reload s : router_step r (reload_channels_from_storage s r).1
| step_api_key id key : router_step r
    {| channels := channels r; health := health r; quota_usage := quota_usage r;
       channel_api_keys := <[id := key]> (channel_api_keys r) |}
| step_no_api_key id : router_step r
    {| channels := channels r; health := health r; quota_usage := quota_usage r;
       channel_api_keys := delete id (channel_api_keys r) |}
| step_probe_failed clk id : router_step r (mark_unhealthy_immediate clk id r)
| step_probe_passed id : router_step r (with_health (delete id (health r)) r).

Inductive router_reachable : Router -> Prop :=
| reach_start s r : router_from_storage s = Ok r -> router_reachable r
| reach_next r r' : router_reachable r -> router_step r r' -> router_reachable r'.

Lemma on_request_state clk req ctx r r' :
  (router_on_request dbg clk (req, ctx) r).1 = r' ->
  r' = r \/ exists name,
    r' = (select_channel clk name (find_candidates (channels r) name) r).1.
Proof.
  unfold router_on_request, st_bind at 1, st_lift at 1.
  destruct (from_slice (req_body req)) as [body|e|]; simpl; try by left.
  generalize (default EmptyString (get_str "model" body)); intros name.
  destruct (str_is_empty name); [by left|].
  destruct (find_candidates (channels r) name) as [|c cs] eqn:Hcs; [by left|].
  intros <-. right. exists name. rewrite Hcs. unfold st_bind, st_lift, st_ret. simpl.
  destruct (select_channel clk name (c :: cs) r) as [r1 [[ch m]| |]]; simpl; [|done..].
  destruct (map_err _ (to_vec _)); simpl; [|done..].
  destruct (resolve_target_protocol _ _ _) as [t| |]; simpl; [|done..].
  destruct (constrain_protocol _ _ _ _) as [p| |]; simpl; [|done..].
  destruct (resolve_upstream_url _ _) as [[url rw]| |]; simpl; [|done..].
  by destruct (billing_snapshot _).
Qed.

Lemma router_step_wf r r' : router_step r r' -> router_wf r -> router_wf r'.
Proof.
  intros Hstep Hr.
  destruct Hstep as [clk [req ctx]|clk ctx res|s|id key|id|clk id|id]; [| | |done|done| |].
  - destruct (on_request_state clk req ctx r _ eq_refl) as [->|[name ->]]; [done|].
    by apply select_channel_wf.
  - unfold router_on_response. destruct (str_is_empty _); [done|]. simpl.
    assert (Hq : router_wf (record_quota clk ctx res r)).
    { unfold record_quota. destruct (ctx_mapping ctx) as [info|]; [|done].
      destruct (smi_is_flat_fee info); [|done].
      apply quota_insert_wf; [done|]. apply record_usage_wf. by apply usage_of_wf. }
    set (r1 := record_quota clk ctx res r) in *.
    pose proof (health_of_wf r1 (selected_channel_name ctx) Hq) as Hh.
    destruct (health_ops_wf clk _ Hh) as (_ & Hs & Hun & Hrl).
    unfold record_status, mark_healthy. repeat case_match; try done;
      apply health_insert_wf; try done.
  - unfold reload_channels_from_storage.
    destruct (internal (list_channels None s)) as [chs| |]; simpl; try done.
    destruct (load_channels s chs) as [loaded| |] eqn:Hl; simpl; try done.
    destruct (load_channels_spec s chs loaded Hl) as (_ & Hwf & _).
    destruct Hr as (Hh & Hq & _). by split_and!.
  - apply health_insert_wf; [done|]. by apply (health_ops_wf clk), health_of_wf.
  - destruct Hr as (Hh & Hq & Hc). split_and!; [|done..]. by apply map_Forall_delete.
Qed.

Lemma router_from_storage_wf s r : router_from_storage s = Ok r -> router_wf r.
Proof.
  intros Hr. unfold router_from_storage in Hr. inv_res. split_and!; simpl;
    [apply map_Forall_empty..|].
  by eapply (load_channels_spec s).
Qed.

(** Whatever requests, responses, reloads, key updates and probes have happened since
    start-up, in any order: a channel marked healthy has fewer than three
    failures and no failure time, an unhealthy one has one, the usage
    counters are machine integers, and every channel has a protocol. *)
Theorem router_invariant r : router_reachable r -> router_wf r.
Proof.
  induction 1 as [s r Hr|r r' _ IH Hstep]; [by eapply router_from_storage_wf|].
  by apply (router_step_wf r r' Hstep).
Qed.
End Invariant.

Lemma router_invariant_witness :
  let _ := Model.json in
  let ctx := ctx_insert EXT_SELECTED_CHANNEL (ExtChannel
    {| cc_url := "http://o"; cc_api_key := "k"; cc_protocol := OpenaiChat;
       cc_name := "a"; cc_rewrite_path := None |}) Sample.context in
  match router_from_storage SampleStore.store with
  | Ok r => router_wf (router_on_response (Sample.clock 1) ctx (Sample.response 503) r).1
  | _ => False
  end.
Proof.
  intros J ctx. destruct (router_from_storage SampleStore.store) as [r| |] eqn:Hr.
  - apply (router_invariant (fun _ => "")). eapply reach_next; [|apply step_response].
    by apply (reach_start _ SampleStore.store).
  - vm_compute in Hr. discriminate Hr.
  - vm_compute in Hr. discriminate Hr.
Defined.

(** ** Monthly quotas *)

Section QuotaFacts.
Context `{SerdeJson}.

(** The usage counter after the responses [rs] to requests of one flat-fee
    mapping. *)
Fixpoint serve (ctx : ConnectionContext) (rs : list (Clock * ProxyResponse)) (r : Router)
    : Router :=
  match rs with
  | [] => r
  | (clk, res) :: rs' => serve ctx rs' (router_on_response clk ctx res r).1
  end.

Lemma on_response_quota clk ctx res r info :
  selected_channel_name ctx <> EmptyString ->
  ctx_mapping ctx = Some info -> smi_is_flat_fee info = true ->
  exists tokens, quota_usage (router_on_response clk ctx res r).1 =
    <[smi_mapping_id info := record_usage clk tokens (usage_of clk r (smi_mapping_id info))]>
      (quota_usage r).
Proof.
  intros Hne Hinfo Hff. unfold router_on_response.
  destruct (str_is_empty _) eqn:He; [by destruct (selected_channel_name ctx)|]. simpl.
  destruct (record_status_rest clk (selected_channel_name ctx) (res_status res)
    (record_quota clk ctx res r)) as (_ & _ & ->).
  unfold record_quota. rewrite Hinfo, Hff. simpl. eauto.
Qed.

Lemma maybe_reset_same clk u : month_key u = current_month_key clk -> maybe_reset clk u = u.
Proof. intros Hk. unfold maybe_reset. by rewrite Hk, Z.eqb_refl. Qed.

(** The counter of the month [key] after the responses [rs] of that month, rolled
    over if none of them has done it. *)
Lemma serve_count ctx rs r info key n :
  selected_channel_name ctx <> EmptyString ->
  ctx_mapping ctx = Some info -> smi_is_flat_fee info = true ->
  Forall (fun cr => current_month_key cr.1 = key) rs ->
  (forall clk, current_month_key clk = key ->
     let u := maybe_reset clk (usage_of clk r (smi_mapping_id info)) in
     requests_this_month u = n /\ month_key u = key) ->
  0 <= n -> n + Z.of_nat (length rs) <= u64_max ->
  (rs <> [] -> forall clk, current_month_key clk = key ->
     requests_this_month (usage_of clk (serve ctx rs r) (smi_mapping_id info))
       = n + Z.of_nat (length rs)) /\
  (forall k, k <> smi_mapping_id info -> quota_usage (serve ctx rs r) !! k = quota_usage r !! k).
Proof.
  intros Hne Hinfo Hff Hrs. revert r n.
  induction Hrs as [|[clk res] rs Hk _ IH]; intros r n Hr Hn Hmax; [done|].
  simpl in Hk, Hmax |- *. destruct (on_response_quota clk ctx res r info) as [tokens Hq]; try done.
  set (r1 := (router_on_response clk ctx res r).1) in *.
  destruct (Hr clk Hk) as [Hreq Hmk].
  assert (Hu : forall clk', let u := usage_of clk' r1 (smi_mapping_id info) in
    requests_this_month u = n + 1 /\ month_key u = key).
  { intros clk'. unfold usage_of at 1. rewrite Hq, lookup_insert_eq. simpl.
    rewrite Hreq, wrap_u64_small; [done|]. unfold in_u64. lia. }
  destruct (IH r1 (n + 1)) as [IH1 IH2]; [| lia..|].
  - intros clk' Hk'. destruct (Hu clk') as [H1 H2]. cbv zeta. by rewrite maybe_reset_same by congruence.
  - split.
    + intros _ clk' Hk'. destruct rs as [|x rs]; [|rewrite IH1 by done; lia].
      simpl. destruct (Hu clk') as [-> _]. lia.
    + intros k Hne'. by rewrite IH2, Hq, lookup_insert_ne.
Qed.
End QuotaFacts.

(** The requests a mapping has been charged with in the month [key] so far. *)
Definition charged_in (key : Z) (r : Router) (id : string) : Z :=
  match quota_usage r !! id with
  | Some u => if month_key u =? key then requests_this_month u else 0
  | None => 0
  end.

(** C39: In every month, whatever counter earlier months have left, a flat-fee
    mapping with a quota of [q] requests a month is, after some responses of the
    month, within its quota exactly when it has served fewer than [q] in the
    month: the first response rolls the counter over and each one counts once.
    Before that first response the counter is still the one the router has,
    perhaps of an earlier month.  Serving the mapping charges no other. *)
Theorem quota_is_exact `{SerdeJson} ctx rs r info key q clk :
  selected_channel_name ctx <> EmptyString ->
  ctx_mapping ctx = Some info -> smi_is_flat_fee info = true ->
  Forall (fun cr => current_month_key cr.1 = key) rs ->
  current_month_key clk = key ->
  let id := smi_mapping_id info in
  let n := charged_in key r id + Z.of_nat (length rs) in
  0 <= charged_in key r id -> n <= u64_max ->
  is_within_quota (usage_of clk (serve ctx rs r) id) (Some (MaxRequests q)) =
    match rs, quota_usage r !! id with
    | [], Some u => requests_this_month u <? q
    | _, _ => n <? q
    end /\
  (forall k, k <> id -> quota_usage (serve ctx rs r) !! k = quota_usage r !! k).
Proof.
  intros Hne Hinfo Hff Hrs Hk id n H0 Hmax.
  destruct (serve_count ctx rs r info key (charged_in key r id)) as [Hn Hother]; try done.
  - intros c Hc. fold id. unfold usage_of, charged_in.
    destruct (quota_usage r !! id) as [u|]; simpl; [|by rewrite maybe_reset_same].
    destruct (Z.eqb_spec (month_key u) key) as [Hmk|Hmk].
    + by rewrite maybe_reset_same by congruence.
    + unfold maybe_reset. destruct (Z.eqb_spec (current_month_key c) (month_key u)); [congruence|done].
  - split; [|done]. destruct rs as [|x rs].
    + subst n. unfold charged_in. simpl. unfold usage_of. by destruct (quota_usage r !! id).
    + simpl is_within_quota. fold id in Hn. by rewrite Hn.
Qed.

(** The counter of February is used up; in March two requests are served. *)
Lemma quota_is_exact_witness :
  let _ := Model.json in
  let ctx := ctx_insert EXT_SELECTED_MAPPING (ExtMapping
      {| smi_channel_id := "flat"; smi_mapping_id := "m1"; smi_client_name := "sonnet";
         smi_upstream_name := "up-1"; smi_is_flat_fee := true; smi_pricing := None;
         smi_pricing_snapshot_json := flat_fee_snapshot |})
    (ctx_insert EXT_SELECTED_CHANNEL (ExtChannel
      {| cc_url := "http://a"; cc_api_key := "k1"; cc_protocol := AnthropicMessages;
         cc_name := "Flat"; cc_rewrite_path := None |}) Sample.context) in
  let rs := [(Sample.clock 1, Sample.response 200); (Sample.clock 2, Sample.response 400)] in
  let february := {| requests_this_month := 7; tokens_this_month := 0;
                     month_key := current_month_key (Sample.clock 0) - 1 |} in
  let r := with_quota_usage {[ "m1" := february ]} Sample.router in
  is_within_quota (usage_of (Sample.clock 3) (serve ctx rs r) "m1") (Some (MaxRequests 2)) = false /\
  is_within_quota (usage_of (Sample.clock 3) (serve ctx rs r) "m1") (Some (MaxRequests 3)) = true.
Proof.
  intros J ctx rs february r.
  set (info := {| smi_channel_id := "flat"; smi_mapping_id := "m1"; smi_client_name := "sonnet";
       smi_upstream_name := "up-1"; smi_is_flat_fee := true; smi_pricing := None;
       smi_pricing_snapshot_json := flat_fee_snapshot |}).
  assert (Hall : Forall (fun cr : Clock * ProxyResponse =>
    current_month_key cr.1 = current_month_key (Sample.clock 0)) rs) by repeat constructor.
  pose proof (fun q => @quota_is_exact J ctx rs r info (current_month_key (Sample.clock 0)) q
    (Sample.clock 3) ltac:(discriminate) eq_refl eq_refl Hall eq_refl
    ltac:(vm_compute; discriminate) ltac:(vm_compute; discriminate)) as H.
  split; [exact (proj1 (H 2))|exact (proj1 (H 3))].
Defined.

(** Selection reads the usage counter without rolling it over to the current
    month; only the response of a request the mapping served does.  A blocking
    quota used up in a past month therefore keeps rejecting requests in every
    later month, although a rolled-over counter would admit them. *)
Theorem stale_quota_blocks clk name r ch m hint q u :
  rm_billing m = FlatFee hint (Some (MaxRequests q)) Block ->
  quota_usage r !! rm_mapping_id m = Some u ->
  month_key u <> current_month_key clk -> 0 < q <= requests_this_month u ->
  usable clk r (ch, m) = true ->
  (select_channel clk name [(ch, m)] r).2 = Err (ChannelSelection name) /\
  is_within_quota (maybe_reset clk u) (Some (MaxRequests q)) = true.
Proof.
  intros Hb Hu Hmk Hq Huse. split.
  - destruct (select_selection clk name [(ch, m)] r) as [_ Hs].
    assert (Hdec : decides clk r (ch, m) = true).
    { unfold decides. rewrite Huse. unfold cand_flat_fee, blocks. simpl. rewrite Hb.
      simpl. by rewrite orb_true_r. }
    assert (Hw : within clk r (ch, m) = false).
    { rewrite (within_flat_fee _ _ _ _ _ _ _ Hb). unfold usage_of. rewrite Hu. simpl. lia. }
    inversion Hs as [d Hin _ _ Heq|d Hno|d b a Hno|Hno]; subst.
    + apply list_elem_of_singleton in Hin as ->. by rewrite Hw.
    + by rewrite Hno in Hdec by apply list_elem_of_here.
    + by rewrite Hno in Hdec by apply list_elem_of_here.
    + done.
  - unfold maybe_reset. destruct (Z.eqb_spec (current_month_key clk) (month_key u)); [by subst|].
    simpl. lia.
Qed.

Lemma stale_quota_blocks_witness :
  let m := {| rm_mapping_id := "m"; rm_client_name := "a"; rm_upstream_name := "b";
              rm_billing := FlatFee None (Some (MaxRequests 5)) Block;
              rm_allowed_protocols := [] |} in
  let ch := Sample.channel "c" "c" "k" m in
  let feb := {| now := 0; utc_year := 2026; utc_month := 2 |} in
  let r := {| channels := [ch]; health := ∅; channel_api_keys := ∅;
              quota_usage := {[ "m" := {| requests_this_month := 5; tokens_this_month := 0;
                                          month_key := current_month_key feb |} ]} |} in
  (select_channel (Sample.clock 1) "a" [(ch, m)] r).2 = Err (ChannelSelection "a").
Proof.
  intros m ch feb r.
  refine (proj1 (stale_quota_blocks (Sample.clock 1) "a" r ch m None 5
    {| requests_this_month := 5; tokens_this_month := 0; month_key := current_month_key feb |}
    _ _ _ _ _)); vm_compute; try (reflexivity || discriminate).
  split; [reflexivity|discriminate].
Defined.

Lemma exhausted_quota_bypassed_witness :
  let used := {| requests_this_month := 3; tokens_this_month := 0;
                 month_key := current_month_key (Sample.clock 0) |} in
  let r := with_quota_usage {[ "m1" := used ]} Sample.router in
  let c := (Sample.channel "flat" "Flat" "k1" Sample.flat, Sample.flat) in
  (select_channel (Sample.clock 1) "sonnet" [c] r).2 = Ok c.
Proof.
  intros used r c.
  refine (exhausted_quota_bypassed (Sample.clock 1) "sonnet" [c] r c [] _ _ _).
  - reflexivity.
  - intros d Hd. apply list_elem_of_singleton in Hd. subst d. vm_compute. auto.
  - vm_compute. reflexivity.
Defined.
