(* ===== verification/Quota.v ===== *)
(** Blocking monthly quotas under concurrent requests.

    The router checks a quota when it selects a mapping and charges it when the
    response comes back ([router_on_request] and [router_on_response] of
    crates/model-router/src/lib.rs), and other requests are selected in between.
    [Traffic] is the router together with the requests that are on their way. *)

From stdpp Require Import gmap relations.
From S2P Require Import Prelude RustStr Float64 Json Http Billing Types Middleware Storage Router.
Local Open Scope Z_scope.
Local Open Scope st_scope.

(** The requests charged to a mapping so far. *)
Definition used (r : Router) (key : string) : Z :=
  from_option requests_this_month 0 (quota_usage r !! key).

Lemma used_usage_of clk r key : used r key = requests_this_month (usage_of clk r key).
Proof. unfold used, usage_of. by destruct (quota_usage r !! key). Qed.

Lemma used_nonneg r key : router_wf r -> 0 <= used r key.
Proof.
  intros Hr. rewrite (used_usage_of {| now := 0; utc_year := 0; utc_month := 0 |}).
  destruct (usage_of_wf {| now := 0; utc_year := 0; utc_month := 0 |} r key Hr) as [[? _] _]. done.
Qed.

(** Every mapping with this identifier is a flat fee for [q] requests a month
    that blocks when they are used up. *)
Definition blocking (key : string) (q : Z) (r : Router) : Prop :=
  forall ch m, ch ∈ channels r -> m ∈ rc_mappings ch -> rm_mapping_id m = key ->
    exists hint, rm_billing m = FlatFee hint (Some (MaxRequests q)) Block.

(** A mapping that blocks is selected only within its quota. *)
Lemma blocking_selected clk r cs name ch m hint quota :
  selection clk r cs name (Ok (ch, m)) -> rm_billing m = FlatFee hint quota Block ->
  within clk r (ch, m) = true.
Proof.
  intros Hs Hb. assert (Hblocks : blocks (ch, m) = true) by (unfold blocks; simpl; by rewrite Hb).
  assert (Hflat : cand_flat_fee (ch, m) = true) by (unfold cand_flat_fee; simpl; by rewrite Hb).
  inversion Hs as [c _ _ _ Heq|c _ _ _ Hmet|c before after Hno _ -> Hu|]; subst.
  - destruct (within clk r c) eqn:Hw; [|done]. by injection Heq as ->.
  - congruence.
  - specialize (Hno (ch, m) ltac:(apply elem_of_app; right; left)).
    unfold decides in Hno. by rewrite Hu, Hflat, Hblocks, orb_true_r in Hno.
Qed.

Section Traffic.
Context `{SerdeJson, PricingCodec} (dbg : list string -> string).

(** The mappings of the requests that were let in and have no response yet. *)
Record Traffic := { tr_router : Router; tr_open : list SelectedMappingInfo }.

Definition on_mapping (key : string) (i : SelectedMappingInfo) : bool :=
  String.eqb (smi_mapping_id i) key.

Definition open_on (key : string) (t : Traffic) : Z :=
  Z.of_nat (length (List.filter (on_mapping key) (tr_open t))).

(** One atomic step: the request hook of a request, which lets it in or not;
    the response hook of one that is on its way; the loss of one, whose
    upstream failed or which a later hook rejected; and whatever does not touch
    the counters (reloads, keys, probes). *)
Inductive traffic_step (t : Traffic) : Traffic -> Prop :=
| ts_admit clk req ctx r' req' ctx' info :
    router_on_request dbg clk (req, ctx) (tr_router t) = (r', Ok (req', ctx')) ->
    ctx_mapping ctx' = Some info ->
    traffic_step t {| tr_router := r'; tr_open := info :: tr_open t |}
| ts_refuse clk req ctx :
    is_ok (router_on_request dbg clk (req, ctx) (tr_router t)).2 = false ->
    traffic_step t {| tr_router := (router_on_request dbg clk (req, ctx) (tr_router t)).1;
                      tr_open := tr_open t |}
| ts_answer clk ctx res info before after :
    tr_open t = before ++ info :: after -> ctx_mapping ctx = Some info ->
    traffic_step t {| tr_router := (router_on_response clk ctx res (tr_router t)).1;
                      tr_open := before ++ after |}
| ts_drop info before after :
    tr_open t = before ++ info :: after ->
    traffic_step t {| tr_router := tr_router t; tr_open := before ++ after |}
| ts_other r' :
    quota_usage r' = quota_usage (tr_router t) ->
    traffic_step t {| tr_router := r'; tr_open := tr_open t |}.

(** Selection changes no count. *)
Lemma select_used clk name cs r key : used (select_channel clk name cs r).1 key = used r key.
Proof.
  destruct (select_selection clk name cs r) as [(_ & _ & _ & Hu) _].
  by rewrite !(used_usage_of clk), <-Hu.
Qed.

Lemma request_used clk req ctx r key : used (router_on_request dbg clk (req, ctx) r).1 key = used r key.
Proof.
  destruct (on_request_state dbg clk req ctx r _ eq_refl) as [->|[name ->]]; [done|apply select_used].
Qed.

Lemma admitted_within clk req ctx r r' req' ctx' info key q :
  blocking key q r ->
  router_on_request dbg clk (req, ctx) r = (r', Ok (req', ctx')) ->
  ctx_mapping ctx' = Some info -> smi_mapping_id info = key -> used r key < q.
Proof.
  intros Hb Hr Hinfo Hkey.
  destruct (router_on_request_inv _ _ _ _ _ _ _ _ Hr)
    as (body & name & ch & m & target & p & url & rw & b & _ & _ & _ & Hsel & _ & _ & _ & _ & _ & ->).
  unfold ctx_mapping, ctx_insert in Hinfo. simpl in Hinfo. rewrite lookup_insert_eq in Hinfo.
  injection Hinfo as <-. simpl in Hkey.
  pose proof (proj2 (select_selection clk name (find_candidates (channels r) name) r)) as Hs.
  rewrite Hsel in Hs. cbn [snd] in Hs.
  destruct (selection_inv _ _ _ _ _ Hs) as [(Hch & _ & Hm & _)%find_candidates_spec _].
  destruct (Hb ch m Hch Hm Hkey) as [hint Hbill].
  pose proof (blocking_selected _ _ _ _ _ _ _ _ Hs Hbill) as Hw.
  rewrite (within_flat_fee _ _ _ _ _ _ _ Hbill), Hkey in Hw. simpl in Hw.
  rewrite (used_usage_of clk). lia.
Qed.

Lemma record_usage_count clk tokens u :
  0 <= requests_this_month u ->
  0 <= requests_this_month (record_usage clk tokens u) <= requests_this_month u + 1.
Proof.
  intros Hu. unfold record_usage, maybe_reset. simpl.
  destruct (negb _); simpl; unfold wrap_u64; [rewrite Z.mod_small; lia|].
  split; [apply Z.mod_pos_bound; lia|apply Z.mod_le; lia].
Qed.

Lemma response_usage clk ctx res r info :
  ctx_mapping ctx = Some info ->
  quota_usage (router_on_response clk ctx res r).1 = quota_usage r \/
  exists tokens, quota_usage (router_on_response clk ctx res r).1 =
    <[smi_mapping_id info := record_usage clk tokens (usage_of clk r (smi_mapping_id info))]>
      (quota_usage r).
Proof.
  intros Hinfo. destruct (decide (selected_channel_name ctx = EmptyString)) as [He|Hne].
  { left. unfold router_on_response. by rewrite He. }
  destruct (smi_is_flat_fee info) eqn:Hff; [right; by apply on_response_quota|left].
  unfold router_on_response. destruct (str_is_empty _); [done|]. simpl.
  rewrite (proj2 (proj2 (record_status_rest clk (selected_channel_name ctx) (res_status res)
    (record_quota clk ctx res r)))). unfold record_quota. by rewrite Hinfo, Hff.
Qed.

(** A response charges at most one request, to its own mapping. *)
Lemma response_used clk ctx res r info key :
  ctx_mapping ctx = Some info -> 0 <= used r key ->
  let n := used (router_on_response clk ctx res r).1 key in
  0 <= n <= used r key + 1 /\ (smi_mapping_id info <> key -> n = used r key).
Proof.
  intros Hinfo Hn n. subst n.
  destruct (response_usage clk ctx res r info Hinfo) as [Hq|[tokens Hq]].
  { unfold used in *. rewrite Hq. split; [lia|done]. }
  destruct (decide (smi_mapping_id info = key)) as [<-|Hne].
  - rewrite (used_usage_of clk r) in *. unfold used. rewrite Hq, lookup_insert_eq.
    split; [by apply record_usage_count|done].
  - unfold used in *. rewrite Hq, lookup_insert_ne by done. split; [lia|done].
Qed.

Lemma open_on_split key r before info after t :
  tr_open t = before ++ info :: after ->
  open_on key t = open_on key {| tr_router := r; tr_open := before ++ after |}
                  + if on_mapping key info then 1 else 0.
Proof.
  intros Ho. unfold open_on. rewrite Ho. cbn [tr_open]. rewrite !List.filter_app, !length_app. simpl.
  destruct (on_mapping key info); simpl; lia.
Qed.

(** A step of traffic on routers whose mappings with this identifier block, with
    at most [k] requests on their way to it. *)
Definition bounded_step (key : string) (q k : Z) (t t' : Traffic) : Prop :=
  traffic_step t t' /\ blocking key q (tr_router t) /\ open_on key t' <= k.

Lemma bounded_step_count key q k bound t t' :
  bounded_step key q k t t' -> q - 1 + k <= bound ->
  0 <= used (tr_router t) key /\ used (tr_router t) key + open_on key t <= bound ->
  0 <= used (tr_router t') key /\ used (tr_router t') key + open_on key t' <= bound.
Proof.
  intros (Hs & Hb & Hk) Hq [Hn Hc].
  destruct Hs as [clk req ctx r' req' ctx' info Hr Hinfo|clk req ctx _|clk ctx res info before after Ho Hinfo
    |info before after Ho|r' Hu]; cbn [tr_router] in *.
  - pose proof (request_used clk req ctx (tr_router t) key) as Hu. rewrite Hr in Hu. simpl in Hu.
    rewrite Hu. split; [done|]. unfold open_on in *. simpl in *.
    destruct (on_mapping key info) eqn:Hkey; [|lia]. apply String.eqb_eq in Hkey.
    pose proof (admitted_within _ _ _ _ _ _ _ _ _ _ Hb Hr Hinfo Hkey). lia.
  - rewrite request_used. done.
  - destruct (response_used clk ctx res (tr_router t) info key Hinfo Hn) as [Hle Hother].
    rewrite (open_on_split key (router_on_response clk ctx res (tr_router t)).1 _ _ _ _ Ho) in Hc.
    split; [lia|]. unfold on_mapping in Hc.
    destruct (String.eqb_spec (smi_mapping_id info) key) as [Heq|Hne]; [lia|].
    rewrite Hother by done. lia.
  - rewrite (open_on_split key (tr_router t) _ _ _ _ Ho) in Hc. split; [done|].
    destruct (on_mapping key info); lia.
  - unfold used in *. rewrite Hu. done.
Qed.

(** C7: A blocking quota of [q] requests a month under concurrent traffic.  As long
    as at most [k] requests are on their way to the mapping at a time, no more
    than [q - 1 + k] of a month are ever charged or on their way: at most its
    quota when they come one by one, and up to [k - 1] beyond it otherwise,
    since the check at selection does not count the requests that are still on
    their way.  This holds whatever requests, responses, failures, reloads and
    changes of keys and health interleave. *)
Theorem quota_overshoot_bounded key q k t t' :
  router_wf (tr_router t) -> open_on key t = 0 ->
  rtc (bounded_step key q k) t t' ->
  used (tr_router t') key + open_on key t' <= Z.max (used (tr_router t) key) (q - 1 + k).
Proof.
  intros Hwf Ho Hrun. set (bound := Z.max _ _).
  assert (Hstart : 0 <= used (tr_router t) key /\ used (tr_router t) key + open_on key t <= bound)
    by (split; [by apply used_nonneg|lia]).
  assert (Hbound : q - 1 + k <= bound) by lia.
  clearbody bound. clear Hwf Ho. induction Hrun as [t|t1 t2 t3 Hs _ IH]; [apply Hstart|].
  apply IH. by eapply bounded_step_count.
Qed.
End Traffic.

(** ** A quota of one request, served twice *)

Module SampleTraffic.
#[local] Existing Instances Model.json SampleStore.pricing_codec.

Definition one : ResolvedMapping :=
  {| rm_mapping_id := "m"; rm_client_name := "sonnet"; rm_upstream_name := "up";
     rm_billing := FlatFee None (Some (MaxRequests 1)) Block; rm_allowed_protocols := [] |}.

Definition channel : ResolvedChannel := Sample.channel "c" "Main" "k" one.

Definition start : Traffic :=
  {| tr_router := {| channels := [channel]; health := ∅; quota_usage := ∅; channel_api_keys := ∅ |};
     tr_open := [] |}.

Definition hook (r : Router) : Router * Res ProxyError (ProxyRequest * ConnectionContext) :=
  router_on_request (fun _ => EmptyString) (Sample.clock 1) (Sample.request, Sample.context) r.

(** The mapping of the next request, if it is let in. *)
Definition admitted (t : Traffic) : option SelectedMappingInfo :=
  match (hook (tr_router t)).2 with Ok (_, ctx) => ctx_mapping ctx | _ => None end.

Definition admit_next (t : Traffic) : Traffic :=
  {| tr_router := (hook (tr_router t)).1; tr_open := option_list (admitted t) ++ tr_open t |}.

(** The response to the request that was let in last. *)
Definition answer_last (t : Traffic) : Traffic :=
  match tr_open t with
  | info :: rest =>
      let ctx := ctx_insert EXT_SELECTED_MAPPING (ExtMapping info)
        (ctx_insert EXT_SELECTED_CHANNEL (ExtChannel
          {| cc_url := "http://a"; cc_api_key := "k"; cc_protocol := AnthropicMessages;
             cc_name := "Main"; cc_rewrite_path := None |}) Sample.context) in
      {| tr_router := (router_on_response (Sample.clock 2) ctx (Sample.response 200) (tr_router t)).1;
         tr_open := rest |}
  | [] => t
  end.

Lemma admit_next_step t :
  is_Some (admitted t) -> traffic_step (fun _ => EmptyString) t (admit_next t).
Proof.
  intros [info Hi]. unfold admit_next. rewrite Hi. unfold admitted, hook in *.
  destruct (router_on_request _ _ _ _) as [r [[req ctx]| |]] eqn:Hr; [|done..].
  by eapply ts_admit.
Qed.

Lemma answer_last_step t :
  tr_open t <> [] -> traffic_step (fun _ => EmptyString) t (answer_last t).
Proof.
  unfold answer_last. destruct (tr_open t) as [|info rest] eqn:Ho; [done|]. intros _.
  apply (ts_answer _ t _ _ _ info [] rest); [done|].
  unfold ctx_mapping, ctx_insert. simpl. by rewrite lookup_insert_eq.
Qed.

Lemma start_wf : router_wf (tr_router start).
Proof.
  split; [apply map_Forall_empty|]. split; [apply map_Forall_empty|].
  repeat constructor; vm_compute; discriminate.
Qed.

Lemma one_blocking r : channels r = [channel] -> blocking "m" 1 r.
Proof.
  intros Hc ch m Hch Hm _. rewrite Hc in Hch. apply list_elem_of_singleton in Hch as ->.
  apply list_elem_of_singleton in Hm as ->. by exists None.
Qed.
End SampleTraffic.

(** Two requests are let in before the first response arrives. *)
Lemma quota_overshoot_bounded_witness :
  let _ := Model.json in
  let t2 := SampleTraffic.admit_next (SampleTraffic.admit_next SampleTraffic.start) in
  let t4 := SampleTraffic.answer_last (SampleTraffic.answer_last t2) in
  open_on "m" t2 = 2 /\ used (tr_router t4) "m" = 2 /\
  used (tr_router t4) "m" + open_on "m" t4 <= Z.max 0 (1 - 1 + 2).
Proof.
  intros J t2 t4.
  assert (H1 : SampleTraffic.admitted SampleTraffic.start <> None) by (vm_compute; discriminate).
  assert (H2 : SampleTraffic.admitted (SampleTraffic.admit_next SampleTraffic.start) <> None)
    by (vm_compute; discriminate).
  assert (H3 : tr_open t2 <> []) by (vm_compute; discriminate).
  assert (H4 : tr_open (SampleTraffic.answer_last t2) <> []) by (vm_compute; discriminate).
  split; [vm_compute; reflexivity|]. split; [vm_compute; reflexivity|].
  refine (@quota_overshoot_bounded Model.json SampleStore.pricing_codec (fun _ => EmptyString)
    "m" 1 2 SampleTraffic.start t4 _ eq_refl _).
  - exact SampleTraffic.start_wf.
  - apply rtc_l with (SampleTraffic.admit_next SampleTraffic.start).
    { split; [apply SampleTraffic.admit_next_step, not_eq_None_Some, H1|].
      split; [apply SampleTraffic.one_blocking; reflexivity|vm_compute; discriminate]. }
    apply rtc_l with t2.
    { split; [apply SampleTraffic.admit_next_step, not_eq_None_Some, H2|].
      split; [apply SampleTraffic.one_blocking; vm_compute; reflexivity|vm_compute; discriminate]. }
    apply rtc_l with (SampleTraffic.answer_last t2).
    { split; [apply SampleTraffic.answer_last_step, H3|].
      split; [apply SampleTraffic.one_blocking; vm_compute; reflexivity|vm_compute; discriminate]. }
    apply rtc_once. split; [apply SampleTraffic.answer_last_step, H4|].
    split; [apply SampleTraffic.one_blocking; vm_compute; reflexivity|vm_compute; discriminate].
Defined.
