(* ===== verification/Bridge.v ===== *)
(** The protocol bridge: [crates/bridge/src/lib.rs].

    The conversions themselves are the crate [llm_bridge_core], which is not
    part of the repository: they are the class [LlmBridge], and what their
    names and documentation say of the formats they map between is the class
    [LlmBridgeLaws]. *)

From Stdlib Require Import Ascii.
From S2P Require Import Prelude RustStr Float64 Json Http Billing Types Middleware.
Local Open Scope Z_scope.
Local Open Scope st_scope.

(** ** The foreign crate *)

Record TransformRequest := {
  tr_headers : gmap string string;
  tr_path : string;
  tr_body : bytes
}.

Record TransformResponse := {
  ts_headers : gmap string string;
  ts_path : string;
  ts_body : bytes
}.

Class LlmBridge `{SerdeJson} := {
  TransformError : Type;
  sanitized_message : TransformError -> string;
  transform_error_to_string : TransformError -> string;
  anthropic_to_openai : TransformRequest -> Res TransformError TransformResponse;
  anthropic_to_openai_responses : TransformRequest -> Res TransformError TransformResponse;
  openai_to_anthropic : TransformRequest -> Res TransformError TransformResponse;
  responses_to_anthropic : TransformRequest -> Res TransformError TransformResponse;
  responses_to_openai : TransformRequest -> Res TransformError TransformResponse;
  openai_response_to_anthropic_message : TransformRequest -> Res TransformError TransformResponse;
  anthropic_response_to_openai_response : TransformRequest -> Res TransformError TransformResponse;
  anthropic_response_to_responses_response :
    TransformRequest -> Res TransformError TransformResponse;
  (** [validate_json_depth]: [Some] is the message of its error. *)
  validate_json_depth : Value -> option string;
  StreamState : Type;
  StreamState_default : StreamState;
  transform_stream_to_anthropic_sse :
    bytes -> ApiFormat -> StreamState -> StreamState * Res string bytes;
  transform_stream_to_openai_sse :
    bytes -> ApiFormat -> StreamState -> StreamState * Res string bytes;
  transform_stream_to_openai_responses_sse :
    bytes -> ApiFormat -> StreamState -> StreamState * Res string bytes;
  (** [http]'s [HeaderName::from_bytes] and [HeaderValue::from_str]. *)
  header_name_from_bytes : string -> Res string string;
  header_value_from_str : string -> Res string bytes
}.

(** ** Directions *)

Inductive ConversionDirection :=
| AnthropicToOpenai
| AnthropicToResponses
| OpenaiToAnthropic
| ResponsesToAnthropic
| ResponsesToOpenai
| Passthrough.

#[export] Instance ConversionDirection_eq_dec : EqDecision ConversionDirection.
Proof. solve_decision. Defined.

Definition resolve (client upstream : ApiFormat) : ConversionDirection :=
  if bool_decide (client = upstream) then Passthrough
  else match client, upstream with
  | AnthropicMessages, OpenaiChat => AnthropicToOpenai
  | AnthropicMessages, OpenaiResponses => AnthropicToResponses
  | OpenaiChat, AnthropicMessages => OpenaiToAnthropic
  | OpenaiResponses, AnthropicMessages => ResponsesToAnthropic
  | OpenaiResponses, OpenaiChat | OpenaiChat, OpenaiResponses => ResponsesToOpenai
  | _, _ => Passthrough
  end.

Lemma resolve_refl f : resolve f f = Passthrough.
Proof. unfold resolve. by rewrite bool_decide_eq_true_2. Qed.

Section Bridge.
Context `{SerdeJson} `{!LlmBridge}.

(** ** Helpers *)

Definition is_upstream_error_body (body : bytes) : bool :=
  match from_slice body with
  | Ok v => bool_decide (is_Some (get "error" v))
  | _ => false
  end.

Definition validate_input (req : ProxyRequest) : Res ProxyError () :=
  value ← map_err (fun e => BadRequest ("invalid JSON: " +:+ e)) (from_slice (req_body req));
  match validate_json_depth value with
  | Some e => Err (BadRequest e)
  | None => Ok tt
  end.

(** [collect] into a map: the last of equal names wins. *)
Definition proxy_request_to_transform_request (req : ProxyRequest) : TransformRequest :=
  {| tr_headers := foldl (fun m kv =>
       <[to_lowercase kv.1 := default EmptyString (to_str kv.2)]> m) ∅ (req_headers req);
     tr_path := req_path req;
     tr_body := req_body req |}.

(** The loop over the header map, in some iteration order of it. *)
Fixpoint rebuild_headers (l : list (string * string)) (h : HeaderMap)
    : Res ProxyError HeaderMap :=
  match l with
  | [] => Ok h
  | (k, v) :: rest =>
      name ← map_err Internal (header_name_from_bytes k);
      value ← map_err Internal (header_value_from_str v);
      rebuild_headers rest (header_insert name value h)
  end.

Definition apply_transform_response_to_request (req : ProxyRequest) (resp : TransformResponse)
    : Res ProxyError ProxyRequest :=
  h ← rebuild_headers (map_to_list (ts_headers resp)) [];
  mret {| req_method := req_method req; req_path := ts_path resp; req_headers := h;
          req_body := ts_body resp |}.

Definition convert_request (r : TransformRequest) (direction : ConversionDirection)
    : Res ProxyError TransformResponse :=
  map_err (fun e => BadRequest (sanitized_message e))
    match direction with
    | AnthropicToOpenai => anthropic_to_openai r
    | AnthropicToResponses => anthropic_to_openai_responses r
    | OpenaiToAnthropic => openai_to_anthropic r
    | ResponsesToAnthropic => responses_to_anthropic r
    | ResponsesToOpenai => responses_to_openai r
    | Passthrough => Panic
    end.

Definition convert_response (r : TransformRequest) (direction : ConversionDirection)
    : Res ProxyError TransformResponse :=
  map_err (fun e => Internal (transform_error_to_string e))
    match direction with
    | OpenaiToAnthropic => openai_response_to_anthropic_message r
    | AnthropicToOpenai => anthropic_response_to_openai_response r
    | AnthropicToResponses => anthropic_response_to_responses_response r
    | ResponsesToAnthropic => openai_response_to_anthropic_message r
    | ResponsesToOpenai =>
        intermediate ← openai_response_to_anthropic_message r;
        anthropic_response_to_responses_response
          {| tr_headers := ts_headers intermediate; tr_path := ts_path intermediate;
             tr_body := ts_body intermediate |}
    | Passthrough => Panic
    end.

(** The three batch transforms, by the format they produce. *)
Definition stream_transform (target : ApiFormat)
    : option (bytes -> ApiFormat -> StreamState -> StreamState * Res string bytes) :=
  match target with
  | AnthropicMessages => Some transform_stream_to_anthropic_sse
  | OpenaiChat => Some transform_stream_to_openai_sse
  | OpenaiResponses => Some transform_stream_to_openai_responses_sse
  | FutureFormat => None
  end.

Definition on_response_streaming (res : ProxyResponse) (upstream client : ApiFormat)
    : Res ProxyError ProxyResponse :=
  match stream_transform client with
  | Some f =>
      output ← map_err Internal (f (res_body res) upstream StreamState_default).2;
      mret (with_res_body output res)
  | None => Ok res
  end.

(** ** Hooks *)

Definition bridge_on_request (rc : ProxyRequest * ConnectionContext)
    : Res ProxyError (ProxyRequest * ConnectionContext) :=
  let '(req, ctx) := rc in
  _ ← validate_input req;
  client ← res_of_option (BadRequest "client protocol not detected") (detected_format ctx);
  upstream ← res_of_option (BadRequest "upstream protocol not set by model-router")
               (target_protocol ctx);
  let direction := resolve client upstream in
  if bool_decide (direction = Passthrough) then Ok (req, ctx)
  else
    resp ← convert_request (proxy_request_to_transform_request req) direction;
    req' ← apply_transform_response_to_request req resp;
    mret (req', ctx_insert EXT_BRIDGE_REVERSE (ExtBool true) ctx).

Definition bridge_on_response (ctx : ConnectionContext) (res : ProxyResponse)
    : Res ProxyError ProxyResponse :=
  let needs_reverse := default false (ctx_bridge_reverse ctx) in
  if negb needs_reverse then Ok res
  else
    client ← res_of_option (Internal "client protocol missing in response phase")
               (detected_format ctx);
    upstream ← res_of_option (Internal "upstream protocol missing in response phase")
                 (target_protocol ctx);
    let reverse_direction := resolve upstream client in
    if bool_decide (reverse_direction = Passthrough) then Ok res
    else if is_upstream_error_body (res_body res) then Ok res
    else if res_is_streaming res then on_response_streaming res upstream client
    else
      resp ← convert_response {| tr_headers := ∅; tr_path := EmptyString;
                                 tr_body := res_body res |} reverse_direction;
      mret (with_res_body (ts_body resp) res).

Definition BridgeMiddleware {W} : ProxyMiddleware W := {|
  mw_name := "bridge";
  on_request _ rc := st_lift (bridge_on_request rc);
  on_response _ ctx res := st_lift (bridge_on_response ctx res);
  on_init := default_on_init
|}.

(** ** The streaming adapter

    [bridge_stream] consumes the upstream's items and returns what it sends on
    the channel; [accepts] is the number of sends that succeed before the
    client disconnects. *)
Fixpoint bridge_stream (accepts : nat) (upstream : list (Res string bytes))
    (source target : ApiFormat) (st : StreamState) : list (Res ProxyError bytes) :=
  match upstream with
  | [] => []
  | Ok chunk :: rest =>
      if str_is_empty chunk then bridge_stream accepts rest source target st
      else
        let '(st', output) :=
          match stream_transform target with
          | Some f => f chunk source st
          | None => (st, Ok chunk)
          end in
        match output with
        | Ok o =>
            if str_is_empty o then bridge_stream accepts rest source target st'
            else match accepts with
            | O => []
            | S n => Ok o :: bridge_stream n rest source target st'
            end
        | Err e => match accepts with O => [] | S _ => [Err (Internal e)] end
        | Panic => []
        end
  | Err e :: _ => match accepts with O => [] | S _ => [Err (Internal e)] end
  | Panic :: _ => []
  end.
End Bridge.

(** ** What the conversions promise *)

(** [f] takes bodies that satisfy [P] to bodies that satisfy [Q]. *)
Definition translates `{SerdeJson, !LlmBridge} (P Q : bytes -> Prop)
    (f : TransformRequest -> Res TransformError TransformResponse) : Prop :=
  forall r s, P (tr_body r) -> f r = Ok s -> Q (ts_body s).

(** [is_request f b] and [is_response f b]: [b] is a request, a response body
    of the format [f]. *)
Class LlmBridgeLaws `{SerdeJson, !LlmBridge} (is_request is_response : ApiFormat -> bytes -> Prop)
    : Prop := {
  anthropic_to_openai_law :
    translates (is_request AnthropicMessages) (is_request OpenaiChat) anthropic_to_openai;
  anthropic_to_openai_responses_law :
    translates (is_request AnthropicMessages) (is_request OpenaiResponses)
      anthropic_to_openai_responses;
  openai_to_anthropic_law :
    translates (is_request OpenaiChat) (is_request AnthropicMessages) openai_to_anthropic;
  responses_to_anthropic_law :
    translates (is_request OpenaiResponses) (is_request AnthropicMessages) responses_to_anthropic;
  responses_to_openai_law :
    translates (is_request OpenaiResponses) (is_request OpenaiChat) responses_to_openai;
  chat_response_to_anthropic_law :
    translates (is_response OpenaiChat) (is_response AnthropicMessages)
      openai_response_to_anthropic_message;
  anthropic_response_to_chat_law :
    translates (is_response AnthropicMessages) (is_response OpenaiChat)
      anthropic_response_to_openai_response;
  anthropic_response_to_responses_law :
    translates (is_response AnthropicMessages) (is_response OpenaiResponses)
      anthropic_response_to_responses_response
}.

(** The one pair of formats the direction table has no entry of its own for. *)
Definition mispaired (client upstream : ApiFormat) : Prop :=
  client = OpenaiChat /\ upstream = OpenaiResponses.

(** For the answer there is a second one: a Responses body for an Anthropic client
    is handed to the transform of Chat bodies, and nothing here says what that
    makes of it. *)
Definition mispaired_answer (client upstream : ApiFormat) : Prop :=
  mispaired client upstream \/ client = AnthropicMessages /\ upstream = OpenaiResponses.

(** The library returns: none of its functions panics. *)
Class LlmBridgeReturns `{SerdeJson, !LlmBridge} : Prop := {
  conversion_returns f r :
    f ∈ [anthropic_to_openai; anthropic_to_openai_responses; openai_to_anthropic;
         responses_to_anthropic; responses_to_openai; openai_response_to_anthropic_message;
         anthropic_response_to_openai_response; anthropic_response_to_responses_response] ->
    f r <> Panic;
  stream_returns f chunk source st :
    f ∈ [transform_stream_to_anthropic_sse; transform_stream_to_openai_sse;
         transform_stream_to_openai_responses_sse] ->
    (f chunk source st).2 <> Panic;
  header_name_returns k : header_name_from_bytes k <> Panic;
  header_value_returns v : header_value_from_str v <> Panic
}.

(** The hooks then return too. *)
Section Total.
Context `{SerdeJson, !LlmBridge, !LlmBridgeReturns}.
Context (Hparse : forall b, from_slice b <> Panic).

#[local] Ltac listed :=
  repeat first [apply list_elem_of_here | apply list_elem_of_further].

Lemma convert_request_total r d : d <> Passthrough -> convert_request r d <> Panic.
Proof.
  intros Hd. apply map_err_total. destruct d; first [done | apply conversion_returns; listed].
Qed.

Lemma convert_response_total r d : d <> Passthrough -> convert_response r d <> Panic.
Proof.
  intros Hd. apply map_err_total. destruct d;
    first [done | apply conversion_returns; listed | apply res_bind_total; [|intros ? _]];
    apply conversion_returns; listed.
Qed.

Lemma rebuild_headers_total l h : rebuild_headers l h <> Panic.
Proof.
  revert h. induction l as [|[k v] l IH]; intros h; [done|]. simpl.
  apply res_bind_total; [apply map_err_total, header_name_returns|]. intros name _.
  apply res_bind_total; [apply map_err_total, header_value_returns|]. intros value _. apply IH.
Qed.

Lemma bridge_request_total rc : bridge_on_request rc <> Panic.
Proof.
  destruct rc as [req ctx]. unfold bridge_on_request. apply res_bind_total.
  { unfold validate_input. apply res_bind_total; [by apply map_err_total|]. intros v _.
    by destruct (validate_json_depth v). }
  intros _ _. destruct (detected_format ctx) as [client|]; [|done].
  destruct (target_protocol ctx) as [upstream|]; [|done]. simpl. case_bool_decide; [done|].
  apply res_bind_total; [by apply convert_request_total|]. intros resp _.
  apply res_bind_total; [|done]. unfold apply_transform_response_to_request.
  apply res_bind_total; [apply rebuild_headers_total|done].
Qed.

Lemma bridge_response_total ctx res : bridge_on_response ctx res <> Panic.
Proof.
  unfold bridge_on_response. destruct (negb _); [done|].
  destruct (detected_format ctx) as [client|]; [|done].
  destruct (target_protocol ctx) as [upstream|]; [|done]. simpl. case_bool_decide; [done|].
  destruct (is_upstream_error_body _); [done|]. destruct (res_is_streaming res).
  - unfold on_response_streaming. destruct (stream_transform client) as [f|] eqn:Hf; [|done].
    apply res_bind_total; [|done]. apply map_err_total, stream_returns.
    destruct client; try discriminate Hf; injection Hf as <-; listed.
  - apply res_bind_total; [by apply convert_response_total|done].
Qed.
End Total.

Section Conversion.
Context `{SerdeJson} `{!LlmBridge}.

(** What a response keeps through its hook, and what the context keeps through
    that of the request. *)
Lemma bridge_response_streaming ctx res res' :
  bridge_on_response ctx res = Ok res' -> res_is_streaming res' = res_is_streaming res.
Proof.
  unfold bridge_on_response, on_response_streaming. intros Hb.
  destruct (negb _); [by injection Hb as <-|].
  apply res_bind_Ok in Hb as (client & _ & Hb). apply res_bind_Ok in Hb as (upstream & _ & Hb).
  destruct (bool_decide _); [by injection Hb as <-|].
  destruct (is_upstream_error_body _); [by injection Hb as <-|].
  destruct (res_is_streaming res) eqn:Hs.
  - destruct (stream_transform client); [|by injection Hb as <-].
    apply res_bind_Ok in Hb as (o & _ & Hb). by injection Hb as <-.
  - apply res_bind_Ok in Hb as (o & _ & Hb). by injection Hb as <-.
Qed.

Lemma bridge_request_ctx req ctx req' ctx' :
  bridge_on_request (req, ctx) = Ok (req', ctx') ->
  ctx' = ctx \/ ctx' = ctx_insert EXT_BRIDGE_REVERSE (ExtBool true) ctx.
Proof.
  unfold bridge_on_request. intros Hb. apply res_bind_Ok in Hb as (_ & _ & Hb).
  apply res_bind_Ok in Hb as (client & _ & Hb). apply res_bind_Ok in Hb as (upstream & _ & Hb).
  destruct (bool_decide _); [injection Hb as _ <-; by left|].
  apply res_bind_Ok in Hb as (s & _ & Hb). apply res_bind_Ok in Hb as (q & _ & Hb).
  injection Hb as _ <-. by right.
Qed.

Lemma bridge_request_inv req ctx req' ctx' client upstream :
  detected_format ctx = Some client -> target_protocol ctx = Some upstream ->
  resolve client upstream <> Passthrough ->
  bridge_on_request (req, ctx) = Ok (req', ctx') ->
  exists s, convert_request (proxy_request_to_transform_request req) (resolve client upstream)
              = Ok s /\
    req_body req' = ts_body s /\ req_path req' = ts_path s /\ req_method req' = req_method req /\
    rebuild_headers (map_to_list (ts_headers s)) [] = Ok (req_headers req') /\
    ctx' = ctx_insert EXT_BRIDGE_REVERSE (ExtBool true) ctx.
Proof.
  intros Hc Hu Hd Hb. unfold bridge_on_request in Hb. rewrite Hc, Hu in Hb.
  unfold apply_transform_response_to_request in Hb.
  apply res_bind_Ok in Hb as (_ & _ & Hb). simpl in Hb.
  rewrite bool_decide_eq_false_2 in Hb by done. inv_res. simplify_eq/=. eauto 12.
Qed.

Lemma bridge_response_inv ctx res res' client upstream :
  ctx_bridge_reverse ctx = Some true ->
  detected_format ctx = Some client -> target_protocol ctx = Some upstream ->
  resolve upstream client <> Passthrough ->
  is_upstream_error_body (res_body res) = false ->
  bridge_on_response ctx res = Ok res' ->
  if res_is_streaming res then
    exists f st o, stream_transform client = Some f /\
      f (res_body res) upstream StreamState_default = (st, Ok o) /\ res' = with_res_body o res
  else
    exists s, convert_response {| tr_headers := ∅; tr_path := EmptyString;
                                  tr_body := res_body res |} (resolve upstream client) = Ok s /\
      res' = with_res_body (ts_body s) res.
Proof.
  intros Hr Hc Hu Hd He Hb. unfold bridge_on_response in Hb.
  rewrite Hr, Hc, Hu in Hb. simpl in Hb. rewrite bool_decide_eq_false_2 in Hb by done.
  rewrite He in Hb. destruct (res_is_streaming res); [|inv_res; eauto].
  unfold on_response_streaming in Hb. destruct (stream_transform client) as [f|] eqn:Hf.
  - apply res_bind_Ok in Hb as (o & Ho%map_err_Ok & Hb). injection Hb as <-.
    destruct (f _ _ _) as [st r] eqn:Hst. simpl in Ho. subst r. by exists f, st, o.
  - destruct client; try discriminate Hf. destruct Hd. by destruct upstream.
Qed.

End Conversion.

Section Misrouting.
Context `{SerdeJson} `{!LlmBridge}.

(** A Chat client in front of a Responses upstream gets the conversion of the
    opposite direction: the Chat request is handed to the transform that reads
    Responses requests, and the answer to a Chat client is turned into a
    Responses body. *)
Theorem chat_to_responses_misrouted `{!LlmBridgeLaws is_request is_response} req res ctx :
  detected_format ctx = Some OpenaiChat -> target_protocol ctx = Some OpenaiResponses ->
  (forall req' ctx', bridge_on_request (req, ctx) = Ok (req', ctx') ->
     exists s, responses_to_openai (proxy_request_to_transform_request req) = Ok s /\
       req_body req' = ts_body s) /\
  (forall res', ctx_bridge_reverse ctx = Some true ->
     is_response OpenaiChat (res_body res) ->
     is_upstream_error_body (res_body res) = false -> res_is_streaming res = false ->
     bridge_on_response ctx res = Ok res' ->
     is_response OpenaiResponses (res_body res')).
Proof.
  intros Hc Hu. split.
  - intros req' ctx' Hb. destruct (bridge_request_inv _ _ _ _ _ _ Hc Hu ltac:(done) Hb)
      as (s & Hs & Hbody & _). apply map_err_Ok in Hs. eauto.
  - intros res' Hr Hres He Hst Hb.
    pose proof (bridge_response_inv _ _ _ _ _ Hr Hc Hu ltac:(done) He Hb) as Hi.
    rewrite Hst in Hi. destruct Hi as (s & Hs & ->). apply map_err_Ok in Hs. simpl in Hs. apply res_bind_Ok in Hs as (mid & Hm & Hs).
    simpl. eapply anthropic_response_to_responses_law; [|exact Hs]. simpl.
    by eapply chat_response_to_anthropic_law; [|exact Hm].
Qed.

(** Requests of a client that speaks the upstream's format pass unchanged, and
    so do responses when the request was not converted, when the two formats
    are equal and when the body is an upstream error. *)
Theorem bridge_transparent req ctx res f :
  validate_input req = Ok tt ->
  detected_format ctx = Some f ->
  (target_protocol ctx = Some f -> bridge_on_request (req, ctx) = Ok (req, ctx)) /\
  (ctx_bridge_reverse ctx = None -> bridge_on_response ctx res = Ok res) /\
  (target_protocol ctx = Some f -> bridge_on_response ctx res = Ok res) /\
  (is_Some (target_protocol ctx) -> is_upstream_error_body (res_body res) = true ->
     bridge_on_response ctx res = Ok res).
Proof.
  intros Hv Hf. unfold bridge_on_request, bridge_on_response. rewrite Hf. split_and!.
  - intros ->. rewrite Hv. simpl. by rewrite resolve_refl.
  - by intros ->.
  - intros ->. destruct (ctx_bridge_reverse ctx) as [[]|]; simpl; try done.
    by rewrite resolve_refl.
  - intros [p ->] He. destruct (ctx_bridge_reverse ctx) as [[]|]; simpl; try done.
    rewrite He. by case_bool_decide.
Qed.

(** *** The streaming adapter *)

(** The outputs of a transform fed the non-empty chunks one by one, each
    non-empty one of them an item of the stream, until the first failure. *)
Fixpoint transformed (f : bytes -> StreamState -> StreamState * Res string bytes)
    (st : StreamState) (chunks : list bytes) : list (Res string bytes) :=
  match chunks with
  | [] => []
  | c :: rest =>
      match f c st with
      | (st', Ok o) => Ok o :: transformed f st' rest
      | (_, r) => [r]
      end
  end.

Definition step_of (source target : ApiFormat) (c : bytes) (st : StreamState)
    : StreamState * Res string bytes :=
  match stream_transform target with
  | Some f => f c source st
  | None => (st, Ok c)
  end.

Definition nonempty (r : Res string bytes) : bool :=
  match r with Ok o => negb (str_is_empty o) | _ => true end.

(** The adapter sends exactly the non-empty outputs of the transform, fed the
    non-empty chunks in order, up to and including its first error, and stops
    when the client is gone. *)
Theorem bridge_stream_items accepts chunks source target st :
  (forall c st', (step_of source target c st').2 <> Panic) ->
  bridge_stream accepts (Ok <$> chunks) source target st =
    take accepts (map_err Internal <$> List.filter nonempty
      (transformed (step_of source target) st
         (List.filter (fun c => negb (str_is_empty c)) chunks))).
Proof.
  intros Hp. revert accepts st. induction chunks as [|c chunks IH]; intros accepts st.
  { by destruct accepts. }
  csimpl. destruct (str_is_empty c) eqn:Hc; csimpl; [apply IH|].
  fold (step_of source target c st). pose proof (Hp c st) as Hps.
  destruct (step_of source target c st) as [st' [o|e|]]; simpl; [|by destruct accepts as [|[|]]|done].
  destruct (str_is_empty o); csimpl; [apply IH|].
  destruct accepts as [|n]; [done|]. csimpl. f_equal. apply IH.
Qed.
End Misrouting.

(** ** A concrete conversion crate

    Bodies are JSON objects whose field [fmt] names their format; a transform
    checks the name and replaces it. *)
Module Tagged.
#[local] Existing Instance Model.json.

Definition format_name (f : ApiFormat) : string :=
  match f with
  | AnthropicMessages => "a" | OpenaiChat => "c" | OpenaiResponses => "r" | FutureFormat => "f"
  end.

Definition body_of (f : ApiFormat) : bytes :=
  Model.print (Model.JObj [("fmt", Model.JStr (format_name f))]).

Definition speaks (f : ApiFormat) (b : bytes) : Prop := b = body_of f.

Definition convert (target : ApiFormat) (sources : list ApiFormat) (r : TransformRequest)
    : Res string TransformResponse :=
  if bool_decide (tr_body r ∈ body_of <$> sources)
  then Ok {| ts_headers := tr_headers r; ts_path := "/converted"; ts_body := body_of target |}
  else Err "unexpected format".

#[export] Instance bridge : @LlmBridge Model.json := {|
  TransformError := string;
  sanitized_message e := e;
  transform_error_to_string e := e;
  anthropic_to_openai := convert OpenaiChat [AnthropicMessages];
  anthropic_to_openai_responses := convert OpenaiResponses [AnthropicMessages];
  openai_to_anthropic := convert AnthropicMessages [OpenaiChat];
  responses_to_anthropic := convert AnthropicMessages [OpenaiResponses];
  responses_to_openai := convert OpenaiChat [OpenaiResponses];
  openai_response_to_anthropic_message := convert AnthropicMessages [OpenaiChat; OpenaiResponses];
  anthropic_response_to_openai_response := convert OpenaiChat [AnthropicMessages];
  anthropic_response_to_responses_response := convert OpenaiResponses [AnthropicMessages];
  validate_json_depth _ := None;
  StreamState := nat;
  StreamState_default := 0%nat;
  transform_stream_to_anthropic_sse b _ n := (S n, Ok b);
  transform_stream_to_openai_sse b _ n :=
    if (n <? 1)%nat then (S n, Ok EmptyString) else (S n, Ok b);
  transform_stream_to_openai_responses_sse _ _ n := (n, Err "unsupported");
  header_name_from_bytes s := Ok s;
  header_value_from_str s := Ok s
|}.

Lemma convert_translates target sources P :
  @translates Model.json bridge P (speaks target) (convert target sources).
Proof.
  intros r s _ Hs. unfold convert in Hs. case_bool_decide; [|done].
  injection Hs as <-. done.
Qed.

Lemma bridge_laws : @LlmBridgeLaws Model.json bridge speaks speaks.
Proof. split; apply convert_translates. Qed.

Definition context (client upstream : ApiFormat) : @ConnectionContext Model.json :=
  with_target_protocol upstream
    (ConnectionContext_new {| now := 0; utc_year := 2026; utc_month := 3 |} 7 Claude None
       (Some client)).

Definition request (f : ApiFormat) : ProxyRequest :=
  {| req_method := "POST"; req_path := "/v1/messages"; req_headers := [("accept", "x")];
     req_body := body_of f |}.

Definition response (f : ApiFormat) : ProxyResponse :=
  {| res_status := 200; res_headers := []; res_body := body_of f; res_is_streaming := false |}.
End Tagged.
#[local] Existing Instance Tagged.bridge.

#[export] Instance tagged_returns : @LlmBridgeReturns Model.json Tagged.bridge.
Proof.
  split; [| |done|done].
  - intros f r Hf. repeat (apply elem_of_cons in Hf as [->|Hf]); [..|by apply elem_of_nil in Hf];
      simpl; unfold Tagged.convert; by case_bool_decide.
  - intros f b c n Hf. repeat (apply elem_of_cons in Hf as [->|Hf]); [..|by apply elem_of_nil in Hf];
      simpl; [done| |done]. by destruct (n <? 1)%nat.
Qed.


Lemma chat_to_responses_misrouted_witness :
  let _ := Model.json in
  let ctx := ctx_insert EXT_BRIDGE_REVERSE (ExtBool true)
               (Tagged.context OpenaiChat OpenaiResponses) in
  match bridge_on_response ctx (Tagged.response OpenaiChat) with
  | Ok res' => Tagged.speaks OpenaiResponses (res_body res')
  | _ => False
  end.
Proof.
  intros J ctx.
  assert (Hok : is_ok (bridge_on_response ctx (Tagged.response OpenaiChat)) = true)
    by (vm_compute; reflexivity).
  destruct (bridge_on_response ctx (Tagged.response OpenaiChat)) as [res'| |] eqn:Hb;
    [|discriminate Hok|discriminate Hok].
  refine (proj2 (@chat_to_responses_misrouted J Tagged.bridge Tagged.speaks Tagged.speaks
    Tagged.bridge_laws (Tagged.request OpenaiChat) (Tagged.response OpenaiChat) ctx
    eq_refl eq_refl) res' _ eq_refl _ eq_refl Hb); vm_compute; reflexivity.
Defined.

Lemma bridge_transparent_witness :
  let _ := Model.json in
  let ctx := Tagged.context OpenaiChat OpenaiChat in
  bridge_on_request (Tagged.request OpenaiChat, ctx) = Ok (Tagged.request OpenaiChat, ctx).
Proof.
  intros J ctx.
  refine (proj1 (@bridge_transparent J Tagged.bridge (Tagged.request OpenaiChat) ctx
    (Tagged.response OpenaiChat) OpenaiChat _ eq_refl) eq_refl).
  vm_compute. reflexivity.
Defined.

Lemma bridge_stream_items_witness :
  bridge_stream (H := Model.json) 9 (Ok <$> ["x"; ""; "y"; "z"]) AnthropicMessages OpenaiChat 0%nat
  = [Ok "y"; Ok "z"].
Proof.
  etransitivity.
  - apply (@bridge_stream_items Model.json Tagged.bridge).
    intros c st. simpl. destruct st; discriminate.
  - vm_compute. reflexivity.
Defined.
