(* ===== verification/Compress.v ===== *)
(** The compress middleware: [crates/compress/src/lib.rs] and
    [token_counter.rs].

    The two compressors are the crate [tokenless_schema]: the class
    [TokenlessSchema], built with the options [CompressMiddleware::new] sets.
    The debug log the middleware appends to is not modelled (every failure of
    it is ignored); the snapshots it is given are, because computing them can
    panic. *)

From Stdlib Require Import Ascii.
From S2P Require Import Prelude RustStr Float64 Json Http Billing Types Middleware.
Local Open Scope Z_scope.
Local Open Scope st_scope.

Class TokenlessSchema `{SerdeJson} := {
  schema_compress : Value -> Value;
  response_compress : Value -> Value
}.

Definition saturating_add (a b : Z) : Z := Z.min u64_max (a + b).

(** [token_counter::count]. *)
Definition count (data : bytes) : Z :=
  let text := default EmptyString (from_utf8 data) in
  saturating_add (char_count text) 3 / 4.

Record ResponseStats := { pre_tokens : Z; post_tokens : Z }.

(** The shared state: the switch and the counts of the last compressed
    response. *)
Record Compress := { enabled : bool; response_stats : option ResponseStats }.

Definition Compress_new : Compress := {| enabled := true; response_stats := None |}.
Definition Compress_disabled : Compress := {| enabled := false; response_stats := None |}.

Definition set_enabled (b : bool) (s : Compress) : Compress :=
  {| enabled := b; response_stats := response_stats s |}.

Definition take_response_stats (s : Compress) : Compress * option ResponseStats :=
  ({| enabled := enabled s; response_stats := None |}, response_stats s).

Section Compress.
Context `{SerdeJson} `{!TokenlessSchema}.

Definition MAX_DESC_LEN : Z := 400.

(** [tool.get("description").and_then(as_str).unwrap_or("")]. *)
Definition tool_desc (tool : Value) : string := default EmptyString (get_str "description" tool).

Definition desc_short (desc : string) : Res ProxyError string :=
  if MAX_DESC_LEN <? str_len desc then
    head ← slice_to desc (Z.to_nat MAX_DESC_LEN);
    mret (head +:+ "...(" +:+ uint_to_string (str_len desc) +:+ " chars)")
  else Ok desc.

Definition abbreviate_tool (tool : Value) : Res ProxyError Value :=
  let name := default "?" (get_str "name" tool) in
  desc ← desc_short (tool_desc tool);
  let prop_count :=
    match (get "input_schema" tool ≫= get "properties") ≫= as_object with
    | Some m => Z.of_nat (size m)
    | None => 0
    end in
  mret (VObject (list_to_map [("name", VString name); ("desc", VString desc);
                              ("props", VU64 prop_count)])).

Fixpoint abbreviate_items (tools : list Value) : Res ProxyError (list Value) :=
  match tools with
  | [] => Ok []
  | tool :: rest =>
      item ← abbreviate_tool tool;
      items ← abbreviate_items rest;
      mret (item :: items)
  end.

Definition abbreviate_tools_for_log (tools : list Value) : Res ProxyError string :=
  items ← abbreviate_items tools;
  mret (match to_vec (VArray items) with Ok b => b | _ => EmptyString end).

(** The loop over the tools: the new list, and whether any tool changed. *)
Definition compress_tools (tools : list Value) : list Value * bool :=
  ((fun t => if value_eqb (schema_compress t) t then t else schema_compress t) <$> tools,
   existsb (fun t => negb (value_eqb (schema_compress t) t)) tools).

Definition with_request_stats (pre post : Z) (s : CompressionStats) : CompressionStats :=
  {| tokenless_pre := tokenless_pre s; tokenless_post := tokenless_post s;
     tokenless_experimental := tokenless_experimental s;
     proxy_req_pre := pre; proxy_req_post := post;
     proxy_res_pre := proxy_res_pre s; proxy_res_post := proxy_res_post s;
     stats_rtk_saved := stats_rtk_saved s |}.

Definition compress_body (req : ProxyRequest) (ctx : ConnectionContext)
    : Res ProxyError (ProxyRequest * ConnectionContext) :=
  body ← map_err (fun e => BadRequest ("invalid JSON: " +:+ e)) (from_slice (req_body req));
  let pre := count (req_body req) in
  match get "tools" body ≫= as_array with
  | None => Ok (req, ctx)
  | Some tools =>
      _ ← abbreviate_tools_for_log tools;
      let '(tools', compressed) := compress_tools tools in
      if compressed then
        _ ← abbreviate_tools_for_log tools';
        new_body ← map_err (fun e => BadRequest ("serialize error: " +:+ e))
                     (to_vec (set_field "tools" (VArray tools') body));
        let post := count new_body in
        let stats := default CompressionStats_default (ctx_stats ctx) in
        let ctx1 := ctx_insert EXT_COMPRESSION_STATS
                      (ExtStats (with_request_stats pre post stats)) ctx in
        let legacy := VObject (list_to_map
                        [("input_tokens", VU64 (wrap_u64 (pre + tokenless_post stats)));
           ("output_tokens", VU64 post)]) in
        mret (with_body new_body req, ctx_insert EXT_STATS_RECORD (ExtJson legacy) ctx1)
      else Ok (req, ctx)
  end.

Definition compress_on_request (rc : ProxyRequest * ConnectionContext)
    : M Compress (ProxyRequest * ConnectionContext) := fun s =>
  if negb (enabled s) then (s, Ok rc) else (s, compress_body rc.1 rc.2).

Definition compress_on_response (res : ProxyResponse) : M Compress ProxyResponse := fun s =>
  if negb (enabled s) then (s, Ok res)
  else if res_is_streaming res then (s, Ok res)
  else
    let pre := count (res_body res) in
    match from_slice (res_body res) with
    | Ok body =>
        let compressed := response_compress body in
        if negb (value_eqb compressed body) then
          match to_vec compressed with
          | Ok new_body =>
              ({| enabled := enabled s;
                  response_stats := Some {| pre_tokens := pre; post_tokens := count new_body |} |},
               Ok (with_res_body new_body res))
          | Err e => (s, Err (BadRequest ("serialize error: " +:+ e)))
          | Panic => (s, Panic)
          end
        else (s, Ok res)
    | Err _ => (s, Ok res)
    | Panic => (s, Panic)
    end.

Definition CompressMiddleware : ProxyMiddleware Compress := {|
  mw_name := "compress";
  on_request _ rc := compress_on_request rc;
  on_response _ _ res := compress_on_response res;
  on_init := default_on_init
|}.
End Compress.

(** ** Token estimates *)

Lemma char_count_bounds s : 0 <= char_count s <= str_len s.
Proof.
  unfold str_len. induction s as [|a s IH]; [done|].
  cbn [char_count String.length]. rewrite Nat2Z.inj_succ. destruct (is_continuation a); lia.
Qed.

Definition ascii_only (s : string) : bool :=
  forallb (fun a => byte_val a <? 128) (String.list_ascii_of_string s).

Lemma ascii_char_count s : ascii_only s = true -> char_count s = str_len s.
Proof.
  unfold str_len, ascii_only. induction s as [|a s IH]; [done|].
  cbn [char_count String.length String.list_ascii_of_string forallb]. rewrite Nat2Z.inj_succ.
  intros [Ha Hs]%andb_true_iff. rewrite IH by done.
  unfold is_continuation. replace (128 <=? byte_val a) with false by lia. simpl. lia.
Qed.

Lemma byte_val_range a : 0 <= byte_val a < 256.
Proof.
  unfold byte_val. pose proof (Ascii.N_ascii_bounded a). lia.
Qed.

Lemma ascii_utf8 s fuel :
  ascii_only s = true -> (String.length s <= fuel)%nat -> utf8_valid_fuel fuel s = true.
Proof.
  revert fuel. induction s as [|a s IH]; intros fuel; [by destruct fuel|].
  unfold ascii_only. cbn [String.list_ascii_of_string forallb String.length].
  intros [Ha Hs]%andb_true_iff Hf. destruct fuel as [|fuel]; [lia|].
  cbn [utf8_valid_fuel utf8_head]. pose proof (byte_val_range a).
  unfold between at 1. replace ((0 <=? byte_val a) && (byte_val a <=? 127)) with true by lia.
  cbn [drop_str]. apply IH; [done|lia].
Qed.

(** The estimate is at most a token per four bytes, rounded up; it is exactly
    that for ASCII text, and zero for bytes that are not UTF-8 (a buffer is
    never longer than the address space). *)
Theorem count_estimate data :
  str_len data <= 2 ^ 63 ->
  0 <= count data <= (str_len data + 3) / 4 /\
  (ascii_only data = true -> count data = (str_len data + 3) / 4) /\
  (utf8_valid data = false -> count data = 0).
Proof.
  intros Hlen. unfold count, saturating_add, from_utf8, u64_max.
  pose proof (char_count_bounds data). split_and!.
  - destruct (utf8_valid data); simpl.
    + apply Z.div_pos; lia.
    + done.
  - destruct (utf8_valid data); simpl; [apply Z.div_le_mono; lia|].
    apply (Z.div_le_mono 3); lia.
  - intros Ha. unfold utf8_valid. rewrite ascii_utf8 by done. simpl.
    rewrite ascii_char_count by done. by rewrite Z.min_r by lia.
  - by intros ->.
Qed.

Lemma count_estimate_witness : count "abcdefghi" = 3.
Proof.
  refine (proj1 (proj2 (count_estimate "abcdefghi" _)) _); vm_compute;
    [discriminate|reflexivity].
Defined.

(** ** The request hook *)

#[local] Opaque compress_tools.

Section Facts.
Context `{SerdeJson} `{!TokenlessSchema}.

(** A description longer than 400 bytes whose byte 400 is inside a
    character. *)
Definition cut_inside_char (tool : Value) : bool :=
  (MAX_DESC_LEN <? str_len (tool_desc tool)) &&
  negb (is_char_boundary (tool_desc tool) (Z.to_nat MAX_DESC_LEN)).

Lemma abbreviate_items_spec tools :
  if existsb cut_inside_char tools then abbreviate_items tools = Panic
  else exists items, abbreviate_items tools = Ok items /\ length items = length tools.
Proof.
  induction tools as [|t tools IH]; [by exists []|]. simpl.
  unfold cut_inside_char at 1, abbreviate_tool, desc_short, slice_to.
  destruct (MAX_DESC_LEN <? str_len (tool_desc t)); simpl.
  - destruct (is_char_boundary (tool_desc t) (Z.to_nat MAX_DESC_LEN)); simpl; [|done].
    destruct (existsb cut_inside_char tools); [by rewrite IH|].
    destruct IH as (items & -> & Hl). simpl. eexists. split; [done|]. simpl. by rewrite Hl.
  - destruct (existsb cut_inside_char tools); [by rewrite IH|].
    destruct IH as (items & -> & Hl). simpl. eexists. split; [done|]. simpl. by rewrite Hl.
Qed.

Lemma abbreviate_spec tools :
  if existsb cut_inside_char tools then abbreviate_tools_for_log tools = Panic
  else exists s, abbreviate_tools_for_log tools = Ok s.
Proof.
  unfold abbreviate_tools_for_log. pose proof (abbreviate_items_spec tools) as Hi.
  destruct (existsb cut_inside_char tools); [by rewrite Hi|].
  destruct Hi as (items & -> & _). simpl. eauto.
Qed.

(** Some snapshot of the debug log cuts a description inside a character: one
    of the tools as received, or one as compressed if any was changed. *)
Definition snapshot_panics (tools : list Value) : bool :=
  let '(tools', changed) := compress_tools tools in
  existsb cut_inside_char tools || changed && existsb cut_inside_char tools'.

(** The effect of an enabled middleware on a request with tools.  It panics,
    because of its debug log, exactly when a snapshot cuts a long description
    inside a character; otherwise it never fails.  When the compressor changes
    no tool the request and context are untouched.  Otherwise the body is the
    one with every tool replaced by its compression, its other text fields kept,
    and the statistics record the estimates of the old and the new body. *)
Theorem compress_request_effect `{!SerdeJsonLaws _} s req ctx body tools :
  enabled s = true ->
  from_slice (req_body req) = Ok body -> get "tools" body ≫= as_array = Some tools ->
  let '(s', res) := compress_on_request (req, ctx) s in
  s' = s /\
  if snapshot_panics tools then res = Panic
  else if (compress_tools tools).2 then
    exists new_body ctx' body',
      res = Ok (with_body new_body req, ctx') /\
      to_vec (set_field "tools" (VArray (compress_tools tools).1) body) = Ok new_body /\
      from_slice new_body = Ok body' /\
      (forall k, k <> "tools" -> get_str k body' = get_str k body) /\
      ctx_stats ctx' = Some (with_request_stats (count (req_body req)) (count new_body)
                               (default CompressionStats_default (ctx_stats ctx))) /\
      (forall k, k <> EXT_COMPRESSION_STATS -> k <> EXT_STATS_RECORD ->
         extensions ctx' !! k = extensions ctx !! k)
  else res = Ok (req, ctx).
Proof.
  intros He Hb Ht. unfold compress_on_request. rewrite He. simpl. split; [done|].
  unfold compress_body. rewrite Hb. simpl. rewrite Ht.
  unfold snapshot_panics. destruct (compress_tools tools) as [tools' changed].
  pose proof (abbreviate_spec tools) as Hs1.
  destruct (existsb cut_inside_char tools); simpl; [by rewrite Hs1|].
  destruct Hs1 as [s1 ->]. simpl. destruct changed; simpl; [|done].
  pose proof (abbreviate_spec tools') as Hs2.
  destruct (existsb cut_inside_char tools'); simpl; [by rewrite Hs2|].
  destruct Hs2 as [s2 ->]. simpl.
  destruct (to_vec_from_slice (set_field "tools" (VArray tools') body))
    as (b & body' & Hb' & Hbody' & Hget).
  rewrite Hb'. simpl. do 3 eexists. split; [done|]. split_and!; [done|done| | |].
  - intros k Hk. rewrite Hget. by apply get_str_set_field_ne.
  - unfold ctx_stats, ctx_insert. simpl. by rewrite lookup_insert_ne, lookup_insert_eq.
  - intros k Hk1 Hk2. unfold ctx_insert. simpl. by rewrite !lookup_insert_ne.
Qed.

(** The hook keeps everything of a request but its tools, and of the context but
    the two entries with statistics. *)
Lemma compress_request_keeps `{!SerdeJsonLaws _} s req ctx s' req' ctx' :
  compress_on_request (req, ctx) s = (s', Ok (req', ctx')) ->
  s' = s /\ req' = with_body (req_body req') req /\
  (exists m, ctx' = with_extensions m ctx) /\
  (forall json', from_slice (req_body req') = Ok json' -> exists json,
     from_slice (req_body req) = Ok json /\
     forall k, k <> "tools" -> get_str k json' = get_str k json).
Proof.
  assert (Hsame : forall r c, r = with_body (req_body r) r /\ exists m, c = with_extensions m c)
    by (intros [] []; split; [done|by eexists]).
  assert (Hrefl : forall json', from_slice (req_body req) = Ok json' -> exists json,
    from_slice (req_body req) = Ok json /\ forall k, k <> "tools" -> get_str k json' = get_str k json)
    by eauto.
  destruct (Hsame req ctx) as [Hreq Hctx]. unfold compress_on_request.
  destruct (enabled s); simpl; [|by intros [= <- <- <-]]. intros [= <- Hc]. split; [done|].
  unfold compress_body in Hc. apply res_bind_Ok in Hc as (body & Hb%map_err_Ok & Hc).
  destruct (get "tools" body ≫= as_array) as [tools|]; [|by injection Hc as <- <-].
  apply res_bind_Ok in Hc as (a & _ & Hc). destruct (compress_tools tools) as [tools' []];
    [|by injection Hc as <- <-].
  apply res_bind_Ok in Hc as (a' & _ & Hc). apply res_bind_Ok in Hc as (nb & Hnb%map_err_Ok & Hc).
  injection Hc as <- <-. split; [done|]. split; [by eexists|].
  intros json Hj. simpl in Hj. exists body. split; [done|].
  destruct (to_vec_from_slice (set_field "tools" (VArray tools') body))
    as (b & body' & Hb' & Hbody' & Hget).
  rewrite Hnb in Hb'. injection Hb' as <-. rewrite Hj in Hbody'. injection Hbody' as <-.
  intros k Hk. rewrite Hget. by apply get_str_set_field_ne.
Qed.

(** It panics only for its debug log. *)
Lemma compress_request_total `{!SerdeJsonLaws _} s req ctx :
  (forall b, from_slice b <> Panic) ->
  (compress_on_request (req, ctx) s).2 = Panic <->
  enabled s = true /\ exists body tools, from_slice (req_body req) = Ok body /\
    get "tools" body ≫= as_array = Some tools /\ snapshot_panics tools = true.
Proof.
  intros Hp. unfold compress_on_request. destruct (enabled s); simpl; [|by split; [|intros []]].
  unfold compress_body. pose proof (Hp (req_body req)) as Hpb.
  destruct (from_slice (req_body req)) as [body|e|]; simpl; [| |done].
  2:{ split; [done|]. by intros (_ & ? & ? & ? & _). }
  destruct (get "tools" body ≫= as_array) as [tools|] eqn:Ht.
  2:{ split; [done|]. intros (_ & ? & ? & [= <-] & Ht' & _). congruence. }
  split.
  - intros Hc. split; [done|]. exists body, tools. split_and!; [done..|].
    destruct (snapshot_panics tools) eqn:Hs; [done|]. exfalso.
    unfold snapshot_panics in Hs. destruct (compress_tools tools) as [tools' changed].
    pose proof (abbreviate_spec tools) as Hs1. apply orb_false_iff in Hs as [Hc1 Hc2].
    rewrite Hc1 in Hs1. destruct Hs1 as [s1 Hs1]. rewrite Hs1 in Hc. simpl in Hc.
    destruct changed; [|done]. simpl in Hc2. pose proof (abbreviate_spec tools') as Hs2.
    rewrite Hc2 in Hs2. destruct Hs2 as [s2 Hs2]. rewrite Hs2 in Hc. simpl in Hc.
    destruct (to_vec_from_slice (set_field "tools" (VArray tools') body)) as (b & _ & Hb & _).
    by rewrite Hb in Hc.
  - intros (_ & ? & ? & [= <-] & Ht' & Hs). rewrite Ht in Ht'. injection Ht' as <-.
    unfold snapshot_panics in Hs. destruct (compress_tools tools) as [tools' changed].
    pose proof (abbreviate_spec tools) as Hs1.
    destruct (existsb cut_inside_char tools); [by rewrite Hs1|].
    destruct Hs1 as [s1 ->]. simpl in *. destruct changed; [|done].
    pose proof (abbreviate_spec tools') as Hs2. simpl in Hs. rewrite Hs in Hs2. by rewrite Hs2.
Qed.

Lemma compress_response_total `{!SerdeJsonLaws _} s res :
  (forall b, from_slice b <> Panic) -> (compress_on_response res s).2 <> Panic.
Proof.
  intros Hp. unfold compress_on_response. destruct (enabled s); simpl; [|done].
  destruct (res_is_streaming res); [done|]. pose proof (Hp (res_body res)) as Hpb.
  destruct (from_slice (res_body res)) as [body|e|]; [|done|done].
  destruct (value_eqb _ _); simpl; [done|].
  destruct (to_vec_from_slice (response_compress body)) as (b & _ & -> & _). done.
Qed.

Lemma compress_response_streaming s res s' res' :
  compress_on_response res s = (s', Ok res') -> res_is_streaming res' = res_is_streaming res.
Proof.
  unfold compress_on_response. intros Hc. repeat case_match; by simplify_eq.
Qed.

(** A response is changed only when compression is on, it is not streamed and
    its body is JSON the compressor changes; then only its body changes, to
    the compressed value, and the counts of both bodies are kept. *)
Theorem compress_response_effect `{!SerdeJsonLaws _} s res :
  (forall b, from_slice b <> Panic) ->
  let '(s', r) := compress_on_response res s in
  enabled s' = enabled s /\
  match from_slice (res_body res) with
  | Ok body =>
      if enabled s && negb (res_is_streaming res) && negb (value_eqb (response_compress body) body)
      then exists b body', r = Ok (with_res_body b res) /\
        to_vec (response_compress body) = Ok b /\ from_slice b = Ok body' /\
        (forall k, get_str k body' = get_str k (response_compress body)) /\
        response_stats s' =
          Some {| pre_tokens := count (res_body res); post_tokens := count b |}
      else r = Ok res /\ s' = s
  | _ => r = Ok res /\ s' = s
  end.
Proof.
  intros Hp. unfold compress_on_response. destruct (enabled s) eqn:He; simpl.
  2:{ split; [done|]. by destruct (from_slice (res_body res)). }
  destruct (res_is_streaming res); simpl.
  { split; [done|]. by destruct (from_slice (res_body res)). }
  destruct (from_slice (res_body res)) as [body|e|] eqn:Hb; simpl; [|done|by destruct (Hp (res_body res))].
  destruct (value_eqb (response_compress body) body); simpl; [done|].
  destruct (to_vec_from_slice (response_compress body)) as (b & body' & Hb' & Hbody' & Hget).
  rewrite Hb'. simpl. split; [done|]. eauto 10.
Qed.
End Facts.

(** ** Witnesses *)

Module SampleTools.
#[local] Existing Instance Model.json.

(** A compressor that drops every tool's fields but its name, and every
    response's. *)
Definition keep_name (v : Value) : Value :=
  match get_str "name" v with
  | Some n => VObject {["name" := VString n]}
  | None => v
  end.

#[export] Instance compressor : @TokenlessSchema Model.json := {|
  schema_compress := keep_name;
  response_compress := keep_name
|}.

Definition tool (desc : string) : Value :=
  Model.JObj [("name", Model.JStr "grep"); ("description", Model.JStr desc)].

Fixpoint repeat_char (n : nat) (s : string) : string :=
  match n with O => s | S n' => String "a"%char (repeat_char n' s) end.

(** 399 ASCII letters and then characters of two bytes. *)
Definition long_desc : string :=
  repeat_char 399 (String "195"%char (String "169"%char
    (String "195"%char (String "169"%char EmptyString)))).

Definition request (desc : string) : ProxyRequest :=
  {| req_method := "POST"; req_path := "/v1/messages"; req_headers := [];
     req_body := Model.print (Model.JObj [("tools", Model.JArr [tool desc])]) |}.

Definition response : ProxyResponse :=
  {| res_status := 200; res_headers := []; res_body := Model.print (tool "find text");
     res_is_streaming := false |}.

Definition context : ConnectionContext :=
  ConnectionContext_new {| now := 0; utc_year := 2026; utc_month := 3 |} 7 Claude None
    (Some AnthropicMessages).
End SampleTools.
#[local] Existing Instance SampleTools.compressor.

Lemma compress_request_effect_witness :
  let _ := Model.json in
  (compress_on_request (SampleTools.request SampleTools.long_desc, SampleTools.context)
     Compress_new).2 = Panic.
Proof.
  intros J.
  pose proof (@compress_request_effect J SampleTools.compressor Model.json_laws Compress_new
    (SampleTools.request SampleTools.long_desc) SampleTools.context
    (Model.JObj [("tools", Model.JArr [SampleTools.tool SampleTools.long_desc])])
    [SampleTools.tool SampleTools.long_desc] eq_refl) as Heff.
  destruct (compress_on_request _ _) as [s' res]. simpl.
  assert (Hp : @snapshot_panics J SampleTools.compressor [SampleTools.tool SampleTools.long_desc] = true)
    by (vm_compute; reflexivity).
  rewrite Hp in Heff. apply Heff; [apply Model.parse_print|reflexivity].
Defined.

Lemma compress_response_effect_witness :
  let _ := Model.json in
  let '(s', r) := compress_on_response SampleTools.response Compress_new in
  enabled s' = true /\ exists b, r = Ok (with_res_body b SampleTools.response).
Proof.
  intros J.
  pose proof (@compress_response_effect J SampleTools.compressor Model.json_laws Compress_new
    SampleTools.response) as Heff.
  destruct (compress_on_response _ _) as [s' r].
  destruct Heff as [He Hr]; [intros b; simpl; unfold Model.parse; by destruct (_ ≫= _)|].
  split; [exact He|]. revert Hr.
  assert (Hf : @from_slice J (res_body SampleTools.response) = Ok (SampleTools.tool "find text"))
    by apply Model.parse_print.
  rewrite Hf.
  assert (Hc : enabled Compress_new && negb (res_is_streaming SampleTools.response) &&
    negb (@value_eqb J (@response_compress J SampleTools.compressor
      (SampleTools.tool "find text")) (SampleTools.tool "find text")) = true)
    by (vm_compute; reflexivity).
  rewrite Hc. intros (b & _ & Hb & _). exists b. exact Hb.
Defined.
