(* ===== verification/Report.v ===== *)
(** The consumer of the tokenless hook reports: [crates/core/src/report.rs].

    A session's report file is a sequence of JSON lines that hooks append to;
    each request of the session consumes the lines that are new since the
    previous one, by a byte cursor per session.  The file system is an
    argument: the content of the file of a sanitised session id, [None] when
    it cannot be read as text. *)

From Stdlib Require Import Ascii.
From S2P Require Import Prelude RustStr Float64 Json.
Local Open Scope Z_scope.

Record ProxyReport := {
  pr_session_id : string;
  pr_agent_id : string;
  pr_project_path : option string;
  pr_user_name : option string;
  pr_op_type : string;
  pr_method : option string;
  pr_before_tokens : Z;
  pr_after_tokens : Z;
  pr_saved_tokens : Z;
  pr_before_bytes : Z;
  pr_after_bytes : Z;
  pr_saved_bytes : Z;
  pr_timestamp : string
}.

Record TokenlessAccumulator := {
  total_saved : Z;
  rtk_saved : Z;
  response_saved : Z;
  schema_saved : Z;
  breakdown_json : string;
  acc_project_path : option string;
  acc_user_name : option string
}.

Definition TokenlessAccumulator_default : TokenlessAccumulator :=
  {| total_saved := 0; rtk_saved := 0; response_saved := 0; schema_saved := 0;
     breakdown_json := EmptyString; acc_project_path := None; acc_user_name := None |}.

(** ** Session ids as file names *)

Definition ascii_alphanumeric (a : ascii) : bool :=
  let n := byte_val a in
  between 48 57 n || between 65 90 n || between 97 122 n.

Definition safe_char (a : ascii) : bool :=
  ascii_alphanumeric a || Ascii.eqb a "-"%char || Ascii.eqb a "_"%char.

Fixpoint filter_str (p : ascii -> bool) (s : string) : string :=
  match s with
  | EmptyString => EmptyString
  | String a s' => if p a then String a (filter_str p s') else filter_str p s'
  end.

Definition sanitize_session_id (session_id : string) : string :=
  take_str 128 (filter_str safe_char session_id).

(** ** Lines with their byte offsets *)

Fixpoint offsets (pos : Z) (pieces : list string) : list Z :=
  match pieces with
  | [] => []
  | x :: rest => pos :: offsets (pos + str_len x + 1) rest
  end.

(** The lines of [content.lines()] and where each starts. *)
Definition line_offsets (content : string) : list (Z * string) :=
  combine (offsets 0 (split_newline content)) (lines content).

Abbreviation Cursors := (gmap string Z).

Section Report.
Context `{SerdeJson}.
(** serde's derived deserialiser of a report line. *)
Context (parse_report : string -> option ProxyReport).

Definition opt_string (o : option string) : Value :=
  match o with Some s => VString s | None => VNull end.

Definition breakdown_item (r : ProxyReport) : Value :=
  VObject (list_to_map
    [("op", VString (pr_op_type r)); ("method", opt_string (pr_method r));
     ("beforeTokens", VU64 (pr_before_tokens r)); ("afterTokens", VU64 (pr_after_tokens r));
     ("savedTokens", VU64 (pr_saved_tokens r)); ("beforeBytes", VU64 (pr_before_bytes r));
     ("afterBytes", VU64 (pr_after_bytes r)); ("savedBytes", VU64 (pr_saved_bytes r))]).

(** The body of the loop for a line that parses. *)
Definition account (is_new : bool) (r : ProxyReport) (acc : TokenlessAccumulator)
    : TokenlessAccumulator :=
  let saved := pr_saved_tokens r in
  let add_if (op : string) (x : Z) :=
    if is_new && bool_decide (pr_op_type r = op) then wrap_u64 (x + saved) else x in
  {| total_saved := if is_new then wrap_u64 (total_saved acc + saved) else total_saved acc;
     rtk_saved := add_if "rewrite-command" (rtk_saved acc);
     response_saved := add_if "compress-response" (response_saved acc);
     schema_saved := add_if "compress-schema" (schema_saved acc);
     breakdown_json := breakdown_json acc;
     acc_project_path := match acc_project_path acc with
                         | None => pr_project_path r | p => p end;
     acc_user_name := match acc_user_name acc with None => pr_user_name r | u => u end |}.

(** The loop: the accumulator, the breakdown items and [has_new_lines]. *)
Fixpoint scan (start_byte : Z) (ls : list (Z * string))
    (acc : TokenlessAccumulator) (items : list Value) (has_new : bool)
    : TokenlessAccumulator * list Value * bool :=
  match ls with
  | [] => (acc, items, has_new)
  | (line_start, line) :: rest =>
      let trimmed := trim line in
      if str_is_empty trimmed then scan start_byte rest acc items has_new
      else
        let is_new := start_byte <=? line_start in
        match parse_report trimmed with
        | None => scan start_byte rest acc items has_new
        | Some r =>
            scan start_byte rest (account is_new r acc)
              (if is_new then items ++ [breakdown_item r] else items) (has_new || is_new)
        end
  end.

Definition with_breakdown (j : string) (acc : TokenlessAccumulator) : TokenlessAccumulator :=
  {| total_saved := total_saved acc; rtk_saved := rtk_saved acc;
     response_saved := response_saved acc; schema_saved := schema_saved acc;
     breakdown_json := j; acc_project_path := acc_project_path acc;
     acc_user_name := acc_user_name acc |}.

Definition consume_report (files : string -> option string) (session_id : string)
    (cursors : Cursors) : Cursors * option TokenlessAccumulator :=
  if str_is_empty session_id then (cursors, None)
  else
    let safe_sid := sanitize_session_id session_id in
    if str_is_empty safe_sid then (cursors, None)
    else
      match files safe_sid with
      | None => (cursors, None)
      | Some content =>
          if str_is_empty content then (cursors, None)
          else
            let cursor := default 0 (cursors !! safe_sid) in
            let start_byte := if str_len content <? cursor then 0 else cursor in
            let '(acc, items, has_new_lines) :=
              scan start_byte (line_offsets content) TokenlessAccumulator_default [] false in
            let cursor' := if has_new_lines then str_len content else start_byte in
            let cursors' := <[safe_sid := cursor']> cursors in
            let has_meta := bool_decide (is_Some (acc_project_path acc))
                            || bool_decide (is_Some (acc_user_name acc)) in
            if negb has_new_lines && negb has_meta then (cursors', None)
            else
              let acc := match items with
                         | [] => acc
                         | _ => with_breakdown (match to_vec (VArray items) with
                                                | Ok j => j | _ => EmptyString end) acc
                         end in
              (cursors', Some acc)
      end.
End Report.

(** ** Facts about lines *)

Lemma offsets_app pos a b :
  offsets pos (a ++ b) =
    offsets pos a ++ offsets (pos + foldr (fun x n => str_len x + 1 + n) 0 a) b.
Proof.
  revert pos. induction a as [|x a IH]; intros pos; simpl; [by rewrite Z.add_0_r|].
  rewrite IH. do 3 f_equal. lia.
Qed.

Lemma split_newline_len c :
  foldr (fun x n => str_len x + 1 + n) 0 (split_newline c) = str_len c + 1.
Proof.
  induction c as [|a c IH]; [done|]. simpl split_newline.
  destruct (Ascii.eqb a newline); simpl.
  - rewrite IH. unfold str_len. simpl. lia.
  - pose proof (split_newline_nonempty c). destruct (split_newline c) as [|x l]; [done|].
    simpl in *. unfold str_len in *. simpl. lia.
Qed.

Lemma offsets_length pos l : length (offsets pos l) = length l.
Proof. revert pos. induction l; intros pos; simpl; [done|]. by f_equal. Qed.

Lemma offsets_range pos l x : x ∈ offsets pos l -> pos <= x.
Proof.
  revert pos. induction l as [|y l IH]; intros pos Hx; [by apply elem_of_nil in Hx|].
  apply elem_of_cons in Hx as [->|Hx]; [done|]. apply IH in Hx. unfold str_len in *. lia.
Qed.

(** [lines_from pos d]: the lines of a part [d] that starts at [pos]. *)
Definition lines_from (pos : Z) (d : string) : list (Z * string) :=
  combine (offsets pos (split_newline d)) (lines d).

Lemma combine_app_eq {A B} (a a' : list A) (b b' : list B) :
  length a = length b -> combine (a ++ a') (b ++ b') = combine a b ++ combine a' b'.
Proof.
  revert b. induction a as [|x a IH]; intros [|y b] Hl; simplify_eq/=; [done|].
  by rewrite IH.
Qed.

(** Text made of complete lines. *)
Inductive complete : string -> Prop :=
| complete_nil : complete EmptyString
| complete_lines c : complete (c +:+ nl).

Lemma lines_from_app pos c d :
  complete c -> lines_from pos (c +:+ d) = lines_from pos c ++ lines_from (pos + str_len c) d.
Proof.
  intros [|c0].
  { rewrite str_app_nil_l. change (str_len "") with 0. by rewrite Z.add_0_r. }
  unfold lines_from. rewrite str_app_assoc.
  assert (Hnl : (c0 +:+ nl) = (c0 +:+ nl +:+ EmptyString)) by by rewrite str_app_nil_r.
  rewrite Hnl, !lines_app, !split_newline_app, !offsets_app, !split_newline_len.
  rewrite !combine_app_eq by (rewrite offsets_length, length_fmap; done).
  change (lines EmptyString) with (@nil string). rewrite <-Hnl, str_len_app.
  change (str_len nl) with 1. destruct (offsets _ (split_newline EmptyString)); simpl;
    rewrite app_nil_r; do 3 f_equal; lia.
Qed.

Lemma line_offsets_app c d :
  complete c -> line_offsets (c +:+ d) = line_offsets c ++ lines_from (str_len c) d.
Proof. apply (lines_from_app 0). Qed.

Lemma offsets_upper pos l x :
  x ∈ offsets pos l -> x + 1 <= pos + foldr (fun x n => str_len x + 1 + n) 0 l.
Proof.
  assert (Hpos : forall l, 0 <= foldr (fun x n => str_len x + 1 + n) 0 l)
    by (intros l'; induction l'; simpl; unfold str_len in *; lia).
  revert pos. induction l as [|y l IH]; intros pos Hx; [by apply elem_of_nil in Hx|]. simpl.
  apply elem_of_cons in Hx as [->|Hx].
  - specialize (Hpos l). unfold str_len in *. lia.
  - apply IH in Hx. lia.
Qed.

Lemma combine_elem {A B} (a : list A) (b : list B) x y : (x, y) ∈ combine a b -> x ∈ a.
Proof. rewrite !list_elem_of_In. apply in_combine_l. Qed.

Lemma lines_from_range pos c x l :
  complete c -> (x, l) ∈ lines_from pos c -> pos <= x < pos + str_len c.
Proof.
  intros Hc Hx. unfold lines_from in Hx. destruct Hc as [|c0].
  { simpl in Hx. by apply elem_of_nil in Hx. }
  assert (Hnl : (c0 +:+ nl) = (c0 +:+ nl +:+ EmptyString)) by by rewrite str_app_nil_r.
  rewrite Hnl, lines_app, split_newline_app, offsets_app, combine_app_eq in Hx
    by (rewrite offsets_length, length_fmap; done).
  change (lines EmptyString) with (@nil string) in Hx.
  destruct (offsets _ (split_newline EmptyString)); simpl in Hx; rewrite app_nil_r in Hx;
    apply combine_elem in Hx; pose proof (offsets_range _ _ _ Hx);
    apply offsets_upper in Hx; rewrite split_newline_len in Hx;
    rewrite str_len_app; change (str_len nl) with 1; lia.
Qed.

(** ** Every saving is counted once *)

Section Once.
Context `{SerdeJson}.
Context (parse_report : string -> option ProxyReport).

(** The report of a line, if it has one. *)
Definition report_of (line : string) : option ProxyReport :=
  if str_is_empty (trim line) then None else parse_report (trim line).

Definition line_saving (line : string) : Z :=
  match report_of line with Some r => pr_saved_tokens r | None => 0 end.

(** The savings of the lines from position [k] on. *)
Fixpoint saved_from (k : Z) (ls : list (Z * string)) : Z :=
  match ls with
  | [] => 0
  | (x, line) :: rest => (if k <=? x then line_saving line else 0) + saved_from k rest
  end.

(** All the savings a text reports. *)
Definition savings (content : string) : Z := saved_from 0 (line_offsets content).

Definition fresh_lines (k : Z) (ls : list (Z * string)) : bool :=
  existsb (fun xl => (k <=? xl.1) && bool_decide (is_Some (report_of xl.2))) ls.

Lemma scan_spec k ls acc items hn :
  let '(acc', items', hn') := scan parse_report k ls acc items hn in
  total_saved acc' mod 2 ^ 64 = (total_saved acc + saved_from k ls) mod 2 ^ 64 /\
  (in_u64 (total_saved acc) -> in_u64 (total_saved acc')) /\
  hn' = hn || fresh_lines k ls.
Proof.
  revert acc items hn. induction ls as [|[x line] ls IH]; intros acc items hn; simpl.
  { by rewrite Z.add_0_r, orb_false_r. }
  unfold line_saving, report_of. destruct (str_is_empty (trim line)); simpl.
  { specialize (IH acc items hn). destruct (scan _ _ _ _ _ _) as [[acc' items'] hn'].
    destruct IH as (H1 & H2 & ->). split_and!; [|done|by destruct (k <=? x)].
    rewrite H1. by destruct (k <=? x). }
  destruct (parse_report (trim line)) as [r|]; simpl.
  - specialize (IH (account (k <=? x) r acc)
      (if k <=? x then items ++ [breakdown_item r] else items) (hn || (k <=? x))).
    destruct (scan _ _ _ _ _ _) as [[acc' items'] hn']. destruct IH as (H1 & H2 & ->).
    rewrite H1. destruct (k <=? x); simpl; rewrite ?orb_true_r, ?orb_false_r; simpl.
    + split_and!; [|intros; apply H2, wrap_u64_range|done].
      unfold wrap_u64. rewrite Z.add_mod_idemp_l by lia. f_equal. lia.
    + split_and!; [done| |done]. exact H2.
  - specialize (IH acc items hn). destruct (scan _ _ _ _ _ _) as [[acc' items'] hn'].
    destruct IH as (H1 & H2 & ->). split_and!; [|done|by destruct (k <=? x)].
    rewrite H1. by destruct (k <=? x).
Qed.

Lemma saved_from_app k a b : saved_from k (a ++ b) = saved_from k a + saved_from k b.
Proof. induction a as [|[x l] a IH]; simpl; [done|]. rewrite IH. lia. Qed.

Lemma fresh_lines_app k a b : fresh_lines k (a ++ b) = fresh_lines k a || fresh_lines k b.
Proof. apply existsb_app. Qed.

Lemma saved_not_fresh k ls : fresh_lines k ls = false -> saved_from k ls = 0.
Proof.
  induction ls as [|[x l] ls IH]; simpl; [done|].
  intros [Hx Hls]%orb_false_iff. rewrite IH by done. unfold line_saving.
  destruct (k <=? x); simpl in Hx; [|done]. case_bool_decide as Hs; [done|].
  by destruct (report_of l) as [r|]; [destruct Hs|].
Qed.

Lemma saved_from_below k k' ls :
  (forall x l, (x, l) ∈ ls -> k <= x /\ k' <= x) -> saved_from k ls = saved_from k' ls.
Proof.
  induction ls as [|[x l] ls IH]; intros Hr; simpl; [done|].
  destruct (Hr x l) as [H1 H2]; [apply list_elem_of_here|].
  rewrite IH by (intros; apply (Hr _ l0); by apply elem_of_cons; right).
  by rewrite (proj2 (Z.leb_le _ _) H1), (proj2 (Z.leb_le _ _) H2).
Qed.

Lemma fresh_lines_above k ls :
  (forall x l, (x, l) ∈ ls -> x < k) -> fresh_lines k ls = false.
Proof.
  intros Hr. apply not_true_is_false. intros ([x l] & Hin & Hf)%existsb_elem.
  specialize (Hr x l Hin). simpl in Hf. lia.
Qed.
Lemma saved_from_offsets o1 o2 ls :
  length o1 = length o2 -> Forall (fun x => 0 <= x) o1 -> Forall (fun x => 0 <= x) o2 ->
  saved_from 0 (combine o1 ls) = saved_from 0 (combine o2 ls).
Proof.
  intros Hl H1. revert o2 ls Hl. induction H1 as [|x o1 Hx _ IH]; intros o2 ls Hl H2;
    destruct H2 as [|y o2 Hy H2]; simplify_eq/=; [done|].
  destruct ls as [|l ls]; [done|]. simpl. rewrite (IH o2) by done.
  by rewrite (proj2 (Z.leb_le _ _) Hx), (proj2 (Z.leb_le _ _) Hy).
Qed.

Lemma savings_lines_from pos d : 0 <= pos -> saved_from 0 (lines_from pos d) = savings d.
Proof.
  intros Hp. apply saved_from_offsets; [by rewrite !offsets_length| |];
    apply Forall_forall; intros x Hx%offsets_range; lia.
Qed.

Lemma str_len_nonneg s : 0 <= str_len s.
Proof. unfold str_len. lia. Qed.

Lemma savings_app c d : complete c -> savings (c +:+ d) = savings c + savings d.
Proof.
  intros Hc. unfold savings at 1, line_offsets. fold (lines_from 0 (c +:+ d)).
  rewrite lines_from_app, saved_from_app by done. f_equal.
  apply savings_lines_from. pose proof (str_len_nonneg c). lia.
Qed.

Lemma complete_app c d : complete c -> complete d -> complete (c +:+ d).
Proof.
  intros Hc [|d0]; [by rewrite str_app_nil_r|]. rewrite <-str_app_assoc. constructor.
Qed.

(** The state between two reads of a session whose file holds [content]: no
    line the cursor has not passed carries a report. *)
Definition caught_up (safe_sid content : string) (cursors : gmap string Z) : Prop :=
  let k := default 0 (cursors !! safe_sid) in
  complete content /\ 0 <= k <= str_len content /\
  fresh_lines k (line_offsets content) = false.

Definition total_of (r : option TokenlessAccumulator) : Z :=
  match r with Some acc => total_saved acc | None => 0 end.

Lemma consume_step sid content d cursors :
  str_is_empty sid = false -> str_is_empty (sanitize_session_id sid) = false ->
  complete d -> caught_up (sanitize_session_id sid) content cursors ->
  let '(cursors', r) :=
    consume_report parse_report (fun _ => Some (content +:+ d)) sid cursors in
  caught_up (sanitize_session_id sid) (content +:+ d) cursors' /\
  wrap_u64 (total_of r) = wrap_u64 (savings d).
Proof.
  intros Hsid Hsafe Hd (Hc & Hk & Hf). unfold consume_report. rewrite Hsid, Hsafe.
  set (sid' := sanitize_session_id sid) in *. set (k := default 0 (cursors !! sid')) in *.
  pose proof (complete_app _ _ Hc Hd) as Hcd. pose proof (str_len_app content d) as Hlen.
  pose proof (str_len_nonneg d) as Hd0. destruct (str_is_empty (content +:+ d)) eqn:He.
  { destruct (content +:+ d) eqn:Hcd0; [|done]. change (str_len "") with 0 in Hlen.
    pose proof (str_len_nonneg content) as Hc0.
    assert (Hde : d = EmptyString) by (destruct d; [done|unfold str_len in *; simpl in *; lia]).
    subst d. rewrite str_app_nil_r in Hcd0. subst content. split; [exact (conj Hc (conj Hk Hf))|done]. }
  replace (str_len (content +:+ d) <? k) with false by lia.
  pose proof (line_offsets_app content d Hc) as Hlo.
  assert (Hr : forall x l, (x, l) ∈ lines_from (str_len content) d ->
    str_len content <= x < str_len content + str_len d) by (intros; by eapply lines_from_range).
  pose proof (scan_spec k (line_offsets (content +:+ d)) TokenlessAccumulator_default [] false)
    as Hscan. destruct (scan _ _ _ _ _ _) as [[acc items] hn].
  destruct Hscan as (Htot & _ & ->). rewrite Hlo, fresh_lines_app, Hf in *. simpl in *.
  assert (Hsaved : total_saved acc mod 2 ^ 64 = savings d mod 2 ^ 64).
  { rewrite Htot, saved_from_app, (saved_not_fresh k) by done. simpl.
    rewrite <-(savings_lines_from (str_len content)) by lia. f_equal.
    apply saved_from_below. intros x l Hx%Hr. lia. }
  destruct (fresh_lines k (lines_from (str_len content) d)) eqn:Hnew; simpl.
  - split.
    + unfold caught_up. rewrite lookup_insert_eq. simpl. split_and!; [done|lia|lia|].
      apply fresh_lines_above. intros x l Hx.
      apply (lines_from_range 0 _ _ _ Hcd) in Hx. lia.
    + unfold wrap_u64. by destruct items.
  - assert (Hz : wrap_u64 (savings d) = 0).
    { rewrite <-(savings_lines_from (str_len content)) by lia.
      rewrite (saved_from_below 0 k) by (intros x l Hx%Hr; lia).
      by rewrite saved_not_fresh. }
    assert (Hcu : caught_up sid' (content +:+ d) (<[sid' := k]> cursors)).
    { unfold caught_up. rewrite lookup_insert_eq. simpl. split_and!; [done|lia|lia|].
      by rewrite Hlo, fresh_lines_app, Hf. }
    rewrite Hz. unfold wrap_u64 in *. destruct (negb _); (split; [done|]); [done|].
    destruct items; simpl; lia.
Qed.

(** The reads of one session while hooks append the parts [ds] to its report
    file, one read after each. *)
Fixpoint consume_all (sid content : string) (ds : list string) (cursors : gmap string Z)
    : list (option TokenlessAccumulator) :=
  match ds with
  | [] => []
  | d :: rest =>
      let '(cursors', r) :=
        consume_report parse_report (fun _ => Some (content +:+ d)) sid cursors in
      r :: consume_all sid (content +:+ d) rest cursors'
  end.

Lemma consume_all_total sid content ds cursors :
  str_is_empty sid = false -> str_is_empty (sanitize_session_id sid) = false ->
  Forall complete ds -> caught_up (sanitize_session_id sid) content cursors ->
  wrap_u64 (zsum (total_of <$> consume_all sid content ds cursors)) =
  wrap_u64 (zsum (savings <$> ds)).
Proof.
  intros Hsid Hsafe Hds. revert content cursors.
  induction Hds as [|d ds Hd _ IH]; intros content cursors Hcu; [done|]. simpl.
  pose proof (consume_step sid content d cursors Hsid Hsafe Hd Hcu) as Hstep.
  destruct (consume_report _ _ _ _) as [cursors' r]. destruct Hstep as [Hcu' Hr]. csimpl.
  rewrite <-wrap_u64_add_l, <-wrap_u64_add_r, Hr, (IH _ _ Hcu').
  by autorewrite with wrap.
Qed.

Lemma sum_savings ds : Forall complete ds -> zsum (savings <$> ds) = savings (foldr String.append "" ds).
Proof.
  induction 1 as [|d ds Hd _ IH]; [done|]. csimpl. rewrite IH.
  change (String.append d (foldr String.append "" ds)) with (d +:+ foldr String.append "" ds).
  by rewrite savings_app.
Qed.

(** C15: Over any sequence of reads of a session, while whole lines are appended
    to its report file between them, the savings returned add up to the
    savings the file reports: every line is counted by exactly one read (in
    64-bit arithmetic). *)
Theorem report_counted_once sid ds :
  str_is_empty sid = false -> str_is_empty (sanitize_session_id sid) = false ->
  Forall complete ds ->
  wrap_u64 (zsum (total_of <$> consume_all sid EmptyString ds ∅)) =
  wrap_u64 (savings (foldr String.append EmptyString ds)).
Proof.
  intros Hsid Hsafe Hds. rewrite <-sum_savings by done. apply consume_all_total; [done..|].
  split; [constructor|]. rewrite lookup_empty. by split_and!.
Qed.
(** The cursor a read leaves, and what it returns. *)
Lemma consume_some sid content cursors :
  str_is_empty sid = false -> str_is_empty (sanitize_session_id sid) = false ->
  str_is_empty content = false ->
  let k := default 0 (cursors !! sanitize_session_id sid) in
  0 <= k <= str_len content ->
  let '(cursors', r) := consume_report parse_report (fun _ => Some content) sid cursors in
  default 0 (cursors' !! sanitize_session_id sid) =
    (if fresh_lines k (line_offsets content) then str_len content else k) /\
  wrap_u64 (total_of r) = wrap_u64 (saved_from k (line_offsets content)).
Proof.
  intros Hsid Hsafe Hne k Hk. unfold consume_report. rewrite Hsid, Hsafe, Hne. fold k.
  replace (str_len content <? k) with false by lia.
  pose proof (scan_spec k (line_offsets content) TokenlessAccumulator_default [] false) as Hs.
  destruct (scan _ _ _ _ _ _) as [[acc items] hn]. destruct Hs as (Htot & _ & ->).
  simpl in *. destruct (fresh_lines k (line_offsets content)) eqn:Hf; simpl.
  - split; [by rewrite lookup_insert_eq|]. unfold wrap_u64. by destruct items.
  - rewrite (saved_not_fresh k) in * by done.
    destruct (negb _); (split; [by rewrite lookup_insert_eq|]); [done|].
    unfold wrap_u64 in *. destruct items; simpl; by rewrite Htot.
Qed.

(** A line that a hook has only partly written when a read finds other new
    lines is lost: the read moves the cursor past the part, and the finished
    line is never new again. *)
Theorem partial_line_lost sid c p q cursors :
  str_is_empty sid = false -> str_is_empty (sanitize_session_id sid) = false ->
  complete c -> p <> EmptyString -> split_newline (p +:+ q) = [p +:+ q] ->
  let k := default 0 (cursors !! sanitize_session_id sid) in
  0 <= k <= str_len c -> fresh_lines k (line_offsets c) = true ->
  let '(cursors1, _) :=
    consume_report parse_report (fun _ => Some (c +:+ p)) sid cursors in
  let '(_, r) :=
    consume_report parse_report (fun _ => Some (c +:+ ((p +:+ q) +:+ nl))) sid cursors1 in
  wrap_u64 (total_of r) = 0.
Proof.
  intros Hsid Hsafe Hc Hp Hpq k Hk Hf.
  assert (Hplen : 0 < str_len p) by (destruct p; [done|unfold str_len; simpl; lia]).
  pose proof (str_len_app c p) as Hl1.
  assert (Hne : forall s, str_is_empty (c +:+ (p +:+ s)) = false).
  { intros s. destruct c; [by destruct p|done]. }
  pose proof (consume_some sid (c +:+ p) cursors Hsid Hsafe) as H1.
  rewrite <-(str_app_nil_r p) in H1 at 1. specialize (H1 (Hne _) ltac:(fold k; lia)).
  destruct (consume_report _ (fun _ => Some (c +:+ p)) _ _) as [cursors1 r1].
  destruct H1 as [Hcur _]. fold k in Hcur.
  rewrite line_offsets_app, fresh_lines_app, Hf in Hcur by done. simpl in Hcur.
  assert (Hl2 : str_len (c +:+ ((p +:+ q) +:+ nl)) = str_len c + str_len p + str_len q + 1)
    by (rewrite !str_len_app; change (str_len nl) with 1; lia).
  pose proof (str_len_nonneg q).
  pose proof (consume_some sid (c +:+ ((p +:+ q) +:+ nl)) cursors1 Hsid Hsafe) as H2.
  rewrite Hcur in H2. rewrite (str_app_assoc p q nl) in H2 at 1.
  specialize (H2 (Hne _) ltac:(lia)).
  destruct (consume_report _ _ _ cursors1) as [cursors2 r2]. destruct H2 as [_ ->].
  rewrite saved_not_fresh; [done|]. apply fresh_lines_above. intros x l Hx.
  rewrite line_offsets_app in Hx by done. apply elem_of_app in Hx as [Hx|Hx].
  - apply (lines_from_range 0 _ _ _ Hc) in Hx. lia.
  - unfold lines_from in Hx.
    assert (Hnl : ((p +:+ q) +:+ nl) = ((p +:+ q) +:+ nl +:+ EmptyString))
      by by rewrite str_app_nil_r.
    rewrite Hnl, split_newline_app, Hpq in Hx. rewrite lines_app, Hpq in Hx.
    change (lines EmptyString) with (@nil string) in Hx. simpl in Hx.
    apply list_elem_of_singleton in Hx. simplify_eq. lia.
Qed.
End Once.

(** ** Witnesses *)

Module SampleReports.
(** A line [n] of one digit is a report of [n] saved tokens. *)
Definition parse (line : string) : option ProxyReport :=
  n ← parse_uint 9 line;
  Some {| pr_session_id := "s"; pr_agent_id := "claude"; pr_project_path := Some "p";
          pr_user_name := None; pr_op_type := "rewrite-command"; pr_method := None;
          pr_before_tokens := 10; pr_after_tokens := 10 - n; pr_saved_tokens := n;
          pr_before_bytes := 0; pr_after_bytes := 0; pr_saved_bytes := 0;
          pr_timestamp := EmptyString |}.
End SampleReports.

Lemma report_counted_once_witness :
  wrap_u64 (zsum (total_of <$> consume_all (H := Model.json) SampleReports.parse "s" EmptyString
    [("3" +:+ nl); EmptyString; ("4" +:+ nl +:+ "5") +:+ nl] ∅)) = 12.
Proof.
  etransitivity.
  - apply (@report_counted_once Model.json SampleReports.parse); [reflexivity..|].
    repeat constructor.
  - vm_compute. reflexivity.
Defined.

Lemma partial_line_lost_witness :
  let '(cursors1, _) := consume_report (H := Model.json) SampleReports.parse
    (fun _ => Some (("3" +:+ nl) +:+ "+")) "s" ∅ in
  let '(_, r) := consume_report (H := Model.json) SampleReports.parse
    (fun _ => Some (("3" +:+ nl) +:+ (("+" +:+ "4") +:+ nl))) "s" cursors1 in
  wrap_u64 (total_of r) = 0.
Proof.
  apply (@partial_line_lost Model.json SampleReports.parse "s" ("3" +:+ nl) "+" "4" ∅).
  - reflexivity.
  - reflexivity.
  - constructor.
  - discriminate.
  - reflexivity.
  - vm_compute. split; discriminate.
  - vm_compute. reflexivity.
Defined.
