(* ===== verification/Cost.v ===== *)
(** Cost tracking: [crates/cost/src/lib.rs].

    Token usage is read out of a response body in the client's format, priced
    by the formula of the selected mapping, and written to storage as a cost
    record.  Token counts are [u64] with the wrap-around of the release
    profile, money is [f64]. *)

From S2P Require Import Prelude RustStr Float64 Json Http Billing Types Middleware Storage.
Local Open Scope Z_scope.
Local Open Scope st_scope.

Record Usage := {
  input_tokens : Z;
  output_tokens : Z;
  cache_write_tokens : Z;
  cache_read_tokens : Z;
  thinking_tokens : Z
}.

Definition Usage_default : Usage :=
  {| input_tokens := 0; output_tokens := 0; cache_write_tokens := 0; cache_read_tokens := 0;
     thinking_tokens := 0 |}.

(** ** Usage extraction *)

Section Extraction.
Context `{SerdeJson}.

Definition extract_anthropic_from_usage (usage : Value) : Usage :=
  {| input_tokens := u64_field "input_tokens" usage;
     output_tokens := u64_field "output_tokens" usage;
     cache_write_tokens := u64_field "cache_creation_input_tokens" usage;
     cache_read_tokens := u64_field "cache_read_input_tokens" usage;
     thinking_tokens := 0 |}.

Definition extract_openai_chat_from_usage (usage : Value) : Usage :=
  {| input_tokens := u64_field "prompt_tokens" usage;
     output_tokens := u64_field "completion_tokens" usage;
     cache_write_tokens := 0; cache_read_tokens := 0; thinking_tokens := 0 |}.

Definition extract_openai_responses_from_usage (usage : Value) : Usage :=
  {| input_tokens := u64_field "input_tokens" usage;
     output_tokens := u64_field "output_tokens" usage;
     cache_write_tokens := 0; cache_read_tokens := 0; thinking_tokens := 0 |}.

Definition extract_anthropic (body : Value) : Usage :=
  match get "usage" body with
  | None => Usage_default
  | Some usage =>
      {| input_tokens := u64_field "input_tokens" usage;
         output_tokens := u64_field "output_tokens" usage;
         cache_write_tokens := u64_field "cache_creation_input_tokens" usage;
         cache_read_tokens := u64_field "cache_read_input_tokens" usage;
         thinking_tokens := 0 |}
  end.

(** [usage.get(details).and_then(|d| d.get("cached_tokens")).and_then(as_u64)]. *)
Definition cached_tokens (details : string) (usage : Value) : Z :=
  default 0 ((get details usage ≫= get "cached_tokens") ≫= as_u64).

Definition extract_openai_chat (body : Value) : Usage :=
  match get "usage" body with
  | None => Usage_default
  | Some usage =>
      let cache_read := cached_tokens "prompt_tokens_details" usage in
      let prompt_tokens := u64_field "prompt_tokens" usage in
      let completion_tokens := u64_field "completion_tokens" usage in
      let '(input, output) :=
        if (0 <? prompt_tokens) || (0 <? completion_tokens)
        then (prompt_tokens, completion_tokens)
        else match get "total_tokens" usage ≫= as_u64 with
             | Some total => (total / 2, total / 2)
             | None => (u64_field "input" usage, u64_field "output" usage)
             end in
      {| input_tokens := input; output_tokens := output; cache_write_tokens := 0;
         cache_read_tokens := cache_read; thinking_tokens := 0 |}
  end.

Definition extract_openai_responses (body : Value) : Usage :=
  match get "usage" body with
  | None => Usage_default
  | Some usage =>
      {| input_tokens := u64_field "input_tokens" usage;
         output_tokens := u64_field "output_tokens" usage;
         cache_write_tokens := 0;
         cache_read_tokens := cached_tokens "input_tokens_details" usage;
         thinking_tokens := 0 |}
  end.

Definition auto_detect_usage (body : Value) : Usage :=
  match get "usage" body with
  | None => Usage_default
  | Some usage =>
      if bool_decide (is_Some (get "prompt_tokens" usage)) then extract_openai_chat body
      else if bool_decide (is_Some (get "input_tokens_details" usage))
      then extract_openai_responses body
      else if bool_decide (is_Some (get "input_tokens" usage)) then extract_anthropic body
      else Usage_default
  end.

Definition extract_usage (body : Value) (format : option ApiFormat) : Usage :=
  match format with
  | Some AnthropicMessages => extract_anthropic body
  | Some OpenaiChat => extract_openai_chat body
  | Some OpenaiResponses => extract_openai_responses body
  | None | Some FutureFormat => auto_detect_usage body
  end.

(** The body of the loop of [extract_usage_sse] for one event. *)
Definition sse_event_usage (event : Value) (usage : Usage) : Usage :=
  let type_is t := bool_decide (get_str "type" event = Some t) in
  let usage :=
    match get "usage" event with
    | Some u => if type_is "message_delta" then extract_anthropic_from_usage u else usage
    | None => usage
    end in
  let usage :=
    match get "response" event ≫= get "usage" with
    | Some u =>
        if type_is "response.completed" then extract_openai_responses_from_usage u else usage
    | None => usage
    end in
  match get "choices" event, get "usage" event with
  | Some _, Some u => extract_openai_chat_from_usage u
  | _, _ => usage
  end.

Definition sse_line_usage (line : string) (usage : Usage) : Usage :=
  let data := default line (strip_prefix "data: " line) in
  if str_is_empty data || bool_decide (data = "[DONE]") then usage
  else match from_slice data with
       | Ok event => sse_event_usage event usage
       | _ => usage
       end.

Definition extract_usage_sse (body : string) : Usage :=
  foldl (fun usage line => sse_line_usage line usage) Usage_default (lines body).
End Extraction.

(** ** Prices *)

(** [n as f64 / 1_000_000.0 * price]. *)
Definition per_million (n : Z) (price : f64) : f64 :=
  f64_mul (f64_div (f64_of_int n) f64_million) price.

Definition calc_per_token (usage : Usage) (p : TokenPrices) (currency : string)
    : f64 * string :=
  let input_cost := per_million (input_tokens usage) (input_per_mtok p) in
  let output_cost := per_million (output_tokens usage) (output_per_mtok p) in
  let cache_write_cost :=
    per_million (cache_write_tokens usage) (default f64_zero (cache_write_per_mtok p)) in
  let cache_read_cost :=
    per_million (cache_read_tokens usage) (default f64_zero (cache_read_per_mtok p)) in
  let thinking_cost :=
    per_million (thinking_tokens usage) (default f64_zero (thinking_per_mtok p)) in
  (f64_add (f64_add (f64_add (f64_add input_cost output_cost) cache_write_cost)
                    cache_read_cost) thinking_cost, currency).

(** [total_tokens <= limit], an absent limit being unbounded. *)
Definition tier_covers (total_tokens : Z) (t : PricingTier) : bool :=
  match up_to t with None => true | Some limit => total_tokens <=? limit end.

Definition select_tier (usage : Usage) (tiers : list PricingTier) : option PricingTier :=
  List.find (tier_covers (wrap_u64 (input_tokens usage + output_tokens usage))) tiers.

Definition calc_tiered_tokens (usage : Usage) (tiers : list PricingTier) (currency : string)
    : f64 * string :=
  match select_tier usage tiers with
  | Some t =>
      match price t with
      | Token p => calc_per_token usage p currency
      | Unit _ => (f64_zero, currency)
      end
  | None => (f64_zero, currency)
  end.

(** The literal [0.75]. *)
Definition three_quarters : f64 := f64_lit 3 (-2).

Definition calc_cost (usage : Usage) (pricing : Pricing) : f64 * string :=
  match pricing with
  | PerToken p currency => calc_per_token usage p currency
  | Credits cin cout creq =>
      let input := per_million (input_tokens usage) (default f64_zero cin) in
      let output := per_million (output_tokens usage) (default f64_zero cout) in
      (f64_add (f64_add input output) (default f64_zero creq), "credits")
  | CharBased price_per_million_chars output_multiplier =>
      let input_chars := f64_mul (f64_of_int (input_tokens usage)) three_quarters in
      let output_chars := f64_mul (f64_mul (f64_of_int (output_tokens usage)) three_quarters)
                            (default f64_one output_multiplier) in
      (f64_mul (f64_div (f64_add input_chars output_chars) f64_million)
         price_per_million_chars, "CNY")
  | PerUnit _ per_unit currency => (per_unit, currency)
  | Tiered Tokens tiers currency => calc_tiered_tokens usage tiers currency
  | Tiered _ _ currency => (f64_zero, currency)
  end.

Definition calc_subscription_cost : f64 * string := (f64_zero, "USD").

(** ** Records *)

Section Record_.
Context `{SerdeJson}.
(** The fresh identifier and the RFC 3339 time of the write. *)
Context (new_id timestamp : string).

Definition build_record (user_name_default : string) (clk : Clock) (ctx : ConnectionContext)
    (response_body : Value) : CostRecord :=
  let mapping_info := ctx_mapping ctx in
  let stats := ctx_stats ctx in
  let stat (f : CompressionStats -> Z) := from_option f 0 stats in
  let usage := extract_usage response_body (detected_format ctx) in
  let '(actual_cost, unit) :=
    match mapping_info ≫= smi_pricing with
    | Some pricing => calc_cost usage pricing
    | None => (f64_zero, "USD")
    end in
  let schema_saved := wrap_u64 (tokenless_schema_saved ctx + stat proxy_schema_saved) in
  let response_saved := wrap_u64 (tokenless_response_saved ctx + stat proxy_response_saved) in
  let rtk_saved := wrap_u64 (tokenless_rtk_saved ctx + stat stats_rtk_saved) in
  let pre_compress := stat (fun s => wrap_u64 (tokenless_pre s + proxy_req_pre s)) in
  let post_compress := stat (fun s => wrap_u64 (tokenless_post s + proxy_req_post s)) in
  let compression_saved := wrap_u64 (stat tokenless_saved + stat tokenless_experimental
                                     + schema_saved + response_saved + rtk_saved) in
  let after_tokens := wrap_u64 (input_tokens usage + output_tokens usage) in
  let total_saved := wrap_u64 (tokenless_saved_tokens ctx + compression_saved) in
  {| cr_id := new_id;
     cr_channel_id := from_option smi_channel_id EmptyString mapping_info;
     cr_upstream_channel := from_option cc_name EmptyString (ctx_channel ctx);
     cr_upstream_model := from_option smi_upstream_name EmptyString mapping_info;
     cr_request_time_ms :=
       let ms := elapsed clk (started_at ctx) / 10 ^ 6 in
       if ms <=? i64_max then ms else i64_max;
     cr_project := default EmptyString (project_path ctx);
     cr_user_id := default user_name_default (user_name ctx);
     cr_agent_type := agent_to_string (agent_type ctx);
     cr_input_tokens := u64_as_i64 (input_tokens usage);
     cr_output_tokens := u64_as_i64 (output_tokens usage);
     cr_cache_write_tokens := u64_as_i64 (cache_write_tokens usage);
     cr_cache_read_tokens := u64_as_i64 (cache_read_tokens usage);
     cr_thinking_tokens := u64_as_i64 (thinking_tokens usage);
     cr_cost := actual_cost;
     cr_schema_saved_tokens := u64_as_i64 schema_saved;
     cr_response_saved_tokens := u64_as_i64 response_saved;
     cr_rtk_saved_tokens := u64_as_i64 rtk_saved;
     cr_pre_compress_tokens := u64_as_i64 pre_compress;
     cr_post_compress_tokens := u64_as_i64 post_compress;
     cr_compression_tokens_saved := u64_as_i64 compression_saved;
     cr_unit := unit;
     cr_pricing_snapshot_json := from_option smi_pricing_snapshot_json EmptyString mapping_info;
     cr_timestamp := timestamp;
     cr_session_id := session_id ctx;
     cr_before_tokens := u64_as_i64 (wrap_u64 (after_tokens + total_saved));
     cr_after_tokens := u64_as_i64 after_tokens;
     cr_tokens_saved := u64_as_i64 total_saved;
     cr_compression_breakdown_json := default EmptyString (tokenless_breakdown_json ctx) |}.

Context {S : Type} `{!Storage S}.

(** The recorder: the store is the world of the cost middleware. *)
Definition record (user_name_default : string) (clk : Clock) (ctx : ConnectionContext)
    (response_body : Value) : M S () := fun s =>
  let '(s', r) := insert_cost_record (build_record user_name_default clk ctx response_body) s in
  (s', map_err (fun e => Internal (storage_error_message e)) r).

Definition query (filter : CostFilter) (s : S) : Res ProxyError (list CostRecord) :=
  map_err (fun e => Internal (storage_error_message e)) (query_cost_records filter s).

Definition aggregate (group_by : CostGroupBy) (range : TimeRange) (s : S)
    : Res ProxyError (list CostAggregate) :=
  map_err (fun e => Internal (storage_error_message e)) (aggregate_costs group_by range s).
End Record_.

(** ** Costs are never negative *)

Definition price_ok (x : f64) : bool := f64_nonneg x && f64_lt x (S754_infinity false).
Definition opt_price_ok (o : option f64) : bool := from_option price_ok true o.

Definition token_prices_ok (p : TokenPrices) : bool :=
  price_ok (input_per_mtok p) && price_ok (output_per_mtok p) &&
  opt_price_ok (cache_write_per_mtok p) && opt_price_ok (cache_read_per_mtok p) &&
  opt_price_ok (thinking_per_mtok p).

Definition tier_ok (t : PricingTier) : bool :=
  match price t with Token p => token_prices_ok p | Unit u => price_ok u end.

(** Every price of the formula is a finite number that is not negative. *)
Definition pricing_ok (p : Pricing) : bool :=
  match p with
  | PerToken t _ => token_prices_ok t
  | Credits a b c => opt_price_ok a && opt_price_ok b && opt_price_ok c
  | CharBased x mult => price_ok x && opt_price_ok mult
  | PerUnit _ x _ => price_ok x
  | Tiered _ tiers _ => forallb tier_ok tiers
  end.

Definition usage_ok (u : Usage) : Prop :=
  in_u64 (input_tokens u) /\ in_u64 (output_tokens u) /\ in_u64 (cache_write_tokens u) /\
  in_u64 (cache_read_tokens u) /\ in_u64 (thinking_tokens u).

Lemma million_repr : f64_million = S754_finite false 8589934592000000 (-33).
Proof. reflexivity. Qed.

Lemma u64_below n : in_u64 n -> f64_below 65 (f64_of_int n).
Proof.
  unfold in_u64, u64_max. intros Hn. apply (f64_of_int_below n 64); [lia| |lia].
  destruct (Z.eq_dec n 0) as [->|]; [done|]. apply digits_le_bound; lia.
Qed.

Lemma per_million_nonneg n x : in_u64 n -> price_ok x = true -> f64_nonneg (per_million n x) = true.
Proof.
  intros Hn [Hx Hf]%andb_true_iff. unfold per_million. rewrite million_repr.
  eapply f64_mul_nonneg; [|done..].
  apply (f64_div_below _ _ _ 65); [by apply u64_below|lia..|done].
Qed.

Lemma opt_price_default o : opt_price_ok o = true -> price_ok (default f64_zero o) = true.
Proof. by destruct o. Qed.

Lemma per_token_nonneg u p c :
  usage_ok u -> token_prices_ok p = true -> f64_nonneg (calc_per_token u p c).1 = true.
Proof.
  intros (H1 & H2 & H3 & H4 & H5) Hp. unfold token_prices_ok in Hp.
  do 4 (apply andb_true_iff in Hp as [Hp ?]).
  repeat apply f64_add_nonneg; apply per_million_nonneg; auto using opt_price_default.
Qed.

Lemma select_tier_elem u tiers t : select_tier u tiers = Some t -> t ∈ tiers.
Proof. intros H. by apply find_Some_elem in H as [? _]. Qed.

Lemma price_ok_nonneg x : price_ok x = true -> f64_nonneg x = true.
Proof. by intros [? _]%andb_true_iff. Qed.


Lemma three_quarters_repr : three_quarters = S754_finite false 6755399441055744 (-53).
Proof. reflexivity. Qed.

Lemma chars_below n : in_u64 n -> f64_below 66 (f64_mul (f64_of_int n) three_quarters).
Proof.
  intros Hn%u64_below. rewrite three_quarters_repr.
  by apply (f64_mul_below 65 _ 6755399441055744 (-53)).
Qed.

(** A magnitude, possibly infinite, times a price of zero: zero or not a number. *)
Lemma f64_mul_free x y :
  f64_nonneg x = true -> f64_nonneg y = true -> f64_lt f64_zero y = false ->
  f64_nonneg (f64_mul x y) = true \/ is_nan (f64_mul x y) = true.
Proof.
  intros Hx Hy Hz. destruct x as [s|[]| |[] mx ex], y as [s'|[]| |[] my ey]; try done; auto.
Qed.

(** C18: The cost of a request is a number (or infinite) and never negative, whatever
    its token counts, when the prices of its formula are finite and not
    negative; but a character-based formula with a price of zero can also give
    something that is not a number, as [free_chars_nan] below shows. *)
Theorem cost_nonneg u p :
  usage_ok u -> pricing_ok p = true ->
  f64_nonneg (calc_cost u p).1 = true \/
  is_nan (calc_cost u p).1 = true /\
    exists x mult, p = CharBased x mult /\ f64_lt f64_zero x = false.
Proof.
  intros Hu Hp. pose proof Hu as (Hi & Ho & _).
  destruct p as [t c|ci co cr|x mult|d x c|[] tiers c]; cbn [pricing_ok calc_cost fst] in *;
    try by left.
  - left. by apply per_token_nonneg.
  - left. do 2 (apply andb_true_iff in Hp as [Hp ?]).
    repeat apply f64_add_nonneg; try apply per_million_nonneg; auto using opt_price_default.
    apply price_ok_nonneg. by apply opt_price_default.
  - apply andb_true_iff in Hp as [[Hx Hfin]%andb_true_iff Hm].
    set (chars := f64_div _ _). assert (Hc : f64_nonneg chars = true).
    { subst chars. rewrite million_repr. apply f64_div_nonneg, f64_add_nonneg.
      - by eapply f64_below_nonneg, chars_below.
      - assert (Hm1 : price_ok (default f64_one mult) = true) by by destruct mult.
        apply andb_true_iff in Hm1 as [Hm1 Hm2].
        eapply f64_mul_nonneg; [by apply chars_below|done..]. }
    destruct (f64_lt f64_zero x) eqn:Hpos; [left; by apply f64_mul_pos_nonneg|].
    destruct (f64_mul_free chars x Hc Hx Hpos) as [|]; [by left|right; by eauto].
  - left. by apply price_ok_nonneg.
  - left. unfold calc_tiered_tokens. destruct (select_tier u tiers) as [t|] eqn:Ht; [|done].
    assert (Ht' : tier_ok t = true).
    { apply (proj1 (forallb_forall _ _) Hp), list_elem_of_In. by eapply select_tier_elem. }
    unfold tier_ok in Ht'. destruct (price t); [by apply per_token_nonneg|done].
Qed.

Lemma cost_nonneg_witness :
  f64_nonneg (calc_cost
    {| input_tokens := 1000; output_tokens := 20; cache_write_tokens := 0;
       cache_read_tokens := 7; thinking_tokens := 0 |}
    (Tiered Tokens [{| up_to := Some 2000;
      price := Token {| input_per_mtok := f64_of_int 3; output_per_mtok := f64_of_int 15;
                        cache_write_per_mtok := None;
                        cache_read_per_mtok := Some (f64_lit 3 (-3));
                        thinking_per_mtok := None |} |}] "USD")).1 = true.
Proof.
  match goal with |- f64_nonneg (calc_cost ?u ?p).1 = true =>
    destruct (cost_nonneg u p) as [H|[_ (x & mult & H & _)]] end.
  - repeat split; vm_compute; discriminate.
  - reflexivity.
  - exact H.
  - discriminate H.
Defined.

(** A free character-based formula whose multiplier makes the characters of a
    thousand tokens of output infinite: the cost is not a number. *)
Lemma free_chars_nan :
  let p := CharBased f64_zero (Some (f64_lit 1 1023)) in
  pricing_ok p = true /\
  is_nan (calc_cost {| input_tokens := 1000; output_tokens := 1000; cache_write_tokens := 0;
                       cache_read_tokens := 0; thinking_tokens := 0 |} p).1 = true.
Proof. split; vm_compute; reflexivity. Qed.

(** ** Tiers *)

(** C20: The tier that prices a request is the first whose bound covers its main
    tokens, all earlier bounds being exceeded, and it prices all of the
    request's tokens (the tokens below earlier bounds too).  Without such a
    tier, as when the last tier has a bound and the request exceeds it, the
    request costs nothing. *)
Theorem tier_selection u tiers c :
  in_u64 (input_tokens u + output_tokens u) ->
  let total := input_tokens u + output_tokens u in
  match select_tier u tiers with
  | Some t =>
      (exists before after, tiers = before ++ t :: after /\
        (forall b, b ∈ before -> exists limit, up_to b = Some limit /\ limit < total)) /\
      (forall limit, up_to t = Some limit -> total <= limit) /\
      (forall p, price t = Token p -> calc_tiered_tokens u tiers c = calc_per_token u p c)
  | None =>
      (forall t, t ∈ tiers -> exists limit, up_to t = Some limit /\ limit < total) /\
      calc_tiered_tokens u tiers c = (f64_zero, c)
  end.
Proof.
  intros Hin total. unfold calc_tiered_tokens.
  assert (Hnot : forall t, tier_covers (wrap_u64 total) t = false ->
            exists limit, up_to t = Some limit /\ limit < total).
  { intros t. unfold tier_covers. rewrite wrap_u64_small by done.
    destruct (up_to t) as [limit|]; [|done]. intros. exists limit. split; [done|]. lia. }
  destruct (select_tier u tiers) as [t|] eqn:Ht; unfold select_tier in Ht; fold total in Ht.
  - apply find_split in Ht as (before & after & -> & Hc & Hb). split_and!.
    + exists before, after. split; [done|]. auto.
    + intros limit Hl. unfold tier_covers in Hc. rewrite Hl, wrap_u64_small in Hc by done. lia.
    + by intros p ->.
  - split; [|done]. intros t Hin'. apply Hnot. by eapply find_None_iff.
Qed.

Lemma tier_selection_witness :
  let t := {| up_to := Some 100;
              price := Token {| input_per_mtok := f64_one; output_per_mtok := f64_one;
                                cache_write_per_mtok := None; cache_read_per_mtok := None;
                                thinking_per_mtok := None |} |} in
  calc_tiered_tokens
    {| input_tokens := 90; output_tokens := 20; cache_write_tokens := 0;
       cache_read_tokens := 0; thinking_tokens := 0 |} [t] "USD" = (f64_zero, "USD").
Proof.
  intros t.
  refine (proj2 (tier_selection
    {| input_tokens := 90; output_tokens := 20; cache_write_tokens := 0;
       cache_read_tokens := 0; thinking_tokens := 0 |} [t] "USD" _)).
  split; vm_compute; discriminate.
Defined.

(** ** Extraction *)

#[local] Arguments get : simpl never.

Section ExtractionFacts.
Context `{SerdeJson}.

Definition obj (l : list (string * Value)) : Value := VObject (list_to_map l).

#[local] Arguments obj : simpl never.

Definition anthropic_body (u : Usage) : Value :=
  obj [("usage", obj [("input_tokens", VU64 (input_tokens u));
                      ("output_tokens", VU64 (output_tokens u));
                      ("cache_creation_input_tokens", VU64 (cache_write_tokens u));
                      ("cache_read_input_tokens", VU64 (cache_read_tokens u))])].

Definition chat_body (u : Usage) : Value :=
  obj [("usage", obj [("prompt_tokens", VU64 (input_tokens u));
                      ("completion_tokens", VU64 (output_tokens u));
                      ("prompt_tokens_details",
                        obj [("cached_tokens", VU64 (cache_read_tokens u))])])].

Definition responses_body (u : Usage) : Value :=
  obj [("usage", obj [("input_tokens", VU64 (input_tokens u));
                      ("output_tokens", VU64 (output_tokens u));
                      ("input_tokens_details",
                        obj [("cached_tokens", VU64 (cache_read_tokens u))])])].

Definition chat_total_body (total : Z) : Value :=
  obj [("usage", obj [("total_tokens", VU64 total)])].

Definition with_cache_write (n : Z) (u : Usage) : Usage :=
  {| input_tokens := input_tokens u; output_tokens := output_tokens u;
     cache_write_tokens := n; cache_read_tokens := cache_read_tokens u;
     thinking_tokens := thinking_tokens u |}.

Context `{!SerdeJsonLaws _}.

Lemma get_obj_cons k k' v l :
  get k (obj ((k', v) :: l)) = if String.eqb k' k then Some v else get k (obj l).
Proof.
  unfold obj. rewrite !get_VObject. simpl. destruct (String.eqb_spec k' k) as [->|Hne].
  - apply lookup_insert_eq.
  - by apply lookup_insert_ne.
Qed.

Lemma get_obj_nil k : get k (obj []) = None.
Proof. unfold obj. by rewrite get_VObject. Qed.

(** Evaluates the field accesses of a body built by [obj]. *)
Local Ltac eval_get :=
  unfold u64_field;
  progress (rewrite ?get_obj_cons, ?get_obj_nil, ?as_u64_VU64 by assumption; simpl).

(** The body of each of the three API formats gives back its token counts,
    whether the format is known or has to be guessed (a Chat body that reports
    zero of both main counts being the one exception; Chat and Responses do
    not report cache writes).  A Chat body with only a total is split in two
    halves, rounded down. *)
Theorem usage_extracted u total :
  usage_ok u -> thinking_tokens u = 0 -> in_u64 total ->
  (forall f, f = Some AnthropicMessages \/ f = None \/ f = Some FutureFormat ->
     extract_usage (anthropic_body u) f = u) /\
  (0 < input_tokens u \/ 0 < output_tokens u ->
   forall f, f = Some OpenaiChat \/ f = None \/ f = Some FutureFormat ->
     extract_usage (chat_body u) f = with_cache_write 0 u) /\
  (forall f, f = Some OpenaiResponses \/ f = None \/ f = Some FutureFormat ->
     extract_usage (responses_body u) f = with_cache_write 0 u) /\
  (let v := extract_usage (chat_total_body total) (Some OpenaiChat) in
   input_tokens v = total / 2 /\ output_tokens v = total / 2).
Proof.
  destruct u as [i o cw cr th]. intros (Hi & Ho & Hw & Hr & _) Hth Ht. simpl in *. subst th.
  split_and!.
  - intros f [->|[->| ->]]; simpl; unfold auto_detect_usage, extract_anthropic, anthropic_body;
      by repeat eval_get.
  - intros Hpos f Hf.
    assert (Hc : (0 <? i) || (0 <? o) = true) by lia.
    destruct Hf as [->|[->| ->]]; simpl;
      unfold auto_detect_usage, extract_openai_chat, chat_body, cached_tokens;
      repeat eval_get; by rewrite Hc.
  - intros f [->|[->| ->]]; simpl;
      unfold auto_detect_usage, extract_openai_responses, responses_body, cached_tokens;
      by repeat eval_get.
  - simpl. unfold extract_openai_chat, chat_total_body, cached_tokens. by repeat eval_get.
  - simpl. unfold extract_openai_chat, chat_total_body, cached_tokens. by repeat eval_get.
Qed.
End ExtractionFacts.

Lemma usage_extracted_witness :
  let u := {| input_tokens := 12; output_tokens := 3; cache_write_tokens := 0;
              cache_read_tokens := 5; thinking_tokens := 0 |} in
  extract_usage (chat_body (H := Model.json) u) None = u.
Proof.
  intros u.
  refine (proj1 (proj2 (@usage_extracted Model.json Model.json_laws u 7 _ eq_refl _))
    _ None _).
  - repeat split; vm_compute; discriminate.
  - split; vm_compute; discriminate.
  - left. reflexivity.
  - right. left. reflexivity.
Defined.

(** ** Columns *)

Section Columns.
Context `{SerdeJson, !SerdeJsonLaws _}.

Lemma usage_default_ok : usage_ok Usage_default.
Proof. by repeat split. Qed.

Lemma cached_tokens_range k v : in_u64 (cached_tokens k v).
Proof.
  unfold cached_tokens. destruct (_ ≫= as_u64) as [n|] eqn:Hn; [|done].
  apply bind_Some in Hn as (w & _ & Hw). by apply as_u64_range in Hw.
Qed.

Lemma half_range n : in_u64 n -> in_u64 (n / 2).
Proof. unfold in_u64, u64_max. intros. split; [apply Z.div_pos; lia|]. apply Z.div_le_upper_bound; lia. Qed.

Lemma extract_usage_ok body f : usage_ok (extract_usage body f).
Proof.
  assert (Hz : in_u64 0) by done.
  assert (Ha : usage_ok (extract_anthropic body)).
  { unfold extract_anthropic. destruct (get _ _); [|apply usage_default_ok].
    by split_and!; try apply u64_field_range. }
  assert (Hr : usage_ok (extract_openai_responses body)).
  { unfold extract_openai_responses. destruct (get _ _); [|apply usage_default_ok].
    by split_and!; try first [apply u64_field_range | apply cached_tokens_range]. }
  assert (Hc : usage_ok (extract_openai_chat body)).
  { unfold extract_openai_chat. destruct (get "usage" body) as [u|]; [|apply usage_default_ok].
    destruct (_ || _); [|destruct (_ ≫= as_u64) as [n|] eqn:Hn];
      split_and!; try first [done | apply u64_field_range | apply cached_tokens_range].
    all: apply bind_Some in Hn as (w & _ & Hw); simpl; apply half_range; by apply as_u64_range in Hw. }
  destruct f as [[]|]; simpl; try done; unfold auto_detect_usage;
    (destruct (get "usage" body); [|apply usage_default_ok]); repeat case_bool_decide; try done;
    apply usage_default_ok.
Qed.

(** The integer columns of a record. *)
Definition counts (r : CostRecord) : list Z :=
  [cr_request_time_ms r; cr_input_tokens r; cr_output_tokens r; cr_cache_write_tokens r;
   cr_cache_read_tokens r; cr_thinking_tokens r; cr_schema_saved_tokens r;
   cr_response_saved_tokens r; cr_rtk_saved_tokens r; cr_pre_compress_tokens r;
   cr_post_compress_tokens r; cr_compression_tokens_saved r; cr_before_tokens r;
   cr_after_tokens r; cr_tokens_saved r].

(** C19: Every integer of a record has the type of its column, a signed 64-bit
    integer, whatever numbers the response and the tokenless hooks report.  A
    request takes no negative time.  The tokens after compression are those of
    the response and the tokens before are those and the saved ones, modulo 2^64;
    they are stored as they are when their sum is below 2^63, and may be
    stored as a negative number otherwise. *)
Theorem record_fits_columns id ts name clk ctx body :
  let r := build_record id ts name clk ctx body in
  let usage := extract_usage body (detected_format ctx) in
  Forall in_i64 (counts r) /\ 0 <= cr_request_time_ms r /\
  wrap_u64 (cr_after_tokens r) = wrap_u64 (cr_input_tokens r + cr_output_tokens r) /\
  wrap_u64 (cr_before_tokens r) = wrap_u64 (cr_after_tokens r + cr_tokens_saved r) /\
  (input_tokens usage + output_tokens usage <= i64_max ->
   cr_input_tokens r = input_tokens usage /\ cr_output_tokens r = output_tokens usage /\
   cr_after_tokens r = input_tokens usage + output_tokens usage).
Proof.
  intros r usage. subst r.
  pose proof (extract_usage_ok body (detected_format ctx)) as (Hi & Ho & Hw & Hr & Ht).
  unfold build_record. fold usage in Hi, Ho, Hw, Hr, Ht |- *.
  destruct (match ctx_mapping ctx ≫= smi_pricing with
            | Some pricing => calc_cost _ pricing | None => (f64_zero, "USD") end).
  unfold counts. cbn [cr_request_time_ms cr_input_tokens cr_output_tokens cr_cache_write_tokens
    cr_cache_read_tokens cr_thinking_tokens cr_schema_saved_tokens cr_response_saved_tokens
    cr_rtk_saved_tokens cr_pre_compress_tokens cr_post_compress_tokens
    cr_compression_tokens_saved cr_before_tokens cr_after_tokens cr_tokens_saved].
  assert (Htime : 0 <= elapsed clk (started_at ctx) / 10 ^ 6)
    by (apply Z.div_pos; unfold elapsed; lia).
  assert (Hms : 0 <= (if elapsed clk (started_at ctx) / 10 ^ 6 <=? i64_max
    then elapsed clk (started_at ctx) / 10 ^ 6 else i64_max) <= i64_max)
    by (unfold i64_max; destruct (Z.leb_spec (elapsed clk (started_at ctx) / 10 ^ 6) (2 ^ 63 - 1)); lia).
  split_and!.
  - rewrite !Forall_cons. split; [unfold in_i64; lia|].
    split_and!; try apply Forall_nil_2; apply u64_as_i64_range; try done; try apply wrap_u64_range;
      destruct (ctx_stats ctx); simpl; first [apply wrap_u64_range | done].
  - apply Hms.
  - by rewrite wrap_u64_as_i64, wrap_u64_as_i64_add, wrap_u64_idem.
  - by rewrite wrap_u64_as_i64, wrap_u64_as_i64_add, wrap_u64_idem.
  - intros Hsum. unfold in_u64, i64_max in *.
    rewrite (wrap_u64_small (_ + _)) by (unfold in_u64, u64_max; lia).
    rewrite !u64_as_i64_small by (unfold i64_max; lia). done.
Qed.
End Columns.

(** Counters of a response that no column can hold as they are. *)
Lemma record_fits_columns_witness :
  let ctx := ConnectionContext_new (H := Model.json) {| now := 0; utc_year := 2026; utc_month := 1 |}
               1 Claude None (Some AnthropicMessages) in
  let body := @anthropic_body Model.json {| input_tokens := u64_max; output_tokens := 3;
    cache_write_tokens := 0; cache_read_tokens := 0; thinking_tokens := 0 |} in
  let r := build_record (H := Model.json) "id" "ts" "user"
             {| now := 5; utc_year := 2026; utc_month := 1 |} ctx body in
  (cr_input_tokens r, cr_after_tokens r) = (-1, 2) /\ Forall in_i64 (counts r).
Proof.
  intros ctx body r. split; [vm_compute; reflexivity|].
  exact (proj1 (@record_fits_columns Model.json Model.json_laws "id" "ts" "user"
    {| now := 5; utc_year := 2026; utc_month := 1 |} ctx body)).
Defined.

(** ** Savings *)

Section Savings.
Context `{SerdeJson}.

(** Without compression statistics in the context and within the 63-bit range
    of the columns, a record counts the savings of the tokenless hooks twice:
    once as the session total and once more as the three parts the total is
    made of.  The reported consumption before compression exceeds the real one
    accordingly. *)
Theorem savings_double_counted id ts name clk ctx body :
  ctx_stats ctx = None ->
  0 <= tokenless_schema_saved ctx -> 0 <= tokenless_response_saved ctx ->
  0 <= tokenless_rtk_saved ctx ->
  tokenless_saved_tokens ctx =
    tokenless_schema_saved ctx + tokenless_response_saved ctx + tokenless_rtk_saved ctx ->
  let used := input_tokens (extract_usage body (detected_format ctx)) +
              output_tokens (extract_usage body (detected_format ctx)) in
  0 <= used -> used + 2 * tokenless_saved_tokens ctx <= i64_max ->
  let r := build_record id ts name clk ctx body in
  cr_tokens_saved r = 2 * tokenless_saved_tokens ctx /\
  cr_after_tokens r = used /\
  cr_before_tokens r = used + 2 * tokenless_saved_tokens ctx.
Proof.
  intros Hst H1 H2 H3 Htot used Hused Hmax r. subst r. unfold build_record. rewrite Hst. simpl.
  unfold i64_max in Hmax.
  destruct (match ctx_mapping ctx ≫= smi_pricing with
            | Some pricing => calc_cost _ pricing | None => (f64_zero, "USD") end).
  simpl. fold used. rewrite !Z.add_0_r, Z.add_0_l.
  rewrite (wrap_u64_small (tokenless_schema_saved ctx)),
    (wrap_u64_small (tokenless_response_saved ctx)),
    (wrap_u64_small (tokenless_rtk_saved ctx)) by (unfold in_u64, u64_max; lia).
  rewrite (wrap_u64_small (tokenless_schema_saved ctx + _ + _)),
    (wrap_u64_small used) by (unfold in_u64, u64_max; lia).
  rewrite (wrap_u64_small (tokenless_saved_tokens ctx + _)) by (unfold in_u64, u64_max; lia).
  rewrite wrap_u64_small by (unfold in_u64, u64_max; lia).
  rewrite !u64_as_i64_small by (unfold i64_max; lia). lia.
Qed.
End Savings.

Lemma savings_double_counted_witness :
  let ctx : @ConnectionContext Model.json :=
    {| request_id := 1; agent_type := Claude; agent_role := None;
       detected_format := Some AnthropicMessages; started_at := 0; target_protocol := None;
       extensions := ∅; session_id := None; project_path := None; user_name := None;
       tokenless_saved_tokens := 60; tokenless_rtk_saved := 30;
       tokenless_response_saved := 20; tokenless_schema_saved := 10;
       tokenless_breakdown_json := None |} in
  cr_tokens_saved (build_record "id" "ts" "user"
    {| now := 5; utc_year := 2026; utc_month := 1 |} ctx Model.JNull) = 120.
Proof.
  intros ctx.
  refine (proj1 (@savings_double_counted Model.json "id" "ts" "user"
    {| now := 5; utc_year := 2026; utc_month := 1 |} ctx Model.JNull _ _ _ _ _ _ _));
    vm_compute; (reflexivity || discriminate).
Defined.
