(* ===== verification/Auth.v ===== *)
(** Proxy configuration and the authentication layer:
    [crates/core/src/config.rs] and [crates/core/src/auth.rs]. *)

From stdpp Require Import gmap.
From S2P Require Import Prelude RustStr Json Http Billing Types.
Local Open Scope Z_scope.

Record AuthKeyEntry := { role : string }.

#[export] Instance AuthKeyEntry_eq_dec : EqDecision AuthKeyEntry.
Proof. solve_decision. Defined.

(** A socket address is its text, a [Duration] its nanoseconds. *)
Record ProxyConfig := {
  listen : string;
  max_body_size : Z;
  upstream_read_timeout : Z;
  upstream_connect_timeout : Z;
  proxy_api_key : option string;
  proxy_token : option string;
  proxy_auth_keys : gmap string AuthKeyEntry
}.

Definition ProxyConfig_default : ProxyConfig :=
  {| listen := "127.0.0.1:8787"; max_body_size := 16 * 1024 * 1024;
     upstream_read_timeout := from_secs 600;
     upstream_connect_timeout := from_secs 10;
     proxy_api_key := None; proxy_token := None; proxy_auth_keys := ∅ |}.

Definition ProxyConfig_new (listen : string) : ProxyConfig :=
  {| listen := listen; max_body_size := max_body_size ProxyConfig_default;
     upstream_read_timeout := upstream_read_timeout ProxyConfig_default;
     upstream_connect_timeout := upstream_connect_timeout ProxyConfig_default;
     proxy_api_key := None; proxy_token := None; proxy_auth_keys := ∅ |}.

Definition config_has_auth (c : ProxyConfig) : bool :=
  bool_decide (is_Some (proxy_api_key c)) || bool_decide (is_Some (proxy_token c))
  || negb (bool_decide (proxy_auth_keys c = ∅)).

Record AuthState := {
  as_api_key : option string;
  as_token : option string;
  as_auth_keys : gmap string AuthKeyEntry
}.

Definition from_config (c : ProxyConfig) : AuthState :=
  {| as_api_key := proxy_api_key c; as_token := proxy_token c;
     as_auth_keys := proxy_auth_keys c |}.

Definition has_auth (s : AuthState) : bool :=
  bool_decide (is_Some (as_api_key s)) || bool_decide (is_Some (as_token s))
  || negb (bool_decide (as_auth_keys s = ∅)).

(** An incoming request of the HTTP server: [rq_body] is what reading the
    body stream yields, [rq_role] the [AgentRole] request extension. *)
Record HttpRequest := {
  rq_method : string;
  rq_path : string;
  rq_headers : HeaderMap;
  rq_body : Res string bytes;
  rq_role : option string
}.

Definition with_role (r : string) (q : HttpRequest) : HttpRequest :=
  {| rq_method := rq_method q; rq_path := rq_path q; rq_headers := rq_headers q;
     rq_body := rq_body q; rq_role := Some r |}.

Definition bearer_token (headers : HeaderMap) : option string :=
  header_str "authorization" headers ≫= strip_prefix "Bearer ".

Definition extract_api_key (headers : HeaderMap) : option string :=
  match header_str "x-api-key" headers with
  | Some key => Some key
  | None => bearer_token headers
  end.

(** [next] is the rest of the service; [Err] is the status of a rejection. *)
Definition auth_middleware {A} (s : AuthState) (req : HttpRequest)
    (next : HttpRequest -> A) : Res StatusCode A :=
  if negb (has_auth s) then Ok (next req)
  else if negb (bool_decide (as_auth_keys s = ∅)) then
    match extract_api_key (rq_headers req) ≫= (as_auth_keys s !!.) with
    | Some entry => Ok (next (with_role (role entry) req))
    | None => Err 401
    end
  else match as_api_key s with
  | Some expected =>
      if bool_decide (bearer_token (rq_headers req) = Some expected)
      then Ok (next req) else Err 401
  | None =>
      match as_token s with
      | Some expected =>
          if bool_decide (header_str "x-proxy-token" (rq_headers req) = Some expected)
          then Ok (next req) else Err 401
      | None => Ok (next req)
      end
  end.

(** The layer decides without looking at the rest of the service. *)
Lemma auth_middleware_next {A} s req (next : HttpRequest -> A) :
  auth_middleware s req next = next <$> auth_middleware s req (fun q => q).
Proof. unfold auth_middleware. repeat case_match; done. Qed.

(** ** Specification *)

(** The credential a configuration asks for: role keys take precedence over
    the single API key, and that over the token. *)
Inductive Scheme := Open | RoleKeys | ApiKey (k : string) | ProxyToken (t : string).

Definition scheme (c : ProxyConfig) : Scheme :=
  if negb (bool_decide (proxy_auth_keys c = ∅)) then RoleKeys
  else match proxy_api_key c, proxy_token c with
       | Some k, _ => ApiKey k
       | None, Some t => ProxyToken t
       | None, None => Open
       end.

Inductive authenticated (c : ProxyConfig) (h : HeaderMap) : option string -> Prop :=
| auth_open : scheme c = Open -> authenticated c h None
| auth_role key entry :
    scheme c = RoleKeys -> extract_api_key h = Some key ->
    proxy_auth_keys c !! key = Some entry -> authenticated c h (Some (role entry))
| auth_api_key k :
    scheme c = ApiKey k -> header_str "authorization" h = Some ("Bearer " +:+ k) ->
    authenticated c h None
| auth_token t :
    scheme c = ProxyToken t -> header_str "x-proxy-token" h = Some t ->
    authenticated c h None.

Definition with_opt_role (r : option string) (q : HttpRequest) : HttpRequest :=
  match r with Some r => with_role r q | None => q end.

Lemma has_auth_from_config c : has_auth (from_config c) = config_has_auth c.
Proof. done. Qed.

Lemma has_auth_scheme c : config_has_auth c = true <-> scheme c <> Open.
Proof.
  unfold config_has_auth, scheme.
  destruct (bool_decide (proxy_auth_keys c = ∅)), (proxy_api_key c), (proxy_token c);
    simpl; rewrite ?orb_true_r.
  all: split; intros Hs; try done.
Qed.

Lemma bearer_token_Some h k :
  bearer_token h = Some k <-> header_str "authorization" h = Some ("Bearer " +:+ k).
Proof.
  unfold bearer_token. destruct (header_str "authorization" h) as [v|].
  - cbn [mbind option_bind]. rewrite strip_prefix_Some. split; [by intros ->|].
    intros Hv. exact (Some_inj _ _ Hv).
  - done.
Qed.

Lemma auth_middleware_scheme {A} c req (next : HttpRequest -> A) :
  auth_middleware (from_config c) req next =
  match scheme c with
  | Open => Ok (next req)
  | RoleKeys =>
      match extract_api_key (rq_headers req) ≫= (proxy_auth_keys c !!.) with
      | Some entry => Ok (next (with_role (role entry) req))
      | None => Err 401
      end
  | ApiKey k =>
      if bool_decide (bearer_token (rq_headers req) = Some k) then Ok (next req) else Err 401
  | ProxyToken t =>
      if bool_decide (header_str "x-proxy-token" (rq_headers req) = Some t)
      then Ok (next req) else Err 401
  end.
Proof.
  unfold auth_middleware, has_auth, scheme. simpl.
  destruct (bool_decide (proxy_auth_keys c = ∅)), (proxy_api_key c), (proxy_token c); done.
Qed.

Lemma auth_middleware_authenticated {A} c req (next : HttpRequest -> A) r :
  authenticated c (rq_headers req) r ->
  auth_middleware (from_config c) req next = Ok (next (with_opt_role r req)).
Proof.
  rewrite auth_middleware_scheme. intros [Hs|key entry Hs Hk He|k Hs Hk|t Hs Ht]; rewrite Hs.
  - done.
  - rewrite Hk. simpl. by rewrite He.
  - apply bearer_token_Some in Hk. by rewrite bool_decide_true.
  - by rewrite bool_decide_true.
Qed.

Lemma auth_middleware_outcome {A} c req (next : HttpRequest -> A) :
  (exists r, authenticated c (rq_headers req) r /\
     auth_middleware (from_config c) req next = Ok (next (with_opt_role r req))) \/
  auth_middleware (from_config c) req next = Err 401.
Proof.
  rewrite auth_middleware_scheme. destruct (scheme c) as [| |k|t] eqn:Hs.
  - left. exists None. split; [by constructor|done].
  - destruct (extract_api_key _ ≫= _) as [entry|] eqn:He; [|by right].
    apply bind_Some in He as (key & Hk & He). left. exists (Some (role entry)).
    split; [by econstructor|done].
  - case_bool_decide as Hb; [|by right]. apply bearer_token_Some in Hb.
    left. exists None. split; [by eapply auth_api_key|done].
  - case_bool_decide as Hb; [|by right]. left. exists None. split; [by eapply auth_token|done].
Qed.


