(* ===== verification/Server.v ===== *)
(** The server engine: [crates/core/src/server.rs].

    The builder, the router with its two layers, the dispatch handler of the
    AI endpoints, forwarding, the two response handlers and the extraction of
    token usage from a buffered event stream.  The HTTP client is a state
    transformer of the world [W] the middlewares share, so that what is sent
    upstream, and when, is part of the model. *)

From Stdlib Require Import Ascii.
From stdpp Require Import gmap.
From S2P Require Import Prelude RustStr Float64 Json Http Billing Types Middleware.
From S2P Require Import Report Auth.
Local Open Scope Z_scope.

(** ** Responses to the client *)

Record HttpResponse := {
  rsp_status : StatusCode;
  rsp_headers : HeaderMap;
  rsp_body : bytes
}.

Definition with_status (s : StatusCode) (r : HttpResponse) : HttpResponse :=
  {| rsp_status := s; rsp_headers := rsp_headers r; rsp_body := rsp_body r |}.

(** Headers of the upstream response that are not passed on. *)
Definition is_forward_header (name : string) : bool :=
  negb (existsb (String.eqb (to_lowercase name))
    ["transfer-encoding"; "connection"; "keep-alive"; "content-length"; "host";
     "authorization"; "x-api-key"]).

Definition copy_header (acc : HeaderMap) (kv : string * bytes) : HeaderMap :=
  if is_forward_header kv.1 then header_insert kv.1 kv.2 acc else acc.

Definition build_axum_response (proxy_resp : ProxyResponse) : HttpResponse :=
  {| rsp_status := res_status proxy_resp;
     rsp_headers := foldl copy_header [] (res_headers proxy_resp);
     rsp_body := res_body proxy_resp |}.

(** ** Forwarding *)

Record UpstreamRequest := {
  up_method : string;
  up_url : string;
  up_headers : HeaderMap;
  up_body : bytes
}.

(** [reqwest]'s answers: the response whose body read may still fail, and the
    failure of a send, classified. *)
Record UpstreamResponse := {
  ur_status : StatusCode;
  ur_headers : HeaderMap;
  ur_body : Res string bytes
}.

Record SendError := { is_timeout : bool; is_connect : bool; send_text : string }.

Definition drop_upstream (name : string) : bool :=
  existsb (String.eqb (to_lowercase name))
    ["transfer-encoding"; "connection"; "keep-alive"; "accept-encoding"; "host";
     "content-length"; "authorization"; "x-api-key"].

Definition upstream_path (channel : ChannelConfig) (path : string) : string :=
  match cc_rewrite_path channel with
  | Some p => if str_is_empty p then path else p
  | None => path
  end.

Definition build_upstream_request (proxy_req : ProxyRequest) (channel : ChannelConfig)
    : UpstreamRequest :=
  let forwarded := List.filter (fun kv => negb (drop_upstream kv.1)) (req_headers proxy_req) in
  {| up_method := req_method proxy_req;
     up_url := trim_end_matches slash (cc_url channel)
                 +:+ upstream_path channel (req_path proxy_req);
     up_headers :=
       if str_is_empty (cc_api_key channel) then forwarded
       else header_append "authorization" ("Bearer " +:+ cc_api_key channel) forwarded;
     up_body := req_body proxy_req |}.

Definition send_error (e : SendError) : ProxyError :=
  Upstream (if is_timeout e then "upstream timeout: " +:+ send_text e
            else if is_connect e then "upstream connection failed: " +:+ send_text e
            else "upstream request failed: " +:+ send_text e).

(** ** Validation *)

Definition validate_proxy_request (req : ProxyRequest) : Res ProxyError () :=
  match header_str "content-type" (req_headers req) with
  | Some ct =>
      if starts_with "application/json" ct then
        if str_is_empty (req_body req) then Err (BadRequest "empty request body") else Ok ()
      else Err (BadRequest ("unsupported content-type: " +:+ ct
                            +:+ ". expected application/json"))
  | None =>
      if str_is_empty (req_body req) then Err (BadRequest "empty request body") else Ok ()
  end.

(** ** Event streams *)

Section Sse.
Context `{SerdeJson}.

Definition space : ascii := " "%char.

Definition starts_with_space (s : string) : bool :=
  match s with String a _ => Ascii.eqb a space | EmptyString => false end.

Definition normalize_line (line : string) : string :=
  let line := trim_end line in
  match strip_prefix "data:" line with
  | Some rest =>
      if starts_with_space rest then line else ("data: " +:+ rest)
  | None =>
      match strip_prefix "event:" line with
      | Some rest => if starts_with_space rest then line else ("event: " +:+ rest)
      | None => line
      end
  end.

Definition normalize_sse_format (text : string) : string :=
  join (String newline EmptyString) (normalize_line <$> lines text).

Definition is_nonzero_number (v : Value) : bool :=
  from_option (fun n => 0 <? n) false (as_u64 v)
  || from_option (fun f => f64_lt f64_zero f) false (as_f64 v).

Definition merge_field (acc : gmap string Value) (kv : string * Value) : gmap string Value :=
  if is_nonzero_number kv.2 || bool_decide (acc !! kv.1 = None)
  then <[kv.1 := kv.2]> acc else acc.

Definition merge_usage_fields (acc : gmap string Value) (usage : Value) : gmap string Value :=
  match as_object usage with
  | Some obj => foldl merge_field acc (map_to_list obj)
  | None => acc
  end.

(** The five conditions of the loop body, in order. *)
Definition event_usages (event : Value) : list Value :=
  let type_is t := bool_decide (get_str "type" event = Some t) in
  let absent k := bool_decide (get k event = None) in
  let on (b : bool) (o : option Value) := if b then option_list o else [] in
  on (type_is "message_start") (get "message" event ≫= get "usage")
  ++ on (type_is "message_delta") (get "usage" event)
  ++ on (type_is "response.completed") (get "response" event ≫= get "usage")
  ++ on (negb (absent "choices")) (get "usage" event)
  ++ on (absent "choices" && absent "type") (get "usage" event).

Definition merge_line (merged : gmap string Value) (line : string) : gmap string Value :=
  match strip_prefix "data: " line with
  | None => merged
  | Some data =>
      if str_is_empty data || String.eqb data "[DONE]" then merged
      else match from_slice data with
           | Ok event => foldl merge_usage_fields merged (event_usages event)
           | _ => merged
           end
  end.

Definition extract_usage_from_sse (body : bytes) : Value :=
  match from_utf8 body with
  | None => VNull
  | Some text =>
      let merged := foldl merge_line ∅ (lines (normalize_sse_format text)) in
      if bool_decide (merged = ∅) then VNull
      else VObject {[ "usage" := VObject merged ]}
  end.
End Sse.

(** ** The engine *)

Section Engine.
Context `{SerdeJson} {W : Type}.
(** [axum::Json(v).into_response()], number formatting, and serde's derived
    deserialisers of the report line and of the tokenless variable. *)
Context (json_into_response : Value -> HttpResponse).
Context (fmt_f64 : nat -> f64 -> string).
Context (parse_report : string -> option ProxyReport).
Context (parse_header : string -> option TokenlessHeader).

Definition CostRecorder : Type := Clock -> ConnectionContext -> Value -> M W ().
Definition Client : Type := UpstreamRequest -> W -> W * Res SendError UpstreamResponse.

Record ProxyState := {
  ps_config : ProxyConfig;
  ps_middlewares : list (ProxyMiddleware W);
  ps_client : Client;
  ps_cost_recorder : option CostRecorder
}.

(** What requests share: the id counter, the report cursors (a static of
    [report.rs]) and the world of the middlewares, client and recorder. *)
Record Shared := { next_request_id : Z; sh_cursors : Cursors; sh_world : W }.

Definition with_world (w : W) (s : Shared) : Shared :=
  {| next_request_id := next_request_id s; sh_cursors := sh_cursors s; sh_world := w |}.

(** The surroundings of one request: the clock when its hooks run, and when
    its response's hooks run, the report files and the environment variable. *)
Record Surroundings := {
  clock_request : Clock;
  clock_response : Clock;
  report_files : string -> option string;
  tokenless_env : option string
}.

(** *** Builder *)

Record AgentProxyBuilder := {
  b_config : option ProxyConfig;
  b_middlewares : list (ProxyMiddleware W);
  b_cost_recorder : option CostRecorder
}.

Definition builder : AgentProxyBuilder :=
  {| b_config := None; b_middlewares := []; b_cost_recorder := None |}.

Definition cost_recorder (cr : CostRecorder) (b : AgentProxyBuilder) : AgentProxyBuilder :=
  {| b_config := b_config b; b_middlewares := b_middlewares b; b_cost_recorder := Some cr |}.

Definition config (c : ProxyConfig) (b : AgentProxyBuilder) : AgentProxyBuilder :=
  {| b_config := Some c; b_middlewares := b_middlewares b;
     b_cost_recorder := b_cost_recorder b |}.

Definition middleware (m : ProxyMiddleware W) (b : AgentProxyBuilder) : AgentProxyBuilder :=
  {| b_config := b_config b; b_middlewares := b_middlewares b ++ [m];
     b_cost_recorder := b_cost_recorder b |}.

Record AgentProxy := {
  ap_config : ProxyConfig;
  ap_middlewares : list (ProxyMiddleware W);
  ap_cost_recorder : option CostRecorder
}.

Definition build (b : AgentProxyBuilder) : Res ProxyError AgentProxy :=
  c ← res_of_option (Internal "config is required") (b_config b);
  Ok {| ap_config := c; ap_middlewares := b_middlewares b;
        ap_cost_recorder := b_cost_recorder b |}.

(** *** Start

    [reqwest] is the client builder of that library, given the two timeouts:
    it fails, or gives the [client]. *)
Section Start.
Context (reqwest : Z -> Z -> Res string unit) (client : Client).

Definition build_reqwest_client (c : ProxyConfig) : Res ProxyError Client :=
  _ ← map_err Internal (reqwest (upstream_connect_timeout c) (upstream_read_timeout c));
  Ok client.

Definition proxy_state (p : AgentProxy) (client : Client) : ProxyState :=
  {| ps_config := ap_config p; ps_middlewares := ap_middlewares p; ps_client := client;
     ps_cost_recorder := ap_cost_recorder p |}.

(** The state the router of [build_router] runs on. *)
Definition into_router (p : AgentProxy) : Res ProxyError ProxyState :=
  client ← build_reqwest_client (ap_config p);
  Ok (proxy_state p client).

(** [bind] is the listener's bind to the configured address; the result is the
    state of the service that is then spawned. *)
Context (bind : string -> Res string unit).

Local Open Scope st_scope.

Definition serve (p : AgentProxy) : M W ProxyState :=
  let! client := st_lift (build_reqwest_client (ap_config p)) in
  let state := proxy_state p client in
  let! _ := st_each on_init (ps_middlewares state) in
  let! _ := st_lift (map_err Internal (bind (listen (ps_config state)))) in
  st_ret state.
End Start.

(** *** Responses of the engine itself *)

Definition json_response (status : StatusCode) (v : Value) : HttpResponse :=
  with_status status (json_into_response v).

Definition error_value (b : ErrorBody) : Value :=
  VObject {[ "error" := VObject (list_to_map
    ([("code", VString (err_code b)); ("message", VString (err_message b))]
     ++ match err_detail b with Some d => [("detail", VString d)] | None => [] end)) ]}.

Definition error_response (e : ProxyError) : HttpResponse :=
  let '(status, body) := to_response fmt_f64 e in json_response status (error_value body).

Definition handle_health : HttpResponse :=
  json_into_response (VObject {[ "status" := VString "ok" ]}).

Definition not_found_response (path : string) : HttpResponse :=
  json_response 404 (error_value (ErrorBody_new "not_found" ("no route for " +:+ path))).

Definition too_large_response (message : string) : HttpResponse :=
  json_response 413 (error_value (ErrorBody_new "body_too_large" message)).

(** *** Response handlers

    [None] is a panicking handler, whose connection is closed. *)

Definition handle_non_streaming_response (st : ProxyState) (clk : Clock)
    (ctx : ConnectionContext) (upstream_resp : UpstreamResponse)
    : W -> W * option HttpResponse := fun w =>
  match ur_body upstream_resp with
  | Err e => (w, Some (error_response (Upstream ("failed to read upstream response: " +:+ e))))
  | Panic => (w, None)
  | Ok body_bytes =>
      let proxy_resp := {| res_status := ur_status upstream_resp;
                           res_headers := ur_headers upstream_resp;
                           res_body := body_bytes; res_is_streaming := false |} in
      match run_on_response_chain (ps_middlewares st) clk ctx proxy_resp w with
      | (w, Err e) => (w, Some (error_response e))
      | (w, Panic) => (w, None)
      | (w, Ok proxy_resp) =>
          match ps_cost_recorder st, from_slice (res_body proxy_resp) with
          | Some cr, Ok body_json =>
              match cr clk ctx body_json w with
              | (w, Panic) => (w, None)
              | (w, _) => (w, Some (build_axum_response proxy_resp))
              end
          | _, _ => (w, Some (build_axum_response proxy_resp))
          end
      end
  end.

Definition handle_streaming_response (st : ProxyState) (clk : Clock)
    (ctx : ConnectionContext) (upstream_resp : UpstreamResponse)
    : W -> W * option HttpResponse := fun w =>
  match ur_body upstream_resp with
  | Err e => (w, Some (error_response (Upstream ("failed to read streaming response: " +:+ e))))
  | Panic => (w, None)
  | Ok body_bytes =>
      let proxy_resp := {| res_status := ur_status upstream_resp;
                           res_headers := ur_headers upstream_resp;
                           res_body := body_bytes; res_is_streaming := true |} in
      match run_on_response_chain (ps_middlewares st) clk ctx proxy_resp w with
      | (w, Err e) => (w, Some (error_response e))
      | (w, Panic) => (w, None)
      | (w, Ok proxy_resp) =>
          match ps_cost_recorder st with
          | Some cr =>
              match cr clk ctx (extract_usage_from_sse (res_body proxy_resp)) w with
              | (w, Panic) => (w, None)
              | (w, _) => (w, Some (build_axum_response proxy_resp))
              end
          | None => (w, Some (build_axum_response proxy_resp))
          end
      end
  end.

Definition forward_to_upstream (st : ProxyState) (proxy_req : ProxyRequest)
    (channel : ChannelConfig) : M W UpstreamResponse := fun w =>
  let '(w, r) := ps_client st (build_upstream_request proxy_req channel) w in
  (w, map_err send_error r).

(** The rest of the handler, once the hooks of the request have run. *)
Definition respond (st : ProxyState) (env : Surroundings)
    (rc : ProxyRequest * ConnectionContext) : W -> W * option HttpResponse := fun w =>
  let '(proxy_req, ctx) := rc in
  match ctx_channel ctx with
  | Some ch =>
      match forward_to_upstream st proxy_req ch w with
      | (w, Ok upstream_resp) =>
          if is_streaming proxy_req
          then handle_streaming_response st (clock_response env) ctx upstream_resp w
          else handle_non_streaming_response st (clock_response env) ctx upstream_resp w
      | (w, Err e) => (w, Some (error_response e))
      | (w, Panic) => (w, None)
      end
  | None => (w, Some (error_response (ChannelSelection "unknown")))
  end.

(** *** Correlation with the tokenless hooks *)

Definition find_header (P : string -> bool) (headers : HeaderMap) : option string :=
  List.find (fun kv => P kv.1) headers ≫= fun kv => to_str kv.2.

Definition is_project_header (k : string) : bool :=
  let key := to_lowercase k in
  String.eqb key "x-claude-code-project-path" || String.eqb key "x-project-path".

(** Session id, tokenless report and project path of the request. *)
Definition correlate (env : Surroundings) (headers : HeaderMap) (cursors : Cursors)
    (ctx : ConnectionContext) : Cursors * ConnectionContext :=
  let session := find_header
    (fun k => String.eqb (to_lowercase k) "x-claude-code-session-id") headers in
  let project := find_header is_project_header headers in
  let '(cursors, acc) :=
    match session with
    | Some sid => consume_report parse_report (report_files env) sid cursors
    | None => (cursors, None)
    end in
  let project := match project with
                 | Some p => Some p
                 | None => acc ≫= acc_project_path
                 end in
  (cursors,
   {| request_id := request_id ctx; agent_type := agent_type ctx;
      agent_role := agent_role ctx; detected_format := detected_format ctx;
      started_at := started_at ctx; target_protocol := target_protocol ctx;
      extensions := extensions ctx;
      session_id := match session with Some _ => session | None => session_id ctx end;
      project_path := match project with Some _ => project | None => project_path ctx end;
      user_name := match user_name ctx with
                   | Some u => Some u
                   | None => acc ≫= acc_user_name
                   end;
      tokenless_saved_tokens := from_option total_saved (tokenless_saved_tokens ctx) acc;
      tokenless_rtk_saved := from_option rtk_saved (tokenless_rtk_saved ctx) acc;
      tokenless_response_saved :=
        from_option response_saved (tokenless_response_saved ctx) acc;
      tokenless_schema_saved := from_option schema_saved (tokenless_schema_saved ctx) acc;
      tokenless_breakdown_json := match acc with
                                  | Some a => Some (breakdown_json a)
                                  | None => tokenless_breakdown_json ctx
                                  end |}).

Definition inject_stats (env : Surroundings) (ctx : ConnectionContext) : ConnectionContext :=
  let stats := read_tokenless_stats parse_header (tokenless_env env) in
  if 0 <? stats_total_saved stats
  then ctx_insert EXT_COMPRESSION_STATS (ExtStats stats) ctx else ctx.

(** *** The dispatch handler *)

Definition content_length_exceeds (max : Z) (headers : HeaderMap) : bool :=
  from_option (fun len => max <? len) false
    (header_str "content-length" headers ≫= parse_uint u64_max).

(** [axum::body::to_bytes(body, limit)]. *)
Definition to_bytes (max : Z) (body : Res string bytes) : Res string bytes :=
  b ← body; if max <? str_len b then Err "length limit exceeded" else Ok b.

(** The checks before the hooks: the response of a rejection, or the request
    with its API format. *)
Definition check_request (st : ProxyState) (req : HttpRequest)
    : Res HttpResponse (ProxyRequest * ApiFormat) :=
  let max := max_body_size (ps_config st) in
  match detect_api_format (rq_path req) with
  | None => Err (not_found_response (rq_path req))
  | Some format =>
      if content_length_exceeds max (rq_headers req) then
        Err (too_large_response ("request body exceeds size limit of "
                                 +:+ uint_to_string max))
      else match to_bytes max (rq_body req) with
      | Err _ => Err (too_large_response "request body exceeds size limit")
      | Panic => Panic
      | Ok body_bytes =>
          let proxy_req := {| req_method := rq_method req; req_path := rq_path req;
                              req_headers := rq_headers req; req_body := body_bytes |} in
          _ ← map_err error_response (validate_proxy_request proxy_req);
          Ok (proxy_req, format)
      end
  end.

Definition initial_context (env : Surroundings) (req : HttpRequest) (format : ApiFormat)
    (s : Shared) : ConnectionContext :=
  ConnectionContext_new (clock_request env) (next_request_id s)
    (detect_agent_type (rq_headers req) (rq_path req)) (rq_role req) (Some format).

Definition handle_proxy_request (st : ProxyState) (env : Surroundings) (req : HttpRequest)
    (s : Shared) : Shared * option HttpResponse :=
  let s' := {| next_request_id := wrap_u64 (next_request_id s + 1);
               sh_cursors := sh_cursors s; sh_world := sh_world s |} in
  match check_request st req with
  | Err rejection => (s', Some rejection)
  | Panic => (s', None)
  | Ok (proxy_req, format) =>
      let '(cursors, ctx) :=
        correlate env (req_headers proxy_req) (sh_cursors s)
          (initial_context env req format s) in
      let s' := {| next_request_id := next_request_id s'; sh_cursors := cursors;
                   sh_world := sh_world s |} in
      match run_on_request_chain (ps_middlewares st) (clock_request env)
              (proxy_req, inject_stats env ctx) (sh_world s) with
      | (w, Err e) => (with_world w s', Some (error_response e))
      | (w, Panic) => (with_world w s', None)
      | (w, Ok rc) =>
          let '(w, r) := respond st env rc w in (with_world w s', r)
      end
  end.

(** *** The router *)

Inductive Route := ProxyRoute | HealthRoute | WrongMethod | NoRoute.

Definition route (path method : string) : Route :=
  if existsb (String.eqb path) ["/v1/messages"; "/v1/chat/completions"; "/v1/responses"]
  then if String.eqb method "POST" then ProxyRoute else WrongMethod
  else if String.eqb path "/health"
  then if String.eqb method "GET" || String.eqb method "HEAD" then HealthRoute else WrongMethod
  else NoRoute.

(** [axum]'s own responses, and the limit layer in front of everything. *)
Context (status_response : StatusCode -> HttpResponse).
Context (body_limit : Z -> HttpRequest -> Res HttpResponse HttpRequest).

Definition dispatch (st : ProxyState) (env : Surroundings) (req : HttpRequest) (s : Shared)
    : Shared * option HttpResponse :=
  match route (rq_path req) (rq_method req) with
  | ProxyRoute => handle_proxy_request st env req s
  | HealthRoute => (s, Some handle_health)
  | WrongMethod => (s, Some (status_response 405))
  | NoRoute => (s, Some (status_response 404))
  end.

Definition build_router (st : ProxyState) (env : Surroundings) (req : HttpRequest)
    (s : Shared) : Shared * option HttpResponse :=
  match body_limit (max_body_size (ps_config st)) req with
  | Err r => (s, Some r)
  | Panic => (s, None)
  | Ok req =>
      match auth_middleware (from_config (ps_config st)) req
              (fun req => dispatch st env req s) with
      | Ok r => r
      | Err status => (s, Some (status_response status))
      | Panic => (s, None)
      end
  end.
End Engine.

(** ** Start *)

Section StartFacts.
Context `{SerdeJson} {W : Type}.
Context (reqwest : Z -> Z -> Res string unit) (client : Client (W := W)).
Context (bind : string -> Res string unit).

(** A server that [serve] has started runs the service of [into_router], after
    every middleware has been initialised. *)
Lemma serve_Ok p w w' st :
  serve reqwest client bind p w = (w', Ok st) ->
  into_router reqwest client p = Ok st /\
  st_each on_init (ap_middlewares p) w = (w', Ok tt) /\
  is_ok (bind (listen (ap_config p))) = true.
Proof.
  unfold serve. intros (w1 & c & Hc & Hs)%st_bind_Ok. injection Hc as <- Hc.
  apply st_bind_Ok in Hs as (w2 & [] & Hi & Hs). apply st_bind_Ok in Hs as (w3 & [] & Hb & Hs).
  injection Hs as <- <-. injection Hb as <- Hb. unfold into_router. rewrite Hc. split; [done|].
  split; [done|]. simpl in Hb. by destruct (bind _).
Qed.

(** Without hooks of their own, starting a server is binding its router. *)
Lemma serve_default p w :
  Forall (fun mw => on_init mw = default_on_init) (ap_middlewares p) ->
  serve reqwest client bind p w =
    (w, st ← into_router reqwest client p;
        _ ← map_err Internal (bind (listen (ap_config p))); Ok st).
Proof.
  intros Hd. unfold serve, into_router, st_bind at 1, st_lift at 1.
  destruct (build_reqwest_client _ _ _) as [c| |]; [|done..]. simpl.
  assert (Hi : st_each on_init (ap_middlewares p) w = (w, Ok tt)).
  { induction Hd as [|mw mws Hmw _ IH]; [done|]. simpl. unfold st_bind. by rewrite Hmw. }
  unfold st_bind, st_lift. rewrite Hi. by destruct (bind _).
Qed.
End StartFacts.

(** ** Header policies *)

Lemma upstream_header_values proxy_req channel name :
  header_values name (up_headers (build_upstream_request proxy_req channel)) =
  if String.eqb name "authorization" then
    if str_is_empty (cc_api_key channel) then [] else ["Bearer " +:+ cc_api_key channel]
  else if drop_upstream name then []
  else header_values name (req_headers proxy_req).
Proof.
  unfold build_upstream_request. cbn [up_headers].
  pose proof (header_values_filter name (fun k => negb (drop_upstream k))
    (req_headers proxy_req)) as Hf. simpl in Hf.
  destruct (String.eqb_spec name "authorization") as [->|Hne].
  - change (drop_upstream "authorization") with true in Hf.
    destruct (str_is_empty (cc_api_key channel)); [done|].
    unfold header_append. by rewrite header_values_app, Hf.
  - assert (Hlast : forall v h,
      header_values name (header_append "authorization" v h) = header_values name h).
    { intros v h. unfold header_append. rewrite header_values_app. cbn [header_values].
      destruct (String.eqb_spec "authorization" name); [by subst|]. apply app_nil_r. }
    destruct (str_is_empty (cc_api_key channel)); rewrite ?Hlast, Hf;
      by destruct (drop_upstream name).
Qed.

(** C8: The exact headers of the request upstream, whatever the client sends and the
    hooks leave.  The channel's key is the only [Authorization] (none for an empty
    key); seven more headers are never sent: [x-api-key], [host],
    [content-length], [connection], [keep-alive], [transfer-encoding] and
    [accept-encoding].  All others are forwarded with their values in order, and
    the code knows no further credentials: the proxy's own [X-Proxy-Token], other
    vendors' keys, cookies, [proxy-authorization] and the remaining hop-by-hop
    headers go upstream as they came. *)
Theorem upstream_headers_policy proxy_req channel :
  let sent name := header_values name (up_headers (build_upstream_request proxy_req channel)) in
  let withheld := ["x-api-key"; "host"; "content-length"; "connection"; "keep-alive";
                   "transfer-encoding"; "accept-encoding"] in
  sent "authorization" =
    (if str_is_empty (cc_api_key channel) then [] else ["Bearer " +:+ cc_api_key channel]) /\
  (forall name, name <> "authorization" ->
     sent name = if bool_decide (to_lowercase name ∈ "authorization" :: withheld) then []
                 else header_values name (req_headers proxy_req)) /\
  Forall (fun name => sent name = header_values name (req_headers proxy_req))
    ["x-proxy-token"; "x-goog-api-key"; "cookie"; "proxy-authorization"; "te"; "trailer"; "upgrade"].
Proof.
  intros sent withheld. unfold sent. split_and!.
  - by rewrite upstream_header_values.
  - intros name Hne. rewrite upstream_header_values. apply String.eqb_neq in Hne as ->.
    replace (drop_upstream name) with (bool_decide (to_lowercase name ∈ "authorization" :: withheld));
      [done|].
    apply eq_bool_prop_intro. rewrite bool_decide_spec, list_elem_of_In.
    unfold drop_upstream. rewrite Is_true_true, existsb_exists. unfold withheld. split.
    + intros Hin. exists (to_lowercase name). rewrite String.eqb_refl. simpl in *. tauto.
    + intros (x & Hx & ->%String.eqb_eq). simpl in *. tauto.
  - repeat constructor; by rewrite upstream_header_values.
Qed.

Lemma copy_headers_values name h acc :
  header_values name (foldl copy_header acc h) =
  if is_forward_header name then
    match last (header_values name h) with
    | Some v => [v]
    | None => header_values name acc
    end
  else header_values name acc.
Proof.
  revert acc. induction h as [|[k v] h IH]; intros acc.
  { simpl. by destruct (is_forward_header name). }
  cbn [foldl header_values]. rewrite IH. unfold copy_header. cbn [fst snd].
  destruct (is_forward_header k) eqn:Hk; rewrite ?header_values_insert;
    destruct (String.eqb_spec k name) as [<-|Hne]; rewrite ?Hk; try done.
  rewrite last_cons. by destruct (last (header_values k h)).
Qed.

(** The client gets the upstream's status, body and headers, without the
    hop-by-hop, length and credential headers; a header the upstream repeats
    reaches the client once, with its last value. *)
Theorem client_headers_policy proxy_resp :
  let received name := header_values name (rsp_headers (build_axum_response proxy_resp)) in
  let withheld := ["transfer-encoding"; "connection"; "keep-alive"; "content-length"; "host";
                   "authorization"; "x-api-key"] in
  rsp_status (build_axum_response proxy_resp) = res_status proxy_resp /\
  rsp_body (build_axum_response proxy_resp) = res_body proxy_resp /\
  Forall (fun name => received name = []) withheld /\
  forall name, received name = option_list (last (header_values name (res_headers proxy_resp)))
    \/ to_lowercase name ∈ withheld.
Proof.
  intros received withheld.
  assert (Hv : forall name, received name =
    if is_forward_header name
    then option_list (last (header_values name (res_headers proxy_resp))) else []).
  { intros name. unfold received, build_axum_response. cbn [rsp_headers].
    rewrite copy_headers_values. destruct (is_forward_header name); [|done].
    by destruct (last _). }
  split_and!; [done..| |].
  - repeat constructor; by rewrite Hv.
  - intros name. rewrite Hv. destruct (is_forward_header name) eqn:Hf; [by left|right].
    apply negb_false_iff, existsb_elem in Hf as (x & Hx & ->%String.eqb_eq). done.
Qed.

(** ** Usage of an event stream *)

(** The data of a line: what follows [data:] and at most one space, white
    space at the end of the line aside. *)
Definition sse_data (line : string) : option string :=
  match strip_prefix "data:" (trim_end line) with
  | Some rest => Some (if starts_with_space rest then drop_str 1 rest else rest)
  | None => None
  end.

Lemma strip_prefix_app p r : strip_prefix p (p +:+ r) = Some r.
Proof. by apply strip_prefix_Some. Qed.

Lemma starts_with_space_Some s :
  starts_with_space s = true -> s = (" " +:+ drop_str 1 s).
Proof.
  destruct s as [|a s]; [done|]. intros Ha%Ascii.eqb_eq. rewrite Ha.
  rewrite str_app_cons, str_app_nil_l. by destruct s.
Qed.

(** A line's data is the same with and without the space after the colon. *)
Lemma normalize_line_data line : strip_prefix "data: " (normalize_line line) = sse_data line.
Proof.
  unfold normalize_line, sse_data. destruct (strip_prefix "data:" (trim_end line)) as [rest|] eqn:Hd.
  - destruct (starts_with_space rest) eqn:Hs; [|apply strip_prefix_app].
    apply strip_prefix_Some in Hd. rewrite Hd, (starts_with_space_Some _ Hs) at 1.
    apply (strip_prefix_app "data: ").
  - assert (Hline : strip_prefix "data: " (trim_end line) = None).
    { destruct (strip_prefix "data: " (trim_end line)) as [r|] eqn:E; [|done].
      apply strip_prefix_Some in E. change ("data: " +:+ r) with ("data:" +:+ (" " +:+ r)) in E.
      by rewrite E, strip_prefix_app in Hd. }
    destruct (strip_prefix "event:" (trim_end line)) as [rest|]; [|done].
    by destruct (starts_with_space rest).
Qed.

Lemma strip_cr_prefixed p q line rest :
  strip_cr q = q -> trim_end line = (p +:+ rest) -> strip_cr (q +:+ rest) = (q +:+ rest).
Proof.
  intros Hq Hl. destruct rest as [|a r]; [by rewrite str_app_nil_r|].
  rewrite strip_cr_app by done. f_equal.
  pose proof (strip_cr_trim_end line) as Hc. rewrite Hl, strip_cr_app in Hc by done.
  by apply str_app_inj in Hc.
Qed.

Lemma normalize_line_clean line : no_newline line = true -> clean_line (normalize_line line).
Proof.
  intros Hn%no_newline_trim_end. pose proof (strip_cr_trim_end line) as Hc.
  assert (Hp : forall p q rest, no_newline q = true -> strip_cr q = q ->
    strip_prefix p (trim_end line) = Some rest -> clean_line (q +:+ rest)).
  { intros p q rest Hq Hcr Hs%strip_prefix_Some. split.
    - rewrite no_newline_app, Hq. simpl. rewrite Hs, no_newline_app in Hn.
      by apply andb_true_iff in Hn as [_ ?].
    - by eapply strip_cr_prefixed. }
  unfold normalize_line. destruct (strip_prefix "data:" _) eqn:Hd.
  - destruct (starts_with_space _); [done|]. by eapply Hp.
  - destruct (strip_prefix "event:" _) eqn:He; [|done].
    destruct (starts_with_space _); [done|]. by eapply Hp.
Qed.

(** The lines of the normalised text are the normalised lines, up to an empty
    last one. *)
Lemma lines_normalize text :
  lines (normalize_sse_format text) = drop_last_empty (normalize_line <$> lines text).
Proof.
  apply lines_join. apply Forall_fmap. eapply Forall_impl; [apply lines_no_newline|].
  apply normalize_line_clean.
Qed.

Section SseFacts.
Context `{SerdeJson}.

(** The usage objects a line announces, in order. *)
Definition line_usages (line : string) : list Value :=
  match sse_data line with
  | None => []
  | Some data =>
      if str_is_empty data || String.eqb data "[DONE]" then []
      else match from_slice data with Ok event => event_usages event | _ => [] end
  end.

Definition stream_usages (text : string) : list Value := lines text ≫= line_usages.

(** What the stream says about one counter, in order. *)
Definition reported (k : string) (us : list Value) : list Value :=
  omap (fun u => get k u) us.

(** Its value in the end: the last positive number, else the first value. *)
Definition settled (vs : list Value) : option Value :=
  match last (List.filter is_nonzero_number vs) with
  | Some v => Some v
  | None => head vs
  end.

Lemma merge_line_usages acc line :
  merge_line acc (normalize_line line) = foldl merge_usage_fields acc (line_usages line).
Proof.
  unfold merge_line, line_usages. rewrite normalize_line_data.
  destruct (sse_data line) as [data|]; [|done].
  destruct (str_is_empty data || String.eqb data "[DONE]"); [done|]. by destruct (from_slice data).
Qed.

Lemma merge_lines_drop_last acc ls :
  foldl merge_line acc (drop_last_empty ls) = foldl merge_line acc ls.
Proof.
  revert acc. induction ls as [|x ls IH]; intros acc; [done|].
  destruct x as [|a x], ls as [|y ls]; try done; apply IH.
Qed.

Lemma merge_lines_usages acc ls :
  foldl merge_line acc (normalize_line <$> ls) =
  foldl merge_usage_fields acc (ls ≫= line_usages).
Proof.
  revert acc. induction ls as [|x ls IH]; intros acc; [done|].
  csimpl. rewrite foldl_app, IH. f_equal. apply merge_line_usages.
Qed.

Lemma merge_field_ne k acc kv : kv.1 <> k -> merge_field acc kv !! k = acc !! k.
Proof.
  intros Hne. unfold merge_field. destruct (_ || _); [|done]. by apply lookup_insert_ne.
Qed.

Lemma merge_field_list_lookup k l acc :
  NoDup l.*1 ->
  foldl merge_field acc l !! k =
  match (list_to_map l : gmap string Value) !! k with
  | Some v => if is_nonzero_number v || bool_decide (acc !! k = None) then Some v else acc !! k
  | None => acc !! k
  end.
Proof.
  revert acc. induction l as [|[k' v] l IH]; intros acc Hnd; [done|].
  csimpl in *. apply NoDup_cons in Hnd as [Hk Hnd]. rewrite IH by done.
  destruct (decide (k' = k)) as [->|Hne].
  - rewrite lookup_insert_eq. rewrite not_elem_of_list_to_map_1 by done.
    unfold merge_field. cbn [fst snd]. destruct (_ || _); [apply lookup_insert_eq|done].
  - rewrite lookup_insert_ne by done. by rewrite merge_field_ne.
Qed.

Lemma merge_usage_lookup k acc u :
  merge_usage_fields acc u !! k =
  match get k u with
  | Some v => if is_nonzero_number v || bool_decide (acc !! k = None) then Some v else acc !! k
  | None => acc !! k
  end.
Proof.
  unfold merge_usage_fields, get. destruct (as_object u) as [m|]; [|done]. simpl.
  rewrite merge_field_list_lookup by apply NoDup_fst_map_to_list.
  by rewrite list_to_map_to_list.
Qed.

Lemma settled_snoc vs v :
  settled (vs ++ [v]) =
  if is_nonzero_number v || bool_decide (settled vs = None) then Some v else settled vs.
Proof.
  unfold settled. rewrite List.filter_app. simpl. destruct (is_nonzero_number v); simpl.
  - by rewrite last_snoc.
  - rewrite app_nil_r. destruct (last (List.filter is_nonzero_number vs)); [done|].
    by destruct vs.
Qed.

Lemma merged_settled k us :
  foldl merge_usage_fields ∅ us !! k = settled (reported k us).
Proof.
  induction us as [|u us IH] using rev_ind; [apply lookup_empty|].
  rewrite foldl_snoc, merge_usage_lookup, IH. unfold reported. rewrite omap_app. csimpl.
  destruct (get k u) as [v|]; [by rewrite settled_snoc|]. by rewrite app_nil_r.
Qed.

Lemma settled_None vs : settled vs = None <-> vs = [].
Proof.
  unfold settled. split; [|by intros ->].
  destruct (last _); [done|]. by destruct vs.
Qed.

(** C16: The usage handed to the cost recorder for a streamed response: for every
    counter the last positive number that a usage object of the stream gives,
    or its first value when none is positive, whether or not the provider
    writes a space after [data:].  It is [null] exactly when no event of the
    stream has a counter, and for a body that is not UTF-8. *)
Theorem sse_usage_settled `{!SerdeJsonLaws _} body :
  match from_utf8 body with
  | None => extract_usage_from_sse body = VNull
  | Some text =>
      let us := stream_usages text in
      (extract_usage_from_sse body = VNull <-> forall k, reported k us = []) /\
      (extract_usage_from_sse body <> VNull ->
       exists usage, get "usage" (extract_usage_from_sse body) = Some usage /\
         forall k, get k usage = settled (reported k us))
  end.
Proof.
  unfold extract_usage_from_sse. destruct (from_utf8 body) as [text|]; [|done]. cbv zeta.
  rewrite lines_normalize, merge_lines_drop_last, merge_lines_usages. fold (stream_usages text).
  set (us := stream_usages text). case_bool_decide as Hempty.
  - split; [|done]. split; [|done]. intros _ k. apply settled_None.
    by rewrite <-merged_settled, Hempty, lookup_empty.
  - split.
    + split.
      * intros Hnull. apply (f_equal (get "usage")) in Hnull.
        by rewrite get_VObject, get_VNull, lookup_singleton_eq in Hnull.
      * intros Hno. destruct Hempty. apply map_eq. intros k.
        by rewrite merged_settled, Hno, lookup_empty.
    + intros _. eexists. rewrite get_VObject, lookup_singleton_eq. split; [done|].
      intros k. rewrite get_VObject. apply merged_settled.
Qed.
End SseFacts.

(** ** The engine *)

Section EngineFacts.
Context `{SerdeJson} {W : Type}.
Context (json_into_response : Value -> HttpResponse).
Context (fmt_f64 : nat -> f64 -> string).
Context (parse_report : string -> option ProxyReport).
Context (parse_header : string -> option TokenlessHeader).

Local Abbreviation handler st env req s :=
  (handle_proxy_request json_into_response fmt_f64 parse_report parse_header st env req s).

(** What a request must have for the hooks to see it. *)
Definition acceptable (max : Z) (req : HttpRequest) (body : bytes) (f : ApiFormat) : Prop :=
  detect_api_format (rq_path req) = Some f /\
  (forall v len, header_str "content-length" (rq_headers req) = Some v ->
     parse_uint u64_max v = Some len -> len <= max) /\
  rq_body req = Ok body /\ 0 < str_len body <= max /\
  (forall ct, header_str "content-type" (rq_headers req) = Some ct ->
     starts_with "application/json" ct = true).

Lemma content_length_exceeds_false max h :
  content_length_exceeds max h = false <->
  (forall v len, header_str "content-length" h = Some v ->
     parse_uint u64_max v = Some len -> len <= max).
Proof.
  unfold content_length_exceeds. destruct (header_str "content-length" h) as [v|]; simpl.
  - destruct (parse_uint u64_max v) as [len|] eqn:Hp; simpl.
    + rewrite Z.ltb_ge. split; [|eauto]. intros Hle v' len' [= <-] Hv'. congruence.
    + split; [|done]. intros _ v' len' [= <-]. congruence.
  - done.
Qed.

Lemma str_is_empty_len s : str_is_empty s = false <-> 0 < str_len s.
Proof. destruct s; unfold str_len; simpl; split; lia || done. Qed.

Lemma to_bytes_Ok max body b :
  to_bytes max body = Ok b <-> body = Ok b /\ str_len b <= max.
Proof.
  unfold to_bytes. destruct body as [b'| |]; cbn [mbind res_bind];
    [|by split; [|intros []]..].
  destruct (Z.ltb_spec max (str_len b')); split; [done|intros [[= <-] ?]; lia|..].
  - by intros [= <-].
  - by intros [[= <-] _].
Qed.

Lemma validate_Ok r :
  validate_proxy_request r = Ok () <->
  0 < str_len (req_body r) /\
  (forall ct, header_str "content-type" (req_headers r) = Some ct ->
     starts_with "application/json" ct = true).
Proof.
  unfold validate_proxy_request. rewrite <-str_is_empty_len.
  destruct (header_str "content-type" (req_headers r)) as [ct|].
  - destruct (starts_with _ ct) eqn:Hct.
    + destruct (str_is_empty (req_body r)); split; try done; [by intros []|].
      intros _. split; [done|]. by intros ct' [= <-].
    + split; [done|]. intros [_ Hall]. specialize (Hall ct eq_refl). congruence.
  - destruct (str_is_empty (req_body r)); split; try done. by intros [].
Qed.

Lemma validate_Err r e : validate_proxy_request r = Err e -> exists m, e = BadRequest m.
Proof.
  unfold validate_proxy_request. intros Hv.
  repeat case_match; simplify_eq; eauto.
Qed.

Lemma check_request_headers (st : ProxyState (W := W)) req p f :
  check_request json_into_response fmt_f64 st req = Ok (p, f) -> req_headers p = rq_headers req.
Proof.
  unfold check_request. intros Hc. repeat case_match; try done.
  by apply res_bind_Ok in Hc as ([] & _ & [= <- _]).
Qed.

(** C35: The checks in front of the hooks let exactly the requests pass, unchanged,
    that have an API path, a declared and a real length within the limit, a body
    that is not empty, and a JSON content type or none.  A rejection has status
    404, 413 or 400.  The code makes no other check here: model names, numbers of
    messages, header sizes and whether the body is JSON, which
    specs/0008-security.md lists too, do not matter. *)
Theorem request_admission (st : ProxyState (W := W)) req :
  let max := max_body_size (ps_config st) in
  match check_request json_into_response fmt_f64 st req with
  | Ok (p, f) =>
      acceptable max req (req_body p) f /\ req_method p = rq_method req /\
      req_path p = rq_path req /\ req_headers p = rq_headers req
  | Err r =>
      (forall body f, ~ acceptable max req body f) /\
      (rsp_status r = 404 \/ rsp_status r = 413 \/ rsp_status r = 400)
  | Panic => rq_body req = Panic
  end.
Proof.
  intros max. unfold check_request, acceptable. fold max.
  destruct (detect_api_format (rq_path req)) as [f|]; [|split; [by intros ?? []|by left]].
  destruct (content_length_exceeds max (rq_headers req)) eqn:Hcl.
  { split; [|by right; left]. intros body f' (_ & Hlen%content_length_exceeds_false & _).
    congruence. }
  rewrite content_length_exceeds_false in Hcl.
  destruct (to_bytes max (rq_body req)) as [b|e|] eqn:Hb.
  - apply to_bytes_Ok in Hb as [Hb Hle]. destruct (validate_proxy_request _) as [[]|e|] eqn:Hv.
    + apply validate_Ok in Hv as [? ?]. cbn in *. by split_and!.
    + cbn. split.
      * intros body f' (_ & _ & Hbody & [Hpos _] & Hct).
        assert (b = body) as -> by congruence.
        match type of Hv with validate_proxy_request ?r = _ =>
          pose proof (proj2 (validate_Ok r) (conj Hpos Hct)) end. congruence.
      * apply validate_Err in Hv as [m ->]. by right; right.
    + cbn. unfold validate_proxy_request in Hv. by repeat case_match.
  - split; [|by right; left]. intros body f' (_ & _ & Hbody & [_ Hle] & _).
    pose proof (proj2 (to_bytes_Ok max (rq_body req) body) (conj Hbody Hle)). congruence.
  - unfold to_bytes in Hb. destruct (rq_body req); cbn [mbind res_bind] in Hb; [|done..].
    by destruct (_ <? _).
Qed.

(** *** What is sent upstream

    The same engine, whose world also logs the requests the client sends. *)

Definition lift {A} (m : M W A) : M (W * list UpstreamRequest) A := fun wl =>
  let '(w, r) := m wl.1 in ((w, wl.2), r).

Definition logged_middleware (mw : ProxyMiddleware W)
    : ProxyMiddleware (W * list UpstreamRequest) := {|
  mw_name := mw_name mw;
  on_request clk rc := lift (on_request mw clk rc);
  on_response clk ctx res := lift (on_response mw clk ctx res);
  on_init := lift (on_init mw)
|}.

Definition logged (st : ProxyState (W := W)) : ProxyState (W := W * list UpstreamRequest) := {|
  ps_config := ps_config st;
  ps_middlewares := logged_middleware <$> ps_middlewares st;
  ps_client u wl := let '(w, r) := ps_client st u wl.1 in ((w, wl.2 ++ [u]), r);
  ps_cost_recorder := (fun cr clk ctx v => lift (cr clk ctx v)) <$> ps_cost_recorder st
|}.

Definition with_log (l : list UpstreamRequest) (s : Shared (W := W))
    : Shared (W := W * list UpstreamRequest) :=
  {| next_request_id := next_request_id s; sh_cursors := sh_cursors s;
     sh_world := (sh_world s, l) |}.

(** The request and context the hooks are given. *)
Definition hook_input (env : Surroundings) (req : HttpRequest) (s : Shared (W := W))
    (p : ProxyRequest) (f : ApiFormat) : ProxyRequest * ConnectionContext :=
  (p, inject_stats parse_header env
        (correlate parse_report env (req_headers p) (sh_cursors s)
           (initial_context env req f s)).2).

(** What the handler changes of the shared state before any hook runs: the
    counter of requests moves on, and the savings report of the request's
    session has been read up to its last line. *)
Definition read_cursors (env : Surroundings) (headers : HeaderMap) (cursors : Cursors) : Cursors :=
  match find_header (fun k => String.eqb (to_lowercase k) "x-claude-code-session-id") headers with
  | Some sid => (consume_report parse_report (report_files env) sid cursors).1
  | None => cursors
  end.

Definition taken_in (env : Surroundings) (headers : HeaderMap) (s : Shared (W := W))
    : Shared (W := W) :=
  {| next_request_id := wrap_u64 (next_request_id s + 1);
     sh_cursors := read_cursors env headers (sh_cursors s); sh_world := sh_world s |}.

Lemma correlate_cursors env headers cursors ctx :
  (correlate parse_report env headers cursors ctx).1 = read_cursors env headers cursors.
Proof.
  unfold correlate, read_cursors. destruct (find_header _ headers) as [sid|]; [|done].
  by destruct (consume_report _ _ _ _).
Qed.

(** The one request upstream: that of the request the hooks leave to the
    channel they select. *)
Definition sent (st : ProxyState (W := W)) env req s : list UpstreamRequest :=
  match check_request json_into_response fmt_f64 st req with
  | Ok (p, f) =>
      match (run_on_request_chain (ps_middlewares st) (clock_request env)
               (hook_input env req s p f) (sh_world s)).2 with
      | Ok (p', ctx') => option_list (build_upstream_request p' <$> ctx_channel ctx')
      | _ => []
      end
  | _ => []
  end.

Lemma lift_bind {A B} (m : M W A) (f : A -> M W B) wl :
  st_bind (lift m) (fun a => lift (f a)) wl = lift (st_bind m f) wl.
Proof. unfold st_bind, lift. by destruct (m wl.1) as [w [a|e|]]. Qed.

Lemma logged_request_chain mws clk rc wl :
  run_on_request_chain (logged_middleware <$> mws) clk rc wl =
  lift (run_on_request_chain mws clk rc) wl.
Proof.
  revert rc wl. induction mws as [|mw mws IH]; intros rc [w l]; [done|]. csimpl.
  rewrite <-lift_bind. unfold st_bind. simpl. destruct (lift _ _) as [w' [a|e|]]; [apply IH|done..].
Qed.

Lemma logged_response_chain mws clk ctx res wl :
  run_on_response_chain (logged_middleware <$> mws) clk ctx res wl =
  lift (run_on_response_chain mws clk ctx res) wl.
Proof.
  unfold run_on_response_chain. rewrite <-map_rev. change (map ?f ?l) with (f <$> l).
  generalize (rev mws). clear mws. intros mws.
  revert res wl. induction mws as [|mw mws IH]; intros res [w l]; [done|]. csimpl.
  rewrite <-lift_bind. unfold st_bind. simpl. destruct (lift _ _) as [w' [a|e|]]; [apply IH|done..].
Qed.

Local Abbreviation non_streaming := (handle_non_streaming_response json_into_response fmt_f64).
Local Abbreviation streaming := (handle_streaming_response json_into_response fmt_f64).

Lemma logged_non_streaming st clk ctx u wl :
  non_streaming (logged st) clk ctx u wl =
  let '(w, r) := non_streaming st clk ctx u wl.1 in ((w, wl.2), r).
Proof.
  destruct wl as [w l]. unfold handle_non_streaming_response.
  destruct (ur_body u) as [b| |]; [|done..]. cbn [ps_middlewares ps_cost_recorder logged].
  rewrite logged_response_chain. unfold lift. cbn [fst snd].
  destruct (run_on_response_chain _ _ _ _ _) as [w1 [res|e|]]; [|done..].
  destruct (ps_cost_recorder st) as [cr|]; [|done]. csimpl.
  destruct (from_slice (res_body res)) as [v| |]; [|done..]. cbn [fst snd].
  by destruct (cr clk ctx v w1) as [w2 [|e|]].
Qed.

Lemma logged_streaming st clk ctx u wl :
  streaming (logged st) clk ctx u wl =
  let '(w, r) := streaming st clk ctx u wl.1 in ((w, wl.2), r).
Proof.
  destruct wl as [w l]. unfold handle_streaming_response.
  destruct (ur_body u) as [b| |]; [|done..]. cbn [ps_middlewares ps_cost_recorder logged].
  rewrite logged_response_chain. unfold lift. cbn [fst snd].
  destruct (run_on_response_chain _ _ _ _ _) as [w1 [res|e|]]; [|done..].
  destruct (ps_cost_recorder st) as [cr|]; [|done]. csimpl. cbn [fst snd].
  by destruct (cr clk ctx _ w1) as [w2 [|e|]].
Qed.

Lemma logged_respond st env p ctx wl :
  respond json_into_response fmt_f64 (logged st) env (p, ctx) wl =
  let '(w, r) := respond json_into_response fmt_f64 st env (p, ctx) wl.1 in
  ((w, wl.2 ++ option_list (build_upstream_request p <$> ctx_channel ctx)), r).
Proof.
  destruct wl as [w l]. unfold respond, forward_to_upstream.
  destruct (ctx_channel ctx) as [ch|]; simpl; [|by rewrite app_nil_r].
  destruct (ps_client st _ w) as [w1 [u|e|]]; simpl; [|done..].
  destruct (is_streaming p).
  - rewrite logged_streaming. cbn [fst snd].
    by destruct (streaming st (clock_response env) ctx u w1).
  - rewrite logged_non_streaming. cbn [fst snd].
    by destruct (non_streaming st (clock_response env) ctx u w1).
Qed.


(** *** Cost recording does not affect responses *)

Definition without_recorder (st : ProxyState (W := W)) : ProxyState (W := W) :=
  {| ps_config := ps_config st; ps_middlewares := ps_middlewares st;
     ps_client := ps_client st; ps_cost_recorder := None |}.

Definition recorder_returns (st : ProxyState (W := W)) : Prop :=
  forall cr clk ctx v w, ps_cost_recorder st = Some cr -> (cr clk ctx v w).2 <> Panic.

Lemma non_streaming_without_recorder st clk ctx u w :
  recorder_returns st ->
  (non_streaming st clk ctx u w).2 = (non_streaming (without_recorder st) clk ctx u w).2.
Proof.
  intros Hcr. unfold handle_non_streaming_response. destruct (ur_body u); [|done..].
  cbn [ps_middlewares without_recorder].
  destruct (run_on_response_chain _ _ _ _ _) as [w1 [res|e|]]; [|done..].
  cbn [ps_cost_recorder]. destruct (ps_cost_recorder st) as [cr|] eqn:E; [|done].
  destruct (from_slice _) as [v| |]; [|done..]. specialize (Hcr cr clk ctx v w1 E).
  by destruct (cr clk ctx v w1) as [w2 []].
Qed.

Lemma streaming_without_recorder st clk ctx u w :
  recorder_returns st ->
  (streaming st clk ctx u w).2 = (streaming (without_recorder st) clk ctx u w).2.
Proof.
  intros Hcr. unfold handle_streaming_response. destruct (ur_body u); [|done..].
  cbn [ps_middlewares without_recorder].
  destruct (run_on_response_chain _ _ _ _ _) as [w1 [res|e|]]; [|done..].
  cbn [ps_cost_recorder]. destruct (ps_cost_recorder st) as [cr|] eqn:E; [|done].
  specialize (Hcr cr clk ctx (extract_usage_from_sse (res_body res)) w1 E).
  by destruct (cr clk ctx _ w1) as [w2 []].
Qed.

(** A cost recorder that returns, with success or with an error, never
    changes what the client receives. *)
Theorem cost_recording_transparent st env req s :
  recorder_returns st ->
  (handler st env req s).2 = (handler (without_recorder st) env req s).2.
Proof.
  intros Hcr. unfold handle_proxy_request.
  change (check_request json_into_response fmt_f64 (without_recorder st) req)
    with (check_request json_into_response fmt_f64 st req).
  destruct (check_request _ _ _ _) as [[p f]|r|]; [|done..].
  destruct (correlate _ _ _ _ _) as [cs ctx]. cbn [ps_middlewares without_recorder].
  destruct (run_on_request_chain _ _ _ _) as [w1 [[p' ctx']|e|]]; [|done..].
  assert (Hr : (respond json_into_response fmt_f64 st env (p', ctx') w1).2 =
    (respond json_into_response fmt_f64 (without_recorder st) env (p', ctx') w1).2).
  { unfold respond, forward_to_upstream. destruct (ctx_channel ctx') as [ch|]; [|done].
    cbn [ps_client without_recorder]. destruct (ps_client st _ w1) as [w2 [u|e|]]; [|done..].
    cbn [map_err]. destruct (is_streaming p');
      [by apply streaming_without_recorder|by apply non_streaming_without_recorder]. }
  by destruct (respond _ _ _ _ _ _), (respond _ _ _ _ _ _).
Qed.

(** *** Handlers that return *)

(** The upstream client returns, and so does the read of a body it answers. *)
Definition client_returns (st : ProxyState (W := W)) : Prop :=
  forall q w, match (ps_client st q w).2 with
              | Ok u => ur_body u <> Panic | Err _ => True | Panic => False end.

Lemma respond_total st env rc w :
  (forall mw, mw ∈ ps_middlewares st -> forall clk ctx res w, (on_response mw clk ctx res w).2 <> Panic) ->
  (forall b, from_slice b <> Panic) -> recorder_returns st -> client_returns st ->
  (respond json_into_response fmt_f64 st env rc w).2 <> None.
Proof.
  intros Hres Hp Hcr Hcl. unfold respond. destruct rc as [q ctx].
  destruct (ctx_channel ctx) as [ch|]; [|done]. unfold forward_to_upstream.
  pose proof (Hcl (build_upstream_request q ch) w) as Hc.
  destruct (ps_client st _ w) as [w1 [u|e|]]; simpl in *; [|done..].
  unfold handle_streaming_response, handle_non_streaming_response.
  destruct (ur_body u) as [b|e|]; [|by destruct (is_streaming q)|done].
  destruct (is_streaming q); cbv zeta;
    match goal with |- context [run_on_response_chain ?m ?c ?x ?r w1] =>
      pose proof (response_chain_total m c x r w1
        (fun mw Hin res v => Hres mw Hin c x res v)) as Hrc;
      destruct (run_on_response_chain m c x r w1) as [w2 [res|e|]] end; simpl in *; try done;
    (destruct (ps_cost_recorder st) as [cr|] eqn:Ecr; [|done]).
  - specialize (Hcr cr (clock_response env) ctx (extract_usage_from_sse (res_body res)) w2 Ecr).
    by destruct (cr _ _ _ w2) as [w3 []].
  - destruct (from_slice (res_body res)) as [v| |]; [|done..].
    specialize (Hcr cr (clock_response env) ctx v w2 Ecr).
    by destruct (cr _ _ _ w2) as [w3 []].
Qed.

Lemma check_request_total (st : ProxyState (W := W)) req :
  rq_body req <> Panic -> check_request json_into_response fmt_f64 st req <> Panic.
Proof.
  intros Hb. unfold check_request, to_bytes. destruct (detect_api_format _); [|done].
  destruct (content_length_exceeds _ _); [done|].
  destruct (rq_body req) as [b|e|]; simpl; [|done..]. destruct (_ <? _); [done|].
  apply res_bind_total; [apply map_err_total|done]. unfold validate_proxy_request.
  repeat case_match; done.
Qed.

(** *** The router *)

Context (status_response : StatusCode -> HttpResponse).
Context (body_limit : Z -> HttpRequest -> Res HttpResponse HttpRequest).

Local Abbreviation serve st env req s :=
  (build_router json_into_response fmt_f64 parse_report parse_header
     status_response body_limit st env req s).

(** C36: Only an authenticated [POST] to one of the three API endpoints, with the
    role of its key, reaches the handler: everything else leaves counters,
    cursors, middlewares, upstream and cost records untouched. *)
Theorem router_gate (st : ProxyState (W := W)) env req s :
  (serve st env req s).1 <> s ->
  exists req' r,
    body_limit (max_body_size (ps_config st)) req = Ok req' /\
    authenticated (ps_config st) (rq_headers req') r /\
    rq_method req' = "POST" /\
    rq_path req' ∈ ["/v1/messages"; "/v1/chat/completions"; "/v1/responses"] /\
    serve st env req s = handler st env (with_opt_role r req') s.
Proof.
  unfold build_router. destruct (body_limit _ req) as [req'|r|]; [|done..].
  intros Hne. exists req'.
  destruct (auth_middleware_outcome (ps_config st) req'
    (fun q => dispatch json_into_response fmt_f64 parse_report parse_header
                status_response st env q s)) as [(r & Hr & Heq)|Heq];
    rewrite Heq in *; [|done].
  exists r. unfold dispatch, route in *.
  assert (Hp : rq_path (with_opt_role r req') = rq_path req') by by destruct r.
  assert (Hm : rq_method (with_opt_role r req') = rq_method req') by by destruct r.
  rewrite Hp, Hm in *. destruct (existsb _ _) eqn:Hex.
  - destruct (String.eqb_spec (rq_method req') "POST") as [Hpost|]; [|done].
    split_and!; try done. apply existsb_exists in Hex as (x & Hx & ->%String.eqb_eq).
    by apply list_elem_of_In.
  - destruct (String.eqb _ _); [|done]. by destruct (_ || _).
Qed.
End EngineFacts.

(** ** Examples *)

Module SampleStream.
Definition start_event : Model.jv :=
  Model.JObj [("type", Model.JStr "message_start");
              ("message", Model.JObj [("usage",
                 Model.JObj [("input_tokens", Model.JInt 12); ("output_tokens", Model.JInt 1)])])].
Definition delta_event : Model.jv :=
  Model.JObj [("type", Model.JStr "message_delta");
              ("usage", Model.JObj [("input_tokens", Model.JInt 0);
                                    ("output_tokens", Model.JInt 3)])].
Definition body : bytes :=
  ("event: message_start" +:+ nl +:+ "data:" +:+ Model.print start_event +:+ nl +:+
   "data: " +:+ Model.print delta_event +:+ nl +:+ "data: [DONE]" +:+ nl).
End SampleStream.

Lemma sse_usage_settled_witness :
  let _ := Model.json in
  exists usage, get "usage" (extract_usage_from_sse SampleStream.body) = Some usage /\
    get "input_tokens" usage = Some (VU64 12) /\ get "output_tokens" usage = Some (VU64 3).
Proof.
  intros J.
  pose proof (@sse_usage_settled Model.json Model.json_laws SampleStream.body) as Hs.
  assert (Hu : from_utf8 SampleStream.body = Some SampleStream.body)
    by (vm_compute; reflexivity).
  rewrite Hu in Hs. cbv zeta in Hs. destruct Hs as [Hnull Hs].
  assert (Hi : settled (reported "input_tokens" (stream_usages SampleStream.body)) =
    Some (Model.JInt 12)) by (vm_compute; reflexivity).
  assert (Ho : settled (reported "output_tokens" (stream_usages SampleStream.body)) =
    Some (Model.JInt 3)) by (vm_compute; reflexivity).
  destruct Hs as (usage & Hget & Hs).
  - intros Hn. discriminate (eq_trans (eq_sym (f_equal settled (proj1 Hnull Hn "input_tokens"))) Hi).
  - exists usage. split; [exact Hget|]. split; [exact (eq_trans (Hs "input_tokens") Hi)|].
    exact (eq_trans (Hs "output_tokens") Ho).
Defined.

(** A server whose hooks select one channel, whose upstream answers with an
    empty object, and whose recorder counts what it is given and fails. *)
Module SampleServer.
Section Sample.
#[local] Existing Instance Model.json.

Definition channel : ChannelConfig :=
  {| cc_url := "https://api.example/"; cc_api_key := "sk-up"; cc_protocol := AnthropicMessages;
     cc_name := "main"; cc_rewrite_path := None |}.

Definition select : ProxyMiddleware nat := {|
  mw_name := "select";
  on_request _ rc := st_ret (rc.1, ctx_insert EXT_SELECTED_CHANNEL (ExtChannel channel) rc.2);
  on_response _ _ res := st_ret res;
  on_init := default_on_init
|}.

Definition server : ProxyState (W := nat) := {|
  ps_config :=
    {| listen := "127.0.0.1:1"; max_body_size := 4096; upstream_read_timeout := 1;
       upstream_connect_timeout := 1; proxy_api_key := Some "secret"; proxy_token := None;
       proxy_auth_keys := ∅ |};
  ps_middlewares := [select];
  ps_client _ n := (n, Ok {| ur_status := 200; ur_headers := [("x-id", "7")];
                             ur_body := Ok (Model.print (Model.JObj [])) |});
  ps_cost_recorder := Some (fun _ _ _ n => (S n, Err (Internal "disk full")))
|}.

Definition shared : Shared (W := nat) :=
  {| next_request_id := 1; sh_cursors := ∅; sh_world := O |}.

Definition env : Surroundings :=
  {| clock_request := {| now := 0; utc_year := 2025; utc_month := 1 |};
     clock_response := {| now := 0; utc_year := 2025; utc_month := 1 |};
     report_files _ := None; tokenless_env := None |}.

Definition request : HttpRequest :=
  {| rq_method := "POST"; rq_path := "/v1/messages";
     rq_headers := [("authorization", "Bearer secret")];
     rq_body := Ok (Model.print (Model.JObj [])); rq_role := None |}.

Definition json_into (v : Model.jv) : HttpResponse :=
  {| rsp_status := 200; rsp_headers := [("content-type", "application/json")];
     rsp_body := Model.print v |}.

Definition status_only (s : StatusCode) : HttpResponse :=
  {| rsp_status := s; rsp_headers := []; rsp_body := EmptyString |}.

Definition handled : Shared (W := nat) * option HttpResponse :=
  handle_proxy_request json_into (fun _ _ => EmptyString) (fun _ => None) (fun _ => None)
    server env request shared.
End Sample.
End SampleServer.

Lemma cost_recording_transparent_witness :
  let _ := Model.json in
  sh_world SampleServer.handled.1 = 1%nat /\
  SampleServer.handled.2 =
    Some {| rsp_status := 200; rsp_headers := [("x-id", "7")];
            rsp_body := Model.print (Model.JObj []) |}.
Proof.
  intros J. split; [vm_compute; reflexivity|].
  unfold SampleServer.handled.
  rewrite (@cost_recording_transparent Model.json nat SampleServer.json_into
    (fun _ _ => EmptyString) (fun _ => None) (fun _ => None) SampleServer.server
    SampleServer.env SampleServer.request SampleServer.shared).
  - vm_compute. reflexivity.
  - intros cr clk ctx v w Hcr. injection Hcr as <-. discriminate.
Defined.

Lemma router_gate_witness :
  let _ := Model.json in
  authenticated (ps_config SampleServer.server) (rq_headers SampleServer.request) None.
Proof.
  intros J.
  pose proof (@router_gate Model.json nat SampleServer.json_into (fun _ _ => EmptyString)
    (fun _ => None) (fun _ => None) SampleServer.status_only (fun _ q => Ok q)
    SampleServer.server SampleServer.env SampleServer.request SampleServer.shared) as Hg.
  destruct Hg as (req' & r & Hreq & Hauth & _).
  - intros Hs. apply (f_equal next_request_id) in Hs. revert Hs. vm_compute. discriminate.
  - injection Hreq as <-. destruct Hauth as [Hs|key entry Hs|k Hs Hk|t Hs]; try discriminate Hs.
    exact (auth_api_key _ _ k Hs Hk).
Defined.
