(* ===== verification/Testing.v ===== *)
(** The sample requests, contexts and channels of [crates/core/src/testing.rs],
    and that they agree with the engine's own checks. *)

From Stdlib Require Import Ascii.
From S2P Require Import Prelude RustStr Float64 Json Http Billing Types Middleware.
From S2P Require Import Report Auth Server.
Local Open Scope Z_scope.

Section Testing.
Context `{SerdeJson}.

(** A JSON text written with single quotes. *)
Fixpoint json_text (s : string) : bytes :=
  match s with
  | EmptyString => EmptyString
  | String a s' => String (if Ascii.eqb a "'"%char then "034"%char else a) (json_text s')
  end.

Definition test_proxy_request_with_body (body : bytes) : ProxyRequest :=
  {| req_method := "POST"; req_path := "/v1/messages"; req_headers := []; req_body := body |}.

Definition test_proxy_request : ProxyRequest :=
  {| req_method := "POST"; req_path := "/v1/messages"; req_headers := [];
     req_body := json_text
       "{'model':'claude-sonnet','max_tokens':1024,'messages':[{'role':'user','content':'hello'}]}" |}.

Definition test_proxy_request_streaming : ProxyRequest :=
  {| req_method := "POST"; req_path := "/v1/messages"; req_headers := [];
     req_body := json_text
       ("{'model':'claude-sonnet','max_tokens':1024,'messages':[{'role':'user','content':'hello'}],"
        +:+ "'stream':true}") |}.

Definition test_connection_context (c : Clock) : ConnectionContext :=
  ConnectionContext_new c 1 Claude None (Some AnthropicMessages).

Definition test_connection_context_with_role (c : Clock) (role : string) : ConnectionContext :=
  ConnectionContext_new c 1 Claude (Some role) (Some AnthropicMessages).

Definition test_channel_config (base_url : string) : ChannelConfig :=
  {| cc_url := base_url; cc_api_key := "sk-test-channel-key"; cc_protocol := AnthropicMessages;
     cc_name := "test-channel"; cc_rewrite_path := None |}.

Definition test_channel_config_openai (base_url : string) : ChannelConfig :=
  {| cc_url := base_url; cc_api_key := "sk-test-openai-key"; cc_protocol := OpenaiChat;
     cc_name := "test-openai-channel"; cc_rewrite_path := None |}.

(** The engine accepts the sample requests and detects the format the sample
    contexts carry. *)
Lemma test_requests_valid c req :
  req ∈ [test_proxy_request; test_proxy_request_streaming] ->
  validate_proxy_request req = Ok tt /\
  detect_api_format (req_path req) = detected_format (test_connection_context c).
Proof. intros [->|[->|[]%elem_of_nil]%elem_of_cons]%elem_of_cons; by vm_compute. Qed.

(** A sample request sent to a sample channel: its address, its key, its body. *)
Lemma test_request_forwarded body :
  let up := build_upstream_request (test_proxy_request_with_body body)
              (test_channel_config "http://localhost:9/") in
  (up_url up, up_headers up, up_body up) =
  ("http://localhost:9/v1/messages", [("authorization", "Bearer sk-test-channel-key")], body).
Proof. reflexivity. Qed.
End Testing.
