(* ===== verification/Sqlite.v ===== *)
(** The SQLite backend: [crates/storage-sqlite/src/lib.rs] with the schema of
    [migrations/001_init.sql] and [002_model_aliases.sql].

    A database is the list of rows of each table in rowid order.  Every SQL
    statement of the source is one table operation below, with the effect its
    text has under the schema's constraints: primary keys, [UNIQUE], foreign
    keys with [ON DELETE CASCADE] (the bundled library enforces them on every
    connection), [AUTOINCREMENT].  One call of the trait is one step. *)

From stdpp Require Import sorting.
From S2P Require Import Prelude RustStr Float64 Storage.
Local Open Scope Z_scope.

(** ** Rows and tables *)

Record ProviderRow := { pr_id : string; pr_name : string; pr_created_at : Z }.

Record ModelRow := {
  mo_id : string;
  mo_provider_id : string;
  mo_client_name : string;
  mo_price_input : f64;
  mo_price_output : f64;
  mo_currency : string;
  mo_context_window : Z;
  mo_created_at : Z
}.

Record Db := {
  t_providers : list ProviderRow;
  t_models : list ModelRow;
  t_channels : list Channel;
  t_mappings : list ModelMapping;
  t_aliases : list ModelAlias;
  alias_seq : Z;                  (* sqlite_sequence of model_aliases *)
  t_costs : list CostRecord;
  t_switch_logs : list SwitchLog;
  t_fees : list SubscriptionFee;
  fee_seq : Z;                    (* sqlite_sequence of subscription_fees *)
  t_metadata : list (string * string);
  user_version : Z
}.

Definition empty_db : Db :=
  {| t_providers := []; t_models := []; t_channels := []; t_mappings := []; t_aliases := [];
     alias_seq := 0; t_costs := []; t_switch_logs := []; t_fees := []; fee_seq := 0;
     t_metadata := []; user_version := 0 |}.

Definition with_channels (l : list Channel) (d : Db) : Db :=
  {| t_providers := t_providers d; t_models := t_models d; t_channels := l;
     t_mappings := t_mappings d; t_aliases := t_aliases d; alias_seq := alias_seq d;
     t_costs := t_costs d; t_switch_logs := t_switch_logs d; t_fees := t_fees d;
     fee_seq := fee_seq d; t_metadata := t_metadata d; user_version := user_version d |}.

Definition with_mappings (l : list ModelMapping) (d : Db) : Db :=
  {| t_providers := t_providers d; t_models := t_models d; t_channels := t_channels d;
     t_mappings := l; t_aliases := t_aliases d; alias_seq := alias_seq d;
     t_costs := t_costs d; t_switch_logs := t_switch_logs d; t_fees := t_fees d;
     fee_seq := fee_seq d; t_metadata := t_metadata d; user_version := user_version d |}.

Definition with_aliases (l : list ModelAlias) (seq : Z) (d : Db) : Db :=
  {| t_providers := t_providers d; t_models := t_models d; t_channels := t_channels d;
     t_mappings := t_mappings d; t_aliases := l; alias_seq := seq;
     t_costs := t_costs d; t_switch_logs := t_switch_logs d; t_fees := t_fees d;
     fee_seq := fee_seq d; t_metadata := t_metadata d; user_version := user_version d |}.

Definition with_costs (l : list CostRecord) (d : Db) : Db :=
  {| t_providers := t_providers d; t_models := t_models d; t_channels := t_channels d;
     t_mappings := t_mappings d; t_aliases := t_aliases d; alias_seq := alias_seq d;
     t_costs := l; t_switch_logs := t_switch_logs d; t_fees := t_fees d;
     fee_seq := fee_seq d; t_metadata := t_metadata d; user_version := user_version d |}.

Definition with_switch_logs (l : list SwitchLog) (d : Db) : Db :=
  {| t_providers := t_providers d; t_models := t_models d; t_channels := t_channels d;
     t_mappings := t_mappings d; t_aliases := t_aliases d; alias_seq := alias_seq d;
     t_costs := t_costs d; t_switch_logs := l; t_fees := t_fees d;
     fee_seq := fee_seq d; t_metadata := t_metadata d; user_version := user_version d |}.

Definition with_fees (l : list SubscriptionFee) (seq : Z) (d : Db) : Db :=
  {| t_providers := t_providers d; t_models := t_models d; t_channels := t_channels d;
     t_mappings := t_mappings d; t_aliases := t_aliases d; alias_seq := alias_seq d;
     t_costs := t_costs d; t_switch_logs := t_switch_logs d; t_fees := l;
     fee_seq := seq; t_metadata := t_metadata d; user_version := user_version d |}.

Definition with_version (v : Z) (d : Db) : Db :=
  {| t_providers := t_providers d; t_models := t_models d; t_channels := t_channels d;
     t_mappings := t_mappings d; t_aliases := t_aliases d; alias_seq := alias_seq d;
     t_costs := t_costs d; t_switch_logs := t_switch_logs d; t_fees := t_fees d;
     fee_seq := fee_seq d; t_metadata := t_metadata d; user_version := v |}.

Definition with_metadata (l : list (string * string)) (d : Db) : Db :=
  {| t_providers := t_providers d; t_models := t_models d; t_channels := t_channels d;
     t_mappings := t_mappings d; t_aliases := t_aliases d; alias_seq := alias_seq d;
     t_costs := t_costs d; t_switch_logs := t_switch_logs d; t_fees := t_fees d;
     fee_seq := fee_seq d; t_metadata := l; user_version := user_version d |}.

(** ** SQL on lists of rows *)

(** [ORDER BY]: a sorted permutation; SQLite leaves the order of equal rows
    open, and no theorem depends on it. *)
Definition order_by {A} (le : A -> A -> bool) (l : list A) : list A :=
  merge_sort (fun x y => Is_true (le x y)) l.

(** [BINARY] collation. *)
Definition text_le (a b : string) : bool := String.leb a b.
Definition text_lt (a b : string) : bool := String.ltb a b.

(** [ORDER BY k1, k2]: the second key among rows equal on the first. *)
Definition then_by {A} (le1 le2 : A -> A -> bool) (x y : A) : bool :=
  le1 x y && (negb (le1 y x) || le2 x y).

(** [UPDATE t SET .. WHERE p]: the rows and how many matched. *)
Definition update_rows {A} (p : A -> bool) (f : A -> A) (l : list A) : list A * nat :=
  ((fun x => if p x then f x else x) <$> l, length (List.filter p l)).

(** [DELETE FROM t WHERE p]. *)
Definition delete_rows {A} (p : A -> bool) (l : list A) : list A * nat :=
  (List.filter (fun x => negb (p x)) l, length (List.filter p l)).

(** [INSERT .. ON CONFLICT(key) DO UPDATE]. *)
Definition upsert_row {A} (same : A -> bool) (new : A) (merge : A -> A) (l : list A) : list A :=
  if existsb same l then (fun x => if same x then merge x else x) <$> l else l ++ [new].

(** [substr(text, 1, n)]: the first [n] characters. *)
Fixpoint substr (n : nat) (s : string) : string :=
  match s with
  | EmptyString => EmptyString
  | String a s' =>
      if is_continuation a then String a (substr n s')
      else match n with
           | O => EmptyString
           | S n' => String a (substr n' s')
           end
  end.

(** Errors of a statement, by kind; their text is SQLite's. *)
Inductive SqlError := ForeignKeyFailed | UniqueFailed | NotNullFailed | OutOfRange
                    | IntegerOverflow | NoRows.

(** What a call finds around it: whether the pool has a connection (else why
    not), the time in the forms the code asks for, and library functions:
    chrono's text of a time, [SUM] of reals, the sequence number after an
    insert that hit a conflict, the row a bare column of an aggregate is taken
    from, and the text of an error. *)
Record Env := {
  pool_error : option string;
  now_unix : Z;
  now_rfc3339 : string;
  datetime_now : string;
  minutes_from_now : Z -> string;
  days_before_now : Z -> option string;
  rfc3339 : Z -> string;
  sum_real : list f64 -> f64;
  seq_after_conflict : Z -> Z;
  bare_row : list CostRecord -> option CostRecord;
  sql_message : SqlError -> string
}.

Section Backend.
Context (env : Env).

Definition backend {A} (e : SqlError) : Res StorageError A := Err (Backend (sql_message env e)).

(** [pool.get().map_err(Connection)?] in front of a query or a statement. *)
Definition reading {A} (k : Db -> Res StorageError A) (d : Db) : Res StorageError A :=
  match pool_error env with Some e => Err (Connection e) | None => k d end.

Definition writing {A} (k : Db -> Db * Res StorageError A) (d : Db)
    : Db * Res StorageError A :=
  match pool_error env with Some e => (d, Err (Connection e)) | None => k d end.

(** [row.get::<_, u32>]. *)
Definition get_u32 (z : Z) : Res StorageError Z :=
  if (0 <=? z) && (z <=? u32_max) then Ok z else backend OutOfRange.

(** [if rows == 0 { return Err(NotFound) }]. *)
Definition affected (rows : nat) (what : string) : Res StorageError unit :=
  match rows with O => Err (NotFound what) | S _ => Ok tt end.

(** *** Providers and models *)

Definition provider_of (r : ProviderRow) : Provider :=
  {| pv_id := pr_id r; pv_name := pr_name r; pv_created_at := rfc3339 env (pr_created_at r) |}.

Definition list_providers : Db -> Res StorageError (list Provider) := reading (fun d =>
  Ok (provider_of <$> order_by (fun a b => text_le (pr_id a) (pr_id b)) (t_providers d))).

Definition get_provider (id : string) : Db -> Res StorageError (option Provider) :=
  reading (fun d =>
    Ok (provider_of <$> List.find (fun r => String.eqb (pr_id r) id) (t_providers d))).

Definition model_of (d : Db) (r : ModelRow) : Res StorageError Storage.Model :=
  let count := Z.of_nat (length
    (List.filter (fun m => String.eqb (mm_client_name m) (mo_client_name r)) (t_mappings d))) in
  channel_count ← get_u32 count;
  Ok {| md_id := mo_id r; md_provider_id := mo_provider_id r;
        md_client_name := mo_client_name r; md_price_input := mo_price_input r;
        md_price_output := mo_price_output r; md_currency := mo_currency r;
        md_context_window := mo_context_window r;
        md_created_at := rfc3339 env (mo_created_at r); md_channel_count := channel_count |}.

Fixpoint map_res {A B} (f : A -> Res StorageError B) (l : list A)
    : Res StorageError (list B) :=
  match l with
  | [] => Ok []
  | x :: l' => y ← f x; ys ← map_res f l'; Ok (y :: ys)
  end.

Definition by_client_name (a b : ModelRow) : bool :=
  text_le (mo_client_name a) (mo_client_name b).
Definition by_provider (a b : ModelRow) : bool :=
  text_le (mo_provider_id a) (mo_provider_id b).

Definition list_models (provider_id : option string)
    : Db -> Res StorageError (list Storage.Model) := reading (fun d =>
  map_res (model_of d)
    match provider_id with
    | Some pid => order_by by_client_name
        (List.filter (fun r => String.eqb (mo_provider_id r) pid) (t_models d))
    | None => order_by (then_by by_provider by_client_name) (t_models d)
    end).

Definition get_model (id : string) : Db -> Res StorageError (option Storage.Model) :=
  reading (fun d =>
    match List.find (fun r => String.eqb (mo_id r) id) (t_models d) with
    | Some r => m ← model_of d r; Ok (Some m)
    | None => Ok None
    end).

(** *** Channels *)

(** Channels without API key are always [Unavailable]. *)
Definition row_to_channel (r : Channel) : Res StorageError Channel :=
  consecutive_failures ← get_u32 (ch_consecutive_failures r);
  Ok {| ch_id := ch_id r; ch_name := ch_name r; ch_api_key := ch_api_key r;
        ch_protocol := ch_protocol r; ch_protocols := ch_protocols r;
        ch_is_builtin := ch_is_builtin r; ch_enabled := ch_enabled r;
        ch_created_at := ch_created_at r; ch_updated_at := ch_updated_at r;
        ch_health_status := if str_is_empty (ch_api_key r) then health_as_str HsUnavailable
                            else ch_health_status r;
        ch_cooldown_until := ch_cooldown_until r;
        ch_consecutive_failures := consecutive_failures;
        ch_billing_type := ch_billing_type r; ch_monthly_quota := ch_monthly_quota r;
        ch_quota_policy := ch_quota_policy r; ch_priority := ch_priority r;
        ch_force_protocol := ch_force_protocol r |}.

Definition ch_by_id (a b : Channel) : bool := text_le (ch_id a) (ch_id b).
Definition ch_by_priority (a b : Channel) : bool := ch_priority a <=? ch_priority b.
Definition has_id (id : string) (c : Channel) : bool := String.eqb (ch_id c) id.

Definition list_channels (model_id : option string)
    : Db -> Res StorageError (list Channel) := reading (fun d =>
  map_res row_to_channel
    match model_id with
    | Some mid => order_by ch_by_id
        (List.filter (fun c => existsb (fun m => String.eqb (mm_channel_id m) (ch_id c)
                                                 && String.eqb (mm_client_name m) mid)
                                 (t_mappings d)) (t_channels d))
    | None => order_by (then_by ch_by_priority ch_by_id) (t_channels d)
    end).

Definition get_channel (id : string) : Db -> Res StorageError (option Channel) :=
  reading (fun d =>
    match List.find (has_id id) (t_channels d) with
    | Some r => c ← row_to_channel r; Ok (Some c)
    | None => Ok None
    end).

Definition fits_i64 (q : option Z) : bool := from_option (fun q => q <=? i64_max) true q.

Definition inserted_channel (c : Channel) : Channel :=
  {| ch_id := ch_id c; ch_name := ch_name c; ch_api_key := ch_api_key c;
     ch_protocol := ch_protocol c; ch_protocols := ch_protocols c;
     ch_is_builtin := ch_is_builtin c; ch_enabled := ch_enabled c;
     ch_created_at := now_unix env; ch_updated_at := now_unix env;
     ch_health_status := ch_health_status c; ch_cooldown_until := None;
     ch_consecutive_failures := 0; ch_billing_type := ch_billing_type c;
     ch_monthly_quota := ch_monthly_quota c; ch_quota_policy := ch_quota_policy c;
     ch_priority := ch_priority c; ch_force_protocol := ch_force_protocol c |}.

(** [DO UPDATE SET]: an empty key keeps the stored one. *)
Definition merged_channel (c old : Channel) : Channel :=
  {| ch_id := ch_id old; ch_name := ch_name c;
     ch_api_key := if str_is_empty (ch_api_key c) then ch_api_key old else ch_api_key c;
     ch_protocol := ch_protocol c; ch_protocols := ch_protocols c;
     ch_is_builtin := ch_is_builtin c; ch_enabled := ch_enabled c;
     ch_created_at := ch_created_at old; ch_updated_at := now_unix env;
     ch_health_status := ch_health_status c; ch_cooldown_until := ch_cooldown_until old;
     ch_consecutive_failures := ch_consecutive_failures old;
     ch_billing_type := ch_billing_type c; ch_monthly_quota := ch_monthly_quota c;
     ch_quota_policy := ch_quota_policy c; ch_priority := ch_priority c;
     ch_force_protocol := ch_force_protocol c |}.

Definition upsert_channel (c : Channel) : Db -> Db * Res StorageError unit := writing (fun d =>
  if fits_i64 (ch_monthly_quota c) then
    (with_channels (upsert_row (has_id (ch_id c)) (inserted_channel c) (merged_channel c)
                      (t_channels d)) d, Ok tt)
  else (d, backend OutOfRange)).

(** [UPDATE channels SET .. WHERE id = ?], with the [NotFound] check. *)
Definition update_channel_row (id : string) (f : Channel -> Channel)
    : Db -> Db * Res StorageError unit := writing (fun d =>
  let '(rows, n) := update_rows (has_id id) f (t_channels d) in
  (with_channels rows d, affected n ("channel not found: " +:+ id))).

Definition enable_channel (enabled : bool) (c : Channel) : Channel :=
  {| ch_id := ch_id c; ch_name := ch_name c; ch_api_key := ch_api_key c;
     ch_protocol := ch_protocol c; ch_protocols := ch_protocols c;
     ch_is_builtin := ch_is_builtin c; ch_enabled := enabled;
     ch_created_at := ch_created_at c; ch_updated_at := now_unix env;
     ch_health_status := ch_health_status c; ch_cooldown_until := ch_cooldown_until c;
     ch_consecutive_failures := ch_consecutive_failures c;
     ch_billing_type := ch_billing_type c; ch_monthly_quota := ch_monthly_quota c;
     ch_quota_policy := ch_quota_policy c; ch_priority := ch_priority c;
     ch_force_protocol := ch_force_protocol c |}.

Definition set_channel_enabled (id : string) (enabled : bool)
    : Db -> Db * Res StorageError unit :=
  update_channel_row id (enable_channel enabled).

Definition rekey_channel (key : string) (c : Channel) : Channel :=
  {| ch_id := ch_id c; ch_name := ch_name c; ch_api_key := key;
     ch_protocol := ch_protocol c; ch_protocols := ch_protocols c;
     ch_is_builtin := ch_is_builtin c; ch_enabled := ch_enabled c;
     ch_created_at := ch_created_at c; ch_updated_at := now_unix env;
     ch_health_status := ch_health_status c; ch_cooldown_until := ch_cooldown_until c;
     ch_consecutive_failures := ch_consecutive_failures c;
     ch_billing_type := ch_billing_type c; ch_monthly_quota := ch_monthly_quota c;
     ch_quota_policy := ch_quota_policy c; ch_priority := ch_priority c;
     ch_force_protocol := ch_force_protocol c |}.

Definition set_channel_api_key (id key : string) : Db -> Db * Res StorageError unit :=
  update_channel_row id (rekey_channel key).

Definition patch_channel (name : option string) (enabled : option bool) (priority : option Z)
    (monthly_quota : option Z) (quota_policy protocols force_protocol : option string)
    (c : Channel) : Channel :=
  {| ch_id := ch_id c; ch_name := default (ch_name c) name; ch_api_key := ch_api_key c;
     ch_protocol := ch_protocol c; ch_protocols := default (ch_protocols c) protocols;
     ch_is_builtin := ch_is_builtin c; ch_enabled := default (ch_enabled c) enabled;
     ch_created_at := ch_created_at c; ch_updated_at := now_unix env;
     ch_health_status := ch_health_status c; ch_cooldown_until := ch_cooldown_until c;
     ch_consecutive_failures := ch_consecutive_failures c;
     ch_billing_type := ch_billing_type c;
     ch_monthly_quota := match monthly_quota with
                         | Some q => Some (Z.min q i64_max)
                         | None => ch_monthly_quota c
                         end;
     ch_quota_policy := default (ch_quota_policy c) quota_policy;
     ch_priority := default (ch_priority c) priority;
     ch_force_protocol := match force_protocol with
                          | Some fp => Some fp
                          | None => ch_force_protocol c
                          end |}.

Definition update_channel (id : string) (name : option string) (enabled : option bool)
    (priority monthly_quota : option Z) (quota_policy protocols force_protocol : option string)
    : Db -> Db * Res StorageError Channel := writing (fun d =>
  let '(rows, n) := update_rows (has_id id)
    (patch_channel name enabled priority monthly_quota quota_policy protocols force_protocol)
    (t_channels d) in
  let d' := with_channels rows d in
  (d', _ ← affected n ("channel not found: " +:+ id);
       match List.find (has_id id) rows with
       | Some r => row_to_channel r
       | None => backend NoRows
       end)).

(** The mappings of the channel go with it. *)
Definition delete_channel (id : string) : Db -> Db * Res StorageError unit := writing (fun d =>
  let '(rows, n) := delete_rows (has_id id) (t_channels d) in
  let mappings := (delete_rows (fun m => String.eqb (mm_channel_id m) id
                                         && bool_decide (n <> O)) (t_mappings d)).1 in
  (with_mappings mappings (with_channels rows d), affected n ("channel not found: " +:+ id))).

Definition heal_channel (status : ChannelHealthStatus) (cooldown : option string)
    (failures updated : Z) (c : Channel) : Channel :=
  {| ch_id := ch_id c; ch_name := ch_name c; ch_api_key := ch_api_key c;
     ch_protocol := ch_protocol c; ch_protocols := ch_protocols c;
     ch_is_builtin := ch_is_builtin c; ch_enabled := ch_enabled c;
     ch_created_at := ch_created_at c; ch_updated_at := updated;
     ch_health_status := health_as_str status; ch_cooldown_until := cooldown;
     ch_consecutive_failures := failures;
     ch_billing_type := ch_billing_type c; ch_monthly_quota := ch_monthly_quota c;
     ch_quota_policy := ch_quota_policy c; ch_priority := ch_priority c;
     ch_force_protocol := ch_force_protocol c |}.

Definition mark_channel_healthy (id : string) : Db -> Db * Res StorageError unit :=
  update_channel_row id (heal_channel HsHealthy None 0 (now_unix env)).

Definition count_failure (c : Channel) : Channel :=
  {| ch_id := ch_id c; ch_name := ch_name c; ch_api_key := ch_api_key c;
     ch_protocol := ch_protocol c; ch_protocols := ch_protocols c;
     ch_is_builtin := ch_is_builtin c; ch_enabled := ch_enabled c;
     ch_created_at := ch_created_at c; ch_updated_at := now_unix env;
     ch_health_status := ch_health_status c; ch_cooldown_until := ch_cooldown_until c;
     ch_consecutive_failures := ch_consecutive_failures c + 1;
     ch_billing_type := ch_billing_type c; ch_monthly_quota := ch_monthly_quota c;
     ch_quota_policy := ch_quota_policy c; ch_priority := ch_priority c;
     ch_force_protocol := ch_force_protocol c |}.

Definition status_of_failures (failures : Z) : ChannelHealthStatus :=
  if 3 <=? failures then HsCooldown
  else if 1 <=? failures then HsDegraded else HsHealthy.

Definition cooldown_of_status (status : ChannelHealthStatus) : option string :=
  match status with HsCooldown => Some (minutes_from_now env 5) | _ => None end.

(** Three statements: count, read back (as an [i32]), write the status. *)
Definition record_channel_failure (id : string) : Db -> Db * Res StorageError unit :=
  writing (fun d =>
    let rows := (update_rows (has_id id) count_failure (t_channels d)).1 in
    let d' := with_channels rows d in
    match List.find (has_id id) rows with
    | None => (d', backend NoRows)
    | Some c =>
        let failures := ch_consecutive_failures c in
        if (- 2 ^ 31 <=? failures) && (failures <? 2 ^ 31) then
          let status := status_of_failures failures in
          let set c := heal_channel status (cooldown_of_status status)
                         (ch_consecutive_failures c) (ch_updated_at c) c in
          (with_channels (update_rows (has_id id) set rows).1 d', Ok tt)
        else (d', backend OutOfRange)
    end).

(** *** Model mappings *)

Definition has_mapping_id (id : string) (m : ModelMapping) : bool := String.eqb (mm_id m) id.
Definition by_mapping_id (a b : ModelMapping) : bool := text_le (mm_id a) (mm_id b).
Definition by_mapping_channel (a b : ModelMapping) : bool :=
  text_le (mm_channel_id a) (mm_channel_id b).
Definition by_mapping_client (a b : ModelMapping) : bool :=
  text_le (mm_client_name a) (mm_client_name b).

Definition row_to_mapping (m : ModelMapping) : Res StorageError ModelMapping :=
  _ ← get_u32 (mm_weight m); Ok m.

Definition list_mappings (channel_id : string) : Db -> Res StorageError (list ModelMapping) :=
  reading (fun d => map_res row_to_mapping (order_by by_mapping_id
    (List.filter (fun m => String.eqb (mm_channel_id m) channel_id) (t_mappings d)))).

Definition list_all_mappings : Db -> Res StorageError (list ModelMapping) :=
  reading (fun d => map_res row_to_mapping
    (order_by (then_by by_mapping_channel by_mapping_client) (t_mappings d))).

Definition upsert_mapping (m : ModelMapping) : Db -> Db * Res StorageError unit :=
  writing (fun d =>
    if existsb (has_id (mm_channel_id m)) (t_channels d)
    then (with_mappings (upsert_row (has_mapping_id (mm_id m)) m (fun _ => m) (t_mappings d)) d,
          Ok tt)
    else (d, let msg := sql_message env ForeignKeyFailed in
             Err (if str_contains "FOREIGN KEY" msg
                  then NotFound ("channel not found: " +:+ mm_channel_id m)
                  else Storage.Backend msg))).

Definition enable_mapping (enabled : bool) (m : ModelMapping) : ModelMapping :=
  {| mm_id := mm_id m; mm_channel_id := mm_channel_id m; mm_client_name := mm_client_name m;
     mm_upstream_name := mm_upstream_name m; mm_billing := mm_billing m;
     mm_pricing_json := mm_pricing_json m; mm_weight := mm_weight m; mm_enabled := enabled;
     mm_protocols := mm_protocols m |}.

Definition set_mapping_enabled (id : string) (enabled : bool)
    : Db -> Db * Res StorageError unit := writing (fun d =>
  let '(rows, n) := update_rows (has_mapping_id id) (enable_mapping enabled) (t_mappings d) in
  (with_mappings rows d, affected n ("mapping not found: " +:+ id))).

Definition delete_mapping (id : string) : Db -> Db * Res StorageError unit := writing (fun d =>
  let '(rows, n) := delete_rows (has_mapping_id id) (t_mappings d) in
  (with_mappings rows d, affected n ("mapping not found: " +:+ id))).

(** *** Model aliases *)

Definition named_alias (name : string) (a : ModelAlias) : bool :=
  String.eqb (ma_alias_name a) name.
Definition has_alias_id (id : Z) (a : ModelAlias) : bool := ma_id a =? id.

Definition list_model_aliases : Db -> Res StorageError (list ModelAlias) := reading (fun d =>
  Ok (order_by (fun a b => text_le (ma_alias_name a) (ma_alias_name b)) (t_aliases d))).

Definition get_model_alias_target (name : string) : Db -> Res StorageError (option string) :=
  reading (fun d =>
    Ok (ma_target_model <$> List.find (fun a => named_alias name a && ma_enabled a)
                              (t_aliases d))).

Definition new_alias (id : Z) (name target : string) (enabled : bool) : ModelAlias :=
  {| ma_id := id; ma_alias_name := name; ma_target_model := target; ma_enabled := enabled;
     ma_created_at := datetime_now env; ma_updated_at := datetime_now env |}.

Definition retarget_alias (target : string) (enabled : bool) (a : ModelAlias) : ModelAlias :=
  {| ma_id := ma_id a; ma_alias_name := ma_alias_name a; ma_target_model := target;
     ma_enabled := enabled; ma_created_at := ma_created_at a;
     ma_updated_at := datetime_now env |}.

(** The sequence number after an insert of this name. *)
Definition next_seq (name : string) (d : Db) : Z :=
  if existsb (named_alias name) (t_aliases d) then seq_after_conflict env (alias_seq d)
  else alias_seq d + 1.

Definition upsert_model_alias (r : ModelAliasRequest)
    : Db -> Db * Res StorageError ModelAlias := writing (fun d =>
  let name := mr_alias_name r in
  let rows := upsert_row (named_alias name)
    (new_alias (alias_seq d + 1) name (mr_target_model r) (mr_enabled r))
    (retarget_alias (mr_target_model r) (mr_enabled r)) (t_aliases d) in
  (with_aliases rows (next_seq name d) d,
   match List.find (named_alias name) rows with
   | Some a => Ok a
   | None => backend NoRows
   end)).

Definition delete_model_alias (id : Z) : Db -> Db * Res StorageError unit := writing (fun d =>
  let '(rows, n) := delete_rows (has_alias_id id) (t_aliases d) in
  (with_aliases rows (alias_seq d) d, affected n ("alias not found: " +:+ int_to_string id))).

Definition set_model_alias_enabled (id : Z) (enabled : bool)
    : Db -> Db * Res StorageError unit := writing (fun d =>
  let '(rows, n) := update_rows (has_alias_id id)
    (fun a => retarget_alias (ma_target_model a) enabled a) (t_aliases d) in
  (with_aliases rows (alias_seq d) d, affected n ("alias not found: " +:+ int_to_string id))).

(** *** Cost records *)

(** A NaN is stored as [NULL], which the column refuses. *)
Definition insert_cost_record (r : CostRecord) : Db -> Db * Res StorageError unit :=
  writing (fun d =>
    if is_nan (cr_cost r) then (d, backend NotNullFailed)
    else if existsb (fun x => String.eqb (cr_id x) (cr_id r)) (t_costs d)
    then (d, backend UniqueFailed)
    else (with_costs (t_costs d ++ [r]) d, Ok tt)).

Definition in_range (start_ end_ : string) (r : CostRecord) : bool :=
  text_le start_ (cr_timestamp r) && text_lt (cr_timestamp r) end_.

Definition opt_eq (o : option string) (x : string) : bool :=
  from_option (fun y => String.eqb x y) true o.

Definition cost_matches (f : CostFilter) (r : CostRecord) : bool :=
  opt_eq (cf_project_path f) (cr_project r)
  && opt_eq (cf_model_name f) (cr_upstream_model r)
  && opt_eq (cf_channel_name f) (cr_channel_id r)
  && from_option (fun tr => in_range (rfc3339 env (tr_start tr)) (rfc3339 env (tr_end tr)) r)
       true (cf_time_range f).

Definition newest_first (a b : CostRecord) : bool := text_le (cr_timestamp b) (cr_timestamp a).

Definition limit_offset {A} (limit offset : Z) (l : list A) : list A :=
  take (Z.to_nat limit) (drop (Z.to_nat offset) l).

Definition query_cost_records (f : CostFilter) : Db -> Res StorageError (list CostRecord) :=
  reading (fun d =>
    Ok (limit_offset (Z.min (default 100 (cf_limit f)) 1000) (default 0 (cf_offset f))
          (order_by newest_first (List.filter (cost_matches f) (t_costs d))))).

(** [SUM] of integers fails when an addition leaves 64 bits. *)
Fixpoint sum_i64 (acc : Z) (l : list Z) : Res StorageError Z :=
  match l with
  | [] => Ok acc
  | x :: l' =>
      if (- 2 ^ 63 <=? acc + x) && (acc + x <=? i64_max) then sum_i64 (acc + x) l'
      else backend IntegerOverflow
  end.

Definition bar : string := "|".

(** [group_key_expr], on the row a bare column is taken from. *)
Definition group_key_expr (g : CostGroupBy) (r : CostRecord) : string :=
  match g with
  | GbProject => cr_project r
  | GbModel | GbChannel => cr_channel_id r
  | GbProjectModelMonth =>
      cr_project r +:+ bar +:+ cr_upstream_model r +:+ bar +:+ substr 7 (cr_timestamp r)
  | GbProjectModelHour =>
      cr_project r +:+ bar +:+ cr_upstream_model r +:+ bar +:+ substr 13 (cr_timestamp r)
  | GbHourly => substr 13 (cr_timestamp r)
  | GbDaily => substr 10 (cr_timestamp r)
  end.

Definition group_clause (g : CostGroupBy) (r : CostRecord) : list string :=
  match g with
  | GbProject => [cr_project r]
  | GbModel | GbChannel => [cr_channel_id r]
  | GbProjectModelMonth | GbProjectModelHour => [cr_project r; cr_upstream_model r]
  | GbHourly => [substr 13 (cr_timestamp r)]
  | GbDaily => [substr 10 (cr_timestamp r)]
  end.

Definition aggregate_group (g : CostGroupBy) (rows : list CostRecord)
    : Res StorageError CostAggregate :=
  input ← sum_i64 0 (cr_input_tokens <$> rows);
  output ← sum_i64 0 (cr_output_tokens <$> rows);
  saved ← sum_i64 0 (cr_compression_tokens_saved <$> rows);
  Ok {| ca_group_key := from_option (group_key_expr g) EmptyString (bare_row env rows);
        ca_total_input_tokens := input; ca_total_output_tokens := output;
        ca_total_actual_cost := sum_real env (cr_cost <$> rows);
        ca_total_compression_tokens_saved := saved;
        ca_request_count := Z.of_nat (length rows) |}.

Definition groups (g : CostGroupBy) (rows : list CostRecord) : list (list CostRecord) :=
  (fun k => List.filter (fun r => bool_decide (group_clause g r = k)) rows)
    <$> remove_dups (group_clause g <$> rows).

Definition aggregated_rows (range : TimeRange) (d : Db) : list CostRecord :=
  List.filter (fun r =>
    in_range (rfc3339 env (tr_start range)) (rfc3339 env (tr_end range)) r
    && opt_eq (tr_project range) (cr_project r)) (t_costs d).

Definition costliest_first (a b : CostAggregate) : bool :=
  f64_le (ca_total_actual_cost b) (ca_total_actual_cost a).

Definition aggregate_costs (g : CostGroupBy) (range : TimeRange)
    : Db -> Res StorageError (list CostAggregate) := reading (fun d =>
  order_by costliest_first <$> map_res (aggregate_group g) (groups g (aggregated_rows range d))).

Definition prune_cost_records (older_than_days : Z) : Db -> Db * Res StorageError Z :=
  writing (fun d =>
    let cutoff := default (now_rfc3339 env) (days_before_now env older_than_days) in
    let '(rows, n) := delete_rows (fun r => text_lt (cr_timestamp r) cutoff) (t_costs d) in
    (with_costs rows d, Ok (Z.of_nat n))).

Definition list_projects : Db -> Res StorageError (list string) := reading (fun d =>
  Ok (order_by text_le (remove_dups (cr_project <$> t_costs d)))).

(** *** Switch logs and subscription fees *)

Definition insert_switch_log (l : SwitchLog) : Db -> Db * Res StorageError unit :=
  writing (fun d =>
    if existsb (fun x => String.eqb (sl_id x) (sl_id l)) (t_switch_logs d)
    then (d, backend UniqueFailed)
    else (with_switch_logs (t_switch_logs d ++ [l]) d, Ok tt)).

Definition query_switch_logs (limit : option Z) : Db -> Res StorageError (list SwitchLog) :=
  reading (fun d =>
    Ok (limit_offset (Z.min (default 20 limit) 100) 0
          (order_by (fun a b => text_le (sl_created_at b) (sl_created_at a))
             (t_switch_logs d)))).

Definition insert_subscription_fee (f : SubscriptionFee) : Db -> Db * Res StorageError unit :=
  writing (fun d =>
    if is_nan (sf_monthly_price f) then (d, backend NotNullFailed)
    else
      let id := fee_seq d + 1 in
      let row := {| sf_id := id; sf_channel_name := sf_channel_name f; sf_month := sf_month f;
                    sf_monthly_price := sf_monthly_price f; sf_currency := sf_currency f |} in
      (with_fees (t_fees d ++ [row]) id d, Ok tt)).

Definition fee_order (a b : SubscriptionFee) : bool :=
  then_by (fun a b => text_le (sf_month b) (sf_month a))
    (fun a b => text_le (sf_channel_name a) (sf_channel_name b)) a b.

Definition query_subscription_fees (channel month : option string)
    : Db -> Res StorageError (list SubscriptionFee) := reading (fun d =>
  Ok (order_by fee_order
        (List.filter (fun f => opt_eq channel (sf_channel_name f) && opt_eq month (sf_month f))
           (t_fees d)))).

(** *** Channels with their models, for direct connections *)

Definition available_models (id : string) (d : Db) : list AvailableModelInfo :=
  (fun m => {| am_mapping_id := mm_id m; am_client_name := mm_client_name m;
               am_upstream_name := mm_upstream_name m |})
    <$> order_by by_mapping_client
          (List.filter (fun m => String.eqb (mm_channel_id m) id && mm_enabled m)
             (t_mappings d)).

Definition available_channel (d : Db) (c : Channel) : list AvailableChannelInfo :=
  match available_models (ch_id c) d with
  | [] => []
  | models =>
      [{| ac_channel_id := ch_id c; ac_channel_name := ch_name c; ac_protocol := ch_protocol c;
          ac_protocols := ch_protocols c; ac_health_status := ch_health_status c;
          ac_enabled := true; ac_models := models |}]
  end.

Definition list_available_channels : Db -> Res StorageError (list AvailableChannelInfo) :=
  reading (fun d =>
    Ok (flat_map (available_channel d)
          (order_by (then_by ch_by_priority ch_by_id)
             (List.filter ch_enabled (t_channels d))))).

(** *** Migration *)

Definition seeded_aliases : list string :=
  ["gpt-5.5"; "gpt-5.4"; "gpt-5.4-mini"; "gpt-5.3-codex"; "gpt-5.2"].

(** [INSERT OR IGNORE INTO model_aliases (alias_name, target_model)]. *)
Definition seed_alias (d : Db) (name : string) : Db :=
  let rows := if existsb (named_alias name) (t_aliases d) then t_aliases d
              else t_aliases d ++ [new_alias (alias_seq d + 1) name EmptyString true] in
  with_aliases rows (next_seq name d) d.

(** [INSERT OR IGNORE INTO seed_metadata]. *)
Definition add_metadata (d : Db) (kv : string * string) : Db :=
  if existsb (fun x => String.eqb x.1 kv.1) (t_metadata d) then d
  else with_metadata (t_metadata d ++ [kv]) d.

Definition migration_v1 (d : Db) : Db :=
  foldl add_metadata d [("version", "0"); ("source", "pending")].

Definition migration_v2 (d : Db) : Db := foldl seed_alias d seeded_aliases.

Definition migrate : Db -> Db * Res StorageError unit := writing (fun d =>
  let d := if user_version d <? 1 then migration_v1 d else d in
  let d := if user_version d <? 2 then migration_v2 d else d in
  (with_version 2 d, Ok tt)).

Definition health_check (d : Db) : Res StorageError bool :=
  match pool_error env with
  | Some _ => Err (Connection "unable to get connection")
  | None => Ok true
  end.
End Backend.

#[global] Instance sqlite_storage (env : Env) : Storage Db := {|
  Storage.list_providers := list_providers env;
  Storage.get_provider := get_provider env;
  Storage.list_models := list_models env;
  Storage.get_model := get_model env;
  Storage.list_channels := list_channels env;
  Storage.get_channel := get_channel env;
  Storage.upsert_channel := upsert_channel env;
  Storage.set_channel_enabled := set_channel_enabled env;
  Storage.set_channel_api_key := set_channel_api_key env;
  Storage.update_channel := update_channel env;
  Storage.delete_channel := delete_channel env;
  Storage.mark_channel_healthy := mark_channel_healthy env;
  Storage.record_channel_failure := record_channel_failure env;
  Storage.list_mappings := list_mappings env;
  Storage.upsert_mapping := upsert_mapping env;
  Storage.set_mapping_enabled := set_mapping_enabled env;
  Storage.delete_mapping := delete_mapping env;
  Storage.list_all_mappings := list_all_mappings env;
  Storage.list_model_aliases := list_model_aliases env;
  Storage.get_model_alias_target := get_model_alias_target env;
  Storage.upsert_model_alias := upsert_model_alias env;
  Storage.delete_model_alias := delete_model_alias env;
  Storage.set_model_alias_enabled := set_model_alias_enabled env;
  Storage.insert_cost_record := insert_cost_record env;
  Storage.query_cost_records := query_cost_records env;
  Storage.aggregate_costs := aggregate_costs env;
  Storage.prune_cost_records := prune_cost_records env;
  Storage.list_projects := list_projects env;
  Storage.insert_switch_log := insert_switch_log env;
  Storage.query_switch_logs := query_switch_logs env;
  Storage.list_available_channels := list_available_channels env;
  Storage.insert_subscription_fee := insert_subscription_fee env;
  Storage.query_subscription_fees := query_subscription_fees env;
  Storage.health_check := health_check env;
  Storage.max_connections _ := 16
|}.

(** ** Every call returns *)

Lemma map_res_total {A B} (f : A -> Res StorageError B) l :
  (forall x, f x <> Panic) -> map_res f l <> Panic.
Proof.
  intros Hf. induction l as [|x l IH]; [done|]. simpl.
  apply res_bind_total; [apply Hf|]. intros y _. by apply res_bind_total.
Qed.

Section Returns.
Context (env : Env).

Lemma reading_total {A} (k : Db -> Res StorageError A) d : k d <> Panic -> reading env k d <> Panic.
Proof. unfold reading. by destruct (pool_error env). Qed.

Lemma writing_total {A} (k : Db -> Db * Res StorageError A) d :
  (k d).2 <> Panic -> (writing env k d).2 <> Panic.
Proof. unfold writing. by destruct (pool_error env). Qed.

Lemma affected_total n what : affected n what <> Panic.
Proof. by destruct n. Qed.

Lemma get_u32_total z : get_u32 env z <> Panic.
Proof. unfold get_u32. by destruct (_ && _). Qed.

Lemma row_to_channel_total r : row_to_channel env r <> Panic.
Proof. apply res_bind_total; [apply get_u32_total|done]. Qed.

Lemma row_to_mapping_total r : row_to_mapping env r <> Panic.
Proof. apply res_bind_total; [apply get_u32_total|done]. Qed.

Lemma model_of_total d r : model_of env d r <> Panic.
Proof. apply res_bind_total; [apply get_u32_total|done]. Qed.

Lemma sum_i64_total acc l : sum_i64 env acc l <> Panic.
Proof. revert acc. induction l as [|x l IH]; intros acc; [done|]. simpl. by destruct (_ && _). Qed.

Lemma aggregate_group_total g rows : aggregate_group env g rows <> Panic.
Proof. do 3 (apply res_bind_total; [apply sum_i64_total|intros ? _]). done. Qed.

#[local] Hint Resolve affected_total get_u32_total row_to_channel_total row_to_mapping_total
  model_of_total aggregate_group_total : total.

#[export] Instance sqlite_returns : StorageReturns (Storage0 := sqlite_storage env) Db.
Proof.
  split; intros; cbn [sqlite_storage Storage.list_providers Storage.get_provider
    Storage.list_models Storage.get_model Storage.list_channels Storage.get_channel
    Storage.set_channel_api_key Storage.update_channel Storage.delete_channel
    Storage.mark_channel_healthy Storage.record_channel_failure Storage.list_mappings
    Storage.upsert_mapping Storage.delete_mapping Storage.list_all_mappings
    Storage.list_model_aliases Storage.upsert_model_alias Storage.delete_model_alias
    Storage.insert_cost_record Storage.query_cost_records Storage.aggregate_costs
    Storage.prune_cost_records Storage.list_projects Storage.query_switch_logs
    Storage.list_available_channels Storage.health_check];
    unfold set_channel_api_key, mark_channel_healthy, health_check;
    try first [apply reading_total | apply writing_total];
    try first [done | apply map_res_total; eauto with total | apply affected_total].
  - destruct (List.find _ _); [|done]. apply res_bind_total; [eauto with total|done].
  - destruct (List.find _ _); [|done]. apply res_bind_total; [eauto with total|done].
  - apply res_bind_total; [apply affected_total|]. intros _ _.
    destruct (List.find _ _); [eauto with total|done].
  - cbv zeta. destruct (List.find _ _); [|done]. by destruct (_ && _).
  - repeat case_match; done.
  - cbv zeta. cbn [snd].
    match goal with |- context [List.find ?p ?l] => by destruct (List.find p l) end.
  - destruct (is_nan _); [done|]. by destruct (existsb _ _).
  - pose proof (map_res_total (aggregate_group env g) (groups g (aggregated_rows env r s))
      (aggregate_group_total g)) as Ht. by destruct (map_res _ _).
  - by destruct (pool_error env).
Qed.
End Returns.

(** ** Facts about the table operations *)

Lemma order_by_perm {A} (le : A -> A -> bool) l : order_by le l ≡ₚ l.
Proof. apply merge_sort_Permutation. Qed.

Lemma elem_of_order_by {A} (le : A -> A -> bool) l x : x ∈ order_by le l <-> x ∈ l.
Proof. by rewrite order_by_perm. Qed.

Lemma order_by_sorted {A} (le : A -> A -> bool) l :
  (forall x y, le x y = true \/ le y x = true) ->
  (forall x y z, le x y = true -> le y z = true -> le x z = true) ->
  StronglySorted (fun x y => le x y = true) (order_by le l).
Proof.
  intros Htot Htrans. unfold order_by.
  assert (Hs : StronglySorted (fun x y => Is_true (le x y))
                 (merge_sort (fun x y => Is_true (le x y)) l)).
  { apply StronglySorted_merge_sort.
    - intros x y z Hx%Is_true_true Hy%Is_true_true. apply Is_true_true. eauto.
    - intros x y. rewrite !Is_true_true. apply Htot. }
  induction Hs as [|x l' Hs IH Hf]; constructor; [done|].
  eapply Forall_impl; [exact Hf|]. intros y. apply Is_true_true.
Qed.

Lemma filter_sublist {A} (p : A -> bool) l : List.filter p l `sublist_of` l.
Proof.
  induction l as [|x l IH]; simpl; [constructor|]. by destruct (p x); constructor.
Qed.

Section Keys.
Context {A K : Type} (key : A -> K).

Lemma filter_keys (p : A -> bool) l : NoDup (key <$> l) -> NoDup (key <$> List.filter p l).
Proof. intros Hn. eapply sublist_NoDup; [exact Hn|]. apply fmap_sublist, filter_sublist. Qed.

Lemma update_keys (p : A -> bool) f l :
  (forall x, key (f x) = key x) -> key <$> (update_rows p f l).1 = key <$> l.
Proof.
  intros Hf. unfold update_rows. simpl. rewrite <-list_fmap_compose.
  apply list_fmap_ext. intros i x _. simpl. by destruct (p x).
Qed.

Lemma map_keys (p : A -> bool) f (l : list A) :
  (forall x, key (f x) = key x) ->
  key <$> ((fun x => if p x then f x else x) <$> l) = key <$> l.
Proof. apply update_keys. Qed.

Lemma upsert_keys same new merge l :
  (forall x, same x = true <-> key x = key new) -> (forall x, key (merge x) = key x) ->
  (key <$> upsert_row same new merge l = key <$> l /\ key new ∈ key <$> l) \/
  (key <$> upsert_row same new merge l = (key <$> l) ++ [key new] /\ key new ∉ key <$> l).
Proof.
  intros Hs Hm. unfold upsert_row. destruct (existsb same l) eqn:He; [left|right].
  - split; [by apply (update_keys same merge)|].
    apply existsb_elem in He as (x & Hx & Hsx%Hs). rewrite <-Hsx. by apply list_elem_of_fmap_2.
  - split; [by rewrite fmap_app|]. intros (x & Hk & Hx)%list_elem_of_fmap.
    assert (existsb same l = true); [|congruence].
    apply existsb_elem. exists x. split; [done|]. by apply Hs.
Qed.

Lemma upsert_NoDup same new merge l :
  (forall x, same x = true <-> key x = key new) -> (forall x, key (merge x) = key x) ->
  NoDup (key <$> l) -> NoDup (key <$> upsert_row same new merge l).
Proof.
  intros Hs Hm Hn. destruct (upsert_keys same new merge l Hs Hm) as [[-> _]|[-> Hnew]]; [done|].
  apply NoDup_app. split_and!; [done| |apply NoDup_singleton].
  intros x Hx ->%list_elem_of_singleton. done.
Qed.

Lemma NoDup_snoc_key x l : NoDup (key <$> l) -> key x ∉ key <$> l -> NoDup (key <$> (l ++ [x])).
Proof.
  intros Hn Hx. rewrite fmap_app. apply NoDup_app. split_and!; [done| |apply NoDup_singleton].
  intros y Hy ->%list_elem_of_singleton. done.
Qed.
End Keys.

Lemma existsb_key {A} (key : A -> string) k l :
  existsb (fun x => String.eqb (key x) k) l = true <-> k ∈ key <$> l.
Proof.
  rewrite existsb_elem, list_elem_of_fmap. split.
  - intros (x & Hx & <-%String.eqb_eq). eauto.
  - intros (x & -> & Hx). exists x. by rewrite String.eqb_refl.
Qed.

(** ** The invariant of the database *)

Record db_wf (d : Db) : Prop := {
  wf_channels : NoDup (ch_id <$> t_channels d);
  wf_mappings : NoDup (mm_id <$> t_mappings d);
  wf_references : Forall (fun m => mm_channel_id m ∈ ch_id <$> t_channels d) (t_mappings d);
  wf_alias_names : NoDup (ma_alias_name <$> t_aliases d);
  wf_alias_ids : NoDup (ma_id <$> t_aliases d);
  wf_alias_seq : Forall (fun a => ma_id a <= alias_seq d) (t_aliases d);
  wf_costs : NoDup (cr_id <$> t_costs d);
  wf_cost_values : Forall (fun r => is_nan (cr_cost r) = false) (t_costs d);
  wf_switch_logs : NoDup (sl_id <$> t_switch_logs d);
  wf_fees : NoDup (sf_id <$> t_fees d);
  wf_fee_seq : Forall (fun f => sf_id f <= fee_seq d) (t_fees d);
  wf_metadata : NoDup (t_metadata d).*1
}.

(** The write operations of the backend. *)
Inductive Op :=
| OpMigrate
| OpUpsertChannel (c : Channel)
| OpSetEnabled (id : string) (b : bool)
| OpSetApiKey (id key : string)
| OpUpdateChannel (id : string) (name : option string) (enabled : option bool)
    (priority quota : option Z) (policy protocols force : option string)
| OpDeleteChannel (id : string)
| OpMarkHealthy (id : string)
| OpRecordFailure (id : string)
| OpUpsertMapping (m : ModelMapping)
| OpSetMappingEnabled (id : string) (b : bool)
| OpDeleteMapping (id : string)
| OpUpsertAlias (r : ModelAliasRequest)
| OpDeleteAlias (id : Z)
| OpSetAliasEnabled (id : Z) (b : bool)
| OpInsertCost (r : CostRecord)
| OpPrune (days : Z)
| OpInsertLog (l : SwitchLog)
| OpInsertFee (f : SubscriptionFee).

Definition run_op (env : Env) (op : Op) (d : Db) : Db :=
  match op with
  | OpMigrate => (migrate env d).1
  | OpUpsertChannel c => (upsert_channel env c d).1
  | OpSetEnabled id b => (set_channel_enabled env id b d).1
  | OpSetApiKey id k => (set_channel_api_key env id k d).1
  | OpUpdateChannel id n e p q po pr f => (update_channel env id n e p q po pr f d).1
  | OpDeleteChannel id => (delete_channel env id d).1
  | OpMarkHealthy id => (mark_channel_healthy env id d).1
  | OpRecordFailure id => (record_channel_failure env id d).1
  | OpUpsertMapping m => (upsert_mapping env m d).1
  | OpSetMappingEnabled id b => (set_mapping_enabled env id b d).1
  | OpDeleteMapping id => (delete_mapping env id d).1
  | OpUpsertAlias r => (upsert_model_alias env r d).1
  | OpDeleteAlias id => (delete_model_alias env id d).1
  | OpSetAliasEnabled id b => (set_model_alias_enabled env id b d).1
  | OpInsertCost r => (insert_cost_record env r d).1
  | OpPrune days => (prune_cost_records env days d).1
  | OpInsertLog l => (insert_switch_log env l d).1
  | OpInsertFee f => (insert_subscription_fee env f d).1
  end.

(** Replacing the channels by rows with the same keys keeps everything. *)
Lemma with_channels_wf l d : db_wf d -> ch_id <$> l = ch_id <$> t_channels d -> db_wf (with_channels l d).
Proof. intros [] Hl. constructor; simpl; rewrite ?Hl; done. Qed.

Lemma writing_wf {A} env (k : Db -> Db * Res StorageError A) d :
  (forall d, db_wf d -> db_wf (k d).1) -> db_wf d -> db_wf (writing env k d).1.
Proof. intros Hk Hd. unfold writing. destruct (pool_error env); [done|auto]. Qed.

Lemma update_channel_row_wf env id f d :
  (forall c, ch_id (f c) = ch_id c) -> db_wf d -> db_wf (update_channel_row env id f d).1.
Proof.
  intros Hf. apply writing_wf. intros d' Hd. simpl.
  apply with_channels_wf; [done|]. by apply (update_keys ch_id (has_id id)).
Qed.

Lemma has_id_spec id c : has_id id c = true <-> ch_id c = id.
Proof. apply String.eqb_eq. Qed.

Lemma upsert_channel_rows_wf new merge d :
  (forall c, ch_id (merge c) = ch_id c) -> db_wf d ->
  db_wf (with_channels (upsert_row (has_id (ch_id new)) new merge (t_channels d)) d).
Proof.
  intros Hm Hd.
  pose proof (upsert_keys ch_id (has_id (ch_id new)) new merge (t_channels d)
    (fun x => has_id_spec _ x) Hm) as Hk.
  pose proof (upsert_NoDup ch_id (has_id (ch_id new)) new merge (t_channels d)
    (fun x => has_id_spec _ x) Hm (wf_channels _ Hd)) as Hnd.
  destruct Hd. constructor; simpl; try done.
  eapply Forall_impl; [exact wf_references0|]. intros m Hin. simpl in Hin.
  destruct Hk as [[-> _]|[-> _]]; [done|]. apply elem_of_app. by left.
Qed.

Lemma upsert_channel_wf env c d : db_wf d -> db_wf (upsert_channel env c d).1.
Proof.
  apply writing_wf. intros d' Hd. destruct (fits_i64 _); [|done].
  by apply (upsert_channel_rows_wf (inserted_channel env c)).
Qed.

Lemma delete_channel_wf env id d : db_wf d -> db_wf (delete_channel env id d).1.
Proof.
  apply writing_wf. intros d' []. constructor; simpl; try done;
    [by apply filter_keys|by apply filter_keys|].
  rewrite Forall_forall in wf_references0 |- *. intros m Hm.
  apply elem_of_filter_bool in Hm as [Hm Hkeep]. specialize (wf_references0 m Hm).
  apply list_elem_of_fmap in wf_references0 as (c & Hc & Hin).
  apply list_elem_of_fmap. exists c. split; [done|]. apply elem_of_filter_bool. split; [done|].
  destruct (has_id id c) eqn:Hid; [|done]. exfalso. apply has_id_spec in Hid.
  rewrite Hc, Hid, String.eqb_refl in Hkeep. simpl in Hkeep.
  destruct (length (List.filter (has_id id) (t_channels d'))) eqn:Hlen; [|done].
  apply length_zero_iff_nil in Hlen.
  assert (Hc' : c ∈ List.filter (has_id id) (t_channels d'))
    by (apply elem_of_filter_bool; split; [done|by apply has_id_spec]).
  rewrite Hlen in Hc'. by apply elem_of_nil in Hc'.
Qed.

Lemma record_failure_wf env id d : db_wf d -> db_wf (record_channel_failure env id d).1.
Proof.
  apply writing_wf. intros d' Hd.
  assert (H1 : db_wf (with_channels (update_rows (has_id id) (count_failure env) (t_channels d')).1 d'))
    by (apply with_channels_wf; [done|]; by apply (update_keys ch_id (has_id id))).
  cbv zeta.
  match goal with |- context [List.find ?p ?l] => destruct (List.find p l) as [c|] end; [|done].
  destruct (_ && _); [|done].
  apply (with_channels_wf _ _ H1). apply (update_keys ch_id (has_id id)). done.
Qed.

Lemma upsert_mapping_rows_wf m d :
  existsb (has_id (mm_channel_id m)) (t_channels d) = true -> db_wf d ->
  db_wf (with_mappings (upsert_row (has_mapping_id (mm_id m)) m (fun _ => m) (t_mappings d)) d).
Proof.
  intros He%existsb_key Hd.
  pose proof (upsert_NoDup mm_id (has_mapping_id (mm_id m)) m
    (fun x => if has_mapping_id (mm_id m) x then m else x) (t_mappings d)) as Hnd.
  assert (Hext : upsert_row (has_mapping_id (mm_id m)) m
      (fun x => if has_mapping_id (mm_id m) x then m else x) (t_mappings d) =
    upsert_row (has_mapping_id (mm_id m)) m (fun _ => m) (t_mappings d)).
  { unfold upsert_row. destruct (existsb _ _); [|done]. apply list_fmap_ext.
    intros i x _. by destruct (has_mapping_id (mm_id m) x). }
  rewrite Hext in Hnd. destruct Hd. constructor; simpl; try done.
  - apply Hnd; [intros x; apply String.eqb_eq| |done]. intros x. unfold has_mapping_id.
    by destruct (String.eqb_spec (mm_id x) (mm_id m)).
  - unfold upsert_row. destruct (existsb (has_mapping_id (mm_id m)) (t_mappings d)).
    + apply Forall_fmap. eapply Forall_impl; [exact wf_references0|]. intros x Hx. simpl.
      by destruct (has_mapping_id _ x).
    + apply Forall_app. split; [done|]. by constructor.
Qed.

Lemma upsert_mapping_wf env m d : db_wf d -> db_wf (upsert_mapping env m d).1.
Proof.
  apply writing_wf. intros d' Hd. destruct (existsb _ _) eqn:He; [|done].
  by apply upsert_mapping_rows_wf.
Qed.

Lemma with_mappings_wf l d :
  db_wf d -> NoDup (mm_id <$> l) ->
  Forall (fun m => mm_channel_id m ∈ ch_id <$> t_channels d) l -> db_wf (with_mappings l d).
Proof. intros [] Hn Hf. by constructor. Qed.

Lemma with_aliases_wf l seq d :
  db_wf d -> NoDup (ma_alias_name <$> l) -> NoDup (ma_id <$> l) ->
  Forall (fun a => ma_id a <= seq) l -> db_wf (with_aliases l seq d).
Proof. intros [] H1 H2 H3. by constructor. Qed.

Lemma named_alias_spec n a : named_alias n a = true <-> ma_alias_name a = n.
Proof. apply String.eqb_eq. Qed.

(** Inserting or retargeting an alias keeps names and ids unique. *)
Lemma alias_rows_wf env name new merge d :
  (forall n, n <= seq_after_conflict env n) ->
  ma_alias_name new = name -> ma_id new = alias_seq d + 1 ->
  (forall a, ma_alias_name (merge a) = ma_alias_name a /\ ma_id (merge a) = ma_id a) ->
  db_wf d ->
  db_wf (with_aliases (upsert_row (named_alias name) new merge (t_aliases d)) (next_seq env name d) d).
Proof.
  intros Hseq Hname Hid Hm Hd. pose proof Hd as [].
  unfold next_seq, upsert_row. destruct (existsb (named_alias name) (t_aliases d)) eqn:He.
  - pose proof (update_keys ma_alias_name (named_alias name) merge (t_aliases d)
      (fun x => proj1 (Hm x))) as H1.
    pose proof (update_keys ma_id (named_alias name) merge (t_aliases d)
      (fun x => proj2 (Hm x))) as H2. simpl in H1, H2.
    apply with_aliases_wf; rewrite ?H1, ?H2; try done.
    apply Forall_fmap. eapply Forall_impl; [exact wf_alias_seq0|]. intros a Ha. simpl in *.
    specialize (Hseq (alias_seq d)). destruct (named_alias name a); [destruct (Hm a) as [_ ->]|]; lia.
  - apply with_aliases_wf; try done.
    + apply NoDup_snoc_key; [done|]. rewrite Hname. intros Hin%existsb_key.
      unfold named_alias in He. congruence.
    + apply NoDup_snoc_key; [done|]. rewrite Hid. intros (a & Ha & Hin)%list_elem_of_fmap.
      rewrite Forall_forall in wf_alias_seq0. specialize (wf_alias_seq0 a Hin). lia.
    + apply Forall_app. split; [|constructor; [lia|done]].
      eapply Forall_impl; [exact wf_alias_seq0|]. intros a Ha. simpl in *. lia.
Qed.

Lemma seed_alias_wf env name d :
  (forall n, n <= seq_after_conflict env n) -> db_wf d -> db_wf (seed_alias env d name).
Proof.
  intros Hseq Hd. pose proof (alias_rows_wf env name
    (new_alias env (alias_seq d + 1) name EmptyString true) id d Hseq eq_refl eq_refl
    (fun a => conj eq_refl eq_refl) Hd) as Hw.
  unfold seed_alias. unfold upsert_row in Hw. destruct (existsb _ _); [|exact Hw].
  erewrite list_fmap_ext, list_fmap_id in Hw; [exact Hw|].
  intros i x _. simpl. by destruct (named_alias name x).
Qed.

Lemma add_metadata_wf kv d : db_wf d -> db_wf (add_metadata d kv).
Proof.
  intros Hd. unfold add_metadata. destruct (existsb _ _) eqn:He; [done|].
  destruct Hd. constructor; simpl; try done. apply NoDup_snoc_key; [done|].
  intros Hin%existsb_key. congruence.
Qed.

Lemma with_version_wf v d : db_wf d -> db_wf (with_version v d).
Proof. by intros []. Qed.

Lemma foldl_wf {A} (f : Db -> A -> Db) l d :
  (forall d x, db_wf d -> db_wf (f d x)) -> db_wf d -> db_wf (foldl f d l).
Proof. intros Hf. revert d. induction l as [|x l IH]; intros d Hd; simpl; auto. Qed.

Lemma migrate_wf env d :
  (forall n, n <= seq_after_conflict env n) -> db_wf d -> db_wf (migrate env d).1.
Proof.
  intros Hseq. apply writing_wf. intros d' Hd. cbn [fst]. apply with_version_wf.
  assert (H1 : db_wf (if user_version d' <? 1 then migration_v1 d' else d')).
  { destruct (_ <? 1); [|done]. apply foldl_wf; [|done].
    intros d'' kv ?. by apply add_metadata_wf. }
  destruct (_ <? 2); [|done]. apply foldl_wf; [|done].
  intros d'' name ?. by apply seed_alias_wf.
Qed.

Lemma insert_cost_wf env r d : db_wf d -> db_wf (insert_cost_record env r d).1.
Proof.
  apply writing_wf. intros d' Hd'. destruct (is_nan _) eqn:Hnan; [done|].
  destruct (existsb _ _) eqn:He; [done|]. destruct Hd'. constructor; simpl; try done.
  - apply NoDup_snoc_key; [done|]. intros Hin%existsb_key. congruence.
  - apply Forall_app. split; [done|]. by constructor.
Qed.

Lemma insert_fee_wf env f d : db_wf d -> db_wf (insert_subscription_fee env f d).1.
Proof.
  apply writing_wf. intros d' Hd'. destruct (is_nan _); [done|].
  destruct Hd'. constructor; simpl; try done.
  - apply NoDup_snoc_key; [done|]. simpl. intros (x & Hx & Hin)%list_elem_of_fmap.
    rewrite Forall_forall in wf_fee_seq0. specialize (wf_fee_seq0 x Hin). lia.
  - apply Forall_app. split; [|constructor; [simpl; lia|done]].
    eapply Forall_impl; [exact wf_fee_seq0|]. intros x Hx. simpl in *. lia.
Qed.

Lemma run_op_wf env op d :
  (forall n, n <= seq_after_conflict env n) -> db_wf d -> db_wf (run_op env op d).
Proof.
  intros Hseq Hd. destruct op; cbn [run_op].
  - by apply migrate_wf.
  - by apply upsert_channel_wf.
  - by apply update_channel_row_wf.
  - by apply update_channel_row_wf.
  - apply writing_wf; [|done]. intros d' Hd'. cbn [fst].
    apply with_channels_wf; [done|]. by apply (update_keys ch_id (has_id id)).
  - by apply delete_channel_wf.
  - by apply update_channel_row_wf.
  - by apply record_failure_wf.
  - by apply upsert_mapping_wf.
  - apply writing_wf; [|done]. intros d' Hd'. cbn [fst]. pose proof Hd' as [].
    apply with_mappings_wf; [done| |].
    + by rewrite (map_keys mm_id (has_mapping_id id)).
    + apply Forall_fmap. eapply Forall_impl; [exact wf_references0|]. intros m Hm. simpl.
      by destruct (has_mapping_id id m).
  - apply writing_wf; [|done]. intros d' Hd'. cbn [fst]. pose proof Hd' as [].
    apply with_mappings_wf; [done|by apply filter_keys|].
    rewrite Forall_forall in *. intros m [Hm _]%elem_of_filter_bool. auto.
  - apply writing_wf; [|done]. intros d' Hd'. cbn [fst].
    by apply (alias_rows_wf env (mr_alias_name r)).
  - apply writing_wf; [|done]. intros d' Hd'. cbn [fst]. pose proof Hd' as [].
    apply with_aliases_wf; [done|by apply filter_keys|by apply filter_keys|].
    rewrite Forall_forall in *. intros m [Hm _]%elem_of_filter_bool. auto.
  - apply writing_wf; [|done]. intros d' Hd'. cbn [fst]. pose proof Hd' as [].
    apply with_aliases_wf; [done| | |].
    + by rewrite (map_keys ma_alias_name (has_alias_id id)).
    + by rewrite (map_keys ma_id (has_alias_id id)).
    + apply Forall_fmap. eapply Forall_impl; [exact wf_alias_seq0|]. intros m Hm. simpl.
      by destruct (has_alias_id id m).
  - by apply insert_cost_wf.
  - apply writing_wf; [|done]. intros d' []. constructor; simpl; try done.
    + by apply filter_keys.
    + rewrite Forall_forall in *. intros m [Hm _]%elem_of_filter_bool. auto.
  - apply writing_wf; [|done]. intros d' Hd'. destruct (existsb _ _) eqn:He; [done|].
    destruct Hd'. constructor; simpl; try done.
    apply NoDup_snoc_key; [done|]. intros Hin%existsb_key. congruence.
  - by apply insert_fee_wf.
Qed.

Lemma empty_db_wf : db_wf empty_db.
Proof. constructor; simpl; constructor. Qed.

(** ** Channels *)

Section ChannelFacts.
Context (env : Env) (Hpool : pool_error env = None).

Lemma find_update id f l :
  (forall c, ch_id (f c) = ch_id c) ->
  List.find (has_id id) (update_rows (has_id id) f l).1 = f <$> List.find (has_id id) l.
Proof.
  intros Hf. induction l as [|c l IH]; [done|]. simpl.
  destruct (has_id id c) eqn:Hc.
  - replace (has_id id (f c)) with true; [done|]. unfold has_id in *. by rewrite Hf.
  - by rewrite Hc.
Qed.

Lemma find_update_ne id id' f l :
  id <> id' -> (forall c, ch_id (f c) = ch_id c) ->
  List.find (has_id id') (update_rows (has_id id) f l).1 = List.find (has_id id') l.
Proof.
  intros Hne Hf. induction l as [|c l IH]; [done|]. simpl.
  assert (Hc : has_id id' (if has_id id c then f c else c) = has_id id' c)
    by (unfold has_id; destruct (String.eqb (ch_id c) id); by rewrite ?Hf).
  rewrite Hc. destruct (has_id id' c) eqn:Hc'; [|done].
  destruct (has_id id c) eqn:Hid; [|done]. apply has_id_spec in Hid, Hc'. congruence.
Qed.

Lemma find_snoc {A} (p : A -> bool) l x :
  List.find p (l ++ [x]) =
    match List.find p l with Some y => Some y | None => if p x then Some x else None end.
Proof. induction l as [|y l IH]; simpl; [done|]. by destruct (p y). Qed.

Lemma find_upsert id new merge l :
  ch_id new = id -> (forall c, ch_id (merge c) = ch_id c) ->
  List.find (has_id id) (upsert_row (has_id id) new merge l) =
    Some (match List.find (has_id id) l with Some old => merge old | None => new end).
Proof.
  intros Hnew Hm. unfold upsert_row. destruct (existsb (has_id id) l) eqn:He.
  - pose proof (find_update id merge l Hm) as Hf. simpl in Hf. rewrite Hf.
    apply existsb_elem in He as (c & Hc & Hid).
    destruct (List.find (has_id id) l) eqn:Hl; [done|].
    rewrite find_None_iff in Hl. by rewrite Hl in Hid.
  - rewrite find_snoc. destruct (List.find (has_id id) l) as [c|] eqn:Hl.
    + apply find_Some_elem in Hl as [Hc Hid].
      assert (existsb (has_id id) l = true) by (apply existsb_elem; eauto). congruence.
    + by rewrite (proj2 (has_id_spec id new) Hnew).
Qed.

Lemma find_upsert_ne id id' new merge l :
  id <> id' -> ch_id new = id -> (forall c, ch_id (merge c) = ch_id c) ->
  List.find (has_id id') (upsert_row (has_id id) new merge l) = List.find (has_id id') l.
Proof.
  intros Hne Hnew Hm. unfold upsert_row. destruct (existsb (has_id id) l) eqn:He.
  - apply (find_update_ne id id' merge l Hne Hm).
  - rewrite find_snoc. destruct (has_id id' new) eqn:Hc.
    + apply has_id_spec in Hc. congruence.
    + by destruct (List.find _ l).
Qed.

Definition stored (id : string) (d : Db) : option Channel := List.find (has_id id) (t_channels d).

(** C28: An upsert of a channel is read back, in every column: as given, but for the
    key, which an empty one leaves as stored, the health, which reads as
    unavailable without a key, the creation time, failure count and cooldown,
    which a known channel keeps and a new one starts afresh, and the time of the
    update.  No other channel changes; a quota beyond a 64-bit integer is an
    error that changes nothing. *)
Theorem upsert_channel_get c d :
  let old := stored (ch_id c) d in
  let key := if str_is_empty (ch_api_key c) then from_option ch_api_key EmptyString old
             else ch_api_key c in
  from_option (fun old => in_u32 (ch_consecutive_failures old)) True old ->
  if fits_i64 (ch_monthly_quota c) then
    (upsert_channel env c d).2 = Ok tt /\
    get_channel env (ch_id c) (upsert_channel env c d).1 =
      Ok (Some {| ch_id := ch_id c; ch_name := ch_name c; ch_api_key := key;
                  ch_protocol := ch_protocol c; ch_protocols := ch_protocols c;
                  ch_is_builtin := ch_is_builtin c; ch_enabled := ch_enabled c;
                  ch_created_at := from_option ch_created_at (now_unix env) old;
                  ch_updated_at := now_unix env;
                  ch_health_status := if str_is_empty key then health_as_str HsUnavailable
                                      else ch_health_status c;
                  ch_cooldown_until := old ≫= ch_cooldown_until;
                  ch_consecutive_failures := from_option ch_consecutive_failures 0 old;
                  ch_billing_type := ch_billing_type c;
                  ch_monthly_quota := ch_monthly_quota c;
                  ch_quota_policy := ch_quota_policy c; ch_priority := ch_priority c;
                  ch_force_protocol := ch_force_protocol c |}) /\
    (forall id, id <> ch_id c ->
       get_channel env id (upsert_channel env c d).1 = get_channel env id d)
  else upsert_channel env c d = (d, backend env OutOfRange).
Proof.
  intros old key Hold. unfold get_channel, upsert_channel, reading, writing. rewrite Hpool.
  destruct (fits_i64 (ch_monthly_quota c)); [|done].
  cbn [fst t_channels with_channels]. rewrite find_upsert by done. fold (stored (ch_id c) d).
  split; [done|]. split; [|intros id Hne; by rewrite find_upsert_ne].
  subst key old. destruct (stored (ch_id c) d) as [old|] eqn:Hst; simpl in Hold |- *.
  - unfold row_to_channel, get_u32. simpl. unfold in_u32 in Hold.
    replace (_ && _) with true by lia. simpl.
    apply find_Some_elem in Hst as [_ Hid%has_id_spec]. by rewrite Hid.
  - unfold row_to_channel, get_u32. simpl. by destruct (ch_api_key c).
Qed.

(** C29: Deleting a channel removes it and exactly its mappings; cost records,
    aliases and logs stay, and an unknown channel is an error that changes
    nothing. *)
Theorem delete_channel_cascades id d :
  let '(d', r) := delete_channel env id d in
  (stored id d = None ->
     t_channels d' = t_channels d /\ t_mappings d' = t_mappings d /\
     r = Err (NotFound ("channel not found: " +:+ id))) /\
  (is_Some (stored id d) ->
     r = Ok tt /\ stored id d' = None /\
     (forall c, c ∈ t_channels d' <-> c ∈ t_channels d /\ ch_id c <> id) /\
     (forall m, m ∈ t_mappings d' <-> m ∈ t_mappings d /\ mm_channel_id m <> id)) /\
  t_costs d' = t_costs d /\ t_aliases d' = t_aliases d /\ t_switch_logs d' = t_switch_logs d /\
  t_fees d' = t_fees d.
Proof.
  unfold delete_channel, writing. rewrite Hpool. simpl.
  assert (Hkeep : forall c, c ∈ List.filter (fun x => negb (has_id id x)) (t_channels d) <->
    c ∈ t_channels d /\ ch_id c <> id).
  { intros c. rewrite elem_of_filter_bool, negb_true_iff. unfold has_id.
    by rewrite String.eqb_neq. }
  split_and!; try done.
  - intros Hno. unfold stored in Hno. rewrite find_None_iff in Hno.
    assert (Hnil := filter_false (has_id id) (t_channels d) Hno).
    rewrite Hnil. simpl. split_and!; [|by apply filter_true; intros; rewrite andb_false_r|done].
    apply filter_true. intros c Hc. by rewrite (Hno c Hc).
  - intros [c Hc]. unfold stored in Hc. apply find_Some_elem in Hc as [Hc Hid].
    destruct (length (List.filter (has_id id) (t_channels d))) as [|n] eqn:Hlen.
    { apply length_zero_iff_nil in Hlen.
      assert (Hin : c ∈ List.filter (has_id id) (t_channels d)) by by apply elem_of_filter_bool.
      rewrite Hlen in Hin. by apply elem_of_nil in Hin. }
    split_and!; [done| |done|].
    + unfold stored. apply find_None_iff. intros c' Hc'. apply Hkeep in Hc' as [_ Hne].
      unfold has_id. by destruct (String.eqb_spec (ch_id c') id).
    + intros m. rewrite elem_of_filter_bool, negb_true_iff, andb_true_r.
      by rewrite String.eqb_neq.
Qed.
End ChannelFacts.

(** ** The laws of the interface *)

Lemma map_res_Ok {A B} (f : A -> Res StorageError B) l l' :
  map_res f l = Ok l' -> Forall2 (fun x y => f x = Ok y) l l'.
Proof.
  revert l'. induction l as [|x l IH]; intros l'; simpl; [intros [= <-]; constructor|].
  destruct (f x) as [y| |] eqn:Hy; simpl; [|done..].
  destruct (map_res f l) as [ys| |]; simpl; [|done..]. intros [= <-]. constructor; auto.
Qed.

(** ** The contract of the store

    The SQLite store keeps the laws [StorageLaws] that the flows of the admin
    API rely on, for every well-formed database. *)

Section Laws.
Context (env : Env).

Lemma find_unique c l : NoDup (ch_id <$> l) -> c ∈ l -> List.find (has_id (ch_id c)) l = Some c.
Proof.
  induction l as [|x l IH]; intros Hnd Hc; [by apply elem_of_nil in Hc|]. csimpl in *.
  apply NoDup_cons in Hnd as [Hx Hnd]. destruct (has_id (ch_id c) x) eqn:Hid.
  - apply elem_of_cons in Hc as [->|Hc]; [done|]. apply has_id_spec in Hid.
    destruct Hx. rewrite Hid. by apply list_elem_of_fmap_2.
  - apply elem_of_cons in Hc as [->|Hc]; [|by apply IH].
    unfold has_id in Hid. by rewrite String.eqb_refl in Hid.
Qed.

Lemma find_filter_negb {A} (p : A -> bool) l : List.find p (List.filter (fun x => negb (p x)) l) = None.
Proof. induction l as [|x l IH]; simpl; [done|]. destruct (p x) eqn:Hx; simpl; by rewrite ?Hx. Qed.

(** A row read as it is, but for its health status. *)
Lemma row_to_channel_Ok r c :
  row_to_channel env r = Ok c ->
  ch_id c = ch_id r /\ ch_name c = ch_name r /\ ch_api_key c = ch_api_key r /\
  ch_protocols c = ch_protocols r /\ ch_enabled c = ch_enabled r /\
  ch_priority c = ch_priority r /\ ch_force_protocol c = ch_force_protocol r /\
  get_u32 env (ch_consecutive_failures r) = Ok (ch_consecutive_failures c).
Proof. unfold row_to_channel. intros Hr. inv_res. by simplify_eq. Qed.

Lemma row_to_channel_exists r n :
  get_u32 env (ch_consecutive_failures r) = Ok n -> exists c, row_to_channel env r = Ok c.
Proof. unfold row_to_channel. intros ->. by eexists. Qed.

(** What a channel reads as after an update of the rows of [id]. *)
Lemma row_update_read id id' f d d' r c :
  (forall c, ch_id (f c) = ch_id c) ->
  update_channel_row env id f d = (d', r) -> get_channel env id' d' = Ok (Some c) ->
  exists old, List.find (has_id id') (t_channels d) = Some old /\
    row_to_channel env (if decide (id' = id) then f old else old) = Ok c.
Proof.
  intros Hf Hup Hget. unfold update_channel_row, writing in Hup.
  unfold get_channel, reading in Hget. destruct (pool_error env); [done|].
  pose proof (find_update id f (t_channels d) Hf) as Hsame.
  pose proof (fun H => find_update_ne id id' f (t_channels d) H Hf) as Hother.
  destruct (update_rows (has_id id) f (t_channels d)) as [rows n]. injection Hup as <- _.
  cbn [with_channels t_channels fst] in *. destruct (decide (id' = id)) as [->|Hne].
  - rewrite Hsame in Hget. destruct (List.find _ _) as [old|]; simpl in Hget; [|done].
    exists old. split; [done|]. by inv_res.
  - rewrite Hother in Hget by done. destruct (List.find _ _) as [old|]; [|done].
    exists old. split; [done|]. by inv_res.
Qed.

Lemma listed_channel d chs c :
  db_wf d -> list_channels env None d = Ok chs -> c ∈ chs ->
  get_channel env (ch_id c) d = Ok (Some c).
Proof.
  unfold list_channels, get_channel, reading. destruct (pool_error env); [done|].
  intros [Hnd] Hl Hc. apply map_res_Ok in Hl. apply list_elem_of_lookup in Hc as [i Hi].
  destruct (Forall2_lookup_r _ _ _ _ _ Hl Hi) as (r & Hr & Hrc).
  apply list_elem_of_lookup_2, elem_of_order_by in Hr.
  rewrite (proj1 (row_to_channel_Ok r c Hrc)), (find_unique r) by done. by rewrite Hrc.
Qed.

(** A patched channel as a later read returns it. *)
Lemma patched_channel id name enabled priority quota policy protocols force d d' c :
  db_wf d ->
  update_channel env id name enabled priority quota policy protocols force d = (d', Ok c) ->
  db_wf d' /\ get_channel env id d' = Ok (Some c) /\ exists old old' n,
    get_channel env id d = Ok (Some old') /\ row_to_channel env old = Ok old' /\
    ch_id old = id /\ get_u32 env (ch_consecutive_failures old) = Ok n /\
    row_to_channel env
      (patch_channel env name enabled priority quota policy protocols force old) = Ok c.
Proof.
  unfold update_channel, get_channel, reading, writing. destruct (pool_error env); [done|].
  intros Hwf Hup. set (f := patch_channel env name enabled priority quota policy protocols force) in *.
  pose proof (find_update id f (t_channels d) ltac:(done)) as Hf.
  pose proof (update_keys ch_id (has_id id) f (t_channels d) ltac:(done)) as Hkeys.
  destruct (update_rows (has_id id) f (t_channels d)) as [rows n]. simpl in Hf, Hkeys.
  injection Hup as <- Hr. inv_res. cbn [t_channels with_channels]. rewrite Hf in Hr |- *.
  split; [by apply with_channels_wf|].
  destruct (List.find (has_id id) (t_channels d)) as [old|] eqn:Hold; simpl in *; [|done].
  rewrite Hr. split; [done|]. apply find_Some_elem in Hold as [_ Hid%has_id_spec].
  destruct (row_to_channel_Ok _ _ Hr) as (_ & _ & _ & _ & _ & _ & _ & Hfail).
  destruct (row_to_channel_exists old _ Hfail) as [old' Ho].
  exists old, old', (ch_consecutive_failures c). rewrite Ho. by split_and!.
Qed.

#[local] Instance laws_storage : Storage Db := sqlite_storage env.

#[global] Instance sqlite_laws : StorageLaws (Storage0 := sqlite_storage env) Db db_wf.
Proof.
  constructor; cbn [sqlite_storage Storage.list_channels Storage.get_channel Storage.update_channel
    Storage.delete_channel Storage.set_channel_api_key Storage.mark_channel_healthy].
  - apply listed_channel.
  - intros id name enabled priority quota policy protocols force d d' c Hwf Hup.
    destruct (patched_channel _ _ _ _ _ _ _ _ _ _ _ Hwf Hup)
      as (Hwf' & Hget & old & old' & n & Hold & Ho & Hid & Hn & Hc).
    destruct (row_to_channel_Ok _ _ Hc) as (-> & -> & -> & -> & -> & -> & -> & _).
    destruct (row_to_channel_Ok _ _ Ho) as (_ & Hn' & Hk & Hp & He & Hpr & Hfp & _).
    split_and!; try done. exists old'. rewrite Hn', Hk, Hp, He, Hpr, Hfp. by split_and!.
  - intros id d d' u Hwf Hdel. pose proof (delete_channel_wf env id d Hwf) as Hwf'.
    rewrite Hdel in Hwf'. split; [done|]. unfold delete_channel, writing in Hdel.
    unfold get_channel, reading. destruct (pool_error env); [done|].
    destruct (delete_rows (has_id id) (t_channels d)) as [rows n] eqn:Hrows.
    injection Hdel as <- _. cbn [with_mappings with_channels t_channels].
    injection Hrows as <- _. by rewrite find_filter_negb.
  - intros id key d d' u Hwf Hset.
    pose proof (update_channel_row_wf env id (rekey_channel env key) d ltac:(done) Hwf) as Hwf'.
    unfold set_channel_api_key in Hset. rewrite Hset in Hwf'. split; [done|]. intros c Hget.
    destruct (row_update_read id id (rekey_channel env key) d d' (Ok u) c) as (old & _ & Hc);
      [done..|]. rewrite decide_True in Hc by done.
    by destruct (row_to_channel_Ok _ _ Hc) as (_ & _ & -> & _).
  - intros id d d' r Hwf Hset. set (f := heal_channel HsHealthy None 0 (now_unix env)).
    pose proof (update_channel_row_wf env id f d ltac:(done) Hwf) as Hwf'.
    unfold mark_channel_healthy in Hset. fold f in Hset. rewrite Hset in Hwf'. split; [done|].
    intros id' old c Hold Hget.
    destruct (row_update_read id id' f d d' r c) as (row & Hrow & Hc); [done..|].
    unfold get_channel, reading in Hold. destruct (pool_error env); [done|]. rewrite Hrow in Hold.
    inv_res. destruct (row_to_channel_Ok row old ltac:(done)) as (_ & _ & -> & _).
    destruct (row_to_channel_Ok _ _ Hc) as (_ & _ & -> & _). by destruct (decide _).
Qed.
End Laws.

(** ** Health of a channel *)

Section HealthFacts.
Context (env : Env) (Hpool : pool_error env = None).

Definition fail_times (n : nat) (id : string) (d : Db) : Db :=
  Nat.iter n (fun d => (record_channel_failure env id d).1) d.

Lemma record_failure_stored id d c :
  stored id d = Some c -> 0 <= ch_consecutive_failures c < 2 ^ 31 - 1 ->
  let failures := ch_consecutive_failures c + 1 in
  let status := status_of_failures failures in
  let '(d', r) := record_channel_failure env id d in
  r = Ok tt /\
  stored id d' = Some (heal_channel status (cooldown_of_status env status) failures
                         (now_unix env) c) /\
  (forall id', id <> id' -> stored id' d' = stored id' d).
Proof.
  intros Hc Hn failures status. unfold record_channel_failure, writing. rewrite Hpool.
  pose proof (find_update id (count_failure env) (t_channels d) (fun _ => eq_refl)) as Hf.
  fold (stored id d) in Hf. rewrite Hc in Hf. simpl in Hf. cbv zeta.
  unfold update_rows at 1. cbn [fst]. rewrite Hf. cbn [count_failure ch_consecutive_failures].
  replace (_ && _) with true by (change (2 ^ 31) with 2147483648 in *; lia). split; [done|].
  unfold stored. cbn [with_channels t_channels]. split.
  - rewrite find_update by done. unfold update_rows. cbn [fst]. by rewrite Hf.
  - intros id' Hne. rewrite find_update_ne by done.
    apply (find_update_ne id id' (count_failure env) (t_channels d) Hne). done.
Qed.

(** C30: The recorded health of a channel follows its failures since the last
    success: degraded below three of them, in a five-minute cooldown from the
    third on; marking it healthy clears count and cooldown.  Other channels are
    not affected. *)
Theorem health_follows_failures n id d :
  is_Some (stored id d) -> (0 < n)%nat -> Z.of_nat n < 2 ^ 31 ->
  let d' := fail_times n id (mark_channel_healthy env id d).1 in
  exists c, stored id d' = Some c /\ ch_consecutive_failures c = Z.of_nat n /\
    (if (n <? 3)%nat
     then ch_health_status c = "Degraded" /\ ch_cooldown_until c = None
     else ch_health_status c = "Cooldown" /\
          ch_cooldown_until c = Some (minutes_from_now env 5)) /\
    (forall id', id <> id' -> stored id' d' = stored id' d).
Proof.
  intros [c0 Hc0] Hpos Hn d'. unfold d'. clear d'.
  assert (Hmark : let d0 := (mark_channel_healthy env id d).1 in
    (exists c, stored id d0 = Some c /\ ch_consecutive_failures c = 0) /\
    (forall id', id <> id' -> stored id' d0 = stored id' d)).
  { unfold mark_channel_healthy, update_channel_row, writing. rewrite Hpool.
    unfold stored. simpl. split.
    - pose proof (find_update id (heal_channel HsHealthy None 0 (now_unix env)) (t_channels d)
        (fun _ => eq_refl)) as Hf. simpl in Hf. rewrite Hf. fold (stored id d). rewrite Hc0.
      by eexists.
    - intros id' Hne. by apply (find_update_ne id id'). }
  destruct Hmark as [(c1 & Hc1 & Hz) Hother].
  set (d0 := (mark_channel_healthy env id d).1) in *. clearbody d0.
  enough (Hgen : exists c, stored id (fail_times n id d0) = Some c /\
    ch_consecutive_failures c = Z.of_nat n /\
    (n <> 0%nat -> ch_health_status c = health_as_str (status_of_failures (Z.of_nat n)) /\
       ch_cooldown_until c = cooldown_of_status env (status_of_failures (Z.of_nat n))) /\
    (forall id', id <> id' -> stored id' (fail_times n id d0) = stored id' d)).
  { destruct Hgen as (c & Hc & Hcnt & Hst & Ho). exists c. split_and!; [done..| |done].
    destruct (Hst ltac:(lia)) as [-> ->]. unfold status_of_failures.
    destruct (Nat.ltb_spec n 3).
    - replace (3 <=? Z.of_nat n) with false by lia. by replace (1 <=? Z.of_nat n) with true by lia.
    - by replace (3 <=? Z.of_nat n) with true by lia. }
  clear Hpos. induction n as [|n IH].
  - exists c1. by split_and!.
  - destruct IH as (c & Hc & Hcnt & _ & Ho); [lia|]. simpl.
    pose proof (record_failure_stored id (fail_times n id d0) c Hc) as Hrec.
    change (Nat.iter n _ d0) with (fail_times n id d0).
    destruct (record_channel_failure env id (fail_times n id d0)) as [d2 r].
    destruct Hrec as (_ & Hst & Hne); [change (2 ^ 31) with 2147483648 in *; lia|].
    eexists. split; [exact Hst|]. cbn [fst heal_channel ch_consecutive_failures
      ch_health_status ch_cooldown_until]. rewrite Hcnt, Nat2Z.inj_succ.
    split_and!; [lia|done|]. intros id' Hid. rewrite Hne by done. by apply Ho.
Qed.
End HealthFacts.

(** ** Cost records *)

Section CostFacts.
Context (env : Env) (Hpool : pool_error env = None).

(** The page [i] of size [n]. *)
Definition page (n : Z) (i : nat) (f : CostFilter) : CostFilter :=
  {| cf_project_path := cf_project_path f; cf_model_name := cf_model_name f;
     cf_channel_name := cf_channel_name f; cf_time_range := cf_time_range f;
     cf_limit := Some n; cf_offset := Some (n * Z.of_nat i) |}.

Definition page_rows (r : Res StorageError (list CostRecord)) : list CostRecord :=
  match r with Ok l => l | _ => [] end.

Lemma take_pages {A} (n : nat) (l : list A) k :
  mjoin ((fun i => take n (drop (n * i) l)) <$> seq 0 k) = take (n * k) l.
Proof.
  induction k as [|k IH]; [by rewrite Nat.mul_0_r|].
  rewrite seq_S, fmap_app, join_app, IH. simpl. rewrite app_nil_r, Nat.mul_succ_r.
  by rewrite take_take_drop.
Qed.

Lemma text_le_total a b : text_le a b = true \/ text_le b a = true.
Proof. apply String.leb_total. Qed.

Lemma string_compare_trans a b c o :
  String.compare a b = o -> String.compare b c = o -> String.compare a c = o.
Proof.
  revert b c. induction a as [|x a IH]; intros [|y b] [|z c]; simpl; intros H1 H2; try congruence.
  unfold Ascii.compare in *.
  destruct (N.compare_spec (Ascii.N_of_ascii x) (Ascii.N_of_ascii y)) as [E1|E1|E1],
    (N.compare_spec (Ascii.N_of_ascii y) (Ascii.N_of_ascii z)) as [E2|E2|E2],
    (N.compare_spec (Ascii.N_of_ascii x) (Ascii.N_of_ascii z)) as [E3|E3|E3];
    try lia; try congruence; eauto.
Qed.

Lemma string_compare_eq a b : String.compare a b = Eq -> a = b.
Proof. apply String.compare_eq_iff. Qed.

Lemma text_le_trans a b c : text_le a b = true -> text_le b c = true -> text_le a c = true.
Proof.
  unfold text_le, String.leb. intros H1 H2.
  destruct (String.compare a b) eqn:E1; [apply string_compare_eq in E1 as ->; done| |done].
  destruct (String.compare b c) eqn:E2; [apply string_compare_eq in E2 as <-; by rewrite E1| |done].
  by rewrite (string_compare_trans a b c Lt E1 E2).
Qed.

Lemma text_le_antisym a b : text_le a b = true -> text_le b a = true -> a = b.
Proof.
  unfold text_le, String.leb. rewrite (String.compare_antisym b a). intros H1 H2.
  destruct (String.compare a b) eqn:E; [by apply string_compare_eq in E|done..].
Qed.

Lemma NoDup_fmap_inj_in {A B} (key : A -> B) l x y :
  NoDup (key <$> l) -> x ∈ l -> y ∈ l -> key x = key y -> x = y.
Proof.
  intros Hnd [i Hi]%list_elem_of_lookup [j Hj]%list_elem_of_lookup Heq.
  assert (i = j) as ->; [|congruence].
  apply (NoDup_lookup _ i j (key x) Hnd); rewrite list_lookup_fmap, ?Hi, ?Hj; simpl; congruence.
Qed.

Definition newest_sorted : list CostRecord -> Prop :=
  StronglySorted (fun a b => text_le (cr_timestamp b) (cr_timestamp a) = true).

(** C31: The cost records that match a filter have one order, newest first, when no
    two of them bear the same time (SQLite leaves the order of equal times open,
    and two queries may then differ).  The page [i] of size [n] is cut out of
    that order at [n * i], but it has at most 1000 records: pages up to that
    size, read one by one, give every record once, and a larger page skips what
    is beyond its first thousand. *)
Theorem cost_pages f n d :
  0 < n ->
  let rows := List.filter (cost_matches env f) (t_costs d) in
  NoDup (cr_timestamp <$> rows) ->
  exists l, l ≡ₚ rows /\ newest_sorted l /\
    (forall l', l' ≡ₚ rows -> newest_sorted l' -> l' = l) /\
    (forall i, query_cost_records env (page n i f) d =
       Ok (take (Z.to_nat (Z.min n 1000)) (drop (Z.to_nat n * i) l))) /\
    (n <= 1000 -> forall k,
       mjoin ((fun i => page_rows (query_cost_records env (page n i f) d)) <$> seq 0 k) =
       take (Z.to_nat n * k) l).
Proof.
  intros Hn rows Hnd. exists (order_by newest_first rows).
  assert (Hperm : order_by newest_first rows ≡ₚ rows) by apply order_by_perm.
  assert (Hsorted : newest_sorted (order_by newest_first rows)).
  { apply order_by_sorted; unfold newest_first; [intros x y; apply text_le_total|].
    intros x y z H1 H2. by eapply text_le_trans. }
  assert (Hpage : forall i, query_cost_records env (page n i f) d =
    Ok (take (Z.to_nat (Z.min n 1000)) (drop (Z.to_nat n * i) (order_by newest_first rows)))).
  { intros i. unfold query_cost_records, reading. rewrite Hpool. cbn [page cf_limit cf_offset].
    unfold limit_offset. cbn [default from_option id].
    change (cost_matches env (page n i f)) with (cost_matches env f). fold rows.
    by rewrite Z2Nat.inj_mul, Nat2Z.id by lia. }
  split; [done|]. split; [done|]. split; [|split; [done|]].
  - intros l' Hl' Hs'. apply (StronglySorted_unique_strong _ _ _) with (2 := Hs') (3 := Hsorted);
      [|by rewrite Hperm].
    intros x y Hx Hy H1 H2. rewrite Hl' in Hx. rewrite Hperm in Hy.
    by apply (NoDup_fmap_inj_in _ _ _ _ Hnd Hx Hy), text_le_antisym.
  - intros Hle k. rewrite <-take_pages. f_equal. apply list_fmap_ext. intros i x _.
    by rewrite Hpage, Z.min_l.
Qed.

(** C33: Pruning deletes exactly the records older than the cutoff, keeps the order
    of the others and reports how many it deleted.  A number of days that is
    out of range for a date makes the cutoff the present: everything older
    than now goes. *)
Theorem prune_exact days d :
  let cutoff := match days_before_now env days with
                | Some t => t | None => now_rfc3339 env end in
  let '(d', r) := prune_cost_records env days d in
  t_costs d' `sublist_of` t_costs d /\
  (forall c, c ∈ t_costs d' <-> c ∈ t_costs d /\ text_lt (cr_timestamp c) cutoff = false) /\
  r = Ok (Z.of_nat (length (t_costs d) - length (t_costs d'))).
Proof.
  intros cutoff. unfold prune_cost_records, writing. rewrite Hpool.
  change (default (now_rfc3339 env) (days_before_now env days)) with cutoff.
  cbn [delete_rows with_costs t_costs]. split_and!.
  - apply filter_sublist.
  - intros c. by rewrite elem_of_filter_bool, negb_true_iff.
  - do 2 f_equal. generalize (t_costs d). intros l. induction l as [|x l IH]; [done|]. simpl.
    assert (Hle : (length (List.filter (fun x => negb (text_lt (cr_timestamp x) cutoff)) l)
                   <= length l)%nat) by apply List.filter_length_le.
    destruct (text_lt _ _); simpl; lia.
Qed.

Lemma sum_i64_Ok acc l z : sum_i64 env acc l = Ok z -> z = acc + zsum l.
Proof.
  revert acc. induction l as [|x l IH]; intros acc; simpl.
  - intros [= <-]. unfold zsum. simpl. lia.
  - destruct (_ && _); [|done]. intros Hz%IH. unfold zsum in *. simpl. lia.
Qed.

Lemma aggregate_group_Ok g rows a :
  aggregate_group env g rows = Ok a ->
  ca_group_key a = from_option (group_key_expr g) EmptyString (bare_row env rows) /\
  ca_total_input_tokens a = zsum (cr_input_tokens <$> rows) /\
  ca_total_output_tokens a = zsum (cr_output_tokens <$> rows) /\
  ca_total_compression_tokens_saved a = zsum (cr_compression_tokens_saved <$> rows) /\
  ca_request_count a = zsum ((fun _ => 1) <$> rows) /\
  ca_total_actual_cost a = sum_real env (cr_cost <$> rows).
Proof.
  unfold aggregate_group. intros Ha.
  apply res_bind_Ok in Ha as (i & Hi & Ha). apply res_bind_Ok in Ha as (o & Ho & Ha).
  apply res_bind_Ok in Ha as (s & Hs & Ha). injection Ha as <-. simpl.
  apply sum_i64_Ok in Hi, Ho, Hs. split_and!; try lia; [done| |done]. by rewrite zsum_ones.
Qed.

(** The integer columns a report sums, and a column of which some running sum leaves
    64 bits. *)
Definition summed : list (CostRecord -> Z) :=
  [cr_input_tokens; cr_output_tokens; cr_compression_tokens_saved].

Definition overflows (rows : list CostRecord) : Prop :=
  exists w n, w ∈ summed /\ ~ in_i64 (zsum (take n (w <$> rows))).

Lemma sum_i64_Err acc l :
  match sum_i64 env acc l with
  | Ok _ => True
  | Err e => Err (A := Z) e = backend env IntegerOverflow /\
             exists n, ~ in_i64 (acc + zsum (take n l))
  | Panic => False
  end.
Proof.
  revert acc. induction l as [|x l IH]; intros acc; simpl; [done|].
  destruct ((- 2 ^ 63 <=? acc + x) && (acc + x <=? i64_max)) eqn:Hb.
  - specialize (IH (acc + x)). destruct (sum_i64 env (acc + x) l); [done| |done].
    destruct IH as (He & n & Hn). split; [done|]. exists (S n). simpl. unfold zsum in *. simpl.
    by rewrite Z.add_assoc.
  - split; [done|]. exists 1%nat. unfold in_i64. destruct l; unfold zsum; simpl; lia.
Qed.

Lemma aggregate_group_Err g rows :
  match aggregate_group env g rows with
  | Ok _ => True
  | Err e => Err (A := Z) e = backend env IntegerOverflow /\ overflows rows
  | Panic => False
  end.
Proof.
  unfold aggregate_group, overflows, summed.
  pose proof (sum_i64_Err 0 (cr_input_tokens <$> rows)) as H1.
  destruct (sum_i64 env 0 (cr_input_tokens <$> rows)) as [i|e|]; simpl; [| |done].
  2:{ destruct H1 as (He & n & Hn). split; [done|]. exists cr_input_tokens, n. split; [left|done]. }
  pose proof (sum_i64_Err 0 (cr_output_tokens <$> rows)) as H2.
  destruct (sum_i64 env 0 (cr_output_tokens <$> rows)) as [o|e|]; simpl; [| |done].
  2:{ destruct H2 as (He & n & Hn). split; [done|]. exists cr_output_tokens, n.
      split; [right; left|done]. }
  pose proof (sum_i64_Err 0 (cr_compression_tokens_saved <$> rows)) as H3.
  destruct (sum_i64 env 0 _) as [s|e|]; simpl; [done| |done].
  destruct H3 as (He & n & Hn). split; [done|]. exists cr_compression_tokens_saved, n.
  split; [right; right; left|done].
Qed.

Lemma map_res_Err {A B} (f : A -> Res StorageError B) l :
  match map_res f l with
  | Ok _ => True
  | Err e => exists x, x ∈ l /\ f x = Err e
  | Panic => exists x, x ∈ l /\ f x = Panic
  end.
Proof.
  induction l as [|x l IH]; simpl; [done|].
  destruct (f x) as [y|e|] eqn:Hf; simpl; [|by exists x; split; [left|]..].
  destruct (map_res f l) as [ys|e|]; simpl; [done| |];
    (destruct IH as (z & Hz & Hfz); exists z; split; [by right|done]).
Qed.

(** The line of a report for the records [rows] of one group. *)
Definition line_of (g : CostGroupBy) (rows : list CostRecord) (a : CostAggregate) : Prop :=
  (exists r, r ∈ rows /\ ca_group_key a = group_key_expr g r) /\
  ca_request_count a = Z.of_nat (length rows) /\
  ca_total_input_tokens a = zsum (cr_input_tokens <$> rows) /\
  ca_total_output_tokens a = zsum (cr_output_tokens <$> rows) /\
  ca_total_compression_tokens_saved a = zsum (cr_compression_tokens_saved <$> rows) /\
  ca_total_actual_cost a = sum_real env (cr_cost <$> rows).

(** A total over the aggregates is the total over the records, for every column
    that each aggregate sums over its group. *)
Lemma aggregates_sum g range d aggs (f : CostAggregate -> Z) (w : CostRecord -> Z) :
  (forall rs a, aggregate_group env g rs = Ok a -> f a = zsum (w <$> rs)) ->
  aggregate_costs env g range d = Ok aggs ->
  zsum (f <$> aggs) = zsum (w <$> aggregated_rows env range d).
Proof.
  intros Hf Hagg. unfold aggregate_costs, reading in Hagg. rewrite Hpool in Hagg.
  set (rows := aggregated_rows env range d) in *.
  destruct (map_res _ _) as [as_| |] eqn:Hm; simplify_eq/=.
  apply map_res_Ok in Hm. unfold groups in Hm.
  set (ks := remove_dups (group_clause g <$> rows)) in *.
  assert (Hks : forall x, x ∈ rows -> group_clause g x ∈ ks)
    by (intros x Hx; apply elem_of_remove_dups; by apply list_elem_of_fmap_2).
  assert (Hnd : NoDup ks) by apply NoDup_remove_dups.
  rewrite <-(zsum_classes (group_clause g) w rows ks Hnd Hks).
  rewrite (zsum_perm _ (f <$> as_)) by (by rewrite order_by_perm).
  clear Hks Hnd. revert as_ Hm. induction ks as [|k ks' IH]; intros as_ Hm; csimpl in *.
  - by inversion Hm.
  - inversion Hm as [|? a ? as' Ha Has]; simplify_eq. csimpl. unfold zsum in *. simpl.
    rewrite (Hf _ _ Ha), (IH _ Has). done.
Qed.

(** C32: The groups of an aggregation partition the records in range: there is one
    line for each combination of the grouping columns, with the number, the
    tokens, the savings and the [SUM] of the costs of exactly the records of that
    combination, labelled after one of them; and over all lines requests, tokens
    and savings add up to those of the records.  The report is an error only when
    a running sum of some group leaves 64 bits.  The grouping columns of the
    monthly and hourly reports per project and model are project and model only,
    so that these reports have one line for all months, labelled with the month
    of one of its records. *)
Theorem aggregates_partition g range d :
  (forall rows, rows <> [] -> exists r, bare_row env rows = Some r /\ r ∈ rows) ->
  let rows := aggregated_rows env range d in
  let combinations := remove_dups (group_clause g <$> rows) in
  let group := class (group_clause g) rows in
  match aggregate_costs env g range d with
  | Ok aggs =>
      (exists lines, aggs ≡ₚ lines /\
         Forall2 (fun k a => line_of g (group k) a) combinations lines) /\
      zsum (ca_request_count <$> aggs) = Z.of_nat (length rows) /\
      zsum (ca_total_input_tokens <$> aggs) = zsum (cr_input_tokens <$> rows) /\
      zsum (ca_total_output_tokens <$> aggs) = zsum (cr_output_tokens <$> rows) /\
      zsum (ca_total_compression_tokens_saved <$> aggs) =
        zsum (cr_compression_tokens_saved <$> rows)
  | Err e => Err (A := Z) e = backend env IntegerOverflow /\
             exists k, k ∈ combinations /\ overflows (group k)
  | Panic => False
  end.
Proof.
  intros Hbare rows combinations group.
  destruct (aggregate_costs env g range d) as [aggs|e|] eqn:Hagg.
  - pose proof (fun f w Hf => aggregates_sum g range d aggs f w Hf Hagg) as Hsum. fold rows in Hsum.
    split; [|rewrite <-(zsum_ones rows); split_and!; apply Hsum; intros rs a Ha;
             apply aggregate_group_Ok in Ha; tauto].
    unfold aggregate_costs, reading in Hagg. rewrite Hpool in Hagg. fold rows in Hagg.
    destruct (map_res _ _) as [lines| |] eqn:Hm; simplify_eq/=. exists lines.
    split; [apply order_by_perm|]. apply map_res_Ok in Hm. unfold groups in Hm.
    apply Forall2_fmap_l in Hm. fold combinations in Hm.
    apply Forall2_same_length_lookup. split; [by eapply Forall2_length|]. intros i k a Hk Ha.
    pose proof (Forall2_lookup_lr _ _ _ _ _ _ Hm Hk Ha) as Hag. clear Ha.
    apply list_elem_of_lookup_2 in Hk. rename Hag into Ha. apply aggregate_group_Ok in Ha.
    change (List.filter _ rows) with (group k) in Ha. destruct Ha as (Hkey & Hi & Ho & Hs & Hc & Hcost).
    unfold combinations in Hk. apply elem_of_remove_dups, list_elem_of_fmap in Hk as (x & -> & Hx).
    destruct (Hbare (group (group_clause g x))) as (r & Hr & Hrin).
    { intros E. assert (Hin : x ∈ group (group_clause g x)); [|rewrite E in Hin; by apply elem_of_nil in Hin].
      apply elem_of_filter_bool. split; [done|by apply bool_decide_true]. }
    rewrite zsum_ones in Hc. rewrite Hr in Hkey. split_and!; try done. by exists r.
  - unfold aggregate_costs, reading in Hagg. rewrite Hpool in Hagg. fold rows in Hagg.
    pose proof (map_res_Err (aggregate_group env g) (groups g rows)) as Hm.
    destruct (map_res _ _) as [lines| |]; simplify_eq/=. destruct Hm as (rs & Hrs & Hf).
    pose proof (aggregate_group_Err g rs) as He. rewrite Hf in He. destruct He as [He Ho].
    split; [done|]. unfold groups in Hrs. apply list_elem_of_fmap in Hrs as (k & -> & Hk). by exists k.
  - unfold aggregate_costs, reading in Hagg. rewrite Hpool in Hagg. fold rows in Hagg.
    pose proof (map_res_Err (aggregate_group env g) (groups g rows)) as Hm.
    destruct (map_res _ _) as [lines| |]; simplify_eq/=. destruct Hm as (rs & Hrs & Hf).
    pose proof (aggregate_group_Err g rs) as He. by rewrite Hf in He.
Qed.
End CostFacts.

(** ** Migration and aliases *)

Section MigrationFacts.
Context (env : Env) (Hpool : pool_error env = None).

Lemma migrate_version d : user_version (migrate env d).1 = 2 /\ (migrate env d).2 = Ok tt.
Proof. unfold migrate, writing. by rewrite Hpool. Qed.

Definition alias_of (name : string) (d : Db) : option ModelAlias :=
  List.find (named_alias name) (t_aliases d).

Lemma seed_alias_of d n name :
  alias_of name (seed_alias env d n) =
    match alias_of name d with
    | Some a => Some a
    | None => if String.eqb n name then Some (new_alias env (alias_seq d + 1) n EmptyString true)
              else None
    end.
Proof.
  unfold alias_of, seed_alias. cbn [with_aliases t_aliases].
  destruct (existsb (named_alias n) (t_aliases d)) eqn:He.
  - destruct (List.find (named_alias name) (t_aliases d)) eqn:Hf; [done|].
    destruct (String.eqb_spec n name) as [->|]; [|done].
    rewrite find_None_iff in Hf. apply existsb_elem in He as (a & Ha & Hn).
    by rewrite Hf in Hn.
  - rewrite find_snoc. destruct (List.find _ _); [done|].
    unfold named_alias. simpl. by destruct (String.eqb n name).
Qed.

Lemma seed_aliases_of l d name :
  alias_of name (foldl (seed_alias env) d l) =
    match alias_of name d with
    | Some a => Some a
    | None => if existsb (fun n => String.eqb n name) l
              then alias_of name (foldl (seed_alias env) d l) else None
    end.
Proof.
  revert d. induction l as [|n l IH]; intros d; simpl; [by destruct (alias_of name d)|].
  rewrite IH, seed_alias_of. destruct (alias_of name d) as [a|] eqn:Ha; [done|].
  destruct (String.eqb n name) eqn:Hn; simpl; [done|].
  by destruct (existsb _ l).
Qed.

Lemma seed_aliases_new l d name :
  alias_of name d = None -> name ∈ l ->
  exists id, alias_of name (foldl (seed_alias env) d l) =
             Some (new_alias env id name EmptyString true).
Proof.
  revert d. induction l as [|n l IH]; intros d Hd Hin; [by apply elem_of_nil in Hin|]. simpl.
  pose proof (seed_alias_of d n name) as Hs. rewrite Hd in Hs.
  destruct (String.eqb_spec n name) as [->|Hne].
  - rewrite seed_aliases_of, Hs. by eexists.
  - apply IH; [done|]. by apply elem_of_cons in Hin as [->|?].
Qed.

(** Migration is idempotent, whatever version it finds.  The first one adds
    the five built-in aliases that are not there yet, enabled and with an empty
    target: until they are edited, these model names are rewritten to the empty
    name; aliases the user has made keep their targets. *)
Theorem migrate_seeds_aliases d :
  let d1 := (migrate env d).1 in
  migrate env d1 = (d1, Ok tt) /\
  (user_version d < 2 -> forall name,
     (forall a, alias_of name d = Some a -> alias_of name d1 = Some a) /\
     (alias_of name d = None ->
        get_model_alias_target env name d1 =
          Ok (if bool_decide (name ∈ seeded_aliases) then Some EmptyString else None))).
Proof.
  intros d1. pose proof (migrate_version d) as [Hv _]. fold d1 in Hv. split.
  - unfold migrate, writing. rewrite Hpool, Hv. simpl. by destruct d1; simpl in Hv; subst.
  - intros Hver name.
    assert (Hal : alias_of name d1 =
      alias_of name (foldl (seed_alias env) (if user_version d <? 1 then migration_v1 d else d)
                       seeded_aliases)).
    { unfold d1, migrate, writing. rewrite Hpool.
      assert (Hu : user_version (if user_version d <? 1 then migration_v1 d else d) < 2).
      { destruct (user_version d <? 1) eqn:E; [|done]. unfold migration_v1, add_metadata. simpl.
        repeat (destruct (existsb _ _); simpl); done. }
      by replace (_ <? 2) with true by lia. }
    assert (Hm1 : alias_of name (if user_version d <? 1 then migration_v1 d else d) =
      alias_of name d).
    { destruct (user_version d <? 1); [|done]. unfold migration_v1, add_metadata. simpl.
      repeat (destruct (existsb _ _); simpl); done. }
    split.
    + intros a Ha. by rewrite Hal, seed_aliases_of, Hm1, Ha.
    + intros Hno. unfold get_model_alias_target, reading. rewrite Hpool. f_equal.
      assert (Hfind : forall a, alias_of name d1 = Some a -> ma_enabled a = true ->
        List.find (fun a => named_alias name a && ma_enabled a) (t_aliases d1) = Some a).
      { unfold alias_of. generalize (t_aliases d1). intros l a.
        induction l as [|b l IH]; [done|]. simpl. destruct (named_alias name b) eqn:Hb; simpl.
        - intros [= ->] Ht. by rewrite Ht.
        - intros Hb' Ht. by apply IH. }
      case_bool_decide as Hin.
      * destruct (seed_aliases_new seeded_aliases
          (if user_version d <? 1 then migration_v1 d else d) name) as [id Hid];
          [by rewrite Hm1|done|].
        rewrite (Hfind (new_alias env id name EmptyString true)); [done|by rewrite Hal|done].
      * assert (Hn : alias_of name d1 = None).
        { rewrite Hal, seed_aliases_of, Hm1, Hno.
          destruct (existsb _ seeded_aliases) eqn:He; [|done].
          apply existsb_elem in He as (x & Hx & ->%String.eqb_eq). done. }
        unfold alias_of in Hn. rewrite find_None_iff in Hn.
        rewrite (proj2 (find_None_iff (fun a => named_alias name a && ma_enabled a) _)); [done|].
        intros a Ha. by rewrite Hn.
Qed.
End MigrationFacts.

(** ** A sample database, for the examples *)

Module SampleDb.
Definition message (e : SqlError) : string :=
  match e with
  | ForeignKeyFailed => "FOREIGN KEY constraint failed"
  | UniqueFailed => "UNIQUE constraint failed"
  | NotNullFailed => "NOT NULL constraint failed"
  | OutOfRange => "integer out of range"
  | IntegerOverflow => "integer overflow"
  | NoRows => "Query returned no rows"
  end.

(** Times are six-digit texts, so that text order is time order. *)
Definition stamp (t : Z) : string := int_to_string (100000 + t).

Definition env : Env := {|
  pool_error := None;
  now_unix := 50;
  now_rfc3339 := stamp 50;
  datetime_now := stamp 50;
  minutes_from_now n := stamp (50 + 60 * n);
  days_before_now n := if n <? 40 then Some (stamp (50 - n)) else None;
  rfc3339 := stamp;
  sum_real := foldl f64_add f64_zero;
  seq_after_conflict n := n;
  bare_row := head;
  sql_message := message
|}.

Definition channel (id key : string) (failures : Z) : Channel :=
  {| ch_id := id; ch_name := id; ch_api_key := key; ch_protocol := "openai";
     ch_protocols := "[]"; ch_is_builtin := false; ch_enabled := true; ch_created_at := 7;
     ch_updated_at := 7; ch_health_status := "Healthy"; ch_cooldown_until := None;
     ch_consecutive_failures := failures; ch_billing_type := "Metered";
     ch_monthly_quota := Some 5; ch_quota_policy := "Block"; ch_priority := 1;
     ch_force_protocol := None |}.

Definition mapping (id ch : string) : ModelMapping :=
  {| mm_id := id; mm_channel_id := ch; mm_client_name := "sonnet"; mm_upstream_name := "s4";
     mm_billing := "{}"; mm_pricing_json := "{}"; mm_weight := 1; mm_enabled := true;
     mm_protocols := "[]" |}.

Definition cost (id project : string) (time tokens : Z) : CostRecord :=
  {| cr_id := id; cr_channel_id := "a"; cr_upstream_channel := "a"; cr_upstream_model := "s4";
     cr_request_time_ms := 3; cr_project := project; cr_user_id := "u";
     cr_agent_type := "ClaudeCode"; cr_input_tokens := tokens; cr_output_tokens := 1;
     cr_cache_write_tokens := 0; cr_cache_read_tokens := 0; cr_thinking_tokens := 0;
     cr_cost := f64_zero; cr_schema_saved_tokens := 0; cr_response_saved_tokens := 0;
     cr_rtk_saved_tokens := 0; cr_pre_compress_tokens := 0; cr_post_compress_tokens := 0;
     cr_compression_tokens_saved := 2; cr_unit := "USD"; cr_pricing_snapshot_json := "{}";
     cr_timestamp := stamp time; cr_session_id := None; cr_before_tokens := 0;
     cr_after_tokens := 0; cr_tokens_saved := 0; cr_compression_breakdown_json := "{}" |}.

Definition ops : list Op :=
  [OpMigrate; OpUpsertChannel (channel "a" "key" 0); OpUpsertChannel (channel "b" "" 0);
   OpUpsertMapping (mapping "m" "a"); OpUpsertMapping (mapping "n" "b");
   OpInsertCost (cost "1" "p" 10 100); OpInsertCost (cost "2" "p" 30 200);
   OpInsertCost (cost "3" "q" 20 400)].

Definition db : Db := foldl (fun d op => run_op env op d) empty_db ops.

Definition all_costs : CostFilter :=
  {| cf_project_path := None; cf_model_name := None; cf_channel_name := None;
     cf_time_range := None; cf_limit := None; cf_offset := None |}.

Definition always : TimeRange := {| tr_start := 0; tr_end := 99; tr_project := None |}.
End SampleDb.

(** Channel [a] again, without a key. *)
Lemma upsert_channel_get_witness :
  exists c, get_channel SampleDb.env "a"
      (upsert_channel SampleDb.env (SampleDb.channel "a" EmptyString 9) SampleDb.db).1 =
    Ok (Some c) /\ ch_api_key c = "key" /\ ch_created_at c = 50 /\ ch_consecutive_failures c = 0.
Proof.
  destruct (upsert_channel_get SampleDb.env eq_refl (SampleDb.channel "a" EmptyString 9)
              SampleDb.db) as (_ & Hget & _).
  - vm_compute. split; discriminate.
  - eexists. split; [exact Hget|]. split_and!; vm_compute; reflexivity.
Defined.

Lemma delete_channel_cascades_witness :
  let '(d, r) := delete_channel SampleDb.env "a" SampleDb.db in
  r = Ok tt /\ stored "a" d = None /\ t_mappings d = [SampleDb.mapping "n" "b"] /\
  length (t_costs d) = 3%nat.
Proof.
  pose proof (delete_channel_cascades SampleDb.env eq_refl "a" SampleDb.db) as H.
  destruct (delete_channel SampleDb.env "a" SampleDb.db) as [d r] eqn:E.
  destruct H as (_ & Hsome & Hcosts & _). destruct Hsome as (Hr & Hgone & _).
  - vm_compute. eauto.
  - split; [exact Hr|]. split; [exact Hgone|]. rewrite Hcosts.
    vm_compute in E. injection E as <- _. vm_compute. auto.
Defined.

Lemma health_follows_failures_witness :
  exists c, stored "a" (fail_times SampleDb.env 3 "a"
                          (mark_channel_healthy SampleDb.env "a" SampleDb.db).1) = Some c /\
    ch_health_status c = "Cooldown" /\ ch_cooldown_until c = Some (SampleDb.stamp 350).
Proof.
  destruct (health_follows_failures SampleDb.env eq_refl 3 "a" SampleDb.db)
    as (c & Hc & _ & Hst & _); [vm_compute; eauto|lia|lia|].
  exists c. split; [exact Hc|]. exact Hst.
Defined.

(** Pages of two: records 2, 3, then 1. *)
Lemma cost_pages_witness :
  let pages k := mjoin ((fun i => page_rows (query_cost_records SampleDb.env
                   (page 2 i SampleDb.all_costs) SampleDb.db)) <$> seq 0 k) in
  cr_id <$> pages 1%nat = ["2"; "3"] /\ cr_id <$> pages 2%nat = ["2"; "3"; "1"] /\
  exists l, l ≡ₚ t_costs SampleDb.db /\ forall k, pages k = take (2 * k) l.
Proof.
  split_and!; [vm_compute; reflexivity..|].
  destruct (cost_pages SampleDb.env eq_refl SampleDb.all_costs 2 SampleDb.db)
    as (l & Hl & _ & _ & _ & Hk); [lia|apply (bool_decide_unpack _); vm_compute; exact I|].
  exists l. split; [exact Hl|]. apply Hk. lia.
Defined.

(** Records of before time 25 go; 99 days are out of range: all of before now go. *)
Lemma prune_exact_witness :
  cr_id <$> t_costs (prune_cost_records SampleDb.env 25 SampleDb.db).1 = ["2"] /\
  t_costs (prune_cost_records SampleDb.env 99 SampleDb.db).1 = [] /\
  (prune_cost_records SampleDb.env 99 SampleDb.db).2 = Ok 3.
Proof.
  split_and!; [vm_compute; reflexivity..|].
  pose proof (prune_exact SampleDb.env eq_refl 99 SampleDb.db) as H.
  destruct (prune_cost_records SampleDb.env 99 SampleDb.db) as [d' r] eqn:E.
  destruct H as (_ & _ & Hr). cbn [snd]. rewrite Hr. vm_compute in E. injection E as <- _.
  vm_compute. reflexivity.
Defined.

Lemma aggregates_partition_witness :
  exists aggs, aggregate_costs SampleDb.env GbProject SampleDb.always SampleDb.db = Ok aggs /\
    length aggs = 2%nat /\ zsum (ca_total_input_tokens <$> aggs) = 700.
Proof.
  pose proof (aggregates_partition SampleDb.env eq_refl GbProject SampleDb.always SampleDb.db) as H.
  destruct (aggregate_costs SampleDb.env GbProject SampleDb.always SampleDb.db)
    as [aggs| |] eqn:Hagg; [|vm_compute in Hagg; discriminate Hagg..].
  exists aggs. split; [reflexivity|].
  destruct H as ((lines & Hp & Hl) & _ & Hin & _).
  - intros [|r rows] Hne; [by destruct Hne|]. exists r. split; [reflexivity|]. left.
  - rewrite (Permutation_length Hp), <-(Forall2_length _ _ _ Hl), Hin. vm_compute. auto.
Defined.

Lemma migrate_seeds_aliases_witness :
  get_model_alias_target SampleDb.env "gpt-5.4" (migrate SampleDb.env empty_db).1 =
    Ok (Some EmptyString).
Proof.
  destruct (migrate_seeds_aliases SampleDb.env eq_refl empty_db) as [_ H].
  destruct (H eq_refl "gpt-5.4") as [_ Ht]. exact (Ht eq_refl).
Defined.
