(* ===== verification/Seed.v ===== *)
(** The seed data of the SQLite backend: [crates/storage-sqlite/src/seed.rs].

    Seed data is applied statement by statement: an error in the middle leaves
    the rows written before it.  The embedded JSON files, their deserialisers, the
    hash function and the HTTP client are parameters here ([Sources]); the file
    SeedFiles has the embedded files and the deserialisers. *)

From S2P Require Import Prelude RustStr Float64 Storage Sqlite.
Local Open Scope Z_scope.

(** ** Rows of the seed files *)

Record SeedProvider := { sp_id : string; sp_name : string; sp_created_at : Z }.

Record SeedModel := {
  sd_id : string;
  sd_provider_id : string;
  sd_client_name : string;
  sd_price_input : f64;
  sd_price_output : f64;
  sd_currency : string;
  sd_context_window : Z;
  sd_created_at : Z
}.

Record SeedChannel := {
  sc_id : string;
  sc_name : string;
  sc_api_key : string;
  sc_protocol : string;
  sc_protocols : string;
  sc_is_builtin : bool;
  sc_enabled : bool;
  sc_billing_type : string;
  sc_monthly_quota : option Z;
  sc_quota_policy : string;
  sc_priority : Z
}.

(** A [SeedModelMapping] has the fields of a [ModelMapping]. *)
Definition SeedModelMapping : Type := ModelMapping.

(** What the code reads from outside the database: the files embedded at
    compile time, serde's derived deserialisers (the error is its message),
    SHA-256 in hexadecimal, an HTTP GET (status and body, or the error of the
    client; reading the body can fail on its own) and the environment
    variable. *)
Record Sources := {
  embedded_providers : string;
  embedded_models : string;
  embedded_channels : string;
  embedded_model_mappings : string;
  embedded_manifest : string;
  parse_providers : string -> Res string (list SeedProvider);
  parse_models : string -> Res string (list SeedModel);
  parse_channels : string -> Res string (list SeedChannel);
  parse_model_mappings : string -> Res string (list SeedModelMapping);
  parse_manifest : string -> Res string SeedManifest;
  sha256 : string -> string;
  http_client : Res string unit;
  http_get : string -> Res string (Z * Res string string);
  status_text : Z -> string;
  env_seed_url : option string
}.

(** Statements one after the other, until one fails. *)
Definition Act (A : Type) : Type := ST Db StorageError A.
Local Open Scope st_scope.

Section Seed.
Context (env : Env) (src : Sources).

Definition with_providers (l : list ProviderRow) (d : Db) : Db :=
  {| t_providers := l; t_models := t_models d; t_channels := t_channels d;
     t_mappings := t_mappings d; t_aliases := t_aliases d; alias_seq := alias_seq d;
     t_costs := t_costs d; t_switch_logs := t_switch_logs d; t_fees := t_fees d;
     fee_seq := fee_seq d; t_metadata := t_metadata d; user_version := user_version d |}.

Definition with_models (l : list ModelRow) (d : Db) : Db :=
  {| t_providers := t_providers d; t_models := l; t_channels := t_channels d;
     t_mappings := t_mappings d; t_aliases := t_aliases d; alias_seq := alias_seq d;
     t_costs := t_costs d; t_switch_logs := t_switch_logs d; t_fees := t_fees d;
     fee_seq := fee_seq d; t_metadata := t_metadata d; user_version := user_version d |}.

(** ** Metadata *)

Definition get_metadata (d : Db) (key : string) : option string :=
  snd <$> List.find (fun kv => String.eqb kv.1 key) (t_metadata d).

(** [INSERT OR REPLACE]: the old row goes. *)
Definition set_metadata (key value : string) : Act unit := fun d =>
  (with_metadata (List.filter (fun kv => negb (String.eqb kv.1 key)) (t_metadata d)
                    ++ [(key, value)]) d, Ok tt).

Definition get_local_version_inner (d : Db) : Z :=
  default 0 (get_metadata d "version" ≫= parse_uint u32_max).

Definition hash_key (name : string) : string := name +:+ ":sha256".

Definition entry_status (d : Db) (remote : option SeedManifest) (name : string)
    : SeedEntryStatus :=
  let local_sha256 := get_metadata d (hash_key name) in
  let remote_entry := m ← remote; List.find (fun kv => String.eqb kv.1 name) (sm_entries m) in
  let remote_sha256 := (fun kv => sm_sha256 kv.2) <$> remote_entry in
  {| se_name := name; se_local_sha256 := local_sha256; se_remote_sha256 := remote_sha256;
     se_changed := match local_sha256, remote_sha256 with
                   | Some l, Some r => negb (String.eqb l r)
                   | _, Some _ => true
                   | _, _ => false
                   end |}.

Definition build_status (d : Db) (remote : option SeedManifest) : SeedStatus :=
  let local_version := get_local_version_inner d in
  let remote_version := sm_version <$> remote in
  {| ss_local_version := local_version;
     ss_remote_version := remote_version;
     ss_update_available := from_option (fun rv => local_version <? rv) false remote_version;
     ss_source := default "unknown" (get_metadata d "source");
     ss_entries := entry_status d remote <$> ["providers"; "models"; "channels"; "model_mappings"];
     ss_last_refresh_at := get_metadata d "last_refresh_at";
     ss_last_error := s ← get_metadata d "last_error";
                      if str_is_empty s then None else Some s |}.

(** ** Application of the entries *)

Definition seeded_provider (p : SeedProvider) : ProviderRow :=
  {| pr_id := sp_id p; pr_name := sp_name p;
     pr_created_at := Z.max (sp_created_at p) (now_unix env) |}.

(** [INSERT OR IGNORE]: the id and the name are unique. *)
Definition insert_provider (p : SeedProvider) : Act unit := fun d =>
  if existsb (fun r => String.eqb (pr_id r) (sp_id p) || String.eqb (pr_name r) (sp_name p))
       (t_providers d)
  then (d, Ok tt)
  else (with_providers (t_providers d ++ [seeded_provider p]) d, Ok tt).

Definition seeded_model (m : SeedModel) : ModelRow :=
  {| mo_id := sd_id m; mo_provider_id := sd_provider_id m;
     mo_client_name := sd_client_name m; mo_price_input := sd_price_input m;
     mo_price_output := sd_price_output m; mo_currency := sd_currency m;
     mo_context_window := sd_context_window m;
     mo_created_at := Z.max (sd_created_at m) (now_unix env) |}.

(** [OR IGNORE] skips rows that break uniqueness or [NOT NULL] (a NaN is
    stored as [NULL]), not those that break the reference to the provider. *)
Definition insert_model (m : SeedModel) : Act unit := fun d =>
  if existsb (fun r => String.eqb (mo_id r) (sd_id m)
                       || String.eqb (mo_client_name r) (sd_client_name m)) (t_models d)
     || is_nan (sd_price_input m) || is_nan (sd_price_output m)
  then (d, Ok tt)
  else if existsb (fun r => String.eqb (pr_id r) (sd_provider_id m)) (t_providers d)
  then (with_models (t_models d ++ [seeded_model m]) d, Ok tt)
  else (d, Err (Backend (sql_message env ForeignKeyFailed))).

(** The columns not listed have the schema's defaults. *)
Definition seeded_channel (c : SeedChannel) : Channel :=
  {| ch_id := sc_id c; ch_name := sc_name c; ch_api_key := sc_api_key c;
     ch_protocol := sc_protocol c; ch_protocols := sc_protocols c;
     ch_is_builtin := sc_is_builtin c; ch_enabled := sc_enabled c;
     ch_created_at := now_unix env; ch_updated_at := now_unix env;
     ch_health_status := "Healthy"; ch_cooldown_until := None;
     ch_consecutive_failures := 0; ch_billing_type := sc_billing_type c;
     ch_monthly_quota := sc_monthly_quota c; ch_quota_policy := sc_quota_policy c;
     ch_priority := sc_priority c; ch_force_protocol := None |}.

(** [DO UPDATE SET]: key, switch, health and forced protocol are kept. *)
Definition reseeded_channel (c : SeedChannel) (old : Channel) : Channel :=
  {| ch_id := ch_id old; ch_name := sc_name c; ch_api_key := ch_api_key old;
     ch_protocol := sc_protocol c; ch_protocols := sc_protocols c;
     ch_is_builtin := sc_is_builtin c; ch_enabled := ch_enabled old;
     ch_created_at := ch_created_at old; ch_updated_at := now_unix env;
     ch_health_status := ch_health_status old; ch_cooldown_until := ch_cooldown_until old;
     ch_consecutive_failures := ch_consecutive_failures old;
     ch_billing_type := sc_billing_type c; ch_monthly_quota := sc_monthly_quota c;
     ch_quota_policy := sc_quota_policy c; ch_priority := sc_priority c;
     ch_force_protocol := ch_force_protocol old |}.

Definition seed_channel (c : SeedChannel) : Act unit := fun d =>
  if fits_i64 (sc_monthly_quota c) then
    (with_channels (upsert_row (has_id (sc_id c)) (seeded_channel c) (reseeded_channel c)
                      (t_channels d)) d, Ok tt)
  else (d, Err (Backend (sql_message env OutOfRange))).

Definition seed_mapping (m : SeedModelMapping) : Act unit := fun d =>
  if existsb (has_id (mm_channel_id m)) (t_channels d)
  then (with_mappings (upsert_row (has_mapping_id (mm_id m)) m (fun _ => m) (t_mappings d)) d,
        Ok tt)
  else (d, let msg := sql_message env ForeignKeyFailed in
           Err (Backend (if str_contains "FOREIGN KEY" msg
                         then "channel not found for mapping " +:+ mm_id m +:+ ": " +:+ msg
                         else msg))).

(** [serde_json::from_str(json).map_err(..)?], then one statement per row. *)
Definition seed_rows {A} (what : string) (parsed : Res string (list A))
    (insert : A -> Act unit) : Act unit :=
  let! rows := st_lift (map_err (fun e => Backend ("invalid " +:+ what +:+ ": " +:+ e)) parsed) in
  st_each insert rows.

Definition upsert_entry (name json : string) : Act unit :=
  if bool_decide (name = "providers") then
    seed_rows "providers" (parse_providers src json) insert_provider
  else if bool_decide (name = "models") then
    seed_rows "models" (parse_models src json) insert_model
  else if bool_decide (name = "channels") then
    seed_rows "channels" (parse_channels src json) seed_channel
  else if bool_decide (name = "modelMappings") || bool_decide (name = "model_mappings") then
    seed_rows "model_mappings" (parse_model_mappings src json) seed_mapping
  else st_err (Backend ("unknown seed entry type: " +:+ name)).

(** Both branches of the [upsert] switch are the same. *)
Definition apply_all_entries (providers_json models_json channels_json mappings_json source : string)
    : Act unit :=
  let! _ := upsert_entry "providers" providers_json in
  let! _ := upsert_entry "models" models_json in
  let! _ := upsert_entry "channels" channels_json in
  let! _ := upsert_entry "model_mappings" mappings_json in
  let! _ := st_each (fun kd => set_metadata kd.1 (sha256 src kd.2))
    [("providers:sha256", providers_json); ("models:sha256", models_json);
     ("channels:sha256", channels_json); ("model_mappings:sha256", mappings_json)] in
  set_metadata "source" source.

Definition seed_status : Db -> Res StorageError SeedStatus :=
  reading env (fun d => Ok (build_status d None)).

Definition seed_init : Act SeedStatus := writing env (fun d =>
  if 0 <? get_local_version_inner d then (d, seed_status d)
  else
    (let! _ := apply_all_entries (embedded_providers src) (embedded_models src)
               (embedded_channels src) (embedded_model_mappings src) "embedded" in
     let! manifest := st_lift (map_err
       (fun e => Backend ("failed to parse embedded manifest: " +:+ e))
       (parse_manifest src (embedded_manifest src))) in
     let! _ := set_metadata "version" (uint_to_string (sm_version manifest)) in
     fun d' => (d', seed_status d')) d).

(** ** Remote data *)

Definition resolve_seed_url (explicit : option string) : Res StorageError string :=
  match explicit with
  | Some url => Ok (trim_end_matches slash url)
  | None =>
      match env_seed_url src with
      | Some url =>
          let url := trim_end_matches slash url in
          if str_is_empty url then
            Err (Backend "no seed URL provided — set AGENT_PROXY_SEED_URL or pass a URL")
          else Ok url
      | None => Err (Backend "no seed URL provided — set AGENT_PROXY_SEED_URL or pass a URL")
      end
  end.

Definition is_success (status : Z) : bool := (200 <=? status) && (status <? 300).

(** [client.get(url).send()]; [failed] and [returned] word the errors. *)
Definition fetch (url failed returned : string) : Res StorageError (Res string string) :=
  _ ← map_err (fun e => Backend ("failed to create HTTP client: " +:+ e)) (http_client src);
  resp ← map_err (fun e => Backend (failed +:+ e)) (http_get src url);
  if is_success resp.1 then Ok resp.2
  else Err (Backend (returned +:+ status_text src resp.1)).

Definition fetch_manifest (base_url : string) : Res StorageError SeedManifest :=
  let url := base_url +:+ "/seed-manifest.json" in
  resp ← fetch url "failed to fetch manifest: " "manifest fetch returned ";
  map_err (fun e => Backend ("failed to parse manifest from " +:+ url +:+ ": " +:+ e))
    (text ← resp; parse_manifest src text).

Definition fetch_and_apply_entry (base_url name : string) (entry : SeedManifestEntry)
    : Act unit :=
  let url := base_url +:+ "/" +:+ sm_file entry in
  let! resp := st_lift (fetch url ("failed to fetch " +:+ url +:+ ": ")
                          ("fetch " +:+ url +:+ " returned ")) in
  let! body := st_lift (map_err
    (fun e => Backend ("failed to read response body from " +:+ url +:+ ": " +:+ e)) resp) in
  let actual_hash := sha256 src body in
  if negb (String.eqb actual_hash (sm_sha256 entry)) then
    st_err (Backend ("SHA-256 mismatch for " +:+ name +:+ ": expected " +:+ sm_sha256 entry
                      +:+ ", got " +:+ actual_hash))
  else
    let! _ := upsert_entry name body in
    set_metadata (hash_key name) (sm_sha256 entry).

(** The loop over the manifest's entries; the result is the errors. *)
Fixpoint refresh_entries (base_url : string) (entries : list (string * SeedManifestEntry))
    (errors : list string) : Act (list string) := fun d =>
  match entries with
  | [] => (d, Ok errors)
  | (name, entry) :: rest =>
      if bool_decide (get_metadata d (hash_key name) = Some (sm_sha256 entry))
      then refresh_entries base_url rest errors d
      else
        match fetch_and_apply_entry base_url name entry d with
        | (d', Ok _) => refresh_entries base_url rest errors d'
        | (d', Err e) =>
            refresh_entries base_url rest
              (errors ++ [name +:+ ": " +:+ storage_error_message e]) d'
        | (d', Panic) => (d', Panic)
        end
  end.

Definition finish_refresh (base_url : string) (manifest : SeedManifest) (errors : list string)
    : Act SeedStatus :=
  let! _ := match errors with
           | [] =>
               let! _ := set_metadata "version" (uint_to_string (sm_version manifest)) in
               let! _ := set_metadata "last_refresh_at" (now_rfc3339 env) in
               let! _ := set_metadata "last_error" EmptyString in
               let! _ := set_metadata "source" "remote" in
               set_metadata "remote_url" base_url
           | _ => set_metadata "last_error" (join "; " errors)
           end in
  fun d => (d, Ok (build_status d (Some manifest))).

Definition seed_refresh (url : option string) : Act SeedStatus :=
  let! base_url := st_lift (resolve_seed_url url) in
  let! manifest := st_lift (fetch_manifest base_url) in
  writing env (fun d =>
    if sm_version manifest <=? get_local_version_inner d
    then (d, Ok (build_status d (Some manifest)))
    else
      (let! errors := refresh_entries base_url (sm_entries manifest) [] in
       finish_refresh base_url manifest errors) d).

Definition check_remote_manifest (base_url : string) (d : Db)
    : Res StorageError (option (SeedManifest * SeedStatus)) :=
  manifest ← fetch_manifest base_url;
  reading env (fun d => Ok (Some (manifest, build_status d (Some manifest)))) d.

Definition seed_check_remote (url : option string) (d : Db) : Res StorageError SeedStatus :=
  base_url ← resolve_seed_url url;
  reading env (fun d =>
    match fetch_manifest base_url with
    | Ok manifest => Ok (build_status d (Some manifest))
    | Err e =>
        let status := build_status d None in
        Ok {| ss_local_version := ss_local_version status;
              ss_remote_version := ss_remote_version status;
              ss_update_available := ss_update_available status;
              ss_source := ss_source status; ss_entries := ss_entries status;
              ss_last_refresh_at := ss_last_refresh_at status;
              ss_last_error := Some (storage_error_message e) |}
    | Panic => Panic
    end) d.
End Seed.

#[global] Instance sqlite_seed_manager (env : Env) (src : Sources) : SeedManager Db := {|
  Storage.seed_init := seed_init env src;
  Storage.seed_refresh := seed_refresh env src;
  Storage.seed_status := seed_status env;
  Storage.seed_check_remote := seed_check_remote env src
|}.

(** ** Every call returns *)

(** The deserialisers and the HTTP client return. *)
Record SourcesReturn (src : Sources) : Prop := {
  parse_providers_returns j : parse_providers src j <> Panic;
  parse_models_returns j : parse_models src j <> Panic;
  parse_channels_returns j : parse_channels src j <> Panic;
  parse_model_mappings_returns j : parse_model_mappings src j <> Panic;
  parse_manifest_returns j : parse_manifest src j <> Panic;
  http_client_returns : http_client src <> Panic;
  http_get_returns url : match http_get src url with
                         | Ok resp => resp.2 <> Panic | Err _ => True | Panic => False end
}.

Section SeedReturns.
Context (env : Env) (src : Sources) (Hsrc : SourcesReturn src).

Lemma seed_rows_total {A} what (parsed : Res string (list A)) (insert : A -> Act unit) d :
  parsed <> Panic -> (forall x d, (insert x d).2 <> Panic) ->
  (seed_rows what parsed insert d).2 <> Panic.
Proof.
  intros Hp Hi. apply st_bind_total; [by apply map_err_total|]. intros rows d'. revert d'.
  induction rows as [|x rows IH]; intros d'; [done|]. simpl. by apply st_bind_total.
Qed.

Lemma upsert_entry_returns name json d : (upsert_entry env src name json d).2 <> Panic.
Proof.
  unfold upsert_entry.
  repeat (case_bool_decide; simpl; [apply seed_rows_total; [by apply Hsrc|]|]); try done.
  all: intros x d'; unfold insert_provider, insert_model, seed_channel, seed_mapping;
    repeat (match goal with |- context [if ?b then _ else _] => destruct b end); done.
Qed.

Lemma fetch_total url failed returned :
  match fetch src url failed returned with
  | Ok resp => resp <> Panic | Err _ => True | Panic => False end.
Proof.
  unfold fetch. pose proof (http_client_returns src Hsrc) as Hc.
  destruct (http_client src) as [u|e|]; [|done|done]. simpl.
  pose proof (http_get_returns src Hsrc url) as Hg. destruct (http_get src url) as [resp|e|]; [|done..].
  simpl. by destruct (is_success _).
Qed.

Lemma fetch_manifest_total url : fetch_manifest src url <> Panic.
Proof.
  unfold fetch_manifest.
  match goal with |- context [fetch src ?u ?f ?r] =>
    pose proof (fetch_total u f r) as Hf; destruct (fetch src u f r) as [resp|e|] end; [|done..].
  simpl. apply map_err_total, res_bind_total; [done|]. intros text _. by apply Hsrc.
Qed.

Lemma fetch_and_apply_total base name entry d :
  (fetch_and_apply_entry env src base name entry d).2 <> Panic.
Proof.
  unfold fetch_and_apply_entry, st_bind at 1, st_lift at 1. cbv zeta.
  match goal with |- context [fetch src ?u ?f ?r] =>
    pose proof (fetch_total u f r) as Hf; destruct (fetch src u f r) as [resp|e|] end; [|done..].
  apply st_bind_total; [by apply map_err_total|]. intros body d1.
  destruct (negb _); [done|].
  apply st_bind_total; intros; first [apply upsert_entry_returns | done].
Qed.

Lemma refresh_entries_total base entries errors d :
  (refresh_entries env src base entries errors d).2 <> Panic.
Proof.
  revert errors d. induction entries as [|[name entry] rest IH]; intros errors d; [done|].
  cbn [refresh_entries]. case_bool_decide; [apply IH|].
  pose proof (fetch_and_apply_total base name entry d) as Hf.
  by destruct (fetch_and_apply_entry _ _ _ _ _ d) as [d' [u|e|]].
Qed.

Lemma resolve_seed_url_total url : resolve_seed_url src url <> Panic.
Proof. unfold resolve_seed_url. repeat case_match; done. Qed.

#[export] Instance sqlite_seed_returns :
  SeedReturns (SeedManager0 := sqlite_seed_manager env src) Db.
Proof.
  split; intros; cbn [sqlite_seed_manager Storage.seed_refresh Storage.seed_status
    Storage.seed_check_remote].
  - apply st_bind_total; [apply resolve_seed_url_total|]. intros base d.
    apply st_bind_total; [apply fetch_manifest_total|]. intros manifest d1.
    apply writing_total. destruct (_ <=? _); [done|].
    apply st_bind_total; [apply refresh_entries_total|]. intros errors d2.
    apply st_bind_total; [by destruct errors|done].
  - by apply reading_total.
  - apply res_bind_total; [apply resolve_seed_url_total|]. intros base _.
    apply reading_total. pose proof (fetch_manifest_total base). by destruct (fetch_manifest _ _).
Qed.
End SeedReturns.

(** ** Relations kept by every statement *)

Section Acts.
Context (R : Db -> Db -> Prop) {HR : PreOrder R}.

Lemma keeps_writing {A} env (m : Act A) : st_keeps R m -> st_keeps R (writing env m).
Proof. intros Hm d. unfold writing. destruct (pool_error env); [simpl; reflexivity|apply Hm]. Qed.

Context (env : Env) (src : Sources)
  (Hprovider : forall p, st_keeps R (insert_provider env p))
  (Hmodel : forall m, st_keeps R (insert_model env m))
  (Hchannel : forall c, st_keeps R (seed_channel env c))
  (Hmapping : forall m, st_keeps R (seed_mapping env m))
  (Hmetadata : forall k v, st_keeps R (set_metadata k v)).

Lemma keeps_rows {A} what parsed (insert : A -> Act unit) :
  (forall x, st_keeps R (insert x)) -> st_keeps R (seed_rows what parsed insert).
Proof. intros Hi. apply (keeps_bind R); [apply (keeps_lift R)|]. intros rows. by apply (keeps_each R). Qed.

Lemma keeps_entry name json : st_keeps R (upsert_entry env src name json).
Proof.
  unfold upsert_entry.
  repeat (case_bool_decide; [by apply keeps_rows|]); simpl;
    repeat (case_bool_decide; simpl; [by apply keeps_rows|]).
  apply (keeps_err R).
Qed.

Lemma keeps_init : st_keeps R (seed_init env src).
Proof.
  apply keeps_writing. intros d. destruct (0 <? _); [simpl; reflexivity|].
  revert d. apply (keeps_bind R).
  - unfold apply_all_entries.
    repeat (apply (keeps_bind R); [first [apply keeps_entry|by apply (keeps_each R)]|intros _]).
    apply Hmetadata.
  - intros _. apply (keeps_bind R); [apply (keeps_lift R)|]. intros m.
    apply (keeps_bind R); [apply Hmetadata|]. intros _ d. simpl. reflexivity.
Qed.

Lemma keeps_fetch_entry base name entry : st_keeps R (fetch_and_apply_entry env src base name entry).
Proof.
  apply (keeps_bind R); [apply (keeps_lift R)|]. intros resp.
  apply (keeps_bind R); [apply (keeps_lift R)|]. intros body. cbv zeta.
  destruct (negb _); [apply (keeps_err R)|].
  apply (keeps_bind R); [apply keeps_entry|]. intros _. apply Hmetadata.
Qed.

Lemma keeps_entries base entries errors : st_keeps R (refresh_entries env src base entries errors).
Proof.
  revert errors. induction entries as [|[name entry] rest IH]; intros errors d; cbn [refresh_entries].
  { simpl. reflexivity. }
  case_bool_decide; [apply IH|].
  pose proof (keeps_fetch_entry base name entry d) as Hd.
  destruct (fetch_and_apply_entry env src base name entry d) as [d' [u|e|]]; simpl in Hd;
    [etrans; [exact Hd|apply IH]..|done].
Qed.

Lemma keeps_finish base manifest errors : st_keeps R (finish_refresh env base manifest errors).
Proof.
  apply (keeps_bind R); [|intros _ d; simpl; reflexivity].
  destruct errors; [|apply Hmetadata].
  repeat (apply (keeps_bind R); [apply Hmetadata|intros _]). apply Hmetadata.
Qed.

Lemma keeps_refresh url : st_keeps R (seed_refresh env src url).
Proof.
  apply (keeps_bind R); [apply (keeps_lift R)|]. intros base.
  apply (keeps_bind R); [apply (keeps_lift R)|]. intros manifest.
  apply keeps_writing. intros d. destruct (_ <=? _); [simpl; reflexivity|].
  revert d. apply (keeps_bind R); [apply keeps_entries|]. intros errors. apply keeps_finish.
Qed.
End Acts.

(** ** What seeding leaves alone *)

(** What the operator has set on a channel, or the proxy recorded of it. *)
Definition same_settings (c c' : Channel) : Prop :=
  ch_api_key c' = ch_api_key c /\ ch_enabled c' = ch_enabled c /\
  ch_force_protocol c' = ch_force_protocol c /\ ch_created_at c' = ch_created_at c /\
  ch_health_status c' = ch_health_status c /\ ch_cooldown_until c' = ch_cooldown_until c /\
  ch_consecutive_failures c' = ch_consecutive_failures c.

Record only_seeds (d d' : Db) : Prop := {
  keeps_channels : forall id c, stored id d = Some c ->
    exists c', stored id d' = Some c' /\ same_settings c c';
  keeps_mappings : forall id, id ∈ mm_id <$> t_mappings d -> id ∈ mm_id <$> t_mappings d';
  keeps_providers : t_providers d `prefix_of` t_providers d';
  keeps_models : t_models d `prefix_of` t_models d';
  keeps_aliases : t_aliases d' = t_aliases d;
  keeps_costs : t_costs d' = t_costs d;
  keeps_logs : t_switch_logs d' = t_switch_logs d;
  keeps_fees : t_fees d' = t_fees d
}.

#[local] Instance only_seeds_preorder : PreOrder only_seeds.
Proof.
  split.
  - intros d. constructor; try done. intros id c Hc. exists c. split; [done|]. by split_and!.
  - intros a b c [] []. constructor; try congruence; try (etrans; eassumption); [|by eauto].
    intros id x Hx. destruct (keeps_channels0 id x Hx) as (y & Hy & Hs).
    destruct (keeps_channels1 id y Hy) as (z & Hz & Hs'). exists z. split; [done|].
    unfold same_settings in *. intuition congruence.
Qed.

(** A step that touches none of the tables of the operator. *)
Lemma only_seeds_eq d d' :
  t_channels d' = t_channels d -> t_mappings d' = t_mappings d ->
  t_providers d `prefix_of` t_providers d' -> t_models d `prefix_of` t_models d' ->
  t_aliases d' = t_aliases d -> t_costs d' = t_costs d -> t_switch_logs d' = t_switch_logs d ->
  t_fees d' = t_fees d -> only_seeds d d'.
Proof.
  intros Hc Hm. constructor; [|by rewrite Hm|done..].
  unfold stored. rewrite Hc. intros id c Hs. exists c. split; [done|]. by split_and!.
Qed.

Section Kept.
Context (env : Env).

Lemma provider_only_seeds p : st_keeps only_seeds (insert_provider env p).
Proof.
  intros d. unfold insert_provider. destruct (existsb _ _); [simpl; reflexivity|].
  apply only_seeds_eq; try done. by eexists.
Qed.

Lemma model_only_seeds m : st_keeps only_seeds (insert_model env m).
Proof.
  intros d. unfold insert_model. destruct (_ || _); [simpl; reflexivity|].
  destruct (existsb _ _); [|simpl; reflexivity]. apply only_seeds_eq; try done. by eexists.
Qed.

Lemma channel_only_seeds c : st_keeps only_seeds (seed_channel env c).
Proof.
  intros d. unfold seed_channel. destruct (fits_i64 _); [|simpl; reflexivity].
  constructor; try done. intros id x Hx. unfold stored in *. cbn [fst with_channels t_channels].
  destruct (decide (id = sc_id c)) as [->|Hne].
  - rewrite find_upsert by done. rewrite Hx. eexists. split; [done|]. by split_and!.
  - rewrite find_upsert_ne by done. exists x. split; [done|]. by split_and!.
Qed.

Lemma mapping_only_seeds m : st_keeps only_seeds (seed_mapping env m).
Proof.
  intros d. unfold seed_mapping. destruct (existsb _ _); [|simpl; reflexivity].
  constructor; try done.
  - intros id x Hx. exists x. split; [done|]. by split_and!.
  - intros id. cbn [fst with_mappings t_mappings]. unfold upsert_row.
    destruct (existsb (has_mapping_id (mm_id m)) _).
    + intros (x & -> & Hx)%list_elem_of_fmap. apply list_elem_of_fmap.
      exists (if has_mapping_id (mm_id m) x then m else x). split.
      * unfold has_mapping_id. by destruct (String.eqb_spec (mm_id x) (mm_id m)).
      * exact (list_elem_of_fmap_2 (fun x => if has_mapping_id (mm_id m) x then m else x) _ _ Hx).
    + rewrite fmap_app, elem_of_app. by left.
Qed.

Lemma metadata_only_seeds k v : st_keeps only_seeds (set_metadata k v).
Proof. intros d. by apply only_seeds_eq. Qed.
End Kept.

(** ** The invariant, seed data included *)

(** The catalog: unique identifiers and names, and every model of a provider. *)
Record catalog_wf (d : Db) : Prop := {
  wf_provider_ids : NoDup (pr_id <$> t_providers d);
  wf_provider_names : NoDup (pr_name <$> t_providers d);
  wf_model_ids : NoDup (mo_id <$> t_models d);
  wf_model_names : NoDup (mo_client_name <$> t_models d);
  wf_model_providers :
    Forall (fun m => mo_provider_id m ∈ pr_id <$> t_providers d) (t_models d)
}.

Definition keeps_wf (d d' : Db) : Prop :=
  (db_wf d -> db_wf d') /\ (catalog_wf d -> catalog_wf d').

#[local] Instance keeps_wf_preorder : PreOrder keeps_wf.
Proof. split; unfold keeps_wf; red; intuition. Qed.

(** A step that leaves the catalog as it is. *)
Lemma catalog_eq d d' :
  t_providers d' = t_providers d -> t_models d' = t_models d -> catalog_wf d -> catalog_wf d'.
Proof. intros Hp Hm []. constructor; rewrite ?Hp, ?Hm; done. Qed.

(** Appending a row whose two keys are new. *)
Lemma append_unique {A} (k1 k2 : A -> string) x l :
  existsb (fun r => String.eqb (k1 r) (k1 x) || String.eqb (k2 r) (k2 x)) l = false ->
  NoDup (k1 <$> l) -> NoDup (k2 <$> l) ->
  NoDup (k1 <$> (l ++ [x])) /\ NoDup (k2 <$> (l ++ [x])).
Proof.
  intros He H1 H2.
  assert (Hno : forall r, r ∈ l -> k1 r <> k1 x /\ k2 r <> k2 x).
  { intros r Hr. rewrite existsb_false_elem in He. specialize (He r Hr).
    apply orb_false_iff in He as [Ha%String.eqb_neq Hb%String.eqb_neq]. done. }
  split; apply NoDup_snoc_key; try done; intros (r & Hk & Hr)%list_elem_of_fmap;
    destruct (Hno r Hr); congruence.
Qed.

Section KeptWf.
Context (env : Env).

Lemma provider_keeps_wf p : st_keeps keeps_wf (insert_provider env p).
Proof.
  intros d. unfold insert_provider. destruct (existsb _ _) eqn:He; [simpl; reflexivity|].
  split; [by intros []|]. intros [].
  destruct (append_unique pr_id pr_name (seeded_provider env p) (t_providers d)); [done..|].
  constructor; try done. cbn [fst with_providers t_models t_providers].
  eapply Forall_impl; [done|]. intros m Hm. simpl in Hm. rewrite fmap_app, elem_of_app. by left.
Qed.

Lemma model_keeps_wf m : st_keeps keeps_wf (insert_model env m).
Proof.
  intros d. unfold insert_model. destruct (existsb _ _ || _ || _) eqn:He; [simpl; reflexivity|].
  apply orb_false_iff in He as [[He _]%orb_false_iff _].
  destruct (existsb _ (t_providers d)) eqn:Hp; [|simpl; reflexivity].
  apply existsb_key in Hp. split; [by intros []|]. intros [].
  destruct (append_unique mo_id mo_client_name (seeded_model env m) (t_models d)); [done..|].
  constructor; try done. apply Forall_app. split; [done|]. by constructor.
Qed.

Lemma channel_keeps_wf c : st_keeps keeps_wf (seed_channel env c).
Proof.
  intros d. unfold seed_channel. destruct (fits_i64 _); [|simpl; reflexivity].
  split; [|by apply catalog_eq]. by apply (upsert_channel_rows_wf (seeded_channel env c)).
Qed.

Lemma mapping_keeps_wf m : st_keeps keeps_wf (seed_mapping env m).
Proof.
  intros d. unfold seed_mapping. destruct (existsb _ _) eqn:He; [|simpl; reflexivity].
  split; [|by apply catalog_eq]. by apply upsert_mapping_rows_wf.
Qed.

Lemma metadata_keeps_wf k v : st_keeps keeps_wf (set_metadata k v).
Proof.
  intros d. split; [|by apply catalog_eq]. intros []. constructor; try done.
  unfold set_metadata. cbn [fst with_metadata t_metadata].
  apply (NoDup_snoc_key fst); [by apply filter_keys|].
  intros (kv & Hk & [_ Hne]%elem_of_filter_bool)%list_elem_of_fmap.
  rewrite <-Hk in Hne. simpl in Hne. by rewrite String.eqb_refl in Hne.
Qed.
End KeptWf.

(** ** Reachable databases *)

Section Reachable.
Context (src : Sources).

Inductive reachable : Db -> Prop :=
| reach_empty : reachable empty_db
| reach_op env op d :
    (forall n, n <= seq_after_conflict env n) -> reachable d -> reachable (run_op env op d)
| reach_init env d : reachable d -> reachable (seed_init env src d).1
| reach_refresh env url d : reachable d -> reachable (seed_refresh env src url d).1.

Lemma migrate_catalog env d :
  t_providers (migrate env d).1 = t_providers d /\ t_models (migrate env d).1 = t_models d.
Proof.
  unfold migrate, writing. destruct (pool_error env); [done|]. cbn [fst with_version t_providers t_models].
  assert (Hmeta : forall d l, t_providers (foldl add_metadata d l) = t_providers d /\
                              t_models (foldl add_metadata d l) = t_models d).
  { intros d' l. revert d'. induction l as [|x l IH]; intros d'; [done|]. simpl.
    destruct (IH (add_metadata d' x)) as [-> ->]. unfold add_metadata. by destruct (existsb _ _). }
  assert (Halias : forall d l, t_providers (foldl (seed_alias env) d l) = t_providers d /\
                               t_models (foldl (seed_alias env) d l) = t_models d).
  { intros d' l. revert d'. induction l as [|x l IH]; intros d'; [done|]. simpl.
    by destruct (IH (seed_alias env d' x)) as [-> ->]. }
  unfold migration_v2, migration_v1.
  repeat match goal with |- context [if ?b then _ else _] => destruct b end;
    rewrite ?(proj1 (Halias _ _)), ?(proj2 (Halias _ _)),
      ?(proj1 (Hmeta _ _)), ?(proj2 (Hmeta _ _)); done.
Qed.

Lemma run_op_catalog env op d :
  t_providers (run_op env op d) = t_providers d /\ t_models (run_op env op d) = t_models d.
Proof.
  destruct op; [apply migrate_catalog|..]; cbn [run_op];
    unfold upsert_channel, set_channel_enabled, set_channel_api_key, update_channel,
      delete_channel, mark_channel_healthy, record_channel_failure, update_channel_row,
      upsert_mapping, set_mapping_enabled, delete_mapping, upsert_model_alias,
      delete_model_alias, set_model_alias_enabled, insert_cost_record, prune_cost_records,
      insert_switch_log, insert_subscription_fee, writing;
    destruct (pool_error env); try done; cbv zeta;
    repeat match goal with
    | |- context [if ?b then _ else _] => destruct b
    | |- context [match ?o with Some _ => _ | None => _ end] => destruct o
    end; done.
Qed.

(** Cost records are only inserted and pruned. *)
Lemma run_op_costs env op d :
  match op with
  | OpMigrate | OpInsertCost _ => True
  | OpPrune _ => exists keep, run_op env op d = with_costs (List.filter keep (t_costs d)) d
  | _ => t_costs (run_op env op d) = t_costs d
  end.
Proof.
  destruct op; try done; cbn [run_op];
    unfold upsert_channel, set_channel_enabled, set_channel_api_key, update_channel,
      delete_channel, mark_channel_healthy, record_channel_failure, update_channel_row,
      upsert_mapping, set_mapping_enabled, delete_mapping, upsert_model_alias,
      delete_model_alias, set_model_alias_enabled, prune_cost_records,
      insert_switch_log, insert_subscription_fee, writing.
  all: destruct (pool_error env); cbv zeta;
    repeat match goal with
    | |- context [if ?b then _ else _] => destruct b
    | |- context [match ?o with Some _ => _ | None => _ end] => destruct o
    end; try done.
  - exists (fun _ => true). rewrite filter_true by done. by destruct d.
  - eexists. reflexivity.
Qed.

Lemma seeding_keeps_wf env :
  st_keeps keeps_wf (seed_init env src) /\ forall url, st_keeps keeps_wf (seed_refresh env src url).
Proof.
  split; [apply keeps_init|intros url; apply keeps_refresh]; try apply _;
    eauto using provider_keeps_wf, model_keeps_wf, channel_keeps_wf, mapping_keeps_wf,
      metadata_keeps_wf.
Qed.

(** C21: Whatever sequence of operations a database has seen, seeding and failed
    operations included: identifiers are unique in every table, and the names
    of providers, models and aliases too (those of channels and the models of
    mappings may repeat); every mapping belongs to a channel
    and every model to a provider; generated identifiers are below the sequence
    number; no cost is a NaN. *)
Theorem database_invariant d : reachable d -> db_wf d /\ catalog_wf d.
Proof.
  induction 1 as [|env op d Hseq _ [IH IHc]|env d _ [IH IHc]|env url d _ [IH IHc]].
  - split; [apply empty_db_wf|]. constructor; simpl; constructor.
  - split; [by apply run_op_wf|]. destruct (run_op_catalog env op d).
    by apply (catalog_eq d).
  - destruct (proj1 (seeding_keeps_wf env) d). auto.
  - destruct (proj2 (seeding_keeps_wf env) url d). auto.
Qed.

Lemma seeding_only_seeds env :
  st_keeps only_seeds (seed_init env src) /\ forall url, st_keeps only_seeds (seed_refresh env src url).
Proof.
  split; [apply (keeps_init only_seeds)|intros url; apply (keeps_refresh only_seeds)];
    eauto using provider_only_seeds, model_only_seeds, channel_only_seeds, mapping_only_seeds,
      metadata_only_seeds.
Qed.

(** C24: Seeding, at start-up or from a remote, never touches what the operator has
    set or the proxy has recorded: no row is deleted; keys, switches, forced
    protocols and health of channels stay, as do aliases, cost records, logs
    and fees; providers and models are only added. *)
Theorem seeding_keeps_settings env d :
  only_seeds d (seed_init env src d).1 /\ forall url, only_seeds d (seed_refresh env src url d).1.
Proof.
  destruct (seeding_only_seeds env) as [Hi Hr]. split; [apply Hi|intros url; apply Hr].
Qed.
End Reachable.

(** ** Versions and verification *)

Lemma find_filter_ne {V} k k' (l : list (string * V)) :
  k <> k' -> List.find (fun kv => String.eqb kv.1 k') (List.filter (fun kv => negb (String.eqb kv.1 k)) l) =
             List.find (fun kv => String.eqb kv.1 k') l.
Proof.
  intros Hne. induction l as [|[x v] l IH]; [done|]. simpl.
  destruct (String.eqb_spec x k) as [->|Hx]; simpl.
  - rewrite IH. by destruct (String.eqb_spec k k').
  - by rewrite IH.
Qed.

Lemma get_set_metadata k v d : get_metadata (set_metadata k v d).1 k = Some v.
Proof.
  unfold get_metadata, set_metadata. cbn [fst with_metadata t_metadata]. rewrite find_snoc.
  destruct (List.find _ _) as [kv|] eqn:Hf; simpl; [|by rewrite String.eqb_refl].
  apply find_Some_elem in Hf as [[_ Hne]%elem_of_filter_bool Heq]. by rewrite Heq in Hne.
Qed.

Lemma get_set_metadata_ne k k' v d :
  k <> k' -> get_metadata (set_metadata k v d).1 k' = get_metadata d k'.
Proof.
  intros Hne. unfold get_metadata, set_metadata. cbn [fst with_metadata t_metadata].
  rewrite find_snoc, find_filter_ne by done.
  destruct (List.find _ _); [done|]. simpl. by destruct (String.eqb_spec k k').
Qed.

Lemma version_set_metadata z d :
  in_u32 z -> get_local_version_inner (set_metadata "version" (uint_to_string z) d).1 = z.
Proof.
  intros Hz. unfold get_local_version_inner. rewrite get_set_metadata. simpl.
  unfold in_u32 in Hz. rewrite parse_uint_to_string; [done|done|].
  unfold u32_max in Hz. lia.
Qed.

Lemma hash_key_inj a b : hash_key a = hash_key b -> a = b.
Proof.
  unfold hash_key. revert b. induction a as [|x a IH]; intros b Heq.
  - destruct b as [|y b]; [done|]. exfalso. apply (f_equal String.length) in Heq.
    rewrite !str_app_length in Heq. simpl in Heq. lia.
  - destruct b as [|y b].
    + exfalso. apply (f_equal String.length) in Heq. rewrite !str_app_length in Heq. simpl in Heq. lia.
    + rewrite !str_app_cons in Heq. injection Heq as -> Heq. f_equal. by apply IH.
Qed.

Lemma hash_key_ends name : ends_with ":sha256" (hash_key name) = true.
Proof. unfold hash_key. apply ends_with_app. Qed.

(** The rows of an entry are written without touching the metadata. *)
Definition same_metadata (d d' : Db) : Prop := t_metadata d' = t_metadata d.

#[local] Instance same_metadata_preorder : PreOrder same_metadata.
Proof. split; unfold same_metadata; red; congruence. Qed.

Lemma entry_same_metadata env src name json : st_keeps same_metadata (upsert_entry env src name json).
Proof.
  apply keeps_entry; [apply _|..].
  - intros p d. unfold insert_provider. by destruct (existsb _ _).
  - intros m d. unfold insert_model. destruct (_ || _); [done|]. by destruct (existsb _ _).
  - intros c d. unfold seed_channel. by destruct (fits_i64 _).
  - intros m d. unfold seed_mapping. by destruct (existsb _ _).
Qed.

Section Versions.
Context (env : Env) (src : Sources).

(** Initialisation is idempotent: once it has succeeded it does nothing any
    more, and reports the version of the embedded manifest, unless a version
    was there before, which stays. *)
Theorem seed_init_idempotent m d d1 s :
  parse_manifest src (embedded_manifest src) = Ok m -> 0 < sm_version m <= u32_max ->
  seed_init env src d = (d1, Ok s) ->
  seed_init env src d1 = (d1, Ok s) /\
  (if 0 <? get_local_version_inner d then d1 = d
   else ss_local_version s = sm_version m /\ get_local_version_inner d1 = sm_version m).
Proof.
  intros Hm Hv. unfold seed_init, writing.
  destruct (pool_error env) eqn:Hpool; [done|].
  destruct (0 <? get_local_version_inner d) eqn:Hlocal.
  { intros [= <- Hs]. by rewrite Hlocal, Hs. }
  rewrite st_bind_Ok. intros (d2 & [] & _ & Hrest). rewrite Hm in Hrest.
  unfold st_bind, st_lift, map_err in Hrest.
  remember (set_metadata "version" (uint_to_string (sm_version m)) d2).1 as d3 eqn:Hd3.
  assert (Hver : get_local_version_inner d3 = sm_version m)
    by (subst d3; apply version_set_metadata; unfold in_u32; lia).
  assert (Hset : set_metadata "version" (uint_to_string (sm_version m)) d2 = (d3, Ok tt))
    by (by rewrite Hd3).
  rewrite Hset in Hrest. injection Hrest as <- Hs. rewrite Hver.
  replace (0 <? sm_version m) with true by lia. split; [by rewrite Hs|].
  unfold seed_status, reading in Hs. rewrite Hpool in Hs. injection Hs as <-.
  split; [exact Hver|done].
Qed.

(** ** A refresh only applies what it has verified *)

(** The file of the entry can be fetched and is the one the manifest means. *)
Definition file_of (base : string) (entry : SeedManifestEntry) (body : string) : Prop :=
  exists status, http_get src (base +:+ "/" +:+ sm_file entry) = Ok (status, Ok body) /\
    is_success status = true /\ sha256 src body = sm_sha256 entry.

Lemma file_of_unique base entry b1 b2 :
  file_of base entry b1 -> file_of base entry b2 -> b1 = b2.
Proof. intros (s1 & H1 & _) (s2 & H2 & _). congruence. Qed.

(** What a refresh does with one entry of its manifest: nothing, when the entry's
    hash is the one noted; the rows of its file, when all could be written, with
    a note of the hash; the rows that could be written before one failed, and no
    note; nothing at all without a file of that hash.  The flag says whether the
    entry is now applied. *)
Inductive entry_step (base : string) : string * SeedManifestEntry -> Db -> bool -> Db -> Prop :=
| step_current name entry d :
    get_metadata d (hash_key name) = Some (sm_sha256 entry) ->
    entry_step base (name, entry) d true d
| step_applied name entry body d d1 :
    file_of base entry body -> upsert_entry env src name body d = (d1, Ok tt) ->
    entry_step base (name, entry) d true (set_metadata (hash_key name) (sm_sha256 entry) d1).1
| step_failed name entry body d d1 r :
    file_of base entry body -> upsert_entry env src name body d = (d1, r) -> r <> Ok tt ->
    entry_step base (name, entry) d false d1
| step_unverified ne d : entry_step base ne d false d.

(** A run through entries, in order, with the flag of each. *)
Inductive entries_run (base : string)
    : list (string * SeedManifestEntry) -> Db -> list bool -> Db -> Prop :=
| run_nil d : entries_run base [] d [] d
| run_cons ne rest d d1 d2 ok oks :
    entry_step base ne d ok d1 -> entries_run base rest d1 oks d2 ->
    entries_run base (ne :: rest) d (ok :: oks) d2.

Lemma fetch_Ok url f r body :
  fetch src url f r = Ok body -> exists status, http_get src url = Ok (status, body) /\
                                                is_success status = true.
Proof.
  unfold fetch. intros (u & _ & Hrest)%res_bind_Ok.
  apply res_bind_Ok in Hrest as ([status b] & Hget & Hif). simpl in Hif.
  destruct (http_get src url) as [[st bo]|e|] eqn:Hg; simpl in Hget; [|done..].
  injection Hget as <- <-. destruct (is_success st) eqn:Hs; [|done]. injection Hif as <-. eauto.
Qed.

Lemma fetch_manifest_parsed base m :
  fetch_manifest src base = Ok m -> exists text, parse_manifest src text = Ok m.
Proof.
  unfold fetch_manifest. intros (resp & _ & Hm)%res_bind_Ok.
  destruct (text ← resp; parse_manifest src text) as [m'|e|] eqn:Hp; simpl in Hm; [|done..].
  injection Hm as ->. apply res_bind_Ok in Hp as (text & _ & Hp). eauto.
Qed.

(** One entry: on success its hash is recorded, and the other hashes and the
    version are as before. *)
Lemma fetch_entry_verified base name entry d :
  let '(d', r) := fetch_and_apply_entry env src base name entry d in
  entry_step base (name, entry) d (is_ok r) d' /\
  (r = Ok tt -> get_metadata d' (hash_key name) = Some (sm_sha256 entry)) /\
  (forall key, key <> hash_key name -> get_metadata d' key = get_metadata d key).
Proof.
  unfold fetch_and_apply_entry, st_bind at 1, st_lift at 1.
  destruct (fetch _ _ _ _) as [resp|e|] eqn:Hf; [|by split_and!; [constructor|..]..].
  apply fetch_Ok in Hf as (status & Hget & Hs). unfold st_bind at 1, st_lift.
  destruct resp as [body|e|]; simpl; [|by split_and!; [constructor|..]..].
  destruct (String.eqb_spec (sha256 src body) (sm_sha256 entry)) as [Hh|]; simpl;
    [|by split_and!; [constructor|..]].
  assert (Hfile : file_of base entry body) by by exists status.
  pose proof (entry_same_metadata env src name body d) as Hmeta. unfold st_bind.
  assert (Hsame : forall key, get_metadata (upsert_entry env src name body d).1 key =
                              get_metadata d key)
    by (intros key; unfold get_metadata; by rewrite Hmeta).
  destruct (upsert_entry env src name body d) as [d1 [[]|e|]] eqn:Hup; cbn [fst] in *;
    [|by split_and!; [by eapply step_failed|..]..].
  pose proof (step_applied base name entry body d d1 Hfile Hup) as Hstep.
  pose proof (get_set_metadata (hash_key name) (sm_sha256 entry) d1) as Hgot.
  pose proof (fun key Hne => get_set_metadata_ne (hash_key name) key (sm_sha256 entry) d1 Hne) as Hne.
  assert (Hok : (set_metadata (hash_key name) (sm_sha256 entry) d1).2 = Ok tt) by done.
  destruct (set_metadata (hash_key name) (sm_sha256 entry) d1) as [d2 r]; cbn [fst snd] in *. subst r.
  split_and!; [done|done|]. intros key Hk. rewrite Hne by done. apply Hsame.
Qed.

(** What the loop over [entries] leaves of a database and errors: it has run
    through a prefix of them, all unless something panics, and without a new
    error all of them are applied. *)
Definition entries_outcome (base : string)
    (entries : list (string * SeedManifestEntry)) (errors : list string) (d : Db)
    (x : Db * Res StorageError (list string)) : Prop :=
  let '(d', r) := x in
  (exists done oks, done `prefix_of` entries /\ entries_run base done d oks d' /\
     (r = Ok errors -> done = entries /\ Forall (eq true) oks)) /\
  (forall key, (forall ne, ne ∈ entries -> key <> hash_key ne.1) ->
     get_metadata d' key = get_metadata d key) /\
  (forall errors', r = Ok errors' -> exists more, errors' = errors ++ more /\
     (more = [] -> forall ne, ne ∈ entries ->
        get_metadata d' (hash_key ne.1) = Some (sm_sha256 ne.2))).

(** One more entry in front, with its error if it could not be applied. *)
Lemma outcome_cons base name entry rest ok error errors d d1 x :
  name ∉ rest.*1 -> entry_step base (name, entry) d ok d1 ->
  (forall key, key <> hash_key name -> get_metadata d1 key = get_metadata d key) ->
  (error = [] -> ok = true /\ get_metadata d1 (hash_key name) = Some (sm_sha256 entry)) ->
  entries_outcome base rest (errors ++ error) d1 x ->
  entries_outcome base ((name, entry) :: rest) errors d x.
Proof.
  intros Hfresh Hv1 Hk1 He1 Hx. destruct x as [d' r]. destruct Hx as (Hv & Hk & He).
  assert (Hother : forall ne, ne ∈ rest -> hash_key name <> hash_key ne.1).
  { intros ne Hne Heq%hash_key_inj. apply Hfresh. rewrite Heq. by apply (list_elem_of_fmap_2 fst). }
  split_and!.
  - destruct Hv as (run & oks & Hpre & Hrun & Hall). exists ((name, entry) :: run), (ok :: oks).
    split; [by apply prefix_cons|]. split; [by econstructor|]. intros Hr.
    destruct (He errors Hr) as (more & Hmore & _). rewrite <-app_assoc in Hmore.
    assert (error = []) as ->.
    { apply (f_equal length) in Hmore. rewrite !length_app in Hmore. destruct error; [done|]. simpl in Hmore. lia. }
    rewrite app_nil_r in Hall. destruct (Hall Hr) as [-> Hoks]. destruct (He1 eq_refl) as [-> _].
    split; [done|by constructor].
  - intros key Hkey. rewrite Hk; [apply Hk1, (Hkey (name, entry)), list_elem_of_here|].
    intros ne Hne. apply Hkey. by right.
  - intros errors' Hr. destruct (He errors' Hr) as (more & -> & Hall). exists (error ++ more).
    rewrite app_assoc. split; [done|]. intros [Hnil Hm]%app_nil ne [->|Hne]%elem_of_cons; [|auto].
    simpl. rewrite Hk by auto. by apply He1.
Qed.

Lemma refresh_entries_verified base entries errors d :
  NoDup entries.*1 ->
  entries_outcome base entries errors d (refresh_entries env src base entries errors d).
Proof.
  revert errors d. induction entries as [|[name entry] rest IH]; intros errors d Hnd;
    cbn [refresh_entries].
  { split_and!; [|done|].
    - exists [], []. by repeat constructor.
    - intros ? [= <-]. exists []. rewrite app_nil_r. split; [done|]. by intros _ ne ?%elem_of_nil. }
  rewrite fmap_cons, NoDup_cons in Hnd. destruct Hnd as [Hfresh Hnd]. simpl in Hfresh.
  case_bool_decide as Hsame.
  { apply (outcome_cons _ _ _ _ true [] _ _ d); [done|by constructor|done|done|].
    rewrite app_nil_r. by apply IH. }
  pose proof (fetch_entry_verified base name entry d) as Hf.
  destruct (fetch_and_apply_entry _ _ _ _ _ _) as [d1 [[]|e|]]; destruct Hf as (Hv1 & Hok & Hk1).
  - apply (outcome_cons _ _ _ _ true [] _ _ d1); [done..|auto|]. rewrite app_nil_r. by apply IH.
  - by eapply outcome_cons; [..|by apply IH].
  - split_and!; [|intros key Hkey; apply Hk1, (Hkey (name, entry)), list_elem_of_here|done].
    exists [(name, entry)], [false]. split; [apply prefix_cons, prefix_nil|].
    split; [eapply run_cons; [exact Hv1|constructor]|done].
Qed.

Lemma hash_key_not key : ends_with ":sha256" key = false -> forall name, key <> hash_key name.
Proof. intros Hk name ->. by rewrite hash_key_ends in Hk. Qed.

(** The last notes of a refresh are in the metadata: the version moves only without
    errors, and no hash changes. *)
Lemma finish_verified base m errors d :
  in_u32 (sm_version m) ->
  let d' := (finish_refresh env base m errors d).1 in
  (exists notes, d' = with_metadata notes d) /\
  get_local_version_inner d' = (match errors with [] => sm_version m
                                | _ => get_local_version_inner d end) /\
  (forall name, get_metadata d' (hash_key name) = get_metadata d (hash_key name)).
Proof.
  intros Hv. destruct errors as [|e errors]; cbv zeta.
  - change (finish_refresh env base m [] d).1 with
      (set_metadata "remote_url" base (set_metadata "source" "remote"
        (set_metadata "last_error" EmptyString (set_metadata "last_refresh_at" (now_rfc3339 env)
          (set_metadata "version" (uint_to_string (sm_version m)) d).1).1).1).1).1.
    split_and!; [by eexists| |].
    + rewrite <-(version_set_metadata (sm_version m) d Hv) at 2.
      unfold get_local_version_inner. by rewrite !get_set_metadata_ne by done.
    + intros name. rewrite !get_set_metadata_ne; [done|by apply hash_key_not..].
  - change (finish_refresh env base m (e :: errors) d).1 with
      (set_metadata "last_error" (join "; " (e :: errors)) d).1.
    split_and!; [by eexists|by unfold get_local_version_inner; rewrite get_set_metadata_ne|].
    intros name. rewrite get_set_metadata_ne; [done|by apply hash_key_not].
Qed.

End Versions.

(** ** Refreshing until it goes through

    The rows of an entry can refer to those of another entry, and the entries of
    a manifest come in no particular order. *)

Section Convergence.
Context (env : Env) (src : Sources).

Definition mapping_entry (name : string) : Prop := name = "modelMappings" \/ name = "model_mappings".

(** The file has the form its entry asks for. *)
Definition parses (name json : string) : Prop :=
  if bool_decide (name = "providers") then is_ok (parse_providers src json) = true
  else if bool_decide (name = "models") then is_ok (parse_models src json) = true
  else if bool_decide (name = "channels") then
    exists rows, parse_channels src json = Ok rows /\
      forall c, c ∈ rows -> fits_i64 (sc_monthly_quota c) = true
  else mapping_entry name /\ is_ok (parse_model_mappings src json) = true.

(** What its rows refer to is there. *)
Definition refers (name json : string) (d : Db) : Prop :=
  (name = "models" -> forall rows m, parse_models src json = Ok rows -> m ∈ rows ->
     sd_provider_id m ∈ pr_id <$> t_providers d) /\
  (mapping_entry name -> forall rows m, parse_model_mappings src json = Ok rows -> m ∈ rows ->
     is_Some (stored (mm_channel_id m) d)).

(** Its rows are there; a provider is not added to one of its name. *)
Definition added (name json : string) (d : Db) : Prop :=
  (name = "providers" -> forall rows p, parse_providers src json = Ok rows -> p ∈ rows ->
     exists r, r ∈ t_providers d /\ (pr_id r = sp_id p \/ pr_name r = sp_name p)) /\
  (name = "channels" -> forall rows c, parse_channels src json = Ok rows -> c ∈ rows ->
     is_Some (stored (sc_id c) d)).

Lemma provider_id_mono d d' id :
  only_seeds d d' -> id ∈ pr_id <$> t_providers d -> id ∈ pr_id <$> t_providers d'.
Proof.
  intros Hd Hid. destruct (keeps_providers _ _ Hd) as [l ->]. rewrite fmap_app.
  apply elem_of_app. by left.
Qed.

Lemma stored_mono d d' id : only_seeds d d' -> is_Some (stored id d) -> is_Some (stored id d').
Proof. intros Hd [c Hc]. destruct (keeps_channels _ _ Hd _ _ Hc) as (c' & Hc' & _). by exists c'. Qed.

Lemma refers_mono name json d d' : only_seeds d d' -> refers name json d -> refers name json d'.
Proof.
  intros Hd [Hm Hc]. split; [eauto using provider_id_mono|].
  intros Hn rows m Hp Hin. apply (stored_mono d); [done|]. by eapply Hc.
Qed.

Lemma added_mono name json d d' : only_seeds d d' -> added name json d -> added name json d'.
Proof.
  intros Hd [Hp Hc]. split.
  - intros Hn rows p Hrows Hin. destruct (Hp Hn rows p Hrows Hin) as (r & Hr & Heq).
    exists r. split; [|done]. destruct (keeps_providers _ _ Hd) as [l ->].
    apply elem_of_app. by left.
  - intros Hn rows c Hrows Hin. apply (stored_mono d); [done|]. by eapply Hc.
Qed.

(** *** The statements of an entry *)

Lemma each_total {A} (insert : A -> Act unit) l d :
  (forall x d, (insert x d).2 <> Panic) -> (st_each insert l d).2 <> Panic.
Proof.
  intros Hi. revert d. induction l as [|x l IH]; intros d; [done|]. simpl. unfold st_bind.
  specialize (Hi x d). destruct (insert x d) as [d1 [[]|e|]]; [apply IH|done|done].
Qed.

Lemma each_ready {A} (insert : A -> Act unit) l d :
  (forall x, st_keeps only_seeds (insert x)) ->
  (forall x d', x ∈ l -> only_seeds d d' -> (insert x d').2 = Ok tt) ->
  (st_each insert l d).2 = Ok tt.
Proof.
  intros Hkeeps. revert d. induction l as [|x l IH]; intros d Hok; [done|]. simpl. unfold st_bind.
  pose proof (Hok x d ltac:(left) ltac:(reflexivity)) as Hx. pose proof (Hkeeps x d) as Hd.
  destruct (insert x d) as [d1 r]. simpl in Hx, Hd. subst r. apply IH.
  intros y d' Hy Hd'. apply Hok; [by right|]. by etrans.
Qed.

Lemma each_added {A} (insert : A -> Act unit) (P : A -> Db -> Prop) l d d' :
  (forall x, st_keeps only_seeds (insert x)) ->
  (forall x d, (insert x d).2 = Ok tt -> P x (insert x d).1) ->
  (forall x d d', only_seeds d d' -> P x d -> P x d') ->
  st_each insert l d = (d', Ok tt) -> forall x, x ∈ l -> P x d'.
Proof.
  intros Hkeeps Hadd Hmono. revert d.
  induction l as [|x l IH]; intros d Hl y Hy; [by apply elem_of_nil in Hy|].
  cbn [st_each] in Hl. apply st_bind_Ok in Hl as (d1 & [] & Hx & Hl).
  apply elem_of_cons in Hy as [->|Hy]; [|by eapply IH].
  apply (Hmono x d1).
  - pose proof (keeps_each only_seeds insert l Hkeeps d1) as Hd. by rewrite Hl in Hd.
  - specialize (Hadd x d). rewrite Hx in Hadd. by apply Hadd.
Qed.

Lemma upsert_entry_total name json d :
  parses name json -> (upsert_entry env src name json d).2 <> Panic.
Proof.
  unfold parses, upsert_entry, seed_rows, st_bind at 1 2 3 4, st_lift, mapping_entry.
  case_bool_decide; [|case_bool_decide; [|case_bool_decide]].
  - destruct (parse_providers src json); try done. intros _. apply each_total. intros p d'.
    unfold insert_provider. by destruct (existsb _ _).
  - destruct (parse_models src json); try done. intros _. apply each_total. intros x d'.
    unfold insert_model. destruct (_ || _); [done|]. by destruct (existsb _ _).
  - intros (rows & -> & _). apply each_total. intros c d'. unfold seed_channel.
    by destruct (fits_i64 _).
  - intros [Hn Hp]. destruct (parse_model_mappings src json); try done.
    replace (_ || _) with true by (symmetry; rewrite orb_true_iff, !bool_decide_eq_true; tauto).
    apply each_total. intros x d'. unfold seed_mapping. by destruct (existsb _ _).
Qed.

Lemma upsert_entry_ready name json d :
  parses name json -> refers name json d -> (upsert_entry env src name json d).2 = Ok tt.
Proof.
  unfold parses, refers, upsert_entry, seed_rows, st_bind at 1 2 3 4, st_lift.
  intros Hparse [Hmodels Hmaps].
  case_bool_decide; [|case_bool_decide; [|case_bool_decide]].
  - destruct (parse_providers src json) as [rows| |]; [|done..]. apply each_ready;
      [apply provider_only_seeds|]. intros p d' _ _. unfold insert_provider.
    by destruct (existsb _ _).
  - destruct (parse_models src json) as [rows| |]; [|done..]. apply each_ready;
      [apply model_only_seeds|].
    intros m d' Hm Hd. unfold insert_model. destruct (_ || _); [done|].
    pose proof (provider_id_mono _ _ _ Hd (Hmodels ltac:(done) _ m eq_refl Hm))
      as (p & Hid & Hp)%list_elem_of_fmap.
    replace (existsb _ (t_providers d')) with true; [done|]. symmetry. apply existsb_elem.
    exists p. split; [done|]. by apply String.eqb_eq.
  - destruct Hparse as (rows & -> & Hfit). apply each_ready; [apply channel_only_seeds|].
    intros c d' Hc _. unfold seed_channel. by rewrite Hfit.
  - destruct Hparse as [Hn Hparse]. destruct (parse_model_mappings src json) as [rows| |]; [|done..].
    replace (_ || _) with true by (symmetry; rewrite orb_true_iff, !bool_decide_eq_true; done).
    apply each_ready; [apply mapping_only_seeds|]. intros m d' Hm Hd. unfold seed_mapping.
    destruct (stored_mono _ _ _ Hd (Hmaps Hn _ m eq_refl Hm)) as [c Hc].
    apply find_Some_elem in Hc as [Hin Hid].
    replace (existsb _ _) with true; [done|]. symmetry. apply existsb_elem. by exists c.
Qed.

Lemma provider_added p d :
  exists r, r ∈ t_providers (insert_provider env p d).1 /\
    (pr_id r = sp_id p \/ pr_name r = sp_name p).
Proof.
  unfold insert_provider. destruct (existsb _ _) eqn:He; simpl.
  - apply existsb_elem in He as (r & Hr & Heq). exists r. split; [done|].
    apply orb_true_iff in Heq as [Heq%String.eqb_eq|Heq%String.eqb_eq]; auto.
  - exists (seeded_provider env p). split; [|by left]. apply elem_of_app. right. by left.
Qed.

Lemma channel_added c d :
  (seed_channel env c d).2 = Ok tt -> is_Some (stored (sc_id c) (seed_channel env c d).1).
Proof.
  unfold seed_channel. destruct (fits_i64 _); [|done]. intros _. unfold stored. simpl.
  rewrite find_upsert by done. by eexists.
Qed.

Lemma upsert_entry_added name json d d' :
  upsert_entry env src name json d = (d', Ok tt) -> added name json d'.
Proof.
  unfold upsert_entry. intros Hu. split; intros -> rows x Hrows Hin; simpl in Hu;
    unfold seed_rows, st_bind, st_lift in Hu; rewrite Hrows in Hu; simpl in Hu.
  - revert x Hin. eapply (each_added _ (fun p d => exists r, r ∈ t_providers d /\
      (pr_id r = sp_id p \/ pr_name r = sp_name p))); [| | |exact Hu].
    + apply provider_only_seeds.
    + intros p d0 _. apply provider_added.
    + intros p d0 d1 Hd (r & Hr & Heq). exists r. split; [|done].
      destruct (keeps_providers _ _ Hd) as [l ->]. apply elem_of_app. by left.
  - revert x Hin. eapply (each_added _ (fun c d => is_Some (stored (sc_id c) d)));
      [| | |exact Hu].
    + apply channel_only_seeds.
    + apply channel_added.
    + intros c d0 d1. apply stored_mono.
Qed.

(** *** The entries of a manifest *)

Lemma fetch_file base name entry body d :
  http_client src = Ok tt -> file_of src base entry body ->
  let '(d1, r) := upsert_entry env src name body d in
  fetch_and_apply_entry env src base name entry d =
    match r with
    | Ok _ => set_metadata (hash_key name) (sm_sha256 entry) d1
    | Err e => (d1, Err e)
    | Panic => (d1, Panic)
    end.
Proof.
  intros Hclient (status & Hget & Hs & Hh).
  unfold fetch_and_apply_entry, fetch, st_bind at 1 2, st_lift. rewrite Hclient, Hget. simpl.
  rewrite Hs. simpl. rewrite Hh, String.eqb_refl. simpl. unfold st_bind.
  by destruct (upsert_entry env src name body d) as [d1 [[]|e|]].
Qed.

Lemma fetch_only_seeds base name entry :
  st_keeps only_seeds (fetch_and_apply_entry env src base name entry).
Proof.
  apply (keeps_fetch_entry only_seeds); auto using provider_only_seeds, model_only_seeds,
    channel_only_seeds, mapping_only_seeds, metadata_only_seeds.
Qed.

Lemma entries_only_seeds base entries errors :
  st_keeps only_seeds (refresh_entries env src base entries errors).
Proof.
  apply (keeps_entries only_seeds); auto using provider_only_seeds, model_only_seeds,
    channel_only_seeds, mapping_only_seeds, metadata_only_seeds.
Qed.

(** One entry whose file is as it should be. *)
Lemma fetch_applies base name entry body d :
  http_client src = Ok tt -> file_of src base entry body -> parses name body ->
  let '(d1, r) := fetch_and_apply_entry env src base name entry d in
  r <> Panic /\ (refers name body d -> r = Ok tt) /\
  (name = "providers" \/ name = "channels" -> added name body d1).
Proof.
  intros Hclient Hfile Hparse. pose proof (fetch_file base name entry body d Hclient Hfile) as Hf.
  pose proof (upsert_entry_total name body d Hparse) as Htotal.
  pose proof (upsert_entry_ready name body d Hparse) as Hready.
  pose proof (upsert_entry_added name body d) as Hadded.
  destruct (upsert_entry env src name body d) as [d1 r]. rewrite Hf. clear Hf. simpl in *.
  assert (Hnone : name = "providers" \/ name = "channels" -> r = Ok tt).
  { intros Hn. apply Hready. unfold refers, mapping_entry.
    split; intros Hm; destruct Hn as [->| ->]; try done; by destruct Hm. }
  destruct r as [[]|e|]; [|by split_and!; [..|intros Hn; specialize (Hnone Hn)]|done].
  split_and!; [done..|]. intros _.
  apply (added_mono _ _ d1); [apply metadata_only_seeds|by apply Hadded].
Qed.

(** A manifest whose files can all be fetched and read. *)
Definition readable (base : string) (entries : list (string * SeedManifestEntry)) : Prop :=
  forall name entry, (name, entry) ∈ entries -> exists body, file_of src base entry body /\ parses name body.

(** A refresh adds all providers and channels of files that have changed. *)
Lemma first_pass base m entries errors d :
  http_client src = Ok tt -> (forall ne, ne ∈ entries -> ne ∈ sm_entries m) ->
  NoDup entries.*1 -> readable base entries ->
  let '(d', r) := refresh_entries env src base entries errors d in
  (exists errors', r = Ok errors') /\
  forall name entry body, (name, entry) ∈ entries -> name = "providers" \/ name = "channels" ->
    get_metadata d (hash_key name) <> Some (sm_sha256 entry) -> file_of src base entry body ->
    added name body d'.
Proof.
  intros Hclient. revert errors d.
  induction entries as [|[name entry] rest IH]; intros errors d Hin Hnd Hread;
    cbn [refresh_entries]; [split; [eauto|]; intros ? ? ? []%elem_of_nil|].
  rewrite fmap_cons, NoDup_cons in Hnd. destruct Hnd as [Hfresh Hnd]. simpl in Hfresh.
  assert (Hrin : forall ne, ne ∈ rest -> ne ∈ sm_entries m) by (intros ne ?; apply Hin; by right).
  assert (Hrread : readable base rest) by (intros n e ?; apply Hread; by right).
  case_bool_decide as Hsame.
  { specialize (IH errors d Hrin Hnd Hrread). destruct (refresh_entries _ _ _ _ _ _) as [d' r].
    destruct IH as [Hok Hadd]. split; [done|]. intros n e body [[= -> ->]|He]%elem_of_cons; [done|].
    by apply Hadd. }
  destruct (Hread name entry ltac:(left)) as (body & Hfile & Hparse).
  pose proof (fetch_applies base name entry body d Hclient Hfile Hparse) as Happ.
  pose proof (fetch_entry_verified env src base name entry d) as Hf.
  destruct (fetch_and_apply_entry _ _ _ _ _ _) as [d1 r1].
  destruct Happ as (Htotal & _ & Hadded). destruct Hf as (_ & _ & Hother).
  assert (Hgo : forall es, let '(d', r) := refresh_entries env src base rest es d1 in
    (exists errors', r = Ok errors') /\ forall n e b, (n, e) ∈ (name, entry) :: rest ->
      n = "providers" \/ n = "channels" -> get_metadata d (hash_key n) <> Some (sm_sha256 e) ->
      file_of src base e b -> added n b d').
  { intros es. specialize (IH es d1 Hrin Hnd Hrread).
    pose proof (entries_only_seeds base rest es d1) as Hd.
    destruct (refresh_entries _ _ _ _ _ _) as [d' r]. destruct IH as [Hok Hadd]. split; [done|].
    intros n e b [[= -> ->]|He]%elem_of_cons Hn Hnew Hb.
    - rewrite (file_of_unique src _ _ _ _ Hb Hfile). by apply (added_mono _ _ d1); [|apply Hadded].
    - apply (Hadd n e); [done..| |done]. rewrite Hother; [done|]. intros Heq%hash_key_inj.
      apply Hfresh. rewrite <-Heq. by apply (list_elem_of_fmap_2 fst _ (n, e)). }
  destruct r1 as [[]|e|]; [apply Hgo|apply Hgo|done].
Qed.

(** Once everything referred to is there, all entries can be applied. *)
Lemma second_pass base entries errors d :
  http_client src = Ok tt -> readable base entries ->
  (forall name entry body, (name, entry) ∈ entries -> file_of src base entry body ->
     refers name body d) ->
  (refresh_entries env src base entries errors d).2 = Ok errors.
Proof.
  intros Hclient. revert d.
  induction entries as [|[name entry] rest IH]; intros d Hread Hall; cbn [refresh_entries]; [done|].
  assert (Hrread : readable base rest) by (intros n e ?; apply Hread; by right).
  case_bool_decide; [apply IH; [done|intros n e b He; apply (Hall n e b); by right]|].
  destruct (Hread name entry ltac:(left)) as (body & Hfile & Hparse).
  pose proof (fetch_applies base name entry body d Hclient Hfile Hparse) as Happ.
  pose proof (fetch_only_seeds base name entry d) as Hd.
  destruct (fetch_and_apply_entry _ _ _ _ _ _) as [d1 r]. simpl in Hd.
  destruct Happ as (_ & Hok & _). rewrite (Hok (Hall name entry body ltac:(left) Hfile)).
  apply IH; [done|]. intros n e b He Hb. apply (refers_mono _ _ d); [done|].
  apply (Hall n e b); [by right|done].
Qed.

(** The database is at the manifest's version and the last refresh had no errors. *)
Definition settled (m : SeedManifest) (d : Db) : Prop :=
  get_local_version_inner d = sm_version m /\ get_metadata d "last_error" = Some EmptyString.

Lemma finish_settled base m d :
  in_u32 (sm_version m) ->
  let '(d', r) := finish_refresh env base m [] d in
  settled m d' /\ r = Ok (build_status d' (Some m)).
Proof.
  intros Hv. pose proof (finish_verified env base m [] d Hv) as (_ & Hver & _).
  change (finish_refresh env base m [] d) with
    ((set_metadata "remote_url" base (set_metadata "source" "remote"
        (set_metadata "last_error" EmptyString (set_metadata "last_refresh_at" (now_rfc3339 env)
          (set_metadata "version" (uint_to_string (sm_version m)) d).1).1).1).1).1,
     Ok (E := StorageError) (build_status (set_metadata "remote_url" base (set_metadata "source" "remote"
        (set_metadata "last_error" EmptyString (set_metadata "last_refresh_at" (now_rfc3339 env)
          (set_metadata "version" (uint_to_string (sm_version m)) d).1).1).1).1).1 (Some m))) in *.
  cbn [fst] in Hver. split; [|done]. split; [done|].
  rewrite !(get_set_metadata_ne _ "last_error") by done. apply get_set_metadata.
Qed.

Lemma status_settled m d :
  settled m d ->
  let s := build_status d (Some m) in
  ss_local_version s = sm_version m /\ ss_update_available s = false /\ ss_last_error s = None.
Proof.
  intros [Hv He]. simpl. rewrite Hv, He. split_and!; [done| |done]. apply Z.ltb_irrefl.
Qed.

(** The identifier is there before, or in a file that has changed. *)
Definition supplied_channel (base : string) (m : SeedManifest) (d : Db) (id : string) : Prop :=
  is_Some (stored id d) \/
  exists entry body rows c, ("channels", entry) ∈ sm_entries m /\
    get_metadata d (hash_key "channels") <> Some (sm_sha256 entry) /\ file_of src base entry body /\
    parse_channels src body = Ok rows /\ c ∈ rows /\ sc_id c = id.

Definition supplied_provider (base : string) (m : SeedManifest) (d d1 : Db) (id : string) : Prop :=
  id ∈ pr_id <$> t_providers d \/
  exists entry body rows p, ("providers", entry) ∈ sm_entries m /\
    get_metadata d (hash_key "providers") <> Some (sm_sha256 entry) /\ file_of src base entry body /\
    parse_providers src body = Ok rows /\ p ∈ rows /\ sp_id p = id /\
    (forall r, r ∈ t_providers d1 -> pr_name r = sp_name p -> pr_id r = id).

(** After a refresh that got through the loop, whatever errors it met. *)
Lemma references_supplied base m d d1 :
  only_seeds d d1 ->
  (forall name entry body, (name, entry) ∈ sm_entries m -> name = "providers" \/ name = "channels" ->
     get_metadata d (hash_key name) <> Some (sm_sha256 entry) -> file_of src base entry body ->
     added name body d1) ->
  (forall entry body rows x, ("models", entry) ∈ sm_entries m -> file_of src base entry body ->
     parse_models src body = Ok rows -> x ∈ rows ->
     supplied_provider base m d d1 (sd_provider_id x)) ->
  (forall name entry body rows x, mapping_entry name -> (name, entry) ∈ sm_entries m ->
     file_of src base entry body -> parse_model_mappings src body = Ok rows -> x ∈ rows ->
     supplied_channel base m d (mm_channel_id x)) ->
  forall name entry body, (name, entry) ∈ sm_entries m -> file_of src base entry body ->
    refers name body d1.
Proof.
  intros Hd Hadd Hmodels Hmaps name entry body Hin Hfile. split.
  - intros -> rows x Hrows Hx.
    destruct (Hmodels entry body rows x Hin Hfile Hrows Hx)
      as [Hid|(e & b & ps & p & He & Hnew & Hb & Hps & Hp & <- & Hname)];
      [by apply (provider_id_mono d)|].
    destruct (proj1 (Hadd _ e b He ltac:(by left) Hnew Hb) eq_refl ps p Hps Hp)
      as (r & Hr & [Heq|Heq]).
    + rewrite <-Heq. by apply list_elem_of_fmap_2.
    + rewrite <-(Hname r Hr Heq). by apply list_elem_of_fmap_2.
  - intros Hn rows x Hrows Hx.
    destruct (Hmaps name entry body rows x Hn Hin Hfile Hrows Hx)
      as [Hid|(e & b & cs & c & He & Hnew & Hb & Hcs & Hc & <-)]; [by apply (stored_mono d)|].
    exact (proj2 (Hadd _ e b He ltac:(by right) Hnew Hb) eq_refl cs c Hcs Hc).
Qed.

Lemma seed_refresh_eq url base m d :
  pool_error env = None -> resolve_seed_url src url = Ok base -> fetch_manifest src base = Ok m ->
  seed_refresh env src url d =
    if sm_version m <=? get_local_version_inner d then (d, Ok (build_status d (Some m)))
    else match refresh_entries env src base (sm_entries m) [] d with
         | (d', Ok errors) => finish_refresh env base m errors d'
         | (d', Err e) => (d', Err e)
         | (d', Panic) => (d', Panic)
         end.
Proof.
  intros Hpool Hurl Hman. unfold seed_refresh, st_bind at 1 2, st_lift, writing.
  by rewrite Hurl, Hman, Hpool.
Qed.

Lemma refresh_only_seeds url : st_keeps only_seeds (seed_refresh env src url).
Proof.
  apply (keeps_refresh only_seeds); auto using provider_only_seeds, model_only_seeds,
    channel_only_seeds, mapping_only_seeds, metadata_only_seeds.
Qed.

Lemma first_refresh url base m d :
  pool_error env = None -> http_client src = Ok tt ->
  resolve_seed_url src url = Ok base -> fetch_manifest src base = Ok m ->
  in_u32 (sm_version m) -> NoDup (sm_entries m).*1 -> get_local_version_inner d < sm_version m ->
  readable base (sm_entries m) ->
  let d1 := (seed_refresh env src url d).1 in
  settled m d1 \/ get_local_version_inner d1 < sm_version m /\
    forall name entry body, (name, entry) ∈ sm_entries m -> name = "providers" \/ name = "channels" ->
      get_metadata d (hash_key name) <> Some (sm_sha256 entry) -> file_of src base entry body ->
      added name body d1.
Proof.
  intros Hpool Hclient Hurl Hman Hv Hnd Hnew Hread.
  rewrite (seed_refresh_eq url base m) by done. replace (_ <=? _) with false by lia.
  pose proof (first_pass base m (sm_entries m) [] d Hclient (fun _ H => H) Hnd Hread) as Hpass.
  pose proof (refresh_entries_verified env src base (sm_entries m) [] d Hnd) as Hent.
  destruct (refresh_entries _ _ _ _ _ _) as [d' r]. destruct Hpass as [[errors ->] Hadd].
  destruct Hent as (_ & Hkeys & _). destruct errors as [|e errors].
  - left. pose proof (finish_settled base m d' Hv) as Hf.
    destruct (finish_refresh _ _ _ _ _). by destruct Hf.
  - right. destruct (finish_verified env base m (e :: errors) d' Hv) as (_ & Hver & _).
    split; [|intros n en b ? ? ? ?; apply (added_mono _ _ d'); [apply metadata_only_seeds|eauto]].
    rewrite Hver. unfold get_local_version_inner in *. rewrite Hkeys; [done|].
    intros ne _. by apply hash_key_not.
Qed.

(** C23: Two refreshes are enough: when the files of a newer manifest can be
    fetched, match their hashes and can be read, and every provider and channel
    its rows refer to is in the database or in one of its files that has
    changed, the second refresh leaves the database at the manifest's version
    and reports no error, in whatever order the entries come.  (A provider
    counts unless its name is taken by another one.) *)
Theorem refresh_converges url base m d :
  pool_error env = None -> http_client src = Ok tt ->
  resolve_seed_url src url = Ok base -> fetch_manifest src base = Ok m ->
  in_u32 (sm_version m) -> NoDup (sm_entries m).*1 -> get_local_version_inner d < sm_version m ->
  readable base (sm_entries m) ->
  let d1 := (seed_refresh env src url d).1 in
  (forall entry body rows x, ("models", entry) ∈ sm_entries m -> file_of src base entry body ->
     parse_models src body = Ok rows -> x ∈ rows ->
     supplied_provider base m d d1 (sd_provider_id x)) ->
  (forall name entry body rows x, mapping_entry name -> (name, entry) ∈ sm_entries m ->
     file_of src base entry body -> parse_model_mappings src body = Ok rows -> x ∈ rows ->
     supplied_channel base m d (mm_channel_id x)) ->
  let '(d2, r) := seed_refresh env src url d1 in
  get_local_version_inner d2 = sm_version m /\
  exists status, r = Ok status /\ ss_local_version status = sm_version m /\
    ss_update_available status = false /\ ss_last_error status = None.
Proof.
  intros Hpool Hclient Hurl Hman Hv Hnd Hnew Hread d1 Hmodels Hmaps.
  pose proof (refresh_only_seeds url d) as Hd. fold d1 in Hd.
  pose proof (first_refresh url base m d Hpool Hclient Hurl Hman Hv Hnd Hnew Hread) as Hfirst.
  fold d1 in Hfirst.
  rewrite (seed_refresh_eq url base m) by done. destruct Hfirst as [Hs|[Hlt Hadd]].
  { destruct Hs as [Hver He]. rewrite Hver, Z.leb_refl. split; [done|]. eexists.
    split; [done|]. by apply status_settled. }
  replace (_ <=? _) with false by lia.
  pose proof (second_pass base (sm_entries m) [] d1 Hclient Hread
    (references_supplied base m d d1 Hd Hadd Hmodels Hmaps)) as Hok.
  destruct (refresh_entries _ _ _ _ _ _) as [d' r]. simpl in Hok. subst r.
  pose proof (finish_settled base m d' Hv) as Hf.
  destruct (finish_refresh _ _ _ _ _) as [d2 r]. destruct Hf as [Hs ->].
  split; [by destruct Hs|]. eexists. split; [done|]. by apply status_settled.
Qed.
End Convergence.

(** ** What the status and the order of a refresh miss *)

(** The embedded manifest calls the entry of the mappings [modelMappings]; the
    status looks for [model_mappings].  Under such a manifest the mappings are
    never reported as changed, whatever their hash. *)
Lemma status_misses_mappings d m :
  (forall ne, ne ∈ sm_entries m -> ne.1 <> "model_mappings") ->
  let e := entry_status d (Some m) "model_mappings" in
  se_remote_sha256 e = None /\ se_changed e = false.
Proof.
  intros Hno. unfold entry_status. simpl.
  destruct (List.find _ (sm_entries m)) as [ne|] eqn:Hf.
  - apply find_Some_elem in Hf as [Hin Heq%String.eqb_eq]. by destruct (Hno ne Hin).
  - simpl. by destruct (get_metadata d _).
Qed.

(** ** A sample seed source, for the examples *)

Module SampleSeed.
Definition parse {A} (rows : list (string * A)) (s : string) : Res string A :=
  match List.find (fun kv => String.eqb kv.1 s) rows with
  | Some kv => Ok kv.2
  | None => Err "expected value"
  end.

Definition provider : SeedProvider := {| sp_id := "p"; sp_name := "P"; sp_created_at := 0 |}.

Definition model : SeedModel :=
  {| sd_id := "m"; sd_provider_id := "p"; sd_client_name := "sonnet"; sd_price_input := f64_one;
     sd_price_output := f64_one; sd_currency := "USD"; sd_context_window := 1000;
     sd_created_at := 0 |}.

Definition channel : SeedChannel :=
  {| sc_id := "c"; sc_name := "C"; sc_api_key := EmptyString; sc_protocol := "openai_chat";
     sc_protocols := "[]"; sc_is_builtin := true; sc_enabled := true;
     sc_billing_type := "metered"; sc_monthly_quota := None; sc_quota_policy := "fallback";
     sc_priority := 1 |}.

Definition entry (file : string) : SeedManifestEntry :=
  {| sm_file := file; sm_sha256 := "hash of " +:+ file |}.

Definition manifest (version : Z) (names : list (string * string)) : SeedManifest :=
  {| sm_version := version; sm_min_schema_version := 1; sm_updated_at := "2026-06-05";
     sm_entries := (fun nf => (nf.1, entry nf.2)) <$> names |}.

(** The files of version 2 add a channel and a mapping of it; [entries] are the
    entries of its manifest in iteration order. *)
Definition sources (entries : list (string * string)) : Sources := {|
  embedded_providers := "providers";
  embedded_models := "models";
  embedded_channels := "none";
  embedded_model_mappings := "none";
  embedded_manifest := "manifest";
  parse_providers := parse [("providers", [provider])];
  parse_models := parse [("models", [model])];
  parse_channels := parse [("none", []); ("channels", [channel])];
  parse_model_mappings := parse [("none", []); ("mappings", [SampleDb.mapping "x" "c"])];
  parse_manifest := parse [("manifest", manifest 1 []); ("remote", manifest 2 entries)];
  sha256 s := "hash of " +:+ s;
  http_client := Ok tt;
  http_get url :=
    parse [("http://h/seed-manifest.json", (200, Ok "remote"));
           ("http://h/channels", (200, Ok "channels"));
           ("http://h/mappings", (200, Ok "mappings"));
           ("http://h/forged", (200, Ok "channels"))] url;
  status_text := int_to_string;
  env_seed_url := None
|}.

Definition channels_first := [("channels", "channels"); ("modelMappings", "mappings")].
Definition mappings_first := [("modelMappings", "mappings"); ("channels", "channels")].

Definition migrated : Db := (migrate SampleDb.env empty_db).1.
Definition seeded (entries : list (string * string)) : Db :=
  (seed_init SampleDb.env (sources entries) migrated).1.
Definition refreshed (entries : list (string * string)) (d : Db) : Db :=
  (seed_refresh SampleDb.env (sources entries) (Some "http://h/") d).1.
End SampleSeed.

Lemma database_invariant_witness :
  let d := SampleSeed.refreshed SampleSeed.channels_first
             (run_op SampleDb.env (OpInsertCost (SampleDb.cost "1" "p" 10 100))
                (SampleSeed.seeded SampleSeed.channels_first)) in
  length (t_models d) = 1%nat /\ length (t_mappings d) = 1%nat /\ length (t_costs d) = 1%nat /\
  db_wf d /\ catalog_wf d.
Proof.
  split_and!; [vm_compute; reflexivity..| |];
    apply (database_invariant (SampleSeed.sources SampleSeed.channels_first));
    apply reach_refresh, (reach_op _ SampleDb.env); try (intros n; simpl; lia);
    apply reach_init, (reach_op _ SampleDb.env OpMigrate); try (intros n; simpl; lia);
    apply reach_empty.
Defined.

Lemma seed_init_idempotent_witness :
  let src := SampleSeed.sources [] in
  let d := SampleSeed.seeded [] in
  exists s, seed_init SampleDb.env src d = (d, Ok s) /\ ss_local_version s = 1.
Proof.
  intros src d.
  destruct (seed_init SampleDb.env src SampleSeed.migrated) as [d1 [s|e|]] eqn:E;
    [|vm_compute in E; discriminate E..].
  destruct (seed_init_idempotent SampleDb.env src (SampleSeed.manifest 1 [])
              SampleSeed.migrated d1 s) as [Hagain Hv];
    [vm_compute; reflexivity|vm_compute; split; [reflexivity|discriminate]|exact E|].
  exists s. replace d with d1 by (unfold d, SampleSeed.seeded; fold src; rewrite E; reflexivity).
  split; [exact Hagain|].
  assert (Hz : (0 <? get_local_version_inner SampleSeed.migrated) = false) by (vm_compute; reflexivity).
  rewrite Hz in Hv. exact (proj1 Hv).
Defined.


(** The mappings come first: one refresh is not enough, two are. *)
Lemma refresh_converges_witness :
  let d := SampleSeed.seeded SampleSeed.mappings_first in
  let d1 := SampleSeed.refreshed SampleSeed.mappings_first d in
  get_local_version_inner d1 = 1 /\
  get_local_version_inner (SampleSeed.refreshed SampleSeed.mappings_first d1) = 2.
Proof.
  intros d d1. split; [vm_compute; reflexivity|].
  set (src := SampleSeed.sources SampleSeed.mappings_first).
  assert (Hmaps : file_of src "http://h" (SampleSeed.entry "mappings") "mappings")
    by (exists 200; split_and!; vm_compute; reflexivity).
  assert (Hchans : file_of src "http://h" (SampleSeed.entry "channels") "channels")
    by (exists 200; split_and!; vm_compute; reflexivity).
  pose proof (refresh_converges SampleDb.env src (Some "http://h/") "http://h"
    (SampleSeed.manifest 2 SampleSeed.mappings_first) d eq_refl eq_refl
    ltac:(vm_compute; reflexivity) ltac:(vm_compute; reflexivity)
    ltac:(vm_compute; split; discriminate) ltac:(apply (bool_decide_unpack _); vm_compute; exact I)
    ltac:(vm_compute; reflexivity)) as H.
  cbv zeta in H. change ((seed_refresh SampleDb.env src (Some "http://h/") d).1) with d1 in H.
  unfold SampleSeed.refreshed. fold src.
  destruct (seed_refresh SampleDb.env src (Some "http://h/") d1) as [d2 r].
  simpl. apply H; clear H.
  - intros name entry [[= -> ->]|[[= -> ->]|[]%elem_of_nil]%elem_of_cons]%elem_of_cons.
    + exists "mappings". split; [exact Hmaps|]. split; [by left|reflexivity].
    + exists "channels". split; [exact Hchans|]. exists [SampleSeed.channel]. split; [reflexivity|].
      intros c ->%list_elem_of_singleton. reflexivity.
  - intros entry body rows x [[=]|[[=]|[]%elem_of_nil]%elem_of_cons]%elem_of_cons.
  - intros name entry body rows x Hn He Hb Hrows Hx. right.
    exists (SampleSeed.entry "channels"), "channels", [SampleSeed.channel], SampleSeed.channel.
    split; [right; left|]. split; [vm_compute; discriminate|]. split; [exact Hchans|].
    split; [reflexivity|]. split; [by left|].
    apply elem_of_cons in He as [[= -> ->]|[[= -> ->]|[]%elem_of_nil]%elem_of_cons];
      [|destruct Hn as [Hn|Hn]; discriminate Hn].
    rewrite (file_of_unique src _ _ _ _ Hb Hmaps) in Hrows. injection Hrows as <-.
    apply list_elem_of_singleton in Hx as ->. reflexivity.
Defined.

(** A seeded channel the operator has deleted is not seeded again as long as its
    file is the same; a mapping of it then fails every refresh, which changes
    nothing any more, and the version stays behind for good. *)
Lemma deleted_channel_blocks_refresh :
  let first := SampleSeed.refreshed SampleSeed.mappings_first
                 (SampleSeed.seeded SampleSeed.mappings_first) in
  let d := SampleSeed.refreshed SampleSeed.mappings_first
             (delete_channel SampleDb.env "c" first).1 in
  SampleSeed.refreshed SampleSeed.mappings_first d = d /\
  get_local_version_inner d = 1 /\ t_mappings d = [].
Proof. split_and!; vm_compute; reflexivity. Qed.
