(* ===== verification/Probe.v ===== *)
(** Health probes: [apps/server/src/health_probe.rs].

    A probe asks the first protocol of a channel for one token of its cheapest
    model.  The HTTP client is a parameter. *)

From S2P Require Import Prelude RustStr Float64 Json Storage.
Local Open Scope Z_scope.

Inductive ProbeResult :=
| PrHealthy | PrInvalidKey | PrRateLimited | PrUnreachable | PrNoModels | PrNoProtocols
| PrUnknown.

#[export] Instance ProbeResult_eq_dec : EqDecision ProbeResult.
Proof. solve_decision. Defined.

Definition probe_is_healthy (r : ProbeResult) : bool :=
  match r with PrHealthy | PrRateLimited => true | _ => false end.

Definition as_health_status (r : ProbeResult) : string :=
  match r with
  | PrHealthy | PrRateLimited => "Healthy"
  | PrInvalidKey | PrUnreachable | PrUnknown => "Degraded"
  | PrNoModels | PrNoProtocols => "Unavailable"
  end.

Record ProbeResponse := {
  pb_result : ProbeResult;
  pb_model : string;
  pb_latency_ms : Z;
  pb_http_status : Z
}.

(** An answer is a status, or an error that may carry one. *)
Inductive Answer := Answered (status : Z) | Failed (status : option Z).

Definition fst_lt (x : f64) (best : option (f64 * string)) : bool :=
  match best with None => true | Some (b, _) => f64_lt x b end.

(** The cheapest of the priced names, the first among equals. *)
Fixpoint cheapest (l : list (f64 * string)) (best : option (f64 * string))
    : option (f64 * string) :=
  match l with
  | [] => best
  | (price, name) :: l' =>
      cheapest l' (if fst_lt price best then Some (price, name) else best)
  end.

Section Probe.
Context {J : SerdeJson} {C : ColumnCodec} {S : Type} {HS : Storage S}.

(** A request as handed to the HTTP client: the body is sent as its JSON text,
    a header the client refuses makes the sending fail. *)
Record ProbeRequest := {
  pq_url : string;
  pq_headers : list (string * string);
  pq_body : Value
}.

(** The client: whether it can be built, and the answer to a request with its
    latency in milliseconds. *)
Record ProbeClient := {
  probe_client_ok : bool;
  send_request : ProbeRequest -> Z * Answer
}.

Definition opt_of {A} (r : Res StorageError A) : option A :=
  match r with Ok a => Some a | _ => None end.

(** The price of a mapping: that of the first model of its client name. *)
Definition priced (models : list Storage.Model) (m : ModelMapping) : option (f64 * string) :=
  model ← List.find (fun x => String.eqb (md_client_name x) (mm_client_name m)) models;
  Some (f64_add (md_price_input model) (md_price_output model), mm_upstream_name m).

Definition find_cheapest_model (s : S) (channel_id : string) : option string :=
  mappings ← opt_of (list_mappings channel_id s);
  let enabled := List.filter mm_enabled mappings in
  match enabled with
  | [] => None
  | _ =>
      all_models ← opt_of (list_models None s);
      snd <$> cheapest (omap (priced all_models) enabled) None
  end.

Definition chat_body (model_name : string) : Value :=
  VObject (list_to_map
    [("model", VString model_name); ("max_tokens", VU64 1);
     ("messages", VArray [VObject (list_to_map [("role", VString "user");
                                                 ("content", VString "hi")])])]).

Definition build_probe_request (protocol : ProtocolEntry) (model_name : string)
    : option (string * Value) :=
  let base_url := trim_end_matches slash (pe_base_url protocol) in
  if bool_decide (pe_protocol protocol = "openai_chat") then
    Some (base_url +:+ "/v1/chat/completions", chat_body model_name)
  else if bool_decide (pe_protocol protocol = "anthropic_messages") then
    Some (base_url +:+ "/v1/messages", chat_body model_name)
  else if bool_decide (pe_protocol protocol = "openai_responses") then
    Some (base_url +:+ "/v1/responses",
          VObject (list_to_map [("model", VString model_name); ("input", VString "hi")]))
  else None.

Definition probe_headers (channel : Channel) (protocol : ProtocolEntry) : list (string * string) :=
  let api_key := ch_api_key channel in
  ("Content-Type", "application/json") ::
  (if str_is_empty api_key then []
   else if bool_decide (pe_protocol protocol = "anthropic_messages")
   then [("x-api-key", api_key); ("anthropic-version", "2023-06-01")]
   else [("Authorization", "Bearer " +:+ api_key)]).

Definition result_of_status (status : Z) : ProbeResult :=
  if (200 <=? status) && (status <=? 299) then PrHealthy
  else if (status =? 401) || (status =? 403) then PrInvalidKey
  else if status =? 429 then PrRateLimited
  else PrUnknown.

Definition send_probe (client : ProbeClient) (channel : Channel) (protocol : ProtocolEntry)
    (url : string) (body : Value) (model_name : string) : ProbeResponse :=
  if negb (probe_client_ok client) then
    {| pb_result := PrUnreachable; pb_model := model_name; pb_latency_ms := 0;
       pb_http_status := 0 |}
  else
    let '(latency, answer) := send_request client
      {| pq_url := url; pq_headers := probe_headers channel protocol; pq_body := body |} in
    match answer with
    | Answered status =>
        {| pb_result := result_of_status status; pb_model := model_name;
           pb_latency_ms := latency; pb_http_status := status |}
    | Failed status =>
        {| pb_result := PrUnreachable; pb_model := model_name; pb_latency_ms := latency;
           pb_http_status := default 0 status |}
    end.

Definition no_probe (r : ProbeResult) (model : string) : ProbeResponse :=
  {| pb_result := r; pb_model := model; pb_latency_ms := 0; pb_http_status := 0 |}.

Definition probe_channel (client : ProbeClient) (s : S) (channel : Channel) : ProbeResponse :=
  match default [] (parse_protocols (ch_protocols channel)) with
  | [] => no_probe PrNoProtocols EmptyString
  | first_protocol :: _ =>
      match find_cheapest_model s (ch_id channel) with
      | None => no_probe PrNoModels EmptyString
      | Some model_name =>
          match build_probe_request first_protocol model_name with
          | None => no_probe PrNoProtocols model_name
          | Some (url, body) => send_probe client channel first_protocol url body model_name
          end
      end
  end.
End Probe.

(** ** Facts *)

#[local] Ltac compare_pos a b :=
  let H := fresh in
  pose proof (Pos.compare_spec a b : CompareSpec _ _ _ (Pos.compare_cont Eq a b)) as H;
  destruct H; try done.

(** [<] on doubles is transitive, NaN included. *)
Lemma f64_lt_trans x y z : f64_lt x y = true -> f64_lt y z = true -> f64_lt x z = true.
Proof.
  unfold f64_lt, SFltb.
  destruct x as [[]|[]| |[] m1 e1], y as [[]|[]| |[] m2 e2], z as [[]|[]| |[] m3 e3];
    simpl; try done;
    destruct (Z.compare_spec e1 e2), (Z.compare_spec e2 e3), (Z.compare_spec e1 e3);
    try done; try lia;
    compare_pos m1 m2; compare_pos m2 m3; compare_pos m1 m3; lia.
Qed.

Lemma f64_lt_irrefl x : f64_lt x x = false.
Proof.
  assert (Hp : forall a : positive, Pos.compare_cont Eq a a = Eq) by (intros; apply Pos.compare_refl).
  unfold f64_lt, SFltb. destruct x as [[]|[]| |[] m e]; simpl; try done;
    by rewrite Z.compare_refl, Hp.
Qed.

Lemma cheapest_correct l best :
  match cheapest l best with
  | Some (p, name) =>
      ((p, name) ∈ l \/ best = Some (p, name)) /\
      (forall q n, (q, n) ∈ l -> f64_lt q p = false) /\
      (forall q n, best = Some (q, n) -> p = q \/ f64_lt p q = true)
  | None => l = [] /\ best = None
  end.
Proof.
  revert best. induction l as [|[price name] l IH]; intros best; simpl.
  - destruct best as [[p n]|]; [|done]. split_and!; [by right|by intros ?? ?%elem_of_nil|].
    intros q m [= -> ->]. by left.
  - specialize (IH (if fst_lt price best then Some (price, name) else best)).
    destruct (cheapest l _) as [[p n]|]; [|destruct IH as [_ IH]; by destruct (fst_lt price best) eqn:E;
      [|destruct best as [[]|]]].
    destruct IH as (Hin & Hmin & Hbest).
    assert (Hno : forall q, f64_lt q p = true -> p = price \/ f64_lt p price = true -> f64_lt q price = true).
    { intros q Hq [->|Hlt]; [done|by eapply f64_lt_trans]. }
    split_and!; [|intros q m [[= -> ->]|Hq]%elem_of_cons; [|by eapply Hmin]|].
    + destruct Hin as [|Hin]; [left; by right|].
      destruct (fst_lt price best); [injection Hin as -> ->; left; left|by right].
    + destruct (f64_lt price p) eqn:Hpp; [|done].
      destruct (fst_lt price best) eqn:Hlt.
      * specialize (Hno price Hpp (Hbest price name eq_refl)). by rewrite f64_lt_irrefl in Hno.
      * destruct best as [[b bn]|]; [|done]. simpl in Hlt.
        destruct (Hbest b bn eq_refl) as [->|Hb]; [by rewrite Hpp in Hlt|].
        by rewrite (f64_lt_trans price p b Hpp Hb) in Hlt.
    + intros q m ->. simpl in Hbest. destruct (f64_lt price q) eqn:Hlt; [|by eapply Hbest].
      right. destruct (Hbest price name eq_refl) as [->|Hb]; [done|by eapply f64_lt_trans].
Qed.

Section ProbeFacts.
Context {J : SerdeJson} {C : ColumnCodec} {S : Type} {HS : Storage S}.

(** The model of a probe is one of an enabled mapping of the channel, and no
    enabled mapping of the channel has a cheaper one; without a priced enabled
    mapping there is none. *)
Theorem find_cheapest_model_correct (s : S) id mappings models :
  list_mappings id s = Ok mappings -> list_models None s = Ok models ->
  match find_cheapest_model s id with
  | Some name => exists m price, m ∈ mappings /\ mm_enabled m = true /\
      priced models m = Some (price, name) /\
      forall m' price' name', m' ∈ mappings -> mm_enabled m' = true ->
        priced models m' = Some (price', name') -> f64_lt price' price = false
  | None => forall m, m ∈ mappings -> mm_enabled m = true -> priced models m = None
  end.
Proof.
  intros Hmap Hmod. unfold find_cheapest_model. rewrite Hmap, Hmod. simpl.
  assert (Henabled : forall m, m ∈ List.filter mm_enabled mappings <->
    m ∈ mappings /\ mm_enabled m = true) by (intros m; apply elem_of_filter_bool).
  destruct (List.filter mm_enabled mappings) as [|m0 l] eqn:Hf.
  { intros m Hm He. by pose proof (proj2 (Henabled m) (conj Hm He)) as ?%elem_of_nil. }
  rewrite <-Hf in *. clear Hf m0 l.
  pose proof (cheapest_correct (omap (priced models) (List.filter mm_enabled mappings)) None) as Hc.
  destruct (cheapest _ None) as [[price name]|]; simpl.
  - destruct Hc as ([Hin|] & Hmin & _); [|done].
    apply list_elem_of_omap in Hin as (m & [Hm He]%Henabled & Hp). exists m, price.
    split_and!; [done..|]. intros m' p' n' Hm' He' Hp'. apply (Hmin p' n').
    apply list_elem_of_omap. exists m'. by rewrite Henabled.
  - destruct Hc as [Hnil _]. intros m Hm He. destruct (priced models m) as [pn|] eqn:Hp; [|done].
    assert (Hin : pn ∈ omap (priced models) (List.filter mm_enabled mappings))
      by (apply list_elem_of_omap; exists m; by rewrite Henabled).
    rewrite Hnil in Hin. by apply elem_of_nil in Hin.
Qed.
End ProbeFacts.
