(* ===== verification/AdminAuth.v ===== *)
(** The key of the admin API: [apps/server/src/admin_auth.rs]. *)

From S2P Require Import Prelude RustStr Http Auth.
Local Open Scope Z_scope.

Definition ADMIN_KEY_HEADER : string := "x-admin-key".
Definition ADMIN_KEY_ENV : string := "AGENT_PROXY_ADMIN_KEY".

Record AdminKey := { ak_key : string; ak_generated : bool }.

(** [{:02x}] of a byte. *)
Definition hex_digit (n : Z) : Ascii.ascii :=
  Ascii.ascii_of_N (Z.to_N (if n <? 10 then 48 + n else 87 + n)).

Definition hex_byte (n : Z) : string :=
  String (hex_digit (n / 16)) (String (hex_digit (n mod 16)) EmptyString).

(** [random] are the bytes of [rand::random::<u8>()], one per step of the
    range [0..32]. *)
Definition resolve_admin_key_with (env_lookup : string -> option string) (random : nat -> Z)
    : AdminKey :=
  let generated := {| ak_key := join EmptyString ((fun i => hex_byte (random i)) <$> seq 0 32);
                      ak_generated := true |} in
  match env_lookup ADMIN_KEY_ENV with
  | Some key =>
      let key := trim key in
      if str_is_empty key then generated else {| ak_key := key; ak_generated := false |}
  | None => generated
  end.

(** The loop over the zipped bytes: [diff |= x ^ y] on a [u8]. *)
Fixpoint diff_bytes (diff : Z) (a b : bytes) : Z :=
  match a, b with
  | String x a', String y b' => diff_bytes (Z.lor diff (Z.lxor (byte_val x) (byte_val y))) a' b'
  | _, _ => diff
  end.

Definition constant_time_eq (a b : string) : bool :=
  if negb (str_len a =? str_len b) then false else diff_bytes 0 a b =? 0.

(** [next] is the rest of the service; [Err] is the status of a rejection. *)
Definition admin_auth_middleware {A} (expected_key : string) (req : HttpRequest)
    (next : HttpRequest -> A) : Res StatusCode A :=
  let provided := default EmptyString (header_str ADMIN_KEY_HEADER (rq_headers req)) in
  if constant_time_eq provided expected_key then Ok (next req) else Err 401.

(** ** Correctness *)

Lemma byte_val_inj x y : byte_val x = byte_val y -> x = y.
Proof.
  unfold byte_val. intros Heq%N2Z.inj.
  by rewrite <-(Ascii.ascii_N_embedding x), <-(Ascii.ascii_N_embedding y), Heq.
Qed.

Lemma byte_val_nonneg x : 0 <= byte_val x.
Proof. unfold byte_val. lia. Qed.

Lemma lxor_eq_0 x y : Z.lxor x y = 0 <-> x = y.
Proof. split; [apply Z.lxor_eq|intros ->; apply Z.lxor_nilpotent]. Qed.

Lemma diff_bytes_0 diff a b :
  String.length a = String.length b -> diff_bytes diff a b = 0 <-> diff = 0 /\ a = b.
Proof.
  revert diff b. induction a as [|x a IH]; intros diff [|y b] Hlen; try done; simpl.
  { tauto. }
  injection Hlen as Hlen. rewrite IH by done.
  rewrite Z.lor_eq_0_iff, lxor_eq_0. split.
  - intros [[-> Hxy] ->]. by rewrite (byte_val_inj x y).
  - by intros [-> [= -> ->]].
Qed.

Lemma constant_time_eq_spec a b : constant_time_eq a b = String.eqb a b.
Proof.
  unfold constant_time_eq, str_len. destruct (Z.eqb_spec (Z.of_nat (String.length a))
    (Z.of_nat (String.length b))) as [Hlen|Hlen]; simpl.
  - apply eq_true_iff_eq. rewrite Z.eqb_eq, String.eqb_eq, diff_bytes_0 by lia. tauto.
  - symmetry. apply String.eqb_neq. by intros ->.
Qed.

Lemma hex_join_length (l : list Z) :
  String.length (join EmptyString (hex_byte <$> l)) = (2 * length l)%nat.
Proof.
  induction l as [|x [|y l] IH]; [done..|]. csimpl in *. cbn [join] in *.
  rewrite !str_app_length, IH. simpl. lia.
Qed.

(** The admin key is never empty: a request without the header, or with an
    empty one, is never let in. *)
Lemma admin_key_nonempty env random :
  ak_key (resolve_admin_key_with env random) <> EmptyString.
Proof.
  unfold resolve_admin_key_with.
  assert (Hgen : join EmptyString ((fun i => hex_byte (random i)) <$> seq 0 32) <> EmptyString).
  { intros Heq. apply (f_equal String.length) in Heq.
    change (fun i => hex_byte (random i)) with (compose hex_byte random) in Heq.
    rewrite list_fmap_compose, hex_join_length in Heq. done. }
  destruct (env ADMIN_KEY_ENV) as [key|]; [|done].
  destruct (trim key) eqn:Ht; simpl; [done|done].
Qed.

(** C25: A request reaches the admin handlers exactly when its first [x-admin-key]
    header is the key, which is never empty, and gets a 401 otherwise; the
    constant-time comparison is equality. *)
Theorem admin_gate {A} env random req (next : HttpRequest -> A) :
  let key := ak_key (resolve_admin_key_with env random) in
  admin_auth_middleware key req next =
    (if bool_decide (header_str ADMIN_KEY_HEADER (rq_headers req) = Some key)
     then Ok (next req) else Err 401).
Proof.
  intros key. assert (Hkey : key <> EmptyString) by apply admin_key_nonempty.
  unfold admin_auth_middleware. rewrite constant_time_eq_spec.
  destruct (header_str _ _) as [h|]; simpl.
  - destruct (String.eqb_spec h key) as [->|Hne]; case_bool_decide; try done; congruence.
  - by destruct key.
Qed.
