(* ===== verification/Admin.v ===== *)
(** The admin API: [apps/server/src/admin.rs].

    The handlers run on the state they share with the proxy: the storage, the
    router's channel list, health map and key overrides, and the compression
    switch.  The routes are the table [admin_routes].  The extraction of path,
    query and body is the parameter [Extractors], a [Reply] the value that is
    serialised: AdminWire has the forms serde derives for both. *)

From S2P Require Import Prelude RustStr Float64 Json Http Billing Types Middleware Storage.
From S2P Require Import Router Auth Probe AdminAuth.
Local Open Scope Z_scope.
Local Open Scope st_scope.

Record AdminState (S : Type) := {
  ad_storage : S;
  ad_router : Router;
  ad_compress_enabled : bool
}.
Arguments ad_storage {S}.
Arguments ad_router {S}.
Arguments ad_compress_enabled {S}.

Definition with_storage {S} (s : S) (a : AdminState S) : AdminState S :=
  {| ad_storage := s; ad_router := ad_router a; ad_compress_enabled := ad_compress_enabled a |}.
Definition with_router {S} (r : Router) (a : AdminState S) : AdminState S :=
  {| ad_storage := ad_storage a; ad_router := r; ad_compress_enabled := ad_compress_enabled a |}.
Definition with_compress {S} (b : bool) (a : AdminState S) : AdminState S :=
  {| ad_storage := ad_storage a; ad_router := ad_router a; ad_compress_enabled := b |}.

(** ** Errors *)

Record AppError := { ae_status : StatusCode; ae_code : string; ae_message : string }.

Definition not_found (resource : string) : AppError :=
  {| ae_status := 404; ae_code := "not_found"; ae_message := resource +:+ " not found" |}.

Definition bad_request (message : string) : AppError :=
  {| ae_status := 400; ae_code := "bad_request"; ae_message := message |}.

Definition internal_error (message : string) : AppError :=
  {| ae_status := 500; ae_code := "internal_error"; ae_message := message |}.

(** [From<StorageError>]. *)
Definition app_error (e : StorageError) : AppError := internal_error (storage_error_message e).

(** [map_err(|e| match &e { NotFound(_) => .., _ => e.into() })]. *)
Definition missing (resource : string) (e : StorageError) : AppError :=
  match e with NotFound _ => not_found resource | _ => app_error e end.

(** ** Requests *)

Record UpdateChannelBody := {
  uc_name : option string;
  uc_enabled : option bool;
  uc_priority : option Z;
  uc_monthly_quota : option Z;
  uc_quota_policy : option string;
  uc_protocols : option string;
  uc_force_protocol : option string
}.

Record UpdateMappingBody := {
  um_upstream_name : option string;
  um_client_name : option string;
  um_billing : option string;
  um_pricing_json : option string;
  um_weight : option Z;
  um_enabled : option bool;
  um_protocols : option string
}.

Record CostRecordsQuery := {
  cq_project : option string;
  cq_model_name : option string;
  cq_channel_name : option string;
  cq_days : option Z;
  cq_limit : option Z;
  cq_offset : option Z;
  cq_tz_offset : option Z
}.

Record CostReportQuery := {
  rq_project : option string;
  rq_days : Z;
  rq_group_by : option string;
  rq_tz_offset : option Z
}.

(** ** Time ranges *)

Definition day : Z := 86400.

Definition clamp (lo hi x : Z) : Z := if x <? lo then lo else if hi <? x then hi else x.

(** [NaiveDateTime - Duration] panics before [naive_min], the second chrono's
    calendar begins with. *)
Definition checked_time {E} (naive_min t : Z) : Res E Z := if t <? naive_min then Panic else Ok t.

(** [now] is in seconds; [date_naive] of a local time is its day. *)
Definition compute_time_range {E} (naive_min now days : Z) (tz_offset : option Z)
    (project : option string) : Res E TimeRange :=
  start ← match tz_offset with
          | Some offset_minutes =>
              let offset := clamp (-720) 840 offset_minutes * 60 in
              let local_now := now + offset in
              let local_today_start := local_now - local_now mod day in
              let days_back := saturating_sub days 1 * day in
              local_start ← checked_time naive_min (local_today_start - days_back);
              checked_time naive_min (local_start - offset)
          | None => Ok (now - days * day)
          end;
  Ok {| tr_start := start; tr_end := now; tr_project := project |}.

(** ** Handlers *)

(** The JSON objects the handlers build themselves. *)
Record Health := { h_healthy : bool; h_healthy_channels : Z; h_total_channels : Z }.

Record ChannelProtocolsResponse := {
  cp_channel_id : string; cp_channel_name : string; cp_protocols : list ProtocolEntry
}.

Record SeedRefreshResponse := {
  sf_success : bool;
  sf_previous_version : Z;
  sf_new_version : Z;
  sf_source : string;
  sf_errors : list string
}.

Section Handlers.
Context {S : Type} `{!Storage S, !SeedManager S}.
Context `{SerdeJson, PricingCodec, !ColumnCodec}.
(** The clocks ([Instant] of the health map, seconds of the calendar), the
    calendar's first second, the HTTP client of the probes, the message of a
    JSON error and [Debug] of a list of strings. *)
Context (clk : Clock) (now naive_min : Z) (client : ProbeClient).
Context (json_error : string -> string) (debug_list : list string -> string).

Definition Handler (A : Type) : Type := ST (AdminState S) AppError A.

(** [storage.f(..).await.map_err(conv)?], for reads and for writes. *)
Definition query {A} (conv : StorageError -> AppError) (f : S -> Res StorageError A) : Handler A :=
  fun a => (a, map_err conv (f (ad_storage a))).

Definition command {A} (conv : StorageError -> AppError)
    (f : S -> S * Res StorageError A) : Handler A := fun a =>
  let '(s, r) := f (ad_storage a) in (with_storage s a, map_err conv r).

(** [let _ = storage.f(..).await]. *)
Definition ignoring {A} (f : S -> S * Res StorageError A) : Handler unit := fun a =>
  let '(s, r) := f (ad_storage a) in
  (with_storage s a, match r with Panic => Panic | _ => Ok tt end).

Definition unwrap_or {A} (d : A) (r : Res StorageError A) : Res AppError A :=
  match r with Ok x => Ok x | Err _ => Ok d | Panic => Panic end.

Definition on_router (f : Router -> Router) : Handler unit := fun a =>
  (with_router (f (ad_router a)) a, Ok tt).

Definition some_or {A} (e : AppError) (o : option A) : Handler A := st_lift (res_of_option e o).

(** An error of the reload is only logged. *)
Definition reload_channels : Handler unit := fun a =>
  let '(r, res) := reload_channels_from_storage (ad_storage a) (ad_router a) in
  (with_router r a, match res with Panic => Panic | _ => Ok tt end).

Definition handle_list_providers : Handler (list Provider) := query app_error list_providers.

Definition handle_get_provider (id : string) : Handler Provider :=
  let! p := query app_error (get_provider id) in some_or (not_found ("provider " +:+ id)) p.

Definition handle_list_models (provider_id : option string) : Handler (list Storage.Model) :=
  query app_error (list_models provider_id).

Definition handle_get_model (id : string) : Handler Storage.Model :=
  let! m := query app_error (get_model id) in some_or (not_found ("model " +:+ id)) m.

Definition handle_list_channels (model_id : option string) : Handler (list Channel) :=
  query app_error (list_channels model_id).

Definition handle_get_channel (id : string) : Handler Channel :=
  let! c := query app_error (get_channel id) in some_or (not_found ("channel " +:+ id)) c.

Definition validate_force_protocol (id : string) (body : UpdateChannelBody) : Handler unit :=
  match uc_force_protocol body with
  | None => st_ret tt
  | Some fp =>
      let! protocols_json :=
        match uc_protocols body with
        | Some new_protocols => st_ret new_protocols
        | None => let! current := handle_get_channel id in st_ret (ch_protocols current)
        end in
      let! entries := some_or (bad_request ("invalid protocols JSON: " +:+ json_error protocols_json))
                        (parse_protocols protocols_json) in
      if existsb (fun e => String.eqb (pe_protocol e) fp) entries then st_ret tt
      else st_err (bad_request
        ("force_protocol '" +:+ fp +:+ "' not found in channel protocols. Supported: "
         +:+ debug_list (pe_protocol <$> entries)))
  end.

Definition handle_update_channel (id : string) (body : UpdateChannelBody) : Handler Channel :=
  let! _ := validate_force_protocol id body in
  let! updated := command (missing ("channel " +:+ id))
    (update_channel id (uc_name body) (uc_enabled body) (uc_priority body)
       (uc_monthly_quota body) (uc_quota_policy body) (uc_protocols body)
       (uc_force_protocol body)) in
  let! _ := reload_channels in
  st_ret updated.

Definition handle_delete_channel (id : string) : Handler bool :=
  let! _ := command (missing ("channel " +:+ id)) (delete_channel id) in
  let! _ := reload_channels in
  st_ret true.

Definition handle_get_channel_protocols (id : string) : Handler ChannelProtocolsResponse :=
  let! channel := handle_get_channel id in
  let! protocols := some_or
    (internal_error ("failed to parse protocols JSON: " +:+ json_error (ch_protocols channel)))
    (parse_protocols (ch_protocols channel)) in
  st_ret {| cp_channel_id := ch_id channel; cp_channel_name := ch_name channel;
            cp_protocols := protocols |}.

Definition handle_mark_channel_healthy (id : string) : Handler unit :=
  command app_error (mark_channel_healthy id).

Definition handle_record_channel_failure (id : string) : Handler unit :=
  command app_error (record_channel_failure id).

Definition set_key (id key : string) (r : Router) : Router :=
  {| channels := channels r; health := health r; quota_usage := quota_usage r;
     channel_api_keys := <[id := key]> (channel_api_keys r) |}.

Definition remove_key (id : string) (r : Router) : Router :=
  {| channels := channels r; health := health r; quota_usage := quota_usage r;
     channel_api_keys := delete id (channel_api_keys r) |}.

Definition clear_health (id : string) (r : Router) : Router :=
  with_health (delete id (health r)) r.

(** The probe of a channel and what a healthy one does. *)
Definition run_probe (channel : Channel) : Handler ProbeResponse := fun a =>
  (a, Ok (probe_channel client (ad_storage a) channel)).

Definition probe_healthy (id : string) : Handler unit :=
  let! _ := on_router (clear_health id) in ignoring (mark_channel_healthy id).

Definition handle_set_channel_api_key (id key : string) : Handler (option ProbeResponse) :=
  let! _ := command app_error (set_channel_api_key id key) in
  if str_is_empty key then
    let! _ := on_router (remove_key id) in
    let! _ := on_router (mark_unhealthy_immediate clk id) in
    let! _ := ignoring (record_channel_failure id) in
    st_ret None
  else
    let! _ := on_router (set_key id key) in
    let! channel := handle_get_channel id in
    let! probe := run_probe channel in
    let! _ := if probe_is_healthy (pb_result probe) then probe_healthy id
              else on_router (mark_unhealthy_immediate clk id) in
    st_ret (Some probe).

Definition probe_channel_handler (id : string) : Handler ProbeResponse :=
  let! channel := handle_get_channel id in
  let! probe := run_probe channel in
  let! _ := if probe_is_healthy (pb_result probe) then probe_healthy id
            else if negb (bool_decide (pb_result probe = PrNoModels)
                          || bool_decide (pb_result probe = PrNoProtocols))
            then on_router (mark_unhealthy_immediate clk id)
            else st_ret tt in
  st_ret probe.

(** *** Model mappings and aliases *)

Definition handle_list_model_mappings : Handler (list ModelMapping) :=
  query app_error list_all_mappings.

Definition create_model_mapping (body : ModelMapping) : Handler ModelMapping :=
  let! _ := command app_error (upsert_mapping body) in
  let! _ := reload_channels in
  st_ret body.

Definition updated_mapping (body : UpdateMappingBody) (m : ModelMapping) : ModelMapping :=
  {| mm_id := mm_id m; mm_channel_id := mm_channel_id m;
     mm_client_name := default (mm_client_name m) (um_client_name body);
     mm_upstream_name := default (mm_upstream_name m) (um_upstream_name body);
     mm_billing := default (mm_billing m) (um_billing body);
     mm_pricing_json := default (mm_pricing_json m) (um_pricing_json body);
     mm_weight := default (mm_weight m) (um_weight body);
     mm_enabled := default (mm_enabled m) (um_enabled body);
     mm_protocols := default (mm_protocols m) (um_protocols body) |}.

Definition update_model_mapping (id : string) (body : UpdateMappingBody) : Handler unit :=
  let! mappings := query app_error list_all_mappings in
  let! existing := some_or (not_found ("mapping " +:+ id))
    (List.find (fun m => String.eqb (mm_id m) id) mappings) in
  let! _ := command app_error (upsert_mapping (updated_mapping body existing)) in
  reload_channels.

Definition delete_model_mapping (id : string) : Handler bool :=
  let! _ := command (missing ("mapping " +:+ id)) (delete_mapping id) in
  let! _ := reload_channels in
  st_ret true.

Definition handle_list_model_aliases : Handler (list ModelAlias) :=
  query app_error list_model_aliases.

Definition create_model_alias (request : ModelAliasRequest) : Handler ModelAlias :=
  command app_error (upsert_model_alias request).

Definition delete_model_alias_handler (id : Z) : Handler bool :=
  let! _ := command (missing ("alias " +:+ int_to_string id)) (delete_model_alias id) in
  st_ret true.

(** *** Health, seed data and the compression switch *)

(** [u32::try_from(n).unwrap_or(u32::MAX)]. *)
Definition count_u32 (n : nat) : Z := Z.min (Z.of_nat n) u32_max.

Definition admin_health : Handler Health := fun a =>
  (a, healthy ← unwrap_or false (health_check (ad_storage a));
      chs ← unwrap_or [] (list_channels None (ad_storage a));
      Ok {| h_healthy := healthy;
            h_healthy_channels := count_u32 (length (List.filter
              (fun c => ch_enabled c
                        && String.eqb (ch_health_status c) (health_as_str HsHealthy)) chs));
            h_total_channels := count_u32 (length chs) |}).

Definition seed_status_handler (remote : bool) : Handler SeedStatus :=
  query app_error (if remote then seed_check_remote None else seed_status).

Definition seed_refresh_handler (url : option string) : Handler SeedRefreshResponse :=
  let! previous := query app_error seed_status in
  let! status := command app_error (seed_refresh url) in
  st_ret {| sf_success := bool_decide (ss_last_error status = None);
            sf_previous_version := ss_local_version previous;
            sf_new_version := ss_local_version status;
            sf_source := ss_source status;
            sf_errors := option_list (ss_last_error status) |}.

Definition compress_status : Handler bool := fun a => (a, Ok (ad_compress_enabled a)).

Definition compress_toggle (enabled : bool) : Handler bool := fun a =>
  (with_compress enabled a, Ok enabled).

Definition list_available_channels_handler : Handler (list AvailableChannelInfo) :=
  query app_error list_available_channels.

Definition query_switch_logs_handler (limit : option Z) : Handler (list SwitchLog) :=
  query app_error (query_switch_logs limit).

(** *** Costs *)

Definition time_range (days : Z) (tz_offset : option Z) (project : option string)
    : Handler TimeRange :=
  st_lift (compute_time_range naive_min now days tz_offset project).

Definition handle_query_cost_records (q : CostRecordsQuery) : Handler (list CostRecord) :=
  let! range := match cq_days q with
                | Some days => let! r := time_range days (cq_tz_offset q) None in st_ret (Some r)
                | None => st_ret None
                end in
  query app_error (query_cost_records
    {| cf_project_path := cq_project q; cf_model_name := cq_model_name q;
       cf_channel_name := cq_channel_name q; cf_time_range := range;
       cf_limit := cq_limit q; cf_offset := cq_offset q |}).

Definition cost_report (q : CostReportQuery) : Handler (list CostAggregate) :=
  let! range := time_range (rq_days q) (rq_tz_offset q) None in
  let group_by := match rq_project q with Some _ => GbProjectModelMonth | None => GbProject end in
  let! results := query app_error (aggregate_costs group_by range) in
  st_ret (match rq_project q with
          | Some project => List.filter (fun r => starts_with project (ca_group_key r)) results
          | None => results
          end).

(** [.sum()] on [i64] wraps around in the release build. *)
Definition sum_wrapping (l : list Z) : Z := u64_as_i64 (wrap_u64 (zsum l)).

Definition savings_of (records : list CostRecord) : CompressionSavingsReport :=
  {| sr_schema_saved_tokens := sum_wrapping (cr_schema_saved_tokens <$> records);
     sr_response_saved_tokens := sum_wrapping (cr_response_saved_tokens <$> records);
     sr_rtk_saved_tokens := sum_wrapping (cr_rtk_saved_tokens <$> records);
     sr_total_saved_tokens := sum_wrapping (cr_tokens_saved <$> records) |}.

Definition cost_savings (q : CostReportQuery) : Handler CompressionSavingsReport :=
  let! range := time_range (rq_days q) (rq_tz_offset q) (rq_project q) in
  let! records := query app_error (query_cost_records
    {| cf_project_path := rq_project q; cf_model_name := None; cf_channel_name := None;
       cf_time_range := Some range; cf_limit := None; cf_offset := None |}) in
  st_ret (savings_of records).

Definition cost_trend (q : CostReportQuery) : Handler (list CostAggregate) :=
  let! range := time_range (rq_days q) (rq_tz_offset q) (rq_project q) in
  let group_by := if bool_decide (rq_group_by q = Some "daily") then GbDaily else GbHourly in
  query app_error (aggregate_costs group_by range).

Definition prune_cost_records_handler (older_than_days : Z) : Handler Z :=
  command app_error (prune_cost_records older_than_days).

Definition list_projects_handler : Handler (list string) := query app_error list_projects.
End Handlers.

(** ** Routes *)

Inductive Endpoint :=
| EListProviders | EGetProvider (id : string)
| EListModels | EGetModel (id : string)
| EListChannels | EGetChannel (id : string) | EUpdateChannel (id : string)
| EDeleteChannel (id : string) | EMarkHealthy (id : string) | ERecordFailure (id : string)
| ESetApiKey (id : string) | EProbe (id : string) | EProtocols (id : string)
| ECostRecords | ECostReport | ECostSavings | ECostTrend | EPrune
| EListMappings | ECreateMapping | EUpdateMapping (id : string) | EDeleteMapping (id : string)
| EListAliases | ECreateAlias | EDeleteAlias (id : string)
| EAvailableChannels | EProjects | ESwitchLogs | EHealth
| ESeedStatus | ESeedRefresh | ECompressStatus | ECompressToggle.

(** A route's path: literal segments and one [{id}]. *)
Inductive Segment := Lit (s : string) | Id.

Fixpoint split_slash (s : string) : list string :=
  match s with
  | EmptyString => [EmptyString]
  | String a s' =>
      if Ascii.eqb a slash then EmptyString :: split_slash s'
      else match split_slash s' with
           | x :: l => String a x :: l
           | [] => [String a EmptyString]
           end
  end.

(** The [{id}] a path has under a pattern; a parameter is never empty. *)
Fixpoint match_path (pattern : list Segment) (path : list string) (id : string) : option string :=
  match pattern, path with
  | [], [] => Some id
  | Lit s :: pattern', x :: path' => if String.eqb s x then match_path pattern' path' id else None
  | Id :: pattern', x :: path' => if str_is_empty x then None else match_path pattern' path' x
  | _, _ => None
  end.

Definition admin_path (segments : list Segment) : list Segment :=
  Lit EmptyString :: Lit "admin" :: segments.

Definition admin_routes : list (list Segment * string * (string -> Endpoint)) :=
  (fun r => (admin_path r.1.1, r.1.2, r.2)) <$>
  [([Lit "providers"], "GET", fun _ => EListProviders);
   ([Lit "providers"; Id], "GET", EGetProvider);
   ([Lit "models"], "GET", fun _ => EListModels);
   ([Lit "models"; Id], "GET", EGetModel);
   ([Lit "channels"], "GET", fun _ => EListChannels);
   ([Lit "channels"; Id], "GET", EGetChannel);
   ([Lit "channels"; Id], "PUT", EUpdateChannel);
   ([Lit "channels"; Id], "DELETE", EDeleteChannel);
   ([Lit "channels"; Id; Lit "healthy"], "POST", EMarkHealthy);
   ([Lit "channels"; Id; Lit "failure"], "POST", ERecordFailure);
   ([Lit "channels"; Id; Lit "api-key"], "PUT", ESetApiKey);
   ([Lit "channels"; Id; Lit "probe"], "POST", EProbe);
   ([Lit "channels"; Id; Lit "protocols"], "GET", EProtocols);
   ([Lit "cost-records"], "GET", fun _ => ECostRecords);
   ([Lit "cost-records"; Lit "report"], "GET", fun _ => ECostReport);
   ([Lit "cost-records"; Lit "savings"], "GET", fun _ => ECostSavings);
   ([Lit "cost-records"; Lit "trend"], "GET", fun _ => ECostTrend);
   ([Lit "cost-records"; Lit "prune"], "POST", fun _ => EPrune);
   ([Lit "model-mappings"], "GET", fun _ => EListMappings);
   ([Lit "model-mappings"], "POST", fun _ => ECreateMapping);
   ([Lit "model-mappings"; Id], "PUT", EUpdateMapping);
   ([Lit "model-mappings"; Id], "DELETE", EDeleteMapping);
   ([Lit "model-aliases"], "GET", fun _ => EListAliases);
   ([Lit "model-aliases"], "POST", fun _ => ECreateAlias);
   ([Lit "model-aliases"; Id], "DELETE", EDeleteAlias);
   ([Lit "available-channels"], "GET", fun _ => EAvailableChannels);
   ([Lit "projects"], "GET", fun _ => EProjects);
   ([Lit "switch-logs"], "GET", fun _ => ESwitchLogs);
   ([Lit "health"], "GET", fun _ => EHealth);
   ([Lit "seed"; Lit "status"], "GET", fun _ => ESeedStatus);
   ([Lit "seed"; Lit "refresh"], "POST", fun _ => ESeedRefresh);
   ([Lit "compress"; Lit "status"], "GET", fun _ => ECompressStatus);
   ([Lit "compress"; Lit "toggle"], "POST", fun _ => ECompressToggle)].

(** [get(..)] also answers [HEAD]. *)
Definition allows (registered method : string) : bool :=
  String.eqb registered method || (String.eqb registered "GET" && String.eqb method "HEAD").

(** The endpoint of a request; [Err] is axum's status without one. *)
Definition admin_route (method path : string) : Res StatusCode Endpoint :=
  let here := omap (fun r => (fun id => (r.1.2, r.2 id)) <$>
                             match_path r.1.1 (split_slash path) EmptyString) admin_routes in
  match here with
  | [] => Err 404
  | _ => match List.find (fun me => allows me.1 method) here with
         | Some me => Ok me.2
         | None => Err 405
         end
  end.

(** ** The service *)

(** What axum's extractors and serde's derived deserialisers make of a request:
    the value, or the status of the rejection. *)
Record Extractors := {
  x_path : string -> Res StatusCode string;
  x_path_i64 : string -> Res StatusCode Z;
  x_provider_id : HttpRequest -> Res StatusCode (option string);
  x_model_id : HttpRequest -> Res StatusCode (option string);
  x_update_channel : HttpRequest -> Res StatusCode UpdateChannelBody;
  x_api_key : HttpRequest -> Res StatusCode string;
  x_cost_records : HttpRequest -> Res StatusCode CostRecordsQuery;
  x_cost_report : HttpRequest -> Res StatusCode CostReportQuery;
  x_prune : HttpRequest -> Res StatusCode Z;
  x_mapping : HttpRequest -> Res StatusCode ModelMapping;
  x_update_mapping : HttpRequest -> Res StatusCode UpdateMappingBody;
  x_alias : HttpRequest -> Res StatusCode ModelAliasRequest;
  x_switch_logs : HttpRequest -> Res StatusCode (option Z);
  x_seed_status : HttpRequest -> Res StatusCode bool;
  x_seed_refresh : HttpRequest -> Res StatusCode (option string);
  x_compress : HttpRequest -> Res StatusCode bool
}.

(** The values serialised as replies. *)
Inductive Reply :=
| RpProviders (l : list Provider) | RpProvider (p : Provider)
| RpModels (l : list Storage.Model) | RpModel (m : Storage.Model)
| RpChannels (l : list Channel) | RpChannel (c : Channel)
| RpDeleted (b : bool) | RpDeletedRows (n : Z) | RpStatusOk
| RpKeySet (probe : option ProbeResponse) | RpProbe (p : ProbeResponse)
| RpProtocols (p : ChannelProtocolsResponse)
| RpCosts (l : list CostRecord) | RpAggregates (l : list CostAggregate)
| RpSavings (r : CompressionSavingsReport)
| RpMappings (l : list ModelMapping) | RpMapping (m : ModelMapping)
| RpAliases (l : list ModelAlias) | RpAlias (a : ModelAlias)
| RpAvailable (l : list AvailableChannelInfo) | RpProjects (l : list string)
| RpLogs (l : list SwitchLog) | RpHealth (h : Health)
| RpSeedStatus (s : SeedStatus) | RpSeedRefresh (r : SeedRefreshResponse)
| RpEnabled (b : bool) | RpPreflight.

(** An answer that is not a success: axum's status, or the API's error. *)
Inductive AdminError := Rejected (status : StatusCode) | Failure (e : AppError).

Section Service.
Context {S : Type} `{!Storage S, !SeedManager S}.
Context `{SerdeJson, PricingCodec, !ColumnCodec}.
Context (clk : Clock) (now naive_min : Z) (client : ProbeClient).
Context (json_error : string -> string) (debug_list : list string -> string).
Context (x : Extractors).

Definition Service (A : Type) : Type := ST (AdminState S) AdminError A.

Definition extracted {A} (r : Res StatusCode A) : Service A := st_lift (map_err Rejected r).

Definition reply {A} (h : Handler A) (f : A -> Reply) : Service Reply := fun a =>
  let '(a', r) := h a in (a', f <$> map_err Failure r).

Definition reply_unit (h : Handler unit) : Service Reply := reply h (fun _ => RpStatusOk).

Definition serve (e : Endpoint) (req : HttpRequest) : Service Reply :=
  match e with
  | EListProviders => reply handle_list_providers RpProviders
  | EGetProvider id =>
      let! id := extracted (x_path x id) in reply (handle_get_provider id) RpProvider
  | EListModels =>
      let! p := extracted (x_provider_id x req) in reply (handle_list_models p) RpModels
  | EGetModel id =>
      let! id := extracted (x_path x id) in reply (handle_get_model id) RpModel
  | EListChannels =>
      let! m := extracted (x_model_id x req) in reply (handle_list_channels m) RpChannels
  | EGetChannel id =>
      let! id := extracted (x_path x id) in reply (handle_get_channel id) RpChannel
  | EUpdateChannel id =>
      let! id := extracted (x_path x id) in
      let! body := extracted (x_update_channel x req) in
      reply (handle_update_channel json_error debug_list id body) RpChannel
  | EDeleteChannel id =>
      let! id := extracted (x_path x id) in reply (handle_delete_channel id) RpDeleted
  | EMarkHealthy id =>
      let! id := extracted (x_path x id) in reply_unit (handle_mark_channel_healthy id)
  | ERecordFailure id =>
      let! id := extracted (x_path x id) in reply_unit (handle_record_channel_failure id)
  | ESetApiKey id =>
      let! id := extracted (x_path x id) in
      let! key := extracted (x_api_key x req) in
      reply (handle_set_channel_api_key clk client id key) RpKeySet
  | EProbe id =>
      let! id := extracted (x_path x id) in reply (probe_channel_handler clk client id) RpProbe
  | EProtocols id =>
      let! id := extracted (x_path x id) in
      reply (handle_get_channel_protocols json_error id) RpProtocols
  | ECostRecords =>
      let! q := extracted (x_cost_records x req) in
      reply (handle_query_cost_records now naive_min q) RpCosts
  | ECostReport =>
      let! q := extracted (x_cost_report x req) in reply (cost_report now naive_min q) RpAggregates
  | ECostSavings =>
      let! q := extracted (x_cost_report x req) in reply (cost_savings now naive_min q) RpSavings
  | ECostTrend =>
      let! q := extracted (x_cost_report x req) in reply (cost_trend now naive_min q) RpAggregates
  | EPrune =>
      let! days := extracted (x_prune x req) in
      reply (prune_cost_records_handler days) RpDeletedRows
  | EListMappings => reply handle_list_model_mappings RpMappings
  | ECreateMapping =>
      let! m := extracted (x_mapping x req) in reply (create_model_mapping m) RpMapping
  | EUpdateMapping id =>
      let! id := extracted (x_path x id) in
      let! body := extracted (x_update_mapping x req) in
      reply_unit (update_model_mapping id body)
  | EDeleteMapping id =>
      let! id := extracted (x_path x id) in reply (delete_model_mapping id) RpDeleted
  | EListAliases => reply handle_list_model_aliases RpAliases
  | ECreateAlias =>
      let! r := extracted (x_alias x req) in reply (create_model_alias r) RpAlias
  | EDeleteAlias id =>
      let! id := extracted (x_path_i64 x id) in reply (delete_model_alias_handler id) RpDeleted
  | EAvailableChannels => reply list_available_channels_handler RpAvailable
  | EProjects => reply list_projects_handler RpProjects
  | ESwitchLogs =>
      let! limit := extracted (x_switch_logs x req) in
      reply (query_switch_logs_handler limit) RpLogs
  | EHealth => reply admin_health RpHealth
  | ESeedStatus =>
      let! remote := extracted (x_seed_status x req) in
      reply (seed_status_handler remote) RpSeedStatus
  | ESeedRefresh =>
      let! url := extracted (x_seed_refresh x req) in reply (seed_refresh_handler url) RpSeedRefresh
  | ECompressStatus => reply compress_status RpEnabled
  | ECompressToggle =>
      let! b := extracted (x_compress x req) in reply (compress_toggle b) RpEnabled
  end.

(** The layers from the outside in: authentication, the body limit of 1 MB,
    CORS (which answers every [OPTIONS] itself), the routes. *)
Context (body_limit : Z -> HttpRequest -> Res StatusCode HttpRequest).

Definition admin_service (key : string) (req : HttpRequest) : Service Reply :=
  match admin_auth_middleware key req (fun req =>
    let! req := extracted (body_limit (1024 * 1024) req) in
    if String.eqb (rq_method req) "OPTIONS" then st_ret RpPreflight
    else
      let! e := extracted (admin_route (rq_method req) (rq_path req)) in
      serve e req) with
  | Ok service => service
  | Err status => st_err (Rejected status)
  | Panic => fun a => (a, Panic)
  end.
End Service.

(** ** Time ranges *)

Lemma clamp_bounds lo hi z : lo <= hi -> lo <= clamp lo hi z <= hi.
Proof. unfold clamp. destruct (Z.ltb_spec z lo), (Z.ltb_spec hi z); lia. Qed.

(** With a time zone a range of [days] calendar days starts at a local midnight
    and contains the present day and the [days - 1] before it (zero days count
    as one); without, it is the last [days] times 24 hours.  The handler panics
    exactly when the start, local or in UTC, is before the calendar begins. *)
Theorem time_range_days {E} naive_min now days tz project :
  0 <= days ->
  let offset := from_option (fun m => clamp (-720) 840 m * 60) 0 tz in
  let range : Res E TimeRange := compute_time_range naive_min now days tz project in
  match range with
  | Ok r =>
      tr_end r = now /\ tr_project r = project /\ tr_start r <= now /\
      match tz with
      | None => tr_start r = now - days * day
      | Some _ =>
          (tr_start r + offset) mod day = 0 /\
          (Z.max 1 days - 1) * day <= now - tr_start r < Z.max 1 days * day
      end
  | Err _ => False
  | Panic =>
      exists start, start <= now /\ (start + offset) mod day = 0 /\ tz <> None /\
        now - start < Z.max 1 days * day /\
        (start < naive_min \/ start + offset < naive_min)
  end.
Proof.
  intros Hdays offset range. unfold range, compute_time_range, checked_time.
  destruct tz as [m|]; simpl in offset; [|unfold day; simpl; split_and!; (done || lia)].
  fold offset. set (midnight := now + offset - (now + offset) mod day).
  set (back := saturating_sub days 1).
  assert (Hback : back = Z.max 1 days - 1) by (unfold back, saturating_sub; lia).
  pose proof (Z.mod_pos_bound (now + offset) day ltac:(unfold day; lia)) as Hmod.
  assert (Hmid : (midnight - back * day) mod day = 0).
  { assert (Heq : midnight - back * day = (((now + offset) / day) - back) * day).
    { unfold midnight. pose proof (Z.div_mod (now + offset) day ltac:(unfold day; lia)). nia. }
    rewrite Heq. apply Z.mod_mul. unfold day. lia. }
  assert (Hle : midnight - offset <= now) by (unfold midnight; lia).
  assert (Hlt : now - (midnight - offset) < day) by (unfold midnight; lia).
  assert (Hb0 : 0 <= back) by lia.
  assert (Hd : 0 < day) by (unfold day; lia).
  assert (Hsum : midnight - back * day - offset + offset = midnight - back * day) by lia.
  destruct (Z.ltb_spec (midnight - back * day) naive_min) as [Hlow|Hlow]; simpl.
  { exists (midnight - back * day - offset). rewrite Hsum. split_and!; try done; nia. }
  destruct (Z.ltb_spec (midnight - back * day - offset) naive_min) as [Hutc|Hutc]; simpl.
  { exists (midnight - back * day - offset). rewrite Hsum. split_and!; try done; nia. }
  rewrite Hsum. split_and!; try done; nia.
Qed.

(** Two calendar days in UTC+8 at 10:00 local time start 34 hours ago. *)
Lemma time_range_days_witness :
  let now := 1781056800 in
  compute_time_range (E := AppError) (-8334601228800) now 2 (Some 480) None =
    Ok {| tr_start := now - 34 * 3600; tr_end := now; tr_project := None |} /\
  (now - 34 * 3600 + 480 * 60) mod day = 0.
Proof.
  intros now. split; [vm_compute; reflexivity|].
  pose proof (time_range_days (E := AppError) (-8334601228800) now 2 (Some 480) None ltac:(lia)) as H.
  exact (proj1 (proj2 (proj2 (proj2 H)))).
Defined.

(** ** Mutations and the running router *)

Section AdminFacts.
Context {S : Type} `{!Storage S, !SeedManager S}.
Context `{SerdeJson, PricingCodec, !ColumnCodec}.
Context (clk : Clock) (client : ProbeClient).
Context (json_error : string -> string) (debug_list : list string -> string).

(** The handlers that change channels or mappings. *)
Inductive Mutation :=
| MuUpdateChannel (id : string) (body : UpdateChannelBody)
| MuDeleteChannel (id : string)
| MuCreateMapping (m : ModelMapping)
| MuUpdateMapping (id : string) (body : UpdateMappingBody)
| MuDeleteMapping (id : string).

Definition mutate (m : Mutation) : @Handler S unit :=
  match m with
  | MuUpdateChannel id body =>
      let! _ := handle_update_channel json_error debug_list id body in st_ret tt
  | MuDeleteChannel id => let! _ := handle_delete_channel id in st_ret tt
  | MuCreateMapping m => let! _ := create_model_mapping m in st_ret tt
  | MuUpdateMapping id body => update_model_mapping id body
  | MuDeleteMapping id => let! _ := delete_model_mapping id in st_ret tt
  end.

(** A handler that leaves the router alone, and one that ends with a reload. *)
Definition leaves_router {A} (h : @Handler S A) : Prop :=
  forall a, ad_router (h a).1 = ad_router a.

Definition reloads {A} (h : @Handler S A) : Prop := forall a,
  ad_router (h a).1 =
    (if is_ok (h a).2
     then (reload_channels_from_storage (ad_storage (h a).1) (ad_router a)).1
     else ad_router a).

Lemma leaves_lift {A} (r : Res AppError A) : leaves_router (st_lift r).
Proof. done. Qed.

Lemma leaves_command {A} conv (f : S -> S * Res StorageError A) : leaves_router (command conv f).
Proof. intros a. unfold command. by destruct (f _). Qed.

Lemma leaves_bind {A B} (m : Handler A) (f : A -> Handler B) :
  leaves_router m -> (forall x, leaves_router (f x)) -> leaves_router (st_bind m f).
Proof.
  intros Hm Hf a. specialize (Hm a). unfold st_bind.
  destruct (m a) as [a' [y|e|]]; simpl in *; [|done..]. by rewrite Hf.
Qed.

Lemma reloads_bind {A B} (m : Handler A) (f : A -> Handler B) :
  leaves_router m -> (forall x, reloads (f x)) -> reloads (st_bind m f).
Proof.
  intros Hm Hf a. specialize (Hm a). unfold st_bind.
  destruct (m a) as [a' [y|e|]]; simpl in *; [|done..]. by rewrite (Hf y a'), Hm.
Qed.

Lemma reloads_ret {A B} (m : Handler A) (b : B) : reloads m -> reloads (st_bind m (fun _ => st_ret b)).
Proof.
  intros Hm a. specialize (Hm a). unfold st_bind. by destruct (m a) as [a' [y|e|]].
Qed.

Lemma reload_reloads : reloads reload_channels.
Proof.
  intros a. unfold reload_channels.
  destruct (reload_channels_from_storage _ _) as [r [u|e|]] eqn:Hr; simpl; rewrite ?Hr; try done.
  unfold reload_channels_from_storage in Hr.
  destruct (internal _ ≫= _); by simplify_eq.
Qed.

Lemma validate_leaves id body : leaves_router (validate_force_protocol json_error debug_list id body).
Proof.
  unfold validate_force_protocol. destruct (uc_force_protocol body) as [fp|]; [|done].
  apply leaves_bind.
  - destruct (uc_protocols body); [done|]. apply leaves_bind; [|done].
    apply leaves_bind; [done|]. intros c. apply leaves_lift.
  - intros js. apply leaves_bind; [apply leaves_lift|]. intros entries. by destruct (existsb _ _).
Qed.

Lemma mutate_reloads m : reloads (mutate m).
Proof.
  destruct m as [id body|id|m|id body|id]; simpl.
  - apply reloads_ret, reloads_bind; [apply validate_leaves|]. intros _.
    apply reloads_bind; [apply leaves_command|]. intros c. apply reloads_ret, reload_reloads.
  - apply reloads_ret, reloads_bind; [apply leaves_command|].
    intros _. apply reloads_ret, reload_reloads.
  - apply reloads_ret, reloads_bind; [apply leaves_command|].
    intros _. apply reloads_ret, reload_reloads.
  - apply reloads_bind; [done|]. intros ms. apply reloads_bind; [apply leaves_lift|]. intros old.
    apply reloads_bind; [apply leaves_command|]. intros _. apply reload_reloads.
  - apply reloads_ret, reloads_bind; [apply leaves_command|].
    intros _. apply reloads_ret, reload_reloads.
Qed.

(** A change of channels or mappings is in force with the answer: when the
    handler succeeds the router serves what the storage now holds, and when it
    fails the router is as it was.  The compression switch is not affected. *)
Theorem mutations_take_effect m (a : AdminState S) :
  let '(a', r) := mutate m a in
  ad_router a' = (if is_ok r
                  then (reload_channels_from_storage (ad_storage a') (ad_router a)).1
                  else ad_router a).
Proof. pose proof (mutate_reloads m a) as Hr. by destruct (mutate m a). Qed.

(** *** API keys *)

(** What a change of the key of channel [id] leaves of the router: the channel
    list, the usage counters, and everything about other channels. *)
Definition same_but (id : string) (r r' : Router) : Prop :=
  channels r' = channels r /\ quota_usage r' = quota_usage r /\
  (forall id', id <> id' -> health r' !! id' = health r !! id' /\
     channel_api_keys r' !! id' = channel_api_keys r !! id').

Lemma same_but_refl id r : same_but id r r.
Proof. by split_and!. Qed.

(** A channel has a key at start-up, whatever the key overrides say. *)
Definition startup_key (r : Router) (id : string) : bool :=
  existsb (fun ch => String.eqb (rc_channel_id ch) id && negb (str_is_empty (rc_api_key ch)))
    (channels r).

Lemma marked_unhealthy id r : is_healthy clk (mark_unhealthy_immediate clk id r) id = false.
Proof.
  unfold is_healthy, mark_unhealthy_immediate, with_health. cbn [Router.health].
  rewrite lookup_insert_eq. generalize (default ChannelState_new (Router.health r !! id)).
  intros s. assert (He : elapsed clk (Billing.now clk) = 0) by (unfold elapsed; lia).
  unfold is_none_or, is_tryable_past_cooldown, mark_unhealthy. cbn. by rewrite He.
Qed.

Lemma same_but_unhealthy id r : same_but id r (mark_unhealthy_immediate clk id r).
Proof.
  split_and!; [done..|]. intros id' Hne. simpl. by rewrite lookup_insert_ne.
Qed.

Lemma same_but_set id key r : same_but id r (set_key id key r).
Proof. split_and!; [done..|]. intros id' Hne. simpl. by rewrite lookup_insert_ne. Qed.

Lemma same_but_remove id r : same_but id r (remove_key id r).
Proof. split_and!; [done..|]. intros id' Hne. simpl. by rewrite lookup_delete_ne. Qed.

Lemma same_but_clear id r : same_but id r (clear_health id r).
Proof. split_and!; [done..|]. intros id' Hne. simpl. by rewrite lookup_delete_ne. Qed.

Lemma same_but_trans id r1 r2 r3 : same_but id r1 r2 -> same_but id r2 r3 -> same_but id r1 r3.
Proof.
  intros (Hc & Hq & Ho) (Hc' & Hq' & Ho'). split_and!; [congruence..|].
  intros id' Hne. destruct (Ho id' Hne) as [<- <-]. by apply Ho'.
Qed.

Lemma set_key_has id key r :
  key <> EmptyString -> has_api_key (set_key id key r) id = true.
Proof.
  intros Hk. unfold has_api_key. simpl. rewrite lookup_insert_eq. by destruct key.
Qed.

(** A new key is in force with the answer, next to the probe's verdict on the
    channel's health.  Clearing a key only removes the override: a channel that
    was loaded with a key keeps using that one, once its cooldown is over,
    until the channel list is loaded again. *)
Theorem key_update_effect id key (a : AdminState S) :
  let '(a', r) := handle_set_channel_api_key clk client id key a in
  let router := ad_router a' in
  same_but id (ad_router a) router /\ ad_compress_enabled a' = ad_compress_enabled a /\
  match r with
  | Ok None =>
      key = EmptyString /\ channel_api_keys router !! id = None /\
      has_api_key router id = startup_key (ad_router a) id /\
      is_healthy clk router id = false
  | Ok (Some probe) =>
      key <> EmptyString /\ channel_api_keys router !! id = Some key /\
      has_api_key router id = true /\
      is_healthy clk router id = probe_is_healthy (pb_result probe)
  | _ => channel_api_keys router !! id = channel_api_keys (ad_router a) !! id \/
         key <> EmptyString /\ channel_api_keys router !! id = Some key \/
         key = EmptyString /\ channel_api_keys router !! id = None
  end.
Proof.
  unfold handle_set_channel_api_key, st_bind at 1, command.
  destruct (set_channel_api_key id key (ad_storage a)) as [s [u|e|]]; simpl;
    [|by split_and!; [apply same_but_refl|done|left]..].
  destruct (str_is_empty key) eqn:Hkey.
  - assert (Hk : key = EmptyString) by by destruct key. unfold st_bind, on_router, ignoring. simpl.
    pose proof (same_but_trans id _ _ _ (same_but_remove id (ad_router a))
                  (same_but_unhealthy id (remove_key id (ad_router a)))) as Hsame.
    pose proof (marked_unhealthy id (remove_key id (ad_router a))) as Hun.
    assert (Hgone : channel_api_keys (mark_unhealthy_immediate clk id
                      (remove_key id (ad_router a))) !! id = None)
      by (simpl; apply lookup_delete_eq).
    assert (Hhas : has_api_key (mark_unhealthy_immediate clk id (remove_key id (ad_router a))) id
                   = startup_key (ad_router a) id)
      by (unfold has_api_key; by rewrite Hgone).
    destruct (record_channel_failure id s) as [s2 [?|?|]]; by split_and!; auto.
  - assert (Hk : key <> EmptyString) by by intros ->.
    pose proof (same_but_set id key (ad_router a)) as Hset.
    pose proof (set_key_has id key (ad_router a) Hk) as Hhas.
    assert (Hnow : channel_api_keys (set_key id key (ad_router a)) !! id = Some key)
      by (simpl; apply lookup_insert_eq).
    unfold handle_get_channel, probe_healthy, run_probe, on_router, ignoring, query, some_or,
      st_lift, st_ret, st_bind. simpl.
    destruct (get_channel id s) as [[c|]|e|]; simpl; [|by split_and!; auto..].
    set (probe := probe_channel client s c).
    destruct (probe_is_healthy (pb_result probe)) eqn:Hp; simpl.
    + pose proof (same_but_trans id _ _ _ Hset
                    (same_but_clear id (set_key id key (ad_router a)))) as Hsame.
      assert (Hok : is_healthy clk (clear_health id (set_key id key (ad_router a))) id = true)
        by (unfold is_healthy; simpl; by rewrite lookup_delete_eq).
      destruct (mark_channel_healthy id s) as [s2 [?|?|]]; simpl; [..|by split_and!; auto];
        (split; [exact Hsame|]; split; [done|]; split; [exact Hk|]; split; [exact Hnow|];
         split; [exact Hhas|]; by rewrite Hp).
    + pose proof (same_but_trans id _ _ _ Hset
                    (same_but_unhealthy id (set_key id key (ad_router a)))) as Hsame.
      pose proof (marked_unhealthy id (set_key id key (ad_router a))) as Hun.
      split; [exact Hsame|]. split; [done|]. split; [exact Hk|]. split; [exact Hnow|].
      split; [exact Hhas|]. by rewrite Hp.
Qed.
End AdminFacts.
