(* ===== verification/AdminAnswers.v ===== *)
(** When the admin API answers: over a backend that returns from every call, each
    handler returns, but for the time ranges that leave the calendar. *)

From S2P Require Import Prelude RustStr Float64 Json Http Billing Types Middleware Storage.
From S2P Require Import Router Auth Probe AdminAuth Admin.
Local Open Scope Z_scope.
Local Open Scope st_scope.

(** axum's extractors return. *)
Record ExtractorsReturn (x : Extractors) : Prop := {
  x_path_returns s : x_path x s <> Panic;
  x_path_i64_returns s : x_path_i64 x s <> Panic;
  x_provider_id_returns q : x_provider_id x q <> Panic;
  x_model_id_returns q : x_model_id x q <> Panic;
  x_update_channel_returns q : x_update_channel x q <> Panic;
  x_api_key_returns q : x_api_key x q <> Panic;
  x_cost_records_returns q : x_cost_records x q <> Panic;
  x_cost_report_returns q : x_cost_report x q <> Panic;
  x_prune_returns q : x_prune x q <> Panic;
  x_mapping_returns q : x_mapping x q <> Panic;
  x_update_mapping_returns q : x_update_mapping x q <> Panic;
  x_alias_returns q : x_alias x q <> Panic;
  x_switch_logs_returns q : x_switch_logs x q <> Panic;
  x_seed_status_returns q : x_seed_status x q <> Panic;
  x_seed_refresh_returns q : x_seed_refresh x q <> Panic;
  x_compress_returns q : x_compress x q <> Panic
}.

(** The days and the time zone a request for costs asks for. *)
Definition asked_days (x : Extractors) (e : Endpoint) (req : HttpRequest) : option (Z * option Z) :=
  match e with
  | ECostRecords =>
      match x_cost_records x req with
      | Ok q => (fun days => (days, cq_tz_offset q)) <$> cq_days q
      | _ => None
      end
  | ECostReport | ECostSavings | ECostTrend =>
      match x_cost_report x req with Ok q => Some (rq_days q, rq_tz_offset q) | _ => None end
  | _ => None
  end.

(** The range begins before the calendar does. *)
Definition off_calendar (naive_min now : Z) (o : option (Z * option Z)) : Prop :=
  exists days tz, o = Some (days, tz) /\
    compute_time_range (E := AppError) naive_min now days tz None = Panic.

Lemma time_range_panics naive_min now days tz p p' :
  compute_time_range (E := AppError) naive_min now days tz p = Panic <->
  compute_time_range (E := AppError) naive_min now days tz p' = Panic.
Proof.
  unfold compute_time_range, checked_time. destruct tz as [m|]; [|done].
  destruct (_ <? naive_min); [done|]. simpl. by destruct (_ <? naive_min).
Qed.

Section Answers.
Context {S : Type} `{!Storage S, !SeedManager S, !StorageReturns S, !SeedReturns S}.
Context `{SerdeJson, PricingCodec, !ColumnCodec}.
Context (clk : Clock) (now naive_min : Z) (client : ProbeClient).
Context (json_error : string -> string) (debug_list : list string -> string).

Lemma query_total {A} conv (f : S -> Res StorageError A) a :
  (forall s, f s <> Panic) -> (query conv f a).2 <> Panic.
Proof. intros Hf. by apply map_err_total. Qed.

Lemma command_total {A} conv (f : S -> S * Res StorageError A) a :
  (forall s, (f s).2 <> Panic) -> (command conv f a).2 <> Panic.
Proof.
  intros Hf. unfold command. specialize (Hf (ad_storage a)). destruct (f _). by apply map_err_total.
Qed.

Lemma ignoring_total {A} (f : S -> S * Res StorageError A) a :
  (forall s, (f s).2 <> Panic) -> (ignoring f a).2 <> Panic.
Proof.
  intros Hf. unfold ignoring. specialize (Hf (ad_storage a)). by destruct (f _) as [s []].
Qed.

Lemma some_or_total {A} e (o : option A) (a : AdminState S) : (some_or e o a).2 <> Panic.
Proof. by destruct o. Qed.

Lemma reload_total (a : AdminState S) : (reload_channels a).2 <> Panic.
Proof.
  unfold reload_channels, reload_channels_from_storage.
  assert (Hload : (internal (list_channels None (ad_storage a)) ≫= load_channels (ad_storage a))
    <> Panic).
  { apply res_bind_total; [apply map_err_total, list_channels_returns|]. intros chs _.
    induction chs as [|c chs IH]; [done|]. cbn [load_channels].
    destruct (default [] _); [done|].
    apply res_bind_total; [apply map_err_total, list_mappings_returns|]. intros ms _.
    by apply res_bind_total. }
  by destruct (_ ≫= _).
Qed.

Lemma reply_total {A} (h : Handler A) f (a : AdminState S) :
  (h a).2 <> Panic -> (reply h f a).2 <> Panic.
Proof. intros Hh. unfold reply. by destruct (h a) as [a' []]. Qed.

Lemma extracted_total {A} (r : Res StatusCode A) (a : AdminState S) :
  r <> Panic -> (extracted r a).2 <> Panic.
Proof. apply map_err_total. Qed.
(** Solves the calls of a handler one after the other. *)
#[local] Ltac total :=
  repeat first
    [ done
    | match goal with |- forall _, _ => intros ? end
    | apply st_bind_total
    | apply reply_total | apply reload_total | apply some_or_total
    | apply query_total; intros; first
        [ apply list_providers_returns | apply get_provider_returns | apply list_models_returns
        | apply get_model_returns | apply list_channels_returns | apply get_channel_returns
        | apply list_all_mappings_returns | apply list_model_aliases_returns
        | apply list_available_channels_returns | apply list_projects_returns
        | apply query_switch_logs_returns | apply query_cost_records_returns
        | apply aggregate_costs_returns
        | apply seed_status_returns | apply seed_check_remote_returns ]
    | apply command_total; intros; first
        [ apply set_channel_api_key_returns | apply update_channel_returns
        | apply delete_channel_returns | apply mark_channel_healthy_returns
        | apply record_channel_failure_returns | apply upsert_mapping_returns
        | apply delete_mapping_returns | apply upsert_model_alias_returns
        | apply delete_model_alias_returns | apply prune_cost_records_returns
        | apply seed_refresh_returns ]
    | apply ignoring_total; intros; first
        [ apply mark_channel_healthy_returns | apply record_channel_failure_returns ]
    | match goal with |- (match ?m with _ => _ end _).2 <> _ => destruct m end
    | match goal with |- ((if ?b then _ else _) _).2 <> _ => destruct b end ].

Lemma update_channel_total id body (a : AdminState S) :
  (handle_update_channel json_error debug_list id body a).2 <> Panic.
Proof. unfold handle_update_channel, validate_force_protocol, handle_get_channel. total. Qed.

Lemma set_key_total id key (a : AdminState S) :
  (handle_set_channel_api_key clk client id key a).2 <> Panic.
Proof. unfold handle_set_channel_api_key, handle_get_channel, probe_healthy, run_probe, on_router. total. Qed.

Lemma probe_total id (a : AdminState S) : (probe_channel_handler clk client id a).2 <> Panic.
Proof. unfold probe_channel_handler, handle_get_channel, probe_healthy, run_probe, on_router. total. Qed.

Lemma health_total (a : AdminState S) : (admin_health a).2 <> Panic.
Proof.
  unfold admin_health, unwrap_or. cbn [snd].
  pose proof (health_check_returns (ad_storage a)). pose proof (list_channels_returns None (ad_storage a)).
  apply res_bind_total; [by destruct (health_check _)|]. intros b _.
  apply res_bind_total; [by destruct (list_channels _ _)|done].
Qed.

(** A handler that first computes a time range panics exactly where that does. *)
Lemma ranged_panics {A} days tz p (k : TimeRange -> Handler (S := S) A) a :
  (forall r a, (k r a).2 <> Panic) ->
  ((let! r := time_range now naive_min days tz p in k r) a).2 = Panic <->
  compute_time_range (E := AppError) naive_min now days tz None = Panic.
Proof.
  intros Hk. rewrite (time_range_panics _ _ _ _ None p).
  unfold time_range, st_bind, st_lift. destruct (compute_time_range _ _ _ _ _) as [r|e|]; [|done..].
  split; [intros Hp; by apply Hk in Hp|done].
Qed.

Lemma reply_panics {A} (h : Handler A) f (a : AdminState S) :
  (reply h f a).2 = Panic <-> (h a).2 = Panic.
Proof. unfold reply. by destruct (h a) as [a' []]. Qed.

Context (x : Extractors) (Hx : ExtractorsReturn x).

Lemma extracted_panics {A B} (r : Res StatusCode A) (k : A -> Service (S := S) B) a :
  r <> Panic ->
  ((let! v := extracted r in k v) a).2 = Panic <-> exists v, r = Ok v /\ (k v a).2 = Panic.
Proof.
  intros Hr. unfold extracted, st_bind, st_lift. destruct r as [v|e|]; simpl; [| |done].
  - split; [by eauto|]. by intros (? & [= <-] & ?).
  - split; [done|]. by intros (? & ? & _).
Qed.

Lemma off_calendar_some days tz :
  off_calendar naive_min now (Some (days, tz)) <->
  compute_time_range (E := AppError) naive_min now days tz None = Panic.
Proof. split; [by intros (? & ? & [= <- <-] & ?)|intros Hp; by exists days, tz]. Qed.

Lemma off_calendar_none : ~ off_calendar naive_min now None.
Proof. by intros (? & ? & ? & _). Qed.

(** The three reports share their query and the shape of their handlers. *)
Lemma report_panics {A} (h : CostReportQuery -> Handler (S := S) A) f req (a : AdminState S) :
  (forall q a, exists p k, h q a = (let! r := time_range now naive_min (rq_days q) (rq_tz_offset q) p in k r) a
     /\ forall r a, (k r a).2 <> Panic) ->
  ((let! q := extracted (x_cost_report x req) in reply (h q) f) a).2 = Panic <->
  off_calendar naive_min now
    match x_cost_report x req with Ok q => Some (rq_days q, rq_tz_offset q) | _ => None end.
Proof.
  intros Hh. pose proof (x_cost_report_returns x Hx req) as Hr. rewrite extracted_panics by done.
  setoid_rewrite reply_panics. destruct (x_cost_report x req) as [q|e|]; [| |done].
  - rewrite off_calendar_some. destruct (Hh q a) as (p & k & Heq & Hk).
    rewrite <-(ranged_panics _ _ p k a Hk), <-Heq. split; [by intros (? & [= <-] & ?)|by eauto].
  - split; [by intros (? & ? & _)|]. by intros ?%off_calendar_none.
Qed.

Lemma records_panics f req (a : AdminState S) :
  ((let! q := extracted (x_cost_records x req) in reply (handle_query_cost_records now naive_min q) f)
     a).2 = Panic <->
  off_calendar naive_min now (asked_days x ECostRecords req).
Proof.
  pose proof (x_cost_records_returns x Hx req) as Hr. rewrite extracted_panics by done.
  setoid_rewrite reply_panics. unfold asked_days.
  destruct (x_cost_records x req) as [q|e|]; [| |done].
  2:{ split; [by intros (? & ? & _)|]. by intros ?%off_calendar_none. }
  assert (Hq : (handle_query_cost_records now naive_min q a).2 = Panic <->
    off_calendar naive_min now ((fun days => (days, cq_tz_offset q)) <$> cq_days q)).
  2:{ rewrite <-Hq. split; [by intros (? & [= <-] & ?)|by eauto]. }
  unfold handle_query_cost_records. destruct (cq_days q) as [days|]; simpl.
  - rewrite st_bind_assoc, off_calendar_some. apply ranged_panics. intros. total.
  - split; [|by intros ?%off_calendar_none]. intros Hp. exfalso. revert Hp.
    apply query_total. apply query_cost_records_returns.
Qed.

Lemma serve_panics e req (a : AdminState S) :
  (serve clk now naive_min client json_error debug_list x e req a).2 = Panic <->
  off_calendar naive_min now (asked_days x e req).
Proof.
  assert (Hnone : forall P, P <> Panic -> (P = Panic (E := AdminError) (A := Reply) <->
    off_calendar naive_min now None)) by (intros P HP; split; [done|intros (? & ? & ? & _); done]).
  destruct e; cbn [serve asked_days]; unfold reply_unit; try apply Hnone.
  all: try (total; first [ by apply extracted_total, Hx
    | apply set_key_total | apply probe_total | apply health_total ]; fail).
  - apply st_bind_total; [by apply extracted_total, Hx|]. intros id1 a1.
    apply st_bind_total; [by apply extracted_total, Hx|]. intros body a2.
    apply reply_total, update_channel_total.
  - apply records_panics.
  - apply report_panics. intros q a1. exists None. eexists. split; [reflexivity|]. intros. total.
  - apply report_panics. intros q a1. exists (rq_project q). eexists.
    split; [reflexivity|]. intros. total.
  - apply report_panics. intros q a1. exists (rq_project q). eexists.
    split; [reflexivity|]. intros. total.
  - apply st_bind_total; [by apply extracted_total, Hx|]. intros remote a1.
    apply reply_total, query_total. intros s. destruct remote;
      [apply seed_check_remote_returns|apply seed_status_returns].
Qed.
(** The handlers that can panic only read. *)
Lemma keeps_reply_eq {A} (h : Handler (S := S) A) f : st_keeps eq h -> st_keeps eq (reply h f).
Proof. intros Hh a. specialize (Hh a). unfold reply. by destruct (h a). Qed.

Lemma serve_panics_unchanged e req (a : AdminState S) :
  (serve clk now naive_min client json_error debug_list x e req a).2 = Panic ->
  (serve clk now naive_min client json_error debug_list x e req a).1 = a.
Proof.
  intros (days & tz & Ha & _)%serve_panics. symmetry. revert a.
  assert (Hq : forall A conv (f : S -> Res StorageError A), st_keeps eq (query conv f)) by done.
  destruct e; try discriminate Ha; cbn [serve];
    (apply (keeps_bind eq); [apply (keeps_lift eq)|intros q; apply keeps_reply_eq]);
    unfold handle_query_cost_records, cost_report, cost_savings, cost_trend;
    repeat (apply (keeps_bind eq); [|intros ?]); try apply Hq; try apply (keeps_lift eq);
    try apply (keeps_ret eq).
  destruct (cq_days q); [|apply (keeps_ret eq)].
  apply (keeps_bind eq); [apply (keeps_lift eq)|intros ?; apply (keeps_ret eq)].
Qed.

(** *** Behind the layers *)

Context (body_limit : Z -> HttpRequest -> Res StatusCode HttpRequest).
Context (Hlimit : forall n q, body_limit n q <> Panic).

(** The endpoint and the request that a handler gets to see. *)
Definition admin_call (key : string) (req : HttpRequest) : option (Endpoint * HttpRequest) :=
  match admin_auth_middleware key req (fun q => q) with
  | Ok q =>
      match body_limit (1024 * 1024) q with
      | Ok q =>
          if String.eqb (rq_method q) "OPTIONS" then None
          else match admin_route (rq_method q) (rq_path q) with Ok e => Some (e, q) | _ => None end
      | _ => None
      end
  | _ => None
  end.

Lemma admin_route_total method path : admin_route method path <> Panic.
Proof. unfold admin_route. destruct (omap _ _); [done|]. by destruct (List.find _ _). Qed.

Lemma service_panics_unchanged key req (a : AdminState S) :
  (admin_service clk now naive_min client json_error debug_list x body_limit key req a).2 = Panic ->
  (admin_service clk now naive_min client json_error debug_list x body_limit key req a).1 = a.
Proof.
  unfold admin_service, admin_auth_middleware. destruct (constant_time_eq _ _); [|done].
  unfold st_bind, extracted, st_lift.
  destruct (body_limit _ req) as [q|st|]; cbn [map_err]; [|done..].
  destruct (String.eqb _ _); [done|]. destruct (admin_route _ _) as [e|st|]; cbn [map_err]; [|done..].
  apply serve_panics_unchanged.
Qed.

Lemma service_panics key req (a : AdminState S) :
  (admin_service clk now naive_min client json_error debug_list x body_limit key req a).2 = Panic <->
  exists e q, admin_call key req = Some (e, q) /\ off_calendar naive_min now (asked_days x e q).
Proof.
  assert (Hnone : forall P, P <> Panic -> (P = Panic (E := AdminError) (A := Reply) <->
    exists e q, None = Some (e, q) /\ off_calendar naive_min now (asked_days x e q)))
    by (intros P HP; split; [done|by intros (? & ? & ? & _)]).
  unfold admin_service, admin_call, admin_auth_middleware.
  destruct (constant_time_eq _ _); [|by apply Hnone].
  rewrite extracted_panics by apply Hlimit. pose proof (Hlimit (1024 * 1024) req) as Hl.
  destruct (body_limit _ req) as [q|st|]; [| |done].
  2:{ split; [by intros (? & ? & _)|by intros (? & ? & ? & _)]. }
  transitivity (((if String.eqb (rq_method q) "OPTIONS" then st_ret RpPreflight
      else let! e := extracted (admin_route (rq_method q) (rq_path q)) in
           serve clk now naive_min client json_error debug_list x e q) a).2 = Panic).
  { split; [by intros (? & [= <-] & ?)|by eauto]. }
  destruct (String.eqb _ _); [by apply Hnone|].
  rewrite extracted_panics by apply admin_route_total. setoid_rewrite serve_panics.
  destruct (admin_route _ _) as [e|st|]; simpl.
  - split; [intros (? & [= <-] & ?); by eauto|intros (? & ? & [= <- <-] & ?); by eauto].
  - split; [by intros (? & ? & _)|by intros (? & ? & ? & _)].
  - split; [by intros (? & ? & _)|by intros (? & ? & ? & _)].
Qed.
End Answers.
