(* ===== verification/Main.v ===== *)
(** The server binary: [apps/server/src/main.rs].

    [main] opens the database, builds the router and its middleware chain on it
    and serves the admin API and the proxy on one port.  Everything requests
    share is a [World]; the surroundings of a request (clocks, the database's
    environment, fresh identifiers) are part of it and may change at any time. *)

From stdpp Require Import gmap relations.
From S2P Require Import Prelude RustStr Float64 Json Http Billing Types Middleware Storage.
From S2P Require Import Router Bridge Compress Report Cost Auth Server Sqlite Seed Probe.
From S2P Require Import AdminAuth Admin.
Local Open Scope Z_scope.
Local Open Scope st_scope.

(** ** The database path *)

Definition slash_str : string := "/".

(** [Path::join] of a relative component. *)
Definition path_join (base component : string) : string :=
  if str_is_empty base || ends_with slash_str base then base +:+ component
  else base +:+ slash_str +:+ component.

(** The argument after the first [--db-path]. *)
Fixpoint db_path_arg (args : list string) : option string :=
  match args with
  | [] => None
  | a :: rest => if String.eqb a "--db-path" then head rest else db_path_arg rest
  end.

Definition parse_db_path (args : list string) (env_var home : option string) : string :=
  match db_path_arg args with
  | Some p => p
  | None =>
      match env_var with
      | Some p => p
      | None => path_join (path_join (path_join (default "." home) ".tokenfleet-ai")
                             "token-fleet-switch") "agent-proxy.db"
      end
  end.

(** ** Shared state *)

(** The surroundings of the calls: the database's, both clocks of the admin API,
    the client of the probes, and the identifier and time of the next cost
    record. *)
Record Moment `{SerdeJson} := {
  mo_env : Env;
  mo_clock : Clock;
  mo_now : Z;
  mo_probe : ProbeClient;
  mo_record_id : string;
  mo_timestamp : string
}.

(** [N] is the state of the upstream. *)
Record World `{SerdeJson} (N : Type) := {
  w_db : Db;
  w_router : Router;
  w_compress : Compress;
  w_net : N;
  w_moment : Moment
}.
Arguments w_db {_ N}.
Arguments w_router {_ N}.
Arguments w_compress {_ N}.
Arguments w_net {_ N}.
Arguments w_moment {_ N}.

Section Main.
Context `{SerdeJson, !TokenlessSchema, !LlmBridge, PricingCodec, !ColumnCodec} {N : Type}.
(** Messages, deserialisers and responses of the libraries, as in the parts. *)
Context (debug_strings : list string -> string) (json_error : string -> string).
Context (json_into_response : Value -> HttpResponse) (fmt_f64 : nat -> f64 -> string).
Context (parse_report : string -> option ProxyReport).
Context (parse_header : string -> option TokenlessHeader).
Context (status_response : StatusCode -> HttpResponse).
Context (body_limit : Z -> HttpRequest -> Res HttpResponse HttpRequest).
Context (admin_limit : Z -> HttpRequest -> Res StatusCode HttpRequest).
Context (x : Extractors) (naive_min : Z) (src : Sources).
Context (reply_response : Reply -> HttpResponse).
Context (client : UpstreamRequest -> N -> N * Res SendError UpstreamResponse).
(** Whether [reqwest] builds its client, given the timeouts. *)
Context (reqwest : Z -> Z -> Res string unit).

Definition put_db (d : Db) (w : World N) : World N :=
  {| w_db := d; w_router := w_router w; w_compress := w_compress w; w_net := w_net w;
     w_moment := w_moment w |}.
Definition put_router (r : Router) (w : World N) : World N :=
  {| w_db := w_db w; w_router := r; w_compress := w_compress w; w_net := w_net w;
     w_moment := w_moment w |}.
Definition put_compress (c : Compress) (w : World N) : World N :=
  {| w_db := w_db w; w_router := w_router w; w_compress := c; w_net := w_net w;
     w_moment := w_moment w |}.
Definition put_net (n : N) (w : World N) : World N :=
  {| w_db := w_db w; w_router := w_router w; w_compress := w_compress w; w_net := n;
     w_moment := w_moment w |}.
Definition put_moment (m : Moment) (w : World N) : World N :=
  {| w_db := w_db w; w_router := w_router w; w_compress := w_compress w; w_net := w_net w;
     w_moment := m |}.

(** A computation on a part of the world. *)
Definition focus {V E A} (get : World N -> V) (put : V -> World N -> World N) (m : ST V E A)
    : ST (World N) E A := fun w =>
  let '(v, r) := m (get w) in (put v w, r).

Definition on_part {V} (get : World N -> V) (put : V -> World N -> World N)
    (mw : ProxyMiddleware V) : ProxyMiddleware (World N) := {|
  mw_name := mw_name mw;
  on_request clk rc := focus get put (on_request mw clk rc);
  on_response clk ctx res := focus get put (on_response mw clk ctx res);
  on_init := focus get put (on_init mw)
|}.

(** ** The parts [main] puts together *)

Definition compress_part : ProxyMiddleware (World N) :=
  on_part w_compress put_compress CompressMiddleware.
Definition router_part : ProxyMiddleware (World N) :=
  on_part w_router put_router (ModelRouterMiddleware debug_strings).

(** [CostMiddleware::new(storage, "unknown")]. *)
Definition cost_middleware : CostRecorder := fun clk ctx body w =>
  let m := w_moment w in
  focus w_db put_db
    (Cost.record (Storage0 := sqlite_storage (mo_env m)) (mo_record_id m) (mo_timestamp m)
       "unknown" clk ctx body) w.

Definition upstream : UpstreamRequest -> World N -> World N * Res SendError UpstreamResponse :=
  fun req => focus w_net put_net (client req).

(** [.collect()] into a [HashMap]: a later entry replaces an earlier one. *)
Definition alias_map (aliases : list ModelAlias) : gmap string string :=
  foldl (fun m a => <[ma_alias_name a := ma_target_model a]> m) ∅
    (List.filter ma_enabled aliases).

Definition main_config (api_key token : option string) : ProxyConfig :=
  {| listen := "127.0.0.1:11837"; max_body_size := max_body_size ProxyConfig_default;
     upstream_read_timeout := upstream_read_timeout ProxyConfig_default;
     upstream_connect_timeout := upstream_connect_timeout ProxyConfig_default;
     proxy_api_key := api_key; proxy_token := token; proxy_auth_keys := ∅ |}.

Definition proxy_builder (c : ProxyConfig) (aliases : gmap string string) : AgentProxyBuilder :=
  middleware BridgeMiddleware
    (middleware router_part
       (middleware (ModelAliasMiddleware aliases)
          (middleware compress_part
             (cost_recorder cost_middleware (config c builder))))).

(** ** Start-up *)

Inductive StartError := StorageFailed (e : StorageError) | ProxyFailed (e : ProxyError).

Record Running := { sv_proxy : ProxyState (W := World N); sv_admin_key : AdminKey }.

(** The environment variables [main] and the admin key read. *)
Definition start_up (env_var : string -> option string) (random : nat -> Z) (env : Env)
    : ST Db StartError (Running * Router) :=
  let! _ := fun d => let '(d, r) := Sqlite.migrate env d in (d, map_err StorageFailed r) in
  let! _ := fun d => let '(d, r) := Seed.seed_init env src d in
                     (d, match r with Panic => Panic | _ => Ok tt end) in
  let! router := fun d =>
    (d, map_err ProxyFailed (router_from_storage (Storage0 := sqlite_storage env) d)) in
  let admin_key := resolve_admin_key_with env_var random in
  let c := main_config (env_var "AGENT_PROXY_API_KEY") (env_var "AGENT_PROXY_TOKEN") in
  let! aliases := fun d =>
    (d, match Sqlite.list_model_aliases env d with
        | Ok l => Ok l | Err _ => Ok [] | Panic => Panic
        end) in
  let! proxy := st_lift (map_err ProxyFailed (build (proxy_builder c (alias_map aliases)))) in
  let! proxy := st_lift (map_err ProxyFailed (into_router reqwest upstream proxy)) in
  st_ret ({| sv_proxy := proxy; sv_admin_key := admin_key |}, router).

(** The world the listener starts with. *)
Definition first_world (d : Db) (r : Router) (n : N) (m : Moment) : World N :=
  {| w_db := d; w_router := r; w_compress := Compress_new; w_net := n; w_moment := m |}.

(** ** Serving *)

(** The state the admin API shares with the proxy. *)
Definition admin_view (w : World N) : AdminState Db :=
  {| ad_storage := w_db w; ad_router := w_router w;
     ad_compress_enabled := enabled (w_compress w) |}.

Definition put_admin (a : AdminState Db) (w : World N) : World N :=
  {| w_db := ad_storage a; w_router := ad_router a;
     w_compress := set_enabled (ad_compress_enabled a) (w_compress w); w_net := w_net w;
     w_moment := w_moment w |}.

Definition admin (key : string) (req : HttpRequest) : ST (World N) AdminError Reply := fun w =>
  let m := w_moment w in
  focus admin_view put_admin
    (admin_service (Storage0 := sqlite_storage (mo_env m))
       (SeedManager0 := sqlite_seed_manager (mo_env m) src) (mo_clock m) (mo_now m) naive_min
       (mo_probe m) json_error debug_strings x admin_limit key req) w.

(** [IntoResponse] of the admin API's answers. *)
Definition admin_response (r : Res AdminError Reply) : option HttpResponse :=
  match r with
  | Ok reply => Some (reply_response reply)
  | Err (Rejected status) => Some (status_response status)
  | Err (Failure e) =>
      Some (json_response json_into_response (ae_status e)
              (error_value (ErrorBody_new (ae_code e) (ae_message e))))
  | Panic => None
  end.

Definition is_admin_path (path : string) : bool :=
  existsb (fun r => bool_decide (is_Some (match_path r.1.1 (split_slash path) EmptyString)))
    admin_routes.

(** [admin.merge(proxy)]: each route keeps the layers of its router, the
    fallback is the proxy's. *)
Definition app (sv : Running) (env : Surroundings) (req : HttpRequest) (s : Shared (W := World N))
    : Shared (W := World N) * option HttpResponse :=
  if is_admin_path (rq_path req) then
    let '(w, r) := admin (ak_key (sv_admin_key sv)) req (sh_world s) in
    (with_world w s, admin_response r)
  else
    build_router json_into_response fmt_f64 parse_report parse_header status_response body_limit
      (sv_proxy sv) env req s.
End Main.

(** ** A server started on an empty database, for the witnesses *)

Module SampleMain.
#[local] Existing Instances Model.json SampleTools.compressor Tagged.bridge
  SampleStore.pricing_codec SampleStore.columns.

(** The state of the upstream is the number of requests it has seen. *)
Definition client (_ : UpstreamRequest) (n : nat) : nat * Res SendError UpstreamResponse :=
  (S n, Ok {| ur_status := 200; ur_headers := [];
              ur_body := Ok (Model.print (Model.JObj [])) |}).

Definition no_strings (_ : list string) : string := EmptyString.

Definition sources : Sources := SampleSeed.sources [].

Abbreviation started :=
  (@start_up Model.json SampleTools.compressor Tagged.bridge SampleStore.pricing_codec
     SampleStore.columns nat no_strings sources client (fun _ _ => Ok tt) (fun _ => None) (fun _ => 0%Z) SampleDb.env empty_db).

Definition moment : Moment :=
  {| mo_env := SampleDb.env; mo_clock := Sample.clock 0; mo_now := 1781056800;
     mo_probe := {| probe_client_ok := true; send_request _ := (5, Answered 200) |};
     mo_record_id := "1"; mo_timestamp := SampleDb.stamp 50 |}.

Definition extractors : Extractors := {|
  x_path := Ok; x_path_i64 _ := Ok 1; x_provider_id _ := Ok None; x_model_id _ := Ok None;
  x_update_channel _ := Err 422; x_api_key q := match rq_body q with Ok b => Ok b | _ => Err 400 end;
  x_cost_records _ := Err 400; x_cost_report _ := Err 400; x_prune _ := Ok 90;
  x_mapping _ := Err 422; x_update_mapping _ := Err 422; x_alias _ := Err 422;
  x_switch_logs _ := Ok None; x_seed_status _ := Ok false; x_seed_refresh _ := Ok None;
  x_compress _ := Ok false
|}.

Definition reply (r : Reply) : HttpResponse := SampleServer.status_only 200.

Definition serve_request : Running (N := nat) -> Surroundings -> HttpRequest ->
    Shared (W := World nat) -> Shared (W := World nat) * option HttpResponse :=
  app no_strings id SampleServer.json_into (fun _ _ => EmptyString) (fun _ => None)
    (fun _ => None) SampleServer.status_only (fun _ q => Ok q) (fun _ q => Ok q) extractors 0
    sources reply.

Definition shared (w : World nat) : Shared (W := World nat) :=
  {| next_request_id := 1; sh_cursors := ∅; sh_world := w |}.

Definition post (path body : string) : HttpRequest :=
  {| rq_method := "POST"; rq_path := path; rq_headers := []; rq_body := Ok body;
     rq_role := None |}.

Definition ask (model : string) : HttpRequest :=
  post "/v1/messages" (Model.print (Model.JObj [("model", Model.JStr model)])).

Definition answer (model : string) : option (nat * StatusCode) :=
  match started with
  | (d, Ok (sv, r)) =>
      let '(s, rsp) := serve_request sv SampleServer.env (ask model)
                         (shared (first_world d r 0%nat moment)) in
      (fun rsp => (w_net (sh_world s), rsp_status rsp)) <$> rsp
  | _ => None
  end.
End SampleMain.
