(* ===== verification/System.v ===== *)
(** The running system: what one request does to the shared world is a sequence of
    atomic steps that interleave with those of other requests, and what holds of
    the whole after any of them. *)

From stdpp Require Import gmap relations.
From S2P Require Import Prelude RustStr Float64 Json Http Billing Types Middleware Storage.
From S2P Require Import Router Bridge Compress Report Cost Auth Server Sqlite Seed Probe.
From S2P Require Import AdminAuth Admin AdminAnswers Main.
Local Open Scope Z_scope.
Local Open Scope st_scope.

(** ** The steps of the admin API *)

Section AdminSteps.
Context `{SerdeJson, PricingCodec, !ColumnCodec}.
Context (dbg : list string -> string) (env : Env) (src : Sources).
Let sql : Storage Db := sqlite_storage env.
Let seeds : SeedManager Db := sqlite_seed_manager env src.
#[local] Existing Instances sql seeds.

(** The writes each endpoint of the admin API performs; none of them writes a cost
    record, which the proxy alone does. *)
Definition writes (e : Endpoint) (op : Op) : bool :=
  match e, op with
  | EUpdateChannel _, OpUpdateChannel _ _ _ _ _ _ _ _ | EDeleteChannel _, OpDeleteChannel _
  | EMarkHealthy _, OpMarkHealthy _ | ERecordFailure _, OpRecordFailure _
  | ESetApiKey _, (OpSetApiKey _ _ | OpMarkHealthy _ | OpRecordFailure _)
  | EProbe _, (OpMarkHealthy _ | OpRecordFailure _)
  | EPrune, OpPrune _
  | (ECreateMapping | EUpdateMapping _), OpUpsertMapping _ | EDeleteMapping _, OpDeleteMapping _
  | ECreateAlias, OpUpsertAlias _ | EDeleteAlias _, OpDeleteAlias _ => true
  | _, _ => false
  end.

(** One call of the storage or one update of a shared map. *)
Inductive admin_step (e : Endpoint) (a : AdminState Db) : AdminState Db -> Prop :=
| as_op op : writes e op = true -> admin_step e a (with_storage (run_op env op (ad_storage a)) a)
| as_refresh url : admin_step e a (with_storage (Seed.seed_refresh env src url (ad_storage a)).1 a)
| as_router r :
    router_step dbg (ad_router a) r ->
    admin_step e a (with_router r a)
| as_compress b : admin_step e a (with_compress b a).

Definition steps (e : Endpoint) : AdminState Db -> AdminState Db -> Prop := rtc (admin_step e).

#[local] Instance steps_preorder e : PreOrder (steps e).
Proof. unfold steps. split; [intros ?; apply rtc_refl|intros ???; apply rtc_trans]. Qed.

(** A write of the storage trait is an operation of the backend. *)
Definition is_op {A} (e : Endpoint) (f : Db -> Db * Res StorageError A) : Prop :=
  exists op, writes e op = true /\ forall d, (f d).1 = run_op env op d.

Lemma keeps_query {A} e conv (f : Db -> Res StorageError A) : st_keeps (steps e) (query conv f).
Proof. intros a. apply rtc_refl. Qed.

Lemma keeps_view {A} e (f : AdminState Db -> Res AppError A) : st_keeps (steps e) (fun a => (a, f a)).
Proof. intros a. apply rtc_refl. Qed.

Lemma keeps_command {A} e conv (f : Db -> Db * Res StorageError A) :
  is_op e f -> st_keeps (steps e) (command conv f).
Proof.
  intros (op & Hadm & Hop) a. unfold command. pose proof (Hop (ad_storage a)) as Hd.
  destruct (f _) as [s r]. simpl in *. subst. apply rtc_once. by constructor.
Qed.

Lemma keeps_ignoring {A} e (f : Db -> Db * Res StorageError A) :
  is_op e f -> st_keeps (steps e) (ignoring f).
Proof.
  intros (op & Hadm & Hop) a. unfold ignoring. pose proof (Hop (ad_storage a)) as Hd.
  destruct (f _) as [s r]. simpl in *. subst. apply rtc_once. by constructor.
Qed.

Lemma keeps_on_router e f :
  (forall r, router_step dbg r (f r)) ->
  st_keeps (steps e) (on_router f).
Proof. intros Hf a. apply rtc_once. by apply (as_router e a). Qed.

Lemma keeps_reload e : st_keeps (steps e) (reload_channels).
Proof.
  intros a. unfold reload_channels. apply rtc_once. pose proof (step_reload
    dbg (ad_router a) (ad_storage a)) as Hr.
  destruct (reload_channels_from_storage _ _) as [r res]. by apply as_router.
Qed.

Lemma keeps_reply {A} e (h : Handler A) f : st_keeps (steps e) h -> st_keeps (steps e) (reply h f).
Proof. intros Hh a. specialize (Hh a). unfold reply. by destruct (h a). Qed.

Lemma keeps_refresh_call e conv url :
  st_keeps (steps e) (command conv (Storage.seed_refresh url)).
Proof.
  intros a. unfold command. unfold seeds. cbn [Storage.seed_refresh sqlite_seed_manager].
  destruct (Seed.seed_refresh env src url (ad_storage a)) as [s r] eqn:Hr. apply rtc_once.
  replace s with (Seed.seed_refresh env src url (ad_storage a)).1 by by rewrite Hr.
  apply as_refresh.
Qed.

#[local] Ltac find_op :=
  first [ by eexists (OpUpdateChannel _ _ _ _ _ _ _ _) | by eexists (OpDeleteChannel _)
        | by eexists (OpSetApiKey _ _) | by eexists (OpMarkHealthy _)
        | by eexists (OpRecordFailure _) | by eexists (OpUpsertMapping _)
        | by eexists (OpDeleteMapping _) | by eexists (OpUpsertAlias _)
        | by eexists (OpDeleteAlias _) | by eexists (OpPrune _) ].

#[local] Ltac keep :=
  repeat first
    [ match goal with |- forall _, st_keeps _ _ => intros ? end
    | apply (keeps_bind (steps _))
    | apply (keeps_lift (steps _)) | apply (keeps_ret (steps _)) | apply (keeps_err (steps _))
    | apply keeps_reload | apply keeps_view | apply keeps_query | apply keeps_refresh_call
    | apply keeps_command; find_op | apply keeps_ignoring; find_op
    | apply keeps_on_router; intros; constructor
    | match goal with |- @st_keeps _ _ _ _ (match ?m with _ => _ end) => destruct m end
    | match goal with |- @st_keeps _ _ _ _ (if ?b then _ else _) => destruct b end ].

Context (clk : Clock) (now naive_min : Z) (client : ProbeClient) (json_error : string -> string).
Context (x : Extractors) (admin_limit : Z -> HttpRequest -> Res StatusCode HttpRequest).

Lemma keeps_update_channel path id body :
  st_keeps (steps (EUpdateChannel path)) (handle_update_channel json_error dbg id body).
Proof. unfold handle_update_channel, validate_force_protocol, handle_get_channel, some_or. keep. Qed.

Lemma keeps_set_key path id key :
  st_keeps (steps (ESetApiKey path)) (handle_set_channel_api_key clk client id key).
Proof.
  unfold handle_set_channel_api_key, handle_get_channel, probe_healthy, run_probe, some_or. keep.
Qed.

Lemma keeps_probe path id : st_keeps (steps (EProbe path)) (probe_channel_handler clk client id).
Proof.
  unfold probe_channel_handler, handle_get_channel, probe_healthy, run_probe, some_or. keep.
Qed.

Lemma keeps_serve e req :
  st_keeps (steps e) (serve clk now naive_min client json_error dbg x e req).
Proof.
  destruct e; cbn [serve]; unfold reply_unit, extracted; keep; apply keeps_reply;
    first [ apply keeps_update_channel | apply keeps_set_key | apply keeps_probe | idtac ].
  all: keep.
  intros s. apply rtc_once. apply (as_compress ECompressToggle s).
Qed.

(** What the admin API does to the shared state is a sequence of the steps of the
    endpoint that is asked for; a request that reaches none changes nothing. *)
Lemma admin_service_steps key req a :
  let a' := (admin_service clk now naive_min client json_error dbg x admin_limit key req a).1 in
  match admin_call admin_limit key req with
  | Some (e, _) => steps e a a'
  | None => a' = a
  end.
Proof.
  unfold admin_service, admin_call, admin_auth_middleware.
  destruct (constant_time_eq _ _); [|done]. unfold extracted, st_bind, st_lift.
  destruct (admin_limit _ req) as [q|st|]; simpl; [|done..].
  destruct (String.eqb (rq_method q) "OPTIONS"); [done|].
  destruct (admin_route _ _) as [e|st|]; simpl; [|done..]. apply keeps_serve.
Qed.
End AdminSteps.

(** ** The steps of the proxy engine *)

Section EngineSteps.
Context `{SerdeJson} {W : Type} (R : W -> W -> Prop) `{HR : !PreOrder R}.
Context (json_into_response : Value -> HttpResponse) (fmt_f64 : nat -> f64 -> string).
Context (parse_report : string -> option ProxyReport).
Context (parse_header : string -> option TokenlessHeader).
Context (status_response : StatusCode -> HttpResponse).
Context (body_limit : Z -> HttpRequest -> Res HttpResponse HttpRequest).
Context (p : ProxyState (W := W)).

(** A relation that every hook, the recorder and the upstream keep. *)
Record engine_keeps : Prop := {
  hooks_keep : forall mw, mw ∈ ps_middlewares p ->
    (forall clk rc, st_keeps R (on_request mw clk rc)) /\
    (forall clk ctx res, st_keeps R (on_response mw clk ctx res));
  recorder_keeps : forall cr clk ctx body, ps_cost_recorder p = Some cr ->
    st_keeps R (cr clk ctx body);
  client_keeps : forall req w, R w (ps_client p req w).1
}.

Context (Hp : engine_keeps).

Lemma keeps_request_chain clk rc : st_keeps R (run_on_request_chain (ps_middlewares p) clk rc).
Proof. apply (request_chain_keeps R). intros mw Hm rc'. by apply (hooks_keep Hp). Qed.

Lemma keeps_response_chain clk ctx res :
  st_keeps R (run_on_response_chain (ps_middlewares p) clk ctx res).
Proof. apply (response_chain_keeps R). intros mw Hm res'. by apply (hooks_keep Hp). Qed.

Lemma keeps_recorder cr clk ctx body w w' r :
  ps_cost_recorder p = Some cr -> cr clk ctx body w = (w', r) -> R w w'.
Proof. intros Hc Hr. pose proof (recorder_keeps Hp cr clk ctx body Hc w) as Hk. by rewrite Hr in Hk. Qed.

Lemma keeps_handle_response streaming clk ctx u w :
  R w ((if streaming : bool
        then handle_streaming_response json_into_response fmt_f64 p clk ctx u
        else handle_non_streaming_response json_into_response fmt_f64 p clk ctx u) w).1.
Proof.
  unfold handle_streaming_response, handle_non_streaming_response.
  destruct streaming; (destruct (ur_body u) as [b|e|]; [|reflexivity..]); cbv zeta;
    match goal with |- context [run_on_response_chain ?m ?c ?x ?r w] =>
      pose proof (keeps_response_chain c x r w) as Hc;
      destruct (run_on_response_chain m c x r w) as [w1 [res|e|]] end;
    try exact Hc; simpl in Hc; (destruct (ps_cost_recorder p) as [cr|] eqn:Hcr; [|exact Hc]).
  - destruct (cr clk ctx _ w1) as [w2 r] eqn:Hr. pose proof (keeps_recorder _ _ _ _ _ _ _ Hcr Hr).
    destruct r; simpl; by etransitivity.
  - destruct (from_slice _); [|exact Hc..].
    destruct (cr clk ctx _ w1) as [w2 r] eqn:Hr. pose proof (keeps_recorder _ _ _ _ _ _ _ Hcr Hr).
    destruct r; simpl; by etransitivity.
Qed.

Lemma keeps_respond env rc w :
  R w (respond json_into_response fmt_f64 p env rc w).1.
Proof.
  unfold respond. destruct rc as [q ctx]. destruct (ctx_channel ctx) as [ch|]; [|reflexivity].
  unfold forward_to_upstream. pose proof (client_keeps Hp (build_upstream_request q ch) w) as Hc.
  destruct (ps_client p _ w) as [w1 [u|e|]]; simpl in *; [|done..].
  etransitivity; [exact Hc|].
  pose proof (keeps_handle_response (is_streaming q) (clock_response env) ctx u w1) as Hk.
  by destruct (is_streaming q).
Qed.

(** What a request does to the world is made of its hooks, the upstream call and
    the cost record. *)
Lemma keeps_request env req s :
  R (sh_world s)
    (sh_world (build_router json_into_response fmt_f64 parse_report parse_header status_response
                 body_limit p env req s).1).
Proof.
  unfold build_router. destruct (body_limit _ req) as [req'|r|]; [|reflexivity..].
  destruct (auth_middleware _ req' _) as [out|st|] eqn:Ha; [|reflexivity..].
  assert (exists q, out = dispatch json_into_response fmt_f64 parse_report parse_header
                            status_response p env q s) as [q ->].
  { unfold auth_middleware in Ha. repeat case_match; simplify_eq; eauto. }
  unfold dispatch. destruct (route _ _); [|reflexivity..]. unfold handle_proxy_request.
  destruct (check_request _ _ p q) as [[pr f]|rej|]; [|reflexivity..].
  destruct (correlate _ _ _ _ _) as [cursors ctx]. cbv zeta.
  match goal with |- context [run_on_request_chain ?m ?c ?x ?v] =>
    pose proof (keeps_request_chain c x v) as Hc;
    destruct (run_on_request_chain m c x v) as [w1 [rc|e|]] end; simpl in *; try exact Hc.
  pose proof (keeps_respond env rc w1) as Hk.
  destruct (respond _ _ p env rc w1) as [w2 o]. simpl in *. by etransitivity.
Qed.
End EngineSteps.

(** ** The steps of the running system *)

Section System.
Context `{SerdeJson, !TokenlessSchema, !LlmBridge, PricingCodec, !ColumnCodec} {N : Type}.
Context (debug_strings : list string -> string) (json_error : string -> string).
Context (json_into_response : Value -> HttpResponse) (fmt_f64 : nat -> f64 -> string).
Context (parse_report : string -> option ProxyReport).
Context (parse_header : string -> option TokenlessHeader).
Context (status_response : StatusCode -> HttpResponse).
Context (body_limit : Z -> HttpRequest -> Res HttpResponse HttpRequest).
Context (admin_limit : Z -> HttpRequest -> Res StatusCode HttpRequest).
Context (x : Extractors) (naive_min : Z) (src : Sources).
Context (reply_response : Reply -> HttpResponse).
Context (client : UpstreamRequest -> N -> N * Res SendError UpstreamResponse).
Context (reqwest : Z -> Z -> Res string unit).

(** A database sequence never moves back. *)
Definition env_ok (env : Env) : Prop := forall n, n <= seq_after_conflict env n.

(** A step of any request in progress, or the passing of time. *)
Inductive step (sv : Running) (w : World N) : World N -> Prop :=
| step_moment m : env_ok (mo_env m) -> step sv w (put_moment m w)
| step_request_hook mw clk rc :
    mw ∈ ps_middlewares (sv_proxy sv) -> step sv w (on_request mw clk rc w).1
| step_response_hook mw clk ctx res :
    mw ∈ ps_middlewares (sv_proxy sv) -> step sv w (on_response mw clk ctx res w).1
| step_upstream req : step sv w (ps_client (sv_proxy sv) req w).1
| step_record cr clk ctx body :
    ps_cost_recorder (sv_proxy sv) = Some cr -> step sv w (cr clk ctx body w).1
| step_admin e a :
    admin_step debug_strings (mo_env (w_moment w)) src e (admin_view w) a ->
    step sv w (put_admin a w).

Definition runs (sv : Running) : World N -> World N -> Prop := rtc (step sv).

#[local] Instance runs_preorder sv : PreOrder (runs sv).
Proof. unfold runs. split; [intros ?; apply rtc_refl|intros ???; apply rtc_trans]. Qed.

Lemma admin_view_put a (w : World N) : admin_view (put_admin a w) = a.
Proof. by destruct a. Qed.

Lemma put_admin_view (w : World N) : put_admin (admin_view w) w = w.
Proof. by destruct w as [? ? [? ?] ? ?]. Qed.

Lemma put_admin_put a a' (w : World N) : put_admin a (put_admin a' w) = put_admin a w.
Proof. done. Qed.

Lemma admin_steps_run sv e w a a' :
  rtc (admin_step debug_strings (mo_env (w_moment w)) src e) a a' ->
  runs sv (put_admin a w) (put_admin a' w).
Proof.
  induction 1 as [a|a b c Hs _ IH]; [reflexivity|]. etransitivity; [|exact IH].
  apply rtc_once. rewrite <-(put_admin_put b a w). apply (step_admin sv _ e). by rewrite admin_view_put.
Qed.

(** Serving a request, admin or proxied, is a sequence of atomic steps: hooks, the
    upstream call, the cost record, single storage calls and single updates of
    the shared maps.  Concurrent requests interleave at these steps. *)
Lemma app_runs sv env req s :
  runs sv (sh_world s)
    (sh_world (app debug_strings json_error json_into_response fmt_f64 parse_report parse_header
                 status_response body_limit admin_limit x naive_min src reply_response sv env req
                 s).1).
Proof.
  unfold app. destruct (is_admin_path _).
  - unfold admin, focus. set (w := sh_world s). cbv zeta.
    pose proof (admin_service_steps debug_strings (mo_env (w_moment w)) src (mo_clock (w_moment w))
      (mo_now (w_moment w)) naive_min (mo_probe (w_moment w)) json_error x admin_limit
      (ak_key (sv_admin_key sv)) req (admin_view w)) as Hk.
    cbv zeta in Hk. destruct (admin_service _ _ _ _ _ _ _ _ _ _ _) as [a r]. simpl in *.
    rewrite <-(put_admin_view w) at 1. destruct (admin_call _ _ _) as [[e q]|].
    + by apply (admin_steps_run _ e).
    + subst a. reflexivity.
  - apply (keeps_request (runs sv)). constructor.
    + intros mw Hm. split; intros; intros w; apply rtc_once; by constructor.
    + intros cr clk ctx body Hc w. apply rtc_once. by constructor.
    + intros q w. apply rtc_once. constructor.
Qed.

(** *** Invariant *)

Record world_wf (w : World N) : Prop := {
  ww_db : db_wf (w_db w);
  ww_catalog : catalog_wf (w_db w);
  ww_router : router_wf (w_router w);
  ww_moment : env_ok (mo_env (w_moment w))
}.

Lemma run_op_keeps env op d :
  env_ok env -> db_wf d /\ catalog_wf d -> db_wf (run_op env op d) /\ catalog_wf (run_op env op d).
Proof.
  intros He [Hd Hc]. split; [by apply run_op_wf|]. destruct (run_op_catalog env op d).
  by apply (catalog_eq d).
Qed.

Lemma admin_step_wf e w a :
  world_wf w -> admin_step debug_strings (mo_env (w_moment w)) src e (admin_view w) a ->
  world_wf (put_admin a w).
Proof.
  intros [Hd Hc Hr Hm] Hs. destruct Hs as [op _|url|r Hs|b]; simpl in *.
  - destruct (run_op_keeps _ op _ Hm (conj Hd Hc)). by constructor.
  - destruct (proj2 (seeding_keeps_wf src (mo_env (w_moment w))) url (w_db w)) as [Hdb Hcat].
    constructor; simpl; auto.
  - constructor; simpl; try done. exact (router_step_wf _ _ _ Hs Hr).
  - by constructor.
Qed.

(** The middlewares, client and recorder of a server that [main] has built with
    these aliases. *)
Definition built_with (aliases : gmap string string) (sv : Running) : Prop :=
  ps_middlewares (sv_proxy sv) = [compress_part; ModelAliasMiddleware aliases;
                                  router_part debug_strings; BridgeMiddleware] /\
  ps_client (sv_proxy sv) = upstream client /\
  ps_cost_recorder (sv_proxy sv) = Some cost_middleware.

Definition built (sv : Running) : Prop := exists aliases, built_with aliases sv.

Lemma cost_middleware_db clk ctx body (w : World N) :
  exists op, (cost_middleware clk ctx body w).1 =
    put_db (run_op (mo_env (w_moment w)) op (w_db w)) w.
Proof.
  exists (OpInsertCost (build_record (mo_record_id (w_moment w)) (mo_timestamp (w_moment w))
    "unknown" clk ctx body)).
  unfold cost_middleware, focus, record. cbn [run_op sqlite_storage Storage.insert_cost_record].
  by destruct (Sqlite.insert_cost_record _ _ _).
Qed.

Lemma hook_wf sv mw w :
  built sv -> mw ∈ ps_middlewares (sv_proxy sv) -> world_wf w ->
  (forall clk rc, world_wf (on_request mw clk rc w).1) /\
  (forall clk ctx res, world_wf (on_response mw clk ctx res w).1).
Proof.
  intros (al & -> & _) Hmw [Hd Hc Hr Hm].
  repeat (apply elem_of_cons in Hmw as [->|Hmw]); [| | | |by apply elem_of_nil in Hmw];
    split; intros; cbn [on_request on_response compress_part router_part on_part
      ModelAliasMiddleware BridgeMiddleware CompressMiddleware ModelRouterMiddleware];
    unfold focus, st_lift, st_ret;
    repeat match goal with |- context [let '(_, _) := ?m in _] => destruct m eqn:Heq end;
    constructor; simpl; try done.
  - pose proof (step_request (Storage0 := sqlite_storage (mo_env (w_moment w))) debug_strings (w_router w) clk rc) as Hs.
    rewrite Heq in Hs. exact (router_step_wf _ _ _ Hs Hr).
  - pose proof (Router.step_response (Storage0 := sqlite_storage (mo_env (w_moment w))) debug_strings (w_router w) clk ctx res) as Hs.
    rewrite Heq in Hs. exact (router_step_wf _ _ _ Hs Hr).
Qed.

Lemma step_wf sv w w' : built sv -> step sv w w' -> world_wf w -> world_wf w'.
Proof.
  intros Hb Hs Hw. pose proof Hw as [Hd Hc Hr Hm].
  destruct Hs as [m Hok|mw clk rc Hin|mw clk ctx res Hin|req|cr clk ctx body Hcr|e a Ha].
  - by constructor.
  - by apply (hook_wf sv).
  - by apply (hook_wf sv).
  - destruct Hb as (al & _ & -> & _). unfold upstream, focus. destruct (client _ _). by constructor.
  - destruct Hb as (al & _ & _ & Hcost). rewrite Hcost in Hcr. injection Hcr as <-.
    destruct (cost_middleware_db clk ctx body w) as [op ->].
    destruct (run_op_keeps _ op _ Hm (conj Hd Hc)). by constructor.
  - by apply (admin_step_wf e).
Qed.

(** What a successful start-up returns. *)
Lemma start_up_Ok env_var random env d d' sv r :
  start_up debug_strings src client reqwest env_var random env d = (d', Ok (sv, r)) ->
  exists aliases,
    d' = (Seed.seed_init env src (Sqlite.migrate env d).1).1 /\
    router_from_storage (Storage0 := sqlite_storage env) d' = Ok r /\
    (Sqlite.list_model_aliases env d' = Ok aliases \/
     aliases = [] /\ is_ok (Sqlite.list_model_aliases env d') = false) /\
    sv_admin_key sv = resolve_admin_key_with env_var random /\
    sv_proxy sv =
      {| ps_config := main_config (env_var "AGENT_PROXY_API_KEY") (env_var "AGENT_PROXY_TOKEN");
         ps_middlewares := [compress_part; ModelAliasMiddleware (alias_map aliases);
                            router_part debug_strings; BridgeMiddleware];
         ps_client := upstream client; ps_cost_recorder := Some cost_middleware |}.
Proof.
  unfold start_up, st_bind at 1.
  destruct (Sqlite.migrate env d) as [d1 [u|e|]]; simpl; [|done..]. unfold st_bind at 1.
  destruct (Seed.seed_init env src d1) as [d2 [u2|e2|]]; simpl; try done; unfold st_bind at 1;
    destruct (router_from_storage d2) as [r'|e|] eqn:Hr; simpl; try done; unfold st_bind at 1;
    destruct (Sqlite.list_model_aliases env d2) as [al|e|] eqn:Hal; simpl; try done;
    unfold st_bind, st_lift, st_ret; simpl;
    unfold into_router, build_reqwest_client;
    destruct (reqwest _ _) as [[]|e''|]; simpl; try discriminate;
    intros [= <- <- <-]; first [exists al|exists []];
    (split; [done|]; split; [exact Hr|]; split; [rewrite Hal; auto|done]).
Qed.

(** The states of a server that has been started on a well-formed database. *)
Inductive sys_reachable (sv : Running) : World N -> Prop :=
| sys_start env_var random env d d' r n m :
    db_wf d -> catalog_wf d -> env_ok env -> env_ok (mo_env m) ->
    start_up debug_strings src client reqwest env_var random env d = (d', Ok (sv, r)) ->
    sys_reachable sv (first_world d' r n m)
| sys_next w w' : sys_reachable sv w -> step sv w w' -> sys_reachable sv w'.

Lemma sys_reachable_wf sv w : sys_reachable sv w -> built sv /\ world_wf w.
Proof.
  induction 1 as [env_var random env d d' r n m Hd Hc He Hm Hs|w w' _ [Hb IH] Hs].
  - destruct (start_up_Ok _ _ _ _ _ _ _ Hs) as (al & -> & Hr & _ & _ & Hb). split.
    + exists (alias_map al). unfold built_with. by rewrite Hb.
    + destruct (run_op_keeps env OpMigrate d He (conj Hd Hc)) as [Hd1 Hc1].
      destruct (proj1 (seeding_keeps_wf src env) (run_op env OpMigrate d)) as [Hd2 Hc2].
      constructor; simpl; [by apply Hd2|by apply Hc2| |done].
      apply (router_from_storage_wf _ _ Hr).
  - split; [done|]. by eapply step_wf.
Qed.

Lemma reachable_runs sv w w' : sys_reachable sv w -> runs sv w w' -> sys_reachable sv w'.
Proof. intros Hw Hr. revert Hw. induction Hr; eauto using sys_next. Qed.

(** C5: In every state the running server can be in, whatever requests to the proxy and
    to the admin API have been served and whatever steps of others are half
    done: identifiers and names in the database are unique, every mapping
    belongs to a channel and every model to a provider, no cost is a NaN,
    channel health and usage counters are well formed; and serving a request
    leads to such a state again. *)
Theorem system_invariant sv w :
  sys_reachable sv w ->
  db_wf (w_db w) /\ catalog_wf (w_db w) /\ router_wf (w_router w) /\
  forall env req s, sh_world s = w ->
    sys_reachable sv (sh_world (app debug_strings json_error json_into_response fmt_f64 parse_report
      parse_header status_response body_limit admin_limit x naive_min src reply_response sv env req
      s).1).
Proof.
  intros Hw. destruct (sys_reachable_wf sv w Hw) as [_ [Hd Hc Hr _]].
  split; [done|]. split; [done|]. split; [done|]. intros env req s <-.
  apply (reachable_runs sv (sh_world s)); [done|apply app_runs].
Qed.
End System.

(** The server started on an empty database, after a request that is not routed. *)
Lemma system_invariant_witness :
  let _ := Model.json in
  match SampleMain.started with
  | (d, Ok (sv, r)) =>
      let s := SampleMain.shared (first_world d r 0%nat SampleMain.moment) in
      let w := sh_world (SampleMain.serve_request sv SampleServer.env (SampleMain.ask "x") s).1 in
      length (t_models (w_db w)) = 1%nat /\ db_wf (w_db w) /\ router_wf (w_router w)
  | _ => False
  end.
Proof.
  intros J.
  assert (Hok : is_ok SampleMain.started.2 = true) by (vm_compute; reflexivity).
  assert (Hlen : match SampleMain.started with
    | (d, Ok (sv, r)) =>
        let s := SampleMain.shared (first_world d r 0%nat SampleMain.moment) in
        length (t_models (w_db (sh_world
          (SampleMain.serve_request sv SampleServer.env (SampleMain.ask "x") s).1)))
    | _ => 0%nat
    end = 1%nat) by (vm_compute; reflexivity).
  destruct SampleMain.started as [d [[sv r]| |]] eqn:Hs; [|discriminate Hok..].
  split; [exact Hlen|]. cbv zeta.
  pose proof (fun w => @system_invariant Model.json SampleTools.compressor Tagged.bridge
    SampleStore.pricing_codec SampleStore.columns nat SampleMain.no_strings id SampleServer.json_into
    (fun _ _ => EmptyString) (fun _ => None) (fun _ => None) SampleServer.status_only
    (fun _ q => Ok q) (fun _ q => Ok q) SampleMain.extractors 0 SampleMain.sources SampleMain.reply
    SampleMain.client (fun _ _ => Ok tt) sv w) as Hinv.
  assert (Hseq : env_ok SampleDb.env) by (intros n; simpl; lia).
  destruct (Hinv (first_world d r 0%nat SampleMain.moment)) as (_ & _ & _ & Happ).
  { eapply sys_start; [exact empty_db_wf| | | |exact Hs]; [constructor; constructor|exact Hseq..]. }
  specialize (Happ SampleServer.env (SampleMain.ask "x")
    (SampleMain.shared (first_world d r 0%nat SampleMain.moment)) eq_refl).
  destruct (Hinv _ Happ) as (Hdb & _ & Hr & _). split; [exact Hdb|exact Hr].
Defined.
