(* ===== verification/Flows.v ===== *)
(** Flows through several components: from the admin API to what the upstream
    sees, and from the seeded database to what the client sees. *)

From stdpp Require Import gmap relations.
From S2P Require Import Prelude RustStr Float64 Json Http Billing Types Middleware Storage.
From S2P Require Import Router Bridge Compress Report Cost Auth Server Sqlite Seed Probe.
From S2P Require Import AdminAuth Admin Main System.
Import Storage Router.
Local Open Scope Z_scope.
Local Open Scope st_scope.

(** ** From the admin API to the upstream *)

Section AdminFlows.
Context {S : Type} `{!Storage S, !SeedManager S}.
Context `{SerdeJson, PricingCodec, !ColumnCodec}.
Context (dbg : list string -> string) (json_error : string -> string).

Lemma routed_from_storage s r0 r clk req ctx r' req' ctx' :
  is_ok (reload_channels_from_storage s r0).2 = true ->
  channels r = channels (reload_channels_from_storage s r0).1 ->
  router_on_request dbg clk (req, ctx) r = (r', Ok (req', ctx')) ->
  exists chs c ms mp json info,
    list_channels None s = Ok chs /\ c ∈ chs /\ ch_enabled c = true /\
    list_mappings (ch_id c) s = Ok ms /\ mp ∈ ms /\ mm_enabled mp = true /\
    from_slice (req_body req) = Ok json /\ get_str "model" json = Some (mm_client_name mp) /\
    ctx_mapping ctx' = Some info /\ smi_channel_id info = ch_id c /\
    smi_upstream_name info = mm_upstream_name mp.
Proof.
  unfold reload_channels_from_storage. intros Hok Hchans Hr.
  destruct (list_channels None s) as [chs| |] eqn:Hchs; simpl in *; try done.
  destruct (load_channels s chs) as [loaded| |] eqn:Hload; simpl in *; try done.
  destruct (router_on_request_inv _ _ _ _ _ _ _ _ Hr)
    as (body & name & ch & m & target & p & url & rw & b & Hbody & Hname & _ & Hsel & _
        & _ & _ & _ & _ & ->).
  rewrite Hchans in Hsel.
  pose proof (proj2 (select_selection clk name (find_candidates loaded name) r)) as Hs.
  rewrite Hsel in Hs. apply selection_inv in Hs as [Hin _].
  apply find_candidates_spec in Hin as (Hch & Hen & Hm & <-).
  destruct (load_channels_spec s chs loaded Hload) as (_ & _ & Hsrc).
  rewrite Forall_forall in Hsrc.
  destruct (Hsrc ch Hch) as (c & ms & Hc & Hms & ->). simpl in *.
  apply list_elem_of_omap in Hm as (mp & [Hmp Hmen]%elem_of_filter_bool & Hres).
  unfold resolve_mapping in Hres. destruct (from_storage _ _); simplify_eq. simpl in *.
  eexists chs, c, ms, mp, body, _. split_and!; try done.
  { unfold ctx_mapping, ctx_insert. simpl. by rewrite lookup_insert_eq. }
  all: done.
Qed.

(** C9: After a change through the admin API, once its reload has gone through, a
    request is routed only to a channel and by a mapping that the storage holds
    as enabled at that moment, under the client name the request asked for: a
    channel or mapping that was disabled or deleted gets no request any more. *)
Theorem routing_follows_storage mu a a' clk req ctx r' req' ctx' :
  mutate json_error dbg mu a = (a', Ok tt) ->
  is_ok (reload_channels_from_storage (ad_storage a') (ad_router a)).2 = true ->
  router_on_request dbg clk (req, ctx) (ad_router a') = (r', Ok (req', ctx')) ->
  exists chs c ms mp json info,
    list_channels None (ad_storage a') = Ok chs /\ c ∈ chs /\ ch_enabled c = true /\
    list_mappings (ch_id c) (ad_storage a') = Ok ms /\ mp ∈ ms /\ mm_enabled mp = true /\
    from_slice (req_body req) = Ok json /\ get_str "model" json = Some (mm_client_name mp) /\
    ctx_mapping ctx' = Some info /\ smi_channel_id info = ch_id c /\
    smi_upstream_name info = mm_upstream_name mp.
Proof.
  intros Hmu Hok Hr. pose proof (mutate_reloads json_error dbg mu a) as Hrel.
  rewrite Hmu in Hrel. simpl in Hrel. eapply routed_from_storage; [exact Hok| |exact Hr]. by rewrite Hrel.
Qed.

(** *** Channels taken out of service *)

Context {wf : S -> Prop} `{!StorageLaws S wf}.

(** The mutation disables or deletes channel [id]. *)
Definition retires (id : string) (mu : Mutation) : Prop :=
  match mu with
  | MuUpdateChannel id' body => id' = id /\ uc_enabled body = Some false
  | MuDeleteChannel id' => id' = id
  | _ => False
  end.

(** The check of a forced protocol only reads. *)
Lemma validate_same id body (a : AdminState S) :
  (validate_force_protocol json_error dbg id body a).1 = a.
Proof.
  unfold validate_force_protocol. destruct (uc_force_protocol body) as [fp|]; [|done].
  unfold handle_get_channel, query, some_or, st_lift, st_bind, st_ret.
  destruct (uc_protocols body); [|destruct (get_channel _ _) as [[c|]| |]; try done]; simpl;
    destruct (parse_protocols _); simpl; try done; by destruct (existsb _ _).
Qed.

(** A successful update of a channel, and what it leaves in the storage. *)
Lemma update_channel_effect id body a a' c :
  wf (ad_storage a) ->
  handle_update_channel json_error dbg id body a = (a', Ok c) ->
  wf (ad_storage a') /\
  update_channel id (uc_name body) (uc_enabled body) (uc_priority body) (uc_monthly_quota body)
    (uc_quota_policy body) (uc_protocols body) (uc_force_protocol body) (ad_storage a)
    = (ad_storage a', Ok c).
Proof.
  intros Hwf Hh. apply st_bind_Ok in Hh as (a1 & u & Hv & Hh).
  assert (a1 = a) as ->.
  { pose proof (validate_same id body a) as Hsame. by rewrite Hv in Hsame. }
  apply st_bind_Ok in Hh as (a2 & c' & Hu & Hh). apply st_bind_Ok in Hh as (a3 & v & Hrel & Hh).
  injection Hh as -> ->. unfold command in Hu.
  destruct (update_channel _ _ _ _ _ _ _ _ _) as [s' res] eqn:Hup.
  injection Hu as <- Hr%map_err_Ok. subst res.
  assert (ad_storage a' = s') as ->.
  { unfold reload_channels in Hrel. destruct (reload_channels_from_storage _ _) as [rt res].
    by injection Hrel as <- _. }
  split; [|done]. by destruct (law_update _ _ _ _ _ _ _ _ _ _ _ Hwf Hup).
Qed.

Lemma delete_channel_effect id a a' b :
  handle_delete_channel id a = (a', Ok b) ->
  delete_channel id (ad_storage a) = (ad_storage a', Ok tt).
Proof.
  intros Hh. apply st_bind_Ok in Hh as (a2 & [] & Hd & Hh).
  apply st_bind_Ok in Hh as (a3 & v & Hrel & Hh).
  injection Hh as -> _. unfold command in Hd.
  destruct (delete_channel _ _) as [s' res] eqn:Hdel.
  injection Hd as <- Hr%map_err_Ok. subst res.
  unfold reload_channels in Hrel. destruct (reload_channels_from_storage _ _) as [rt res].
  by injection Hrel as <- _.
Qed.

(** No enabled channel of that identifier is left. *)
Lemma retired_gone id mu a a' c :
  wf (ad_storage a) -> mutate json_error dbg mu a = (a', Ok tt) -> retires id mu ->
  get_channel id (ad_storage a') = Ok (Some c) -> ch_enabled c = false.
Proof.
  intros Hwf Hmu Hret Hget.
  destruct mu as [id' body|id'| | |]; simpl in Hret; try done.
  - destruct Hret as [-> Hen]. apply st_bind_Ok in Hmu as (a1 & c' & Hh & [= <-]).
    apply update_channel_effect in Hh as [_ Hup]; [|done].
    apply law_update in Hup as (_ & Hc & _ & old & _ & _ & Henc & _); [|done].
    rewrite Hget in Hc. injection Hc as <-. by rewrite Henc, Hen.
  - subst id'. apply st_bind_Ok in Hmu as (a1 & b & Hh & [= <-]).
    apply delete_channel_effect, law_delete in Hh as [_ Hnone]; [|done]. congruence.
Qed.

Lemma retired_wf id mu a a' :
  wf (ad_storage a) -> mutate json_error dbg mu a = (a', Ok tt) -> retires id mu ->
  wf (ad_storage a').
Proof.
  intros Hwf Hmu Hret. destruct mu as [id' body|id'| | |]; simpl in Hret; try done;
    apply st_bind_Ok in Hmu as (a1 & x & Hh & [= <-]).
  - by destruct (update_channel_effect _ _ _ _ _ Hwf Hh).
  - by destruct (law_delete _ _ _ _ Hwf (delete_channel_effect _ _ _ _ Hh)).
Qed.

(** C10: A channel that was disabled or deleted through the admin API is out of
    service at once: while the router runs on the channels loaded by that
    change, no request is routed to it, whatever state of health, keys or
    quotas it has come to. *)
Theorem retired_channel_unused id mu a a' r clk req ctx r' req' ctx' info :
  wf (ad_storage a) ->
  mutate json_error dbg mu a = (a', Ok tt) -> retires id mu ->
  is_ok (reload_channels_from_storage (ad_storage a') (ad_router a)).2 = true ->
  channels r = channels (ad_router a') ->
  router_on_request dbg clk (req, ctx) r = (r', Ok (req', ctx')) ->
  ctx_mapping ctx' = Some info -> smi_channel_id info <> id.
Proof.
  intros Hwf Hmu Hret Hok Hchans Hr Hinfo <-.
  pose proof (mutate_reloads json_error dbg mu a) as Hrel. rewrite Hmu in Hrel. simpl in Hrel.
  rewrite Hrel in Hchans.
  destruct (routed_from_storage _ _ _ _ _ _ _ _ _ Hok Hchans Hr)
    as (chs & c & ms & mp & json & i & Hl & Hc & Hen & _ & _ & _ & _ & _ & Hi & Hid & _).
  rewrite Hinfo in Hi. injection Hi as <-. rewrite Hid in *.
  pose proof (retired_wf _ _ _ _ Hwf Hmu Hret) as Hwf'.
  pose proof (law_list _ _ _ Hwf' Hl Hc) as Hget.
  pose proof (retired_gone _ _ _ _ _ Hwf Hmu Hret Hget). congruence.
Qed.

(** *** Forced protocols *)

(** The protocol is one of a [protocols] column. *)
Definition offers (fp column : string) : Prop :=
  exists es e, parse_protocols column = Some es /\ e ∈ es /\ pe_protocol e = fp.

(** The [protocols] column a channel has after the update, if there is one. *)
Definition protocols_after (id : string) (body : UpdateChannelBody) (a : AdminState S)
    (column : string) : Prop :=
  match uc_protocols body with
  | Some new => column = new
  | None => exists c, get_channel id (ad_storage a) = Ok (Some c) /\ ch_protocols c = column
  end.

Lemma offers_entries fp column es :
  parse_protocols column = Some es ->
  offers fp column <-> existsb (fun e => String.eqb (pe_protocol e) fp) es = true.
Proof.
  intros Hp. rewrite existsb_elem. split.
  - intros (es' & e & Hp' & He & Hfp). exists e.
    rewrite Hp in Hp'. injection Hp' as ->. split; [done|]. by apply String.eqb_eq.
  - intros (e & He & Hfp%String.eqb_eq). by exists es, e.
Qed.

(** What the check of a forced protocol lets through, and its answers. *)
Lemma validate_force_spec id body fp a column :
  uc_force_protocol body = Some fp ->
  protocols_after id body a column ->
  exists r, validate_force_protocol json_error dbg id body a = (a, r) /\
    (offers fp column -> r = Ok tt) /\
    (~ offers fp column -> exists m, r = Err (bad_request m)).
Proof.
  intros Hfp Hcol. unfold protocols_after in Hcol. unfold validate_force_protocol. rewrite Hfp. unfold st_bind at 1.
  assert (Hprot : (match uc_protocols body with
                   | Some new_protocols => st_ret new_protocols
                   | None => let! current := handle_get_channel id in st_ret (ch_protocols current)
                   end) a = (a, Ok (E := AppError) column)).
  { destruct (uc_protocols body); [by subst|]. destruct Hcol as (c & Hc & <-).
    unfold handle_get_channel, query, some_or, st_lift, st_ret, st_bind. cbn.
    by rewrite Hc. }
  rewrite Hprot. unfold st_bind, some_or, st_lift, res_of_option.
  destruct (parse_protocols column) as [es|] eqn:Hes; simpl.
  - pose proof (offers_entries fp column es Hes) as [Ho1 Ho2].
    destruct (existsb _ es); eexists; (split; [reflexivity|]); split; intros Hx; try done; eauto.
    + by destruct (Hx (Ho2 eq_refl)).
    + by specialize (Ho1 Hx).
  - eexists. split; [reflexivity|]. split; [|eauto]. intros (es & e & Hp & _). congruence.
Qed.

(** C26: An update that forces a protocol is accepted only when the channel's protocols,
    as they are after the update, include it; the channel read back then forces
    it.  Otherwise the answer is a 400 and nothing has changed. *)
Theorem forced_protocol_checked id body fp a column :
  wf (ad_storage a) ->
  uc_force_protocol body = Some fp ->
  protocols_after id body a column ->
  let '(a', r) := handle_update_channel json_error dbg id body a in
  (offers fp column ->
     forall c, r = Ok c -> ch_id c = id /\ ch_force_protocol c = Some fp /\
       ch_protocols c = column /\ get_channel id (ad_storage a') = Ok (Some c)) /\
  (~ offers fp column -> a' = a /\ exists m, r = Err (bad_request m)).
Proof.
  intros Hwf Hfp Hcol. destruct (validate_force_spec id body fp a column Hfp Hcol)
    as (rv & Hv & Hyes & Hno).
  destruct (handle_update_channel json_error dbg id body a) as [a' r] eqn:Hh. split.
  - intros Ho c ->. destruct (update_channel_effect id body a a' c Hwf Hh) as [Hwf' Hup].
    apply law_update in Hup as (_ & Hget & Hid & old & Hold & _ & _ & _ & Hp & Hf & _); [|done].
    rewrite Hfp in Hf. split_and!; try done. rewrite Hp. unfold protocols_after in Hcol.
    destruct (uc_protocols body); [done|]. destruct Hcol as (c0 & Hc0 & <-).
    rewrite Hold in Hc0. by injection Hc0 as ->.
  - intros Hn. destruct (Hno Hn) as [m ->]. unfold handle_update_channel, st_bind at 1 in Hh.
    rewrite Hv in Hh. injection Hh as <- <-. split; [done|]. by exists m.
Qed.

(** *** The key override *)

(** Router steps other than a change of the key of channel [id]. *)
Inductive other_step (id : string) (r : Router) : Router -> Prop :=
| os_request clk rc : other_step id r (router_on_request dbg clk rc r).1
| os_response clk ctx res : other_step id r (router_on_response clk ctx res r).1
| os_reload s : other_step id r (reload_channels_from_storage s r).1
| os_set_key id' key : id' <> id -> other_step id r (set_key id' key r)
| os_remove_key id' : id' <> id -> other_step id r (remove_key id' r)
| os_unhealthy clk id' : other_step id r (mark_unhealthy_immediate clk id' r)
| os_clear_health id' : other_step id r (clear_health id' r).

Lemma other_step_key id r r' :
  other_step id r r' -> channel_api_keys r' !! id = channel_api_keys r !! id.
Proof.
  destruct 1 as [clk [req ctx]|clk ctx res|s|id' key Hne|id' Hne|clk id'|id'];
    try done.
  - destruct (on_request_state dbg clk req ctx r _ eq_refl) as [->|[name ->]]; [done|].
    destruct (select_selection clk name (find_candidates (channels r) name) r)
      as [(_ & _ & <- & _) _]. done.
  - unfold router_on_response. destruct (str_is_empty _); [done|]. simpl.
    by rewrite (proj1 (proj2 (record_status_rest _ _ _ _))),
      (proj1 (proj2 (record_quota_rest _ _ _ _))).
  - unfold reload_channels_from_storage. by destruct (internal _ ≫= _).
  - simpl. by rewrite lookup_insert_ne.
  - simpl. by rewrite lookup_delete_ne.
Qed.

Lemma set_key_effect clk client id key a a' probe :
  handle_set_channel_api_key clk client id key a = (a', Ok (Some probe)) ->
  key <> EmptyString /\ channel_api_keys (ad_router a') !! id = Some key /\
  exists s1 c1, set_channel_api_key id key (ad_storage a) = (s1, Ok tt) /\
    get_channel id s1 = Ok (Some c1) /\
    (ad_storage a' = s1 \/ exists r, mark_channel_healthy id s1 = (ad_storage a', r)).
Proof.
  unfold handle_set_channel_api_key. intros Hh.
  apply st_bind_Ok in Hh as (a1 & [] & Hu & Hh).
  unfold command in Hu. destruct (set_channel_api_key _ _ _) as [s1 res] eqn:Hset.
  injection Hu as <- Hres%map_err_Ok. subst res.
  destruct (str_is_empty key) eqn:Hkey.
  { apply st_bind_Ok in Hh as (? & ? & _ & Hh). apply st_bind_Ok in Hh as (? & ? & _ & Hh).
    by apply st_bind_Ok in Hh as (? & ? & _ & Hh). }
  split; [by intros ->|].
  apply st_bind_Ok in Hh as (a2 & ? & [= <- _] & Hh).
  apply st_bind_Ok in Hh as (a3 & c & Hc & Hh).
  apply st_bind_Ok in Hc as (a4 & oc & Hq & Hs). injection Hq as <- Hoc%map_err_Ok.
  injection Hs as <- Hs. destruct oc as [c'|]; [|done]. injection Hs as ->.
  apply st_bind_Ok in Hh as (a5 & pr & Hp & Hh). injection Hp as <- <-.
  apply st_bind_Ok in Hh as (a6 & ? & Hif & Hh). injection Hh as <- _.
  simpl in Hoc. destruct (probe_is_healthy _).
  - apply st_bind_Ok in Hif as (a7 & ? & [= <- _] & Hi). unfold ignoring in Hi.
    destruct (mark_channel_healthy _ _) as [s r] eqn:Hm. injection Hi as <- _. simpl in *.
    split; [apply lookup_insert_eq|]. exists s1, c. split_and!; [done..|]. right. by exists r.
  - injection Hif as <- _. simpl. split; [apply lookup_insert_eq|].
    exists s1, c. split_and!; [done..|]. by left.
Qed.

(** What the storage reads back afterwards. *)
Lemma set_key_stored clk client id key a a' probe :
  wf (ad_storage a) ->
  handle_set_channel_api_key clk client id key a = (a', Ok (Some probe)) ->
  wf (ad_storage a') /\
  forall c, get_channel id (ad_storage a') = Ok (Some c) -> ch_api_key c = key.
Proof.
  intros Hwf Hset.
  destruct (set_key_effect _ _ _ _ _ _ _ Hset) as (_ & _ & s1 & c1 & Hs & Hc1 & Hst).
  destruct (law_set_key _ _ _ _ _ Hwf Hs) as [Hwf1 Hk1].
  destruct Hst as [->|[r Hm]]; [done|]. destruct (law_mark_healthy _ _ _ _ Hwf1 Hm) as [Hwf' Hk].
  split; [done|]. intros c Hget. rewrite (Hk id c1 c) by done. by apply Hk1.
Qed.

(** A channel loaded with a key at start-up has the key the storage reads. *)
Lemma startup_key_stored s r id :
  wf s -> router_from_storage s = Ok r -> has_api_key r id = true ->
  exists c, get_channel id s = Ok (Some c) /\ channel_api_keys r !! id = Some (ch_api_key c).
Proof.
  unfold router_from_storage. intros Hwf Hr Hhas.
  destruct (list_channels None s) as [chs| |] eqn:Hchs; simpl in Hr; try done.
  destruct (load_channels s chs) as [loaded| |] eqn:Hload; simpl in Hr; try done.
  injection Hr as <-. unfold has_api_key in Hhas. simpl in *.
  destruct (initial_api_keys_lookup loaded id) as [Hsome Hnone].
  destruct (load_channels_spec s chs loaded Hload) as (_ & _ & Hsrc). rewrite Forall_forall in Hsrc.
  destruct (initial_api_keys loaded !! id) as [k|] eqn:Hk.
  - destruct (Hsome k eq_refl) as (_ & ch & Hin & <- & <-).
    destruct (Hsrc ch Hin) as (c & ms & Hc & _ & ->). exists c. split; [|done].
    by eapply law_list.
  - apply existsb_elem in Hhas as (ch & Hin & [Hid%String.eqb_eq Hkey]%andb_true_iff).
    by rewrite (Hnone eq_refl ch Hin Hid) in Hkey.
Qed.

(** An override is what the upstream gets. *)
Lemma override_reaches_upstream clk id key r0 r req ctx r' req' ctx' info :
  key <> EmptyString -> channel_api_keys r0 !! id = Some key -> rtc (other_step id) r0 r ->
  router_on_request dbg clk (req, ctx) r = (r', Ok (req', ctx')) ->
  ctx_mapping ctx' = Some info -> smi_channel_id info = id ->
  exists cfg, ctx_channel ctx' = Some cfg /\
    header_values "authorization" (up_headers (build_upstream_request req' cfg))
      = ["Bearer " +:+ key].
Proof.
  intros Hne Hkey Hsteps Hr Hinfo Hid.
  assert (Hk : channel_api_keys r !! id = Some key).
  { rewrite <-Hkey. clear -Hsteps. induction Hsteps as [|r1 r2 r3 Hs _ IH]; [done|].
    by rewrite IH, (other_step_key id r1 r2). }
  destruct (router_on_request_inv _ _ _ _ _ _ _ _ Hr)
    as (body & name & ch & m & target & p & url & rw & b & _ & _ & _ & _ & _
        & _ & _ & _ & _ & ->).
  unfold ctx_mapping, ctx_insert in Hinfo. simpl in Hinfo.
  rewrite lookup_insert_eq in Hinfo. injection Hinfo as <-. simpl in Hid.
  eexists. split.
  { unfold ctx_channel, ctx_insert. simpl.
    rewrite lookup_insert_ne, lookup_insert_eq by done. reflexivity. }
  rewrite upstream_header_values. cbn [cc_api_key]. rewrite Hid, Hk. by destruct key.
Qed.

(** C11: A key set through the admin API is the one the upstream gets, in the
    running server as well as in one started on the storage that change left:
    until the key of that channel is changed again, whatever requests,
    responses, reloads and changes of other channels come in between, a request
    routed to the channel carries exactly that key as its [Authorization]. *)
Theorem new_key_reaches_upstream clk client id key a a' probe r0 r clk' req ctx r' req' ctx' info :
  wf (ad_storage a) ->
  handle_set_channel_api_key clk client id key a = (a', Ok (Some probe)) ->
  (r0 = ad_router a' \/
   router_from_storage (ad_storage a') = Ok r0 /\ has_api_key r0 id = true) ->
  rtc (other_step id) r0 r ->
  router_on_request dbg clk' (req, ctx) r = (r', Ok (req', ctx')) ->
  ctx_mapping ctx' = Some info -> smi_channel_id info = id ->
  exists cfg, ctx_channel ctx' = Some cfg /\
    header_values "authorization" (up_headers (build_upstream_request req' cfg))
      = ["Bearer " +:+ key].
Proof.
  intros Hwf Hset Hstart Hsteps.
  destruct (set_key_effect _ _ _ _ _ _ _ Hset) as (Hne & Hkey & _).
  apply (override_reaches_upstream clk' id key r0); [done| |done].
  destruct Hstart as [->|[Hstart Hhas]]; [done|].
  destruct (set_key_stored _ _ _ _ _ _ _ Hwf Hset) as [Hwf' Hstored].
  destruct (startup_key_stored _ _ _ Hwf' Hstart Hhas) as (c & Hget & ->).
  by rewrite (Hstored c Hget).
Qed.
End AdminFlows.

(** ** From the database to the client *)

Lemma alias_map_lookup l a :
  NoDup (ma_alias_name <$> l) -> a ∈ l -> ma_enabled a = true ->
  alias_map l !! ma_alias_name a = Some (ma_target_model a).
Proof.
  unfold alias_map. intros Hnd Hin Hen.
  assert (Hin' : a ∈ List.filter ma_enabled l) by by apply elem_of_filter_bool.
  assert (Hnd' : NoDup (ma_alias_name <$> List.filter ma_enabled l)) by by apply filter_keys.
  clear Hin Hnd. revert Hin' Hnd'.
  induction (List.filter ma_enabled l) as [|b bs IH] using rev_ind; intros Hin Hnd;
    [by apply elem_of_nil in Hin|].
  rewrite foldl_app. simpl. rewrite fmap_app in Hnd. apply NoDup_app in Hnd as (Hnd & Hdis & _).
  apply elem_of_app in Hin as [Hin|<-%list_elem_of_singleton]; [|by rewrite lookup_insert_eq].
  rewrite lookup_insert_ne; [by apply IH|]. intros Heq.
  apply (Hdis (ma_alias_name a)); [by apply list_elem_of_fmap_2|]. simpl.
  rewrite <-Heq. by apply list_elem_of_singleton.
Qed.

Section MainFlows.
Context `{SerdeJson, !TokenlessSchema, !LlmBridge, PricingCodec, !ColumnCodec} {N : Type}.
Context (debug_strings : list string -> string) (json_error : string -> string).
Context (json_into_response : Value -> HttpResponse) (fmt_f64 : nat -> f64 -> string).
Context (parse_report : string -> option ProxyReport).
Context (parse_header : string -> option TokenlessHeader).
Context (src : Sources) (client : UpstreamRequest -> N -> N * Res SendError UpstreamResponse).
Context (reqwest : Z -> Z -> Res string unit).

Lemma focus_Ok {V E A} (get : World N -> V) put (m : ST V E A) w r :
  put (get w) w = w -> m (get w) = (get w, r) -> focus get put m w = (w, r).
Proof. intros Hp Hm. unfold focus. by rewrite Hm, Hp. Qed.

(** The compression's debug log cuts one of the request's tools inside a character. *)
Definition log_panics (c : Compress) (json : Value) : bool :=
  enabled c && from_option snapshot_panics false (get "tools" json ≫= as_array).

(** The compression of a request that parses: only its log can stop the request,
    and the model it asks for stays. *)
Lemma compress_outcome `{!SerdeJsonLaws _} (c : Compress) req ctx json :
  from_slice (req_body req) = Ok json ->
  if log_panics c json then compress_on_request (req, ctx) c = (c, Panic)
  else exists req' ctx' json', compress_on_request (req, ctx) c = (c, Ok (req', ctx')) /\
         from_slice (req_body req') = Ok json' /\ get_str "model" json' = get_str "model" json.
Proof.
  intros Hj. unfold log_panics. destruct (enabled c) eqn:He; simpl.
  2:{ unfold compress_on_request. rewrite He. by eauto 10. }
  destruct (get "tools" json ≫= as_array) as [tools|] eqn:Ht; simpl.
  2:{ unfold compress_on_request, compress_body. rewrite He. simpl. rewrite Hj. simpl.
      rewrite Ht. by eauto 10. }
  pose proof (compress_request_effect c req ctx json tools He Hj Ht) as Hc.
  destruct (compress_on_request _ _) as [c' res]. destruct Hc as [-> Hc].
  destruct (snapshot_panics tools); [by subst|]. destruct (compress_tools tools).2.
  - destruct Hc as (b & ctx' & json' & -> & _ & Hj' & Hk & _). exists (with_body b req), ctx', json'.
    split_and!; [done..|]. by apply Hk.
  - subst. by eauto 10.
Qed.

Lemma router_without_model clk req ctx (r : Router) json :
  from_slice (req_body req) = Ok json -> get_str "model" json = Some EmptyString ->
  router_on_request debug_strings clk (req, ctx) r =
    (r, Err (BadRequest "request body missing 'model' field")).
Proof.
  intros Hj Hm. unfold router_on_request, st_bind at 1, st_lift at 1. rewrite Hj. simpl.
  by rewrite Hm.
Qed.

(** The chain [main] builds, on a request for an alias without a target. *)
Lemma chain_unset_alias `{!SerdeJsonLaws _} aliases clk req ctx json name (w : World N) :
  from_slice (req_body req) = Ok json -> get_str "model" json = Some name ->
  name <> EmptyString -> aliases !! name = Some EmptyString ->
  run_on_request_chain [compress_part; ModelAliasMiddleware aliases;
                        router_part debug_strings; BridgeMiddleware] clk (req, ctx) w =
    (w, if log_panics (w_compress w) json then Panic
        else Err (A := ProxyRequest * ConnectionContext)
               (BadRequest "request body missing 'model' field")).
Proof.
  intros Hj Hm Hne Hal. pose proof (compress_outcome (w_compress w) req ctx json Hj) as Hc.
  assert (Hon1 : forall r, compress_on_request (req, ctx) (w_compress w) = (w_compress w, r) ->
    on_request (compress_part (N := N)) clk (req, ctx) w = (w, r))
    by (intros r0 Hr0; apply focus_Ok; [by destruct w|done]).
  cbn [run_on_request_chain]. unfold st_bind at 1.
  destruct (log_panics (w_compress w) json); [by rewrite (Hon1 _ Hc)|].
  destruct Hc as (req1 & ctx1 & json1 & Hc & Hj1 & Hm1). rewrite (Hon1 _ Hc).
  pose proof (alias_rewrites_model aliases req1 ctx1 json1 Hj1) as Hrw.
  rewrite Hm1, Hm, Hal in Hrw. destruct (str_is_empty name) eqn:He; [by destruct name|].
  destruct Hrw as (body & json' & Hon & Hj' & Hm' & _).
  assert (Hr : on_request (router_part (N := N) debug_strings) clk (with_body body req1, ctx1) w =
    (w, Err (BadRequest "request body missing 'model' field")))
    by (apply focus_Ok; [by destruct w|by eapply router_without_model]).
  unfold st_bind at 1. cbn [on_request ModelAliasMiddleware]. unfold st_lift. rewrite Hon.
  unfold st_bind at 1. by rewrite Hr.
Qed.

Definition unset_alias (a : ModelAlias) : Prop :=
  ma_enabled a = true /\ ma_target_model a = EmptyString /\ ma_alias_name a <> EmptyString.

(** The aliases of a database the server has just created. *)
Lemma first_start_aliases e :
  pool_error e = None ->
  let d := (Seed.seed_init e src (Sqlite.migrate e empty_db).1).1 in
  ma_alias_name <$> t_aliases d = seeded_aliases /\ Forall unset_alias (t_aliases d).
Proof.
  intros Hpool d. unfold d.
  rewrite (keeps_aliases _ _ (proj1 (seeding_only_seeds src e) _)).
  assert (Hm : t_aliases (Sqlite.migrate e empty_db).1 =
    t_aliases (foldl (seed_alias e) (migration_v1 empty_db) seeded_aliases))
    by (unfold Sqlite.migrate, writing; by rewrite Hpool).
  rewrite Hm. split; [reflexivity|]. by repeat constructor.
Qed.

(** C12: On its first start the server has the five seeded aliases, all enabled and
    without a target.  Whatever database it has started on, a request for an
    alias that is enabled but has no target is refused with a 400 that
    complains about a missing model, unless its tools make the debug log of the
    compression panic (then it is not answered): no later hook runs, nothing
    goes upstream, no cost is recorded, and of the shared state only the counter
    of requests and the cursor of the session's savings report have moved. *)
Theorem unset_alias_rejected `{!SerdeJsonLaws _} env_var random e d d' sv r :
  start_up debug_strings src client reqwest env_var random e d = (d', Ok (sv, r)) ->
  db_wf d -> env_ok e -> pool_error e = None ->
  (d = empty_db ->
     ma_alias_name <$> t_aliases d' = seeded_aliases /\ Forall unset_alias (t_aliases d')) /\
  forall a env req s pr f json,
    a ∈ t_aliases d' -> unset_alias a ->
    check_request json_into_response fmt_f64 (sv_proxy sv) req = Ok (pr, f) ->
    from_slice (req_body pr) = Ok json -> get_str "model" json = Some (ma_alias_name a) ->
    sent json_into_response fmt_f64 parse_report parse_header (sv_proxy sv) env req s = [] /\
    handle_proxy_request json_into_response fmt_f64 parse_report parse_header
      (sv_proxy sv) env req s =
    (taken_in parse_report env (rq_headers req) s,
     if log_panics (w_compress (sh_world s)) json then None
     else Some (error_response json_into_response fmt_f64
                  (BadRequest "request body missing 'model' field"))).
Proof.
  intros Hs Hd He Hpool.
  destruct (start_up_Ok _ _ _ _ _ _ _ _ _ _ _ Hs) as (al & -> & _ & Hal & _ & Hb).
  split; [intros ->; by apply first_start_aliases|].
  intros a env req s pr f json Ha (Hen & Htgt & Hname) Hcheck Hj Hm.
  assert (Hwf : db_wf (Seed.seed_init e src (Sqlite.migrate e d).1).1).
  { apply (proj1 (seeding_keeps_wf src e)). by apply (run_op_wf e OpMigrate). }
  set (d2 := (Seed.seed_init e src _).1) in *.
  assert (Hlist : exists l, Sqlite.list_model_aliases e d2 = Ok l /\ l ≡ₚ t_aliases d2).
  { unfold Sqlite.list_model_aliases, reading. rewrite Hpool. eexists. split; [done|].
    apply order_by_perm. }
  destruct Hlist as (l & Hl & Hperm). rewrite Hl in Hal.
  destruct Hal as [[= <-]|[_ Hno]]; [|done].
  assert (Hlook : alias_map l !! ma_alias_name a = Some EmptyString).
  { rewrite <-Htgt. apply alias_map_lookup; [|by rewrite Hperm|done].
    rewrite Hperm. by destruct Hwf. }
  pose proof (check_request_headers json_into_response fmt_f64 _ _ _ _ Hcheck) as Hh.
  unfold sent, handle_proxy_request, hook_input, taken_in.
  rewrite Hcheck, Hh, <-(correlate_cursors parse_report env (rq_headers req) (sh_cursors s)
    (initial_context env req f s)).
  destruct (correlate _ _ _ _ _) as [cursors ctx]. cbv zeta. cbn [fst snd].
  pose proof (fun ctx => chain_unset_alias (alias_map l) (clock_request env) pr ctx json
    (ma_alias_name a) (sh_world s) Hj Hm Hname Hlook) as Hch.
  replace (ps_middlewares (sv_proxy sv)) with [compress_part (N := N);
    ModelAliasMiddleware (alias_map l); router_part debug_strings; BridgeMiddleware]
    by (by rewrite Hb).
  rewrite Hch. by destruct (log_panics _ _).
Qed.
End MainFlows.

(** ** Savings on the database *)

Section Savings.
Context `{SerdeJson, PricingCodec, !ColumnCodec}.
Context (env : Env) (Hpool : pool_error env = None).
Let sql : Storage Db := sqlite_storage env.
#[local] Existing Instance sql.

(** The savings report adds up the newest hundred matching records only. *)
Lemma savings_of_newest now naive_min q a a' report :
  cost_savings now naive_min q a = (a', Ok report) ->
  exists range, report = savings_of (take 100 (order_by newest_first
    (List.filter (cost_matches env
       {| cf_project_path := rq_project q; cf_model_name := None; cf_channel_name := None;
          cf_time_range := Some range; cf_limit := None; cf_offset := None |})
       (t_costs (ad_storage a))))).
Proof.
  intros Hs. apply st_bind_Ok in Hs as (a1 & range & Hr & Hs). injection Hr as <- _.
  apply st_bind_Ok in Hs as (a2 & records & Hq & Hs). injection Hs as <- <-.
  injection Hq as <- Hq%map_err_Ok. exists range. f_equal.
  cbn [sql sqlite_storage Storage.query_cost_records] in Hq.
  unfold Sqlite.query_cost_records, reading in Hq. rewrite Hpool in Hq. injection Hq as <-. done.
Qed.
End Savings.

(** ** Witnesses *)

(** A database with two channels of the same model, and the router on it. *)
Module SampleFlows.
#[local] Existing Instances Model.json SampleStore.pricing_codec.

(** A [protocols] column is the name of its one protocol. *)
#[export] Instance columns : ColumnCodec := {|
  parse_protocols s := Some
    [{| pe_protocol := if String.eqb s "[]" then "openai_chat" else s;
        pe_base_url := "http://o/"; pe_rewrite_path := None |}];
  parse_strings _ := None
|}.

Definition flat (id ch upstream : string) : ModelMapping :=
  {| mm_id := id; mm_channel_id := ch; mm_client_name := "sonnet"; mm_upstream_name := upstream;
     mm_billing := "flatfee"; mm_pricing_json := "{}"; mm_weight := 1; mm_enabled := true;
     mm_protocols := "[]" |}.

Definition db : Db :=
  foldl (fun d op => run_op SampleDb.env op d) (SampleSeed.seeded [])
    [OpUpsertChannel (SampleDb.channel "a" "ka" 0);
     OpUpsertChannel (SampleDb.channel "b" "kb" 0); OpUpsertMapping (flat "m" "a" "up-a");
     OpUpsertMapping (flat "n" "b" "up-b")].

#[export] Instance store : Storage Db := sqlite_storage SampleDb.env.
#[export] Instance seeds : SeedManager Db := sqlite_seed_manager SampleDb.env SampleMain.sources.

Definition admin : AdminState Db :=
  {| ad_storage := db;
     ad_router := match router_from_storage db with Ok r => r | _ => Sample.router end;
     ad_compress_enabled := true |}.

Definition disable : UpdateChannelBody :=
  {| uc_name := None; uc_enabled := Some false; uc_priority := None; uc_monthly_quota := None;
     uc_quota_policy := None; uc_protocols := None; uc_force_protocol := None |}.

(** An update of the protocols and of the forced one. *)
Definition protocols (column fp : option string) : UpdateChannelBody :=
  {| uc_name := None; uc_enabled := None; uc_priority := None; uc_monthly_quota := None;
     uc_quota_policy := None; uc_protocols := column; uc_force_protocol := fp |}.

(** The channel and the upstream model a request for [sonnet] is routed to. *)
Definition routed (r : Router) : option (string * string) :=
  match (router_on_request SampleMain.no_strings (Sample.clock 1) (Sample.request, Sample.context) r).2 with
  | Ok (_, ctx) => (fun i => (smi_channel_id i, smi_upstream_name i)) <$> ctx_mapping ctx
  | _ => None
  end.

Definition updated (body : UpdateChannelBody) (a : AdminState Db) : AdminState Db * Res AppError Channel :=
  handle_update_channel id SampleMain.no_strings "a" body a.
End SampleFlows.

(** The database of the samples is well formed, and the storage keeps its laws. *)
Lemma sample_flows_wf : db_wf SampleFlows.db.
Proof.
  unfold SampleFlows.db. cbn [foldl].
  do 4 (apply run_op_wf; [intros n; simpl; lia|]).
  unfold SampleSeed.seeded. apply (proj1 (seeding_keeps_wf _ _)).
  apply migrate_wf; [intros n; simpl; lia|apply empty_db_wf].
Qed.

#[local] Existing Instances SampleStore.pricing_codec SampleFlows.columns SampleFlows.store
  SampleFlows.seeds.

#[local] Instance sample_flows_laws :
  let _ := Model.json in StorageLaws (Storage0 := SampleFlows.store) Db db_wf.
Proof. intros J. apply sqlite_laws. Qed.

(** Before the update a request goes to [a], after disabling it to [b]. *)
Lemma routing_follows_storage_witness :
  let _ := Model.json in
  let a := SampleFlows.admin in
  let '(a', _) := mutate id SampleMain.no_strings (MuUpdateChannel "a" SampleFlows.disable) a in
  SampleFlows.routed (ad_router a) = Some ("a", "up-a") /\
  SampleFlows.routed (ad_router a') = Some ("b", "up-b") /\
  exists c, ch_enabled c = true /\ ch_id c = "b".
Proof.
  intros J a.
  assert (Hok : (mutate id SampleMain.no_strings (MuUpdateChannel "a" SampleFlows.disable) a).2 = Ok tt)
    by (vm_compute; reflexivity).
  assert (Hb : SampleFlows.routed (ad_router
    (mutate id SampleMain.no_strings (MuUpdateChannel "a" SampleFlows.disable) a).1) = Some ("b", "up-b"))
    by (vm_compute; reflexivity).
  assert (Hre : let a' := (mutate id SampleMain.no_strings (MuUpdateChannel "a" SampleFlows.disable) a).1 in
    is_ok (reload_channels_from_storage (ad_storage a') (ad_router a)).2 = true)
    by (vm_compute; reflexivity).
  destruct (mutate id SampleMain.no_strings (MuUpdateChannel "a" SampleFlows.disable) a)
    as [a' r] eqn:Hm. cbn [fst snd] in *. subst r.
  split; [vm_compute; reflexivity|]. split; [exact Hb|]. unfold SampleFlows.routed in Hb.
  destruct (router_on_request SampleMain.no_strings (Sample.clock 1) (Sample.request, Sample.context)
              (ad_router a')) as [r' [[req' ctx']| |]] eqn:Hq; cbn [snd] in Hb;
    [|discriminate Hb|discriminate Hb].
  destruct (routing_follows_storage SampleMain.no_strings id
    (MuUpdateChannel "a" SampleFlows.disable) a a' (Sample.clock 1) Sample.request Sample.context
    r' req' ctx' Hm Hre Hq)
    as (chs & c & ms & mp & json & info & _ & _ & Hen & _ & _ & _ & _ & _ & Hinfo & Hid & _).
  exists c. split; [exact Hen|]. rewrite <-Hid. rewrite Hinfo in Hb.
  injection Hb as Hb _. exact Hb.
Defined.

(** Channel [a] is first choice; after either change requests go to [b]. *)
Lemma retired_channel_unused_witness :
  let _ := Model.json in
  let a := SampleFlows.admin in
  SampleFlows.routed (ad_router a) = Some ("a", "up-a") /\
  forall mu, mu = MuDeleteChannel "a" \/ mu = MuUpdateChannel "a" SampleFlows.disable ->
    let '(a', _) := mutate id SampleMain.no_strings mu a in
    exists ch up, SampleFlows.routed (ad_router a') = Some (ch, up) /\ ch <> "a".
Proof.
  intros J a. split; [vm_compute; reflexivity|]. intros mu Hmu.
  assert (Hok : (mutate id SampleMain.no_strings mu a).2 = Ok tt)
    by (destruct Hmu as [-> | ->]; vm_compute; reflexivity).
  assert (Hb : SampleFlows.routed (ad_router (mutate id SampleMain.no_strings mu a).1)
    = Some ("b", "up-b")) by (destruct Hmu as [-> | ->]; vm_compute; reflexivity).
  assert (Hre : let a' := (mutate id SampleMain.no_strings mu a).1 in
    is_ok (reload_channels_from_storage (ad_storage a') (ad_router a)).2 = true)
    by (destruct Hmu as [-> | ->]; vm_compute; reflexivity).
  assert (Hret : retires "a" mu) by (destruct Hmu as [-> | ->]; [reflexivity|split; reflexivity]).
  destruct (mutate id SampleMain.no_strings mu a) as [a' r] eqn:Hm. cbn [fst snd] in *. subst r.
  exists "b", "up-b". split; [exact Hb|]. unfold SampleFlows.routed in Hb.
  destruct (router_on_request SampleMain.no_strings (Sample.clock 1) (Sample.request, Sample.context)
              (ad_router a')) as [r' [[req' ctx']| |]] eqn:Hq; cbn [snd] in Hb;
    [|discriminate Hb|discriminate Hb].
  destruct (ctx_mapping ctx') as [info|] eqn:Hi; [|discriminate Hb]. injection Hb as <- _.
  exact (retired_channel_unused SampleMain.no_strings id "a" mu a a' (ad_router a') (Sample.clock 1)
    Sample.request Sample.context r' req' ctx' info sample_flows_wf Hm Hret Hre eq_refl Hq Hi).
Defined.

(** In the running server and in one restarted on the database. *)
Lemma new_key_reaches_upstream_witness :
  let _ := Model.json in
  let '(a', _) := handle_set_channel_api_key (Sample.clock 0) (mo_probe SampleMain.moment) "a" "fresh"
                    SampleFlows.admin in
  forall r, (r = ad_router a' \/ router_from_storage (ad_storage a') = Ok r) ->
  match router_on_request SampleMain.no_strings (Sample.clock 1) (Sample.request, Sample.context) r with
  | (_, Ok (req', ctx')) => exists cfg, ctx_channel ctx' = Some cfg /\
      header_values "authorization" (up_headers (build_upstream_request req' cfg)) = ["Bearer fresh"]
  | _ => False
  end.
Proof.
  intros J. set (a := SampleFlows.admin). set (probe := mo_probe SampleMain.moment).
  assert (Hok : match (handle_set_channel_api_key (Sample.clock 0) probe "a" "fresh" a).2 with
                | Ok (Some _) => true | _ => false end = true) by (vm_compute; reflexivity).
  assert (Hrun : SampleFlows.routed (ad_router
    (handle_set_channel_api_key (Sample.clock 0) probe "a" "fresh" a).1) = Some ("a", "up-a"))
    by (vm_compute; reflexivity).
  assert (Hstart : match router_from_storage (ad_storage
      (handle_set_channel_api_key (Sample.clock 0) probe "a" "fresh" a).1) with
    | Ok r => (has_api_key r "a", SampleFlows.routed r) = (true, Some ("a", "up-a"))
    | _ => False end) by (vm_compute; reflexivity).
  destruct (handle_set_channel_api_key (Sample.clock 0) probe "a" "fresh" a) as [a' x] eqn:Hs.
  cbn [fst snd] in *. destruct x as [[p|]| |]; [|discriminate Hok..]. intros r Hr.
  assert (Hr' : (r = ad_router a' \/ router_from_storage (ad_storage a') = Ok r /\
      has_api_key r "a" = true) /\ SampleFlows.routed r = Some ("a", "up-a")).
  { destruct Hr as [->|Hr]; [split; [by left|exact Hrun]|]. rewrite Hr in Hstart.
    injection Hstart as Hk Hroute. split; [right; split; [exact Hr|exact Hk]|exact Hroute]. }
  clear Hr. destruct Hr' as [Hr Hb]. unfold SampleFlows.routed in Hb.
  destruct (router_on_request SampleMain.no_strings (Sample.clock 1) (Sample.request, Sample.context) r)
    as [r' [[req' ctx']| |]] eqn:Hq; cbn [snd] in Hb; [|discriminate Hb|discriminate Hb].
  destruct (ctx_mapping ctx') as [info|] eqn:Hi; [|discriminate Hb]. injection Hb as Hid _.
  exact (new_key_reaches_upstream SampleMain.no_strings (Sample.clock 0) probe "a" "fresh" a a' p
    r r (Sample.clock 1) Sample.request Sample.context r' req' ctx' info sample_flows_wf Hs Hr
    (rtc_refl _ _) Hq Hi Hid).
Defined.

Lemma forced_protocol_checked_witness :
  let _ := Model.json in
  let a := SampleFlows.admin in
  is_ok (SampleFlows.updated (SampleFlows.protocols None (Some "openai_chat")) a).2 = true /\
  (SampleFlows.updated (SampleFlows.protocols None (Some "anthropic_messages")) a).1 = a.
Proof.
  intros J a. split; [vm_compute; reflexivity|]. unfold SampleFlows.updated.
  pose proof (forced_protocol_checked SampleMain.no_strings id "a"
    (SampleFlows.protocols None (Some "anthropic_messages")) "anthropic_messages" a "[]"
    sample_flows_wf eq_refl) as H.
  destruct (handle_update_channel _ _ _ _ _) as [a' r]. destruct H as [_ H].
  - unfold protocols_after. cbn [SampleFlows.protocols uc_protocols].
    exists (inserted_channel SampleDb.env (SampleDb.channel "a" "ka" 0)). split; [vm_compute; reflexivity|reflexivity].
  - apply H. intros (es & e & Hes & He & Hp). injection Hes as <-.
    apply elem_of_cons in He as [->|He]; [discriminate Hp|by apply elem_of_nil in He].
Defined.

(** A later update of the protocols alone is not checked against the forced one:
    the channel is then chosen, and every request fails. *)
Lemma stale_force_protocol :
  let _ := Model.json in
  let a1 := (SampleFlows.updated (SampleFlows.protocols None (Some "openai_chat")) SampleFlows.admin).1 in
  let later := SampleFlows.updated (SampleFlows.protocols (Some "anthropic_messages") None) a1 in
  (is_ok later.2, SampleFlows.routed (ad_router a1), SampleFlows.routed (ad_router later.1)) =
  (true, Some ("a", "up-a"), None).
Proof. vm_compute. reflexivity. Qed.

(** The seeded alias [gpt-5.4], asked for with a tool. *)
Definition gpt_request : Model.jv :=
  Model.JObj [("model", Model.JStr "gpt-5.4"); ("tools", Model.JArr [SampleTools.tool "a"])].

Lemma unset_alias_rejected_witness :
  let _ := Model.json in
  match SampleMain.started with
  | (d, Ok (sv, r)) =>
      let s := SampleMain.shared (first_world d r 0%nat SampleMain.moment) in
      let '(s', rsp) := handle_proxy_request SampleServer.json_into (fun _ _ => EmptyString)
        (fun _ => None) (fun _ => None) (sv_proxy sv) SampleServer.env
        (SampleMain.post "/v1/messages" (Model.print gpt_request)) s in
      ma_alias_name <$> t_aliases d = seeded_aliases /\
      rsp_status <$> rsp = Some 400 /\ sh_world s' = sh_world s /\
      next_request_id s' = next_request_id s + 1
  | _ => False
  end.
Proof.
  intros J.
  assert (Hst : is_ok SampleMain.started.2 = true) by (vm_compute; reflexivity).
  assert (Hck : match SampleMain.started.2 with
    | Ok (sv, _) => match check_request SampleServer.json_into (fun _ _ => EmptyString) (sv_proxy sv)
                            (SampleMain.post "/v1/messages" (Model.print gpt_request)) with
                    | Ok (pr, _) => String.eqb (req_body pr) (Model.print gpt_request) | _ => false end
    | _ => false end = true) by (vm_compute; reflexivity).
  destruct SampleMain.started as [d [[sv r]| |]] eqn:Hs; [|discriminate Hst..]. cbn [fst snd] in *.
  match type of Hck with context [match ?m with _ => _ end] =>
    destruct m as [[pr f]| |] eqn:Hc; [|discriminate Hck..] end.
  apply String.eqb_eq in Hck.
  set (s := SampleMain.shared (first_world d r 0%nat SampleMain.moment)).
  destruct (@unset_alias_rejected Model.json SampleTools.compressor
    Tagged.bridge SampleStore.pricing_codec SampleStore.columns nat SampleMain.no_strings
    SampleServer.json_into (fun _ _ => EmptyString) (fun _ => None) (fun _ => None)
    SampleMain.sources SampleMain.client (fun _ _ => Ok tt) Model.json_laws (fun _ => None) (fun _ => 0)
    SampleDb.env empty_db d sv r Hs empty_db_wf ltac:(intros n; simpl; lia) eq_refl)
    as [Hfirst H].
  destruct (Hfirst eq_refl) as [Hnames Hunset].
  assert (Hin : "gpt-5.4" ∈ ma_alias_name <$> t_aliases d)
    by (rewrite Hnames; apply (bool_decide_unpack _); vm_compute; exact I).
  apply list_elem_of_fmap in Hin as (a & Hn & Ha).
  pose proof (proj1 (Forall_forall _ _) Hunset a Ha) as Hu.
  destruct (H a SampleServer.env _ s pr f gpt_request Ha Hu Hc
    ltac:(rewrite Hck; apply Model.parse_print)
    ltac:(rewrite <-Hn; vm_compute; reflexivity)) as [_ Hr].
  match type of Hr with _ = ?out => match goal with |- match ?m with _ => _ end =>
    assert (Hm : m = out) by exact Hr; rewrite Hm end end.
  split; [exact Hnames|]. split_and!; reflexivity.
Defined.

(** A second model, cheaper than the seeded one, and a mapping of it. *)
Module SampleProbe.
Definition haiku : ModelRow :=
  {| mo_id := "h"; mo_provider_id := "p"; mo_client_name := "haiku"; mo_price_input := f64_zero;
     mo_price_output := f64_zero; mo_currency := "USD"; mo_context_window := 1000;
     mo_created_at := 0 |}.

Definition haiku_mapping : ModelMapping :=
  {| mm_id := "h"; mm_channel_id := "a"; mm_client_name := "haiku"; mm_upstream_name := "up-h";
     mm_billing := "flatfee"; mm_pricing_json := "{}"; mm_weight := 1; mm_enabled := true;
     mm_protocols := "[]" |}.

Definition db : Db :=
  run_op SampleDb.env (OpUpsertMapping haiku_mapping)
    (Seed.with_models (t_models SampleFlows.db ++ [haiku]) SampleFlows.db).
End SampleProbe.

Lemma find_cheapest_model_correct_witness :
  match Storage.list_models None SampleProbe.db with
  | Ok models =>
      find_cheapest_model SampleProbe.db "a" = Some "up-h" /\
      forall m price name, m = SampleFlows.flat "m" "a" "up-a" ->
        priced models m = Some (price, name) -> f64_lt price f64_zero = false
  | _ => False
  end.
Proof.
  assert (Hp : match Storage.list_models None SampleProbe.db with
    | Ok models => priced models SampleProbe.haiku_mapping = Some (f64_zero, "up-h")
    | _ => False end) by (vm_compute; reflexivity).
  destruct (Storage.list_models None SampleProbe.db) as [models| |] eqn:Hmod; [|destruct Hp..].
  assert (Hc : find_cheapest_model SampleProbe.db "a" = Some "up-h") by (vm_compute; reflexivity).
  split; [exact Hc|]. intros m price name -> Hm.
  assert (Hmap : Storage.list_mappings "a" SampleProbe.db =
    Ok [SampleProbe.haiku_mapping; SampleFlows.flat "m" "a" "up-a"]) by (vm_compute; reflexivity).
  pose proof (find_cheapest_model_correct SampleProbe.db "a" _ models Hmap Hmod) as H.
  rewrite Hc in H. destruct H as (m & p & Hin & _ & Hpm & Hmin).
  specialize (Hmin (SampleFlows.flat "m" "a" "up-a") price name
    ltac:(right; left) eq_refl Hm).
  apply elem_of_cons in Hin as [->|Hin%list_elem_of_singleton].
  - rewrite Hp in Hpm. injection Hpm as <-. exact Hmin.
  - subst m. apply (f_equal (fmap snd)) in Hpm. unfold priced in Hpm.
    destruct (List.find _ models) in Hpm; [|discriminate Hpm]. discriminate Hpm.
Defined.
