(* ===== verification/Serving.v ===== *)
(** What the server [main] builds does with one request: when it is answered at
    all, and what the answer of the proxy leaves in the table of costs. *)

From stdpp Require Import gmap relations.
From S2P Require Import Prelude RustStr Float64 Json Http Billing Types Middleware Storage.
From S2P Require Import Router Bridge Compress Report Cost Auth Server Sqlite Seed Probe.
From S2P Require Import AdminAuth Admin AdminAnswers Main System.
Local Open Scope Z_scope.
Local Open Scope st_scope.

Section Serving.
Context `{SerdeJson, !TokenlessSchema, !LlmBridge, PricingCodec, !ColumnCodec, !SerdeJsonLaws _}.
Context {N : Type}.
Context (debug_strings : list string -> string).
Context (json_into_response : Value -> HttpResponse) (fmt_f64 : nat -> f64 -> string).
Context (parse_report : string -> option ProxyReport).
Context (parse_header : string -> option TokenlessHeader).
Context (client : UpstreamRequest -> N -> N * Res SendError UpstreamResponse).
Context (aliases : gmap string string) (sv : Running (N := N)).
Context (Hbuilt : built_with debug_strings client aliases sv).

Let chain : list (ProxyMiddleware (World N)) :=
  [compress_part; ModelAliasMiddleware aliases; router_part debug_strings; BridgeMiddleware].
Let handle := handle_proxy_request json_into_response fmt_f64 parse_report parse_header
                (sv_proxy sv).

Lemma chain_built : ps_middlewares (sv_proxy sv) = chain.
Proof. by destruct Hbuilt. Qed.

(** A computation on a part has the outcome it has on the part. *)
Lemma focus_result {V E A} (get : World N -> V) put (m : ST V E A) w :
  (focus get put m w).2 = (m (get w)).2.
Proof. unfold focus. by destruct (m (get w)). Qed.

(** ** Every request is answered, but for two *)

Section Answered.
Context `{!LlmBridgeReturns} (Hparse : forall b, from_slice b <> Panic).

Lemma response_hooks_total mw clk ctx res w :
  mw ∈ chain -> (on_response mw clk ctx res w).2 <> Panic.
Proof.
  intros Hm. repeat (apply elem_of_cons in Hm as [->|Hm]); [| | | |by apply elem_of_nil in Hm].
  - cbn [on_response compress_part on_part]. rewrite focus_result. by apply compress_response_total.
  - done.
  - cbn [on_response router_part on_part]. rewrite focus_result. simpl.
    unfold router_on_response. by destruct (str_is_empty _).
  - simpl. by apply bridge_response_total.
Qed.

Lemma later_request_hooks_total mw clk rc w :
  mw ∈ tail chain -> (on_request mw clk rc w).2 <> Panic.
Proof.
  intros Hm. repeat (apply elem_of_cons in Hm as [->|Hm]); [| | |by apply elem_of_nil in Hm].
  - simpl. by apply alias_request_total.
  - cbn [on_request router_part on_part]. rewrite focus_result. by apply router_request_total.
  - simpl. by apply bridge_request_total.
Qed.

Lemma recorder_returns_built : recorder_returns (sv_proxy sv).
Proof.
  destruct Hbuilt as (_ & _ & Hcr). intros cr clk ctx v w Hc. rewrite Hcr in Hc. injection Hc as <-.
  unfold cost_middleware. rewrite focus_result. unfold record.
  cbn [sqlite_storage Storage.insert_cost_record]. unfold Sqlite.insert_cost_record, writing.
  destruct (pool_error _); [done|]. destruct (is_nan _); [done|]. by destruct (existsb _ _).
Qed.

(** The chain panics only where its first hook does, and then has done nothing. *)
Lemma request_chain_panics clk pr ctx w :
  let '(w', r) := run_on_request_chain chain clk (pr, ctx) w in
  (r = Panic <-> (compress_on_request (pr, ctx) (w_compress w)).2 = Panic) /\
  (r = Panic -> w' = w).
Proof.
  unfold chain. cbn [run_on_request_chain]. unfold st_bind at 1.
  assert (Hc : on_request compress_part clk (pr, ctx) w =
    (w, (compress_on_request (pr, ctx) (w_compress w)).2)).
  { cbn [on_request compress_part on_part CompressMiddleware]. unfold focus, compress_on_request.
    destruct w as [d r c n m]. cbn [w_compress]. by destruct (negb (enabled c)). }
  rewrite Hc. destruct (compress_on_request _ _).2 as [rc|e|]; cbn [fst snd]; [|by split..].
  pose proof (request_chain_total (tail chain) clk rc w) as Ht. simpl in Ht.
  destruct (st_bind _ _ w) as [w' r]. simpl in Ht.
  assert (r <> Panic); [|by split]. apply Ht. intros mw Hm rc' w''. by apply later_request_hooks_total.
Qed.

(** The proxy's handler answers every request but those whose tools the debug log
    of the compression cuts inside a character; then it has counted the request and
    read the session's savings, and done nothing else. *)
Lemma handler_panics env req s :
  client_returns (sv_proxy sv) -> rq_body req <> Panic ->
  let '(s', rsp) := handle env req s in
  (rsp = None <->
   exists pr f json tools,
     check_request json_into_response fmt_f64 (sv_proxy sv) req = Ok (pr, f) /\
     enabled (w_compress (sh_world s)) = true /\
     from_slice (req_body pr) = Ok json /\ get "tools" json ≫= as_array = Some tools /\
     snapshot_panics tools = true) /\
  (rsp = None -> s' = taken_in parse_report env (rq_headers req) s).
Proof.
  intros Hcl Hbody. unfold handle, handle_proxy_request.
  pose proof (check_request_total json_into_response fmt_f64 (sv_proxy sv) req Hbody) as Hck.
  destruct (check_request _ _ _ _) as [[pr f]|rej|] eqn:Hcheck; [| |done].
  2:{ split; [|done]. split; [done|]. by intros (? & ? & ? & ? & ? & _). }
  apply check_request_headers in Hcheck.
  pose proof (correlate_cursors parse_report env (req_headers pr) (sh_cursors s)
    (initial_context env req f s)) as Hcur. rewrite Hcheck in Hcur. rewrite Hcheck.
  destruct (correlate _ _ _ _ _) as [cursors ctx]. simpl in Hcur. cbv zeta. rewrite chain_built.
  set (ctx0 := inject_stats _ _ _). set (w := sh_world s).
  assert (Hiff : (compress_on_request (pr, ctx0) (w_compress w)).2 = Panic <->
    exists pr' f' json tools, Ok (E := HttpResponse) (pr, f) = Ok (pr', f') /\ enabled (w_compress w) = true /\
      from_slice (req_body pr') = Ok json /\ get "tools" json ≫= as_array = Some tools /\
      snapshot_panics tools = true).
  { rewrite compress_request_total by done. split.
    - intros (He & json & tools & Hj & Ht & Hs). by exists pr, f, json, tools.
    - intros (? & ? & json & tools & [= <- <-] & He & Hj & Ht & Hs).
      split; [done|]. by exists json, tools. }
  pose proof (request_chain_panics (clock_request env) pr ctx0 w) as Hch.
  destruct (run_on_request_chain _ _ _ w) as [w1 [rc|e|]]; destruct Hch as [Hch Hw].
  - pose proof (respond_total json_into_response fmt_f64 (sv_proxy sv) env rc w1) as Hr.
    destruct (respond _ _ _ _ _ _) as [w2 o]. simpl in Hr. assert (o <> None).
    { apply Hr; [rewrite chain_built; intros; by apply response_hooks_total|done| |done].
      apply recorder_returns_built. }
    split; [|done]. rewrite <-Hiff, <-Hch. by split.
  - split; [|done]. rewrite <-Hiff, <-Hch. by split.
  - split; [rewrite <-Hiff, <-Hch; by split|]. intros _. unfold taken_in, with_world.
    cbn [next_request_id sh_cursors]. by rewrite Hcur, Hw.
Qed.

(** *** The merged service *)

Context (status_response : StatusCode -> HttpResponse).
Context (body_limit : Z -> HttpRequest -> Res HttpResponse HttpRequest).
Context (Hlimit : forall n req, match body_limit n req with
                                | Ok q => rq_body q <> Panic | Err _ => True | Panic => False end).

(** The request the proxy's handler gets to see. *)
Definition proxy_call (p : ProxyState (W := World N)) (req : HttpRequest) : option HttpRequest :=
  match body_limit (max_body_size (ps_config p)) req with
  | Ok q =>
      match auth_middleware (from_config (ps_config p)) q (fun q => q) with
      | Ok q => match route (rq_path q) (rq_method q) with ProxyRoute => Some q | _ => None end
      | _ => None
      end
  | _ => None
  end.

(** The debug log of the compression cuts a description of this request. *)
Definition log_cuts (w : World N) (q : HttpRequest) : Prop :=
  exists pr f json tools,
    check_request json_into_response fmt_f64 (sv_proxy sv) q = Ok (pr, f) /\
    enabled (w_compress w) = true /\
    from_slice (req_body pr) = Ok json /\ get "tools" json ≫= as_array = Some tools /\
    snapshot_panics tools = true.

Lemma auth_keeps_body s req q :
  auth_middleware s req (fun q => q) = Ok q -> rq_body q = rq_body req.
Proof. unfold auth_middleware. intros Ha. repeat case_match; by simplify_eq. Qed.

Lemma proxy_panics env req s :
  client_returns (sv_proxy sv) ->
  let '(s', rsp) := build_router json_into_response fmt_f64 parse_report parse_header
                      status_response body_limit (sv_proxy sv) env req s in
  (rsp = None <-> exists q, proxy_call (sv_proxy sv) req = Some q /\ log_cuts (sh_world s) q) /\
  (rsp = None -> exists q, proxy_call (sv_proxy sv) req = Some q /\
                   s' = taken_in parse_report env (rq_headers q) s).
Proof.
  intros Hcl. unfold build_router, proxy_call.
  pose proof (Hlimit (max_body_size (ps_config (sv_proxy sv))) req) as Hl.
  destruct (body_limit _ req) as [q|r|]; [| |done].
  2:{ split; [|done]. split; [done|by intros (? & ? & _)]. }
  rewrite auth_middleware_next.
  destruct (auth_middleware _ q (fun q => q)) as [q'|st|] eqn:Ha; cbn [fmap res_fmap].
  3:{ exfalso. revert Ha. unfold auth_middleware. repeat case_match; done. }
  2:{ split; [|done]. split; [done|by intros (? & ? & _)]. }
  apply auth_keeps_body in Ha. unfold dispatch.
  destruct (route _ _); try (split; [|done]; split; [done|by intros (? & ? & _)]).
  pose proof (handler_panics env q' s Hcl ltac:(congruence)) as Hh. unfold handle in Hh.
  destruct (handle_proxy_request _ _ _ _ _ _ _ _) as [s' rsp]. destruct Hh as [Hh Hw].
  split; [|intros Hr; exists q'; split; [done|by apply Hw]].
  rewrite Hh. split; [by eauto|]. by intros (? & [= <-] & ?).
Qed.

Context (json_error : string -> string) (reply_response : Reply -> HttpResponse).
Context (naive_min : Z) (src : Sources) (Hsrc : SourcesReturn src).
Context (x : Extractors) (Hx : ExtractorsReturn x).
Context (admin_limit : Z -> HttpRequest -> Res StatusCode HttpRequest).
Context (Hadmin : forall n req, admin_limit n req <> Panic).

(** C4: As long as the libraries, the HTTP clients and the extractors return, the
    server answers every request, to the proxy and to the admin API, whatever
    it contains and whatever the state of the database, the router and the
    upstream is, but for two cases.  A request with the admin key for costs,
    with a time zone, of so many days that the range starts before the calendar
    panics; so does an authorised request to the proxy with a tool whose
    description the debug log of the compression cuts inside a character.  The
    connection is then closed.  The first leaves the whole shared state as it was;
    the second has taken the request in: the counter of requests has moved on and
    the savings the session's report held are read, hence lost to the cost table,
    but no hook has changed anything, nothing went upstream and nothing is
    charged. *)
Theorem every_request_answered env req s :
  client_returns (sv_proxy sv) ->
  let '(s', rsp) :=
    app debug_strings json_error json_into_response fmt_f64 parse_report parse_header
      status_response body_limit admin_limit x naive_min src reply_response sv env req s in
  let w := sh_world s in
  (rsp = None <->
   if is_admin_path (rq_path req)
   then exists e q, admin_call admin_limit (ak_key (sv_admin_key sv)) req = Some (e, q) /\
          off_calendar naive_min (mo_now (w_moment w)) (asked_days x e q)
   else exists q, proxy_call (sv_proxy sv) req = Some q /\ log_cuts w q) /\
  (rsp = None ->
   if is_admin_path (rq_path req) then s' = s
   else exists q, proxy_call (sv_proxy sv) req = Some q /\
          s' = taken_in parse_report env (rq_headers q) s).
Proof.
  intros Hcl. unfold app. destruct (is_admin_path _); [|by apply proxy_panics].
  set (w := sh_world s). set (m := w_moment w). unfold admin, focus. fold m.
  pose proof (service_panics (Storage0 := sqlite_storage (mo_env m))
    (SeedManager0 := sqlite_seed_manager (mo_env m) src) (SeedReturns0 := sqlite_seed_returns _ _ Hsrc)
    (mo_clock m) (mo_now m) naive_min (mo_probe m) json_error debug_strings x Hx admin_limit Hadmin
    (ak_key (sv_admin_key sv)) req (admin_view w)) as Hp.
  pose proof (service_panics_unchanged (Storage0 := sqlite_storage (mo_env m))
    (SeedManager0 := sqlite_seed_manager (mo_env m) src) (SeedReturns0 := sqlite_seed_returns _ _ Hsrc)
    (mo_clock m) (mo_now m) naive_min (mo_probe m) json_error debug_strings x Hx admin_limit
    (ak_key (sv_admin_key sv)) req (admin_view w)) as Hsame.
  destruct (admin_service _ _ _ _ _ _ _ _ _ _ _) as [a r]. cbn [fst snd] in *.
  rewrite <-Hp. split.
  - by destruct r as [rp|[]|].
  - intros Hr. rewrite Hsame by (by destruct r as [rp|[]|]).
    unfold w. rewrite put_admin_view. by destruct s.
Qed.
End Answered.

(** ** What an answer costs *)

(** The hooks of requests and responses touch neither the database nor the
    surroundings. *)
Definition same_db (w w' : World N) : Prop := w_db w' = w_db w /\ w_moment w' = w_moment w.

#[local] Instance same_db_preorder : PreOrder same_db.
Proof.
  split; [done|]. intros w1 w2 w3 [Hd Hm] [Hd' Hm']. split; congruence.
Qed.

Lemma focus_same_db {V E A} (get : World N -> V) put (m : ST V E A) :
  (forall v w, same_db w (put v w)) -> st_keeps same_db (focus get put m).
Proof. intros Hp w. unfold focus. destruct (m (get w)). apply Hp. Qed.

Lemma hooks_same_db mw :
  mw ∈ chain ->
  (forall clk rc, st_keeps same_db (on_request mw clk rc)) /\
  (forall clk ctx res, st_keeps same_db (on_response mw clk ctx res)).
Proof.
  intros Hm. repeat (apply elem_of_cons in Hm as [->|Hm]); [| | | |by apply elem_of_nil in Hm];
    split; intros; try (by apply focus_same_db).
  all: intros w; reflexivity.
Qed.

Lemma request_chain_same_db clk rc : st_keeps same_db (run_on_request_chain chain clk rc).
Proof. apply (request_chain_keeps same_db). intros mw Hm rc'. by apply hooks_same_db. Qed.

Lemma response_chain_same_db clk ctx res :
  st_keeps same_db (run_on_response_chain chain clk ctx res).
Proof. apply (response_chain_keeps same_db). intros mw Hm res'. by apply hooks_same_db. Qed.

Lemma focus_inv {V E A} (get : World N -> V) put (m : ST V E A) w w' r :
  focus get put m w = (w', r) -> exists v, m (get w) = (v, r) /\ w' = put v w.
Proof. unfold focus. destruct (m (get w)) as [v r']. intros [= <- <-]. by exists v. Qed.

(** The context and the outcome of the chain on a request: the router has chosen
    among the candidates for the model the alias stands for. *)
Lemma request_chain_routes clk pr ctx0 w w' q ctx :
  run_on_request_chain chain clk (pr, ctx0) w = (w', Ok (q, ctx)) ->
  exists json model ch m,
    from_slice (req_body pr) = Ok json /\ get_str "model" json = Some model /\
    let name := aliased aliases model in
    selection clk (w_router w) (find_candidates (channels (w_router w)) name) name (Ok (ch, m)) /\
    detected_format ctx = detected_format ctx0 /\
    selected_channel_name ctx = rc_channel_name ch /\
    ctx_mapping ctx = Some
      {| smi_channel_id := rc_channel_id ch; smi_mapping_id := rm_mapping_id m;
         smi_client_name := rm_client_name m; smi_upstream_name := rm_upstream_name m;
         smi_is_flat_fee := is_flat_fee (rm_billing m);
         smi_pricing := (billing_snapshot (rm_billing m)).1;
         smi_pricing_snapshot_json := (billing_snapshot (rm_billing m)).2 |}.
Proof.
  unfold chain. cbn [run_on_request_chain]. intros Hr.
  apply st_bind_Ok in Hr as (w1 & [q1 ctx1] & Hc & Hr).
  apply focus_inv in Hc as (c & Hc & ->).
  apply compress_request_keeps in Hc as (-> & _ & [ext ->] & Hbody).
  apply st_bind_Ok in Hr as (w2 & [q2 ctx2] & Ha & Hr). injection Ha as <- Ha.
  apply alias_request_inv in Ha as (-> & json1 & json2 & Hj1 & Hj2 & Hmodel).
  apply st_bind_Ok in Hr as (w3 & [q3 ctx3] & Hrt & Hr).
  apply focus_inv in Hrt as (r' & Hrt & ->).
  apply st_bind_Ok in Hr as (w4 & [q4 ctx4] & Hb & Hr). injection Hb as <- Hb.
  injection Hr as <- <- <-. apply bridge_request_ctx in Hb.
  destruct (Hbody json1 Hj1) as (json & Hj & Hsame). specialize (Hsame "model" ltac:(done)).
  destruct (router_on_request_inv _ _ _ _ _ _ _ _ Hrt)
    as (body & name & ch & m & target & p & url & rw & b & Hj3 & Hname & _ & Hsel & _ & _ & _ & _
        & _ & Hctx).
  rewrite Hj2 in Hj3. injection Hj3 as <-. rewrite Hname, Hsame in Hmodel.
  destruct (get_str "model" json) as [model|] eqn:Hm; [|done]. injection Hmodel as ->.
  exists json, model, ch, m. split; [done|]. split; [done|]. cbv zeta.
  pose proof (proj2 (select_selection clk (aliased aliases model)
    (find_candidates (channels (w_router w)) (aliased aliases model)) (w_router w))) as Hs.
  cbn [put_compress w_router] in Hsel. rewrite Hsel in Hs. split; [done|].
  subst ctx3. unfold ctx_mapping, selected_channel_name, ctx_channel, ctx_insert in *.
  destruct Hb as [-> | ->]; simpl.
  - rewrite lookup_insert_eq, lookup_insert_ne, lookup_insert_eq by done. done.
  - rewrite !(lookup_insert_ne _ EXT_BRIDGE_REVERSE) by done.
    rewrite lookup_insert_eq, lookup_insert_ne, lookup_insert_eq by done. done.
Qed.
(** Hooks do not turn a streamed response into another, or back. *)
Lemma response_chain_streaming clk ctx res w w' res' :
  run_on_response_chain chain clk ctx res w = (w', Ok res') ->
  res_is_streaming res' = res_is_streaming res.
Proof.
  unfold run_on_response_chain, chain. cbn [rev app fold_on_response]. intros Hr.
  apply st_bind_Ok in Hr as (w1 & r1 & [= <- Hb] & Hr).
  apply bridge_response_streaming in Hb as <-.
  apply st_bind_Ok in Hr as (w2 & r2 & Hrt & Hr). apply focus_inv in Hrt as (r & Hrt & ->).
  simpl in Hrt. unfold router_on_response in Hrt.
  assert (r2 = r1) as -> by (destruct (str_is_empty _); by injection Hrt).
  apply st_bind_Ok in Hr as (w3 & r3 & [= <- <-] & Hr).
  apply st_bind_Ok in Hr as (w4 & r4 & Hc & Hr). injection Hr as <- <-.
  apply focus_inv in Hc as (c & Hc & ->). by apply compress_response_streaming in Hc.
Qed.

(** The counters of a response, and the columns they are written to. *)
Definition usage_tokens (u : Usage) : list Z :=
  [input_tokens u; output_tokens u; cache_write_tokens u; cache_read_tokens u; thinking_tokens u].

Definition row_tokens (r : CostRecord) : list Z :=
  [cr_input_tokens r; cr_output_tokens r; cr_cache_write_tokens r; cr_cache_read_tokens r;
   cr_thinking_tokens r].

(** The fields of a record that say what is paid, and for what. *)
Lemma build_record_bill id ts name clk ctx body info :
  ctx_mapping ctx = Some info ->
  let r := build_record id ts name clk ctx body in
  let usage := extract_usage body (detected_format ctx) in
  cr_id r = id /\ cr_timestamp r = ts /\
  cr_channel_id r = smi_channel_id info /\ cr_upstream_channel r = selected_channel_name ctx /\
  cr_upstream_model r = smi_upstream_name info /\
  row_tokens r = u64_as_i64 <$> usage_tokens usage /\
  cr_pricing_snapshot_json r = smi_pricing_snapshot_json info /\
  (cr_cost r, cr_unit r) =
    match smi_pricing info with Some p => calc_cost usage p | None => (f64_zero, "USD") end.
Proof.
  intros Hm r usage. unfold r, build_record. rewrite Hm. simpl. fold usage.
  unfold selected_channel_name. destruct (smi_pricing info) as [p|]; simpl.
  - destruct (calc_cost usage p) as [c u]. simpl. by destruct (ctx_channel ctx).
  - by destruct (ctx_channel ctx).
Qed.

(** What the recorder is given of a response, if anything. *)
Definition billed_body (res : ProxyResponse) : option Value :=
  if res_is_streaming res then Some (extract_usage_from_sse (res_body res))
  else match from_slice (res_body res) with Ok body => Some body | _ => None end.

(** The bill of a request [pr] in format [f] that was answered by a response with
    usage [body]: it names the channel and the mapping the router chose when
    the request came in, and prices the usage with that mapping. *)
Record Bill (env : Surroundings) (pr : ProxyRequest) (f : ApiFormat) (w : World N)
    (body : Value) (r : CostRecord) (json : Value) (model : string) (ch : ResolvedChannel)
    (m : ResolvedMapping) : Prop := {
  bill_model : from_slice (req_body pr) = Ok json /\ get_str "model" json = Some model;
  bill_selected :
    let name := aliased aliases model in
    selection (clock_request env) (w_router w) (find_candidates (channels (w_router w)) name) name
      (Ok (ch, m));
  bill_id : cr_id r = mo_record_id (w_moment w) /\ cr_timestamp r = mo_timestamp (w_moment w);
  bill_channel : cr_channel_id r = rc_channel_id ch /\ cr_upstream_channel r = rc_channel_name ch;
  bill_upstream : cr_upstream_model r = rm_upstream_name m;
  bill_tokens : row_tokens r = u64_as_i64 <$> usage_tokens (extract_usage body (Some f));
  bill_snapshot : cr_pricing_snapshot_json r = (billing_snapshot (rm_billing m)).2;
  bill_cost :
    let usage := extract_usage body (Some f) in
    (cr_cost r, cr_unit r) =
      match rm_billing m with
      | Metered pricing => calc_cost usage pricing
      | FlatFee _ _ _ => (f64_zero, "USD")
      end
}.

(** What a request leaves in the table of costs. *)
Inductive Entry :=
| Nothing
| Billed (r : CostRecord)
| Pruned (keep : CostRecord -> bool).

Definition post (e : Entry) (rows : list CostRecord) : list CostRecord :=
  match e with
  | Nothing => rows
  | Billed r => rows ++ [r]
  | Pruned keep => List.filter keep rows
  end.

(** The column of costs holds no NaN: such a record is refused. *)
Definition entry_of (r : CostRecord) : Entry :=
  if is_nan (cr_cost r) then Nothing else Billed r.

(** What the request to the proxy [pr], that was let in, is charged. *)
Inductive charged (env : Surroundings) (pr : ProxyRequest) (f : ApiFormat) (w : World N)
    : Entry -> option HttpResponse -> Prop :=
| ch_unanswered rsp :
    rsp = None \/ (exists e, rsp = Some (error_response json_into_response fmt_f64 e)) ->
    charged env pr f w Nothing rsp
| ch_opaque res :
    billed_body res = None -> charged env pr f w Nothing (Some (build_axum_response res))
| ch_billed res body r json model ch m :
    billed_body res = Some body -> Bill env pr f w body r json model ch m ->
    charged env pr f w (entry_of r) (Some (build_axum_response res)).

Definition booked (e : Entry) (d : Db) : Db := with_costs (post e (t_costs d)) d.

Lemma booked_nothing d : booked Nothing d = d.
Proof. by destruct d. Qed.

Lemma correlate_format env h cursors ctx :
  detected_format (inject_stats parse_header env (correlate parse_report env h cursors ctx).2)
    = detected_format ctx.
Proof.
  unfold correlate, inject_stats.
  destruct (find_header (fun k => String.eqb _ _) h); [destruct (consume_report _ _ _ _)|];
    by destruct (0 <? _).
Qed.

(** The database works and the next identifier is fresh. *)
Definition can_record (w : World N) : Prop :=
  pool_error (mo_env (w_moment w)) = None /\
  forall r, r ∈ t_costs (w_db w) -> cr_id r <> mo_record_id (w_moment w).

Definition record_of (clk : Clock) (ctx : ConnectionContext) (body : Value) (w : World N)
    : CostRecord :=
  build_record (mo_record_id (w_moment w)) (mo_timestamp (w_moment w)) "unknown" clk ctx body.

Lemma recorder_books clk ctx body w :
  can_record w -> w_db (cost_middleware clk ctx body w).1 = booked (entry_of (record_of clk ctx body w)) (w_db w).
Proof.
  intros [Hpool Hfresh]. unfold cost_middleware, focus, record. fold (record_of clk ctx body w).
  cbn [sqlite_storage Storage.insert_cost_record]. unfold Sqlite.insert_cost_record, writing, booked, entry_of.
  rewrite Hpool. destruct (is_nan _); [by destruct (w_db w)|].
  assert (existsb (fun x => String.eqb (cr_id x) (cr_id (record_of clk ctx body w))) (t_costs (w_db w))
    = false) as ->; [|done].
  apply existsb_false_elem. intros r Hr. apply String.eqb_neq.
  replace (cr_id (record_of clk ctx body w)) with (mo_record_id (w_moment w)); [by apply Hfresh|].
  unfold record_of, build_record. by destruct (match _ with Some _ => _ | None => _ end).
Qed.

Lemma can_record_same w w' : same_db w w' -> can_record w -> can_record w'.
Proof. intros [Hd Hm] [Hp Hf]. unfold can_record. by rewrite Hd, Hm. Qed.

Lemma response_books streaming clk ctx u w :
  can_record w ->
  let '(w', rsp) := (if streaming : bool
    then handle_streaming_response json_into_response fmt_f64 (sv_proxy sv) clk ctx u
    else handle_non_streaming_response json_into_response fmt_f64 (sv_proxy sv) clk ctx u) w in
  (w_db w' = w_db w /\
   (rsp = None \/ exists e, rsp = Some (error_response json_into_response fmt_f64 e))) \/
  exists res, rsp = Some (build_axum_response res) /\
    w_db w' = from_option (fun body => booked (entry_of (record_of clk ctx body w)) (w_db w)) (w_db w)
                (billed_body res).
Proof.
  intros Hw. unfold handle_streaming_response, handle_non_streaming_response, billed_body.
  rewrite chain_built, (proj2 (proj2 Hbuilt)).
  assert (Hfin : forall w1 res body, same_db w w1 ->
    let '(w', rsp) := match cost_middleware clk ctx body w1 with
                      | (w2, Panic) => (w2, None)
                      | (w2, _) => (w2, Some (build_axum_response res)) end in
    rsp = Some (build_axum_response res) /\ w_db w' = booked (entry_of (record_of clk ctx body w)) (w_db w)).
  { intros w1 res body Hs. pose proof (recorder_books clk ctx body w1 (can_record_same _ _ Hs Hw)) as Hb.
    pose proof (recorder_returns_built cost_middleware clk ctx body w1
      (proj2 (proj2 Hbuilt))) as Hr. destruct Hs as [Hd Hm]. unfold record_of in *.
    rewrite Hd, Hm in Hb. by destruct (cost_middleware _ _ _ w1) as [w2 []]. }
  destruct streaming; (destruct (ur_body u) as [b|e|]; [|by left; eauto..]); cbv zeta;
    match goal with |- context [run_on_response_chain ?m ?c ?x ?r w] =>
      pose proof (response_chain_same_db c x r w) as Hs;
      pose proof (response_chain_streaming c x r w) as Hst;
      destruct (run_on_response_chain m c x r w) as [w1 [res|e|]] end;
    simpl in Hs; try (left; split; [exact (proj1 Hs)|by eauto]);
    specialize (Hst _ _ eq_refl); simpl in Hst.
  - specialize (Hfin w1 res (extract_usage_from_sse (res_body res)) Hs).
    destruct (cost_middleware _ _ _ w1) as [w2 []]; destruct Hfin as [Hf Hd]; try done;
      right; exists res; by rewrite Hst.
  - destruct (from_slice (res_body res)) as [body|e|] eqn:Hj.
    2,3: right; exists res; rewrite Hst, Hj; split; [done|exact (proj1 Hs)].
    specialize (Hfin w1 res body Hs).
    destruct (cost_middleware _ _ _ w1) as [w2 []]; destruct Hfin as [Hf Hd]; try done;
      right; exists res; by rewrite Hst, Hj.
Qed.

Lemma respond_books env rc w :
  can_record w ->
  let '(w', rsp) := respond json_into_response fmt_f64 (sv_proxy sv) env rc w in
  (w_db w' = w_db w /\
   (rsp = None \/ exists e, rsp = Some (error_response json_into_response fmt_f64 e))) \/
  exists res, rsp = Some (build_axum_response res) /\
    w_db w' = from_option
      (fun body => booked (entry_of (record_of (clock_response env) rc.2 body w)) (w_db w)) (w_db w)
      (billed_body res).
Proof.
  intros Hw. unfold respond. destruct rc as [q ctx]. destruct (ctx_channel ctx) as [ch|]; [|by left; eauto].
  unfold forward_to_upstream. rewrite (proj1 (proj2 Hbuilt)). unfold upstream, focus.
  destruct (client _ (w_net w)) as [n [u|e|]]; simpl; [|by left; eauto..].
  pose proof (response_books (is_streaming q) (clock_response env) ctx u (put_net n w) Hw) as Hr.
  by destruct (is_streaming q).
Qed.

Lemma bill_of_record env pr f ctx0 w w1 q ctx body :
  run_on_request_chain chain (clock_request env) (pr, ctx0) w = (w1, Ok (q, ctx)) ->
  detected_format ctx0 = Some f -> same_db w w1 ->
  exists json model ch m,
    Bill env pr f w body (record_of (clock_response env) ctx body w1) json model ch m.
Proof.
  intros Hch Hf [_ Hm].
  destruct (request_chain_routes _ _ _ _ _ _ _ Hch)
    as (json & model & ch & m & Hj & Hmodel & Hsel & Hdf & Hname & Hmap).
  destruct (build_record_bill (mo_record_id (w_moment w1)) (mo_timestamp (w_moment w1)) "unknown"
    (clock_response env) ctx body _ Hmap) as (Hr1 & Hr2 & Hr3 & Hr4 & Hr5 & Hr6 & Hr7 & Hr8).
  exists json, model, ch, m. rewrite Hdf, Hf in *.
  rewrite Hname in Hr4. split; try done; [by rewrite <-Hm|]. etransitivity; [exact Hr8|].
  by destruct (rm_billing m).
Qed.

(** A request to the proxy leaves an entry in the table of costs and changes nothing
    else in the database. *)
Lemma handler_books env req s :
  can_record (sh_world s) ->
  let '(s', rsp) := handle env req s in
  exists e, w_db (sh_world s') = booked e (w_db (sh_world s)) /\
    match check_request json_into_response fmt_f64 (sv_proxy sv) req with
    | Ok (pr, f) => charged env pr f (sh_world s) e rsp
    | _ => e = Nothing
    end.
Proof.
  intros Hrec. unfold handle, handle_proxy_request.
  destruct (check_request _ _ _ _) as [[pr f]|rej|];
    [|exists Nothing; by rewrite booked_nothing..].
  pose proof (correlate_format env (req_headers pr) (sh_cursors s) (initial_context env req f s)) as Hdf.
  destruct (correlate _ _ _ _ _) as [cursors ctx]. cbv zeta. rewrite chain_built. simpl in Hdf.
  set (ctx0 := inject_stats _ _ _) in *. set (w := sh_world s) in *.
  pose proof (request_chain_same_db (clock_request env) (pr, ctx0) w) as Hsame.
  destruct (run_on_request_chain _ _ _ w) as [w1 [[q ctx1]|e|]] eqn:Hch; simpl in Hsame;
    [|exists Nothing; cbn [with_world sh_world]; rewrite (proj1 Hsame), booked_nothing;
      split; [done|constructor; by eauto]..].
  pose proof (respond_books env (q, ctx1) w1 (can_record_same _ _ Hsame Hrec)) as Hr.
  destruct (respond _ _ _ _ _ w1) as [w2 rsp]. cbn [with_world sh_world].
  destruct Hr as [[Hd Hr]|(res & -> & Hd)].
  - exists Nothing. rewrite Hd, (proj1 Hsame), booked_nothing. split; [done|by constructor].
  - rewrite Hd. destruct (billed_body res) as [body|] eqn:Hb; simpl; rewrite (proj1 Hsame).
    + destruct (bill_of_record env pr f ctx0 w w1 q ctx1 body Hch Hdf Hsame)
        as (json & model & ch & m & Hbill). eexists. split; [done|]. by eapply ch_billed.
    + exists Nothing. rewrite booked_nothing. split; [done|by apply ch_opaque].
Qed.
End Serving.

(** ** Witnesses *)

(** A server with one metered channel and an alias of its model. *)
Module SampleServing.
#[local] Existing Instances Model.json SampleTools.compressor Tagged.bridge
  SampleStore.pricing_codec.

(** The upstream reports twelve tokens in and three out. *)
Definition client (_ : UpstreamRequest) (n : nat) : nat * Res SendError UpstreamResponse :=
  (S n, Ok {| ur_status := 200; ur_headers := [];
              ur_body := Ok (Model.print (Model.JObj [("usage", Model.JObj
                [("input_tokens", Model.JInt 12); ("output_tokens", Model.JInt 3)])])) |}).

Definition aliases : gmap string string := {[ "fast" := "sonnet" ]}.

Definition server : Running (N := nat) := {|
  sv_proxy := {|
    ps_config := main_config None None;
    ps_middlewares := [compress_part; ModelAliasMiddleware aliases;
                       router_part SampleMain.no_strings; BridgeMiddleware];
    ps_client := upstream client;
    ps_cost_recorder := Some cost_middleware |};
  sv_admin_key := resolve_admin_key_with (fun _ => None) (fun _ => 0)
|}.

Definition metered : ResolvedMapping :=
  {| rm_mapping_id := "m"; rm_client_name := "sonnet"; rm_upstream_name := "up";
     rm_billing := Metered (Credits None None (Some f64_one)); rm_allowed_protocols := [] |}.

Definition router : Router :=
  {| channels := [Sample.channel "c" "Main" "k" metered];
     health := ∅; quota_usage := ∅; channel_api_keys := ∅ |}.

Definition world (compress : bool) : World nat :=
  {| w_db := empty_db; w_router := router;
     w_compress := {| enabled := compress; response_stats := None |}; w_net := 0%nat;
     w_moment := SampleMain.moment |}.

Definition handled (compress : bool) (req : HttpRequest)
    : Shared (W := World nat) * option HttpResponse :=
  handle_proxy_request SampleServer.json_into (fun _ _ => EmptyString) (fun _ => None)
    (fun _ => None) (sv_proxy server) SampleServer.env req (SampleMain.shared (world compress)).

(** A request with a tool whose description the debug log cuts inside a character. *)
Definition with_tool : HttpRequest :=
  SampleMain.post "/v1/messages" (Model.print (Model.JObj
    [("model", Model.JStr "fast");
     ("tools", Model.JArr [SampleTools.tool SampleTools.long_desc])])).

(** The cost report of a number of days, in the time zone of London. *)
Definition extractors (days : Z) : Extractors := {|
  x_path := Ok; x_path_i64 _ := Ok 1; x_provider_id _ := Ok None; x_model_id _ := Ok None;
  x_update_channel _ := Err 422; x_api_key _ := Err 400; x_cost_records _ := Err 400;
  x_cost_report _ := Ok {| rq_project := None; rq_days := days; rq_group_by := None;
                           rq_tz_offset := Some 0 |};
  x_prune _ := Ok 90; x_mapping _ := Err 422; x_update_mapping _ := Err 422; x_alias _ := Err 422;
  x_switch_logs _ := Ok None; x_seed_status _ := Ok false; x_seed_refresh _ := Ok None;
  x_compress _ := Ok false
|}.

Definition report : HttpRequest :=
  {| rq_method := "GET"; rq_path := "/admin/cost-records/report";
     rq_headers := [(ADMIN_KEY_HEADER, ak_key (sv_admin_key server))]; rq_body := Ok EmptyString;
     rq_role := None |}.

(** A limit that refuses what has no body to read. *)
Definition limit (_ : Z) (req : HttpRequest) : Res HttpResponse HttpRequest :=
  match rq_body req with Ok _ => Ok req | _ => Err (SampleServer.status_only 400) end.

Definition answer (compress : bool) (days : Z) (req : HttpRequest)
    : Shared (W := World nat) * option HttpResponse :=
  @app Model.json SampleStore.pricing_codec
    SampleStore.columns nat SampleMain.no_strings id SampleServer.json_into
    (fun _ _ => EmptyString) (fun _ => None)
    (fun _ => None) SampleServer.status_only limit (fun _ q => Ok q)
    (extractors days) (-8334601228800) SampleMain.sources SampleMain.reply server SampleServer.env
    req (SampleMain.shared (world compress)).

Lemma sources_return : SourcesReturn SampleMain.sources.
Proof.
  assert (Hp : forall A (rows : list (string * A)) s, SampleSeed.parse rows s <> Panic)
    by (intros A rows s; unfold SampleSeed.parse; by destruct (List.find _ _)).
  split; intros; try apply Hp; [discriminate|].
  unfold SampleMain.sources, SampleSeed.sources, SampleSeed.parse. cbn.
  repeat match goal with |- context [if ?b then _ else _] => destruct b; [discriminate|] end. done.
Qed.

Lemma limit_returns n req :
  match limit n req with Ok q => rq_body q <> Panic | Err _ => True | Panic => False end.
Proof. unfold limit. by destruct (rq_body req) eqn:Hb; [rewrite Hb| |]. Qed.

Lemma extractors_return days : ExtractorsReturn (extractors days).
Proof. by split. Qed.
End SampleServing.
#[local] Existing Instances SampleTools.compressor Tagged.bridge SampleStore.pricing_codec.

Lemma sample_server_built :
  let _ := Model.json in
  built_with SampleMain.no_strings SampleServing.client SampleServing.aliases SampleServing.server.
Proof. split; [reflexivity|split; reflexivity]. Qed.

(** A report of more days than the calendar has, a tool the log cuts, and the same
    requests for two days and without compression. *)
Lemma every_request_answered_witness :
  (SampleServing.answer true 4294967295 SampleServing.report).2 = None /\
  (SampleServing.answer true 2 SampleServing.report).2 <> None /\
  (SampleServing.answer true 2 SampleServing.with_tool).2 = None /\
  (SampleServing.answer false 2 SampleServing.with_tool).2 <> None.
Proof.
  pose proof (fun c days req => @every_request_answered Model.json SampleTools.compressor
    Tagged.bridge SampleStore.pricing_codec SampleStore.columns Model.json_laws nat
    SampleMain.no_strings SampleServer.json_into (fun _ _ => EmptyString) (fun _ => None)
    (fun _ => None) SampleServing.client SampleServing.aliases SampleServing.server
    sample_server_built tagged_returns Model.parse_returns SampleServer.status_only
    SampleServing.limit SampleServing.limit_returns id SampleMain.reply (-8334601228800)
    SampleMain.sources SampleServing.sources_return (SampleServing.extractors days)
    (SampleServing.extractors_return days) (fun _ q => Ok q) ltac:(discriminate) SampleServer.env
    req (SampleMain.shared (SampleServing.world c)) ltac:(intros q w; discriminate)) as H.
  assert (Hadm : is_admin_path (rq_path SampleServing.report) = true) by (vm_compute; reflexivity).
  assert (Hprx : is_admin_path (rq_path SampleServing.with_tool) = false)
    by (vm_compute; reflexivity).
  assert (Hcall : admin_call (fun _ q => Ok q) (ak_key (sv_admin_key SampleServing.server))
    SampleServing.report = Some (ECostReport, SampleServing.report)) by (vm_compute; reflexivity).
  assert (Hproxy : proxy_call SampleServing.limit (sv_proxy SampleServing.server)
    SampleServing.with_tool = Some SampleServing.with_tool) by (vm_compute; reflexivity).
  unfold SampleServing.answer. split; [|split; [|split]].
  - specialize (H true 4294967295 SampleServing.report). rewrite Hadm, Hcall in H.
    destruct (app _ _ _ _ _ _ _ _ _ _ _ _ _ _ _ _ _) as [s' rsp]. destruct H as [[_ H] _]. apply H.
    exists ECostReport, SampleServing.report. split; [reflexivity|].
    exists 4294967295, (Some 0). split; [reflexivity|vm_compute; reflexivity].
  - specialize (H true 2 SampleServing.report). rewrite Hadm, Hcall in H.
    destruct (app _ _ _ _ _ _ _ _ _ _ _ _ _ _ _ _ _) as [s' rsp]. destruct H as [[H _] _].
    intros Hn. destruct (H Hn) as (e & q & Hq & days & tz & Ha & Hp). injection Hq as <- <-.
    injection Ha as <- <-. vm_compute in Hp. discriminate Hp.
  - specialize (H true 2 SampleServing.with_tool). rewrite Hprx in H.
    set (body := Model.JObj [("model", Model.JStr "fast");
      ("tools", Model.JArr [SampleTools.tool SampleTools.long_desc])]).
    assert (Hck : match check_request (H := Model.json) SampleServer.json_into (fun _ _ => EmptyString)
        (sv_proxy SampleServing.server) SampleServing.with_tool with
      | Ok (pr, _) => String.eqb (req_body pr) (Model.print body)
      | _ => false end = true) by (vm_compute; reflexivity).
    destruct (app _ _ _ _ _ _ _ _ _ _ _ _ _ _ _ _ _) as [s' rsp]. destruct H as [[_ H] _]. apply H.
    exists SampleServing.with_tool. split; [exact Hproxy|]. unfold log_cuts.
    destruct (check_request _ _ _ _) as [[pr f]| |]; [|discriminate Hck..].
    apply String.eqb_eq in Hck.
    exists pr, f, body, [SampleTools.tool SampleTools.long_desc]. rewrite Hck.
    split; [reflexivity|]. split; [reflexivity|]. split; [apply Model.parse_print|].
    split; [reflexivity|vm_compute; reflexivity].
  - specialize (H false 2 SampleServing.with_tool). rewrite Hprx in H.
    destruct (app _ _ _ _ _ _ _ _ _ _ _ _ _ _ _ _ _) as [s' rsp]. destruct H as [[H _] _].
    intros Hn. destruct (H Hn) as (q & _ & ? & ? & ? & ? & _ & Hen & _). discriminate Hen.
Defined.
