(* ===== verification/Ledger.v ===== *)
(** The books of the server: what any sequence of requests, to the proxy and to the
    admin API, leaves in the table of costs, and what the cost reports make of
    it. *)

From stdpp Require Import gmap relations.
From S2P Require Import Prelude RustStr Float64 Json Http Billing Types Middleware Storage.
From S2P Require Import Router Bridge Compress Report Cost Auth Server Sqlite Seed Probe.
From S2P Require Import AdminAuth Admin AdminAnswers Main System Serving.
Local Open Scope Z_scope.
Local Open Scope st_scope.

Section Ledger.
Context `{SerdeJson, !TokenlessSchema, !LlmBridge, PricingCodec, !ColumnCodec, !SerdeJsonLaws _}.
Context {N : Type}.
Context (debug_strings : list string -> string) (json_error : string -> string).
Context (json_into_response : Value -> HttpResponse) (fmt_f64 : nat -> f64 -> string).
Context (parse_report : string -> option ProxyReport).
Context (parse_header : string -> option TokenlessHeader).
Context (status_response : StatusCode -> HttpResponse).
Context (body_limit : Z -> HttpRequest -> Res HttpResponse HttpRequest).
Context (admin_limit : Z -> HttpRequest -> Res StatusCode HttpRequest).
Context (x : Extractors) (naive_min : Z) (src : Sources).
Context (reply_response : Reply -> HttpResponse).
Context (client : UpstreamRequest -> N -> N * Res SendError UpstreamResponse).
Context (aliases : gmap string string) (sv : Running (N := N)).
Context (Hbuilt : built_with debug_strings client aliases sv).

Let handle_app := app debug_strings json_error json_into_response fmt_f64 parse_report parse_header
  status_response body_limit admin_limit x naive_min src reply_response sv.

(** ** One request *)

(** The entry of a request: bills come from the proxy, and only a request to prune
    takes records away. *)
Definition booking (env : Surroundings) (req : HttpRequest) (w : World N) (e : Entry)
    (rsp : option HttpResponse) : Prop :=
  if is_admin_path (rq_path req) then
    match admin_call admin_limit (ak_key (sv_admin_key sv)) req with
    | Some (EPrune, _) => exists keep, e = Pruned keep
    | _ => e = Nothing
    end
  else
    match proxy_call body_limit (sv_proxy sv) req with
    | Some q =>
        match check_request json_into_response fmt_f64 (sv_proxy sv) q with
        | Ok (pr, f) => charged json_into_response fmt_f64 aliases env pr f w e rsp
        | _ => e = Nothing
        end
    | None => e = Nothing
    end.

Lemma proxy_books env req s :
  can_record (sh_world s) ->
  let '(s', rsp) := build_router json_into_response fmt_f64 parse_report parse_header
                      status_response body_limit (sv_proxy sv) env req s in
  exists e, t_costs (w_db (sh_world s')) = post e (t_costs (w_db (sh_world s))) /\
    match proxy_call body_limit (sv_proxy sv) req with
    | Some q =>
        match check_request json_into_response fmt_f64 (sv_proxy sv) q with
        | Ok (pr, f) => charged json_into_response fmt_f64 aliases env pr f (sh_world s) e rsp
        | _ => e = Nothing
        end
    | None => e = Nothing
    end.
Proof.
  intros Hrec. unfold build_router, proxy_call.
  destruct (body_limit _ req) as [q|r|]; [|by exists Nothing..].
  rewrite auth_middleware_next.
  destruct (auth_middleware _ q (fun q => q)) as [q'|st|]; cbn [fmap res_fmap];
    [|by exists Nothing..].
  unfold dispatch. destruct (route _ _); [|by exists Nothing..].
  pose proof (handler_books debug_strings json_into_response fmt_f64 parse_report parse_header
    client aliases sv Hbuilt env q' s Hrec) as Hh.
  destruct (handle_proxy_request _ _ _ _ _ _ _ _) as [s' rsp].
  destruct Hh as (e & Hd & He). exists e. by rewrite Hd.
Qed.

(** Steps of an endpoint keep the records, or filter them if it prunes. *)
Lemma admin_step_costs env e (a a' : AdminState Db) :
  rtc (admin_step debug_strings env src e) a a' ->
  match e with
  | EPrune => exists keep, t_costs (ad_storage a') = List.filter keep (t_costs (ad_storage a))
  | _ => t_costs (ad_storage a') = t_costs (ad_storage a)
  end.
Proof.
  induction 1 as [a|a b c Hs _ IH]; [destruct e; try done; exists (fun _ => true);
    by rewrite filter_true|].
  assert (Hone : exists keep, t_costs (ad_storage b) = List.filter keep (t_costs (ad_storage a)) /\
    (e <> EPrune -> t_costs (ad_storage b) = t_costs (ad_storage a))).
  { assert (Hsame : t_costs (ad_storage b) = t_costs (ad_storage a) ->
      exists keep, t_costs (ad_storage b) = List.filter keep (t_costs (ad_storage a)) /\
        (e <> EPrune -> t_costs (ad_storage b) = t_costs (ad_storage a))).
    { intros Hb. exists (fun _ => true). by rewrite filter_true. }
    destruct Hs as [op Hw|url|r Hr|v]; try (by apply Hsame).
    - pose proof (run_op_costs env op (ad_storage a)) as Hop.
      destruct e, op; try discriminate Hw; try (by apply Hsame).
      destruct Hop as [keep ->]. exists keep. by split.
    - apply Hsame. simpl. apply (keeps_costs _ _ (proj2 (seeding_only_seeds src env) url _)). }
  destruct Hone as (keep & Hk & Hsame).
  destruct e; try (by rewrite IH, Hsame).
  destruct IH as [keep' ->]. rewrite Hk, filter_filter. by eexists.
Qed.

Lemma app_books env req s :
  can_record (sh_world s) ->
  let '(s', rsp) := handle_app env req s in
  exists e, t_costs (w_db (sh_world s')) = post e (t_costs (w_db (sh_world s))) /\
            booking env req (sh_world s) e rsp.
Proof.
  intros Hrec. unfold handle_app, app, booking. destruct (is_admin_path _); [|by apply proxy_books].
  unfold admin, focus. set (w := sh_world s).
  pose proof (admin_service_steps debug_strings (mo_env (w_moment w)) src (mo_clock (w_moment w))
    (mo_now (w_moment w)) naive_min (mo_probe (w_moment w)) json_error x admin_limit
    (ak_key (sv_admin_key sv)) req (admin_view w)) as Hk.
  cbv zeta in *. destruct (admin_service _ _ _ _ _ _ _ _ _ _ _) as [a r]. cbn [fst] in Hk.
  cbn [with_world sh_world put_admin w_db].
  destruct (admin_call _ _ _) as [[e q]|]; [|exists Nothing; by subst a].
  apply admin_step_costs in Hk.
  destruct e; try (by exists Nothing). destruct Hk as [keep Hk]. exists (Pruned keep). by eauto.
Qed.

(** ** A sequence of requests

    Each request has the clock, the fresh identifier and the environment of its
    moment; between the requests, these are all that changes. *)
Record Visit := { v_moment : Moment; v_env : Surroundings; v_request : HttpRequest }.

Definition at_moment (m : Moment) (s : Shared (W := World N)) : Shared (W := World N) :=
  with_world (put_moment m (sh_world s)) s.

Definition visit (v : Visit) (s : Shared (W := World N)) : Shared (W := World N) * option HttpResponse :=
  handle_app (v_env v) (v_request v) (at_moment (v_moment v) s).

Definition record_id (v : Visit) : string := mo_record_id (v_moment v).
Definition costs (s : Shared (W := World N)) : list CostRecord := t_costs (w_db (sh_world s)).

(** The books of a sequence of requests: one entry per request. *)
Inductive ledger (s : Shared (W := World N)) : list Visit -> list Entry -> Shared (W := World N) -> Prop :=
| ledger_end : ledger s [] [] s
| ledger_next v vs s1 rsp e es s2 :
    visit v s = (s1, rsp) ->
    booking (v_env v) (v_request v) (sh_world (at_moment (v_moment v) s)) e rsp ->
    costs s1 = post e (costs s) ->
    ledger s1 vs es s2 ->
    ledger s (v :: vs) (e :: es) s2.

Definition bills (es : list Entry) : list CostRecord :=
  omap (fun e => match e with Billed r => Some r | _ => None end) es.

Definition prunes (e : Entry) : bool := match e with Pruned _ => true | _ => false end.

Lemma ledger_costs s vs es s' :
  ledger s vs es s' -> costs s' = foldl (fun rows e => post e rows) (costs s) es.
Proof. induction 1 as [|s v vs s1 rsp e es s2 _ _ Hc _ IH]; [done|]. simpl. by rewrite IH, Hc. Qed.

Lemma post_subset e rows r :
  r ∈ post e rows -> r ∈ rows \/ e = Billed r.
Proof.
  destruct e as [|r'|k]; simpl; [by left|..].
  - rewrite elem_of_app, list_elem_of_singleton. intros [?| ->]; auto.
  - rewrite elem_of_filter_bool. intros [? _]. by left.
Qed.

(** Every row is from before or is a bill. *)
Lemma ledger_rows s vs es s' r :
  ledger s vs es s' -> r ∈ costs s' -> r ∈ costs s \/ r ∈ bills es.
Proof.
  induction 1 as [|s v vs s1 rsp e es s2 _ _ Hc _ IH]; [by left|]. intros Hr.
  unfold bills in *. destruct (IH Hr) as [Hr1|Hb].
  - rewrite Hc in Hr1. apply post_subset in Hr1 as [| ->]; [by left|]. right. csimpl. by left.
  - right. destruct e; csimpl; [done|by right|done].
Qed.

Lemma post_bills rows es :
  existsb prunes es = false -> foldl (fun rows e => post e rows) rows es = rows ++ bills es.
Proof.
  revert rows. induction es as [|[|r|k] es IH]; intros rows He; simpl in *; try done.
  - by rewrite app_nil_r.
  - by apply IH.
  - rewrite IH by done. by rewrite <-app_assoc.
Qed.

(** Every bill of the books is the bill of a request that has been answered. *)
Lemma booking_bill env req w r rsp :
  booking env req w (Billed r) rsp ->
  exists pr f body json model ch m, Bill aliases env pr f w body r json model ch m.
Proof.
  unfold booking. intros Hb.
  repeat case_match; try discriminate; try (by destruct Hb).
  inversion Hb as [| |res body r' json model ch m _ Hbill Heq]. unfold entry_of in Heq.
  destruct (is_nan _); [discriminate|]. injection Heq as <-. do 7 eexists. exact Hbill.
Qed.

Lemma ledger_bill s vs es s' r :
  ledger s vs es s' -> r ∈ bills es ->
  exists env pr f (w : World N) body json model ch m,
    Bill aliases env pr f w body r json model ch m.
Proof.
  unfold bills. induction 1 as [|s v vs s1 rsp e es s2 _ Hb _ _ IH]; [by intros ?%elem_of_nil|].
  destruct e as [|r'|k]; csimpl; try done. intros [->|Hr]%elem_of_cons; [|by apply IH].
  apply booking_bill in Hb as (pr & f & body & json & model & ch & m & Hb).
  do 9 eexists. exact Hb.
Qed.

(** An entry names the identifier of its request. *)
Lemma booking_id env req w r rsp :
  booking env req w (Billed r) rsp -> cr_id r = mo_record_id (w_moment w).
Proof. intros (pr & f & body & json & model & ch & m & Hb)%booking_bill. apply Hb. Qed.

(** Requests that find the database working, each with an identifier of its own. *)
Definition fresh_visits (vs : list Visit) (s : Shared (W := World N)) : Prop :=
  (forall v, v ∈ vs -> pool_error (mo_env (v_moment v)) = None) /\
  NoDup (record_id <$> vs) /\
  (forall r v, r ∈ costs s -> v ∈ vs -> cr_id r <> record_id v).

Lemma traffic_books vs s : fresh_visits vs s -> exists es s', ledger s vs es s'.
Proof.
  revert s. induction vs as [|v vs IH]; intros s (Hpool & Hnd & Hfresh).
  - exists [], s. constructor.
  - apply NoDup_cons in Hnd as [Hv Hnd].
    assert (Hcan : can_record (sh_world (at_moment (v_moment v) s))).
    { split; [apply Hpool; by left|]. intros r Hr. apply Hfresh; [exact Hr|by left]. }
    pose proof (app_books (v_env v) (v_request v) _ Hcan) as Hb.
    destruct (handle_app _ _ _) as [s1 rsp] eqn:Hs. destruct Hb as (e & Hc & Hbk).
    change (costs s1 = post e (costs s)) in Hc.
    destruct (IH s1) as (es & s2 & Hl).
    { split; [intros; apply Hpool; by right|]. split; [done|]. intros r v' Hr Hv'.
      rewrite Hc in Hr. apply post_subset in Hr as [Hr| ->]; [apply Hfresh; [done|by right]|].
      apply booking_id in Hbk. rewrite Hbk. simpl. intros Heq. apply Hv.
      apply list_elem_of_fmap. by exists v'. }
    exists (e :: es), s2. by eapply ledger_next.
Qed.

Lemma ledger_length s vs es s' : ledger s vs es s' -> length es = length vs.
Proof. induction 1; simpl; congruence. Qed.

Definition traffic (vs : list Visit) (s : Shared (W := World N)) : Shared (W := World N) :=
  foldl (fun s v => (visit v s).1) s vs.

Lemma ledger_traffic s vs es s' : ledger s vs es s' -> s' = traffic vs s.
Proof. induction 1 as [|s v vs s1 rsp e es s2 Hv _ _ _ IH]; [done|]. simpl. by rewrite Hv. Qed.

(** The records a cost report is about. *)
Definition counted (env : Env) (range : TimeRange) (r : CostRecord) : bool :=
  in_range (rfc3339 env (tr_start range)) (rfc3339 env (tr_end range)) r
  && opt_eq (tr_project range) (cr_project r).

End Ledger.

(** ** Witness: three requests, two of them billed *)

Module SampleLedger.
#[local] Existing Instances Model.json SampleTools.compressor Tagged.bridge
  SampleStore.pricing_codec SampleStore.columns.

Definition moment (id : string) : Moment :=
  {| mo_env := SampleDb.env; mo_clock := Sample.clock 0; mo_now := 1781056800;
     mo_probe := mo_probe SampleMain.moment; mo_record_id := id; mo_timestamp := SampleDb.stamp 50 |}.

Definition asks (id model : string) : Visit :=
  {| v_moment := moment id; v_env := SampleServer.env; v_request := SampleMain.ask model |}.

(** The second model is served by no channel. *)
Definition visits : list Visit := [asks "1" "fast"; asks "2" "x"; asks "3" "sonnet"].

Definition start : Shared (W := World nat) := SampleMain.shared (SampleServing.world true).

Definition served : Shared (W := World nat) :=
  traffic SampleMain.no_strings id SampleServer.json_into (fun _ _ => EmptyString) (fun _ => None)
    (fun _ => None) SampleServer.status_only SampleServing.limit (fun _ q => Ok q)
    (SampleServing.extractors 1) (-8334601228800) SampleMain.sources SampleMain.reply
    SampleServing.server visits start.

Lemma visits_fresh : fresh_visits visits start.
Proof.
  split; [|split].
  - by repeat (intros v [->|Hv]%elem_of_cons; [done|]; revert v Hv); intros v ?%elem_of_nil.
  - apply (bool_decide_unpack _). by vm_compute.
  - by intros r v ?%elem_of_nil.
Qed.
End SampleLedger.

