(* ===== verification/JsonReader.v ===== *)
(** The grammar of JSON texts (RFC 8259), as far as the files and columns of the
    repository use it: a reader of texts into documents.  It is not code of the
    repository; theorems about concrete texts assume of [serde_json] that it
    reads what this reader reads. *)

From Stdlib Require Import Ascii.
From S2P Require Import Prelude RustStr Float64 Json.
Import Model.
Local Open Scope Z_scope.

Definition backslash : ascii := "\"%char.

Definition json_space (c : ascii) : bool := existsb (Z.eqb (byte_val c)) [32; 9; 10; 13].

Fixpoint skip_space (s : string) : string :=
  match s with
  | String c s' => if json_space c then skip_space s' else s
  | EmptyString => EmptyString
  end.

Definition hex_digit (c : ascii) : option Z :=
  let n := byte_val c in
  if between 48 57 n then Some (n - 48)
  else if between 65 70 n then Some (n - 55)
  else if between 97 102 n then Some (n - 87)
  else None.

Definition byte_of (n : Z) : ascii := ascii_of_N (Z.to_N n).

(** A code point that is not a surrogate, in UTF-8. *)
Definition utf8_of (n : Z) : option string :=
  if n <? 128 then Some (String (byte_of n) EmptyString)
  else if n <? 2048 then
    Some (String (byte_of (192 + n / 64)) (String (byte_of (128 + n mod 64)) EmptyString))
  else if between 55296 57343 n then None
  else Some (String (byte_of (224 + n / 4096))
        (String (byte_of (128 + n / 64 mod 64)) (String (byte_of (128 + n mod 64)) EmptyString))).

Definition escaped (c : ascii) : option ascii :=
  if bool_decide (c = dquote) then Some dquote
  else if bool_decide (c = backslash) then Some backslash
  else if bool_decide (c = "/"%char) then Some c
  else if bool_decide (c = "b"%char) then Some "008"%char
  else if bool_decide (c = "f"%char) then Some "012"%char
  else if bool_decide (c = "n"%char) then Some "010"%char
  else if bool_decide (c = "r"%char) then Some "013"%char
  else if bool_decide (c = "t"%char) then Some "009"%char
  else None.

(** The string after its opening quote, and what follows it. *)
Fixpoint read_string (s : string) : option (string * string) :=
  match s with
  | EmptyString => None
  | String c s1 =>
      if bool_decide (c = dquote) then Some (EmptyString, s1)
      else if bool_decide (c = backslash) then
        match s1 with
        | String e s2 =>
            if bool_decide (e = "u"%char) then
              match s2 with
              | String a (String b (String c' (String d s3))) =>
                  a ← hex_digit a; b ← hex_digit b; c' ← hex_digit c'; d ← hex_digit d;
                  u ← utf8_of (4096 * a + 256 * b + 16 * c' + d);
                  '(t, rest) ← read_string s3; Some (u +:+ t, rest)
              | _ => None
              end
            else e ← escaped e; '(t, rest) ← read_string s2; Some (String e t, rest)
        | EmptyString => None
        end
      else if byte_val c <? 32 then None
      else '(t, rest) ← read_string s1; Some (String c t, rest)
  end.

Definition digit (c : ascii) : option Z :=
  let n := byte_val c in if between 48 57 n then Some (n - 48) else None.

(** The digits at the head: their number, and their value after [acc]. *)
Fixpoint read_digits (acc : Z) (count : nat) (s : string) : Z * nat * string :=
  match s with
  | String c s' =>
      match digit c with Some d => read_digits (10 * acc + d) (S count) s' | None => (acc, count, s) end
  | EmptyString => (acc, count, s)
  end.

(** [m * 10 ^ e] with a single rounding. *)
Definition decimal (neg : bool) (m e : Z) : option jv :=
  if (m <? 2 ^ 53) && (Z.abs e <=? 22) then
    let x := if 0 <=? e then f64_mul (f64_of_int m) (f64_of_int (10 ^ e))
             else f64_div (f64_of_int m) (f64_of_int (10 ^ (- e))) in
    Some (JFloat (if neg then f64_mul (f64_of_int (-1)) x else x))
  else None.

Definition read_exponent (s : string) : option (option Z * string) :=
  match s with
  | String c s1 =>
      if bool_decide (c = "e"%char \/ c = "E"%char) then
        let '(neg, s2) := match s1 with
                          | String d s2 => if bool_decide (d = "-"%char) then (true, s2)
                                           else if bool_decide (d = "+"%char) then (false, s2)
                                           else (false, s1)
                          | EmptyString => (false, s1) end in
        match read_digits 0 0 s2 with
        | (_, O, _) => None
        | (e, _, rest) => Some (Some (if neg : bool then - e else e), rest)
        end
      else Some (None, s)
  | EmptyString => Some (None, s)
  end.

(** A number.  Integers that do not fit 64 bits, decimals of more digits than a
    double holds exactly, and [-0] are left out. *)
Definition read_number (s : string) : option (jv * string) :=
  let '(neg, s1) := match s with
                    | String c s' => if bool_decide (c = "-"%char) then (true, s') else (false, s)
                    | EmptyString => (false, s) end in
  match read_digits 0 0 s1 with
  | (_, O, _) => None
  | (m, count, s2) =>
      let zero_led := match s1 with String c _ => bool_decide (c = "0"%char) | _ => false end in
      if zero_led && bool_decide (1 < count)%nat then None
      else
        let '(frac, s3) := match s2 with
                           | String c s' => if bool_decide (c = "."%char)
                                            then (Some (read_digits m 0 s'), s2) else (None, s2)
                           | EmptyString => (None, s2) end in
        match frac with
        | Some (_, O, _) => None
        | Some (m', k, s4) =>
            '(e, rest) ← read_exponent s4;
            v ← decimal neg m' (default 0 e - Z.of_nat k); Some (v, rest)
        | None =>
            '(e, rest) ← read_exponent s3;
            match e with
            | Some e => v ← decimal neg m e; Some (v, rest)
            | None =>
                let n := if neg then - m else m in
                if ((- 2 ^ 63 <=? n) && (n <=? u64_max)) && negb (neg && (m =? 0))
                then Some (JInt n, rest) else None
            end
        end
  end.

Fixpoint read_value (fuel : nat) (s : string) : option (jv * string) :=
  match fuel with
  | O => None
  | S f =>
      match skip_space s with
      | EmptyString => None
      | String c rest =>
          if bool_decide (c = dquote) then '(t, rest) ← read_string rest; Some (JStr t, rest)
          else if bool_decide (c = "{"%char) then
            match skip_space rest with
            | String "}" rest' => Some (JObj [], rest')
            | _ => '(l, rest) ← read_members f rest; Some (JObj l, rest)
            end
          else if bool_decide (c = "["%char) then
            match skip_space rest with
            | String "]" rest' => Some (JArr [], rest')
            | _ => '(l, rest) ← read_elements f rest; Some (JArr l, rest)
            end
          else match strip_prefix "null" (String c rest) with
          | Some rest => Some (JNull, rest)
          | None =>
          match strip_prefix "true" (String c rest) with
          | Some rest => Some (JBool true, rest)
          | None =>
          match strip_prefix "false" (String c rest) with
          | Some rest => Some (JBool false, rest)
          | None => read_number (String c rest)
          end end end
      end
  end
with read_elements (fuel : nat) (s : string) : option (list jv * string) :=
  match fuel with
  | O => None
  | S f =>
      '(v, rest) ← read_value f s;
      match skip_space rest with
      | String "," rest => '(l, rest) ← read_elements f rest; Some (v :: l, rest)
      | String "]" rest => Some ([v], rest)
      | _ => None
      end
  end
with read_members (fuel : nat) (s : string) : option (list (string * jv) * string) :=
  match fuel with
  | O => None
  | S f =>
      match skip_space s with
      | String q rest =>
          if bool_decide (q = dquote) then
            '(k, rest) ← read_string rest;
            match skip_space rest with
            | String ":" rest =>
                '(v, rest) ← read_value f rest;
                match skip_space rest with
                | String "," rest => '(l, rest) ← read_members f rest; Some ((k, v) :: l, rest)
                | String "}" rest => Some ([(k, v)], rest)
                | _ => None
                end
            | _ => None
            end
          else None
      | EmptyString => None
      end
  end.

(** A whole text.  Each call reads a character or hands the text to one that does,
    so that twice the length is fuel enough. *)
Definition read (s : string) : option jv :=
  '(v, rest) ← read_value (2 * String.length s + 2) s;
  if str_is_empty (skip_space rest) then Some v else None.

(** Texts are written below with apostrophes for their quotes. *)
Fixpoint quotes (s : string) : string :=
  match s with
  | EmptyString => EmptyString
  | String c s' => String (if bool_decide (c = "'"%char) then dquote else c) (quotes s')
  end.

Example read_nested :
  read (quotes " { 'a' : [1, -2, 0.5, 2e3, true, null] , 'b\'c': '\u00e9' } ") =
    Some (JObj [("a", JArr [JInt 1; JInt (-2); JFloat (f64_lit 1 (-1)); JFloat (f64_of_int 2000);
                            JBool true; JNull]);
                (("b" +:+ quotes "'" +:+ "c"), JStr "é")]).
Proof. vm_compute. reflexivity. Qed.

Example read_rejects :
  read (quotes "{'a':1,}") = None /\ read "[1] x" = None /\ read "01" = None /\ read "1." = None.
Proof. split_and!; vm_compute; reflexivity. Qed.
