(* ===== verification/Serde.v ===== *)
(** The JSON forms serde derives for the data of the program from the attributes
    in [crates/model-router/src/types.rs], [crates/storage/src/types.rs] and two
    files of [crates/core/src]: price formulas, the configuration of flat fees, the
    columns with protocols, and the reports of tokenless.

    The text of JSON is [serde_json]'s business: the class [JsonText], between
    texts and documents.  What a document means as a value of a Rust type is
    what the attributes on that type say, and is written out here: fields by
    name or by position, defaults, the tag of an enum. *)

From S2P Require Import Prelude RustStr Float64 Json Billing Types Report Storage.
Import Model.
Local Open Scope Z_scope.

(** ** Documents and texts *)

(** [serde_json::from_str] up to the document, and [to_string]. *)
Class JsonText := {
  read_json : string -> Res string jv;
  write_json : jv -> option string;
  (** The message of a document of another shape. *)
  shape_error : string -> string
}.

Definition finite (x : f64) : bool :=
  match x with S754_zero _ | S754_finite _ _ _ => true | _ => false end.

(** A document with a text of its own: JSON has no other numbers. *)
Fixpoint writable (v : jv) : bool :=
  match v with
  | JInt n => (- 2 ^ 63 <=? n) && (n <=? u64_max)
  | JFloat x => finite x
  | JArr l => forallb writable l
  | JObj l => forallb (fun kv => writable kv.2) l
  | _ => true
  end.

(** A document as it comes back from its text, [reread] saying what becomes of a
    float: by default [serde_json] reads floats fast, not exactly. *)
Fixpoint map_floats (g : f64 -> f64) (v : jv) : jv :=
  match v with
  | JFloat x => JFloat (g x)
  | JArr l => JArr (map_floats g <$> l)
  | JObj l => JObj ((fun kv => (kv.1, map_floats g kv.2)) <$> l)
  | _ => v
  end.

Class JsonTextLaws `{JsonText} (reread : f64 -> f64) : Prop := {
  read_write v : writable v = true ->
    exists t, write_json v = Some t /\ read_json t = Ok (map_floats reread v);
  read_returns t : read_json t <> Panic
}.

(** ** Decoding of values *)

Definition Decoder (A : Type) : Type := jv -> option A.

Definition de_string : Decoder string := fun v => match v with JStr s => Some s | _ => None end.
Definition de_bool : Decoder bool := fun v => match v with JBool b => Some b | _ => None end.

(** An integer is taken for a float, not the other way round. *)
Definition de_f64 : Decoder f64 := fun v =>
  match v with JInt n => Some (f64_of_int n) | JFloat x => Some x | _ => None end.

Definition de_int (lo hi : Z) : Decoder Z := fun v =>
  match v with JInt n => if (lo <=? n) && (n <=? hi) then Some n else None | _ => None end.
Definition de_u64 : Decoder Z := de_int 0 u64_max.
Definition de_u32 : Decoder Z := de_int 0 u32_max.
Definition de_i64 : Decoder Z := de_int (- 2 ^ 63) i64_max.

Definition de_option {A} (d : Decoder A) : Decoder (option A) := fun v =>
  match v with JNull => Some None | _ => Some <$> d v end.

Definition de_list {A} (d : Decoder A) : Decoder (list A) := fun v =>
  match v with JArr l => mapM d l | _ => None end.

(** *** Structs

    An object gives the fields by name: unknown names are skipped, a name that
    comes twice is an error.  An array gives them by position. *)
Inductive Fields :=
| ByName (l : list (string * jv))
| ByPosition (l : list jv).

Definition as_fields (v : jv) : option Fields :=
  match v with JObj l => Some (ByName l) | JArr l => Some (ByPosition l) | _ => None end.

Definition named (k : string) (l : list (string * jv)) : list jv :=
  snd <$> List.filter (fun kv => String.eqb kv.1 k) l.

(** The value of the [i]th field; [Some None]: it is missing. *)
Definition field (i : nat) (k : string) (fs : Fields) : option (option jv) :=
  match fs with
  | ByName l => match named k l with [] => Some None | [v] => Some (Some v) | _ => None end
  | ByPosition l => Some (l !! i)
  end.

Definition required {A} (d : Decoder A) (i : nat) (k : string) (fs : Fields) : option A :=
  field i k fs ≫= fun o => o ≫= d.

(** [#[serde(default)]], [#[serde(default = ..)]]. *)
Definition defaulted {A} (a : A) (d : Decoder A) (i : nat) (k : string) (fs : Fields) : option A :=
  field i k fs ≫= fun o => match o with Some v => d v | None => Some a end.

(** An [Option] without [default]: a missing name is [None], a missing position
    is an error. *)
Definition optional {A} (d : Decoder A) (i : nat) (k : string) (fs : Fields) : option (option A) :=
  field i k fs ≫= fun o =>
    match o, fs with
    | Some v, _ => de_option d v
    | None, ByName _ => Some None
    | None, ByPosition _ => None
    end.

(** No position is left over. *)
Definition fields_end (n : nat) (fs : Fields) : option unit :=
  match fs with
  | ByName _ => Some tt
  | ByPosition l => if bool_decide (length l <= n)%nat then Some tt else None
  end.

(** *** Enums with an internal tag: [#[serde(tag = "type")]]

    The tag is the field [type], or the first element; the rest are the fields
    of the variant.  Inside another such enum, whose content is buffered, a
    variant can also be named by its index. *)
Definition de_tag (buffered : bool) (names : list string) : Decoder string := fun v =>
  match v with
  | JStr s => Some s
  | JInt n => if buffered && (0 <=? n) && (n <? Z.of_nat (length names))
              then names !! Z.to_nat n else None
  | _ => None
  end.

Definition tagged (buffered : bool) (names : list string) (v : jv) : option (string * Fields) :=
  match v with
  | JObj l =>
      match named "type" l with
      | [t] => tag ← de_tag buffered names t;
               Some (tag, ByName (List.filter (fun kv => negb (String.eqb kv.1 "type")) l))
      | _ => None
      end
  | JArr (t :: l) => tag ← de_tag buffered names t; Some (tag, ByPosition l)
  | _ => None
  end.

(** ** The derived decoders *)

Definition default_currency : string := "USD".

Definition BillingDimension_names : list string := ["tokens"; "duration"; "images"].

Definition de_dimension (buffered : bool) : Decoder BillingDimension := fun v =>
  '(tag, fs) ← tagged buffered BillingDimension_names v;
  if bool_decide (tag = "tokens") then _ ← fields_end 0 fs; Some Tokens
  else if bool_decide (tag = "duration") then
    r ← defaulted None (de_option de_string) 0 "resolution" fs;
    _ ← fields_end 1 fs; Some (Duration_ r)
  else if bool_decide (tag = "images") then
    q ← defaulted None (de_option de_string) 0 "quality" fs;
    _ ← fields_end 1 fs; Some (Images q)
  else None.

(** The five prices that [Pricing::PerToken] and [TierPrice::Token] begin with. *)
Definition de_token_prices (fs : Fields) : option TokenPrices :=
  input ← required de_f64 0 "input_per_mtok" fs;
  output ← required de_f64 1 "output_per_mtok" fs;
  cache_write ← defaulted None (de_option de_f64) 2 "cache_write_per_mtok" fs;
  cache_read ← defaulted None (de_option de_f64) 3 "cache_read_per_mtok" fs;
  thinking ← defaulted None (de_option de_f64) 4 "thinking_per_mtok" fs;
  Some {| input_per_mtok := input; output_per_mtok := output;
          cache_write_per_mtok := cache_write; cache_read_per_mtok := cache_read;
          thinking_per_mtok := thinking |}.

Definition TierPrice_names : list string := ["token"; "unit"].

Definition de_tier_price (buffered : bool) : Decoder TierPrice := fun v =>
  '(tag, fs) ← tagged buffered TierPrice_names v;
  if bool_decide (tag = "token") then
    p ← de_token_prices fs; _ ← fields_end 5 fs; Some (Token p)
  else if bool_decide (tag = "unit") then
    x ← required de_f64 0 "per_unit" fs; _ ← fields_end 1 fs; Some (Unit x)
  else None.

Definition de_tier (buffered : bool) : Decoder PricingTier := fun v =>
  fs ← as_fields v;
  bound ← optional de_u64 0 "up_to" fs;
  p ← required (de_tier_price buffered) 1 "price" fs;
  _ ← fields_end 2 fs;
  Some {| up_to := bound; price := p |}.

Definition Pricing_names : list string :=
  ["per_token"; "credits"; "char_based"; "per_unit"; "tiered"].

Definition de_pricing : Decoder Pricing := fun v =>
  '(tag, fs) ← tagged false Pricing_names v;
  if bool_decide (tag = "per_token") then
    p ← de_token_prices fs;
    c ← defaulted default_currency de_string 5 "currency" fs;
    _ ← fields_end 6 fs; Some (PerToken p c)
  else if bool_decide (tag = "credits") then
    i ← defaulted None (de_option de_f64) 0 "credits_per_mtok_input" fs;
    o ← defaulted None (de_option de_f64) 1 "credits_per_mtok_output" fs;
    r ← defaulted None (de_option de_f64) 2 "credits_per_request" fs;
    _ ← fields_end 3 fs; Some (Credits i o r)
  else if bool_decide (tag = "char_based") then
    x ← required de_f64 0 "price_per_million_chars" fs;
    m ← defaulted None (de_option de_f64) 1 "output_multiplier" fs;
    _ ← fields_end 2 fs; Some (CharBased x m)
  else if bool_decide (tag = "per_unit") then
    d ← required (de_dimension true) 0 "metric" fs;
    x ← required de_f64 1 "per_unit" fs;
    c ← defaulted default_currency de_string 2 "currency" fs;
    _ ← fields_end 3 fs; Some (PerUnit d x c)
  else if bool_decide (tag = "tiered") then
    d ← required (de_dimension true) 0 "dimension" fs;
    l ← required (de_list (de_tier true)) 1 "tiers" fs;
    c ← defaulted default_currency de_string 2 "currency" fs;
    _ ← fields_end 3 fs; Some (Tiered d l c)
  else None.

(** [Quota] and [ExhaustedAction] have external tags: the name of the variant, or
    an object of it alone. *)
Definition de_per_month (v : jv) : option Z :=
  fs ← as_fields v; n ← required de_u64 0 "per_month" fs; _ ← fields_end 1 fs; Some n.

Definition de_quota : Decoder Quota := fun v =>
  match v with
  | JStr s => if bool_decide (s = "Unlimited") then Some Unlimited else None
  | JObj [(k, x)] =>
      if bool_decide (k = "Unlimited") then match x with JNull => Some Unlimited | _ => None end
      else if bool_decide (k = "MaxRequests") then MaxRequests <$> de_per_month x
      else if bool_decide (k = "MaxTokens") then MaxTokens <$> de_per_month x
      else None
  | _ => None
  end.

Definition action_of_name (s : string) : option ExhaustedAction :=
  if bool_decide (s = "fallback_to_metered") then Some FallbackToMetered
  else if bool_decide (s = "block") then Some Block
  else None.

Definition de_action : Decoder ExhaustedAction := fun v =>
  match v with
  | JStr s => action_of_name s
  | JObj [(k, JNull)] => action_of_name k
  | _ => None
  end.

Definition de_flat_fee : Decoder FlatFeeConfig := fun v =>
  fs ← as_fields v;
  hint ← optional de_f64 0 "monthly_cost_hint" fs;
  quota ← optional de_quota 1 "quota" fs;
  action ← optional de_action 2 "on_exhausted" fs;
  _ ← fields_end 3 fs;
  Some {| ffc_monthly_cost_hint := hint; ffc_quota := quota; ffc_on_exhausted := action |}.

Definition de_protocol_entry : Decoder ProtocolEntry := fun v =>
  fs ← as_fields v;
  p ← required de_string 0 "protocol" fs;
  url ← required de_string 1 "baseUrl" fs;
  rw ← defaulted None (de_option de_string) 2 "rewritePath" fs;
  _ ← fields_end 3 fs;
  Some {| pe_protocol := p; pe_base_url := url; pe_rewrite_path := rw |}.

(** A channel on the wire of the admin API; the key is a plain string there. *)
Definition de_channel : Decoder Channel := fun v =>
  fs ← as_fields v;
  id ← required de_string 0 "id" fs;
  name ← required de_string 1 "name" fs;
  key ← required de_string 2 "apiKeyRef" fs;
  protocol ← required de_string 3 "protocol" fs;
  protocols ← required de_string 4 "protocols" fs;
  builtin ← required de_bool 5 "isBuiltin" fs;
  enabled ← required de_bool 6 "enabled" fs;
  created ← required de_i64 7 "createdAt" fs;
  updated ← required de_i64 8 "updatedAt" fs;
  status ← required de_string 9 "healthStatus" fs;
  until ← optional de_string 10 "cooldownUntil" fs;
  failures ← required de_u32 11 "consecutiveFailures" fs;
  billing ← required de_string 12 "billingType" fs;
  quota ← optional de_u64 13 "monthlyQuota" fs;
  policy ← required de_string 14 "quotaPolicy" fs;
  priority ← required de_u32 15 "priority" fs;
  force ← defaulted None (de_option de_string) 16 "forceProtocol" fs;
  _ ← fields_end 17 fs;
  Some {| ch_id := id; ch_name := name; ch_api_key := key; ch_protocol := protocol;
          ch_protocols := protocols; ch_is_builtin := builtin; ch_enabled := enabled;
          ch_created_at := created; ch_updated_at := updated; ch_health_status := status;
          ch_cooldown_until := until; ch_consecutive_failures := failures;
          ch_billing_type := billing; ch_monthly_quota := quota; ch_quota_policy := policy;
          ch_priority := priority; ch_force_protocol := force |}.

(** The header with the savings of tokenless, and the lines of its reports. *)
Definition de_tokenless_header : Decoder TokenlessHeader := fun v =>
  fs ← as_fields v;
  pre ← optional de_u64 0 "pre" fs;
  post ← optional de_u64 1 "post" fs;
  experimental ← optional de_u64 2 "experimental" fs;
  _ ← fields_end 3 fs;
  Some {| th_pre := pre; th_post := post; th_experimental := experimental |}.

Definition de_proxy_report : Decoder ProxyReport := fun v =>
  fs ← as_fields v;
  session ← required de_string 0 "sessionId" fs;
  agent ← required de_string 1 "agentId" fs;
  project ← optional de_string 2 "projectPath" fs;
  user ← defaulted None (de_option de_string) 3 "userName" fs;
  op ← required de_string 4 "opType" fs;
  method ← optional de_string 5 "method" fs;
  before ← required de_u64 6 "beforeTokens" fs;
  after ← required de_u64 7 "afterTokens" fs;
  saved ← required de_u64 8 "savedTokens" fs;
  before_bytes ← defaulted 0 de_u64 9 "beforeBytes" fs;
  after_bytes ← defaulted 0 de_u64 10 "afterBytes" fs;
  saved_bytes ← defaulted 0 de_u64 11 "savedBytes" fs;
  timestamp ← defaulted EmptyString de_string 12 "timestamp" fs;
  _ ← fields_end 13 fs;
  Some {| pr_session_id := session; pr_agent_id := agent; pr_project_path := project;
          pr_user_name := user; pr_op_type := op; pr_method := method;
          pr_before_tokens := before; pr_after_tokens := after; pr_saved_tokens := saved;
          pr_before_bytes := before_bytes; pr_after_bytes := after_bytes;
          pr_saved_bytes := saved_bytes; pr_timestamp := timestamp |}.

(** ** The derived encoders *)

(** A number that JSON does not have is written as [null]. *)
Definition ser_f64 (x : f64) : jv := if finite x then JFloat x else JNull.

Definition ser_option {A} (ser : A -> jv) (o : option A) : jv := from_option ser JNull o.

(** [skip_serializing_if = "Option::is_none"]. *)
Definition ser_present {A} (k : string) (ser : A -> jv) (o : option A) : list (string * jv) :=
  match o with Some a => [(k, ser a)] | None => [] end.

Definition ser_tagged (tag : string) (fields : list (string * jv)) : jv :=
  JObj (("type", JStr tag) :: fields).

Definition ser_dimension (d : BillingDimension) : jv :=
  match d with
  | Tokens => ser_tagged "tokens" []
  | Duration_ r => ser_tagged "duration" (ser_present "resolution" JStr r)
  | Images q => ser_tagged "images" (ser_present "quality" JStr q)
  end.

Definition ser_tier_price (t : TierPrice) : jv :=
  match t with
  | Token p => ser_tagged "token"
      ([("input_per_mtok", ser_f64 (input_per_mtok p));
        ("output_per_mtok", ser_f64 (output_per_mtok p))]
       ++ ser_present "cache_write_per_mtok" ser_f64 (cache_write_per_mtok p)
       ++ ser_present "cache_read_per_mtok" ser_f64 (cache_read_per_mtok p)
       ++ ser_present "thinking_per_mtok" ser_f64 (thinking_per_mtok p))
  | Unit x => ser_tagged "unit" [("per_unit", ser_f64 x)]
  end.

Definition ser_tier (t : PricingTier) : jv :=
  JObj [("up_to", ser_option JInt (up_to t)); ("price", ser_tier_price (price t))].

Definition ser_pricing (p : Pricing) : jv :=
  match p with
  | PerToken t c => ser_tagged "per_token"
      [("input_per_mtok", ser_f64 (input_per_mtok t));
       ("output_per_mtok", ser_f64 (output_per_mtok t));
       ("cache_write_per_mtok", ser_option ser_f64 (cache_write_per_mtok t));
       ("cache_read_per_mtok", ser_option ser_f64 (cache_read_per_mtok t));
       ("thinking_per_mtok", ser_option ser_f64 (thinking_per_mtok t));
       ("currency", JStr c)]
  | Credits i o r => ser_tagged "credits"
      [("credits_per_mtok_input", ser_option ser_f64 i);
       ("credits_per_mtok_output", ser_option ser_f64 o);
       ("credits_per_request", ser_option ser_f64 r)]
  | CharBased x m => ser_tagged "char_based"
      [("price_per_million_chars", ser_f64 x); ("output_multiplier", ser_option ser_f64 m)]
  | PerUnit d x c => ser_tagged "per_unit"
      [("metric", ser_dimension d); ("per_unit", ser_f64 x); ("currency", JStr c)]
  | Tiered d l c => ser_tagged "tiered"
      [("dimension", ser_dimension d); ("tiers", JArr (ser_tier <$> l)); ("currency", JStr c)]
  end.

Definition ser_protocol_entry (p : ProtocolEntry) : jv :=
  JObj ([("protocol", JStr (pe_protocol p)); ("baseUrl", JStr (pe_base_url p))]
        ++ ser_present "rewritePath" JStr (pe_rewrite_path p)).

Definition ser_channel (c : Channel) : jv :=
  JObj ([("id", JStr (ch_id c)); ("name", JStr (ch_name c)); ("apiKeyRef", JStr (ch_api_key c));
         ("protocol", JStr (ch_protocol c)); ("protocols", JStr (ch_protocols c));
         ("isBuiltin", JBool (ch_is_builtin c)); ("enabled", JBool (ch_enabled c));
         ("createdAt", JInt (ch_created_at c)); ("updatedAt", JInt (ch_updated_at c));
         ("healthStatus", JStr (ch_health_status c));
         ("cooldownUntil", ser_option JStr (ch_cooldown_until c));
         ("consecutiveFailures", JInt (ch_consecutive_failures c));
         ("billingType", JStr (ch_billing_type c));
         ("monthlyQuota", ser_option JInt (ch_monthly_quota c));
         ("quotaPolicy", JStr (ch_quota_policy c)); ("priority", JInt (ch_priority c))]
        ++ ser_present "forceProtocol" JStr (ch_force_protocol c)).

(** ** Instances of the interfaces of the components *)

Section Codecs.
Context `{JsonText}.

(** [serde_json::from_str::<A>]. *)
Definition from_str {A} (d : Decoder A) (t : string) : Res string A :=
  v ← read_json t; res_of_option (shape_error t) (d v).

Definition ok {E A} (r : Res E A) : option A := match r with Ok a => Some a | _ => None end.

#[export] Instance derived_pricing : PricingCodec := {|
  parse_pricing := from_str de_pricing;
  parse_flat_fee t := ok (from_str de_flat_fee t);
  print_pricing p := write_json (ser_pricing p)
|}.

#[export] Instance derived_columns : ColumnCodec := {|
  parse_protocols t := ok (from_str (de_list de_protocol_entry) t);
  parse_strings t := ok (from_str (de_list de_string) t)
|}.
End Codecs.

(** ** Round trips *)

(** The prices of a formula, and what becomes of them when each is changed. *)
Definition token_prices (p : TokenPrices) : list f64 :=
  [input_per_mtok p; output_per_mtok p] ++ option_list (cache_write_per_mtok p)
  ++ option_list (cache_read_per_mtok p) ++ option_list (thinking_per_mtok p).

Definition tier_prices (t : PricingTier) : list f64 :=
  match price t with Token p => token_prices p | Unit x => [x] end.

Definition prices (p : Pricing) : list f64 :=
  match p with
  | PerToken t _ => token_prices t
  | Credits i o r => option_list i ++ option_list o ++ option_list r
  | CharBased x m => x :: option_list m
  | PerUnit _ x _ => [x]
  | Tiered _ l _ => concat (tier_prices <$> l)
  end.

Definition map_token_prices (g : f64 -> f64) (p : TokenPrices) : TokenPrices :=
  {| input_per_mtok := g (input_per_mtok p); output_per_mtok := g (output_per_mtok p);
     cache_write_per_mtok := g <$> cache_write_per_mtok p;
     cache_read_per_mtok := g <$> cache_read_per_mtok p;
     thinking_per_mtok := g <$> thinking_per_mtok p |}.

Definition map_tier (g : f64 -> f64) (t : PricingTier) : PricingTier :=
  {| up_to := up_to t;
     price := match price t with
              | Token p => Token (map_token_prices g p)
              | Unit x => Unit (g x) end |}.

Definition map_prices (g : f64 -> f64) (p : Pricing) : Pricing :=
  match p with
  | PerToken t c => PerToken (map_token_prices g t) c
  | Credits i o r => Credits (g <$> i) (g <$> o) (g <$> r)
  | CharBased x m => CharBased (g x) (g <$> m)
  | PerUnit d x c => PerUnit d (g x) c
  | Tiered d l c => Tiered d (map_tier g <$> l) c
  end.

(** The values the Rust type can have, with prices JSON can express. *)
Definition tier_expressible (t : PricingTier) : Prop :=
  Forall (fun x => finite x = true) (tier_prices t) /\ from_option in_u64 True (up_to t).

Definition expressible (p : Pricing) : Prop :=
  match p with
  | Tiered _ l _ => Forall tier_expressible l
  | _ => Forall (fun x => finite x = true) (prices p)
  end.

Lemma ser_f64_finite x : finite x = true -> ser_f64 x = JFloat x.
Proof. unfold ser_f64. by intros ->. Qed.

Lemma in_u64_bounds n : in_u64 n -> (0 <=? n) && (n <=? u64_max) = true.
Proof. unfold in_u64. intros. apply andb_true_iff. rewrite !Z.leb_le. lia. Qed.

(** Which fields an object has does not depend on the values: computation finds
    them once the optional ones are told apart. *)
#[local] Ltac decode_fields :=
  repeat match goal with
  | H : Forall _ (_ :: _) |- _ => apply Forall_cons in H as [? H]
  | H : Forall _ (option_list ?o ++ _) |- _ => destruct o; simpl in H
  | H : Forall _ (option_list ?o) |- _ => destruct o; simpl in H
  end;
  cbn [ser_pricing ser_tier_price ser_tagged ser_option ser_present from_option app input_per_mtok
    output_per_mtok cache_write_per_mtok cache_read_per_mtok thinking_per_mtok];
  repeat match goal with H : finite ?x = true |- _ => rewrite (ser_f64_finite x H); clear H end;
  reflexivity.

Lemma dimension_roundtrip g b d : de_dimension b (map_floats g (ser_dimension d)) = Some d.
Proof. by destruct d as [|[]|[]]. Qed.

Lemma tier_price_roundtrip g b t :
  Forall (fun x => finite x = true) (match t with Token p => token_prices p | Unit x => [x] end) ->
  de_tier_price b (map_floats g (ser_tier_price t)) =
    Some (match t with Token p => Token (map_token_prices g p) | Unit x => Unit (g x) end).
Proof.
  destruct t as [[i o cw cr th]|x]; unfold token_prices; simpl; intros Hp; decode_fields.
Qed.

Lemma tier_roundtrip g b t :
  tier_expressible t -> de_tier b (map_floats g (ser_tier t)) = Some (map_tier g t).
Proof.
  intros [Hp Hb]. pose proof (tier_price_roundtrip g b (price t) Hp) as Hpr.
  change (de_tier b (map_floats g (ser_tier t))) with
    (bound ← de_option de_u64 (map_floats g (ser_option JInt (up_to t)));
     p ← de_tier_price b (map_floats g (ser_tier_price (price t)));
     Some {| up_to := bound; price := p |}).
  assert (Hu : de_option de_u64 (map_floats g (ser_option JInt (up_to t))) = Some (up_to t)).
  { destruct (up_to t) as [n|]; [|done]. cbn. by rewrite (in_u64_bounds n Hb). }
  by rewrite Hu, Hpr.
Qed.

Lemma mapM_fmap_Forall {A B C} (f : B -> option C) (h : A -> B) (k : A -> C) (l : list A) :
  Forall (fun x => f (h x) = Some (k x)) l -> mapM f (h <$> l) = Some (k <$> l).
Proof.
  induction 1 as [|x l Hx _ IH]; [done|]. rewrite !fmap_cons. cbn [mapM]. rewrite Hx. simpl.
  by rewrite IH.
Qed.

Lemma tiers_roundtrip g l :
  Forall tier_expressible l ->
  de_list (de_tier true) (map_floats g (JArr (ser_tier <$> l))) = Some (map_tier g <$> l).
Proof.
  intros Hl. cbn [map_floats de_list]. rewrite <-list_fmap_compose.
  apply mapM_fmap_Forall. eapply Forall_impl; [exact Hl|]. intros t. apply tier_roundtrip.
Qed.

Lemma de_ser_pricing g p :
  expressible p -> de_pricing (map_floats g (ser_pricing p)) = Some (map_prices g p).
Proof.
  destruct p as [[i o cw cr th] c|i o r|x m|d x c|d l c]; cbn [expressible prices]; intros Hp.
  1-3: unfold token_prices in *; cbn [input_per_mtok output_per_mtok cache_write_per_mtok
    cache_read_per_mtok thinking_per_mtok app] in *; decode_fields.
  - change (de_pricing (map_floats g (ser_pricing (PerUnit d x c)))) with
      (d' ← de_dimension true (map_floats g (ser_dimension d));
       x' ← de_f64 (map_floats g (ser_f64 x)); Some (PerUnit d' x' c)).
    rewrite dimension_roundtrip. decode_fields.
  - change (de_pricing (map_floats g (ser_pricing (Tiered d l c)))) with
      (d' ← de_dimension true (map_floats g (ser_dimension d));
       l' ← de_list (de_tier true) (map_floats g (JArr (ser_tier <$> l)));
       Some (Tiered d' l' c)).
    by rewrite dimension_roundtrip, tiers_roundtrip.
Qed.

Lemma ser_f64_writable x : writable (ser_f64 x) = true.
Proof. unfold ser_f64. by destruct (finite x) eqn:Hx. Qed.

Lemma ser_option_writable {A} (ser : A -> jv) o :
  (forall a, o = Some a -> writable (ser a) = true) -> writable (ser_option ser o) = true.
Proof. destruct o; simpl; auto. Qed.

Lemma ser_present_writable {A} k (ser : A -> jv) o :
  (forall a, writable (ser a) = true) ->
  forallb (fun kv => writable kv.2) (ser_present k ser o) = true.
Proof. intros Hs. destruct o; simpl; [|done]. by rewrite Hs. Qed.

#[local] Hint Resolve ser_f64_writable ser_option_writable : core.

Lemma ser_dimension_writable d : writable (ser_dimension d) = true.
Proof. by destruct d as [|[]|[]]. Qed.

Lemma ser_tier_price_writable t : writable (ser_tier_price t) = true.
Proof.
  destruct t as [p|x]; simpl; rewrite ?ser_f64_writable; [|done].
  rewrite !forallb_app, !ser_present_writable; auto.
Qed.

Lemma ser_tier_writable t : tier_expressible t -> writable (ser_tier t) = true.
Proof.
  intros [_ Hb]. unfold ser_tier. cbn [writable forallb snd].
  rewrite ser_tier_price_writable, ser_option_writable; [done|].
  intros n Hn. rewrite Hn in Hb. simpl in *. unfold in_u64 in Hb. apply andb_true_iff.
  rewrite !Z.leb_le. lia.
Qed.

Lemma ser_pricing_writable p : expressible p -> writable (ser_pricing p) = true.
Proof.
  destruct p as [t c|i o r|x m|d x c|d l c]; cbn [expressible ser_pricing ser_tagged writable
    forallb snd]; intros Hp; rewrite ?ser_dimension_writable, ?ser_f64_writable,
    ?(ser_option_writable ser_f64) by auto; try done.
  rewrite andb_true_r. apply forallb_forall. intros v Hv.
  apply list_elem_of_In, list_elem_of_fmap in Hv as (t & -> & Ht).
  apply ser_tier_writable. by eapply Forall_forall in Ht; [|exact Hp].
Qed.

(** What is printed of a price formula parses as the formula again, with the
    prices as their texts are read. *)
Lemma print_parse_pricing `{JsonTextLaws reread} p :
  expressible p ->
  exists t, print_pricing p = Some t /\ parse_pricing t = Ok (map_prices reread p).
Proof.
  intros Hp. destruct (read_write (ser_pricing p) (ser_pricing_writable p Hp)) as (t & Hw & Hr).
  exists t. split; [exact Hw|]. cbn [parse_pricing derived_pricing]. unfold from_str.
  rewrite Hr. simpl. by rewrite de_ser_pricing.
Qed.

Lemma map_prices_id g p : Forall (fun x => g x = x) (prices p) -> map_prices g p = p.
Proof.
  assert (Ho : forall o, Forall (fun x => g x = x) (option_list o) -> g <$> o = o).
  { intros [y|] Hy; [|done]. simpl. f_equal. by inversion Hy. }
  assert (Ht : forall t, Forall (fun x => g x = x) (token_prices t) -> map_token_prices g t = t).
  { intros [i o cw cr th]. unfold token_prices, map_token_prices. simpl.
    rewrite !Forall_cons, !Forall_app. intros (Hi & Hout & Hcw & Hcr & Hth).
    by rewrite Hi, Hout, !Ho. }
  destruct p as [t c|i o r|x m|d x c|d l c]; cbn [prices map_prices];
    rewrite ?Forall_cons, ?Forall_app.
  - intros Hp. by rewrite Ht.
  - intros (Hi & Hou & Hr). by rewrite !Ho.
  - intros [Hx Hm]. by rewrite Hx, Ho.
  - intros [Hx _]. by rewrite Hx.
  - intros Hp. f_equal. apply Forall_concat in Hp. rewrite Forall_fmap in Hp.
    induction Hp as [|[b [q|x]] l Hq _ IH]; [done|..]; rewrite fmap_cons, IH; f_equal;
      unfold map_tier; simpl in *; unfold tier_prices in Hq; simpl in Hq.
    + by rewrite Ht.
    + f_equal. f_equal. by inversion Hq.
Qed.

Lemma protocol_entry_roundtrip p : de_protocol_entry (ser_protocol_entry p) = Some p.
Proof. by destruct p as [? ? []]. Qed.

Lemma de_int_in lo hi n : lo <= n <= hi -> de_int lo hi (JInt n) = Some n.
Proof. intros [H1%Z.leb_le H2%Z.leb_le]. unfold de_int. by rewrite H1, H2. Qed.

#[local] Arguments de_int : simpl never.

(** A channel whose numbers have the widths of their types is what its JSON form
    is read as, the key included. *)
Lemma channel_roundtrip c :
  in_i64 (ch_created_at c) -> in_i64 (ch_updated_at c) -> in_u32 (ch_consecutive_failures c) ->
  from_option in_u64 True (ch_monthly_quota c) -> in_u32 (ch_priority c) ->
  de_channel (ser_channel c) = Some c.
Proof.
  destruct c as [? ? ? ? ? ? ? ct ut ? cu fl ? q ? pr fo]. simpl. intros Hc Hu Hf Hq Hp.
  destruct cu, q, fo; cbn; unfold de_i64, de_u32, de_u64;
    rewrite (de_int_in _ _ ct Hc), (de_int_in _ _ ut Hu); cbn;
    rewrite (de_int_in _ _ fl Hf); cbn; rewrite ?(de_int_in _ _ _ Hq); cbn;
    by rewrite (de_int_in _ _ pr Hp).
Qed.

(** A flat-fee configuration that cannot be read counts as an empty one: with the
    tag of the quota, or the name of its limit, mistyped there is no quota. *)
Lemma mistyped_quota_unlimited `{JsonText} t :
  parse_flat_fee t = None -> from_storage "flatfee" t = Ok (FlatFee None None FallbackToMetered).
Proof. intros Ht. unfold from_storage. simpl in *. by rewrite Ht. Qed.

Definition quota_of_month (tag limit : string) : jv :=
  JObj [("quota", JObj [(tag, JObj [(limit, JInt 5)])]); ("on_exhausted", JStr "block")].

Example quotas_read :
  [de_flat_fee (quota_of_month "MaxRequests" "per_month");
   de_flat_fee (quota_of_month "MaxRequests" "perMonth");
   de_flat_fee (quota_of_month "max_requests" "per_month")] =
  [Some {| ffc_monthly_cost_hint := None; ffc_quota := Some (MaxRequests 5);
           ffc_on_exhausted := Some Block |}; None; None].
Proof. reflexivity. Qed.

(** ** A concrete text form, for the examples *)

Lemma map_floats_id v : map_floats id v = v.
Proof.
  induction v as [| | | | |l IH|l IH] using jv_nested_ind; try done; cbn [map_floats]; f_equal.
  - rewrite <-(list_fmap_id l) at 2. by apply Forall_fmap_ext.
  - rewrite <-(list_fmap_id l) at 2. apply Forall_fmap_ext. eapply Forall_impl; [exact IH|].
    intros [k v] Hv. simpl in *. by rewrite Hv.
Qed.

Module SampleText.
#[local] Instance text : JsonText := {|
  read_json := parse;
  write_json v := Some (print v);
  shape_error _ := "invalid type"
|}.

Lemma text_laws : JsonTextLaws id.
Proof.
  split.
  - intros v _. exists (print v). split; [done|]. cbn [read_json text].
    by rewrite parse_print, map_floats_id.
  - apply parse_returns.
Qed.
End SampleText.
