(* ===== verification/Auditing.v ===== *)
(** What a row of the table of costs says by itself: the snapshot of prices stored
    with it, the tokens and the cost agree. *)

From stdpp Require Import gmap.
From S2P Require Import Prelude RustStr Float64 Json Http Billing Types Middleware Storage.
From S2P Require Import Router Bridge Compress Report Cost Auth Server Sqlite Seed Probe.
From S2P Require Import AdminAuth Admin AdminAnswers Main System Serving Ledger Serde.
Local Open Scope Z_scope.

(** The usage the columns of a row state. *)
Definition row_usage (r : CostRecord) : Usage :=
  {| input_tokens := cr_input_tokens r; output_tokens := cr_output_tokens r;
     cache_write_tokens := cr_cache_write_tokens r; cache_read_tokens := cr_cache_read_tokens r;
     thinking_tokens := cr_thinking_tokens r |}.

Lemma u64_as_i64_nonneg n : in_u64 n -> 0 <= u64_as_i64 n -> u64_as_i64 n = n.
Proof. unfold u64_as_i64, in_u64, u64_max. destruct (Z.ltb_spec n (2 ^ 63)); lia. Qed.

(** Columns that hold no negative number hold the counters of the response. *)
Lemma row_usage_exact r u :
  usage_ok u -> row_tokens r = u64_as_i64 <$> usage_tokens u ->
  Forall (fun n => 0 <= n) (row_tokens r) -> row_usage r = u.
Proof.
  destruct u as [i o cw cr th]. unfold usage_ok, usage_tokens, row_tokens, row_usage. csimpl.
  intros (Hi & Ho & Hcw & Hcr & Hth) [= Ei Eo Ecw Ecr Eth].
  rewrite Ei, Eo, Ecw, Ecr, Eth, !Forall_cons. intros (? & ? & ? & ? & ? & _).
  by rewrite !u64_as_i64_nonneg.
Qed.

Section Rows.
(** Prices and columns are read and written by the derived codecs. *)
#[local] Existing Instance derived_pricing | 0.
#[local] Existing Instance derived_columns | 0.
Context `{SerdeJson, !SerdeJsonLaws _} `{JsonTextLaws reread}.
Context {N : Type}.
Context (debug_strings : list string -> string) (json_error : string -> string).
Context (json_into_response : Value -> HttpResponse) (fmt_f64 : nat -> f64 -> string).
Context (parse_report : string -> option ProxyReport).
Context (parse_header : string -> option TokenlessHeader).
Context (status_response : StatusCode -> HttpResponse).
Context (body_limit : Z -> HttpRequest -> Res HttpResponse HttpRequest).
Context (admin_limit : Z -> HttpRequest -> Res StatusCode HttpRequest).
Context (x : Extractors) (naive_min : Z) (src : Sources).
Context (reply_response : Reply -> HttpResponse).
Context (aliases : gmap string string) (sv : Running (N := N)).

(** The row of a bill by mapping [m]. *)
Definition auditable (m : ResolvedMapping) (r : CostRecord) : Prop :=
  match rm_billing m with
  | FlatFee _ _ _ =>
      cr_pricing_snapshot_json r = flat_fee_snapshot /\ (cr_cost r, cr_unit r) = (f64_zero, "USD")
  | Metered p =>
      expressible p ->
      from_str de_pricing (cr_pricing_snapshot_json r) = Ok (map_prices reread p) /\
      (Forall (fun x => reread x = x) (prices p) -> Forall (fun n => 0 <= n) (row_tokens r) ->
       calc_cost (row_usage r) (map_prices reread p) = (cr_cost r, cr_unit r))
  end.

End Rows.

(** ** Witness: two requests to a metered channel with a price that has cents *)

Module SampleAudit.
#[local] Existing Instances Model.json SampleTools.compressor Tagged.bridge SampleText.text.
#[local] Existing Instance derived_pricing | 0.
#[local] Existing Instance derived_columns | 0.

(** 3 a million tokens in, 15 out, and a quarter for those read from the cache. *)
Definition formula : Pricing :=
  PerToken {| input_per_mtok := f64_of_int 3; output_per_mtok := f64_of_int 15;
              cache_write_per_mtok := None; cache_read_per_mtok := Some (f64_lit 1 (-2));
              thinking_per_mtok := None |} "USD".

Definition metered : ResolvedMapping :=
  {| rm_mapping_id := "m"; rm_client_name := "sonnet"; rm_upstream_name := "up";
     rm_billing := Metered formula; rm_allowed_protocols := [] |}.

Definition server : Running (N := nat) := {|
  sv_proxy := {|
    ps_config := main_config None None;
    ps_middlewares := [compress_part; ModelAliasMiddleware SampleServing.aliases;
                       router_part SampleMain.no_strings; BridgeMiddleware];
    ps_client := upstream SampleServing.client;
    ps_cost_recorder := Some cost_middleware |};
  sv_admin_key := resolve_admin_key_with (fun _ => None) (fun _ => 0)
|}.

Lemma server_built : built_with SampleMain.no_strings SampleServing.client SampleServing.aliases server.
Proof. split; [reflexivity|split; reflexivity]. Qed.

Definition router : Router :=
  {| channels := [Sample.channel "c" "Main" "k" metered];
     health := ∅; quota_usage := ∅; channel_api_keys := ∅ |}.

Definition start : Shared (W := World nat) := SampleMain.shared
  {| w_db := empty_db; w_router := router;
     w_compress := {| enabled := true; response_stats := None |}; w_net := 0%nat;
     w_moment := SampleMain.moment |}.

Definition visits : list Visit := [SampleLedger.asks "1" "fast"; SampleLedger.asks "2" "sonnet"].

Definition served : Shared (W := World nat) :=
  traffic SampleMain.no_strings id SampleServer.json_into (fun _ _ => EmptyString) (fun _ => None)
    (fun _ => None) SampleServer.status_only SampleServing.limit (fun _ q => Ok q)
    (SampleServing.extractors 1) (-8334601228800) SampleMain.sources SampleMain.reply
    server visits start.

Lemma audit_visits_fresh : fresh_visits visits start.
Proof.
  split; [|split].
  - by repeat (intros v [->|Hv]%elem_of_cons; [done|]; revert v Hv); intros v ?%elem_of_nil.
  - apply (bool_decide_unpack _). by vm_compute.
  - by intros r v ?%elem_of_nil.
Qed.
End SampleAudit.

