(* ===== verification/Sha256.v ===== *)
(** SHA-256 (FIPS 180-4) on strings of bytes, in lower-case hexadecimal.  It stands
    for the crate [sha2] where the hash of a concrete file is computed. *)

From Stdlib Require Import Ascii NArith.
From S2P Require Import Prelude.
Local Open Scope N_scope.

(** ** Words of 32 bits *)

Definition mask : N := 4294967295.
Definition add32 (a b : N) : N := N.land (a + b) mask.
Definition rotr (n x : N) : N := N.lor (N.shiftr x n) (N.land (N.shiftl x (32 - n)) mask).
Definition xor3 (a b c : N) : N := N.lxor a (N.lxor b c).
Definition not32 (a : N) : N := N.lxor a mask.

(** The constants are the first 32 bits of the fractional parts of cube and square
    roots of primes; a root is found bit by bit. *)
Fixpoint root (bits : nat) (power target r : N) : N :=
  match bits with
  | O => r
  | S n =>
      let r' := r + 2 ^ N.of_nat n in
      root n power target (if r' ^ power <=? target then r' else r)
  end.

Definition is_prime (n : nat) : bool :=
  forallb (fun d => negb (n mod d =? 0)%nat) (seq 2 (n - 2)).

Definition fraction (power : N) (p : nat) : N :=
  N.land (root 40 power (N.of_nat p * 2 ^ (32 * power)) 0) mask.

Definition k : list N :=
  Eval vm_compute in fraction 3 <$> List.filter is_prime (seq 2 310).

(** The initial hash. *)
Definition h0 : list N :=
  Eval vm_compute in fraction 2 <$> List.filter is_prime (seq 2 18).

(** The words of the schedule from the last sixteen, newest first. *)
Definition next_word (w : list N) : N :=
  match w with
  | [_; w2; _; _; _; _; w7; _; _; _; _; _; _; _; w15; w16] =>
      add32 (add32 (xor3 (rotr 17 w2) (rotr 19 w2) (N.shiftr w2 10)) w7)
            (add32 (xor3 (rotr 7 w15) (rotr 18 w15) (N.shiftr w15 3)) w16)
  | _ => 0
  end.

Definition round (st : list N) (kw : N) : list N :=
  match st with
  | [a; b; c; d; e; f; g; h] =>
      let t1 := add32 (add32 h (xor3 (rotr 6 e) (rotr 11 e) (rotr 25 e)))
                      (add32 (N.lxor (N.land e f) (N.land (not32 e) g)) kw) in
      let t2 := add32 (xor3 (rotr 2 a) (rotr 13 a) (rotr 22 a))
                      (xor3 (N.land a b) (N.land a c) (N.land b c)) in
      [add32 t1 t2; a; b; c; add32 d t1; e; f; g]
  | _ => st
  end.

(** [ws]: words still to come of the block; [w]: the last sixteen, newest first. *)
Fixpoint rounds (ks : list N) (ws w : list N) (st : list N) : list N :=
  match ks with
  | [] => st
  | kt :: ks =>
      match ws with
      | x :: ws => rounds ks ws (x :: w) (round st (add32 kt x))
      | [] => let x := next_word w in
              rounds ks [] (x :: take 15 w) (round st (add32 kt x))
      end
  end.

Definition compress (st block : list N) : list N :=
  zip_with add32 st (rounds k block [] st).

Definition bytes_of (s : string) : list N := N_of_ascii <$> String.list_ascii_of_string s.

Fixpoint words (l : list N) : list N :=
  match l with
  | a :: b :: c :: d :: l => N.lor (N.shiftl a 24) (N.lor (N.shiftl b 16) (N.lor (N.shiftl c 8) d)) :: words l
  | _ => []
  end.

(** A one bit, zeros, and the length in bits: [119 - n] zeros modulo 64 complete the
    last block. *)
Definition padded (s : string) : list N :=
  let n := N.of_nat (String.length s) in
  let zeros := N.to_nat ((119 - n mod 64) mod 64) in
  words (bytes_of s ++ [128] ++ repeat 0 zeros ++ [0;0;0;0])
  ++ [N.land (8 * n) mask].

(** [fuel]: one block takes sixteen words; the bytes and one block are enough. *)
Fixpoint blocks (fuel : nat) (ws st : list N) : list N :=
  match fuel, ws with
  | S f, _ :: _ => blocks f (drop 16 ws) (compress st (take 16 ws))
  | _, _ => st
  end.

Definition hex_char (n : N) : ascii := ascii_of_N (if n <? 10 then 48 + n else 87 + n).
Fixpoint hex_word (digits : nat) (n : N) (acc : string) : string :=
  match digits with
  | O => acc
  | S m => hex_word m (N.shiftr n 4) (String (hex_char (N.land n 15)) acc)
  end.
Definition hex (s : string) : string :=
  String.concat EmptyString ((fun w => hex_word 8 w EmptyString) <$> blocks (String.length s + 2) (padded s) h0).

Example hex_abc :
  hex "abc" = "ba7816bf8f01cfea414140de5dae2223b00361a396177a9cb410ff61f20015ad".
Proof. vm_compute. reflexivity. Qed.

(** Two blocks. *)
Example hex_two_blocks :
  hex "abcdbcdecdefdefgefghfghighijhijkijkljklmklmnlmnomnopnopq" =
    "248d6a61d20638b8e5c026930c3e6039a33ce45964ff2167f6ecedd419db06c1".
Proof. vm_compute. reflexivity. Qed.
