(* ===== verification/SeedFiles.v ===== *)
(** The seed data the program ships with: the five files of
    [crates/storage-sqlite/seed] as they are embedded at compile time, the
    decoders serde derives for their rows, and what a server started on them
    serves. *)

From Stdlib Require Import Ascii.
From S2P Require Import Prelude RustStr Float64 Json Http Billing Types Middleware Storage.
From S2P Require Import Router Server Sqlite Seed JsonReader Serde Sha256.
Import Model.
Local Open Scope Z_scope.

(** ** Derived decoders of the seed files *)

Definition default_true : bool := true.
Definition default_metered : string := "metered".
Definition default_fallback : string := "fallback".
Definition default_hundred : Z := 100.
Definition default_empty_array : string := "[]".

Definition de_seed_provider : Decoder SeedProvider := fun v =>
  fs ← as_fields v;
  id ← required de_string 0 "id" fs;
  name ← required de_string 1 "name" fs;
  created ← defaulted 0 de_i64 2 "created_at" fs;
  _ ← fields_end 3 fs;
  Some {| sp_id := id; sp_name := name; sp_created_at := created |}.

Definition de_seed_model : Decoder SeedModel := fun v =>
  fs ← as_fields v;
  id ← required de_string 0 "id" fs;
  provider ← required de_string 1 "provider_id" fs;
  name ← required de_string 2 "client_name" fs;
  input ← defaulted f64_zero de_f64 3 "price_input" fs;
  output ← defaulted f64_zero de_f64 4 "price_output" fs;
  currency ← defaulted default_currency de_string 5 "currency" fs;
  window ← defaulted 0 de_i64 6 "context_window" fs;
  created ← defaulted 0 de_i64 7 "created_at" fs;
  _ ← fields_end 8 fs;
  Some {| sd_id := id; sd_provider_id := provider; sd_client_name := name;
          sd_price_input := input; sd_price_output := output; sd_currency := currency;
          sd_context_window := window; sd_created_at := created |}.

Definition de_seed_channel : Decoder SeedChannel := fun v =>
  fs ← as_fields v;
  id ← required de_string 0 "id" fs;
  name ← required de_string 1 "name" fs;
  key ← defaulted EmptyString de_string 2 "api_key" fs;
  protocol ← required de_string 3 "protocol" fs;
  protocols ← defaulted default_empty_array de_string 4 "protocols" fs;
  builtin ← defaulted false de_bool 5 "is_builtin" fs;
  enabled ← defaulted default_true de_bool 6 "enabled" fs;
  billing ← defaulted default_metered de_string 7 "billing_type" fs;
  quota ← defaulted None (de_option de_u64) 8 "monthly_quota" fs;
  policy ← defaulted default_fallback de_string 9 "quota_policy" fs;
  priority ← defaulted 0 de_u32 10 "priority" fs;
  _ ← fields_end 11 fs;
  Some {| sc_id := id; sc_name := name; sc_api_key := key; sc_protocol := protocol;
          sc_protocols := protocols; sc_is_builtin := builtin; sc_enabled := enabled;
          sc_billing_type := billing; sc_monthly_quota := quota; sc_quota_policy := policy;
          sc_priority := priority |}.

Definition de_seed_mapping : Decoder SeedModelMapping := fun v =>
  fs ← as_fields v;
  id ← required de_string 0 "id" fs;
  channel ← required de_string 1 "channel_id" fs;
  client ← required de_string 2 "client_name" fs;
  upstream ← required de_string 3 "upstream_name" fs;
  billing ← defaulted default_metered de_string 4 "billing" fs;
  pricing ← defaulted EmptyString de_string 5 "pricing_json" fs;
  weight ← defaulted default_hundred de_u32 6 "weight" fs;
  enabled ← defaulted default_true de_bool 7 "enabled" fs;
  protocols ← defaulted default_empty_array de_string 8 "protocols" fs;
  _ ← fields_end 9 fs;
  Some {| mm_id := id; mm_channel_id := channel; mm_client_name := client;
          mm_upstream_name := upstream; mm_billing := billing; mm_pricing_json := pricing;
          mm_weight := weight; mm_enabled := enabled; mm_protocols := protocols |}.

Definition de_manifest_entry : Decoder SeedManifestEntry := fun v =>
  fs ← as_fields v;
  file ← required de_string 0 "file" fs;
  hash ← required de_string 1 "sha256" fs;
  _ ← fields_end 2 fs;
  Some {| sm_file := file; sm_sha256 := hash |}.

(** A [HashMap]: of an entry that comes twice the last one stays. *)
Definition de_map {A} (d : Decoder A) : Decoder (list (string * A)) := fun v =>
  match v with
  | JObj l =>
      foldl (fun acc kv => m ← acc; a ← d kv.2;
               Some (List.filter (fun x => negb (String.eqb x.1 kv.1)) m ++ [(kv.1, a)]))
        (Some []) l
  | _ => None
  end.

Definition de_manifest : Decoder SeedManifest := fun v =>
  fs ← as_fields v;
  version ← required de_u32 0 "version" fs;
  schema ← required de_u32 1 "minSchemaVersion" fs;
  updated ← required de_string 2 "updatedAt" fs;
  entries ← required (de_map de_manifest_entry) 3 "entries" fs;
  _ ← fields_end 4 fs;
  Some {| sm_version := version; sm_min_schema_version := schema; sm_updated_at := updated;
          sm_entries := entries |}.

(** ** The embedded files

    An apostrophe stands for a quote; the files have no apostrophes. *)

Definition EMBEDDED_PROVIDERS : string := quotes "[
  {'id': 'anthropic',        'name': 'Anthropic',            'created_at': 0},
  {'id': 'google',           'name': 'Google (Gemini)',      'created_at': 0},
  {'id': 'openai',           'name': 'OpenAI',               'created_at': 0},
  {'id': 'deepseek',         'name': 'DeepSeek',             'created_at': 0},
  {'id': 'alibaba-bailian',  'name': 'Alibaba Bailian',      'created_at': 0},
  {'id': 'moonshot',         'name': 'Moonshot (Kimi)',      'created_at': 0},
  {'id': 'zhipu',            'name': 'Zhipu AI',             'created_at': 0},
  {'id': 'minimax',          'name': 'MiniMax',              'created_at': 0},
  {'id': 'xiaomi-mimo',       'name': 'xiaomi-mimo',         'created_at': 0},
  {'id': 'longcat',           'name': 'LongCat',              'created_at': 0}
]
".

Definition EMBEDDED_MODELS : string := quotes "[
  {
    'id': 'deepseek:deepseek-v4-flash',
    'provider_id': 'deepseek',
    'client_name': 'deepseek-v4-flash',
    'price_input': 1.0,
    'price_output': 2.0,
    'currency': 'CNY',
    'context_window': 1000000,
    'created_at': 0
  },
  {
    'id': 'deepseek:deepseek-v4-pro',
    'provider_id': 'deepseek',
    'client_name': 'deepseek-v4-pro',
    'price_input': 3.0,
    'price_output': 6.0,
    'currency': 'CNY',
    'context_window': 1000000,
    'created_at': 0
  },
  {
    'id': 'alibaba-bailian:qwen3.7-max',
    'provider_id': 'alibaba-bailian',
    'client_name': 'qwen3.7-max',
    'price_input': 6.0,
    'price_output': 18.0,
    'currency': 'CNY',
    'context_window': 256000,
    'created_at': 0
  },
  {
    'id': 'alibaba-bailian:qwen3.7-plus',
    'provider_id': 'alibaba-bailian',
    'client_name': 'qwen3.7-plus',
    'price_input': 1.6,
    'price_output': 6.4,
    'currency': 'CNY',
    'context_window': 256000,
    'created_at': 0
  },
  {
    'id': 'alibaba-bailian:qwen3.6-max',
    'provider_id': 'alibaba-bailian',
    'client_name': 'qwen3.6-max',
    'price_input': 9.0,
    'price_output': 54.0,
    'currency': 'CNY',
    'context_window': 256000,
    'created_at': 0
  },
  {
    'id': 'alibaba-bailian:qwen3.6-plus',
    'provider_id': 'alibaba-bailian',
    'client_name': 'qwen3.6-plus',
    'price_input': 2.0,
    'price_output': 12.0,
    'currency': 'CNY',
    'context_window': 1000000,
    'created_at': 0
  },
  {
    'id': 'alibaba-bailian:qwen3.6-flash',
    'provider_id': 'alibaba-bailian',
    'client_name': 'qwen3.6-flash',
    'price_input': 1.2,
    'price_output': 7.2,
    'currency': 'CNY',
    'context_window': 1000000,
    'created_at': 0
  },
  {
    'id': 'alibaba-bailian:qwen3.5-plus',
    'provider_id': 'alibaba-bailian',
    'client_name': 'qwen3.5-plus',
    'price_input': 0.8,
    'price_output': 4.8,
    'currency': 'CNY',
    'context_window': 1000000,
    'created_at': 0
  },
  {
    'id': 'alibaba-bailian:qwen3.5-flash',
    'provider_id': 'alibaba-bailian',
    'client_name': 'qwen3.5-flash',
    'price_input': 0.2,
    'price_output': 2.0,
    'currency': 'CNY',
    'context_window': 1000000,
    'created_at': 0
  },
  {
    'id': 'zhipu:glm-5.1',
    'provider_id': 'zhipu',
    'client_name': 'glm-5.1',
    'price_input': 6.0,
    'price_output': 24.0,
    'currency': 'CNY',
    'context_window': 200000,
    'created_at': 0
  },
  {
    'id': 'zhipu:glm-5-turbo',
    'provider_id': 'zhipu',
    'client_name': 'glm-5-turbo',
    'price_input': 5.0,
    'price_output': 22.0,
    'currency': 'CNY',
    'context_window': 200000,
    'created_at': 0
  },
  {
    'id': 'zhipu:glm-5',
    'provider_id': 'zhipu',
    'client_name': 'glm-5',
    'price_input': 4.0,
    'price_output': 18.0,
    'currency': 'CNY',
    'context_window': 200000,
    'created_at': 0
  },
  {
    'id': 'zhipu:glm-4.7-flash',
    'provider_id': 'zhipu',
    'client_name': 'glm-4.7-flash',
    'price_input': 0.0,
    'price_output': 0.0,
    'currency': 'CNY',
    'context_window': 200000,
    'created_at': 0
  },
  {
    'id': 'moonshot:kimi-k2.6',
    'provider_id': 'moonshot',
    'client_name': 'kimi-k2.6',
    'price_input': 6.5,
    'price_output': 27.0,
    'currency': 'CNY',
    'context_window': 256000,
    'created_at': 0
  },
  {
    'id': 'moonshot:kimi-k2.5',
    'provider_id': 'moonshot',
    'client_name': 'kimi-k2.5',
    'price_input': 4.0,
    'price_output': 21.0,
    'currency': 'CNY',
    'context_window': 256000,
    'created_at': 0
  },
  {
    'id': 'minimax:minimax-m2.7',
    'provider_id': 'minimax',
    'client_name': 'minimax-m2.7',
    'price_input': 2.1,
    'price_output': 8.4,
    'currency': 'CNY',
    'context_window': 256000,
    'created_at': 0
  },
  {
    'id': 'anthropic:claude-opus-4-8',
    'provider_id': 'anthropic',
    'client_name': 'claude-opus-4-8',
    'price_input': 5.0,
    'price_output': 25.0,
    'currency': 'USD',
    'context_window': 200000,
    'created_at': 0
  },
  {
    'id': 'anthropic:claude-opus-4-7',
    'provider_id': 'anthropic',
    'client_name': 'claude-opus-4-7',
    'price_input': 5.0,
    'price_output': 25.0,
    'currency': 'USD',
    'context_window': 200000,
    'created_at': 0
  },
  {
    'id': 'anthropic:claude-opus-4-6',
    'provider_id': 'anthropic',
    'client_name': 'claude-opus-4-6',
    'price_input': 15.0,
    'price_output': 75.0,
    'currency': 'USD',
    'context_window': 200000,
    'created_at': 0
  },
  {
    'id': 'anthropic:claude-opus-4-5-reverse',
    'provider_id': 'anthropic',
    'client_name': 'claude-opus-4-5-reverse',
    'price_input': 15.0,
    'price_output': 75.0,
    'currency': 'USD',
    'context_window': 200000,
    'created_at': 0
  },
  {
    'id': 'anthropic:claude-sonnet-4-6',
    'provider_id': 'anthropic',
    'client_name': 'claude-sonnet-4-6',
    'price_input': 3.0,
    'price_output': 15.0,
    'currency': 'USD',
    'context_window': 200000,
    'created_at': 0
  },
  {
    'id': 'anthropic:claude-sonnet-4-5',
    'provider_id': 'anthropic',
    'client_name': 'claude-sonnet-4-5',
    'price_input': 3.0,
    'price_output': 15.0,
    'currency': 'USD',
    'context_window': 200000,
    'created_at': 0
  },
  {
    'id': 'anthropic:claude-sonnet-4-5-reverse',
    'provider_id': 'anthropic',
    'client_name': 'claude-sonnet-4-5-reverse',
    'price_input': 3.0,
    'price_output': 15.0,
    'currency': 'USD',
    'context_window': 200000,
    'created_at': 0
  },
  {
    'id': 'openai:gpt-5.5',
    'provider_id': 'openai',
    'client_name': 'gpt-5.5',
    'price_input': 5.0,
    'price_output': 30.0,
    'currency': 'USD',
    'context_window': 400000,
    'created_at': 0
  },
  {
    'id': 'openai:gpt-5.4',
    'provider_id': 'openai',
    'client_name': 'gpt-5.4',
    'price_input': 2.5,
    'price_output': 15.0,
    'currency': 'USD',
    'context_window': 256000,
    'created_at': 0
  },
  {
    'id': 'openai:gpt-5.4-mini',
    'provider_id': 'openai',
    'client_name': 'gpt-5.4-mini',
    'price_input': 0.6,
    'price_output': 2.4,
    'currency': 'USD',
    'context_window': 256000,
    'created_at': 0
  },
  {
    'id': 'openai:gpt-5.3-codex',
    'provider_id': 'openai',
    'client_name': 'gpt-5.3-codex',
    'price_input': 3.0,
    'price_output': 20.0,
    'currency': 'USD',
    'context_window': 256000,
    'created_at': 0
  },
  {
    'id': 'openai:gpt-5.2',
    'provider_id': 'openai',
    'client_name': 'gpt-5.2',
    'price_input': 1.75,
    'price_output': 14.0,
    'currency': 'USD',
    'context_window': 256000,
    'created_at': 0
  },
  {
    'id': 'openai:gpt-5.2-chat',
    'provider_id': 'openai',
    'client_name': 'gpt-5.2-chat',
    'price_input': 1.25,
    'price_output': 10.0,
    'currency': 'USD',
    'context_window': 256000,
    'created_at': 0
  },
  {
    'id': 'openai:gpt-5.2-codex',
    'provider_id': 'openai',
    'client_name': 'gpt-5.2-codex',
    'price_input': 1.25,
    'price_output': 10.0,
    'currency': 'USD',
    'context_window': 256000,
    'created_at': 0
  },
  {
    'id': 'deepseek:deepseek-v3.1',
    'provider_id': 'deepseek',
    'client_name': 'deepseek-v3.1',
    'price_input': 2.0,
    'price_output': 8.0,
    'currency': 'CNY',
    'context_window': 1000000,
    'created_at': 0
  },
  {
    'id': 'deepseek:deepseek-v3.2',
    'provider_id': 'deepseek',
    'client_name': 'deepseek-v3.2',
    'price_input': 2.0,
    'price_output': 8.0,
    'currency': 'CNY',
    'context_window': 1000000,
    'created_at': 0
  },
  {
    'id': 'minimax:minimax-m2.5',
    'provider_id': 'minimax',
    'client_name': 'minimax-m2.5',
    'price_input': 1.5,
    'price_output': 6.0,
    'currency': 'CNY',
    'context_window': 256000,
    'created_at': 0
  },
  {
    'id': 'zhipu:glm-5v-turbo',
    'provider_id': 'zhipu',
    'client_name': 'glm-5v-turbo',
    'price_input': 5.0,
    'price_output': 20.0,
    'currency': 'CNY',
    'context_window': 200000,
    'created_at': 0
  },
  {
    'id': 'xiaomi-mimo:mimo-v2.5',
    'provider_id': 'xiaomi-mimo',
    'client_name': 'mimo-v2.5',
    'price_input': 1.0,
    'price_output': 2.0,
    'currency': 'CNY',
    'context_window': 1000000,
    'created_at': 0
  },
  {
    'id': 'xiaomi-mimo:mimo-v2.5-pro',
    'provider_id': 'xiaomi-mimo',
    'client_name': 'mimo-v2.5-pro',
    'price_input': 1.0,
    'price_output': 6.0,
    'currency': 'CNY',
    'context_window': 1000000,
    'created_at': 0
  },
  {
    'id': 'longcat:longcat-2.0',
    'provider_id': 'longcat',
    'client_name': 'longcat-2.0',
    'price_input': 2.0,
    'price_output': 8.0,
    'currency': 'CNY',
    'context_window': 1000000,
    'created_at': 0
  }
]
".

Definition EMBEDDED_CHANNELS : string := quotes "[
  {
    'id': 'tokenfleet-ai',
    'name': 'TokenFleet AI',
    'api_key': '',
    'protocol': 'anthropic_messages',
    'protocols': '[{\'protocol\':\'anthropic_messages\',\'baseUrl\':\'https://tokenfleet.ai\'},{\'protocol\':\'openai_chat\',\'baseUrl\':\'https://tokenfleet.ai\'},{\'protocol\':\'openai_responses\',\'baseUrl\':\'https://tokenfleet.ai\'}]',
    'is_builtin': true,
    'enabled': true,
    'billing_type': 'metered',
    'monthly_quota': null,
    'quota_policy': 'fallback',
    'priority': 1
  },
  {
    'id': 'tokenfleet-cn',
    'name': 'TokenFleet CN',
    'api_key': '',
    'protocol': 'openai_responses',
    'protocols': '[{\'protocol\':\'openai_responses\',\'baseUrl\':\'https://tokenfleet.cn\'},{\'protocol\':\'openai_chat\',\'baseUrl\':\'https://tokenfleet.cn\'}]',
    'is_builtin': true,
    'enabled': true,
    'billing_type': 'metered',
    'monthly_quota': null,
    'quota_policy': 'fallback',
    'priority': 2
  },
  {
    'id': 'dashscope-coding',
    'name': 'DashScope Coding Plan',
    'api_key': '',
    'protocol': 'openai_chat',
    'protocols': '[{\'protocol\':\'openai_chat\',\'baseUrl\':\'https://coding.dashscope.aliyuncs.com\'},{\'protocol\':\'anthropic_messages\',\'baseUrl\':\'https://coding.dashscope.aliyuncs.com/apps/anthropic\'}]',
    'is_builtin': true,
    'enabled': true,
    'billing_type': 'metered',
    'monthly_quota': null,
    'quota_policy': 'fallback',
    'priority': 10
  },
  {
    'id': 'dashscope-payg',
    'name': 'DashScope Pay-as-you-go',
    'api_key': '',
    'protocol': 'openai_chat',
    'protocols': '[{\'protocol\':\'openai_chat\',\'baseUrl\':\'https://dashscope.aliyuncs.com\',\'rewritePath\':\'/compatible-mode/v1\'},{\'protocol\':\'anthropic_messages\',\'baseUrl\':\'https://dashscope.aliyuncs.com\',\'rewritePath\':\'/apps/anthropic\'}]',
    'is_builtin': true,
    'enabled': true,
    'billing_type': 'metered',
    'monthly_quota': null,
    'quota_policy': 'fallback',
    'priority': 10
  },
  {
    'id': 'dashscope-token',
    'name': 'DashScope Token Plan',
    'api_key': '',
    'protocol': 'openai_chat',
    'protocols': '[{\'protocol\':\'openai_chat\',\'baseUrl\':\'https://token-plan.cn-beijing.maas.aliyuncs.com\',\'rewritePath\':\'/compatible-mode/v1/chat/completions\'},{\'protocol\':\'anthropic_messages\',\'baseUrl\':\'https://token-plan.cn-beijing.maas.aliyuncs.com/apps/anthropic\',\'rewritePath\':\'\'}]',
    'is_builtin': true,
    'enabled': true,
    'billing_type': 'metered',
    'monthly_quota': null,
    'quota_policy': 'fallback',
    'priority': 10
  },
  {
    'id': 'deepseek',
    'name': 'DeepSeek Official',
    'api_key': '',
    'protocol': 'anthropic_messages',
    'protocols': '[{\'protocol\':\'openai_chat\',\'baseUrl\':\'https://api.deepseek.com\',\'rewritePath\':\'/chat/completions\'},{\'protocol\':\'anthropic_messages\',\'baseUrl\':\'https://api.deepseek.com/anthropic\',\'rewritePath\':\'\'}]',
    'is_builtin': true,
    'enabled': true,
    'billing_type': 'metered',
    'monthly_quota': null,
    'quota_policy': 'fallback',
    'priority': 10
  },
  {
    'id': 'glm-official',
    'name': 'Zhipu GLM Official',
    'api_key': '',
    'protocol': 'openai_chat',
    'protocols': '[{\'protocol\':\'openai_chat\',\'baseUrl\':\'https://open.bigmodel.cn\',\'rewritePath\':\'/api/paas/v4\'}]',
    'is_builtin': true,
    'enabled': true,
    'billing_type': 'metered',
    'monthly_quota': null,
    'quota_policy': 'fallback',
    'priority': 10
  },
  {
    'id': 'kimi-official',
    'name': 'Kimi Official',
    'api_key': '',
    'protocol': 'openai_chat',
    'protocols': '[{\'protocol\':\'openai_chat\',\'baseUrl\':\'https://api.moonshot.cn\',\'rewritePath\':\'/v1\'}]',
    'is_builtin': true,
    'enabled': true,
    'billing_type': 'metered',
    'monthly_quota': null,
    'quota_policy': 'fallback',
    'priority': 10
  },
  {
    'id': 'minimax-official',
    'name': 'MiniMax Official',
    'api_key': '',
    'protocol': 'openai_chat',
    'protocols': '[{\'protocol\':\'openai_chat\',\'baseUrl\':\'https://api.minimax.chat\',\'rewritePath\':\'/v1\'}]',
    'is_builtin': true,
    'enabled': true,
    'billing_type': 'metered',
    'monthly_quota': null,
    'quota_policy': 'fallback',
    'priority': 10
  },
  {
    'id': 'longcat-official',
    'name': 'LongCat Official',
    'api_key': '',
    'protocol': 'openai_chat',
    'protocols': '[{\'protocol\':\'openai_chat\',\'baseUrl\':\'https://api.longcat.chat/openai\',\'rewritePath\':\'\'},{\'protocol\':\'anthropic_messages\',\'baseUrl\':\'https://api.longcat.chat/anthropic\',\'rewritePath\':\'\'}]',
    'is_builtin': true,
    'enabled': true,
    'billing_type': 'metered',
    'monthly_quota': null,
    'quota_policy': 'fallback',
    'priority': 10
  }
]
".

(** In parts, one after the other. *)
Definition EMBEDDED_MODEL_MAPPINGS : string := quotes (String.concat EmptyString [
"[
  {
    'id': 'tokenfleet-ai:claude-opus-4-8',
    'channel_id': 'tokenfleet-ai',
    'client_name': 'claude-opus-4-8',
    'upstream_name': 'claude-opus-4-8',
    'billing': 'metered',
    'pricing_json': '{\'type\':\'per_token\',\'currency\':\'USD\',\'input_per_mtok\':5.0,\'output_per_mtok\':25.0,\'cache_write_per_mtok\':6.25,\'cache_read_per_mtok\':0.50}',
    'weight': 100,
    'enabled': true,
    'protocols': '[\'openai_chat\',\'anthropic_messages\']'
  },
  {
    'id': 'tokenfleet-ai:claude-opus-4-7',
    'channel_id': 'tokenfleet-ai',
    'client_name': 'claude-opus-4-7',
    'upstream_name': 'claude-opus-4-7',
    'billing': 'metered',
    'pricing_json': '{\'type\':\'per_token\',\'currency\':\'USD\',\'input_per_mtok\':5.0,\'output_per_mtok\':25.0,\'cache_write_per_mtok\':6.25,\'cache_read_per_mtok\':0.50}',
    'weight': 100,
    'enabled': true,
    'protocols': '[\'openai_chat\',\'anthropic_messages\']'
  },
  {
    'id': 'tokenfleet-ai:claude-opus-4-6',
    'channel_id': 'tokenfleet-ai',
    'client_name': 'claude-opus-4-6',
    'upstream_name': 'claude-opus-4-6',
    'billing': 'metered',
    'pricing_json': '{\'type\':\'per_token\',\'currency\':\'USD\',\'input_per_mtok\':5.0,\'output_per_mtok\':25.0,\'cache_write_per_mtok\':6.25,\'cache_read_per_mtok\':0.50}',
    'weight': 100,
    'enabled': true,
    'protocols': '[\'openai_chat\',\'anthropic_messages\']'
  },
  {
    'id': 'tokenfleet-ai:claude-sonnet-4-6',
    'channel_id': 'tokenfleet-ai',
    'client_name': 'claude-sonnet-4-6',
    'upstream_name': 'claude-sonnet-4-6',
    'billing': 'metered',
    'pricing_json': '{\'type\':\'per_token\',\'currency\':\'USD\',\'input_per_mtok\':5.0,\'output_per_mtok\':25.0,\'cache_write_per_mtok\':6.25,\'cache_read_per_mtok\':0.50}',
    'weight': 100,
    'enabled': true,
    'protocols': '[\'openai_chat\',\'anthropic_messages\']'
  },
  {
    'id': 'tokenfleet-ai:claude-sonnet-4-5',
    'channel_id': 'tokenfleet-ai',
    'client_name': 'claude-sonnet-4-5',
    'upstream_name': 'claude-sonnet-4-5',
    'billing': 'metered',
    'pricing_json': '{\'type\':\'per_token\',\'currency\':\'USD\',\'input_per_mtok\':3.0,\'output_per_mtok\':15.0,\'cache_write_per_mtok\':3.75,\'cache_read_per_mtok\':0.30}',
    'weight': 100,
    'enabled': true,
    'protocols': '[\'openai_chat\',\'anthropic_messages\']'
  },
  {
    'id': 'tokenfleet-ai:claude-opus-4-5-reverse',
    'channel_id': 'tokenfleet-ai',
    'client_name': 'claude-opus-4-5-reverse',
    'upstream_name': 'claude-opus-4-5-reverse',
    'billing': 'metered',
    'pricing_json': '{\'type\':\'per_token\',\'currency\':\'USD\',\'input_per_mtok\':2.5,\'output_per_mtok\':12.5,\'cache_read_per_mtok\':0.25}',
    'weight': 100,
    'enabled': true,
    'protocols': '[\'openai_chat\',\'anthropic_messages\']'
  },
  {
    'id': 'tokenfleet-ai:claude-sonnet-4-5-reverse',
    'channel_id': 'tokenfleet-ai',
    'client_name': 'claude-sonnet-4-5-reverse',
    'upstream_name': 'claude-sonnet-4-5-reverse',
    'billing': 'metered',
    'pricing_json': '{\'type\':\'tiered\',\'dimension\':{\'type\':\'tokens\'},\'currency\':\'USD\',\'tiers\':[{\'up_to\':200000,\'price\':{\'type\':\'token\',\'input_per_mtok\':1.5,\'output_per_mtok\':7.5}},{\'up_to\':null,\'price\':{\'type\':\'token\',\'input_per_mtok\':3.0,\'output_per_mtok\':11.25}}]}',
    'weight': 100,
    'enabled': true,
    'protocols': '[\'openai_chat\',\'anthropic_messages\']'
  },
  {
    'id': 'tokenfleet-ai:gpt-5.2',
    'channel_id': 'tokenfleet-ai',
    'client_name': 'gpt-5.2',
    'upstream_name': 'gpt-5.2',
";
"    'billing': 'metered',
    'pricing_json': '{\'type\':\'per_token\',\'currency\':\'USD\',\'input_per_mtok\':1.75,\'output_per_mtok\':14.0,\'cache_read_per_mtok\':1.75}',
    'weight': 100,
    'enabled': true,
    'protocols': '[\'openai_chat\',\'openai_responses\']'
  },
  {
    'id': 'tokenfleet-ai:gpt-5.2-chat',
    'channel_id': 'tokenfleet-ai',
    'client_name': 'gpt-5.2-chat',
    'upstream_name': 'gpt-5.2-chat',
    'billing': 'metered',
    'pricing_json': '{\'type\':\'per_token\',\'currency\':\'USD\',\'input_per_mtok\':1.75,\'output_per_mtok\':14.0,\'cache_read_per_mtok\':1.75}',
    'weight': 100,
    'enabled': true,
    'protocols': '[\'openai_chat\',\'openai_responses\']'
  },
  {
    'id': 'tokenfleet-ai:gpt-5.2-codex',
    'channel_id': 'tokenfleet-ai',
    'client_name': 'gpt-5.2-codex',
    'upstream_name': 'gpt-5.2-codex',
    'billing': 'metered',
    'pricing_json': '{\'type\':\'per_token\',\'currency\':\'USD\',\'input_per_mtok\':1.75,\'output_per_mtok\':14.0,\'cache_read_per_mtok\':1.75}',
    'weight': 100,
    'enabled': true,
    'protocols': '[\'openai_chat\',\'openai_responses\']'
  },
  {
    'id': 'tokenfleet-ai:gpt-5.3-codex',
    'channel_id': 'tokenfleet-ai',
    'client_name': 'gpt-5.3-codex',
    'upstream_name': 'gpt-5.3-codex',
    'billing': 'metered',
    'pricing_json': '{\'type\':\'per_token\',\'currency\':\'USD\',\'input_per_mtok\':1.75,\'output_per_mtok\':14.0,\'cache_read_per_mtok\':0.175}',
    'weight': 100,
    'enabled': true,
    'protocols': '[\'openai_chat\',\'openai_responses\']'
  },
  {
    'id': 'tokenfleet-ai:gpt-5.4-mini',
    'channel_id': 'tokenfleet-ai',
    'client_name': 'gpt-5.4-mini',
    'upstream_name': 'gpt-5.4-mini',
    'billing': 'metered',
    'pricing_json': '{\'type\':\'per_token\',\'currency\':\'USD\',\'input_per_mtok\':0.75,\'output_per_mtok\':4.5,\'cache_read_per_mtok\':0.075}',
    'weight': 100,
    'enabled': true,
    'protocols': '[\'openai_chat\',\'openai_responses\']'
  },
  {
    'id': 'tokenfleet-ai:gpt-5.4',
    'channel_id': 'tokenfleet-ai',
    'client_name': 'gpt-5.4',
    'upstream_name': 'gpt-5.4',
    'billing': 'metered',
    'pricing_json': '{\'type\':\'tiered\',\'dimension\':{\'type\':\'tokens\'},\'currency\':\'USD\',\'tiers\':[{\'up_to\':272000,\'price\':{\'type\':\'token\',\'input_per_mtok\':2.5,\'output_per_mtok\':15.0}},{\'up_to\':null,\'price\':{\'type\':\'token\',\'input_per_mtok\':5.0,\'output_per_mtok\':22.5}}]}',
    'weight': 100,
    'enabled': true,
    'protocols': '[\'openai_chat\',\'openai_responses\']'
  },
  {
    'id': 'tokenfleet-ai:gpt-5.5',
    'channel_id': 'tokenfleet-ai',
    'client_name': 'gpt-5.5',
    'upstream_name': 'gpt-5.5',
    'billing': 'metered',
    'pricing_json': '{\'type\':\'tiered\',\'dimension\':{\'type\':\'tokens\'},\'currency\':\'USD\',\'tiers\':[{\'up_to\':272000,\'price\':{\'type\':\'token\',\'input_per_mtok\':5.0,\'output_per_mtok\':30.0}},{\'up_to\':null,\'price\':{\'type\':\'token\',\'input_per_mtok\':10.0,\'output_per_mtok\':45.0}}]}',
    'weight': 100,
    'enabled': true,
    'protocols': '[\'openai_chat\',\'openai_responses\']'
  },
  {
    'id': 'tokenfleet-ai:kimi-k2.5',
    'channel_id': 'tokenfleet-ai',
    'client_name': 'kimi-k2.5',
    'upstream_name': 'kimi-k2.5',
    'billing': 'metered',
    'pricing_json': '{\'type\':\'per_token\',\'currency\':\'USD\',\'input_per_mtok\':0.571,\'output_per_mtok\':3.0}',
    'weight': 100,
    'enabled': true,
    'protocols': '[\'openai_chat\']'
  },
  {
    'id': 'tokenfleet-ai:kimi-k2.6',
    'channel_id': 'tokenfleet-ai',
";
"    'client_name': 'kimi-k2.6',
    'upstream_name': 'kimi-k2.6',
    'billing': 'metered',
    'pricing_json': '{\'type\':\'per_token\',\'currency\':\'USD\',\'input_per_mtok\':0.929,\'output_per_mtok\':3.857,\'cache_write_per_mtok\':1.161,\'cache_read_per_mtok\':0.186}',
    'weight': 100,
    'enabled': true,
    'protocols': '[\'openai_chat\']'
  },
  {
    'id': 'tokenfleet-ai:deepseek-v3.2',
    'channel_id': 'tokenfleet-ai',
    'client_name': 'deepseek-v3.2',
    'upstream_name': 'deepseek-v3.2',
    'billing': 'metered',
    'pricing_json': '{\'type\':\'per_token\',\'currency\':\'USD\',\'input_per_mtok\':0.571,\'output_per_mtok\':2.286,\'cache_read_per_mtok\':0.571}',
    'weight': 100,
    'enabled': true,
    'protocols': '[\'openai_chat\']'
  },
  {
    'id': 'tokenfleet-cn:deepseek-v3.1',
    'channel_id': 'tokenfleet-cn',
    'client_name': 'deepseek-v3.1',
    'upstream_name': 'deepseek-v3.1',
    'billing': 'metered',
    'pricing_json': '{\'type\':\'per_token\',\'currency\':\'CNY\',\'input_per_mtok\':4.0,\'output_per_mtok\':12.0}',
    'weight': 100,
    'enabled': true,
    'protocols': '[\'openai_chat\']'
  },
  {
    'id': 'tokenfleet-cn:deepseek-v3.2',
    'channel_id': 'tokenfleet-cn',
    'client_name': 'deepseek-v3.2',
    'upstream_name': 'deepseek-v3.2',
    'billing': 'metered',
    'pricing_json': '{\'type\':\'per_token\',\'currency\':\'CNY\',\'input_per_mtok\':2.0,\'output_per_mtok\':3.0}',
    'weight': 100,
    'enabled': true,
    'protocols': '[\'openai_chat\']'
  },
  {
    'id': 'tokenfleet-cn:deepseek-v4-flash',
    'channel_id': 'tokenfleet-cn',
    'client_name': 'deepseek-v4-flash',
    'upstream_name': 'deepseek-v4-flash',
    'billing': 'metered',
    'pricing_json': '{\'type\':\'per_token\',\'currency\':\'CNY\',\'input_per_mtok\':1.0,\'output_per_mtok\':2.0,\'cache_read_per_mtok\':0.02}',
    'weight': 100,
    'enabled': true,
    'protocols': '[\'openai_chat\']'
  },
  {
    'id': 'tokenfleet-cn:deepseek-v4-pro',
    'channel_id': 'tokenfleet-cn',
    'client_name': 'deepseek-v4-pro',
    'upstream_name': 'deepseek-v4-pro',
    'billing': 'metered',
    'pricing_json': '{\'type\':\'per_token\',\'currency\':\'CNY\',\'input_per_mtok\':12.0,\'output_per_mtok\':24.0,\'cache_read_per_mtok\':1.0}',
    'weight': 100,
    'enabled': true,
    'protocols': '[\'openai_chat\']'
  },
  {
    'id': 'tokenfleet-cn:minimax-m2.5',
    'channel_id': 'tokenfleet-cn',
    'client_name': 'minimax-m2.5',
    'upstream_name': 'minimax-m2.5',
    'billing': 'metered',
    'pricing_json': '{\'type\':\'per_token\',\'currency\':\'CNY\',\'input_per_mtok\':2.10,\'output_per_mtok\':8.40,\'cache_read_per_mtok\':0.21}',
    'weight': 100,
    'enabled': true,
    'protocols': '[\'openai_chat\']'
  },
  {
    'id': 'tokenfleet-cn:minimax-m2.7',
    'channel_id': 'tokenfleet-cn',
    'client_name': 'minimax-m2.7',
    'upstream_name': 'minimax-m2.7',
    'billing': 'metered',
    'pricing_json': '{\'type\':\'per_token\',\'currency\':\'CNY\',\'input_per_mtok\':2.10,\'output_per_mtok\':8.40,\'cache_read_per_mtok\':0.42}',
    'weight': 100,
    'enabled': true,
    'protocols': '[\'openai_chat\']'
  },
  {
    'id': 'tokenfleet-cn:kimi-k2.5',
    'channel_id': 'tokenfleet-cn',
    'client_name': 'kimi-k2.5',
    'upstream_name': 'kimi-k2.5',
    'billing': 'metered',
    'pricing_json': '{\'type\':\'per_token\',\'currency\':\'CNY\',\'input_per_mtok\':4.0,\'output_per_mtok\':21.0}',
    'weight': 100,
    'enabled': true,
    'protocols': '[\'openai_chat\']'
  },
  {
    'id': 'tokenfleet-cn:kimi-k2.6',
";
"    'channel_id': 'tokenfleet-cn',
    'client_name': 'kimi-k2.6',
    'upstream_name': 'kimi-k2.6',
    'billing': 'metered',
    'pricing_json': '{\'type\':\'per_token\',\'currency\':\'CNY\',\'input_per_mtok\':6.5,\'output_per_mtok\':27.0,\'cache_read_per_mtok\':1.3}',
    'weight': 100,
    'enabled': true,
    'protocols': '[\'openai_chat\']'
  },
  {
    'id': 'tokenfleet-cn:glm-5.1',
    'channel_id': 'tokenfleet-cn',
    'client_name': 'glm-5.1',
    'upstream_name': 'glm-5.1',
    'billing': 'metered',
    'pricing_json': '{\'type\':\'tiered\',\'dimension\':{\'type\':\'tokens\'},\'currency\':\'CNY\',\'tiers\':[{\'up_to\':32000,\'price\':{\'type\':\'token\',\'input_per_mtok\':6.02,\'output_per_mtok\':24.01,\'cache_read_per_mtok\':1.33}},{\'up_to\':null,\'price\':{\'type\':\'token\',\'input_per_mtok\':7.98,\'output_per_mtok\':28.00,\'cache_read_per_mtok\':2.03}}]}',
    'weight': 100,
    'enabled': true,
    'protocols': '[\'openai_chat\']'
  },
  {
    'id': 'tokenfleet-cn:mimo-v2.5-pro',
    'channel_id': 'tokenfleet-cn',
    'client_name': 'mimo-v2.5-pro',
    'upstream_name': 'mimo-v2.5-pro',
    'billing': 'metered',
    'pricing_json': '{\'type\':\'per_token\',\'currency\':\'CNY\',\'input_per_mtok\':3,\'output_per_mtok\':6.0,\'cache_read_per_mtok\':0.025}',
    'weight': 100,
    'enabled': true,
    'protocols': '[\'openai_chat\']'
  },
  {
    'id': 'tokenfleet-cn:mimo-v2.5',
    'channel_id': 'tokenfleet-cn',
    'client_name': 'mimo-v2.5',
    'upstream_name': 'mimo-v2.5',
    'billing': 'metered',
    'pricing_json': '{\'type\':\'per_token\',\'currency\':\'CNY\',\'input_per_mtok\':1,\'output_per_mtok\':2.0,\'cache_read_per_mtok\':0.02}',
    'weight': 100,
    'enabled': true,
    'protocols': '[\'openai_chat\']'
  },
  {
    'id': 'tokenfleet-cn:glm-5v-turbo',
    'channel_id': 'tokenfleet-cn',
    'client_name': 'glm-5v-turbo',
    'upstream_name': 'glm-5v-turbo',
    'billing': 'metered',
    'pricing_json': '{\'type\':\'tiered\',\'dimension\':{\'type\':\'tokens\'},\'currency\':\'CNY\',\'tiers\':[{\'up_to\':32000,\'price\':{\'type\':\'token\',\'input_per_mtok\':4.97,\'output_per_mtok\':21.98,\'cache_read_per_mtok\':1.19}},{\'up_to\':null,\'price\':{\'type\':\'token\',\'input_per_mtok\':7.00,\'output_per_mtok\':25.97,\'cache_read_per_mtok\':1.82}}]}',
    'weight': 100,
    'enabled': true,
    'protocols': '[]'
  },
  {
    'id': 'deepseek:deepseek-v4-flash',
    'channel_id': 'deepseek',
    'client_name': 'deepseek-v4-flash',
    'upstream_name': 'deepseek-v4-flash',
    'billing': 'metered',
    'pricing_json': '{\'type\':\'per_token\',\'currency\':\'CNY\',\'input_per_mtok\':1.0,\'output_per_mtok\':2.0,\'cache_read_per_mtok\':0.02}',
    'weight': 100,
    'enabled': true,
    'protocols': '[]'
  },
  {
    'id': 'deepseek:deepseek-v4-pro',
    'channel_id': 'deepseek',
    'client_name': 'deepseek-v4-pro',
    'upstream_name': 'deepseek-v4-pro',
    'billing': 'metered',
    'pricing_json': '{\'type\':\'per_token\',\'currency\':\'CNY\',\'input_per_mtok\':3.0,\'output_per_mtok\':6.0,\'cache_read_per_mtok\':0.025}',
    'weight': 100,
    'enabled': true,
    'protocols': '[]'
  },
  {
    'id': 'dashscope-token:qwen3.7-plus',
    'channel_id': 'dashscope-token',
    'client_name': 'qwen3.7-plus',
    'upstream_name': 'qwen3.7-plus',
    'billing': 'metered',
    'pricing_json': '{\'type\':\'per_token\',\'currency\':\'CNY\',\'input_per_mtok\':1.6,\'output_per_mtok\':6.4,\'cache_write_per_mtok\':2.50,\'cache_read_per_mtok\':0.20}',
    'weight': 100,
    'enabled': true,
    'protocols': '[]'
  },
  {
";
"    'id': 'dashscope-token:qwen3.6-plus',
    'channel_id': 'dashscope-token',
    'client_name': 'qwen3.6-plus',
    'upstream_name': 'qwen3.6-plus',
    'billing': 'metered',
    'pricing_json': '{\'type\':\'per_token\',\'currency\':\'CNY\',\'input_per_mtok\':2.0,\'output_per_mtok\':12.0,\'cache_write_per_mtok\':2.50,\'cache_read_per_mtok\':0.20}',
    'weight': 100,
    'enabled': true,
    'protocols': '[]'
  },
  {
    'id': 'dashscope-token:deepseek-v4-flash',
    'channel_id': 'dashscope-token',
    'client_name': 'deepseek-v4-flash',
    'upstream_name': 'deepseek-v4-flash',
    'billing': 'metered',
    'pricing_json': '{\'type\':\'per_token\',\'currency\':\'CNY\',\'input_per_mtok\':1.0,\'output_per_mtok\':2.0,\'cache_read_per_mtok\':0.02}',
    'weight': 100,
    'enabled': true,
    'protocols': '[]'
  },
  {
    'id': 'dashscope-token:glm-5',
    'channel_id': 'dashscope-token',
    'client_name': 'glm-5',
    'upstream_name': 'glm-5',
    'billing': 'metered',
    'pricing_json': '{\'type\':\'per_token\',\'currency\':\'CNY\',\'input_per_mtok\':4.0,\'output_per_mtok\':18.0,\'cache_read_per_mtok\':1.0}',
    'weight': 100,
    'enabled': true,
    'protocols': '[]'
  },
  {
    'id': 'dashscope-token:kimi-k2.5',
    'channel_id': 'dashscope-token',
    'client_name': 'kimi-k2.5',
    'upstream_name': 'kimi-k2.5',
    'billing': 'metered',
    'pricing_json': '{\'type\':\'per_token\',\'currency\':\'CNY\',\'input_per_mtok\':4.0,\'output_per_mtok\':21.0,\'cache_read_per_mtok\':0.70}',
    'weight': 100,
    'enabled': true,
    'protocols': '[]'
  },
  {
    'id': 'dashscope-token:minimax-m2.7',
    'channel_id': 'dashscope-token',
    'client_name': 'minimax-m2.7',
    'upstream_name': 'minimax-m2.7',
    'billing': 'metered',
    'pricing_json': '{\'type\':\'per_token\',\'currency\':\'CNY\',\'input_per_mtok\':2.10,\'output_per_mtok\':8.40,\'cache_write_per_mtok\':2.625,\'cache_read_per_mtok\':0.42}',
    'weight': 100,
    'enabled': true,
    'protocols': '[]'
  },
  {
    'id': 'dashscope-coding:qwen3.7-plus',
    'channel_id': 'dashscope-coding',
    'client_name': 'qwen3.7-plus',
    'upstream_name': 'qwen3.7-plus',
    'billing': 'metered',
    'pricing_json': '{\'type\':\'per_token\',\'currency\':\'CNY\',\'input_per_mtok\':1.6,\'output_per_mtok\':6.4,\'cache_write_per_mtok\':2.50,\'cache_read_per_mtok\':0.20}',
    'weight': 100,
    'enabled': true,
    'protocols': '[]'
  },
  {
    'id': 'dashscope-coding:qwen3.6-plus',
    'channel_id': 'dashscope-coding',
    'client_name': 'qwen3.6-plus',
    'upstream_name': 'qwen3.6-plus',
    'billing': 'metered',
    'pricing_json': '{\'type\':\'per_token\',\'currency\':\'CNY\',\'input_per_mtok\':2.0,\'output_per_mtok\':12.0,\'cache_write_per_mtok\':2.50,\'cache_read_per_mtok\':0.20}',
    'weight': 100,
    'enabled': true,
    'protocols': '[]'
  },
  {
    'id': 'dashscope-coding:qwen3.5-plus',
    'channel_id': 'dashscope-coding',
    'client_name': 'qwen3.5-plus',
    'upstream_name': 'qwen3.5-plus',
    'billing': 'metered',
    'pricing_json': '{\'type\':\'per_token\',\'currency\':\'CNY\',\'input_per_mtok\':0.80,\'output_per_mtok\':4.80,\'cache_write_per_mtok\':1.0,\'cache_read_per_mtok\':0.08}',
    'weight': 100,
    'enabled': true,
    'protocols': '[]'
  },
  {
    'id': 'dashscope-coding:glm-5',
    'channel_id': 'dashscope-coding',
    'client_name': 'glm-5',
    'upstream_name': 'glm-5',
    'billing': 'metered',
    'pricing_json': '{\'type\':\'per_token\',\'currency\':\'CNY\',\'input_per_mtok\':4.0,\'output_per_mtok\':18.0,\'cache_read_per_mtok\':1.0}',
";
"    'weight': 100,
    'enabled': true,
    'protocols': '[]'
  },
  {
    'id': 'dashscope-coding:kimi-k2.5',
    'channel_id': 'dashscope-coding',
    'client_name': 'kimi-k2.5',
    'upstream_name': 'kimi-k2.5',
    'billing': 'metered',
    'pricing_json': '{\'type\':\'per_token\',\'currency\':\'CNY\',\'input_per_mtok\':4.0,\'output_per_mtok\':21.0,\'cache_read_per_mtok\':0.70}',
    'weight': 100,
    'enabled': true,
    'protocols': '[]'
  },
  {
    'id': 'dashscope-coding:minimax-m2.7',
    'channel_id': 'dashscope-coding',
    'client_name': 'minimax-m2.7',
    'upstream_name': 'minimax-m2.7',
    'billing': 'metered',
    'pricing_json': '{\'type\':\'per_token\',\'currency\':\'CNY\',\'input_per_mtok\':2.10,\'output_per_mtok\':8.40,\'cache_write_per_mtok\':2.625,\'cache_read_per_mtok\':0.42}',
    'weight': 100,
    'enabled': true,
    'protocols': '[]'
  },
  {
    'id': 'dashscope-coding:glm-4.7-flash',
    'channel_id': 'dashscope-coding',
    'client_name': 'glm-4.7-flash',
    'upstream_name': 'glm-4.7-flash',
    'billing': 'metered',
    'pricing_json': '{\'type\':\'per_token\',\'currency\':\'CNY\',\'input_per_mtok\':0.0,\'output_per_mtok\':0.0,\'cache_read_per_mtok\':0.0}',
    'weight': 100,
    'enabled': true,
    'protocols': '[]'
  },
  {
    'id': 'dashscope-payg:qwen3.7-max',
    'channel_id': 'dashscope-payg',
    'client_name': 'qwen3.7-max',
    'upstream_name': 'qwen3.7-max',
    'billing': 'metered',
    'pricing_json': '{\'type\':\'per_token\',\'currency\':\'CNY\',\'input_per_mtok\':6.0,\'output_per_mtok\':18.0,\'cache_write_per_mtok\':7.50,\'cache_read_per_mtok\':1.20}',
    'weight': 100,
    'enabled': true,
    'protocols': '[]'
  },
  {
    'id': 'dashscope-payg:qwen3.6-max',
    'channel_id': 'dashscope-payg',
    'client_name': 'qwen3.6-max',
    'upstream_name': 'qwen3.6-max',
    'billing': 'metered',
    'pricing_json': '{\'type\':\'per_token\',\'currency\':\'CNY\',\'input_per_mtok\':9.0,\'output_per_mtok\':54.0,\'cache_write_per_mtok\':11.25,\'cache_read_per_mtok\':0.90}',
    'weight': 100,
    'enabled': true,
    'protocols': '[]'
  },
  {
    'id': 'dashscope-payg:qwen3.6-plus',
    'channel_id': 'dashscope-payg',
    'client_name': 'qwen3.6-plus',
    'upstream_name': 'qwen3.6-plus',
    'billing': 'metered',
    'pricing_json': '{\'type\':\'per_token\',\'currency\':\'CNY\',\'input_per_mtok\':2.0,\'output_per_mtok\':12.0,\'cache_write_per_mtok\':2.50,\'cache_read_per_mtok\':0.20}',
    'weight': 100,
    'enabled': true,
    'protocols': '[]'
  },
  {
    'id': 'dashscope-payg:qwen3.6-flash',
    'channel_id': 'dashscope-payg',
    'client_name': 'qwen3.6-flash',
    'upstream_name': 'qwen3.6-flash',
    'billing': 'metered',
    'pricing_json': '{\'type\':\'per_token\',\'currency\':\'CNY\',\'input_per_mtok\':1.20,\'output_per_mtok\':7.20,\'cache_write_per_mtok\':1.50,\'cache_read_per_mtok\':0.12}',
    'weight': 100,
    'enabled': true,
    'protocols': '[]'
  },
  {
    'id': 'dashscope-payg:qwen3.5-plus',
    'channel_id': 'dashscope-payg',
    'client_name': 'qwen3.5-plus',
    'upstream_name': 'qwen3.5-plus',
    'billing': 'metered',
    'pricing_json': '{\'type\':\'per_token\',\'currency\':\'CNY\',\'input_per_mtok\':0.80,\'output_per_mtok\':4.80,\'cache_write_per_mtok\':1.0,\'cache_read_per_mtok\':0.08}',
    'weight': 100,
    'enabled': true,
    'protocols': '[]'
  },
  {
    'id': 'dashscope-payg:qwen3.5-flash',
    'channel_id': 'dashscope-payg',
    'client_name': 'qwen3.5-flash',
    'upstream_name': 'qwen3.5-flash',
    'billing': 'metered',
";
"    'pricing_json': '{\'type\':\'per_token\',\'currency\':\'CNY\',\'input_per_mtok\':0.20,\'output_per_mtok\':2.0,\'cache_write_per_mtok\':0.25,\'cache_read_per_mtok\':0.02}',
    'weight': 100,
    'enabled': true,
    'protocols': '[]'
  },
  {
    'id': 'glm-official:glm-5.1',
    'channel_id': 'glm-official',
    'client_name': 'glm-5.1',
    'upstream_name': 'glm-5.1',
    'billing': 'metered',
    'pricing_json': '{\'type\':\'per_token\',\'currency\':\'CNY\',\'input_per_mtok\':6.0,\'output_per_mtok\':24.0,\'cache_read_per_mtok\':1.30}',
    'weight': 100,
    'enabled': true,
    'protocols': '[]'
  },
  {
    'id': 'glm-official:glm-5-turbo',
    'channel_id': 'glm-official',
    'client_name': 'glm-5-turbo',
    'upstream_name': 'glm-5-turbo',
    'billing': 'metered',
    'pricing_json': '{\'type\':\'per_token\',\'currency\':\'CNY\',\'input_per_mtok\':5.0,\'output_per_mtok\':22.0,\'cache_read_per_mtok\':1.20}',
    'weight': 100,
    'enabled': true,
    'protocols': '[]'
  },
  {
    'id': 'glm-official:glm-5',
    'channel_id': 'glm-official',
    'client_name': 'glm-5',
    'upstream_name': 'glm-5',
    'billing': 'metered',
    'pricing_json': '{\'type\':\'per_token\',\'currency\':\'CNY\',\'input_per_mtok\':4.0,\'output_per_mtok\':18.0,\'cache_read_per_mtok\':1.0}',
    'weight': 100,
    'enabled': true,
    'protocols': '[]'
  },
  {
    'id': 'glm-official:glm-4.7-flash',
    'channel_id': 'glm-official',
    'client_name': 'glm-4.7-flash',
    'upstream_name': 'glm-4.7-flash',
    'billing': 'metered',
    'pricing_json': '{\'type\':\'per_token\',\'currency\':\'CNY\',\'input_per_mtok\':0.0,\'output_per_mtok\':0.0,\'cache_read_per_mtok\':0.0}',
    'weight': 100,
    'enabled': true,
    'protocols': '[]'
  },
  {
    'id': 'kimi-official:kimi-k2.6',
    'channel_id': 'kimi-official',
    'client_name': 'kimi-k2.6',
    'upstream_name': 'kimi-k2.6',
    'billing': 'metered',
    'pricing_json': '{\'type\':\'per_token\',\'currency\':\'CNY\',\'input_per_mtok\':6.50,\'output_per_mtok\':27.0,\'cache_read_per_mtok\':1.10}',
    'weight': 100,
    'enabled': true,
    'protocols': '[]'
  },
  {
    'id': 'kimi-official:kimi-k2.5',
    'channel_id': 'kimi-official',
    'client_name': 'kimi-k2.5',
    'upstream_name': 'kimi-k2.5',
    'billing': 'metered',
    'pricing_json': '{\'type\':\'per_token\',\'currency\':\'CNY\',\'input_per_mtok\':4.0,\'output_per_mtok\':21.0,\'cache_read_per_mtok\':0.70}',
    'weight': 100,
    'enabled': true,
    'protocols': '[]'
  },
  {
    'id': 'minimax-official:minimax-m2.7',
    'channel_id': 'minimax-official',
    'client_name': 'minimax-m2.7',
    'upstream_name': 'minimax-m2.7',
    'billing': 'metered',
    'pricing_json': '{\'type\':\'per_token\',\'currency\':\'CNY\',\'input_per_mtok\':2.10,\'output_per_mtok\':8.40,\'cache_write_per_mtok\':2.625,\'cache_read_per_mtok\':0.42}',
    'weight': 100,
    'enabled': true,
    'protocols': '[]'
  },
  {
    'id': 'longcat-official:longcat-2.0',
    'channel_id': 'longcat-official',
    'client_name': 'longcat-2.0',
    'upstream_name': 'longcat-2.0',
    'billing': 'metered',
    'pricing_json': '{\'type\':\'per_token\',\'currency\':\'CNY\',\'input_per_mtok\':2.0,\'output_per_mtok\':8.0,\'cache_read_per_mtok\':0.04}',
    'weight': 100,
    'enabled': true,
    'protocols': '[\'openai_chat\',\'anthropic_messages\']'
  }
]
"]).

Definition EMBEDDED_MANIFEST : string := quotes "{
  'version': 1,
  'minSchemaVersion': 1,
  'updatedAt': '2026-06-05T00:00:00Z',
  'entries': {
    'providers': {
      'file': 'providers.json',
      'sha256': 'b13bcd261bf493d3c3af4dc1ada2914ca531223a322f03096f34fa6ba23e02ba'
    },
    'models': {
      'file': 'models.json',
      'sha256': '301deb5bcaad499a419998c76e32a1734606c9ce434d63cadcc18dceda357f71'
    },
    'channels': {
      'file': 'channels.json',
      'sha256': 'c386c169c82b7b789bc4d79041fae9e512a6b87ce4be3110a0656f00f37e12c6'
    },
    'modelMappings': {
      'file': 'model_mappings.json',
      'sha256': '8040769387141438dc3141dd36e7aa52e41553b3cd3d9c6eb477216bd3e8c689'
    }
  }
}
".

(** ** Texts that are read as the grammar says *)

(** What is assumed of [serde_json]: it reads the texts the grammar's reader reads,
    as the documents that one finds. *)
Definition reads_grammar `{JsonText} : Prop := forall t v, read t = Some v -> read_json t = Ok v.

(** The reader alone, with which everything below is computed. *)
Definition grammar : JsonText := {|
  read_json t := res_of_option "not in the grammar" (read t);
  write_json _ := None;
  shape_error _ := "shape"
|}.

Definition readable (t : string) : bool := bool_decide (is_Some (read t)).

Section Grammar.
Context `{JsonText} (Hread : reads_grammar).

Lemma grammar_Ok {A} (d : Decoder A) t a :
  from_str (H := grammar) d t = Ok a -> from_str d t = Ok a.
Proof.
  unfold from_str. simpl. destruct (read t) as [v|] eqn:Hv; simpl; [|done].
  rewrite (Hread _ _ Hv). simpl. by destruct (d v).
Qed.

Lemma grammar_ok {A} (d : Decoder A) t :
  readable t = true -> ok (from_str d t) = ok (from_str (H := grammar) d t).
Proof.
  intros [v Hv]%bool_decide_eq_true. unfold from_str. simpl.
  rewrite Hv, (Hread _ _ Hv). simpl. by destruct (d v).
Qed.

(** *** Loading *)

Definition mapping_readable (m : ModelMapping) : bool :=
  readable (mm_pricing_json m) && readable (mm_protocols m).

Lemma resolve_mapping_grammar m :
  mapping_readable m = true ->
  resolve_mapping m =
    resolve_mapping (H := derived_pricing (H := grammar)) (H0 := derived_columns (H := grammar)) m.
Proof.
  intros [Hp Hs]%andb_true_iff. unfold resolve_mapping, from_storage.
  cbn [parse_pricing parse_flat_fee parse_strings derived_pricing derived_columns].
  rewrite !(grammar_ok _ _ Hs), !(grammar_ok _ _ Hp).
  destruct (bool_decide (mm_billing m = "metered")); [|done].
  apply bool_decide_eq_true in Hp as [v Hv]. unfold from_str. simpl.
  rewrite Hv, (Hread _ _ Hv). simpl. by destruct (de_pricing v).
Qed.

Context {S : Type} `{!Storage S}.

(** Every column the router decodes is a text of the grammar. *)
Definition store_readable (s : S) : bool :=
  match Storage.list_channels None s with
  | Ok chs => forallb (fun ch => readable (ch_protocols ch) &&
      match Storage.list_mappings (ch_id ch) s with
      | Ok ms => forallb mapping_readable ms | _ => false end) chs
  | _ => false
  end.

Lemma router_grammar s :
  store_readable s = true ->
  router_from_storage s =
    router_from_storage (H := derived_pricing (H := grammar)) (H0 := derived_columns (H := grammar)) s.
Proof.
  unfold store_readable, router_from_storage. destruct (Storage.list_channels None s) as [chs|e|]; [|done..].
  simpl. intros Hall.
  enough (load_channels s chs = load_channels (H := derived_pricing (H := grammar))
            (H0 := derived_columns (H := grammar)) s chs) as -> by done.
  induction chs as [|ch chs IH]; [done|]. simpl in Hall.
  apply andb_true_iff in Hall as [[Hp Hms]%andb_true_iff Hall]. specialize (IH Hall).
  cbn [load_channels parse_protocols derived_columns]. rewrite (grammar_ok _ _ Hp), IH.
  destruct (default [] (ok (from_str (H := grammar) (de_list de_protocol_entry) (ch_protocols ch))))
    as [|p ps]; [done|].
  destruct (Storage.list_mappings (ch_id ch) s) as [ms|e|]; [|done..]. simpl.
  destruct (load_channels (H := derived_pricing (H := grammar)) (H0 := derived_columns (H := grammar))
    s chs) as [loaded|e|]; [|done..]. simpl. f_equal. f_equal.
  unfold resolve_channel. f_equal. clear -Hms Hread.
  induction ms as [|m ms IHm]; [done|]. simpl in *. apply andb_true_iff in Hms as [Hm Hms].
  destruct (mm_enabled m); [|by apply IHm]. csimpl. rewrite (resolve_mapping_grammar m Hm).
  by rewrite (IHm Hms).
Qed.
End Grammar.

(** ** A server on a fresh database *)

(** The embedded files with their derived decoders; the rest of the outside is that
    of [out]. *)
Definition program_sources `{JsonText} (out : Sources) : Sources := {|
  embedded_providers := EMBEDDED_PROVIDERS;
  embedded_models := EMBEDDED_MODELS;
  embedded_channels := EMBEDDED_CHANNELS;
  embedded_model_mappings := EMBEDDED_MODEL_MAPPINGS;
  embedded_manifest := EMBEDDED_MANIFEST;
  parse_providers := from_str (de_list de_seed_provider);
  parse_models := from_str (de_list de_seed_model);
  parse_channels := from_str (de_list de_seed_channel);
  parse_model_mappings := from_str (de_list de_seed_mapping);
  parse_manifest := from_str de_manifest;
  sha256 := sha256 out; http_client := http_client out; http_get := http_get out;
  status_text := status_text out; env_seed_url := env_seed_url out
|}.

Definition fresh_db `{JsonText} (env : Env) (out : Sources) : Db :=
  (seed_init env (program_sources out) (Sqlite.migrate env empty_db).1).1.

(** The rows of the embedded files. *)
Definition rows {A} (r : Res string A) (o : A) : A := match r with Ok a => a | _ => o end.

Lemma embedded_rows_parse :
  is_ok (from_str (H := grammar) (de_list de_seed_provider) EMBEDDED_PROVIDERS) = true /\
  is_ok (from_str (H := grammar) (de_list de_seed_model) EMBEDDED_MODELS) = true /\
  is_ok (from_str (H := grammar) (de_list de_seed_channel) EMBEDDED_CHANNELS) = true /\
  is_ok (from_str (H := grammar) (de_list de_seed_mapping) EMBEDDED_MODEL_MAPPINGS) = true /\
  is_ok (from_str (H := grammar) de_manifest EMBEDDED_MANIFEST) = true.
Proof. split_and!; vm_compute; reflexivity. Qed.

Lemma grammar_same `{JsonText} (Hread : reads_grammar) {A} (d : Decoder A) t :
  is_ok (from_str (H := grammar) d t) = true -> from_str d t = from_str (H := grammar) d t.
Proof.
  intros Hok. destruct (from_str d t) eqn:Hd; destruct (from_str (H := grammar) d t) eqn:Hg;
    try discriminate; apply (grammar_Ok Hread) in Hg; congruence.
Qed.

Lemma upsert_entry_named env src json :
  upsert_entry env src "providers" json =
    seed_rows "providers" (parse_providers src json) (insert_provider env) /\
  upsert_entry env src "models" json =
    seed_rows "models" (parse_models src json) (insert_model env) /\
  upsert_entry env src "channels" json =
    seed_rows "channels" (parse_channels src json) (seed_channel env) /\
  upsert_entry env src "model_mappings" json =
    seed_rows "model_mappings" (parse_model_mappings src json) (seed_mapping env).
Proof. split_and!; reflexivity. Qed.

(** Seeding depends on the decoders only through the rows of the embedded files. *)
Lemma seed_init_rows env src src' d :
  parse_providers src (embedded_providers src) = parse_providers src' (embedded_providers src') ->
  parse_models src (embedded_models src) = parse_models src' (embedded_models src') ->
  parse_channels src (embedded_channels src) = parse_channels src' (embedded_channels src') ->
  parse_model_mappings src (embedded_model_mappings src) =
    parse_model_mappings src' (embedded_model_mappings src') ->
  parse_manifest src (embedded_manifest src) = parse_manifest src' (embedded_manifest src') ->
  sha256 src (embedded_providers src) = sha256 src' (embedded_providers src') ->
  sha256 src (embedded_models src) = sha256 src' (embedded_models src') ->
  sha256 src (embedded_channels src) = sha256 src' (embedded_channels src') ->
  sha256 src (embedded_model_mappings src) = sha256 src' (embedded_model_mappings src') ->
  seed_init env src d = seed_init env src' d.
Proof.
  intros Hp Hm Hc Hmm Hman Hs1 Hs2 Hs3 Hs4. unfold seed_init, apply_all_entries.
  destruct (upsert_entry_named env src (embedded_providers src)) as (-> & _).
  destruct (upsert_entry_named env src (embedded_models src)) as (_ & -> & _).
  destruct (upsert_entry_named env src (embedded_channels src)) as (_ & _ & -> & _).
  destruct (upsert_entry_named env src (embedded_model_mappings src)) as (_ & _ & _ & ->).
  destruct (upsert_entry_named env src' (embedded_providers src')) as (-> & _).
  destruct (upsert_entry_named env src' (embedded_models src')) as (_ & -> & _).
  destruct (upsert_entry_named env src' (embedded_channels src')) as (_ & _ & -> & _).
  destruct (upsert_entry_named env src' (embedded_model_mappings src')) as (_ & _ & _ & ->).
  rewrite Hp, Hm, Hc, Hmm, Hman. unfold st_each. cbn [fst snd]. by rewrite Hs1, Hs2, Hs3, Hs4.
Qed.

Lemma fresh_db_grammar `{JsonText} (Hread : reads_grammar) env out :
  fresh_db env out = fresh_db (H := grammar) env out.
Proof.
  destruct embedded_rows_parse as (Hp & Hm & Hc & Hmm & Hman).
  unfold fresh_db. f_equal. apply seed_init_rows;
    [exact (grammar_same Hread _ _ Hp)|exact (grammar_same Hread _ _ Hm)
    |exact (grammar_same Hread _ _ Hc)|exact (grammar_same Hread _ _ Hmm)
    |exact (grammar_same Hread _ _ Hman)|reflexivity..].
Qed.

(** *** What the fresh server serves *)

Definition formats : list ApiFormat := [AnthropicMessages; OpenaiChat; OpenaiResponses].

(** Where the router sends a request in a format by a channel and a mapping. *)
Definition upstream_of (dbg : list string -> string) (c : Candidate) (f : ApiFormat)
    : Res ProxyError (string * option string) :=
  target ← resolve_target_protocol (rc_force_protocol c.1) (Some f) (rc_protocols c.1);
  target ← constrain_protocol dbg c.1 c.2 target;
  resolve_upstream_url target (rc_protocols c.1).

Definition fresh_router_ok (dbg : list string -> string) (d : Db) (r : Router) : bool :=
  (length (channels r) =? 10)%nat &&
  (length (flat_map rc_mappings (channels r)) =? 58)%nat &&
  (length (t_models d) =? 37)%nat &&
  forallb (fun ch => negb (has_api_key r (rc_channel_id ch)) &&
    forallb (fun m => negb (is_flat_fee (rm_billing m)) &&
      forallb (fun f => is_ok (upstream_of dbg (ch, m) f)) formats) (rc_mappings ch)) (channels r) &&
  forallb (fun mo => match find_candidates (channels r) (mo_client_name mo) with
                     | [] => false | _ => true end) (t_models d).

Lemma fresh_computed dbg env out :
  pool_error env = None ->
  let d := fresh_db (H := grammar) env out in
  store_readable (Storage0 := sqlite_storage env) d = true /\
  match router_from_storage (H := derived_pricing (H := grammar))
          (H0 := derived_columns (H := grammar)) (Storage0 := sqlite_storage env) d with
  | Ok r => fresh_router_ok dbg d r = true
  | _ => False
  end.
Proof.
  intros Hpool. destruct env as [pe now rfc dt mins days r3339 sum seq bare msg].
  simpl in Hpool. subst pe. split.
  - vm_compute. reflexivity.
  - vm_compute. reflexivity.
Qed.

Section FreshServer.
Context `{JsonText} (Hread : reads_grammar) (env : Env) (out : Sources).
Context (Hpool : pool_error env = None).
#[local] Existing Instances derived_pricing derived_columns.
Let db : Db := fresh_db env out.

(** The router of the fresh server, computed with the grammar's reader. *)
Lemma fresh_router dbg :
  exists r, router_from_storage (Storage0 := sqlite_storage env) db = Ok r /\
            fresh_router_ok dbg db r = true.
Proof.
  destruct (fresh_computed dbg env out Hpool) as [Hs Hr]. unfold db.
  rewrite (fresh_db_grammar Hread). rewrite (router_grammar Hread) by exact Hs.
  destruct (router_from_storage _) as [r| |]; [|done..]. by exists r.
Qed.

(** C27: A server started on an empty database knows every model of the files it
    ships with.  The embedded files parse, their rows satisfy every constraint
    of the schema, and the router loads all ten channels with all 58 mappings,
    none being skipped.  (README.md and docs/ count nine channels, 36 models and
    57 mappings, specs/ 13 channels and 65 mappings: the files of this commit have
    ten, 37 and 58.)  Each of the 37 models in the catalog has a mapping; every mapping
    is metered and, for a request in any of the three formats, has a protocol
    of its channel it allows, with a base URL.  No channel has a key, so that
    nothing is sent anywhere before one is set. *)
Theorem fresh_server_complete dbg :
  exists r,
    router_from_storage (Storage0 := sqlite_storage env) db = Ok r /\
    length (channels r) = 10%nat /\ length (flat_map rc_mappings (channels r)) = 58%nat /\
    length (t_models db) = 37%nat /\
    (forall ch m, ch ∈ channels r -> m ∈ rc_mappings ch ->
       is_flat_fee (rm_billing m) = false /\
       forall f, f ∈ formats -> is_ok (upstream_of dbg (ch, m) f) = true) /\
    (forall mo, mo ∈ t_models db -> find_candidates (channels r) (mo_client_name mo) <> []) /\
    (forall ch, ch ∈ channels r -> has_api_key r (rc_channel_id ch) = false).
Proof.
  destruct (fresh_router dbg) as (r & Hr & Hok). exists r. split; [exact Hr|].
  unfold fresh_router_ok in Hok. rewrite !andb_true_iff, !Nat.eqb_eq in Hok.
  destruct Hok as [[[[Hn Hm] Hmodels] Hch] Hmo]. split; [exact Hn|]. split; [exact Hm|].
  split; [exact Hmodels|].
  rewrite forallb_forall in Hch, Hmo.
  assert (Hc : forall ch, ch ∈ channels r -> has_api_key r (rc_channel_id ch) = false /\
    forall m, m ∈ rc_mappings ch -> is_flat_fee (rm_billing m) = false /\
      forall f, f ∈ formats -> is_ok (upstream_of dbg (ch, m) f) = true).
  { intros ch Hin. apply list_elem_of_In, Hch, andb_true_iff in Hin as [Hk Hms].
    split; [by apply negb_true_iff|]. intros m Hin. rewrite forallb_forall in Hms.
    apply list_elem_of_In, Hms, andb_true_iff in Hin as [Hf Hfs]. split; [by apply negb_true_iff|].
    intros f Hin. rewrite forallb_forall in Hfs. by apply Hfs, list_elem_of_In. }
  split_and!.
  - intros ch m Hin Hinm. by apply (proj2 (Hc ch Hin)).
  - intros mo Hin. apply list_elem_of_In, Hmo in Hin. by destruct (find_candidates _ _).
  - intros ch Hin. by apply Hc.
Qed.
End FreshServer.

(** The router of the fresh server, by the grammar's reader. *)
Definition seeded_router : Res ProxyError Router :=
  router_from_storage (H := derived_pricing (H := grammar)) (H0 := derived_columns (H := grammar))
    (Storage0 := sqlite_storage SampleDb.env) (fresh_db (H := grammar) SampleDb.env (SampleSeed.sources [])).

#[local] Strategy expand [seeded_router].

Lemma fresh_server_complete_witness :
  match seeded_router with
  | Ok r => length (channels r) = 10%nat /\
            map rc_channel_id (take 2 (channels r)) = ["tokenfleet-ai"; "tokenfleet-cn"]
  | _ => False
  end.
Proof.
  destruct (@fresh_server_complete grammar) with (env := SampleDb.env)
    (out := SampleSeed.sources []) (dbg := fun _ : list string => EmptyString)
    as (r & Hr & Hn & _); [intros t v Hv; simpl; rewrite Hv; reflexivity|reflexivity|].
  assert (Hids : match seeded_router with
    | Ok r => map rc_channel_id (take 2 (channels r)) = ["tokenfleet-ai"; "tokenfleet-cn"]
    | _ => False end) by (vm_compute; reflexivity).
  unfold seeded_router in Hids |- *. rewrite Hr in Hids |- *. split; [exact Hn|exact Hids].
Defined.

(** *** Where the seeded channels send a request *)

(** The URL a channel sends a chat completion to. *)
Definition chat_url (ch : ResolvedChannel) : option string :=
  match resolve_upstream_url OpenaiChat (rc_protocols ch) with
  | Ok (url, path) =>
      Some (trim_end_matches slash url +:+
        upstream_path {| cc_url := url; cc_api_key := "k"; cc_protocol := OpenaiChat;
                         cc_name := rc_channel_name ch; cc_rewrite_path := path |}
          "/v1/chat/completions")
  | _ => None
  end.

Definition find_channel (id : string) (r : Router) : option ResolvedChannel :=
  List.find (fun ch => String.eqb (rc_channel_id ch) id) (channels r).

Definition seeded_chat_url (id : string) : option string :=
  r ← ok seeded_router; ch ← find_channel id r; chat_url ch.

(** A rewritten path replaces the whole path of the request.  The paths seeded for
    four channels are those their APIs begin with, so that the upstream is asked
    for a URL without endpoint; the path seeded for [deepseek] is a whole one. *)
Lemma seeded_paths_lack_endpoint :
  seeded_chat_url "kimi-official" = Some "https://api.moonshot.cn/v1" /\
  seeded_chat_url "minimax-official" = Some "https://api.minimax.chat/v1" /\
  seeded_chat_url "glm-official" = Some "https://open.bigmodel.cn/api/paas/v4" /\
  seeded_chat_url "dashscope-payg" = Some "https://dashscope.aliyuncs.com/compatible-mode/v1" /\
  seeded_chat_url "deepseek" = Some "https://api.deepseek.com/chat/completions".
Proof. split_and!; vm_compute; reflexivity. Qed.

(** *** The manifest and the files *)

(** The hash the embedded manifest gives for a file. *)
Definition stated_hash (name : string) : option string :=
  m ← ok (from_str (H := grammar) de_manifest EMBEDDED_MANIFEST);
  e ← List.find (fun kv => String.eqb kv.1 name) (sm_entries m);
  Some (sm_sha256 e.2).

(** The manifest in the repository gives other hashes than its files have.  They are
    not compared at start-up; a remote that serves the directory as it is has its
    providers refused. *)
Lemma manifest_is_stale :
  is_Some (stated_hash "providers") /\
  stated_hash "providers" <> Some (Sha256.hex EMBEDDED_PROVIDERS).
Proof. split; vm_compute; [by eexists|discriminate]. Qed.

Lemma stale_entry_refused env src base entry d :
  stated_hash "providers" = Some (sm_sha256 entry) ->
  fetch src (base +:+ "/" +:+ sm_file entry)
    ("failed to fetch " +:+ (base +:+ "/" +:+ sm_file entry) +:+ ": ")
    ("fetch " +:+ (base +:+ "/" +:+ sm_file entry) +:+ " returned ") = Ok (Ok EMBEDDED_PROVIDERS) ->
  sha256 src EMBEDDED_PROVIDERS = Sha256.hex EMBEDDED_PROVIDERS ->
  exists msg, fetch_and_apply_entry env src base "providers" entry d = (d, Err (Backend msg)).
Proof.
  intros Hstated Hfetch Hsha. unfold fetch_and_apply_entry, st_bind, st_lift.
  rewrite Hfetch. cbn [map_err]. rewrite Hsha.
  destruct (String.eqb_spec (Sha256.hex EMBEDDED_PROVIDERS) (sm_sha256 entry)) as [Heq|Hne].
  - exfalso. apply (proj2 manifest_is_stale). by rewrite Hstated, Heq.
  - by eexists.
Qed.
