(* ===== verification/AdminWire.v ===== *)
(** The wire of the admin API: what serde derives for the bodies, queries and
    replies of [apps/server/src/admin.rs] and the rows of
    [crates/storage/src/types.rs] they carry.

    Of axum's extractors what is library code remains a parameter: percent
    decoding of a path, the document of a JSON body, the pairs of a query.  The
    rest of [Extractors] is built from them, and replies become documents. *)

From Stdlib Require Import Ascii.
From S2P Require Import Prelude RustStr Float64 Json Http Billing Types Storage.
From S2P Require Import Router Auth Probe Admin AdminAnswers Sqlite JsonReader Serde SeedFiles.
Import Model.
Local Open Scope Z_scope.

(** ** Bodies *)

Definition de_update_channel : Decoder UpdateChannelBody := fun v =>
  fs ← as_fields v;
  name ← optional de_string 0 "name" fs;
  enabled ← optional de_bool 1 "enabled" fs;
  priority ← optional de_u32 2 "priority" fs;
  quota ← optional de_u64 3 "monthlyQuota" fs;
  policy ← optional de_string 4 "quotaPolicy" fs;
  protocols ← optional de_string 5 "protocols" fs;
  force ← optional de_string 6 "forceProtocol" fs;
  _ ← fields_end 7 fs;
  Some {| uc_name := name; uc_enabled := enabled; uc_priority := priority;
          uc_monthly_quota := quota; uc_quota_policy := policy; uc_protocols := protocols;
          uc_force_protocol := force |}.

Definition de_api_key_body : Decoder string := fun v =>
  fs ← as_fields v; key ← required de_string 0 "apiKey" fs; _ ← fields_end 1 fs; Some key.

Definition de_update_mapping : Decoder UpdateMappingBody := fun v =>
  fs ← as_fields v;
  upstream ← optional de_string 0 "upstreamName" fs;
  client ← optional de_string 1 "clientName" fs;
  billing ← optional de_string 2 "billing" fs;
  pricing ← optional de_string 3 "pricingJson" fs;
  weight ← optional de_u32 4 "weight" fs;
  enabled ← optional de_bool 5 "enabled" fs;
  protocols ← optional de_string 6 "protocols" fs;
  _ ← fields_end 7 fs;
  Some {| um_upstream_name := upstream; um_client_name := client; um_billing := billing;
          um_pricing_json := pricing; um_weight := weight; um_enabled := enabled;
          um_protocols := protocols |}.

Definition de_compress_toggle : Decoder bool := fun v =>
  fs ← as_fields v; b ← required de_bool 0 "enabled" fs; _ ← fields_end 1 fs; Some b.

Definition de_seed_refresh_body : Decoder (option string) := fun v =>
  fs ← as_fields v; url ← optional de_string 0 "url" fs; _ ← fields_end 1 fs; Some url.

Definition default_prune_days : Z := 90.

(** Unlike the other bodies this one is not renamed to camel case. *)
Definition de_prune_request : Decoder Z := fun v =>
  fs ← as_fields v;
  days ← defaulted default_prune_days de_u32 0 "older_than_days" fs;
  _ ← fields_end 1 fs;
  Some days.

Definition de_model_mapping : Decoder ModelMapping := fun v =>
  fs ← as_fields v;
  id ← required de_string 0 "id" fs;
  channel ← required de_string 1 "channelId" fs;
  client ← required de_string 2 "clientName" fs;
  upstream ← required de_string 3 "upstreamName" fs;
  billing ← required de_string 4 "billing" fs;
  pricing ← required de_string 5 "pricingJson" fs;
  weight ← required de_u32 6 "weight" fs;
  enabled ← required de_bool 7 "enabled" fs;
  protocols ← defaulted EmptyString de_string 8 "protocols" fs;
  _ ← fields_end 9 fs;
  Some {| mm_id := id; mm_channel_id := channel; mm_client_name := client;
          mm_upstream_name := upstream; mm_billing := billing; mm_pricing_json := pricing;
          mm_weight := weight; mm_enabled := enabled; mm_protocols := protocols |}.

Definition de_alias_request : Decoder ModelAliasRequest := fun v =>
  fs ← as_fields v;
  name ← required de_string 0 "aliasName" fs;
  target ← required de_string 1 "targetModel" fs;
  enabled ← defaulted default_true de_bool 2 "enabled" fs;
  _ ← fields_end 3 fs;
  Some {| mr_alias_name := name; mr_target_model := target; mr_enabled := enabled |}.

(** ** Queries

    A query is a sequence of pairs of strings; a number or a boolean is parsed
    from its string.  Here an [Option] that is given is never [None]. *)

Definition Query : Type := list (string * string).

(** [i32::from_str] and [i64::from_str]. *)
Definition parse_int (lo hi : Z) (s : string) : option Z :=
  match s with
  | String "-"%char EmptyString => None
  | String "-"%char s' => Z.opp <$> parse_digits 0 (- lo) s'
  | _ => parse_uint hi s
  end.

Definition parse_i32 : string -> option Z := parse_int (- 2 ^ 31) (2 ^ 31 - 1).
Definition parse_i64 : string -> option Z := parse_int (- 2 ^ 63) i64_max.
Definition parse_u32 : string -> option Z := parse_uint u32_max.

Definition parse_bool (s : string) : option bool :=
  if bool_decide (s = "true") then Some true
  else if bool_decide (s = "false") then Some false else None.

(** A name that is not there is [None], one that comes twice an error. *)
Definition query_field {A} (parse : string -> option A) (k : string) (q : Query)
    : option (option A) :=
  match List.filter (fun kv => String.eqb kv.1 k) q with
  | [] => Some None
  | [(_, s)] => Some <$> parse s
  | _ => None
  end.

Definition qs_provider_id : Query -> option (option string) := query_field Some "provider_id".
Definition qs_model_id : Query -> option (option string) := query_field Some "model_id".
Definition qs_switch_logs : Query -> option (option Z) := query_field parse_u32 "limit".

Definition qs_seed_status (q : Query) : option bool :=
  default false <$> query_field parse_bool "remote" q.

Definition qs_cost_records (q : Query) : option CostRecordsQuery :=
  project ← query_field Some "project" q;
  model ← query_field Some "model_name" q;
  channel ← query_field Some "channel_name" q;
  days ← query_field parse_u32 "days" q;
  limit ← query_field parse_u32 "limit" q;
  offset ← query_field parse_u32 "offset" q;
  tz ← query_field parse_i32 "tz_offset" q;
  Some {| cq_project := project; cq_model_name := model; cq_channel_name := channel;
          cq_days := days; cq_limit := limit; cq_offset := offset; cq_tz_offset := tz |}.

Definition default_days : Z := 30.

Definition qs_cost_report (q : Query) : option CostReportQuery :=
  project ← query_field Some "project" q;
  days ← query_field parse_u32 "days" q;
  group ← query_field Some "group_by" q;
  tz ← query_field parse_i32 "tz_offset" q;
  Some {| rq_project := project; rq_days := default default_days days; rq_group_by := group;
          rq_tz_offset := tz |}.

(** ** The extractors *)

Section Extraction.
(** axum and its libraries: a percent-decoded part of a path, or the status of
    text that is not UTF-8; the document of a JSON body, or the status of a body
    that is none (400), is too long (413) or is of another type (415); the pairs
    of the query, which any text has. *)
Context (percent_decode : string -> Res StatusCode string).
Context (json_document : HttpRequest -> Res StatusCode jv).
Context (query_pairs : HttpRequest -> Query).

(** [Path<i64>], [Json<A>] and [Query<A>]: what does not decode as an [A] is
    rejected with 400, 422 and 400. *)
Definition path_i64 (s : string) : Res StatusCode Z :=
  s ← percent_decode s; res_of_option 400 (parse_i64 s).

Definition json_body {A} (d : Decoder A) (req : HttpRequest) : Res StatusCode A :=
  v ← json_document req; res_of_option 422 (d v).

Definition query_of {A} (d : Query -> option A) (req : HttpRequest) : Res StatusCode A :=
  res_of_option 400 (d (query_pairs req)).

Definition wire_extractors : Extractors := {|
  x_path := percent_decode;
  x_path_i64 := path_i64;
  x_provider_id := query_of qs_provider_id;
  x_model_id := query_of qs_model_id;
  x_update_channel := json_body de_update_channel;
  x_api_key := json_body de_api_key_body;
  x_cost_records := query_of qs_cost_records;
  x_cost_report := query_of qs_cost_report;
  x_prune := json_body de_prune_request;
  x_mapping := json_body de_model_mapping;
  x_update_mapping := json_body de_update_mapping;
  x_alias := json_body de_alias_request;
  x_switch_logs := query_of qs_switch_logs;
  x_seed_status := query_of qs_seed_status;
  x_seed_refresh := json_body de_seed_refresh_body;
  x_compress := json_body de_compress_toggle
|}.

Lemma res_of_option_returns {E A} (e : E) (o : option A) : res_of_option e o <> Panic.
Proof. by destruct o. Qed.

Lemma json_body_returns {A} (d : Decoder A) req :
  json_document req <> Panic -> json_body d req <> Panic.
Proof.
  unfold json_body. intros Hdoc. destruct (json_document req); simpl;
    auto using res_of_option_returns.
Qed.

(** What [System] and [Serving] ask of extractors is asked of these three
    functions alone. *)
Lemma wire_extractors_return :
  (forall s, percent_decode s <> Panic) -> (forall req, json_document req <> Panic) ->
  ExtractorsReturn wire_extractors.
Proof.
  intros Hp Hd. split; simpl; intros; auto using json_body_returns;
    try apply res_of_option_returns.
  unfold path_i64. specialize (Hp s). destruct (percent_decode s); simpl;
    auto using res_of_option_returns.
Qed.
End Extraction.

(** ** Replies *)

Definition ser_list {A} (ser : A -> jv) (l : list A) : jv := JArr (ser <$> l).

Definition ser_provider (p : Provider) : jv :=
  JObj [("id", JStr (pv_id p)); ("name", JStr (pv_name p)); ("createdAt", JStr (pv_created_at p))].

Definition ser_model (m : Storage.Model) : jv :=
  JObj [("id", JStr (md_id m)); ("providerId", JStr (md_provider_id m));
        ("clientName", JStr (md_client_name m)); ("priceInput", ser_f64 (md_price_input m));
        ("priceOutput", ser_f64 (md_price_output m)); ("currency", JStr (md_currency m));
        ("contextWindow", JInt (md_context_window m)); ("createdAt", JStr (md_created_at m));
        ("channelCount", JInt (md_channel_count m))].

(** [skip_serializing_if = "is_empty_protocols"]. *)
Definition ser_model_mapping (m : ModelMapping) : jv :=
  JObj ([("id", JStr (mm_id m)); ("channelId", JStr (mm_channel_id m));
         ("clientName", JStr (mm_client_name m)); ("upstreamName", JStr (mm_upstream_name m));
         ("billing", JStr (mm_billing m)); ("pricingJson", JStr (mm_pricing_json m));
         ("weight", JInt (mm_weight m)); ("enabled", JBool (mm_enabled m))]
        ++ if is_empty_protocols (mm_protocols m) then []
           else [("protocols", JStr (mm_protocols m))]).

Definition ser_cost_record (r : CostRecord) : jv :=
  JObj ([("id", JStr (cr_id r)); ("channel_id", JStr (cr_channel_id r));
         ("upstream_channel", JStr (cr_upstream_channel r));
         ("upstream_model", JStr (cr_upstream_model r));
         ("request_time_ms", JInt (cr_request_time_ms r)); ("project", JStr (cr_project r));
         ("user_id", JStr (cr_user_id r)); ("agent_type", JStr (cr_agent_type r));
         ("input_tokens", JInt (cr_input_tokens r)); ("output_tokens", JInt (cr_output_tokens r));
         ("cache_write_tokens", JInt (cr_cache_write_tokens r));
         ("cache_read_tokens", JInt (cr_cache_read_tokens r));
         ("thinking_tokens", JInt (cr_thinking_tokens r)); ("cost", ser_f64 (cr_cost r));
         ("schema_saved_tokens", JInt (cr_schema_saved_tokens r));
         ("response_saved_tokens", JInt (cr_response_saved_tokens r));
         ("rtk_saved_tokens", JInt (cr_rtk_saved_tokens r));
         ("pre_compress_tokens", JInt (cr_pre_compress_tokens r));
         ("post_compress_tokens", JInt (cr_post_compress_tokens r));
         ("compression_tokens_saved", JInt (cr_compression_tokens_saved r));
         ("unit", JStr (cr_unit r)); ("pricing_snapshot_json", JStr (cr_pricing_snapshot_json r));
         ("timestamp", JStr (cr_timestamp r))]
        ++ ser_present "session_id" JStr (cr_session_id r)
        ++ [("before_tokens", JInt (cr_before_tokens r)); ("after_tokens", JInt (cr_after_tokens r));
            ("tokens_saved", JInt (cr_tokens_saved r));
            ("compression_breakdown_json", JStr (cr_compression_breakdown_json r))]).

Definition ser_switch_log (l : SwitchLog) : jv :=
  JObj [("id", JStr (sl_id l)); ("from_channel_id", JStr (sl_from_channel_id l));
        ("to_channel_id", JStr (sl_to_channel_id l)); ("reason", JStr (sl_reason l));
        ("cost_record_id", ser_option JStr (sl_cost_record_id l));
        ("created_at", JStr (sl_created_at l))].

Definition ser_cost_aggregate (a : CostAggregate) : jv :=
  JObj [("group_key", JStr (ca_group_key a)); ("total_input_tokens", JInt (ca_total_input_tokens a));
        ("total_output_tokens", JInt (ca_total_output_tokens a));
        ("total_actual_cost", ser_f64 (ca_total_actual_cost a));
        ("total_compression_tokens_saved", JInt (ca_total_compression_tokens_saved a));
        ("request_count", JInt (ca_request_count a))].

Definition ser_available_model (m : AvailableModelInfo) : jv :=
  JObj [("mappingId", JStr (am_mapping_id m)); ("clientName", JStr (am_client_name m));
        ("upstreamName", JStr (am_upstream_name m))].

Definition ser_available_channel (c : AvailableChannelInfo) : jv :=
  JObj [("channelId", JStr (ac_channel_id c)); ("channelName", JStr (ac_channel_name c));
        ("protocol", JStr (ac_protocol c)); ("protocols", JStr (ac_protocols c));
        ("healthStatus", JStr (ac_health_status c)); ("enabled", JBool (ac_enabled c));
        ("models", ser_list ser_available_model (ac_models c))].

Definition ser_savings (r : CompressionSavingsReport) : jv :=
  JObj [("schemaSavedTokens", JInt (sr_schema_saved_tokens r));
        ("responseSavedTokens", JInt (sr_response_saved_tokens r));
        ("rtkSavedTokens", JInt (sr_rtk_saved_tokens r));
        ("totalSavedTokens", JInt (sr_total_saved_tokens r))].

Definition ser_model_alias (a : ModelAlias) : jv :=
  JObj [("id", JInt (ma_id a)); ("aliasName", JStr (ma_alias_name a));
        ("targetModel", JStr (ma_target_model a)); ("enabled", JBool (ma_enabled a));
        ("createdAt", JStr (ma_created_at a)); ("updatedAt", JStr (ma_updated_at a))].

Definition ser_alias_request (r : ModelAliasRequest) : jv :=
  JObj [("aliasName", JStr (mr_alias_name r)); ("targetModel", JStr (mr_target_model r));
        ("enabled", JBool (mr_enabled r))].

Definition ser_seed_entry (e : SeedEntryStatus) : jv :=
  JObj ([("name", JStr (se_name e))] ++ ser_present "localSha256" JStr (se_local_sha256 e)
        ++ ser_present "remoteSha256" JStr (se_remote_sha256 e)
        ++ [("changed", JBool (se_changed e))]).

Definition ser_seed_status (s : SeedStatus) : jv :=
  JObj ([("localVersion", JInt (ss_local_version s))]
        ++ ser_present "remoteVersion" JInt (ss_remote_version s)
        ++ [("updateAvailable", JBool (ss_update_available s)); ("source", JStr (ss_source s));
            ("entries", ser_list ser_seed_entry (ss_entries s))]
        ++ ser_present "lastRefreshAt" JStr (ss_last_refresh_at s)
        ++ ser_present "lastError" JStr (ss_last_error s)).

(** [skip_serializing_if = "Vec::is_empty"]. *)
Definition ser_seed_refresh (r : SeedRefreshResponse) : jv :=
  JObj ([("success", JBool (sf_success r)); ("previousVersion", JInt (sf_previous_version r));
         ("newVersion", JInt (sf_new_version r)); ("source", JStr (sf_source r))]
        ++ match sf_errors r with [] => [] | l => [("errors", ser_list JStr l)] end).

Definition ser_channel_protocols (r : ChannelProtocolsResponse) : jv :=
  JObj [("channel_id", JStr (cp_channel_id r)); ("channel_name", JStr (cp_channel_name r));
        ("protocols", ser_list ser_protocol_entry (cp_protocols r))].

Definition ser_probe_result (r : ProbeResult) : jv :=
  JStr match r with
       | PrHealthy => "healthy" | PrInvalidKey => "invalid_key" | PrRateLimited => "rate_limited"
       | PrUnreachable => "unreachable" | PrNoModels => "no_models"
       | PrNoProtocols => "no_protocols" | PrUnknown => "unknown"
       end.

(** The objects of [json!] in the handlers, the names in the order of the source. *)
Definition probe_json (p : ProbeResponse) : jv :=
  JObj [("result", ser_probe_result (pb_result p)); ("model", JStr (pb_model p));
        ("latencyMs", JInt (pb_latency_ms p)); ("httpStatus", JInt (pb_http_status p))].

Definition health_json (h : Health) : jv :=
  JObj [("healthy", JBool (h_healthy h)); ("healthyChannels", JInt (h_healthy_channels h));
        ("totalChannels", JInt (h_total_channels h))].

(** The document of a reply; a preflight has none of the program's. *)
Definition reply_json (r : Reply) : option jv :=
  match r with
  | RpProviders l => Some (ser_list ser_provider l)
  | RpProvider p => Some (ser_provider p)
  | RpModels l => Some (ser_list ser_model l)
  | RpModel m => Some (ser_model m)
  | RpChannels l => Some (ser_list ser_channel l)
  | RpChannel c => Some (ser_channel c)
  | RpDeleted b => Some (JObj [("deleted", JBool b)])
  | RpDeletedRows n => Some (JObj [("deleted", JInt n)])
  | RpStatusOk => Some (JObj [("status", JStr "ok")])
  | RpKeySet p => Some (JObj [("status", JStr "ok"); ("probe", ser_option probe_json p)])
  | RpProbe p => Some (probe_json p)
  | RpProtocols p => Some (ser_channel_protocols p)
  | RpCosts l => Some (ser_list ser_cost_record l)
  | RpAggregates l => Some (ser_list ser_cost_aggregate l)
  | RpSavings r => Some (ser_savings r)
  | RpMappings l => Some (ser_list ser_model_mapping l)
  | RpMapping m => Some (ser_model_mapping m)
  | RpAliases l => Some (ser_list ser_model_alias l)
  | RpAlias a => Some (ser_model_alias a)
  | RpAvailable l => Some (ser_list ser_available_channel l)
  | RpProjects l => Some (ser_list JStr l)
  | RpLogs l => Some (ser_list ser_switch_log l)
  | RpHealth h => Some (health_json h)
  | RpSeedStatus s => Some (ser_seed_status s)
  | RpSeedRefresh r => Some (ser_seed_refresh r)
  | RpEnabled b => Some (JObj [("enabled", JBool b)])
  | RpPreflight => None
  end.

(** [AppError::into_response]. *)
Definition app_error_response (e : AppError) : StatusCode * jv :=
  (ae_status e,
   JObj [("error", JObj [("code", JStr (ae_code e)); ("message", JStr (ae_message e))])]).

(** The status of an answer, and its document where it is the program's: axum
    words its rejections itself. *)
Definition admin_answer (r : Res AdminError Reply) : option (StatusCode * option jv) :=
  match r with
  | Ok r => Some (200, reply_json r)
  | Err (Rejected status) => Some (status, None)
  | Err (Failure e) => let '(status, v) := app_error_response e in Some (status, Some v)
  | Panic => None
  end.

(** ** Round trips *)

#[local] Arguments de_int : simpl never.

(** What the API says of a mapping can be sent back to it: only a list of
    protocols that is [[]] comes back as the empty text, which means the same. *)
Definition normal_mapping (m : ModelMapping) : ModelMapping :=
  {| mm_id := mm_id m; mm_channel_id := mm_channel_id m; mm_client_name := mm_client_name m;
     mm_upstream_name := mm_upstream_name m; mm_billing := mm_billing m;
     mm_pricing_json := mm_pricing_json m; mm_weight := mm_weight m; mm_enabled := mm_enabled m;
     mm_protocols := if is_empty_protocols (mm_protocols m) then EmptyString else mm_protocols m |}.

Lemma model_mapping_roundtrip m :
  in_u32 (mm_weight m) -> de_model_mapping (ser_model_mapping m) = Some (normal_mapping m).
Proof.
  destruct m as [? ? ? ? ? ? w ? ps]. unfold ser_model_mapping, normal_mapping. cbn [mm_protocols
    mm_weight]. intros Hw. destruct (is_empty_protocols ps); cbn; unfold de_u32;
    by rewrite (de_int_in _ _ w Hw).
Qed.

Lemma alias_request_roundtrip r : de_alias_request (ser_alias_request r) = Some r.
Proof. by destruct r. Qed.

(** A number in a query is read as the number its decimals say. *)
Lemma query_u32 k n q :
  in_u32 n -> List.filter (fun kv => String.eqb kv.1 k) q = [] ->
  query_field parse_u32 k ((k, uint_to_string n) :: q) = Some (Some n).
Proof.
  intros Hn Hq. unfold query_field. simpl. rewrite String.eqb_refl, Hq. unfold parse_u32.
  unfold in_u32 in Hn. rewrite parse_uint_to_string; [done|done|]. unfold u32_max in Hn. lia.
Qed.

(** ** What the wire makes of documented requests *)

(** A prune body as documented, [{'olderThanDays': n}], is accepted and its number
    ignored: whatever it is, 90 days are kept. *)
Lemma prune_field_ignored v : de_prune_request (JObj [("olderThanDays", v)]) = Some 90.
Proof. done. Qed.

Lemma prune_field_read n :
  in_u32 n -> de_prune_request (JObj [("older_than_days", JInt n)]) = Some n.
Proof. intros Hn. cbn. unfold de_u32. by rewrite (de_int_in _ _ n Hn). Qed.

(** The fields of a cost summary on the wire are none of those documented. *)
Lemma aggregate_names a k :
  k ∈ ["groupKey"; "totalCost"; "totalTokens"; "count"] ->
  match ser_cost_aggregate a with JObj l => named k l = [] | _ => False end.
Proof. intros Hk. set_unfold. by destruct Hk as [->|[->|[->|[->|[]]]]]. Qed.

(** [null] for the forced protocol of a channel is the same as leaving it out. *)
Lemma null_force_unchanged :
  de_update_channel (JObj [("forceProtocol", JNull)]) = de_update_channel (JObj []).
Proof. done. Qed.

(** ** A forced protocol stays

    No update gives a channel its own choice of protocol back: [null] means no
    change, and [validate_force_protocol] accepts only names of its protocols. *)
Definition forced (id : string) (d : Db) : Prop :=
  exists c, c ∈ t_channels d /\ ch_id c = id /\ is_Some (ch_force_protocol c).

Lemma update_channel_keeps_forced env id d id' name enabled priority quota policy protocols force :
  forced id d ->
  forced id (update_channel env id' name enabled priority quota policy protocols force d).1.
Proof.
  intros (c & Hc & Hid & Hforce). unfold update_channel, writing.
  destruct (pool_error env); [by exists c|]. simpl.
  exists (if has_id id' c
          then patch_channel env name enabled priority quota policy protocols force c else c).
  split_and!.
  - apply list_elem_of_fmap. by exists c.
  - by destruct (has_id id' c).
  - destruct (has_id id' c); [|done]. simpl. destruct force; [by eexists|done].
Qed.
