(* ===== verification/UnitTests.v ===== *)
(** Support for the repository's own unit tests, which the files [*Tests] translate
    and run on the model.

    A test is a boolean: the conjunction of its assertions, where a call of
    [unwrap] that would panic, or a [panic!] in a match, makes it false.  JSON
    texts are read by the grammar of JsonReader and written by [write]. *)

From Stdlib Require Import Ascii.
From S2P Require Import Prelude RustStr Float64 Json JsonReader.
Import Model.
Local Open Scope Z_scope.

(** ** Assertions *)

Definition assert_eq {A} `{EqDecision A} (x y : A) : bool := bool_decide (x = y).
Notation "x =! y" := (assert_eq x y) (at level 35, no associativity) : test_scope.

(** The continuation of a test after [unwrap], [unwrap_err] and [Option::unwrap]. *)
Definition unwrap {E A} (r : Res E A) (k : A -> bool) : bool :=
  match r with Ok a => k a | _ => false end.
Definition unwrap_err {E A} (r : Res E A) (k : E -> bool) : bool :=
  match r with Err e => k e | _ => false end.
Definition unwrap_some {A} (o : option A) (k : A -> bool) : bool :=
  match o with Some a => k a | None => false end.

Notation "'let?' x ':=' m 'in' k" := (unwrap m (fun x => k))
  (at level 200, x pattern, k at level 200) : test_scope.
Notation "'let_err' x ':=' m 'in' k" := (unwrap_err m (fun x => k))
  (at level 200, x pattern, k at level 200) : test_scope.
Notation "'let_some' x ':=' m 'in' k" := (unwrap_some m (fun x => k))
  (at level 200, x pattern, k at level 200) : test_scope.

Definition is_err {E A} (r : Res E A) : bool := match r with Err _ => true | _ => false end.
Definition is_none {A} (o : option A) : bool := match o with None => true | _ => false end.
Definition is_some {A} (o : option A) : bool := negb (is_none o).
Definition is_nil {A} (l : list A) : bool := match l with [] => true | _ => false end.

(** [(x - y).abs() < f64::EPSILON]. *)
Definition f64_abs (x : f64) : f64 := SFabs x.
Definition f64_close (x y : f64) : bool := f64_lt (f64_abs (f64_sub x y)) (f64_lit 1 (-52)).

(** A decimal literal: [dec 15 1] is [1.5]. *)
Definition dec (m : Z) (places : Z) : f64 := f64_div (f64_of_int m) (f64_of_int (10 ^ places)).

(** ** Texts *)

#[local] Existing Instance jv_eq_dec.

Definition hex_nibble (n : Z) : ascii := byte_of (if n <? 10 then 48 + n else 87 + n).

Definition escape (c : ascii) : string :=
  let n := byte_val c in
  if bool_decide (c = dquote) || bool_decide (c = backslash) then String backslash (String c EmptyString)
  else if n <? 32 then
    String backslash ("u00" +:+ String (hex_nibble (n / 16)) (String (hex_nibble (n mod 16)) EmptyString))
  else String c EmptyString.

Fixpoint escaped_text (s : string) : string :=
  match s with
  | EmptyString => EmptyString
  | String c s' => escape c +:+ escaped_text s'
  end.

Definition write_string (s : string) : string := quoted (escaped_text s).

(** The first decimal of at most [25] places, the ones with fewest first, that is
    read as [x]; a double that has none is written as [null], which no test asks
    for. *)
Fixpoint pad_zeros (n : nat) (s : string) : string :=
  match n with O => s | S n' => if (String.length s <=? n')%nat then String "0"%char (pad_zeros n' s) else s end.

Fixpoint write_places (more : nat) (s : bool) (m : positive) (e : Z) : string :=
  let k := 25 - Z.of_nat more in
  let n := if 0 <=? e then Z.pos m * 2 ^ e * 10 ^ k
           else (2 * Z.pos m * 10 ^ k + 2 ^ (- e)) / (2 * 2 ^ (- e)) in
  if bool_decide (decimal s n (- k) = Some (JFloat (S754_finite s m e))) then
    (if s then "-" else EmptyString) +:+ uint_to_string (n / 10 ^ k) +:+ "." +:+
    pad_zeros (Z.to_nat (Z.max 1 k)) (uint_to_string (n mod 10 ^ k))
  else match more with O => "null" | S more => write_places more s m e end.

Definition write_f64 (x : f64) : string :=
  match x with
  | S754_zero s => if s then "-0.0" else "0.0"
  | S754_finite s m e => write_places 25 s m e
  | _ => "null"
  end.

Fixpoint write (v : jv) : string :=
  match v with
  | JNull => "null"
  | JBool b => if b then "true" else "false"
  | JInt n => int_to_string n
  | JFloat x => write_f64 x
  | JStr s => write_string s
  | JArr l => "[" +:+ String.concat "," (write <$> l) +:+ "]"
  | JObj l => "{" +:+ String.concat ","
                ((fun kv => write_string kv.1 +:+ ":" +:+ write kv.2) <$> l) +:+ "}"
  end.

(** [serde_json] on these texts. *)
#[export] Instance text_json : SerdeJson := {|
  Value := jv;
  value_eqb := @value_eqb json;
  VNull := JNull; VU64 := JInt; VString := JStr;
  VObject m := JObj (map_to_list m);
  VArray := JArr;
  as_str := @as_str json; as_bool := @as_bool json; as_u64 := @as_u64 json;
  as_f64 := @as_f64 json; as_array := @as_array json; as_object := @as_object json;
  from_slice t := res_of_option "expected value" (read t);
  to_vec v := Ok (write v)
|}.

(** [json!(..)], written with apostrophes; the tests' literals are all valid. *)
Definition js (t : string) : jv := default JNull (read (quotes t)).

Example write_read :
  forallb (fun t => bool_decide (write (js t) = quotes t) )
    ["{'a':[1,-2,true,null,{}],'b':'x'}"; "[]"; "'\u0001'"] = true /\
  write <$> [JFloat (dec 1 1); JFloat (dec 3005 3); JFloat (f64_of_int (-15))] =
    ["0.1"; "3.005"; "-15.0"].
Proof. split; vm_compute; reflexivity. Qed.
