(* ===== verification/BillingTests.v ===== *)
(** The unit tests of [crates/model-router/src/types.rs]. *)

From S2P Require Import Prelude RustStr Float64 Json Billing.
From S2P Require Import JsonReader Serde SeedFiles UnitTests.
Local Open Scope Z_scope.
Local Open Scope test_scope.

#[local] Existing Instance grammar.
#[local] Existing Instances derived_pricing derived_columns.

(** [Instant::now()] in the tests. *)
Definition clk : Clock := {| now := from_secs 10000; utc_year := 2026; utc_month := 6 |}.
Definition ago (secs : Z) : option Z := Some (now clk - from_secs secs).

Definition test_channel_state_default_healthy : bool :=
  let state := ChannelState_new in
  health state =! Healthy && is_none (failed_at state).

Definition test_channel_state_mark_unhealthy : bool :=
  let state := mark_unhealthy clk ChannelState_new in
  health state =! Unhealthy && is_some (failed_at state).

Definition test_channel_state_record_success_clears_failure : bool :=
  let state := record_success (mark_unhealthy clk ChannelState_new) in
  health state =! Healthy && is_none (failed_at state) && consecutive_failures state =! 0.

Definition test_exponential_cooldown_first_failure_60s : bool :=
  exponential_cooldown 1 (from_secs 60) =! Some (from_secs 60).
Definition test_exponential_cooldown_second_failure_300s : bool :=
  exponential_cooldown 2 (from_secs 60) =! Some (from_secs 300).
Definition test_exponential_cooldown_third_failure_900s : bool :=
  exponential_cooldown 3 (from_secs 60) =! Some (from_secs 900).

Definition test_channel_state_cooldown_expired_first_failure : bool :=
  let state := {| health := Unhealthy; failed_at := ago 61; consecutive_failures := 1 |} in
  is_tryable clk (from_secs 60) state =! Some true.

Definition test_channel_state_cooldown_not_expired_third_failure : bool :=
  let state := {| health := Unhealthy; failed_at := ago 61; consecutive_failures := 3 |} in
  is_tryable clk (from_secs 60) state =! Some false.

Definition test_channel_state_within_cooldown : bool :=
  let state := mark_unhealthy clk ChannelState_new in
  is_tryable clk (from_secs 60) state =! Some false.

Definition test_channel_billing_is_flat_fee : bool :=
  let billing := FlatFee (Some (f64_of_int 20)) (Some (MaxRequests 1000)) FallbackToMetered in
  is_flat_fee billing && is_none (pricing_of billing).

Definition per_token (input output : Z) : Pricing :=
  PerToken {| input_per_mtok := f64_of_int input; output_per_mtok := f64_of_int output;
              cache_write_per_mtok := None; cache_read_per_mtok := None;
              thinking_per_mtok := None |} "USD".

Definition test_channel_billing_metered_has_pricing : bool :=
  let billing := Metered (per_token 3 15) in
  negb (is_flat_fee billing) && is_some (pricing_of billing).

Definition test_channel_billing_from_storage_metered : bool :=
  let json := quotes "{'type':'per_token','input_per_mtok':3.0,'output_per_mtok':15.0}" in
  let? billing := from_storage "metered" json in
  negb (is_flat_fee billing).

Definition test_channel_billing_from_storage_flatfee : bool :=
  let json := quotes "{'monthly_cost_hint':20.0,'quota':{'MaxRequests':{'per_month':1000}},'on_exhausted':'fallback_to_metered'}" in
  let? billing := from_storage "flatfee" json in
  is_flat_fee billing.

Definition test_channel_billing_from_storage_unknown_billing : bool :=
  let_err err := from_storage "unknown" "{}" in
  str_contains "unknown billing type" err.

Definition test_pricing_serde_per_token : bool :=
  let json := quotes "{'type':'per_token','input_per_mtok':3.0,'output_per_mtok':15.0}" in
  let? pricing := from_str de_pricing json in
  match pricing with
  | PerToken p _ => f64_close (input_per_mtok p) (f64_of_int 3)
                    && f64_close (output_per_mtok p) (f64_of_int 15)
  | _ => false
  end.

Definition test_pricing_serde_credits : bool :=
  let json := quotes "{'type':'credits','credits_per_mtok_input':1.0,'credits_per_mtok_output':2.0}" in
  let? pricing := from_str de_pricing json in
  match pricing with Credits _ _ _ => true | _ => false end.

Definition test_pricing_serde_char_based : bool :=
  let json := quotes "{'type':'char_based','price_per_million_chars':2.0}" in
  let? pricing := from_str de_pricing json in
  match pricing with CharBased _ _ => true | _ => false end.

Definition test_pricing_serde_per_unit : bool :=
  let json := quotes "{'type':'per_unit','metric':{'type':'duration','resolution':'1080p'},'per_unit':0.5,'currency':'USD'}" in
  let? pricing := from_str de_pricing json in
  match pricing with
  | PerUnit metric per_unit currency =>
      f64_close per_unit (dec 5 1) && currency =! "USD" && metric =! Duration_ (Some "1080p")
  | _ => false
  end.

Definition test_pricing_serde_tiered_tokens : bool :=
  let json := quotes "{'type':'tiered','dimension':{'type':'tokens'},'currency':'CNY','tiers':[{'up_to':1000000000,'price':{'type':'token','input_per_mtok':1.0,'output_per_mtok':2.0}},{'up_to':null,'price':{'type':'token','input_per_mtok':0.5,'output_per_mtok':1.0}}]}" in
  let? pricing := from_str de_pricing json in
  match pricing with
  | Tiered dimension tiers currency =>
      dimension =! Tokens && currency =! "CNY" && length tiers =! 2%nat &&
      match tiers with
      | t0 :: t1 :: _ => up_to t0 =! Some 1000000000
                         && match price t0 with Token _ => true | _ => false end
                         && up_to t1 =! None
      | _ => false
      end
  | _ => false
  end.

Definition test_billing_dimension_serde_tokens : bool :=
  let? dim := from_str (de_dimension false) (quotes "{'type':'tokens'}") in
  dim =! Tokens.

Definition test_billing_dimension_serde_images_with_quality : bool :=
  let? dim := from_str (de_dimension false) (quotes "{'type':'images','quality':'hd'}") in
  dim =! Images (Some "hd").

Definition test_tier_price_serde_token : bool :=
  let json := quotes "{'type':'token','input_per_mtok':3.0,'output_per_mtok':15.0,'cache_read_per_mtok':0.3}" in
  let? price := from_str (de_tier_price false) json in
  match price with
  | Token p => f64_close (input_per_mtok p) (f64_of_int 3)
                    && f64_close (output_per_mtok p) (f64_of_int 15)
                    && cache_read_per_mtok p =! Some (dec 3 1)
  | Unit _ => false
  end.

Definition test_tier_price_serde_unit : bool :=
  let? price := from_str (de_tier_price false) (quotes "{'type':'unit','per_unit':0.04}") in
  match price with
  | Unit per_unit => f64_close per_unit (dec 4 2)
  | Token _ => false
  end.

Example billing_tests_pass :
  forallb id
    [test_channel_state_default_healthy; test_channel_state_mark_unhealthy;
     test_channel_state_record_success_clears_failure;
     test_exponential_cooldown_first_failure_60s; test_exponential_cooldown_second_failure_300s;
     test_exponential_cooldown_third_failure_900s;
     test_channel_state_cooldown_expired_first_failure;
     test_channel_state_cooldown_not_expired_third_failure; test_channel_state_within_cooldown;
     test_channel_billing_is_flat_fee; test_channel_billing_metered_has_pricing;
     test_channel_billing_from_storage_metered; test_channel_billing_from_storage_flatfee;
     test_channel_billing_from_storage_unknown_billing; test_pricing_serde_per_token;
     test_pricing_serde_credits; test_pricing_serde_char_based; test_pricing_serde_per_unit;
     test_pricing_serde_tiered_tokens; test_billing_dimension_serde_tokens;
     test_billing_dimension_serde_images_with_quality; test_tier_price_serde_token;
     test_tier_price_serde_unit] = true.
Proof. vm_compute. reflexivity. Qed.
