(* ===== verification/RouterTests.v ===== *)
(** The unit tests of [crates/model-router/src/lib.rs].  A method on the router with
    its shared maps is a function on the router's state. *)

From S2P Require Import Prelude RustStr Float64 Json Billing Types Middleware Storage Router.
From S2P Require Import UnitTests.
Local Open Scope Z_scope.
Local Open Scope test_scope.

(** [Instant::now()] in the tests. *)
Definition clk : Clock := {| now := from_secs 10000; utc_year := 2026; utc_month := 6 |}.

Definition is_channel_selection (e : ProxyError) : bool :=
  match e with ChannelSelection _ => true | _ => false end.

Definition make_channel (id name : string) (protocols : list ProtocolEntry)
    (mappings : list ResolvedMapping) : ResolvedChannel :=
  {| rc_channel_id := id; rc_channel_name := name; rc_api_key := "sk-test";
     rc_protocols := protocols; rc_enabled := true; rc_force_protocol := None;
     rc_priority := 0; rc_mappings := mappings |}.

Definition make_mapping_flatfee (client upstream : string) (exhausted : ExhaustedAction)
    : ResolvedMapping :=
  {| rm_mapping_id := "test:" +:+ client; rm_client_name := client; rm_upstream_name := upstream;
     rm_billing := FlatFee None (Some Unlimited) exhausted; rm_allowed_protocols := [] |}.

Definition make_protocols (protocol : ApiFormat) (base_url : string) : list ProtocolEntry :=
  [{| pe_protocol := protocol_to_str protocol; pe_base_url := base_url; pe_rewrite_path := None |}].

Definition make_mapping_metered (client upstream : string) : ResolvedMapping :=
  {| rm_mapping_id := "test:" +:+ client; rm_client_name := client; rm_upstream_name := upstream;
     rm_billing := Metered (PerToken
       {| input_per_mtok := f64_of_int 3; output_per_mtok := f64_of_int 15;
          cache_write_per_mtok := None; cache_read_per_mtok := None;
          thinking_per_mtok := None |} "USD");
     rm_allowed_protocols := [] |}.

Definition make_middleware (chs : list ResolvedChannel) : Router :=
  {| channels := chs; health := ∅; quota_usage := ∅; channel_api_keys := ∅ |}.

(** [find_candidates] and [select_channel] as the tests call them. *)
Definition select (mw : Router) (client_name : string) : Res ProxyError Candidate :=
  (select_channel clk client_name (find_candidates (channels mw) client_name) mw).2.

Definition sub_channel (id : string) (m : ResolvedMapping) : ResolvedChannel :=
  make_channel id "Subscription"
    (make_protocols AnthropicMessages "https://sub.example.com") [m].

Definition metered_channel : ResolvedChannel :=
  make_channel "metered" "Metered"
    (make_protocols AnthropicMessages "https://metered.example.com")
    [make_mapping_metered "claude-sonnet" "claude-opus-4-7"].

Definition exhausted_mapping (id : string) (on_exhausted : ExhaustedAction) : ResolvedMapping :=
  {| rm_mapping_id := id; rm_client_name := "claude-sonnet"; rm_upstream_name := "claude-sonnet-4-7";
     rm_billing := FlatFee None (Some (MaxRequests 0)) on_exhausted; rm_allowed_protocols := [] |}.

(** *** Selection strategy *)

Definition test_select_flatfee_has_quota_and_healthy : bool :=
  let mw := make_middleware
    [sub_channel "sub" (make_mapping_flatfee "claude-sonnet" "claude-sonnet-4-7" FallbackToMetered);
     metered_channel] in
  let? (ch, m) := select mw "claude-sonnet" in
  rc_channel_id ch =! "sub" && is_flat_fee (rm_billing m).

Definition test_select_metered_when_flatfee_exhausted_fallback : bool :=
  let mw := make_middleware
    [sub_channel "sub-exhausted" (exhausted_mapping "flatfee-exhausted" FallbackToMetered);
     metered_channel] in
  let? (ch, _) := select mw "claude-sonnet" in
  rc_channel_id ch =! "metered".

Definition test_select_block_when_flatfee_exhausted_block : bool :=
  let mw := make_middleware [sub_channel "sub-blocked" (exhausted_mapping "flatfee-blocked" Block)] in
  let_err err := select mw "claude-sonnet" in
  is_channel_selection err.

Definition metered1 : ResolvedChannel :=
  make_channel "m1" "Metered1" (make_protocols AnthropicMessages "https://m1.example.com")
    [make_mapping_metered "claude-sonnet" "claude-opus-4-7"].

Definition test_select_all_unhealthy_returns_error : bool :=
  let mw := make_middleware
    [metered1;
     make_channel "m2" "Metered2" (make_protocols AnthropicMessages "https://m2.example.com")
       [make_mapping_metered "claude-sonnet" "claude-haiku-4-5"]] in
  let mw := mark_unhealthy_immediate clk "m1" mw in
  let mw := mark_unhealthy_immediate clk "m2" mw in
  let_err err := select mw "claude-sonnet" in
  is_channel_selection err.

Definition test_no_candidates_for_unknown_model : bool :=
  let mw := make_middleware [metered1] in
  is_nil (find_candidates (channels mw) "nonexistent-model").

Definition test_disabled_channel_skipped : bool :=
  let mw := make_middleware
    [{| rc_channel_id := "disabled"; rc_channel_name := "Disabled"; rc_api_key := "sk-test";
        rc_protocols := make_protocols AnthropicMessages "https://disabled.example.com";
        rc_enabled := false; rc_force_protocol := None; rc_priority := 0;
        rc_mappings := [make_mapping_metered "claude-sonnet" "claude-opus-4-7"] |}] in
  is_nil (find_candidates (channels mw) "claude-sonnet").

(** *** [resolve_upstream_url] *)

Definition deepseek (base_url : string) (rewrite_path : option string) : list ProtocolEntry :=
  [{| pe_protocol := "openai_chat"; pe_base_url := base_url; pe_rewrite_path := rewrite_path |}].

Definition test_resolve_upstream_url_returns_base_url_and_rewrite_path : bool :=
  let protocols := deepseek "https://api.deepseek.com" (Some "/chat/completions") in
  let? (base_url, rewrite_path) := resolve_upstream_url OpenaiChat protocols in
  base_url =! "https://api.deepseek.com" && rewrite_path =! Some "/chat/completions".

Definition test_resolve_upstream_url_no_rewrite_path : bool :=
  let protocols := deepseek "https://api.deepseek.com" None in
  let? (base_url, rewrite_path) := resolve_upstream_url OpenaiChat protocols in
  base_url =! "https://api.deepseek.com" && rewrite_path =! None.

Definition test_resolve_upstream_url_no_matching_protocol : bool :=
  is_err (resolve_upstream_url AnthropicMessages (deepseek "https://api.deepseek.com" None)).

Definition test_resolve_upstream_url_empty_base_url : bool :=
  is_err (resolve_upstream_url OpenaiChat (deepseek EmptyString None)).

(** *** [resolve_target_protocol] *)

Definition make_protocol_entries (entries : list (string * string)) : list ProtocolEntry :=
  (fun '(protocol, base_url) =>
     {| pe_protocol := protocol; pe_base_url := base_url; pe_rewrite_path := None |}) <$> entries.

Definition two_entries : list ProtocolEntry :=
  make_protocol_entries [("openai_chat", "https://api.example.com");
                         ("anthropic_messages", "https://api.example.com/anthropic")].
Definition one_entry : list ProtocolEntry :=
  make_protocol_entries [("openai_chat", "https://api.example.com")].

Definition test_resolve_target_protocol_force_valid : bool :=
  let? result := resolve_target_protocol (Some "openai_chat") (Some AnthropicMessages) two_entries in
  result =! OpenaiChat.

Definition test_resolve_target_protocol_force_not_in_protocols : bool :=
  is_err (resolve_target_protocol (Some "anthropic_messages") None one_entry).

Definition test_resolve_target_protocol_passthrough_client_match : bool :=
  let? result := resolve_target_protocol None (Some AnthropicMessages) two_entries in
  result =! AnthropicMessages.

Definition test_resolve_target_protocol_fallback_to_first : bool :=
  let? result := resolve_target_protocol None (Some OpenaiResponses) two_entries in
  result =! OpenaiChat.

Definition test_resolve_target_protocol_no_client_format : bool :=
  let? result := resolve_target_protocol None None one_entry in
  result =! OpenaiChat.

Definition test_resolve_target_protocol_empty_protocols : bool :=
  is_err (resolve_target_protocol None (Some AnthropicMessages) []).

Definition test_resolve_target_protocol_force_with_empty_protocols : bool :=
  is_err (resolve_target_protocol (Some "anthropic_messages") None []).

(** *** Health tracking *)

(** [mw.health.insert(id, ..)] of a channel that failed 61 seconds ago. *)
Definition insert_failed (id : string) (failures : Z) (mw : Router) : Router :=
  with_health (<[id := {| Billing.health := Unhealthy;
                          failed_at := Some (now clk - from_secs 61);
                          consecutive_failures := failures |}]> (health mw)) mw.

Definition test_health_mark_unhealthy_then_healthy : bool :=
  let mw := mark_unhealthy_immediate clk "ch1" (make_middleware []) in
  negb (is_healthy clk mw "ch1") &&
  let mw := mark_healthy "ch1" mw in
  is_healthy clk mw "ch1".

Definition test_health_cooldown_expired : bool :=
  let mw := insert_failed "ch1" 0 (make_middleware []) in
  is_healthy clk mw "ch1".

(** *** API key filtering *)

Definition make_channel_with_key (id api_key : string) (protocols : list ProtocolEntry)
    (mappings : list ResolvedMapping) : ResolvedChannel :=
  {| rc_channel_id := id; rc_channel_name := id; rc_api_key := api_key;
     rc_protocols := protocols; rc_enabled := true; rc_force_protocol := None;
     rc_priority := 10; rc_mappings := mappings |}.

Definition no_key_channel (id url : string) : ResolvedChannel :=
  make_channel_with_key id EmptyString (make_protocols AnthropicMessages url)
    [make_mapping_metered "claude-sonnet" "claude-sonnet-v1"].
Definition has_key_channel : ResolvedChannel :=
  make_channel_with_key "has-key" "sk-valid"
    (make_protocols AnthropicMessages "https://has-key.example.com")
    [make_mapping_metered "claude-sonnet" "claude-sonnet-v2"].

Definition test_channel_with_empty_api_key_is_skipped : bool :=
  let mw := make_middleware
    [no_key_channel "no-key" "https://no-key.example.com"; has_key_channel] in
  length (find_candidates (channels mw) "claude-sonnet") =! 2%nat &&
  let? (ch, _) := select mw "claude-sonnet" in
  rc_channel_id ch =! "has-key".

Definition test_all_channels_empty_key_returns_error : bool :=
  let mw := make_middleware [no_key_channel "no-key-1" "https://no1.example.com"] in
  let_err err := select mw "claude-sonnet" in
  is_channel_selection err.

Definition test_has_api_key_runtime_override : bool :=
  let mw := make_middleware [no_key_channel "no-key-stored" "https://no-key.example.com"] in
  negb (has_api_key mw "no-key-stored") &&
  let mw := {| channels := channels mw; health := health mw; quota_usage := quota_usage mw;
               channel_api_keys := <["no-key-stored" := "sk-override"]> (channel_api_keys mw) |} in
  has_api_key mw "no-key-stored".

Definition test_empty_key_skipped_in_fallback_phase : bool :=
  let mw := make_middleware
    [no_key_channel "no-key" "https://no-key.example.com"; has_key_channel] in
  let mw := foldl (fun mw id => insert_failed id 1 mw) mw ["no-key"; "has-key"] in
  let? (ch, _) := select mw "claude-sonnet" in
  rc_channel_id ch =! "has-key".

Example router_tests_pass :
  forallb id
    [test_select_flatfee_has_quota_and_healthy;
     test_select_metered_when_flatfee_exhausted_fallback;
     test_select_block_when_flatfee_exhausted_block; test_select_all_unhealthy_returns_error;
     test_no_candidates_for_unknown_model; test_disabled_channel_skipped;
     test_resolve_upstream_url_returns_base_url_and_rewrite_path;
     test_resolve_upstream_url_no_rewrite_path; test_resolve_upstream_url_no_matching_protocol;
     test_resolve_upstream_url_empty_base_url; test_resolve_target_protocol_force_valid;
     test_resolve_target_protocol_force_not_in_protocols;
     test_resolve_target_protocol_passthrough_client_match;
     test_resolve_target_protocol_fallback_to_first;
     test_resolve_target_protocol_no_client_format; test_resolve_target_protocol_empty_protocols;
     test_resolve_target_protocol_force_with_empty_protocols;
     test_health_mark_unhealthy_then_healthy; test_health_cooldown_expired;
     test_channel_with_empty_api_key_is_skipped; test_all_channels_empty_key_returns_error;
     test_has_api_key_runtime_override; test_empty_key_skipped_in_fallback_phase] = true.
Proof. vm_compute. reflexivity. Qed.
