(* ===== verification/CoreTests.v ===== *)
(** The unit tests of [crates/core/src]: types.rs, error.rs, compression.rs,
    middleware.rs, auth.rs, config.rs and report.rs. *)

From S2P Require Import Prelude RustStr Float64 Json Http Billing Types Middleware Report Auth.
From S2P Require Import Storage JsonReader Serde SeedFiles UnitTests.
Local Open Scope Z_scope.
Local Open Scope test_scope.
Local Open Scope st_scope.

#[local] Existing Instance grammar.

Definition clk : Clock := {| now := from_secs 10000; utc_year := 2026; utc_month := 6 |}.

(** ** types.rs *)

Definition test_api_format_from_path : bool :=
  detect_api_format "/v1/messages" =! Some AnthropicMessages &&
  detect_api_format "/v1/chat/completions" =! Some OpenaiChat &&
  detect_api_format "/v1/responses" =! Some OpenaiResponses &&
  detect_api_format "/health" =! None &&
  detect_api_format "/unknown" =! None.

Definition test_detect_agent_type_claude : bool :=
  let headers := header_insert "x-agent-type" "Claude" [] in
  detect_agent_type headers "/v1/messages" =! Claude.

Definition test_detect_agent_type_codex : bool :=
  let headers := header_insert "x-agent-type" "Codex" [] in
  detect_agent_type headers "/v1/responses" =! Codex.

Definition test_detect_agent_type_gemini : bool :=
  let headers := header_insert "x-agent-type" "Gemini" [] in
  detect_agent_type headers "/v1/chat/completions" =! Gemini.

Definition test_detect_agent_type_from_user_agent : bool :=
  let headers := header_insert "user-agent" "Claude-Code/1.0" [] in
  detect_agent_type headers "/v1/messages" =! Claude.

Definition test_detect_agent_type_unknown : bool :=
  detect_agent_type [] "/unknown" =! Unknown.

Definition ProxyRequest_new (body : string) : ProxyRequest :=
  {| req_method := "POST"; req_path := "/v1/messages"; req_headers := []; req_body := quotes body |}.

Definition test_proxy_request_is_streaming : bool :=
  let req := ProxyRequest_new "{'model':'claude-sonnet','stream':true}" in
  is_streaming req &&
  let req2 := ProxyRequest_new "{'model':'claude-sonnet','stream':false}" in
  negb (is_streaming req2) &&
  let req3 := ProxyRequest_new "{'model':'claude-sonnet'}" in
  negb (is_streaming req3).

(** ** error.rs *)

Definition test_bad_request_status_and_code : bool :=
  let err := BadRequest "invalid JSON" in
  status_code err =! 400 && error_code err =! "bad_request".

Definition test_unauthorized_status : bool :=
  let err := Unauthorized in
  status_code err =! 401 && error_code err =! "unauthorized".

Definition test_rate_limited_status : bool :=
  let err := RateLimited (from_secs 5) in
  status_code err =! 429 && error_code err =! "rate_limited".

Definition test_upstream_429_passthrough : bool :=
  let err := Upstream "upstream 429 too many requests" in
  status_code err =! 429 && error_code err =! "upstream_rate_limited".

Definition test_upstream_error_status : bool :=
  let err := Upstream "connection refused" in
  status_code err =! 502 && error_code err =! "upstream_error".

Definition test_channel_selection_status : bool :=
  let err := ChannelSelection "gpt-5" in
  status_code err =! 503 && error_code err =! "no_channel".

Definition test_internal_error_status : bool :=
  let err := Internal "db connection failed" in
  status_code err =! 500 && error_code err =! "internal_error".

Definition test_all_variants_have_distinct_codes : bool :=
  let codes := error_code <$>
    [BadRequest "x"; Unauthorized; RateLimited (from_secs 1); Upstream "timeout"; Upstream "429";
     ProtocolConversion "x"; CircuitOpen "x"; ChannelSelection "x"; Compression "x";
     Internal "x"] in
  negb ((codes !! 3%nat) =! (codes !! 4%nat)).

(** ** compression.rs *)

Definition test_default_is_zero : bool :=
  let s := CompressionStats_default in
  tokenless_pre s =! 0 && stats_total_saved s =! 0.

Definition test_tokenless_saved : bool :=
  let s := {| tokenless_pre := 800; tokenless_post := 300; tokenless_experimental := 0;
              proxy_req_pre := 0; proxy_req_post := 0; proxy_res_pre := 0; proxy_res_post := 0;
              stats_rtk_saved := 0 |} in
  tokenless_saved s =! 500.

Definition test_saturating_sub_prevents_underflow : bool :=
  let s := {| tokenless_pre := 100; tokenless_post := 200; tokenless_experimental := 0;
              proxy_req_pre := 0; proxy_req_post := 0; proxy_res_pre := 0; proxy_res_post := 0;
              stats_rtk_saved := 0 |} in
  tokenless_saved s =! 0.

Definition test_total_saved_sums_all_layers : bool :=
  let s := {| tokenless_pre := 800; tokenless_post := 300; tokenless_experimental := 150;
              proxy_req_pre := 300; proxy_req_post := 220; proxy_res_pre := 1200;
              proxy_res_post := 800; stats_rtk_saved := 0 |} in
  stats_total_saved s =! 1130.

Definition tokenless_json : string -> option CompressionStats :=
  parse_tokenless_json (fun t => ok (from_str de_tokenless_header t)).

Definition test_parse_valid_json : bool :=
  let_some stats := tokenless_json (quotes "{'pre':800,'post':300,'experimental':150}") in
  tokenless_pre stats =! 800 && tokenless_post stats =! 300 && tokenless_experimental stats =! 150.

Definition test_parse_partial_json : bool :=
  let_some stats := tokenless_json (quotes "{'pre':500}") in
  tokenless_pre stats =! 500 && tokenless_post stats =! 0 && tokenless_experimental stats =! 0.

Definition test_parse_invalid_json_returns_none : bool :=
  is_none (tokenless_json "not json") && is_none (tokenless_json EmptyString).

Definition test_parse_missing_all_fields_returns_default : bool :=
  let_some stats := tokenless_json "{}" in
  tokenless_pre stats =! 0.

Definition test_proxy_schema_saved : bool :=
  let s := {| tokenless_pre := 0; tokenless_post := 0; tokenless_experimental := 0;
              proxy_req_pre := 500; proxy_req_post := 350; proxy_res_pre := 0;
              proxy_res_post := 0; stats_rtk_saved := 0 |} in
  proxy_schema_saved s =! 150.

Definition test_proxy_response_saved : bool :=
  let s := {| tokenless_pre := 0; tokenless_post := 0; tokenless_experimental := 0;
              proxy_req_pre := 0; proxy_req_post := 0; proxy_res_pre := 2000;
              proxy_res_post := 1200; stats_rtk_saved := 0 |} in
  proxy_response_saved s =! 800.

(** ** middleware.rs

    The atomic counters are cells of the shared world. *)

Abbreviation Atomics := (gmap nat Z).

(** [fetch_add(1)] returns the old value. *)
Definition fetch_add (cell : nat) : M Atomics Z := fun w =>
  let n := default 0 (w !! cell) in (<[cell := n + 1]> w, Ok n).
Definition store (cell : nat) (n : Z) : M Atomics unit := fun w => (<[cell := n]> w, Ok tt).

(** [to_string] of an error, by the attributes on its variants; the debug form of
    a [Duration] is an argument. *)
Definition proxy_error_to_string (debug_duration : Z -> string) (e : ProxyError) : string :=
  match e with
  | Upstream source => "upstream error: " +:+ source
  | ProtocolConversion msg => "protocol conversion error: " +:+ msg
  | ChannelSelection model => "no channel available for model '" +:+ model +:+ "'"
  | Compression msg => "compression error: " +:+ msg
  | BadRequest msg => "bad request: " +:+ msg
  | Unauthorized => "unauthorized"
  | RateLimited retry_after => "rate limited, retry after " +:+ debug_duration retry_after
  | CircuitOpen channel => "circuit open for channel '" +:+ channel +:+ "'"
  | Internal msg => "internal error: " +:+ msg
  end.

Definition RecordingMiddleware (name : string) (request_order response_order request_counter
    response_counter : nat) (request_err : option ProxyError) : ProxyMiddleware Atomics := {|
  mw_name := name;
  on_request _ rc :=
    match request_err with
    | Some err => st_err (BadRequest (proxy_error_to_string int_to_string err))
    | None =>
        let! seq := fetch_add request_order in
        let! _ := store request_counter seq in
        st_ret rc
    end;
  on_response _ _ res :=
    let! seq := fetch_add response_order in
    let! _ := store response_counter seq in
    st_ret res;
  on_init := default_on_init
|}.

Definition make_request : ProxyRequest := ProxyRequest_new "{'model':'test'}".
Definition make_context : ConnectionContext := ConnectionContext_new clk 1 Unknown None None.
Definition make_response : ProxyResponse :=
  {| res_status := 200; res_headers := []; res_body := EmptyString; res_is_streaming := false |}.

Definition test_on_request_runs_in_registration_order : bool :=
  let middlewares :=
    [RecordingMiddleware "A" 0 1 2 3 None; RecordingMiddleware "B" 0 4 5 6 None;
     RecordingMiddleware "C" 0 7 8 9 None] in
  let '(w, result) := run_on_request_chain middlewares clk (make_request, make_context) ∅ in
  let? _ := result in
  w !! 0%nat =! Some 3.

Definition test_on_response_runs_in_reverse_registration_order : bool :=
  let middlewares :=
    [RecordingMiddleware "A" 1 0 2 3 None; RecordingMiddleware "B" 4 0 5 6 None;
     RecordingMiddleware "C" 7 0 8 9 None] in
  let '(w, result) := run_on_response_chain middlewares clk make_context make_response ∅ in
  let? _ := result in
  w !! 0%nat =! Some 3.

Definition test_on_request_aborts_on_error : bool :=
  let middlewares :=
    [RecordingMiddleware "ok" 0 1 2 3 None;
     RecordingMiddleware "err" 4 5 6 7 (Some (BadRequest "test error"));
     RecordingMiddleware "never" 8 9 10 11 None] in
  let '(_, result) := run_on_request_chain middlewares clk (make_request, make_context) ∅ in
  is_err result.

(** ** auth.rs and config.rs *)

Definition test_extract_api_key_x_api_key : bool :=
  let headers := header_insert "x-api-key" "sk-test-key" [] in
  extract_api_key headers =! Some "sk-test-key".

Definition test_extract_api_key_bearer : bool :=
  let headers := header_insert "authorization" "Bearer sk-test-key" [] in
  extract_api_key headers =! Some "sk-test-key".

Definition test_extract_api_key_x_api_key_priority : bool :=
  let headers := header_insert "x-api-key" "sk-x-api" [] in
  let headers := header_insert "authorization" "Bearer sk-bearer" headers in
  extract_api_key headers =! Some "sk-x-api".

Definition test_extract_api_key_none : bool := extract_api_key [] =! None.

Definition test_extract_api_key_malformed_bearer : bool :=
  let headers := header_insert "authorization" "Basic sk-test" [] in
  extract_api_key headers =! None.

Definition test_auth_state_has_auth_empty : bool :=
  let state := {| as_api_key := None; as_token := None; as_auth_keys := ∅ |} in
  negb (has_auth state).

Definition test_auth_state_has_auth_with_key : bool :=
  let state := {| as_api_key := Some "sk-test"; as_token := None; as_auth_keys := ∅ |} in
  has_auth state.

Definition test_default_config_values : bool :=
  let config := ProxyConfig_default in
  max_body_size config =! (16 * 1024 * 1024) &&
  upstream_read_timeout config =! from_secs 600 &&
  upstream_connect_timeout config =! from_secs 10 &&
  negb (config_has_auth config).

(** A configuration with some credentials and the defaults. *)
Definition config_with (key token : option string) (keys : gmap string AuthKeyEntry) : ProxyConfig :=
  {| listen := listen ProxyConfig_default; max_body_size := max_body_size ProxyConfig_default;
     upstream_read_timeout := upstream_read_timeout ProxyConfig_default;
     upstream_connect_timeout := upstream_connect_timeout ProxyConfig_default;
     proxy_api_key := key; proxy_token := token; proxy_auth_keys := keys |}.

Definition test_has_auth_with_api_key : bool :=
  config_has_auth (config_with (Some "sk-test") None ∅).
Definition test_has_auth_with_token : bool :=
  config_has_auth (config_with None (Some "token-test") ∅).
Definition test_has_auth_with_role_mapping : bool :=
  config_has_auth (config_with None None {[ "sk-test" := {| role := "coder" |} ]}).

(** ** report.rs

    The tests have a copy of the reader of their own, for one file and cursor;
    here they run the reader itself. *)

Definition read_report (content : string) (cursors : Cursors)
    : Cursors * option TokenlessAccumulator :=
  consume_report (fun t => ok (from_str de_proxy_report t)) (fun _ => Some content) "s" cursors.

Definition test_incremental_empty_returns_none : bool := is_none (read_report EmptyString ∅).2.

Definition test_incremental_first_read : bool :=
  let jsonl := quotes "{'sessionId':'s','agentId':'a','projectPath':'test-proj','userName':'byx','opType':'rewrite-command','method':'Rtk','beforeTokens':100,'afterTokens':50,'savedTokens':50,'beforeBytes':400,'afterBytes':200,'savedBytes':200}" in
  let '(cursors, r) := read_report jsonl ∅ in
  let_some acc := r in
  total_saved acc =! 50 && rtk_saved acc =! 50 && response_saved acc =! 0 &&
  schema_saved acc =! 0 && acc_project_path acc =! Some "test-proj" &&
  acc_user_name acc =! Some "byx" && (0 <? default 0 (cursors !! "s")).

Definition test_per_category_splitting : bool :=
  let lines := quotes <$>
    ["{'sessionId':'s','agentId':'a','projectPath':'p','userName':'u','opType':'rewrite-command','method':'Rtk','beforeTokens':100,'afterTokens':50,'savedTokens':30,'beforeBytes':100,'afterBytes':50,'savedBytes':50}";
     "{'sessionId':'s','agentId':'a','opType':'rewrite-command','method':'Rtk','beforeTokens':50,'afterTokens':20,'savedTokens':25,'beforeBytes':200,'afterBytes':80,'savedBytes':120}";
     "{'sessionId':'s','agentId':'a','opType':'compress-response','method':'Standard','beforeTokens':500,'afterTokens':300,'savedTokens':200,'beforeBytes':2000,'afterBytes':1200,'savedBytes':800}";
     "{'sessionId':'s','agentId':'a','opType':'compress-schema','method':'ToonHrv','beforeTokens':1000,'afterTokens':700,'savedTokens':300,'beforeBytes':4000,'afterBytes':2800,'savedBytes':1200}"] in
  let content := String.concat nl lines in
  let_some acc := (read_report content ∅).2 in
  total_saved acc =! (30 + 25 + 200 + 300) && rtk_saved acc =! (30 + 25) &&
  response_saved acc =! 200 && schema_saved acc =! 300 &&
  acc_project_path acc =! Some "p" && acc_user_name acc =! Some "u".

Definition first_line : string :=
  quotes "{'sessionId':'s','agentId':'a','projectPath':'p','userName':'u','opType':'rewrite-command','method':'Rtk','beforeTokens':100,'afterTokens':50,'savedTokens':50,'beforeBytes':400,'afterBytes':200,'savedBytes':200}".

Definition test_incremental_second_read_only_new_lines : bool :=
  let '(cursors, r1) := read_report first_line ∅ in
  let_some acc1 := r1 in
  total_saved acc1 =! 50 &&
  let second_line := quotes "{'sessionId':'s','agentId':'a','projectPath':'p','userName':'u','opType':'rewrite-command','method':'Rtk','beforeTokens':200,'afterTokens':100,'savedTokens':100,'beforeBytes':800,'afterBytes':400,'savedBytes':400}" in
  let full := first_line +:+ nl +:+ second_line +:+ nl in
  let_some acc2 := (read_report full cursors).2 in
  total_saved acc2 =! 100 && acc_project_path acc2 =! Some "p" && acc_user_name acc2 =! Some "u".

Definition test_incremental_no_new_data_returns_meta : bool :=
  let cursors := (read_report first_line ∅).1 in
  let_some acc := (read_report first_line cursors).2 in
  total_saved acc =! 0 && acc_project_path acc =! Some "p" && acc_user_name acc =! Some "u" &&
  str_is_empty (breakdown_json acc).

Example core_tests_pass :
  forallb id
    [test_api_format_from_path; test_detect_agent_type_claude; test_detect_agent_type_codex;
     test_detect_agent_type_gemini; test_detect_agent_type_from_user_agent;
     test_detect_agent_type_unknown; test_proxy_request_is_streaming;
     test_bad_request_status_and_code; test_unauthorized_status; test_rate_limited_status;
     test_upstream_429_passthrough; test_upstream_error_status; test_channel_selection_status;
     test_internal_error_status; test_all_variants_have_distinct_codes; test_default_is_zero;
     test_tokenless_saved; test_saturating_sub_prevents_underflow;
     test_total_saved_sums_all_layers; test_parse_valid_json; test_parse_partial_json;
     test_parse_invalid_json_returns_none; test_parse_missing_all_fields_returns_default;
     test_proxy_schema_saved; test_proxy_response_saved;
     test_on_request_runs_in_registration_order;
     test_on_response_runs_in_reverse_registration_order; test_on_request_aborts_on_error;
     test_extract_api_key_x_api_key; test_extract_api_key_bearer;
     test_extract_api_key_x_api_key_priority; test_extract_api_key_none;
     test_extract_api_key_malformed_bearer; test_auth_state_has_auth_empty;
     test_auth_state_has_auth_with_key; test_default_config_values; test_has_auth_with_api_key;
     test_has_auth_with_token; test_has_auth_with_role_mapping;
     test_incremental_empty_returns_none; test_incremental_first_read;
     test_per_category_splitting; test_incremental_second_read_only_new_lines;
     test_incremental_no_new_data_returns_meta] = true.
Proof. vm_compute. reflexivity. Qed.
