(* ===== verification/ResilienceTests.v ===== *)
(** The unit tests of [crates/resilience/src]: retry.rs, rate_limiter.rs and
    circuit_breaker.rs, and of [crates/compress/src/token_counter.rs].

    The tests run on the clock of the machine; here every operation is given the
    time at which it happens. *)

From Stdlib Require Import Ascii.
From S2P Require Import Prelude RustStr Float64 Json Http Billing Types Middleware.
From S2P Require Import Resilience Compress UnitTests.
Local Open Scope Z_scope.
Local Open Scope test_scope.

(** [t] milliseconds after the start of a test. *)
Definition at_ms (t : Z) : Clock :=
  {| now := from_secs 10000 + from_millis t; utc_year := 2026; utc_month := 6 |}.

(** ** retry.rs *)

Definition test_is_retryable_server_errors : bool :=
  is_retryable 500 && is_retryable 502 && is_retryable 503 && is_retryable 504 && is_retryable 429.

Definition test_is_not_retryable_client_errors : bool :=
  negb (is_retryable 400) && negb (is_retryable 401) && negb (is_retryable 403)
  && negb (is_retryable 404).

Definition test_is_not_retryable_success : bool :=
  negb (is_retryable 200) && negb (is_retryable 201).

Definition test_backoff_delays : bool :=
  let config := Retry.RetryConfig_default in
  Retry.backoff_delay 0 config =! Some (from_millis 100) &&
  Retry.backoff_delay 1 config =! Some (from_millis 200) &&
  Retry.backoff_delay 2 config =! Some (from_millis 400) &&
  Retry.backoff_delay 3 config =! Some (from_millis 800).

Definition test_backoff_capped_at_max : bool :=
  let config := {| Retry.max_retries := Retry.max_retries Retry.RetryConfig_default;
                   Retry.base_delay := Retry.base_delay Retry.RetryConfig_default;
                   Retry.max_delay := from_secs 1 |} in
  Retry.backoff_delay 6 config =! Some (from_millis 1000).

(** ** rate_limiter.rs *)

Definition test_token_bucket_initial_has_tokens : bool :=
  let bucket := RateLimiter.TokenBucket_new (at_ms 0) 10 (from_secs 60) in
  (RateLimiter.try_consume (at_ms 1) bucket).2.

Definition test_token_bucket_exhaustion : bool :=
  let bucket := RateLimiter.TokenBucket_new (at_ms 0) 3 (from_secs 60) in
  let '(bucket, ok1) := RateLimiter.try_consume (at_ms 1) bucket in
  let '(bucket, ok2) := RateLimiter.try_consume (at_ms 2) bucket in
  let '(bucket, ok3) := RateLimiter.try_consume (at_ms 3) bucket in
  let '(_, ok4) := RateLimiter.try_consume (at_ms 4) bucket in
  ok1 && ok2 && ok3 && negb ok4.

Definition is_rate_limited {A} (r : Res ProxyError A) : bool :=
  match r with Err (RateLimited _) => true | _ => false end.

Definition test_rate_limiter_rejects_when_limit_exceeded : bool :=
  let config := {| RateLimiter.max_requests := 2; RateLimiter.window := from_secs 60 |} in
  let '(b, r1) := RateLimiter.check_rate_limit config (at_ms 0) "ch-1" ∅ in
  let '(b, r2) := RateLimiter.check_rate_limit config (at_ms 1) "ch-1" b in
  let '(_, r3) := RateLimiter.check_rate_limit config (at_ms 2) "ch-1" b in
  is_ok r1 && is_ok r2 && is_rate_limited r3.

Definition test_different_channels_independent : bool :=
  let config := {| RateLimiter.max_requests := 1; RateLimiter.window := from_secs 60 |} in
  let '(b, r1) := RateLimiter.check_rate_limit config (at_ms 0) "ch-1" ∅ in
  let '(b, r2) := RateLimiter.check_rate_limit config (at_ms 1) "ch-1" b in
  let '(_, r3) := RateLimiter.check_rate_limit config (at_ms 2) "ch-2" b in
  is_ok r1 && is_rate_limited r2 && is_ok r3.

(** ** circuit_breaker.rs *)

Import CircuitBreaker.

(** [circuits.entry(channel).or_insert_with(ChannelCircuit::new)] of a new breaker. *)
Definition fresh_circuit (channel : string) : ChannelCircuit :=
  default ChannelCircuit_new ((∅ : Circuits) !! channel).

Definition test_circuit_starts_closed : bool := state (fresh_circuit "ch-1") =! Closed.

Definition test_circuit_opens_after_threshold : bool :=
  let circuit := record_failure (at_ms 0) 2 (fresh_circuit "ch-test") in
  state circuit =! Closed && failure_count circuit =! 1 &&
  let circuit := record_failure (at_ms 1) 2 circuit in
  state circuit =! Open && failure_count circuit =! 2.

Definition test_open_circuit_rejects_requests : bool :=
  let circuit := record_failure (at_ms 0) 1 (fresh_circuit "ch-2") in
  negb (allow_request (at_ms 1) (from_secs 60) circuit).2.

Definition test_circuit_allows_probe_after_cooldown : bool :=
  let circuit := record_failure (at_ms 0) 1 (fresh_circuit "ch-3") in
  state circuit =! Open &&
  let '(circuit, allowed) := allow_request (at_ms 2) (from_millis 1) circuit in
  allowed && state circuit =! HalfOpen.

Definition test_success_closes_half_open_circuit : bool :=
  let circuit := record_failure (at_ms 0) 1 (fresh_circuit "ch-4") in
  let '(circuit, _) := allow_request (at_ms 2) (from_millis 1) circuit in
  state circuit =! HalfOpen &&
  let circuit := record_success circuit in
  state circuit =! Closed && failure_count circuit =! 0.

(** ** token_counter.rs *)

Definition test_empty : bool := count EmptyString =! 0.
Definition test_short_text : bool := count "hello" =! 2.
Definition test_four_chars_is_one_token : bool := count "abcd" =! 1.
Definition test_invalid_utf8_falls_back_to_empty : bool :=
  count (String "255"%char (String "254"%char (String "253"%char EmptyString))) =! 0.
Definition test_json_like_body : bool :=
  let body := js "{'key': 'value', 'number': 42}" in
  let? bytes := to_vec body in
  0 <? count bytes.

Example resilience_tests_pass :
  forallb id
    [test_is_retryable_server_errors; test_is_not_retryable_client_errors;
     test_is_not_retryable_success; test_backoff_delays; test_backoff_capped_at_max;
     test_token_bucket_initial_has_tokens; test_token_bucket_exhaustion;
     test_rate_limiter_rejects_when_limit_exceeded; test_different_channels_independent;
     test_circuit_starts_closed; test_circuit_opens_after_threshold;
     test_open_circuit_rejects_requests; test_circuit_allows_probe_after_cooldown;
     test_success_closes_half_open_circuit; test_empty; test_short_text;
     test_four_chars_is_one_token; test_invalid_utf8_falls_back_to_empty;
     test_json_like_body] = true.
Proof. vm_compute. reflexivity. Qed.
