(* ===== verification/CostTests.v ===== *)
(** The unit tests of [crates/cost/src/lib.rs] and [crates/storage/src/types.rs]. *)

From S2P Require Import Prelude RustStr Float64 Json Billing Types Storage Cost.
From S2P Require Import JsonReader Serde SeedFiles UnitTests.
Local Open Scope Z_scope.
Local Open Scope test_scope.

#[local] Existing Instance grammar.

(** ** cost: usage extraction *)

Definition test_extract_anthropic_usage : bool :=
  let body := js "{'id': 'msg_123', 'type': 'message',
    'usage': {'input_tokens': 1500, 'output_tokens': 300,
              'cache_creation_input_tokens': 500, 'cache_read_input_tokens': 200}}" in
  let usage := extract_usage body (Some AnthropicMessages) in
  input_tokens usage =! 1500 && output_tokens usage =! 300 && cache_write_tokens usage =! 500 &&
  cache_read_tokens usage =! 200 && thinking_tokens usage =! 0.

Definition test_extract_openai_chat_usage : bool :=
  let body := js "{'id': 'chatcmpl-123',
    'usage': {'prompt_tokens': 800, 'completion_tokens': 150,
              'prompt_tokens_details': { 'cached_tokens': 300 }}}" in
  let usage := extract_usage body (Some OpenaiChat) in
  input_tokens usage =! 800 && output_tokens usage =! 150 && cache_read_tokens usage =! 300 &&
  cache_write_tokens usage =! 0.

Definition test_extract_openai_responses_usage : bool :=
  let body := js "{'id': 'resp_123',
    'usage': {'input_tokens': 1200, 'output_tokens': 400,
              'input_tokens_details': { 'cached_tokens': 500 }}}" in
  let usage := extract_usage body (Some OpenaiResponses) in
  input_tokens usage =! 1200 && output_tokens usage =! 400 && cache_read_tokens usage =! 500.

Definition test_extract_usage_missing_returns_zero : bool :=
  let body := js "{'id': 'msg_123'}" in
  let usage := extract_usage body (Some AnthropicMessages) in
  input_tokens usage =! 0 && output_tokens usage =! 0.

Definition test_extract_usage_none_format_autodetects : bool :=
  let body := js "{'usage': { 'prompt_tokens': 100, 'completion_tokens': 50 }}" in
  let usage := extract_usage body None in
  input_tokens usage =! 100 && output_tokens usage =! 50.

Definition test_should_autodetect_openai_responses_via_input_tokens_details : bool :=
  let body := js "{'usage': {'input_tokens': 1200, 'output_tokens': 400,
                             'input_tokens_details': { 'cached_tokens': 500 }}}" in
  let usage := extract_usage body None in
  input_tokens usage =! 1200 && output_tokens usage =! 400 && cache_read_tokens usage =! 500.

Definition test_should_autodetect_anthropic_via_cache_creation_tokens : bool :=
  let body := js "{'usage': {'input_tokens': 1500, 'output_tokens': 300,
                             'cache_creation_input_tokens': 500, 'cache_read_input_tokens': 200}}" in
  let usage := extract_usage body None in
  input_tokens usage =! 1500 && output_tokens usage =! 300 && cache_write_tokens usage =! 500 &&
  cache_read_tokens usage =! 200.

(** *** Streaming extraction *)

Definition test_extract_anthropic_streaming_message_delta : bool :=
  let sse := quotes "data: {'type':'message_start'}
data: {'type':'content_block_delta','delta':{'text':'Hello'}}
data: {'type':'message_delta','usage':{'input_tokens':1500,'output_tokens':300}}
data: {'type':'message_stop'}
" in
  let usage := extract_usage_sse sse in
  input_tokens usage =! 1500 && output_tokens usage =! 300.

Definition test_extract_openai_chat_streaming : bool :=
  let sse := quotes "data: {'choices':[{'delta':{'content':'Hi'}}]}
data: {'choices':[{'delta':{}}],'usage':{'prompt_tokens':800,'completion_tokens':150}}
data: [DONE]
" in
  let usage := extract_usage_sse sse in
  input_tokens usage =! 800 && output_tokens usage =! 150.

Definition test_extract_openai_responses_streaming : bool :=
  let sse := quotes "data: {'type':'response.created'}
data: {'type':'response.output_text.delta','delta':'Hello'}
data: {'type':'response.completed','response':{'usage':{'input_tokens':1200,'output_tokens':400}}}
" in
  let usage := extract_usage_sse sse in
  input_tokens usage =! 1200 && output_tokens usage =! 400.

(** *** Cost calculation *)

Definition usage_of (input output cache_write cache_read : Z) : Usage :=
  {| input_tokens := input; output_tokens := output; cache_write_tokens := cache_write;
     cache_read_tokens := cache_read; thinking_tokens := 0 |}.

Definition prices_of (input output : f64) (cache_write cache_read : option f64) : TokenPrices :=
  {| input_per_mtok := input; output_per_mtok := output; cache_write_per_mtok := cache_write;
     cache_read_per_mtok := cache_read; thinking_per_mtok := None |}.

(** [(cost - expected).abs() < bound]. *)
Definition near (bound cost expected : f64) : bool :=
  f64_lt (f64_abs (f64_sub cost expected)) bound.

Definition test_calc_cost_per_token : bool :=
  let usage := usage_of 1000000 500000 100000 200000 in
  let pricing := PerToken (prices_of (dec 3 0) (dec 15 0) (Some (dec 375 2)) (Some (dec 3 1))) "USD" in
  let '(cost, unit) := calc_cost usage pricing in
  unit =! "USD" &&
  let expected := f64_add (f64_add (f64_add (dec 3 0) (dec 75 1)) (dec 375 3)) (dec 6 2) in
  near (dec 1 3) cost expected.

Definition test_calc_cost_credits : bool :=
  let usage := usage_of 1000000 500000 0 0 in
  let pricing := Credits (Some (dec 1 0)) (Some (dec 2 0)) (Some (dec 1 2)) in
  let '(cost, unit) := calc_cost usage pricing in
  unit =! "credits" &&
  near (dec 1 3) cost (f64_add (f64_add (dec 1 0) (dec 1 0)) (dec 1 2)).

Definition test_calc_cost_char_based : bool :=
  let usage := usage_of 1000000 500000 0 0 in
  let '(cost, unit) := calc_cost usage (CharBased (dec 2 0) (Some (dec 1 0))) in
  unit =! "CNY" && near (dec 1 3) cost (dec 225 2).

Definition test_calc_subscription_cost_zero : bool :=
  let '(cost, unit) := calc_subscription_cost in
  f64_close cost f64_zero && unit =! "USD".

Definition test_calc_cost_per_unit : bool :=
  let '(cost, unit) := calc_cost Usage_default (PerUnit (Duration_ (Some "1080p")) (dec 50 2) "USD") in
  unit =! "USD" && near (dec 1 3) cost (dec 50 2).

Definition tier (bound : option Z) (input output cache_read : f64) : PricingTier :=
  {| up_to := bound; price := Token (prices_of input output None (Some cache_read)) |}.

Definition test_calc_cost_tiered_tokens_first_tier : bool :=
  let usage := usage_of 1000000 500000 0 0 in
  let pricing := Tiered Tokens
    [tier (Some 1000000000) (dec 1 0) (dec 2 0) (dec 2 2);
     tier (Some 5000000000) (dec 8 1) (dec 16 1) (dec 15 3);
     tier None (dec 5 1) (dec 1 0) (dec 1 2)] "CNY" in
  let '(cost, unit) := calc_cost usage pricing in
  unit =! "CNY" && near (dec 1 3) cost (dec 2 0).

Definition test_calc_cost_tiered_tokens_with_cache_read : bool :=
  let usage := usage_of 1000000 500000 0 2000000 in
  let pricing := Tiered Tokens [tier None (dec 3 0) (dec 15 0) (dec 3 1)] "USD" in
  let '(cost, unit) := calc_cost usage pricing in
  unit =! "USD" && near (dec 1 3) cost (dec 111 1).

(** The three cases of the parameterised test; [mode] chooses the formula. *)
Definition pricing_calculation (mode : string) (input_rate output_rate : f64)
    (input_tokens output_tokens : Z) (expected_approx : f64) : bool :=
  let usage := usage_of input_tokens output_tokens 0 0 in
  let pricing :=
    if bool_decide (mode = "per_token") then
      Some (PerToken (prices_of input_rate output_rate None None) "USD")
    else if bool_decide (mode = "credits") then
      Some (Credits (Some input_rate) (Some output_rate) None)
    else if bool_decide (mode = "char_based") then Some (CharBased input_rate (Some (dec 1 0)))
    else None in
  let_some pricing := pricing in
  let '(cost, _) := calc_cost usage pricing in
  near (dec 1 2) cost expected_approx.

Definition test_pricing_calculation : bool :=
  pricing_calculation "per_token" (dec 3 0) (dec 15 0) 1000000 500000 (dec 105 1) &&
  pricing_calculation "credits" (dec 1 0) (dec 2 0) 1000000 500000 (dec 2 0) &&
  pricing_calculation "char_based" (dec 2 0) (dec 0 0) 1000000 500000 (dec 225 2).

(** ** storage: protocol entries and channels on the wire *)

Definition test_protocol_entry_deserialize_full : bool :=
  let json := quotes "{'protocol':'openai_chat','baseUrl':'https://api.deepseek.com','rewritePath':'/chat/completions'}" in
  let? entry := from_str de_protocol_entry json in
  pe_protocol entry =! "openai_chat" && pe_base_url entry =! "https://api.deepseek.com" &&
  pe_rewrite_path entry =! Some "/chat/completions".

Definition test_protocol_entry_deserialize_without_rewrite_path : bool :=
  let json := quotes "{'protocol':'openai_chat','baseUrl':'https://api.deepseek.com'}" in
  let? entry := from_str de_protocol_entry json in
  pe_protocol entry =! "openai_chat" && pe_base_url entry =! "https://api.deepseek.com" &&
  pe_rewrite_path entry =! None.

Definition test_protocol_entry_serialize_skips_none_rewrite_path : bool :=
  let entry := {| pe_protocol := "anthropic_messages"; pe_base_url := "https://api.anthropic.com";
                  pe_rewrite_path := None |} in
  let json := write (ser_protocol_entry entry) in
  negb (str_contains "rewritePath" json) && str_contains "baseUrl" json.

Definition test_protocol_entry_serialize_with_rewrite_path : bool :=
  let entry := {| pe_protocol := "anthropic_messages"; pe_base_url := "https://api.anthropic.com";
                  pe_rewrite_path := Some "/anthropic/v1/messages" |} in
  let json := write (ser_protocol_entry entry) in
  str_contains "rewritePath" json && str_contains "/anthropic/v1/messages" json.

Definition test_protocols_json_array_deserialize : bool :=
  let json := quotes "[
            {'protocol':'anthropic_messages','baseUrl':'https://api.anthropic.com','rewritePath':'/anthropic/v1/messages'},
            {'protocol':'openai_chat','baseUrl':'https://api.deepseek.com'}
        ]" in
  let? entries := from_str (de_list de_protocol_entry) json in
  match entries with
  | [e0; e1] =>
      pe_protocol e0 =! "anthropic_messages" && pe_base_url e0 =! "https://api.anthropic.com" &&
      pe_rewrite_path e0 =! Some "/anthropic/v1/messages" &&
      pe_protocol e1 =! "openai_chat" && pe_rewrite_path e1 =! None
  | _ => false
  end.

Definition test_channel_force_protocol_none_by_default : bool :=
  let json := quotes "{'id':'test','name':'Test','apiKeyRef':'sk-test','protocol':'openai_chat','protocols':'[]','isBuiltin':false,'enabled':true,'createdAt':0,'updatedAt':0,'healthStatus':'Healthy','consecutiveFailures':0,'billingType':'Metered','monthlyQuota':null,'quotaPolicy':'fallback','priority':1}" in
  let? ch := from_str de_channel json in
  ch_force_protocol ch =! None.

Definition test_channel_force_protocol_some : bool :=
  let json := quotes "{'id':'test','name':'Test','apiKeyRef':'sk-test','protocol':'anthropic_messages','protocols':'[]','isBuiltin':false,'enabled':true,'createdAt':0,'updatedAt':0,'healthStatus':'Healthy','consecutiveFailures':0,'billingType':'Metered','monthlyQuota':null,'quotaPolicy':'fallback','priority':1,'forceProtocol':'openai_chat'}" in
  let? ch := from_str de_channel json in
  ch_force_protocol ch =! Some "openai_chat".

Definition test_channel_no_base_url_field : bool :=
  let json := quotes "{'id':'test','name':'Test','apiKeyRef':'sk-test','protocol':'openai_chat','protocols':'[]','isBuiltin':false,'enabled':true,'createdAt':0,'updatedAt':0,'healthStatus':'Healthy','consecutiveFailures':0,'billingType':'Metered','monthlyQuota':null,'quotaPolicy':'fallback','priority':1}" in
  let? ch := from_str de_channel json in
  ch_id ch =! "test".

Example cost_tests_pass :
  forallb id
    [test_extract_anthropic_usage; test_extract_openai_chat_usage;
     test_extract_openai_responses_usage; test_extract_usage_missing_returns_zero;
     test_extract_usage_none_format_autodetects;
     test_should_autodetect_openai_responses_via_input_tokens_details;
     test_should_autodetect_anthropic_via_cache_creation_tokens;
     test_extract_anthropic_streaming_message_delta; test_extract_openai_chat_streaming;
     test_extract_openai_responses_streaming; test_calc_cost_per_token; test_calc_cost_credits;
     test_calc_cost_char_based; test_calc_subscription_cost_zero; test_calc_cost_per_unit;
     test_calc_cost_tiered_tokens_first_tier; test_calc_cost_tiered_tokens_with_cache_read;
     test_pricing_calculation; test_protocol_entry_deserialize_full;
     test_protocol_entry_deserialize_without_rewrite_path;
     test_protocol_entry_serialize_skips_none_rewrite_path;
     test_protocol_entry_serialize_with_rewrite_path; test_protocols_json_array_deserialize;
     test_channel_force_protocol_none_by_default; test_channel_force_protocol_some;
     test_channel_no_base_url_field] = true.
Proof. vm_compute. reflexivity. Qed.
