(* ===== verification/BridgeTests.v ===== *)
(** The unit tests of [crates/bridge/src/lib.rs], on a stand-in for the crate
    [llm_bridge_core]: its conversions keep the fields of a JSON object and set the
    path of the target's endpoint, and its check of the nesting allows 64 levels.
    Two tests are left out: the one that looks for events in a converted stream,
    which only that crate can produce, and the one of the [Debug] output. *)

From S2P Require Import Prelude RustStr Float64 Json Http Billing Types Middleware Bridge.
From S2P Require Import JsonReader UnitTests.
Import Model.
Local Open Scope Z_scope.
Local Open Scope test_scope.

Definition clk : Clock := {| now := from_secs 10000; utc_year := 2026; utc_month := 6 |}.

Definition convert_to (path : string) (r : TransformRequest) : Res string TransformResponse :=
  match read (tr_body r) with
  | Some (JObj _) => Ok {| ts_headers := tr_headers r; ts_path := path; ts_body := tr_body r |}
  | _ => Err "expected an object"
  end.

Fixpoint depth (v : jv) : nat :=
  match v with
  | JArr l => S (fold_right max O (depth <$> l))
  | JObj l => S (fold_right max O ((fun kv => depth kv.2) <$> l))
  | _ => 1
  end.

#[local] Instance stand_in : LlmBridge := {|
  TransformError := string;
  sanitized_message e := e;
  transform_error_to_string e := e;
  anthropic_to_openai := convert_to "/v1/chat/completions";
  anthropic_to_openai_responses := convert_to "/v1/responses";
  openai_to_anthropic := convert_to "/v1/messages";
  responses_to_anthropic := convert_to "/v1/messages";
  responses_to_openai := convert_to "/v1/chat/completions";
  openai_response_to_anthropic_message := convert_to EmptyString;
  anthropic_response_to_openai_response := convert_to EmptyString;
  anthropic_response_to_responses_response := convert_to EmptyString;
  validate_json_depth v := if (64 <? depth v)%nat then Some "JSON nesting too deep" else None;
  StreamState := unit;
  StreamState_default := tt;
  transform_stream_to_anthropic_sse b _ s := (s, Ok b);
  transform_stream_to_openai_sse b _ s := (s, Ok b);
  transform_stream_to_openai_responses_sse b _ s := (s, Ok b);
  header_name_from_bytes s := Ok s;
  header_value_from_str s := Ok s
|}.

(** ** Fixtures *)

Definition OPENAI_CHAT_SSE_BODY : bytes :=
  String.concat nl (quotes <$> [
    "data: {'id':'chatcmpl-123','object':'chat.completion.chunk','created':1780572171,'model':'deepseek-v4-pro','choices':[{'index':0,'delta':{'role':'assistant'}}]}";
    EmptyString;
    "data: {'id':'chatcmpl-123','object':'chat.completion.chunk','created':1780572171,'model':'deepseek-v4-pro','choices':[{'index':0,'delta':{'content':'Hello'}}]}";
    EmptyString;
    "data: {'id':'chatcmpl-123','object':'chat.completion.chunk','created':1780572171,'model':'deepseek-v4-pro','choices':[{'index':0,'delta':{'content':'!'}}]}";
    EmptyString;
    "data: {'id':'chatcmpl-123','object':'chat.completion.chunk','created':1780572171,'model':'deepseek-v4-pro','choices':[{'index':0,'delta':{},'finish_reason':'stop'}],'usage':{'prompt_tokens':10,'completion_tokens':2,'total_tokens':12}}";
    EmptyString;
    "data: [DONE]";
    EmptyString]).

Definition ANTHROPIC_BODY : string :=
  quotes "{'model':'claude-sonnet','max_tokens':1024,'messages':[{'role':'user','content':'hello'}]}".
Definition OPENAI_CHAT_BODY : string :=
  quotes "{'model':'gpt-4','messages':[{'role':'user','content':'hello'}]}".

Definition make_ctx (detected_format target_protocol : option ApiFormat) : ConnectionContext :=
  let ctx := ConnectionContext_new clk 1 Unknown None detected_format in
  from_option (fun p => with_target_protocol p ctx) ctx target_protocol.

Definition make_request (path body : string) : ProxyRequest :=
  {| req_method := "POST"; req_path := path; req_headers := []; req_body := body |}.

Definition make_request_with_header (path body header_name header_value : string) : ProxyRequest :=
  {| req_method := "POST"; req_path := path;
     req_headers := header_insert header_name header_value []; req_body := body |}.

Definition make_response (body : string) (is_streaming : bool) : ProxyResponse :=
  {| res_status := 200; res_headers := []; res_body := body; res_is_streaming := is_streaming |}.

Definition make_deep_json (depth : nat) : jv :=
  Nat.iter depth (fun val => JObj [("nested", val)]) (JStr "leaf").

(** The hooks of a [BridgeMiddleware::new()]. *)
Definition mw_request (req : ProxyRequest) (ctx : ConnectionContext)
    : Res ProxyError (ProxyRequest * ConnectionContext) :=
  (on_request (BridgeMiddleware (W := unit)) clk (req, ctx) tt).2.
Definition mw_response (res : ProxyResponse) (ctx : ConnectionContext) : Res ProxyError ProxyResponse :=
  (on_response (BridgeMiddleware (W := unit)) clk ctx res tt).2.

(** [ctx.get::<bool>(EXT_BRIDGE_REVERSE).copied().unwrap_or(false)]. *)
Definition reverse_flag (ctx : ConnectionContext) : bool := default false (ctx_bridge_reverse ctx).

Definition is_bad_request {A} (r : Res ProxyError A) : bool :=
  match r with Err (BadRequest _) => true | _ => false end.

(** ** Directions *)

Definition test_conversion_direction_same_protocol_is_passthrough : bool :=
  resolve AnthropicMessages AnthropicMessages =! Passthrough &&
  resolve OpenaiChat OpenaiChat =! Passthrough &&
  resolve OpenaiResponses OpenaiResponses =! Passthrough.

Definition test_conversion_direction_anthropic_to_openai : bool :=
  resolve AnthropicMessages OpenaiChat =! AnthropicToOpenai.

Definition test_conversion_direction_openai_to_anthropic : bool :=
  resolve OpenaiChat AnthropicMessages =! OpenaiToAnthropic.

(** ** Requests *)

Definition test_passthrough_anthropic_same_protocol : bool :=
  let req := make_request "/v1/messages" ANTHROPIC_BODY in
  let ctx := make_ctx (Some AnthropicMessages) (Some AnthropicMessages) in
  let original_body := req_body req in
  let original_path := req_path req in
  let? (req, ctx) := mw_request req ctx in
  req_body req =! original_body && req_path req =! original_path && negb (reverse_flag ctx).

Definition test_passthrough_openai_same_protocol : bool :=
  let req := make_request "/v1/chat/completions" OPENAI_CHAT_BODY in
  let ctx := make_ctx (Some OpenaiChat) (Some OpenaiChat) in
  let original_body := req_body req in
  let? (req, _) := mw_request req ctx in
  req_body req =! original_body.

Definition test_anthropic_to_openai_chat_request_converts_path_and_body : bool :=
  let req := make_request "/v1/messages" ANTHROPIC_BODY in
  let ctx := make_ctx (Some AnthropicMessages) (Some OpenaiChat) in
  let? (req, ctx) := mw_request req ctx in
  req_path req =! "/v1/chat/completions" &&
  let? body := from_slice (req_body req) in
  is_some (get "messages" body) && reverse_flag ctx.

Definition test_openai_to_anthropic_request_converts_path_and_body : bool :=
  let req := make_request "/v1/chat/completions" OPENAI_CHAT_BODY in
  let ctx := make_ctx (Some OpenaiChat) (Some AnthropicMessages) in
  let? (req, ctx) := mw_request req ctx in
  req_path req =! "/v1/messages" &&
  let? body := from_slice (req_body req) in
  is_some (get "messages" body) && reverse_flag ctx.

(** ** Errors *)

Definition test_missing_detected_format_returns_bad_request : bool :=
  let result := mw_request (make_request "/v1/messages" ANTHROPIC_BODY)
                  (make_ctx None (Some OpenaiChat)) in
  is_err result && is_bad_request result.

Definition test_missing_target_protocol_returns_bad_request : bool :=
  let result := mw_request (make_request "/v1/messages" ANTHROPIC_BODY)
                  (make_ctx (Some AnthropicMessages) None) in
  is_err result && is_bad_request result.

Definition test_invalid_json_body_returns_error : bool :=
  is_err (mw_request (make_request "/v1/messages" "not valid json {{{")
            (make_ctx (Some AnthropicMessages) (Some OpenaiChat))).

(** ** Responses *)

Definition test_response_passthrough_without_reverse_flag : bool :=
  let res := make_response (quotes "{'id':'chatcmpl-123','object':'chat.completion'}") false in
  let ctx := make_ctx (Some OpenaiChat) (Some OpenaiChat) in
  let original_body := res_body res in
  let? res := mw_response res ctx in
  res_body res =! original_body.

Definition test_response_reverse_conversion_after_anthropic_to_openai_request : bool :=
  let openai_response := quotes "{'id':'chatcmpl-123','object':'chat.completion','choices':[{'index':0,'message':{'role':'assistant','content':'Hello!'},'finish_reason':'stop'}],'usage':{'prompt_tokens':10,'completion_tokens':5,'total_tokens':15}}" in
  let res := make_response openai_response false in
  let ctx := make_ctx (Some AnthropicMessages) (Some OpenaiChat) in
  let ctx := ctx_insert EXT_BRIDGE_REVERSE (ExtBool true) ctx in
  let? res := mw_response res ctx in
  let? body := from_slice (res_body res) in
  is_some (get "id" body).

Definition test_on_response_streaming_skips_when_no_reverse_needed : bool :=
  let res := make_response OPENAI_CHAT_SSE_BODY true in
  let ctx := make_ctx (Some OpenaiChat) (Some OpenaiChat) in
  let original_body := res_body res in
  let? res := mw_response res ctx in
  res_body res =! original_body.

Definition test_middleware_name : bool := mw_name (BridgeMiddleware (W := unit)) =! "bridge".

(** ** Validation of the input *)

Definition test_accept_non_json_content_type_validation_moved_upstream : bool :=
  let req := make_request_with_header "/v1/messages" ANTHROPIC_BODY "content-type" "text/plain" in
  is_ok (mw_request req (make_ctx (Some AnthropicMessages) (Some OpenaiChat))).

Definition test_reject_deeply_nested_json : bool :=
  let deep := make_deep_json 70 in
  let? body_str := to_vec deep in
  is_err (mw_request (make_request "/v1/messages" body_str)
            (make_ctx (Some AnthropicMessages) (Some OpenaiChat))).

Definition test_mismatched_protocol_body_converts_with_warning : bool :=
  let body_with_openai_fields := quotes "{'model':'gpt-4','messages':[{'role':'user','content':'hello'}],'stream_options':{'include_usage':true}}" in
  is_ok (mw_request (make_request "/v1/messages" body_with_openai_fields)
           (make_ctx (Some AnthropicMessages) (Some OpenaiChat))).

Example bridge_tests_pass :
  forallb id
    [test_conversion_direction_same_protocol_is_passthrough;
     test_conversion_direction_anthropic_to_openai;
     test_conversion_direction_openai_to_anthropic; test_passthrough_anthropic_same_protocol;
     test_passthrough_openai_same_protocol;
     test_anthropic_to_openai_chat_request_converts_path_and_body;
     test_openai_to_anthropic_request_converts_path_and_body;
     test_missing_detected_format_returns_bad_request;
     test_missing_target_protocol_returns_bad_request; test_invalid_json_body_returns_error;
     test_response_passthrough_without_reverse_flag;
     test_response_reverse_conversion_after_anthropic_to_openai_request;
     test_on_response_streaming_skips_when_no_reverse_needed; test_middleware_name;
     test_accept_non_json_content_type_validation_moved_upstream; test_reject_deeply_nested_json;
     test_mismatched_protocol_body_converts_with_warning] = true.
Proof. vm_compute. reflexivity. Qed.
