(* ===== verification/ServerTests.v ===== *)
(** The unit tests of [crates/core/src/server.rs].

    The library's side of the service is a stand-in: responses of axum have a status
    and a body, the limit layer rejects a request by its [content-length] and lets a
    longer body fail when it is read, and the mock upstream is the client that
    reaches it. *)

From S2P Require Import Prelude RustStr Float64 Json Http Billing Types Middleware Report Auth Server.
From S2P Require Import JsonReader UnitTests.
Import Model.
Local Open Scope Z_scope.
Local Open Scope test_scope.

Definition clk : Clock := {| now := from_secs 10000; utc_year := 2026; utc_month := 6 |}.

Definition env : Surroundings :=
  {| clock_request := clk; clock_response := clk; report_files := fun _ => None;
     tokenless_env := None |}.

Definition json_into_response (v : Value) : HttpResponse :=
  {| rsp_status := 200; rsp_headers := [("content-type", "application/json")];
     rsp_body := match to_vec v with Ok b => b | _ => EmptyString end |}.

Definition status_response (s : StatusCode) : HttpResponse :=
  {| rsp_status := s; rsp_headers := []; rsp_body := EmptyString |}.

Definition body_limit (max : Z) (req : HttpRequest) : Res HttpResponse HttpRequest :=
  if content_length_exceeds max (rq_headers req) then Err (status_response 413)
  else Ok {| rq_method := rq_method req; rq_path := rq_path req; rq_headers := rq_headers req;
             rq_body := to_bytes max (rq_body req); rq_role := rq_role req |}.

(** A middleware that selects a channel with this URL. *)
Definition UpstreamMiddleware (url : string) : ProxyMiddleware unit := {|
  mw_name := "upstream";
  on_request _ rc :=
    let '(req, ctx) := rc in
    st_ret (req, ctx_insert EXT_SELECTED_CHANNEL (ExtChannel
      {| cc_url := url; cc_api_key := "sk-test"; cc_protocol := AnthropicMessages;
         cc_name := "test"; cc_rewrite_path := None |}) ctx);
  on_response _ _ res := st_ret res;
  on_init := default_on_init
|}.

(** No test but one reaches an upstream. *)
Definition no_upstream : Client (W := unit) := fun _ w =>
  (w, Err {| is_timeout := false; is_connect := true; send_text := "refused" |}).

Definition build_test_router (config : ProxyConfig) (middlewares : list (ProxyMiddleware unit))
    (client : Client) (req : HttpRequest) : option HttpResponse :=
  let state := {| ps_config := config; ps_middlewares := middlewares; ps_client := client;
                  ps_cost_recorder := None |} in
  (build_router json_into_response (fun _ _ => EmptyString) (fun _ => None) (fun _ => None)
     status_response body_limit state env req
     {| next_request_id := 1; sh_cursors := ∅; sh_world := tt |}).2.

Definition get_request (path : string) (headers : HeaderMap) : HttpRequest :=
  {| rq_method := "GET"; rq_path := path; rq_headers := headers; rq_body := Ok EmptyString;
     rq_role := None |}.
Definition post_json (path body : string) : HttpRequest :=
  {| rq_method := "POST"; rq_path := path; rq_headers := [("content-type", "application/json")];
     rq_body := Ok body; rq_role := None |}.

Definition with_api_key (key : string) : ProxyConfig :=
  {| listen := listen ProxyConfig_default; max_body_size := max_body_size ProxyConfig_default;
     upstream_read_timeout := upstream_read_timeout ProxyConfig_default;
     upstream_connect_timeout := upstream_connect_timeout ProxyConfig_default;
     proxy_api_key := Some key; proxy_token := None; proxy_auth_keys := ∅ |}.

Definition test_health_endpoint_returns_200 : bool :=
  let_some response := build_test_router ProxyConfig_default [] no_upstream
                         (get_request "/health" []) in
  rsp_status response =! 200.

Definition test_unknown_path_returns_404 : bool :=
  let_some response := build_test_router ProxyConfig_default [] no_upstream
                         (post_json "/unknown/path" (quotes "{'model':'test'}")) in
  rsp_status response =! 404.

Definition test_auth_failure_returns_401 : bool :=
  let_some response := build_test_router (with_api_key "sk-secret") [] no_upstream
                         (get_request "/health" []) in
  rsp_status response =! 401.

Definition test_auth_success_passes_through : bool :=
  let_some response := build_test_router (with_api_key "sk-secret") [] no_upstream
                         (get_request "/health" [("authorization", "Bearer sk-secret")]) in
  rsp_status response =! 200.

Definition test_body_too_large_returns_413 : bool :=
  let config := {| listen := listen ProxyConfig_default; max_body_size := 1024;
     upstream_read_timeout := upstream_read_timeout ProxyConfig_default;
     upstream_connect_timeout := upstream_connect_timeout ProxyConfig_default;
     proxy_api_key := None; proxy_token := None; proxy_auth_keys := ∅ |} in
  let big_body := Nat.iter 2048 (fun s => "x" +:+ s) EmptyString in
  let_some response := build_test_router config [] no_upstream
                         (post_json "/v1/messages" big_body) in
  rsp_status response =! 413.

Definition test_no_channel_returns_503 : bool :=
  let_some response := build_test_router ProxyConfig_default [] no_upstream
    (post_json "/v1/messages"
       (quotes "{'model':'claude-sonnet','messages':[{'role':'user','content':'hi'}]}")) in
  rsp_status response =! 503.

Definition upstream_url : string := "http://127.0.0.1:40000".

Definition mock_messages_handler : jv :=
  js "{'id': 'msg_123', 'type': 'message', 'role': 'assistant',
       'content': [{'type': 'text', 'text': 'Hello from upstream!'}], 'model': 'claude-sonnet',
       'usage': {'input_tokens': 10, 'output_tokens': 20}}".

(** The client, with the mock server at [upstream_url]. *)
Definition start_mock_upstream : Client (W := unit) := fun up w =>
  let answer status v :=
    (w, Ok {| ur_status := status; ur_headers := [("content-type", "application/json")];
              ur_body := Ok v |}) in
  if bool_decide (up_url up = upstream_url +:+ "/v1/messages") then
    if bool_decide (up_method up = "POST") then answer 200 (write mock_messages_handler)
    else answer 405 EmptyString
  else if starts_with upstream_url (up_url up) then answer 404 EmptyString
  else no_upstream up w.

Definition test_successful_proxy_returns_200 : bool :=
  let middlewares := [UpstreamMiddleware upstream_url] in
  let_some response := build_test_router ProxyConfig_default middlewares start_mock_upstream
    (post_json "/v1/messages"
       (quotes "{'model':'claude-sonnet','max_tokens':1024,'messages':[{'role':'user','content':'hello'}]}")) in
  rsp_status response =! 200.

(** ** Usage of event streams *)

(** [usage.get(k).unwrap().as_u64().unwrap() == n]. *)
Definition counter (usage : Value) (k : string) (n : Z) : bool :=
  let_some v := get k usage in let_some m := as_u64 v in m =! n.

Definition test_extract_usage_from_sse_with_space : bool :=
  let body := String.concat nl (quotes <$> ["event: message_start";
    "data: {'type':'message_start','message':{'usage':{'input_tokens':100,'output_tokens':0}}}";
    EmptyString; "event: message_delta";
    "data: {'type':'message_delta','usage':{'output_tokens':50,'cache_read_input_tokens':30}}";
    EmptyString; EmptyString]) in
  let result := extract_usage_from_sse body in
  let_some usage := get "usage" result in
  counter usage "input_tokens" 100 && counter usage "output_tokens" 50
  && counter usage "cache_read_input_tokens" 30.

Definition test_extract_usage_from_sse_without_space : bool :=
  let body := String.concat nl (quotes <$> ["event:message_start";
    "data:{'type':'message_start','message':{'usage':{'input_tokens':200,'output_tokens':0}}}";
    EmptyString; "event:message_delta";
    "data:{'type':'message_delta','usage':{'output_tokens':80,'cache_read_input_tokens':60}}";
    EmptyString; EmptyString]) in
  let result := extract_usage_from_sse body in
  let_some usage := get "usage" result in
  counter usage "input_tokens" 200 && counter usage "output_tokens" 80
  && counter usage "cache_read_input_tokens" 60.

Definition test_extract_usage_from_sse_mixed_format : bool :=
  let body := String.concat nl (quotes <$> ["event:message_start";
    "data:{'type':'message_start','message':{'usage':{'input_tokens':150,'output_tokens':0}}}";
    EmptyString; "event: message_delta";
    "data: {'type':'message_delta','usage':{'output_tokens':90}}";
    EmptyString; EmptyString]) in
  let result := extract_usage_from_sse body in
  let_some usage := get "usage" result in
  counter usage "input_tokens" 150 && counter usage "output_tokens" 90.

Definition test_normalize_sse_format : bool :=
  let start_data := quotes "data: {'type':'message_start'}" in
  let input := "event:message_start" +:+ nl +:+ quotes "data:{'type':'message_start'}" +:+ nl +:+ nl in
  let output := normalize_sse_format input in
  str_contains "event: message_start" output && str_contains start_data output &&
  let input2 := "event: message_start" +:+ nl +:+ start_data +:+ nl +:+ nl in
  let output2 := normalize_sse_format input2 in
  trim output2 =! trim input2 &&
  let input3 := "event:message_start" +:+ nl +:+ start_data +:+ nl +:+ nl +:+ "event: message_delta"
                +:+ nl +:+ quotes "data:{'type':'message_delta'}" in
  let output3 := normalize_sse_format input3 in
  str_contains "event: message_start" output3 && str_contains start_data output3 &&
  str_contains "event: message_delta" output3 &&
  str_contains (quotes "data: {'type':'message_delta'}") output3.

Example server_tests_pass :
  forallb id
    [test_health_endpoint_returns_200; test_unknown_path_returns_404;
     test_auth_failure_returns_401; test_auth_success_passes_through;
     test_body_too_large_returns_413; test_no_channel_returns_503;
     test_successful_proxy_returns_200; test_extract_usage_from_sse_with_space;
     test_extract_usage_from_sse_without_space; test_extract_usage_from_sse_mixed_format;
     test_normalize_sse_format] = true.
Proof. vm_compute. reflexivity. Qed.
