(* ===== verification/SqliteTests.v ===== *)
(** The unit tests of [crates/storage-sqlite/src/lib.rs] and its contract tests
    ([crates/storage-sqlite/tests/storage_contract.rs]), on the database of a fresh
    server with the embedded seed files.

    A test with SQL of its own is a condition on the tables.  The five tests that
    read SQLite's catalogue of tables, columns and foreign keys are left out. *)

From S2P Require Import Prelude RustStr Float64 Json Storage Sqlite Seed.
From S2P Require Import JsonReader Serde SeedFiles UnitTests.
Local Open Scope Z_scope.
Local Open Scope test_scope.

#[local] Existing Instance grammar.

Definition env : Env := SampleDb.env.

(** [new_in_memory], [migrate] and [seed_init], all of which succeed. *)
Definition migrated : Db := (migrate env empty_db).1.
Definition setup : Db := fresh_db env (SampleSeed.sources []).
Definition setup_succeeds : bool :=
  is_ok (migrate env empty_db).2
  && is_ok (seed_init env (program_sources (SampleSeed.sources [])) migrated).2.

(** The result of a call that leaves a database: [let*] binds both after [unwrap]. *)
Notation "'let*' ( d , x ) := m 'in' k" :=
  (let r := m in let d := r.1 in unwrap r.2 (fun x => k))
  (at level 200, d name, x pattern, k at level 200) : test_scope.

(** ** lib.rs: seed data *)

Definition test_seed_providers_populated : bool := (5 <=? length (t_providers setup))%nat.
Definition test_seed_models_populated : bool := (15 <=? length (t_models setup))%nat.

Definition test_seed_providers_include_deepseek : bool :=
  let_some p := List.find (fun p => String.eqb (pr_id p) "deepseek") (t_providers setup) in
  pr_name p =! "DeepSeek".

Definition test_seed_models_linked_to_providers : bool :=
  is_nil (List.filter (fun m =>
    negb (existsb (fun p => String.eqb (pr_id p) (mo_provider_id m)) (t_providers setup)))
    (t_models setup)).

(** [SELECT COUNT( * ) FROM models WHERE client_name IN names]. *)
Definition models_named (names : list string) : nat :=
  length (List.filter (fun m => existsb (String.eqb (mo_client_name m)) names) (t_models setup)).

Definition test_seed_models_include_deepseek_flash : bool :=
  models_named ["deepseek-v4-flash"] =! 1%nat.
Definition test_seed_models_include_deepseek : bool :=
  models_named ["deepseek-v4-pro"; "deepseek-v4-flash"] =! 2%nat.

(** ** lib.rs: the storage trait *)

Definition test_storage_list_providers : bool :=
  let? providers := list_providers env setup in
  negb (is_nil providers)
  && existsb (fun p => String.eqb (pv_name p) "DeepSeek") providers
  && existsb (fun p => String.eqb (pv_name p) "Zhipu AI") providers.

Definition test_storage_get_provider_found : bool :=
  let? provider := get_provider env "deepseek" setup in
  let_some p := provider in pv_name p =! "DeepSeek".

Definition test_storage_get_provider_not_found : bool :=
  let? provider := get_provider env "nonexistent" setup in
  is_none provider.

Definition test_storage_list_models_unfiltered : bool :=
  let? models := list_models env None setup in
  negb (is_nil models).

Definition test_storage_list_models_filtered_by_provider : bool :=
  let? models := list_models env (Some "deepseek") setup in
  negb (is_nil models) && forallb (fun m => String.eqb (md_provider_id m) "deepseek") models.

(** ** lib.rs: model aliases *)

Definition alias_request (name target : string) (enabled : bool) : ModelAliasRequest :=
  {| mr_alias_name := name; mr_target_model := target; mr_enabled := enabled |}.

Definition test_upsert_model_alias_creates_new : bool :=
  let* (_, alias) := upsert_model_alias env (alias_request "gpt-5.5" "qwen3.7-plus" true) setup in
  ma_alias_name alias =! "gpt-5.5" && ma_target_model alias =! "qwen3.7-plus" && ma_enabled alias.

Definition test_upsert_model_alias_updates_existing : bool :=
  let* (storage, _) := upsert_model_alias env (alias_request "gpt-5.5" "qwen3.7-plus" true) setup in
  let* (_, updated) :=
    upsert_model_alias env (alias_request "gpt-5.5" "deepseek-v4-pro" false) storage in
  ma_target_model updated =! "deepseek-v4-pro" && negb (ma_enabled updated).

Definition test_get_model_alias_target_returns_correct_model : bool :=
  let* (storage, _) := upsert_model_alias env (alias_request "gpt-4o" "glm-5.1" true) setup in
  let? target := get_model_alias_target env "gpt-4o" storage in
  target =! Some "glm-5.1".

Definition test_get_model_alias_target_returns_none_for_disabled : bool :=
  let* (storage, _) := upsert_model_alias env (alias_request "gpt-4o" "glm-5.1" false) setup in
  let? target := get_model_alias_target env "gpt-4o" storage in
  target =! None.

Definition test_list_model_aliases : bool :=
  let* (storage, _) := upsert_model_alias env (alias_request "gpt-5.5" "qwen3.7-plus" true) setup in
  let* (storage, _) :=
    upsert_model_alias env (alias_request "gpt-4o" "deepseek-v4-pro" true) storage in
  let? aliases := list_model_aliases env storage in
  (3 <=? length aliases)%nat.

Definition test_delete_model_alias : bool :=
  let* (storage, alias) :=
    upsert_model_alias env (alias_request "gpt-5.5" "qwen3.7-plus" true) setup in
  let* (storage, _) := delete_model_alias env (ma_id alias) storage in
  let? target := get_model_alias_target env "gpt-5.5" storage in
  target =! None.

Definition test_set_model_alias_enabled : bool :=
  let* (storage, alias) :=
    upsert_model_alias env (alias_request "gpt-5.5" "qwen3.7-plus" true) setup in
  ma_enabled alias &&
  let* (storage, _) := set_model_alias_enabled env (ma_id alias) false storage in
  let? target := get_model_alias_target env "gpt-5.5" storage in
  target =! None.

(** ** storage_contract.rs *)

Definition test_list_providers_after_migration : bool :=
  let? providers := list_providers env setup in
  length providers =! 10%nat &&
  let_some deepseek := List.find (fun p => String.eqb (pv_name p) "DeepSeek") providers in
  pv_id deepseek =! "deepseek".

Definition test_get_provider_exists : bool :=
  let? result := get_provider env "deepseek" setup in
  let_some p := result in pv_name p =! "DeepSeek".

Definition test_get_provider_not_found : bool :=
  let? result := get_provider env "nonexistent" setup in
  is_none result.

Definition test_list_models_all : bool :=
  let? models := list_models env None setup in
  length models =! 37%nat.

Definition test_list_models_filtered_by_provider : bool :=
  let? models := list_models env (Some "deepseek") setup in
  length models =! 4%nat && forallb (fun m => String.eqb (md_provider_id m) "deepseek") models.

Definition test_get_model_exists : bool :=
  let? model := get_model env "deepseek:deepseek-v4-pro" setup in
  let_some model := model in
  md_client_name model =! "deepseek-v4-pro" && md_currency model =! "CNY".

Definition test_list_channels_all : bool :=
  let? channels := list_channels env None setup in
  length channels =! 10%nat.

(** [get_channel(id).await.unwrap().unwrap()]. *)
Notation "'let_channel' c ':=' id 'of' storage 'in' k" :=
  (unwrap (get_channel env id storage) (fun o => unwrap_some o (fun c => k)))
  (at level 200, c name, k at level 200) : test_scope.

Definition test_get_channel_fields : bool :=
  let_channel channel := "deepseek" of setup in
  ch_name channel =! "DeepSeek Official" &&
  str_contains "api.deepseek.com" (ch_protocols channel) &&
  ch_billing_type channel =! "metered" &&
  ch_health_status channel =! "Unavailable" &&
  ch_enabled channel.

Definition test_list_channels_filtered_by_model : bool :=
  let? channels := list_channels env (Some "qwen3.5-plus") setup in
  (2 <=? length channels)%nat.

Definition test_update_channel : bool :=
  let* (_, updated) := update_channel env "deepseek" (Some "Updated Name") None (Some 99)
                         (Some 500000) (Some "Block") None None setup in
  ch_name updated =! "Updated Name" && ch_priority updated =! 99 &&
  ch_monthly_quota updated =! Some 500000 && ch_quota_policy updated =! "Block".

Definition test_mark_channel_healthy : bool :=
  let* (storage, _) := set_channel_api_key env "deepseek" "sk-test-key" setup in
  let* (storage, _) := mark_channel_healthy env "deepseek" storage in
  let_channel channel := "deepseek" of storage in
  ch_health_status channel =! "Healthy" && ch_consecutive_failures channel =! 0.

Definition test_record_channel_failure_sequence : bool :=
  let* (storage, _) := set_channel_api_key env "deepseek" "sk-test-key" setup in
  let* (storage, _) := record_channel_failure env "deepseek" storage in
  let_channel ch := "deepseek" of storage in
  ch_health_status ch =! "Degraded" && ch_consecutive_failures ch =! 1 &&
  let* (storage, _) := record_channel_failure env "deepseek" storage in
  let* (storage, _) := record_channel_failure env "deepseek" storage in
  let_channel ch := "deepseek" of storage in
  ch_health_status ch =! "Cooldown" && ch_consecutive_failures ch =! 3.

Definition test_delete_channel : bool :=
  let* (storage, _) := delete_channel env "deepseek" setup in
  let? channel := get_channel env "deepseek" storage in
  is_none channel.

Definition test_insert_and_query_cost_records : bool :=
  let record := {|
    cr_id := "019e0000-0000-7000-8000-000000000001"; cr_channel_id := "deepseek";
    cr_upstream_channel := "DeepSeek Official"; cr_upstream_model := "deepseek-v4-pro";
    cr_request_time_ms := 0; cr_project := "/test/project"; cr_user_id := "test-user";
    cr_agent_type := "ClaudeCode"; cr_input_tokens := 1000; cr_output_tokens := 500;
    cr_cache_write_tokens := 0; cr_cache_read_tokens := 50; cr_thinking_tokens := 100;
    cr_cost := dec 15 3; cr_schema_saved_tokens := 0; cr_response_saved_tokens := 0;
    cr_rtk_saved_tokens := 0; cr_pre_compress_tokens := 1500; cr_post_compress_tokens := 1400;
    cr_compression_tokens_saved := 100; cr_unit := "USD"; cr_pricing_snapshot_json := EmptyString;
    cr_timestamp := now_rfc3339 env; cr_session_id := Some "sess-test-001";
    cr_before_tokens := 1500; cr_after_tokens := 1500; cr_tokens_saved := 100;
    cr_compression_breakdown_json := EmptyString |} in
  let* (storage, _) := insert_cost_record env record setup in
  let? records := query_cost_records env
    {| cf_project_path := Some "/test/project"; cf_model_name := None; cf_channel_name := None;
       cf_time_range := None; cf_limit := Some 10; cf_offset := None |} storage in
  match records with [r] => cr_input_tokens r =! 1000 | _ => false end.

(** The record of the loop of the next test; the fresh UUIDs are [id]s. *)
Definition record_of (id project : string) : CostRecord := {|
  cr_id := id; cr_channel_id := EmptyString; cr_upstream_channel := EmptyString;
  cr_upstream_model := EmptyString; cr_request_time_ms := 0; cr_project := project;
  cr_user_id := EmptyString; cr_agent_type := EmptyString; cr_input_tokens := 0;
  cr_output_tokens := 0; cr_cache_write_tokens := 0; cr_cache_read_tokens := 0;
  cr_thinking_tokens := 0; cr_cost := dec 0 0; cr_schema_saved_tokens := 0;
  cr_response_saved_tokens := 0; cr_rtk_saved_tokens := 0; cr_pre_compress_tokens := 0;
  cr_post_compress_tokens := 0; cr_compression_tokens_saved := 0; cr_unit := EmptyString;
  cr_pricing_snapshot_json := EmptyString; cr_timestamp := now_rfc3339 env;
  cr_session_id := None; cr_before_tokens := 0; cr_after_tokens := 0; cr_tokens_saved := 0;
  cr_compression_breakdown_json := EmptyString |}.

Definition test_list_projects_returns_sorted_unique : bool :=
  let* (storage, _) := insert_cost_record env (record_of "1" "/zebra") setup in
  let* (storage, _) := insert_cost_record env (record_of "2" "/alpha") storage in
  let* (storage, _) := insert_cost_record env (record_of "3" "/beta") storage in
  let* (storage, _) := insert_cost_record env (record_of "4" "/alpha") storage in
  let? projects := list_projects env storage in
  projects =! ["/alpha"; "/beta"; "/zebra"].

Definition test_list_projects_empty_returns_empty_vec : bool :=
  let? projects := list_projects env migrated in
  is_nil projects.

Definition test_insert_switch_log : bool :=
  let log := {| sl_id := "019e0000-0000-7000-8000-000000000002"; sl_from_channel_id := "deepseek";
                sl_to_channel_id := "glm-official"; sl_reason := "health check failed";
                sl_cost_record_id := None; sl_created_at := now_rfc3339 env |} in
  is_ok (insert_switch_log env log setup).2.

Definition test_insert_and_query_subscription_fees : bool :=
  let fee := {| sf_id := 0; sf_channel_name := "DashScope Coding Plan"; sf_month := "2026-05";
                sf_monthly_price := dec 200 0; sf_currency := "CNY" |} in
  let* (storage, _) := insert_subscription_fee env fee setup in
  let? fees := query_subscription_fees env None None storage in
  length fees =! 1%nat.

(** [channel] with another key and name. *)
Definition renamed (key name : string) (c : Channel) : Channel :=
  {| ch_id := ch_id c; ch_name := name; ch_api_key := key; ch_protocol := ch_protocol c;
     ch_protocols := ch_protocols c; ch_is_builtin := ch_is_builtin c;
     ch_enabled := ch_enabled c; ch_created_at := ch_created_at c;
     ch_updated_at := ch_updated_at c; ch_health_status := ch_health_status c;
     ch_cooldown_until := ch_cooldown_until c;
     ch_consecutive_failures := ch_consecutive_failures c; ch_billing_type := ch_billing_type c;
     ch_monthly_quota := ch_monthly_quota c; ch_quota_policy := ch_quota_policy c;
     ch_priority := ch_priority c; ch_force_protocol := ch_force_protocol c |}.

Definition test_upsert_channel_preserves_existing_api_key : bool :=
  let* (storage, _) := set_channel_api_key env "deepseek" "sk-existing-key" setup in
  let_channel ch := "deepseek" of storage in
  ch_api_key ch =! "sk-existing-key" &&
  let* (storage, _) := upsert_channel env (renamed EmptyString "Updated Name" ch) storage in
  let_channel ch := "deepseek" of storage in
  ch_name ch =! "Updated Name" && ch_api_key ch =! "sk-existing-key".

Definition test_upsert_channel_overwrites_when_new_key_non_empty : bool :=
  let* (storage, _) := set_channel_api_key env "deepseek" "sk-old-key" setup in
  let_channel channel := "deepseek" of storage in
  let* (storage, _) := upsert_channel env (renamed "sk-new-key" (ch_name channel) channel) storage in
  let_channel ch := "deepseek" of storage in
  ch_api_key ch =! "sk-new-key".

Definition test_health_check_returns_true : bool :=
  let? healthy := health_check env setup in healthy.

Definition test_max_connections_is_sixteen : bool :=
  Storage.max_connections (Storage := sqlite_storage env) setup =! 16.

Definition test_migrate_is_idempotent : bool :=
  let* (storage, _) := migrate env setup in
  let? channels := list_channels env None storage in
  length channels =! 10%nat.

Example sqlite_tests_pass :
  forallb id
    [setup_succeeds; test_seed_providers_populated; test_seed_models_populated;
     test_seed_providers_include_deepseek; test_seed_models_linked_to_providers;
     test_seed_models_include_deepseek_flash; test_seed_models_include_deepseek;
     test_storage_list_providers; test_storage_get_provider_found;
     test_storage_get_provider_not_found; test_storage_list_models_unfiltered;
     test_storage_list_models_filtered_by_provider; test_upsert_model_alias_creates_new;
     test_upsert_model_alias_updates_existing; test_get_model_alias_target_returns_correct_model;
     test_get_model_alias_target_returns_none_for_disabled; test_list_model_aliases;
     test_delete_model_alias; test_set_model_alias_enabled; test_list_providers_after_migration;
     test_get_provider_exists; test_get_provider_not_found; test_list_models_all;
     test_list_models_filtered_by_provider; test_get_model_exists; test_list_channels_all;
     test_get_channel_fields; test_list_channels_filtered_by_model; test_update_channel;
     test_mark_channel_healthy; test_record_channel_failure_sequence; test_delete_channel;
     test_insert_and_query_cost_records; test_list_projects_returns_sorted_unique;
     test_list_projects_empty_returns_empty_vec; test_insert_switch_log;
     test_insert_and_query_subscription_fees; test_upsert_channel_preserves_existing_api_key;
     test_upsert_channel_overwrites_when_new_key_non_empty; test_health_check_returns_true;
     test_max_connections_is_sixteen; test_migrate_is_idempotent] = true.
Proof. vm_compute. reflexivity. Qed.
