(* ===== verification/AdminTests.v ===== *)
(** The unit tests of [apps/server/src/admin.rs], [admin_auth.rs] and
    [health_probe.rs], on the database of a fresh server with the embedded seed
    files and the extractors of AdminWire. *)

From Stdlib Require Import Ascii.
From S2P Require Import Prelude RustStr Float64 Json Http Billing Types Storage Router.
From S2P Require Import Auth Probe AdminAuth Admin Sqlite Seed JsonReader Serde SeedFiles AdminWire.
From S2P Require Import UnitTests.
Import Model.
Local Open Scope Z_scope.
Local Open Scope test_scope.

#[local] Existing Instance grammar.

(** ** admin_auth.rs *)

Definition test_resolve_from_env : bool :=
  let result := resolve_admin_key_with
    (fun var => if bool_decide (var = ADMIN_KEY_ENV) then Some "test-secret-key" else None)
    (fun _ => 7) in
  (ak_key result =! "test-secret-key") && negb (ak_generated result).

Definition test_resolve_empty_env_generates_key : bool :=
  let result := resolve_admin_key_with
    (fun var => if bool_decide (var = ADMIN_KEY_ENV) then Some EmptyString else None)
    (fun _ => 7) in
  (str_len (ak_key result) =! 64) && ak_generated result.

Definition test_resolve_no_env_generates_key : bool :=
  let result := resolve_admin_key_with (fun _ => None) (fun _ => 7) in
  (str_len (ak_key result) =! 64) && ak_generated result.

Definition test_constant_time_eq_equal : bool := constant_time_eq "hello" "hello".
Definition test_constant_time_eq_different : bool := negb (constant_time_eq "hello" "world").
Definition test_constant_time_eq_different_length : bool :=
  negb (constant_time_eq "short" "longer string").
Definition test_constant_time_eq_empty : bool := constant_time_eq EmptyString EmptyString.

(** ** health_probe.rs *)

Definition test_should_report_healthy_for_rate_limited : bool := probe_is_healthy PrRateLimited.
Definition test_should_report_healthy_for_healthy : bool := probe_is_healthy PrHealthy.
Definition test_should_report_unhealthy_for_invalid_key : bool :=
  negb (probe_is_healthy PrInvalidKey).
Definition test_should_report_unhealthy_for_unreachable : bool :=
  negb (probe_is_healthy PrUnreachable).
Definition test_should_map_health_status_correctly : bool :=
  (as_health_status PrHealthy =! "Healthy")
  && (as_health_status PrRateLimited =! "Healthy")
  && (as_health_status PrInvalidKey =! "Degraded")
  && (as_health_status PrUnreachable =! "Degraded")
  && (as_health_status PrNoModels =! "Unavailable").

(** ** admin.rs: the service *)

Definition env : Env := SampleDb.env.
Definition clk : Clock := {| now := from_secs 10000; utc_year := 2026; utc_month := 6 |}.

(** [2026-06-10T02:00:00Z], and the first second of chrono's calendar. *)
Definition morning : Z := 1781056800.
Definition naive_min : Z := -8334601228800.

(** The library's part of the extractors, on these requests. *)
Definition json_document (req : HttpRequest) : Res StatusCode jv :=
  match header_str "content-type" (rq_headers req), rq_body req with
  | Some "application/json", Ok b => res_of_option 400 (read b)
  | Some "application/json", _ => Err 400
  | _, _ => Err 415
  end.

Definition test_extractors : Extractors := wire_extractors Ok json_document (fun _ => []).

Definition no_client : ProbeClient := {| probe_client_ok := false; send_request _ := (0, Failed None) |}.

Definition no_router : Router :=
  {| channels := []; health := ∅; quota_usage := ∅; channel_api_keys := ∅ |}.

(** [admin_routes] on a state over [d]. *)
Definition service (d : Db) (key : string) (req : HttpRequest) : option (StatusCode * option jv) :=
  admin_answer (admin_service (S := Db) (Storage0 := sqlite_storage env)
    (SeedManager0 := sqlite_seed_manager env (program_sources (SampleSeed.sources [])))
    clk morning naive_min no_client (fun _ => "invalid JSON") (String.concat ", ")
    test_extractors (fun _ req => Ok req) key req
    {| ad_storage := d; ad_router := no_router; ad_compress_enabled := true |}).2.

Definition migrated : Db := (migrate env empty_db).1.

Definition test_app : HttpRequest -> option (StatusCode * option jv) :=
  service (fresh_db env (SampleSeed.sources [])) "test-admin-key".

Definition make_request (method uri : string) (headers : HeaderMap) (body : string) : HttpRequest :=
  {| rq_method := method; rq_path := uri; rq_headers := headers; rq_body := Ok body;
     rq_role := None |}.

Definition make_authed_request (method uri : string) : HttpRequest :=
  make_request method uri [("x-admin-key", "test-admin-key")] EmptyString.

(** The status, and the length of the list in the body. *)
Definition status_is (r : option (StatusCode * option jv)) (status : StatusCode) : bool :=
  let_some a := r in a.1 =! status.

Definition array_len (r : option (StatusCode * option jv)) : option nat :=
  a ← r; v ← a.2; match v with JArr l => Some (length l) | _ => None end.

Definition test_unauthorized_without_admin_key : bool :=
  status_is (service migrated "secret" (make_request "GET" "/admin/providers" [] EmptyString)) 401.

Definition test_unauthorized_with_wrong_key : bool :=
  status_is (service migrated "correct"
    (make_request "GET" "/admin/providers" [("x-admin-key", "wrong-key")] EmptyString)) 401.

Definition test_list_providers : bool :=
  let resp := test_app (make_authed_request "GET" "/admin/providers") in
  status_is resp 200 && (array_len resp =! Some 10%nat).

Definition test_list_channels : bool :=
  let resp := test_app (make_authed_request "GET" "/admin/channels") in
  status_is resp 200 && (array_len resp =! Some 10%nat).

Definition test_get_channel_not_found : bool :=
  status_is (test_app (make_authed_request "GET" "/admin/channels/nonexistent")) 404.

Definition test_update_channel : bool :=
  status_is (test_app (make_request "PUT" "/admin/channels/deepseek"
    [("content-type", "application/json"); ("x-admin-key", "test-admin-key")]
    (quotes "{'name':'Updated','priority':99,'quotaPolicy':'Block'}"))) 200.

Definition test_admin_health : bool :=
  status_is (test_app (make_authed_request "GET" "/admin/health")) 200.

Definition test_list_projects_returns_array : bool :=
  let resp := test_app (make_authed_request "GET" "/admin/projects") in
  status_is resp 200 && is_some (array_len resp).

(** ** admin.rs: time ranges *)

(** Seconds at [hour:minute] of [day] in June 2026. *)
Definition june (day hour minute : Z) : Z := 1780272000 + (day - 1) * 86400 + hour * 3600 + minute * 60.

Definition range (now days : Z) (tz : option Z) (project : option string) : Res AppError TimeRange :=
  compute_time_range naive_min now days tz project.

Definition test_no_tz_offset_uses_rolling_window : bool :=
  let now := june 10 12 30 in
  let? range := range now 1 None None in
  (tr_start range =! june 9 12 30) && (tr_end range =! now) && is_none (tr_project range).

Definition test_tz_offset_beijing_today : bool :=
  let now := june 10 2 0 in
  let? range := range now 1 (Some 480) None in
  (tr_start range =! june 9 16 0) && (tr_end range =! now).

Definition test_tz_offset_beijing_two_days : bool :=
  let? range := range (june 10 2 0) 2 (Some 480) None in tr_start range =! june 8 16 0.

Definition test_tz_offset_preserves_project_filter : bool :=
  let? range := range (june 10 12 0) 1 (Some 480) (Some "/my-project") in
  tr_project range =! Some "/my-project".

Definition test_tz_offset_negative_west_of_utc : bool :=
  let? range := range (june 10 3 0) 1 (Some (-300)) None in tr_start range =! june 9 5 0.

Definition test_days_zero_means_only_current_day : bool :=
  let? range := range (june 10 2 0) 0 (Some 480) None in tr_start range =! june 9 16 0.

Example admin_tests_pass :
  forallb id
    [test_resolve_from_env; test_resolve_empty_env_generates_key;
     test_resolve_no_env_generates_key; test_constant_time_eq_equal;
     test_constant_time_eq_different; test_constant_time_eq_different_length;
     test_constant_time_eq_empty; test_should_report_healthy_for_rate_limited;
     test_should_report_healthy_for_healthy; test_should_report_unhealthy_for_invalid_key;
     test_should_report_unhealthy_for_unreachable; test_should_map_health_status_correctly;
     test_unauthorized_without_admin_key; test_unauthorized_with_wrong_key; test_list_providers;
     test_list_channels; test_get_channel_not_found; test_update_channel; test_admin_health;
     test_list_projects_returns_array; test_no_tz_offset_uses_rolling_window;
     test_tz_offset_beijing_today; test_tz_offset_beijing_two_days;
     test_tz_offset_preserves_project_filter; test_tz_offset_negative_west_of_utc;
     test_days_zero_means_only_current_day] = true.
Proof. vm_compute. reflexivity. Qed.
