(* ===== verification/EndToEndTests.v ===== *)
(** The whole program, run: the server of [apps/server/src/main.rs] started on an
    empty database with the embedded seed files, driven by requests with JSON
    bodies as clients and administrators send them.

    The tests of [tests/tests/bridge.rs] come first, on the engine with the
    bridge.  Those of [passthrough.rs] and [failover.rs] describe flows through
    the proxy but call their mock upstream directly; here the flows they describe
    are run. *)

From S2P Require Import Prelude RustStr Float64 Json Http Billing Types Middleware Storage.
From S2P Require Import Router Bridge Compress Report Cost Auth Server Sqlite Seed Probe.
From S2P Require Import AdminAuth Admin Main JsonReader Serde SeedFiles AdminWire.
From S2P Require Import UnitTests BridgeTests ServerTests.
Import Model.
Local Open Scope Z_scope.
Local Open Scope test_scope.

#[local] Existing Instances BridgeTests.stand_in jv_eq_dec.

(** ** tests/tests/bridge.rs *)

Definition anthropic_response (id text : string) (input_tokens output_tokens : Z) : jv :=
  JObj [("id", JStr id); ("type", JStr "message"); ("role", JStr "assistant");
        ("content", JArr [JObj [("type", JStr "text"); ("text", JStr text)]]);
        ("model", JStr "claude-sonnet-4-6"); ("stop_reason", JStr "end_turn");
        ("usage", JObj [("input_tokens", JInt input_tokens); ("output_tokens", JInt output_tokens)])].

Definition openai_response (id text : string) (input_tokens output_tokens : Z) : jv :=
  JObj [("id", JStr id); ("object", JStr "chat.completion");
        ("choices", JArr [JObj [("index", JInt 0);
           ("message", JObj [("role", JStr "assistant"); ("content", JStr text)]);
           ("finish_reason", JStr "stop")]]);
        ("usage", JObj [("prompt_tokens", JInt input_tokens);
                        ("completion_tokens", JInt output_tokens);
                        ("total_tokens", JInt (input_tokens + output_tokens))])].

(** The mock server: one answer to [POST] at a path. *)
Definition mock (url path : string) (body : jv) : Client (W := unit) := fun up w =>
  if bool_decide (up_method up = "POST") && bool_decide (up_url up = url +:+ path) then
    (w, Ok {| ur_status := 200; ur_headers := [("content-type", "application/json")];
              ur_body := Ok (write body) |})
  else (w, Ok {| ur_status := 404; ur_headers := []; ur_body := Ok EmptyString |}).

Definition TestChannelMiddleware (url : string) (protocol : ApiFormat) : ProxyMiddleware unit := {|
  mw_name := "test-channel-router";
  on_request _ rc :=
    let '(req, ctx) := rc in
    st_ret (req, ctx_insert EXT_SELECTED_CHANNEL (ExtChannel
      {| cc_url := url; cc_api_key := "sk-test-key"; cc_protocol := protocol;
         cc_name := "test-channel"; cc_rewrite_path := None |})
      (with_target_protocol protocol ctx));
  on_response _ _ res := st_ret res;
  on_init := default_on_init
|}.

Definition build_test_app (protocol : ApiFormat) (client : Client) (req : HttpRequest)
    : option HttpResponse :=
  build_test_router ProxyConfig_default
    [TestChannelMiddleware upstream_url protocol; BridgeMiddleware] client req.

Definition anthropic_request : string :=
  quotes "{'model':'claude-sonnet','max_tokens':1024,'messages':[{'role':'user','content':'Say hello in Chinese'}]}".
Definition openai_request : string :=
  quotes "{'model':'gpt-4','messages':[{'role':'user','content':'Say hello in Chinese'}]}".

Definition send (path content_type : string) (key : string * string) (body : string) : HttpRequest :=
  {| rq_method := "POST"; rq_path := path; rq_headers := [("content-type", content_type); key];
     rq_body := Ok body; rq_role := None |}.

(** A field of a response's JSON body. *)
Definition body_str (k : string) (r : HttpResponse) : option string :=
  match read (rsp_body r) with Some v => get_str k v | None => None end.

Definition test_e2e_anthropic_client_to_openai_upstream_roundtrip : bool :=
  let client := mock upstream_url "/v1/chat/completions"
                  (openai_response "chatcmpl-e2e-001" "Ni hao!" 10 5) in
  let_some response := build_test_app OpenaiChat client
    (send "/v1/messages" "application/json" ("x-api-key", "test-key") anthropic_request) in
  (rsp_status response =! 200)
  && (body_str "id" response =! Some "chatcmpl-e2e-001")
  && (is_some (body_str "type" response) || is_some (body_str "object" response)).

Definition test_e2e_openai_client_to_anthropic_upstream_roundtrip : bool :=
  let client := mock upstream_url "/v1/messages"
                  (anthropic_response "msg_e2e_002" "Hello from Anthropic!" 20 15) in
  let_some response := build_test_app AnthropicMessages client
    (send "/v1/chat/completions" "application/json" ("authorization", "Bearer test-key")
       openai_request) in
  (rsp_status response =! 200) && (body_str "id" response =! Some "msg_e2e_002").

Definition test_e2e_passthrough_same_protocol : bool :=
  let client := mock upstream_url "/v1/messages"
                  (anthropic_response "msg_passthrough" "Direct response" 5 3) in
  let_some response := build_test_app AnthropicMessages client
    (send "/v1/messages" "application/json" ("x-api-key", "test-key") anthropic_request) in
  (rsp_status response =! 200) && (body_str "id" response =! Some "msg_passthrough").

Definition test_e2e_reject_invalid_content_type : bool :=
  let_some response := build_test_app AnthropicMessages no_upstream
    (send "/v1/messages" "text/plain" ("x-api-key", "test-key") "not json") in
  rsp_status response =! 400.

(** ** The server

    The wire is text everywhere: rows, prices and bodies are read by the grammar
    and written by [write].  Compression changes nothing; the probe of a key and
    every request to an upstream are answered as the scenario says. *)

#[local] Instance texts : JsonText := {|
  read_json t := res_of_option "expected value" (read t);
  write_json v := Some (write v);
  shape_error _ := "invalid type"
|}.

#[local] Instance no_compressor : @TokenlessSchema text_json :=
  {| schema_compress v := v; response_compress v := v |}.

(** The requests that reached an upstream, the last one first. *)
Definition Seen : Type := list UpstreamRequest.

Definition upstreams (answer : string -> StatusCode * jv) (up : UpstreamRequest) (seen : Seen)
    : Seen * Res SendError UpstreamResponse :=
  let '(status, body) := answer (up_url up) in
  (up :: seen, Ok {| ur_status := status; ur_headers := [("content-type", "application/json")];
                     ur_body := Ok (write body) |}).

Definition sources : Sources := program_sources (SampleSeed.sources []).

Definition moment : Moment := {|
  mo_env := SampleDb.env; mo_clock := ServerTests.clk; mo_now := 1781056800;
  mo_probe := {| probe_client_ok := true; send_request _ := (230, Answered 200) |};
  mo_record_id := "0190"; mo_timestamp := SampleDb.stamp 50
|}.

Definition json_document (req : HttpRequest) : Res StatusCode jv :=
  if bool_decide (header_str "content-type" (rq_headers req) = Some "application/json") then
    match rq_body req with Ok b => res_of_option 400 (read b) | _ => Err 400 end
  else Err 415.

Definition no_strings (l : list string) : string := join ", " l.

Section Server.
Context (answer : string -> StatusCode * jv).

Definition environment (var : string) : option string :=
  if bool_decide (var = ADMIN_KEY_ENV) then Some "admin-secret" else None.

Definition started : Db * Res StartError (Running (N := Seen) * Router) :=
  start_up no_strings sources (upstreams answer) (fun _ _ => Ok tt) environment (fun _ => 0)
    SampleDb.env empty_db.

Definition state : Type := Shared (W := World Seen).

Definition reply_response (r : Reply) : HttpResponse :=
  match reply_json r with Some v => json_into_response v | None => status_response 200 end.

Definition handle (sv : Running) (req : HttpRequest) (s : state) : state * option HttpResponse :=
  app no_strings id json_into_response (fun _ _ => EmptyString)
    (fun t => ok (from_str de_proxy_report t)) (fun t => ok (from_str de_tokenless_header t))
    status_response body_limit (fun _ req => Ok req)
    (wire_extractors Ok json_document (fun _ => [])) 0 sources reply_response
    sv ServerTests.env req s.

(** The responses to a sequence of requests, and what is left of the world. *)
Fixpoint handle_all (sv : Running) (l : list HttpRequest) (s : state)
    : state * list (option (StatusCode * option jv)) :=
  match l with
  | [] => (s, [])
  | req :: l =>
      let '(s, r) := handle sv req s in
      let '(s, rs) := handle_all sv l s in
      (s, ((fun r => (rsp_status r, read (rsp_body r))) <$> r) :: rs)
  end.

Definition run (l : list HttpRequest) : option (Seen * list (option (StatusCode * option jv))) :=
  match started with
  | (d, Ok (sv, r)) =>
      let '(s, rs) := handle_all sv l
        {| next_request_id := 1; sh_cursors := ∅; sh_world := first_world d r [] moment |} in
      Some (w_net (sh_world s), rs)
  | _ => None
  end.
End Server.

Definition admin_request (method path body : string) : HttpRequest :=
  {| rq_method := method; rq_path := path;
     rq_headers := [("content-type", "application/json"); ("x-admin-key", "admin-secret")];
     rq_body := Ok body; rq_role := None |}.

Definition set_key (channel key : string) : HttpRequest :=
  admin_request "PUT" ("/admin/channels/" +:+ channel +:+ "/api-key")
    (write (JObj [("apiKey", JStr key)])).

Definition ask (model : string) : HttpRequest :=
  send "/v1/messages" "application/json" ("x-api-key", "client-key")
    (write (JObj [("model", JStr model); ("max_tokens", JInt 100);
                  ("messages", JArr [JObj [("role", JStr "user"); ("content", JStr "Hi")]])])).

Definition statuses (rs : list (option (StatusCode * option jv))) : list StatusCode :=
  map fst (omap id rs).

(** ** tests/tests/passthrough.rs and failover.rs, through the proxy *)

(** An upstream that answers every request with this status. *)
Definition always (status : StatusCode) (url : string) : StatusCode * jv :=
  (status, if status =? 200 then anthropic_response "msg_test_001" "Hello from Anthropic!" 100 50
           else JObj [("error", JObj [("type", JStr "rate_limit_error")])]).

Definition asked (seen : Seen) : list string := map up_url (rev seen).

(** The last response's document. *)
Definition last_json (rs : list (option (StatusCode * option jv))) : option jv :=
  match last rs with Some (Some (_, v)) => v | _ => None end.

Definition first_of (v : option jv) : option jv :=
  match v with Some (JArr (x :: _)) => Some x | _ => None end.

Definition count_of (k : string) (v : option jv) : option Z :=
  match v with Some v => match get k v with Some n => as_u64 n | None => None end | None => None end.

Definition test_should_passthrough_anthropic_request_and_track_cost : bool :=
  let_some (seen, rs) := run (always 200)
    [set_key "deepseek" "sk-up"; ask "deepseek-v4-pro";
     admin_request "GET" "/admin/cost-records" EmptyString] in
  (statuses rs =! [200; 200; 200])
  && (asked seen =! ["https://api.deepseek.com/anthropic/v1/messages"])
  && (count_of "input_tokens" (first_of (last_json rs)) =! Some 100)
  && (count_of "output_tokens" (first_of (last_json rs)) =! Some 50).

Definition test_should_forward_auth_headers_to_upstream : bool :=
  let_some (seen, rs) := run (always 200) [set_key "deepseek" "sk-up"; ask "deepseek-v4-pro"] in
  map up_headers seen =!
    [[("content-type", "application/json"); ("authorization", "Bearer sk-up")]].

Definition test_should_propagate_upstream_errors : bool :=
  let_some (seen, rs) := run (always 429) [set_key "deepseek" "sk-up"; ask "deepseek-v4-pro"] in
  (statuses rs =! [200; 429])
  && (last_json rs =! Some (js "{'error':{'type':'rate_limit_error'}}")).

Definition test_should_skip_disabled_channels : bool :=
  let_some (seen, rs) := run (always 200)
    [set_key "deepseek" "sk-up"; set_key "tokenfleet-cn" "sk-cn";
     admin_request "PUT" "/admin/channels/deepseek" (quotes "{'enabled':false}");
     ask "deepseek-v4-pro"] in
  (statuses rs =! [200; 200; 200; 200])
  && (asked seen =! ["https://tokenfleet.cn/v1/chat/completions"]).

Definition test_should_error_when_all_channels_unhealthy : bool :=
  let_some (seen, rs) := run (always 503) [set_key "deepseek" "sk-up"; ask "deepseek-v4-pro"] in
  statuses rs =! [200; 503].

(** DeepSeek's own service fails, the other channel of the model works. *)
Definition deepseek_down (url : string) : StatusCode * jv :=
  always (if starts_with "https://api.deepseek.com" url then 503 else 200) url.

Definition two_channels : list HttpRequest :=
  [set_key "deepseek" "sk-up"; set_key "tokenfleet-cn" "sk-cn"].

Definition rename (id name : string) : HttpRequest :=
  admin_request "PUT" ("/admin/channels/" +:+ id) (write (JObj [("name", JStr name)])).

(** The flow [test_should_failover_to_backup_on_primary_unhealthy] describes: it is
    what the proxy does once the channel's name is its identifier. *)
Definition test_should_failover_to_backup_on_primary_unhealthy : bool :=
  let_some (seen, rs) := run deepseek_down
    (two_channels ++ [rename "deepseek" "deepseek"; ask "deepseek-v4-pro"; ask "deepseek-v4-pro"]) in
  (statuses rs =! [200; 200; 200; 503; 200])
  && (asked seen =! ["https://api.deepseek.com/anthropic/v1/messages";
                     "https://tokenfleet.cn/v1/chat/completions"]).

(** With the names that are seeded the mark does not reach the channel
    ([Router.health_marks_miss_channel]): the failing channel is asked again. *)
Definition seeded_names_never_fail_over : bool :=
  let_some (seen, rs) := run deepseek_down
    (two_channels ++ [ask "deepseek-v4-pro"; ask "deepseek-v4-pro"; ask "deepseek-v4-pro"]) in
  (statuses rs =! [200; 200; 503; 503; 503])
  && (asked seen =! repeat "https://api.deepseek.com/anthropic/v1/messages" 3).

(** A seeded alias has no target: its requests are rejected ([Flows.unset_alias_rejected]),
    and setting one through the API is in force after a restart only. *)
Definition aliases_are_read_at_start : bool :=
  let_some (seen, rs) := run (always 200)
    [set_key "deepseek" "sk-up"; ask "gpt-5.5";
     admin_request "POST" "/admin/model-aliases"
       (quotes "{'aliasName':'gpt-5.5','targetModel':'deepseek-v4-pro'}");
     ask "gpt-5.5"] in
  (statuses rs =! [200; 400; 200; 400]) && is_nil seen.

(** A forced protocol, and the attempt to withdraw it. *)
Definition forced_protocol_stays : bool :=
  let_some (seen, rs) := run (always 200)
    [admin_request "PUT" "/admin/channels/deepseek" (quotes "{'forceProtocol':'openai_chat'}");
     admin_request "PUT" "/admin/channels/deepseek" (quotes "{'forceProtocol':null}");
     admin_request "PUT" "/admin/channels/deepseek" (quotes "{'forceProtocol':''}");
     admin_request "GET" "/admin/channels/deepseek" EmptyString] in
  (statuses rs =! [200; 200; 400; 200])
  && let_some v := last_json rs in get_str "forceProtocol" v =! Some "openai_chat".

(** What axum and the handlers answer to bodies and paths that are not theirs. *)
Definition rejections : bool :=
  let_some (seen, rs) := run (always 200)
    [admin_request "POST" "/admin/compress/toggle" "{}";
     admin_request "POST" "/admin/compress/toggle" "{";
     admin_request "DELETE" "/admin/model-aliases/first" EmptyString;
     admin_request "DELETE" "/admin/model-aliases/999" EmptyString;
     admin_request "PATCH" "/admin/providers" EmptyString;
     send "/admin/providers" "application/json" ("x-admin-key", "guess") EmptyString] in
  (statuses rs =! [422; 400; 400; 404; 405; 401]) && is_nil seen.

Example end_to_end_tests_pass :
  forallb id
    [test_e2e_anthropic_client_to_openai_upstream_roundtrip;
     test_e2e_openai_client_to_anthropic_upstream_roundtrip; test_e2e_passthrough_same_protocol;
     test_e2e_reject_invalid_content_type;
     test_should_passthrough_anthropic_request_and_track_cost;
     test_should_forward_auth_headers_to_upstream; test_should_propagate_upstream_errors;
     test_should_skip_disabled_channels; test_should_error_when_all_channels_unhealthy;
     test_should_failover_to_backup_on_primary_unhealthy; seeded_names_never_fail_over;
     aliases_are_read_at_start; forced_protocol_stays; rejections] = true.
Proof. vm_compute. reflexivity. Qed.
